(* ===== verification/_CoqProject ===== *)
-Q . S2P
Prelude.v
Bitops.v
Errors.v
Byteorder.v
ConfigData.v
Usage.v
Layout.v
Config.v
ConfigSpec.v
Conn.v
Stage.v
Double.v
Report.v
Thread.v
Net.v
NetSpec.v
Talk.v
Quiet.v
TalkSpec.v
TalkRounds.v
TalkComplete.v
TalkCrew.v
TalkFail.v
Barrier.v
Process.v
ProcessSpec.v
Typed.v
TypedRun.v
Crew.v
CrewSpec.v
CrewAgree.v
CrewRun.v
CrewAccess.v
Current.v
CurrentSpec.v
CurrentSafety.v
Worker.v
Pthread.v
Locks.v
Format.v
Datetime.v
Json.v
Output.v
OutputSpec.v
Runtime.v
Lifecycle.v
Debug.v
Help.v
Main.v
Life.v
