(* ===== verification/Prelude.v ===== *)
(** * ubwt: a model of the bandwidth tester and its verification

    ubwt measures the bandwidth between two hosts.  One end listens, the other
    connects; each end runs one or more worker threads, every worker of one end is
    connected to one of the other, and the two talk: a handshake that measures the
    latency, then rounds in which the sender sends a number of packets and the
    receiver takes the time, repeated with more packets while a stream is too short,
    then the exchange of the figures.  The straight direction is from the connector to
    the listener; the reverse direction, both, and both at once (asynchronous mode)
    are options.  The main thread creates the workers, waits for them, combines their
    figures and prints or exports the results.

    All paths below are of the repository's [src/] and [include/].

    ** The parts and their files

    - Bitops.v ([bitops.c]): flag words.
    - Errors.v ([error.c], [error.h]): the message table, [error_handler], and how the
      process ends ([stop]): with a status, by [error_abort], or at an assertion.
    - Byteorder.v, Layout.v ([net.h] and the packed structures): the bytes of integers
      and structures in the memory of a host of either endianness, and on the wire.
    - ConfigData.v, Usage.v, Config.v, ConfigSpec.v ([config.h], [config.c],
      [usage.c], the stream of [debug.c]): the macros of a build ([build]) and their
      normalisation, [struct ubwt_config], the options as [getopt] returns them
      ([cmdopt]), their checks, [config_init]; what it establishes ([config_wf]).
    - Conn.v ([conn.h], [conn.c]): the payload the two ends of a connection compare.
    - Stage.v ([stage.c]); Double.v, Report.v ([report.c]): the figures of a test, their
      exchange, combination and the results computed from them in binary64.
    - Thread.v ([current.h], [datetime.c]): the state of one thread
      ([struct ubwt_current], record [ubwt_current]), and the monad [M] in which the
      code that calls the system runs.  What the system answers - the bytes that
      arrive, the bytes that are accepted, the results of other calls, the clock, what
      the other workers do until a barrier opens - are scripts in the record [thread];
      what the thread wrote, called and logged is recorded there too.
    - Net.v, NetSpec.v ([net.c]); Talk.v, Quiet.v, TalkSpec.v, TalkRounds.v, TalkComplete.v,
      TalkCrew.v, TalkFail.v ([talk.c]; Quiet.v: what leaves the contexts alone); Process.v, ProcessSpec.v ([process.c], the set-up of
      [worker.c]); Typed.v, TypedRun.v: a worker's run, from the connection to its end.
    - Crew.v, CrewSpec.v, CrewAgree.v, CrewRun.v, CrewAccess.v ([talk.c], [worker.c]): any
      number of workers of an end, interleaved at the grain of their accesses to the talk
      contexts they share and of the barriers.  [accesses] lists the variables each action
      reads and writes, and under which mutex; CrewAccess.v shows that it lists all of
      them, and that [talk_sender] and [talk_receiver] of Talk.v are walks of one worker
      of Crew.v: the same barriers, the same uses of the mutex, the same contexts.
    - Barrier.v ([worker.c]): the program's own barrier, a transition system of any
      number of threads.
    - Current.v, CurrentSpec.v, CurrentSafety.v ([current.c]): the doubly linked list
      of the threads, as a store of nodes and pointers; Worker.v ([worker.c]): creating,
      joining and cancelling workers over that list; Pthread.v ([worker.c]): the wrappers
      of the pthread library and the objects they are used on; Locks.v: the functions on
      the list with the mutexes they take.
    - Format.v, Json.v, Output.v, OutputSpec.v ([report.c], [process_report]): what is
      printed and exported, with the conversions of [printf] and a parser of JSON.
    - Runtime.v ([runtime.c]): the plan of the main thread and its waits.  Lifecycle.v:
      the plan carried out on the list of threads, while the workers come and go in it;
      every call of the main thread that may fail is answered by the event of its action
      ([answers]), and a worker may end the process ([Fails]).
    - Main.v ([main.c]): [_construct] and [_destruct], with a logic of the descriptors
      a computation opens and closes.  Life.v: [main], with Lifecycle.v in between.
    - Datetime.v ([datetime.c]): the time stamps, on the bytes of their buffer.
    - Debug.v ([debug.c]): the lines of the debug output.  Help.v ([usage.c]): the help
      screen of every build, with the arguments of its format.

    Every definition has the name of what it models where there is one; a C structure
    is a record with its fields, an enumeration an inductive type with a function to
    its values, a function that may fail returns [res], [option], [M] or [mem].
    Integers are [Z] with the conversion of every store written out ([wrap], [sint]).

    ** How the parts meet

    [config_wf] is what the rest of the program is told of a configuration: the
    theorems about connections, barriers, buffers, plans and runs suppose it, and
    [config_init_wf] discharges it.  The transfer loops are used through what they
    promise ([net_read_chunking], [net_write_complete] and the lemmas behind them), so
    the theorems about talks do not depend on how the bytes were cut.  The talk is
    proved against two lists of messages ([sender_talk], [receiver_talk]); ProcessSpec.v
    joins the two ends by giving each the bytes the other sends.  The barriers of a talk
    are steps of the script of a thread: TalkComplete.v follows any script, and TalkCrew.v
    writes down those of a crew, the marks of the other workers before and after one's own.
    What the workers of an end do to one another between two barriers is in Crew.v, whose barriers open when all have come; Barrier.v
    shows that the program's barrier does that, and [Process.worker_barriers_fit] that
    each is sized for those that use it.  The main thread sees the workers through the
    flags in the list of threads: Lifecycle.v runs the plan of [plan_is] on the list, with
    what CurrentSpec.v and Worker.v prove of each operation ([children_has_flag_counts],
    [join_spec], [fork_spec]), and Life.v puts [_construct] and [_destruct] around it.
    Locks.v shows that the same operations, with their mutexes, never fail in them, so that
    they may be taken as steps.

    ** The theorems

    - A whole test: [workers_complete] (two ends of builds with the same packing, over TCP
      and without a payload file, complete and agree, for any chunks, endianness and
      counts of packets in their range) and [crew_talk_completes] (so does the talk of
      every pair of workers among any number, in both modes, while the counts stay in
      their range);
      [process_run_type_safe] (whatever the peer, the system and the other workers do,
      a worker stays in the ranges of its C types, ends only in known ways, and waits
      only for input); [failure_reaches_peer] (over TCP, a failure at one end ends the
      other where it waits for it).
    - The workers of an end: [crew_agrees] (all take the same decision about every round),
      [ends_agree] (and so do the two ends), [crew_counts] (they send the same number of
      packets), [contexts_race_free] (two workers that can access the same variable, one
      of them to store, both hold the mutex), [accesses_sound] (there are no other
      accesses), [crew_progress] (none waits for ever for another), [talk_accesses] (the
      code of Talk.v takes the steps of Crew.v).
    - Threads: the three theorems of Barrier.v; [worker_creation]; [lookup_during_insertions]
      (a thread finds its structure, without a lock, while others are inserted); [threads_memory_safe] (the list and what is freed);
      [locks_follow_threads] and [worker_objects] (mutexes, conditions and barriers are
      used as specified).
    - The main thread: [runtime_plan], [wait_ends]; [team_joins_all] and [team_progress]
      (the plan against the workers, in any order: unless a call of the system fails or a
      worker ends the process, nothing fails and all are joined; it ends unless a wait
      misses the workers); [program_ends] (from [_construct] to [_destruct], likewise:
      every descriptor that was opened is closed).
    - Configuration: [config_init_wf]; also the options whose checks disagree.
    - Network and connection: chunking, agreement, negotiation, byte order.
    - Results: the exchange, the combination, the computed figures,
      and [exported_json] (the exported file is JSON exactly when the straight
      direction is reported).
    - The help: [help_fits_build] (format, arguments and options fit in every build).
    - Errors, bit operations and time stamps.

    ** Bounds and fuel

    The loops over scripts take the length of the script, or one or two more, as fuel:
    every turn uses up an entry.  The rounds of a talk take one more than the number of
    bytes and events of the input, since every round receives.  That this is enough is
    part of [process_run_type_safe]: a worker is [Blocked] only with an empty input.
    Walks of the thread list take one more than the number of structures and are shown
    never to run out.  [wait_loop] is given any fuel above the number of polls that
    fail.  Lifecycle.v has no fuel: a run is a list of events, of which only a bounded
    number are actions ([team_progress]).  [dec] takes the binary length of its argument, the JSON parser the length of
    the text.  A run of the barrier has a proved bound on its steps.

    ** Not modelled

    - [net_sockaddr_ntop], which is a call of [inet_ntop].
    - [main] of a build without threads, where the main thread runs [process_run] itself.
      In Lifecycle.v [process_report] is what it does to the list and whether the file of
      the results can be opened; its output is in Output.v.
    - The Windows branches and the build scripts.
    - [workers_complete], with the connection and several directions, is for one worker a
      side.  [crew_talk_completes] is for any number, but takes what the others do at the
      barriers as scripts; that the runs of Crew.v give such scripts is not proved.
      Over UDP packets may be lost and a completed talk is not promised.
    - The mutex and condition functions are taken to succeed outside Pthread.v, where they
      may fail; when they do the wrappers abort.
    - The memory the threads share is seen in the order of the program.  Where the code
      shares it without a mutex the model has one access at a time: the links of the list
      ([lookup_during_insertions]), the flags the main thread reads, the time.  Every
      worker's [talk_init] clears the contexts before its first barrier without a mutex;
      Crew.v begins at that barrier.
    - The calls of [talk_sender] and [talk_receiver] that show the addresses of a
      connection on the debug stream are in Debug.v and are not made in Talk.v; they only
      write that line, or log a warning when [inet_ntop] fails.
    - The conversions of [printf] in Format.v are the C library's.  [report_worker_combine]
      divides by half the number of workers in asynchronous mode; that is 0 only for a
      single one, which [config_wf] excludes.
    - Undefined accesses are values ([Undefined]) in the models of the list and of the
      output; reading through the null result pointer of a report is excluded by the
      order of calls and not modelled. *)

From Stdlib Require Export Ascii.
From stdpp Require Export base tactics list gmap strings numbers.
From coqutil Require Export Datatypes.RecordSetters.
From Stdlib Require Export ZArith Lia.

Export DoubleBraceUpdate.

(** Let [simpl] see through record updates. *)
#[global] Arguments constant {E} newValue _ /.

#[export] Set Default Goal Selector "!".
Open Scope Z_scope.

(** * Machine integers

    A [w]-bit unsigned integer is a [Z] in [0, 2^w); a conversion to the
    type (an assignment, a cast, an arithmetic result) is [wrap w].  A signed
    [w]-bit integer is a [Z] in [-2^(w-1), 2^(w-1)); [sint w] is the
    two's-complement conversion. *)

Definition wrap (w z : Z) : Z := z mod 2 ^ w.

Definition sint (w z : Z) : Z := (z + 2 ^ (w - 1)) mod 2 ^ w - 2 ^ (w - 1).

Definition unsigned (w z : Z) : Prop := 0 <= z < 2 ^ w.

Abbreviation u8 := (unsigned 8).
Abbreviation u16 := (unsigned 16).
Abbreviation u32 := (unsigned 32).
Abbreviation u64 := (unsigned 64).

#[export] Instance unsigned_dec (w z : Z) : Decision (unsigned w z).
Proof. unfold unsigned. apply _. Defined.

(** A C truth value: any non-zero integer is true. *)
Definition truth (z : Z) : bool := negb (z =? 0).

Definition Zb (b : bool) : Z := if b then 1 else 0.

(** * Bytes in memory

    A byte is a [Z] in [0, 256).  [le_bytes n z] is the little-endian encoding
    of [z] on [n] bytes and [le_val] reads one back; [mem_bytes big] and
    [mem_val big] are the encodings of a host of the given endianness. *)

Fixpoint le_bytes (n : nat) (z : Z) : list Z :=
  match n with
  | O => []
  | S n' => z mod 256 :: le_bytes n' (z / 256)
  end.

Fixpoint le_val (bs : list Z) : Z :=
  match bs with
  | [] => 0
  | b :: bs' => b + 256 * le_val bs'
  end.

Definition be_bytes (n : nat) (z : Z) : list Z := rev (le_bytes n z).

Definition be_val (bs : list Z) : Z := le_val (rev bs).

Definition mem_bytes (big : bool) (n : nat) (z : Z) : list Z :=
  if big then be_bytes n z else le_bytes n z.

Definition mem_val (big : bool) (bs : list Z) : Z :=
  if big then be_val bs else le_val bs.

Definition is_bytes (bs : list Z) : Prop := Forall u8 bs.

(** * Tactics *)

(** Split conjunctions of the goal and of the context, and substitute. *)
Ltac split_all :=
  repeat match goal with
  | H : _ /\ _ |- _ => destruct H
  | H : exists _, _ |- _ => destruct H
  | |- _ /\ _ => split
  end.

(** Turn the boolean comparisons of the context and the goal into
    propositions. *)
Ltac to_prop :=
  repeat match goal with
  | H : (_ && _)%bool = true |- _ => apply andb_true_iff in H as [? ?]
  | H : (_ || _)%bool = false |- _ => apply orb_false_iff in H as [? ?]
  | H : negb _ = true |- _ => apply negb_true_iff in H
  | H : negb _ = false |- _ => apply negb_false_iff in H
  | H : (_ =? _)%Z = true |- _ => apply Z.eqb_eq in H
  | H : (_ =? _)%Z = false |- _ => apply Z.eqb_neq in H
  | H : (_ <? _)%Z = true |- _ => apply Z.ltb_lt in H
  | H : (_ <? _)%Z = false |- _ => apply Z.ltb_ge in H
  | H : (_ <=? _)%Z = true |- _ => apply Z.leb_le in H
  | H : (_ <=? _)%Z = false |- _ => apply Z.leb_gt in H
  end.

(** Case analysis on the first [if] or [match] scrutinee of the goal. *)
Ltac step_if :=
  match goal with
  | |- context [if ?b then _ else _] => destruct b eqn:?
  | |- context [match ?x with _ => _ end] => destruct x eqn:?
  end.

Ltac step_if_in H :=
  match type of H with
  | context [if ?b then _ else _] => destruct b eqn:?
  | context [match ?x with _ => _ end] => destruct x eqn:?
  end.

(** * Lemmas on machine integers *)

Lemma wrap_range (w z : Z) : 0 <= w -> unsigned w (wrap w z).
Proof. intros Hw. apply Z.mod_pos_bound. by apply Z.pow_pos_nonneg. Qed.

Lemma wrap_small (w z : Z) : unsigned w z -> wrap w z = z.
Proof. intros H. by apply Z.mod_small. Qed.

Lemma wrap_idemp (w z : Z) : wrap w (wrap w z) = wrap w z.
Proof. apply Zmod_mod. Qed.

Lemma wrap_testbit (w z i : Z) :
  0 <= w -> Z.testbit (wrap w z) i = (i <? w) && Z.testbit z i.
Proof.
  intros Hw. unfold wrap. destruct (Z.ltb_spec i w) as [Hi|Hi]; simpl.
  - destruct (Z.neg_nonneg_cases i) as [Hn|Hn].
    + by rewrite !Z.testbit_neg_r.
    + by rewrite Z.mod_pow2_bits_low.
  - by rewrite Z.mod_pow2_bits_high.
Qed.

Lemma unsigned_weaken (w w' z : Z) : w <= w' -> 0 <= w -> unsigned w z -> unsigned w' z.
Proof.
  unfold unsigned. intros Hw Hw0 Hz.
  assert (2 ^ w <= 2 ^ w') by (apply Z.pow_le_mono_r; lia). lia.
Qed.

(** A value is below [2^w] when none of its bits from [w] up is set. *)
Lemma unsigned_bits (w z : Z) :
  0 <= w -> 0 <= z ->
  (forall i, w <= i -> Z.testbit z i = false) -> unsigned w z.
Proof.
  intros Hw Hz Hbits.
  assert (z = wrap w z) as ->; [|by apply wrap_range].
  apply Z.bits_inj'. intros i Hi. rewrite wrap_testbit by done.
  destruct (Z.ltb_spec i w); [done|]. by apply Hbits.
Qed.

Lemma unsigned_high_bit (w z i : Z) :
  0 <= w -> unsigned w z -> w <= i -> Z.testbit z i = false.
Proof.
  intros Hw Hz Hi. rewrite <- (wrap_small w z Hz), wrap_testbit by done.
  destruct (Z.ltb_spec i w); [lia|done].
Qed.

(** Or-ing a low part into a shifted word adds it. *)
Lemma lor_mul_pow2 (n a b : Z) :
  0 <= n -> unsigned n b -> Z.lor (a * 2 ^ n) b = a * 2 ^ n + b.
Proof.
  intros Hn Hb.
  assert (Z.land (a * 2 ^ n) b = 0) as Hdisj.
  { apply Z.bits_inj'. intros i Hi. rewrite Z.land_spec, Z.bits_0.
    destruct (Z.lt_ge_cases i n).
    - by rewrite Z.mul_pow2_bits_low.
    - rewrite (unsigned_high_bit n b i) by done. apply andb_false_r. }
  rewrite <- Z.lxor_lor by done. symmetry. by apply Z.add_nocarry_lxor.
Qed.

Lemma truth_spec (z : Z) : truth z = true <-> z <> 0.
Proof. unfold truth. rewrite negb_true_iff, Z.eqb_neq. done. Qed.

Lemma land_1_truth (n : Z) : truth (Z.land n 1) = Z.odd n.
Proof.
  change 1 with (Z.ones 1). rewrite Z.land_ones by lia. rewrite Zmod_odd.
  by destruct (Z.odd n).
Qed.

Lemma truth_Zb (b : bool) : truth (Zb b) = b.
Proof. by destruct b. Qed.

(** * Lemmas on bytes *)

Lemma length_le_bytes n z : length (le_bytes n z) = n.
Proof. revert z. induction n as [|n IH]; intros z; simpl; [done|]. by rewrite IH. Qed.

Lemma length_be_bytes n z : length (be_bytes n z) = n.
Proof. unfold be_bytes. rewrite length_rev. apply length_le_bytes. Qed.

Lemma length_mem_bytes big n z : length (mem_bytes big n z) = n.
Proof. destruct big; simpl; [apply length_be_bytes|apply length_le_bytes]. Qed.

Lemma le_bytes_range n z : is_bytes (le_bytes n z).
Proof.
  revert z. induction n as [|n IH]; intros z; simpl; constructor; [|apply IH].
  by apply Z.mod_pos_bound.
Qed.

Lemma mem_bytes_range big n z : is_bytes (mem_bytes big n z).
Proof.
  destruct big; simpl; [|apply le_bytes_range].
  unfold be_bytes, is_bytes. apply Forall_rev, le_bytes_range.
Qed.

Lemma pow2_8S (n : nat) : 2 ^ (8 * Z.of_nat (S n)) = 256 * 2 ^ (8 * Z.of_nat n).
Proof.
  rewrite Nat2Z.inj_succ, Z.mul_succ_r, Z.pow_add_r by lia. lia.
Qed.

Lemma le_val_le_bytes n z : le_val (le_bytes n z) = wrap (8 * Z.of_nat n) z.
Proof.
  revert z. induction n as [|n IH]; intros z; simpl le_bytes; simpl le_val.
  - unfold wrap. simpl. by rewrite Z.mod_1_r.
  - rewrite IH. unfold wrap. rewrite pow2_8S.
    rewrite Z.rem_mul_r; [lia|lia|]. apply Z.pow_pos_nonneg; lia.
Qed.

Lemma le_bytes_le_val bs n :
  is_bytes bs -> length bs = n -> le_bytes n (le_val bs) = bs.
Proof.
  intros Hbs <-. induction Hbs as [|b bs Hb _ IH]; simpl; [done|].
  unfold unsigned in Hb.
  rewrite (Z.mul_comm 256), Z_mod_plus_full, Z.mod_small by lia.
  rewrite Z.div_add, Z.div_small, Z.add_0_l, IH by lia. done.
Qed.

Lemma le_val_range bs : is_bytes bs -> unsigned (8 * Z.of_nat (length bs)) (le_val bs).
Proof.
  induction 1 as [|b bs Hb _ IH]; [done|]. simpl le_val. simpl length.
  unfold unsigned in *. rewrite pow2_8S. lia.
Qed.

Lemma mem_val_mem_bytes big n z : mem_val big (mem_bytes big n z) = wrap (8 * Z.of_nat n) z.
Proof.
  destruct big; simpl; [|apply le_val_le_bytes].
  unfold be_val, be_bytes. rewrite rev_involutive. apply le_val_le_bytes.
Qed.

Lemma mem_bytes_mem_val big n bs :
  is_bytes bs -> length bs = n -> mem_bytes big n (mem_val big bs) = bs.
Proof.
  intros Hbs Hn. destruct big; simpl; [|by apply le_bytes_le_val].
  unfold be_bytes, be_val. rewrite le_bytes_le_val.
  - apply rev_involutive.
  - by apply Forall_rev.
  - by rewrite length_rev.
Qed.

Lemma mem_val_range big bs :
  is_bytes bs -> unsigned (8 * Z.of_nat (length bs)) (mem_val big bs).
Proof.
  intros H. destruct big; simpl; [|by apply le_val_range].
  unfold be_val. rewrite <- length_rev. by apply le_val_range, Forall_rev.
Qed.

Lemma mem_val_unsigned big w bs :
  is_bytes bs -> w = 8 * Z.of_nat (length bs) -> unsigned w (mem_val big bs).
Proof. intros H ->. by apply mem_val_range. Qed.

(** Distinct values of the width have distinct encodings. *)
Lemma mem_bytes_inj big n z z' :
  unsigned (8 * Z.of_nat n) z -> unsigned (8 * Z.of_nat n) z' ->
  mem_bytes big n z = mem_bytes big n z' -> z = z'.
Proof.
  intros Hz Hz' H%(f_equal (mem_val big)).
  by rewrite !mem_val_mem_bytes, !wrap_small in H.
Qed.

Lemma le_bytes_app (n m : nat) (z : Z) :
  le_bytes (n + m) z = le_bytes n z ++ le_bytes m (z / 2 ^ (8 * Z.of_nat n)).
Proof.
  revert z. induction n as [|n IH]; intros z.
  - simpl. by rewrite Z.div_1_r.
  - rewrite pow2_8S. simpl. rewrite IH, Z.div_div by (try apply Z.pow_nonneg; lia). done.
Qed.

Lemma le_bytes_wrap (n : nat) (z : Z) : le_bytes n (wrap (8 * Z.of_nat n) z) = le_bytes n z.
Proof.
  rewrite <- le_val_le_bytes. apply le_bytes_le_val; [apply le_bytes_range|].
  apply length_le_bytes.
Qed.

Lemma le_val_app (bs cs : list Z) :
  le_val (bs ++ cs) = le_val bs + 2 ^ (8 * Z.of_nat (length bs)) * le_val cs.
Proof.
  induction bs as [|b bs IH]; [simpl; lia|].
  simpl le_val. simpl length. rewrite pow2_8S, IH. lia.
Qed.

(** The encodings stay folded under [simpl]. *)
#[global] Arguments le_bytes : simpl never.
#[global] Arguments be_bytes : simpl never.
#[global] Arguments le_val : simpl never.
#[global] Arguments mem_bytes : simpl never.
#[global] Arguments wrap : simpl never.
#[global] Arguments sint : simpl never.

(** * Hints *)

Create HintDb ubwt.
#[export] Hint Resolve wrap_range mem_bytes_range le_bytes_range : ubwt.
#[export] Hint Extern 1 (0 <= _)%Z => lia : ubwt.
Create Rewrite HintDb ubwt_len.
#[export] Hint Rewrite length_le_bytes length_be_bytes length_mem_bytes : ubwt_len.
