(* ===== verification/Bitops.v ===== *)
(** Bit operations on 32-bit flag words: src/bitops.c.

    [1 << n] is computed in [int], so the word operations convert a signed
    shift result back to [uint32_t].  The shift is defined in C for [n] below
    31 (and yields the sign bit for 31 on the supported compilers); the flags of
    the program are enum constants below 16. *)

From S2P Require Import Prelude.

(** [1 << n] in [int]. *)
Definition one_shl (n : Z) : Z := sint 32 (Z.shiftl 1 n).

Definition bit_flag (n : Z) : Z := wrap 32 (one_shl n).

Definition bit_set (dword n : Z) : Z := Z.lor dword (wrap 32 (one_shl n)).

Definition bit_clear (dword n : Z) : Z := Z.land dword (wrap 32 (Z.lnot (one_shl n))).

Definition bit_wipe (dword : Z) : Z := 0.

Definition bit_toggle (dword n : Z) : Z := Z.lxor dword (wrap 32 (one_shl n)).

Definition bit_test (dword n : Z) : Z := Z.land dword (wrap 32 (one_shl n)).

(** ** The abstract view: a word is a set of flag numbers. *)

Definition flags (dword : Z) : gset Z :=
  list_to_set (filter (fun i => Z.testbit dword i = true) (seqZ 0 32)).

Lemma one_shl_testbit n i :
  0 <= n < 32 -> 0 <= i < 32 -> Z.testbit (one_shl n) i = (i =? n).
Proof.
  intros Hn Hi. unfold one_shl.
  assert (0 <= n < 31 \/ n = 31) as [Hn'| ->] by lia.
  - assert (sint 32 (Z.shiftl 1 n) = Z.shiftl 1 n) as ->.
    { unfold sint. rewrite Z.shiftl_1_l.
      assert (2 ^ n <= 2 ^ 30) by (apply Z.pow_le_mono_r; lia).
      assert (0 < 2 ^ n) by (apply Z.pow_pos_nonneg; lia).
      rewrite Z.mod_small by lia. lia. }
    rewrite Z.shiftl_1_l. destruct (Z.eqb_spec i n) as [->|Hne].
    + apply Z.pow2_bits_true; lia.
    + apply Z.pow2_bits_false. lia.
  - change (sint 32 (Z.shiftl 1 31)) with (- 2 ^ 31).
    rewrite Z.bits_opp by lia. change (Z.pred (2 ^ 31)) with (Z.ones 31).
    rewrite Z.testbit_ones by lia. destruct (Z.eqb_spec i 31) as [->|Hne]; [done|].
    rewrite (proj2 (Z.ltb_lt i 31)) by lia. rewrite (proj2 (Z.leb_le 0 i)) by lia. done.
Qed.

Lemma shl_mask_testbit n i :
  0 <= n < 32 -> 0 <= i -> Z.testbit (wrap 32 (one_shl n)) i = (i =? n).
Proof.
  intros Hn Hi. rewrite wrap_testbit by lia.
  destruct (Z.ltb_spec i 32); simpl.
  - apply one_shl_testbit; lia.
  - symmetry. apply Z.eqb_neq. lia.
Qed.

Lemma bit_set_testbit d n i :
  0 <= n < 32 -> 0 <= i -> Z.testbit (bit_set d n) i = (i =? n) || Z.testbit d i.
Proof.
  intros Hn Hi. unfold bit_set. rewrite Z.lor_spec, shl_mask_testbit by done.
  apply orb_comm.
Qed.

Lemma bit_clear_testbit d n i :
  0 <= n < 32 -> 0 <= i -> u32 d ->
  Z.testbit (bit_clear d n) i = negb (i =? n) && Z.testbit d i.
Proof.
  intros Hn Hi Hd. unfold bit_clear. rewrite Z.land_spec, wrap_testbit by lia.
  destruct (Z.ltb_spec i 32) as [Hlt|Hge]; simpl.
  - rewrite Z.lnot_spec, one_shl_testbit by lia. apply andb_comm.
  - rewrite (unsigned_high_bit 32 d i) by (done || lia). by rewrite !andb_false_r.
Qed.

Lemma bit_toggle_testbit d n i :
  0 <= n < 32 -> 0 <= i -> Z.testbit (bit_toggle d n) i = xorb (Z.testbit d i) (i =? n).
Proof. intros Hn Hi. unfold bit_toggle. by rewrite Z.lxor_spec, shl_mask_testbit. Qed.

Lemma bit_test_true d n : 0 <= n < 32 -> truth (bit_test d n) = Z.testbit d n.
Proof.
  intros Hn. apply eq_true_iff_eq. rewrite truth_spec. unfold bit_test. split.
  - intros Hne. destruct (Z.testbit d n) eqn:Hb; [done|]. exfalso. apply Hne.
    apply Z.bits_inj'. intros i Hi. rewrite Z.land_spec, shl_mask_testbit, Z.bits_0 by done.
    destruct (Z.eqb_spec i n) as [->|]; [by rewrite Hb|apply andb_false_r].
  - intros Hb H0. assert (Z.testbit (Z.land d (wrap 32 (one_shl n))) n = true) as Ht.
    { rewrite Z.land_spec, shl_mask_testbit, Hb, Z.eqb_refl by lia. done. }
    by rewrite H0, Z.bits_0 in Ht.
Qed.

Lemma shl_mask_u32 n : u32 (wrap 32 (one_shl n)).
Proof. by apply wrap_range. Qed.

(** A bitwise operation that keeps the high bits clear stays in range. *)
Lemma bit_set_u32 d n : u32 d -> u32 (bit_set d n).
Proof.
  intros Hd. pose proof (shl_mask_u32 n) as Hm. apply unsigned_bits; [lia| |].
  - apply Z.lor_nonneg. unfold unsigned in *. lia.
  - intros i Hi. unfold bit_set. rewrite Z.lor_spec.
    by rewrite (unsigned_high_bit 32 d i), (unsigned_high_bit 32 (wrap 32 (one_shl n)) i) by (done || lia).
Qed.

Lemma bit_clear_u32 d n : u32 d -> u32 (bit_clear d n).
Proof.
  intros Hd. apply unsigned_bits; [lia| |].
  - apply Z.land_nonneg. left. unfold unsigned in Hd. lia.
  - intros i Hi. unfold bit_clear. rewrite Z.land_spec.
    by rewrite (unsigned_high_bit 32 d i) by (done || lia).
Qed.

Lemma bit_toggle_u32 d n : u32 d -> u32 (bit_toggle d n).
Proof.
  intros Hd. pose proof (shl_mask_u32 n) as Hm. apply unsigned_bits; [lia| |].
  - apply Z.lxor_nonneg. unfold unsigned in *. lia.
  - intros i Hi. unfold bit_toggle. rewrite Z.lxor_spec.
    by rewrite (unsigned_high_bit 32 d i), (unsigned_high_bit 32 (wrap 32 (one_shl n)) i) by (done || lia).
Qed.

Lemma elem_of_flags d i : i ∈ flags d <-> 0 <= i < 32 /\ Z.testbit d i = true.
Proof.
  unfold flags. rewrite elem_of_list_to_set, list_elem_of_filter, elem_of_seqZ. naive_solver lia.
Qed.

(** Flag words are determined by their flag sets. *)
Lemma flags_inj d d' : u32 d -> u32 d' -> flags d = flags d' -> d = d'.
Proof.
  intros Hd Hd' Heq. apply Z.bits_inj'. intros i Hi.
  destruct (Z.lt_ge_cases i 32) as [Hlt|Hge].
  - apply eq_true_iff_eq. pose proof (elem_of_flags d i). pose proof (elem_of_flags d' i).
    rewrite Heq in *. naive_solver.
  - by rewrite !(unsigned_high_bit 32) by (done || lia).
Qed.

(** C38: the word operations of src/bitops.c implement a set of flag numbers:
    on any [uint32_t] word and any flag below 32, set, clear and toggle insert,
    remove and flip exactly that flag, wipe removes them all, and a test is
    non-zero exactly when the flag is in the set; every result is again a
    [uint32_t]. *)
Theorem bitops_implement_sets (d n : Z) :
  u32 d -> 0 <= n < 32 ->
  (u32 (bit_set d n) /\ flags (bit_set d n) = {[n]} ∪ flags d) /\
  (u32 (bit_clear d n) /\ flags (bit_clear d n) = flags d ∖ {[n]}) /\
  (u32 (bit_toggle d n) /\
   flags (bit_toggle d n) = if decide (n ∈ flags d) then flags d ∖ {[n]} else {[n]} ∪ flags d) /\
  (u32 (bit_flag n) /\ flags (bit_flag n) = {[n]}) /\
  flags (bit_wipe d) = ∅ /\
  (bit_test d n <> 0 <-> n ∈ flags d).
Proof.
  intros Hd Hn. split_and!; eauto using bit_set_u32, bit_clear_u32, bit_toggle_u32, shl_mask_u32.
  - apply set_eq. intros i. rewrite elem_of_union, elem_of_singleton, !elem_of_flags.
    destruct (decide (0 <= i)); [|naive_solver lia]. rewrite bit_set_testbit by done.
    rewrite orb_true_iff, Z.eqb_eq. naive_solver lia.
  - apply set_eq. intros i. rewrite elem_of_difference, elem_of_singleton, !elem_of_flags.
    destruct (decide (0 <= i)); [|naive_solver lia]. rewrite bit_clear_testbit by done.
    rewrite andb_true_iff, negb_true_iff, Z.eqb_neq. naive_solver lia.
  - pose proof (elem_of_flags d n) as Hin. apply set_eq. intros i. rewrite elem_of_flags.
    destruct (decide (0 <= i)); [rewrite bit_toggle_testbit by done|].
    + case_decide as Hdec;
        rewrite ?elem_of_difference, ?elem_of_union, ?elem_of_singleton, ?elem_of_flags;
        destruct (Z.eqb_spec i n), (Z.testbit d i) eqn:?; subst; simpl; intuition congruence.
    + split; [intuition lia|].
      case_decide; rewrite ?elem_of_difference, ?elem_of_union, ?elem_of_singleton, ?elem_of_flags;
        intuition lia.
  - apply set_eq. intros i. rewrite elem_of_singleton, elem_of_flags. unfold bit_flag.
    destruct (decide (0 <= i)); [|naive_solver lia]. rewrite shl_mask_testbit by done.
    rewrite Z.eqb_eq. naive_solver lia.
  - rewrite <- truth_spec, bit_test_true, elem_of_flags by done. naive_solver.
Qed.

Lemma bitops_implement_sets_witness :
  flags (bit_set (bit_flag 4) 6) = {[6]} ∪ flags (bit_flag 4).
Proof.
  assert (u32 (bit_flag 4)) as Hd by (split; vm_compute; congruence).
  assert (0 <= 6 < 32) as Hn by lia.
  exact (proj2 (proj1 (bitops_implement_sets (bit_flag 4) 6 Hd Hn))).
Defined.
