(* ===== verification/Errors.v ===== *)
(** Error reporting: include/error.h and src/error.c.

    The error types, levels and message table, [error_handler] with its format
    expansion, and the result monad in which the fallible code of the program
    is written: a call either returns or stops the process. *)

From S2P Require Import Prelude.

Inductive ubwt_error_type_t :=
| UBWT_ERROR_TYPE_NO_ERROR
| UBWT_ERROR_TYPE_CURRENT_FORK_FAILED
| UBWT_ERROR_TYPE_CONFIG_ARGV_1_INVALID
| UBWT_ERROR_TYPE_CONFIG_ARGV_2_INVALID
| UBWT_ERROR_TYPE_CONFIG_ARGV_OPT_INVALID
| UBWT_ERROR_TYPE_CONFIG_ARGV_OPTARG_INVALID
| UBWT_ERROR_TYPE_CONFIG_CONSISTENCY_FAILED
| UBWT_ERROR_TYPE_TIME_GET
| UBWT_ERROR_TYPE_NET_INIT
| UBWT_ERROR_TYPE_NET_INVALID_PROTO
| UBWT_ERROR_TYPE_NET_ADDRINFO
| UBWT_ERROR_TYPE_NET_REUSEADDR_FAILED
| UBWT_ERROR_TYPE_NET_REUSEPORT_FAILED
| UBWT_ERROR_TYPE_NET_RECV_TIMEO_SET
| UBWT_ERROR_TYPE_NET_SEND_FAILED
| UBWT_ERROR_TYPE_NET_RECV_FAILED
| UBWT_ERROR_TYPE_NET_CONNECT
| UBWT_ERROR_TYPE_NET_LISTEN
| UBWT_ERROR_TYPE_NET_ACCEPT
| UBWT_ERROR_TYPE_TALK_SENDER_INIT
| UBWT_ERROR_TYPE_TALK_RECEIVER_INIT
| UBWT_ERROR_TYPE_TALK_SEND_FAILED
| UBWT_ERROR_TYPE_TALK_RECV_FAILED
| UBWT_ERROR_TYPE_TALK_HANDSHAKE_NOMATCH
| UBWT_ERROR_TYPE_TALK_HANDSHAKE_FAILED
| UBWT_ERROR_TYPE_TALK_NEGOTIATION_FAILED
| UBWT_ERROR_TYPE_TALK_STREAM_FAILED
| UBWT_ERROR_TYPE_TALK_REPORT_EXCHANGE_FAILED
| UBWT_ERROR_TYPE_TALK_FINISH_FAILED
| UBWT_ERROR_TYPE_REPORT_CONNECTION_FAILED
| UBWT_ERROR_TYPE_REPORT_JSON_FILE_FAILED
| UBWT_ERROR_TYPE_WORKER_CREATE_FAILED.

#[export] Instance ubwt_error_type_eq_dec : EqDecision ubwt_error_type_t.
Proof. solve_decision. Defined.

Inductive ubwt_error_level_t :=
| UBWT_ERROR_LEVEL_INFO
| UBWT_ERROR_LEVEL_WARNING
| UBWT_ERROR_LEVEL_CRITICAL
| UBWT_ERROR_LEVEL_FATAL.

#[export] Instance ubwt_error_level_eq_dec : EqDecision ubwt_error_level_t.
Proof. solve_decision. Defined.

(** The values the C enum gives its constructors. *)
Definition error_type_value (t : ubwt_error_type_t) : nat :=
  match t with
  | UBWT_ERROR_TYPE_NO_ERROR => 0
  | UBWT_ERROR_TYPE_CURRENT_FORK_FAILED => 1
  | UBWT_ERROR_TYPE_CONFIG_ARGV_1_INVALID => 2
  | UBWT_ERROR_TYPE_CONFIG_ARGV_2_INVALID => 3
  | UBWT_ERROR_TYPE_CONFIG_ARGV_OPT_INVALID => 4
  | UBWT_ERROR_TYPE_CONFIG_ARGV_OPTARG_INVALID => 5
  | UBWT_ERROR_TYPE_CONFIG_CONSISTENCY_FAILED => 6
  | UBWT_ERROR_TYPE_TIME_GET => 7
  | UBWT_ERROR_TYPE_NET_INIT => 8
  | UBWT_ERROR_TYPE_NET_INVALID_PROTO => 9
  | UBWT_ERROR_TYPE_NET_ADDRINFO => 10
  | UBWT_ERROR_TYPE_NET_REUSEADDR_FAILED => 11
  | UBWT_ERROR_TYPE_NET_REUSEPORT_FAILED => 12
  | UBWT_ERROR_TYPE_NET_RECV_TIMEO_SET => 13
  | UBWT_ERROR_TYPE_NET_SEND_FAILED => 14
  | UBWT_ERROR_TYPE_NET_RECV_FAILED => 15
  | UBWT_ERROR_TYPE_NET_CONNECT => 16
  | UBWT_ERROR_TYPE_NET_LISTEN => 17
  | UBWT_ERROR_TYPE_NET_ACCEPT => 18
  | UBWT_ERROR_TYPE_TALK_SENDER_INIT => 19
  | UBWT_ERROR_TYPE_TALK_RECEIVER_INIT => 20
  | UBWT_ERROR_TYPE_TALK_SEND_FAILED => 21
  | UBWT_ERROR_TYPE_TALK_RECV_FAILED => 22
  | UBWT_ERROR_TYPE_TALK_HANDSHAKE_NOMATCH => 23
  | UBWT_ERROR_TYPE_TALK_HANDSHAKE_FAILED => 24
  | UBWT_ERROR_TYPE_TALK_NEGOTIATION_FAILED => 25
  | UBWT_ERROR_TYPE_TALK_STREAM_FAILED => 26
  | UBWT_ERROR_TYPE_TALK_REPORT_EXCHANGE_FAILED => 27
  | UBWT_ERROR_TYPE_TALK_FINISH_FAILED => 28
  | UBWT_ERROR_TYPE_REPORT_CONNECTION_FAILED => 29
  | UBWT_ERROR_TYPE_REPORT_JSON_FILE_FAILED => 30
  | UBWT_ERROR_TYPE_WORKER_CREATE_FAILED => 31
  end%nat.

Definition error_level_value (l : ubwt_error_level_t) : Z :=
  match l with
  | UBWT_ERROR_LEVEL_INFO => 0
  | UBWT_ERROR_LEVEL_WARNING => 1
  | UBWT_ERROR_LEVEL_CRITICAL => 2
  | UBWT_ERROR_LEVEL_FATAL => 3
  end.

Record ubwt_error_t := { l_errno : Z; l_eai : Z }.

Definition nl : string := String "010"%char EmptyString.

Definition __errors : list string := map (fun s => s +:+ nl) [
  "[%s]: ERROR: %s: No error: %s: %s";
  "[%s]: ERROR: %s: Unable to fork the current process data: %s: %s";
  "[%s]: ERROR: %s: First parameter must be 'connector' or 'listener': %s: %s";
  "[%s]: ERROR: %s: Second parameter must be a valid IP or hostname: %s: %s";
  "[%s]: ERROR: %s: Invalid command line option: %s: %s";
  "[%s]: ERROR: %s: Invalid command line value for option: %s: %s";
  "[%s]: ERROR: %s: Inconsistent configuration values detected: %s: %s";
  "[%s]: ERROR: %s: Unable to get current time in microseconds: %s: %s";
  "[%s]: ERROR: %s: Unable to initialize the network handlers: %s: %s";
  "[%s]: ERROR: %s: Invalid protocol. Must be TCP or UDP: %s: %s";
  "[%s]: ERROR: %s: Unable to retrieve an usable address for communication: %s: %s";
  "[%s]: ERROR: %s: Unable to set socket option for address reusage: %s: %s";
  "[%s]: ERROR: %s: Unable to set socket option for port reusage: %s: %s";
  "[%s]: ERROR: %s: Unable to set socket receive timeout value: %s: %s";
  "[%s]: ERROR: %s: An error ocurred while sending data to the remote endpoint: %s: %s";
  "[%s]: ERROR: %s: An error occured while receiving data from the remote endpoint: %s: %s";
  "[%s]: ERROR: %s: An error occured while connecting to the remote endpoint: %s: %s";
  "[%s]: ERROR: %s: An error occured while preparing the listenening socket for incoming connections: %s: %s";
  "[%s]: ERROR: %s: An error occured while trying to accept for incoming connections: %s: %s";
  "[%s]: ERROR: %s: Unable to initialize connector: %s: %s";
  "[%s]: ERROR: %s: Unable to initialize listener: %s: %s";
  "[%s]: ERROR: %s: Unable to send data to the remote endpoint: %s: %s";
  "[%s]: ERROR: %s: Unable to receive data from the remote endpoint: %s: %s";
  "[%s]: ERROR: %s: Unable to complete handshake - exchanged values mismatch: %s: %s";
  "[%s]: ERROR: %s: Unable to complete handshake stage: %s: %s";
  "[%s]: ERROR: %s: Unable to complete negotiation stage: %s: %s";
  "[%s]: ERROR: %s: Unable to complete stream stage: %s: %s";
  "[%s]: ERROR: %s: Unable to complete report exchange stage: %s: %s";
  "[%s]: ERROR: %s: Unable to complete finish stage: %s: %s";
  "[%s]: ERROR: %s: Unable to retrieve connection address information: %s: %s";
  "[%s]: ERROR: %s: Unable to open file to export JSON report information: %s: %s";
  "[%s]: ERROR: %s: Unable to create a new worker: %s: %s" ].

Definition UBWT_ERROR_MSG_SIZE_MAX : nat := 1024.

(** [fprintf] with string conversions only.  [None] is the undefined
    behaviour of the C function: a [%s] without an argument, or a conversion
    other than [%s] and [%%]. *)
Fixpoint sprintf_s (fmt : string) (args : list string) : option string :=
  match fmt with
  | EmptyString => Some EmptyString
  | String "%"%char (String "s"%char rest) =>
      match args with
      | [] => None
      | a :: args' => s ← sprintf_s rest args'; Some (a +:+ s)
      end
  | String "%"%char (String "%"%char rest) =>
      s ← sprintf_s rest args; Some (String "%"%char s)
  | String "%"%char _ => None
  | String c rest => s ← sprintf_s rest args; Some (String c s)
  end.

(** How a process ends: [exit] (with the error type a fatal error carried),
    [abort] from [error_abort], or a failed [assert]. *)
Inductive stop :=
| Exited (status : Z) (why : option ubwt_error_type_t)
| Aborted (func : string)
| Assertion (expr : string).

#[export] Instance stop_eq_dec : EqDecision stop.
Proof. solve_decision. Defined.

Definition EXIT_SUCCESS : Z := 0.
Definition EXIT_FAILURE : Z := 1.

Inductive res (A : Type) :=
| Ok (a : A)
| Stop (s : stop).
Arguments Ok {A} _.
Arguments Stop {A} _.

#[export] Instance res_ret : MRet res := @Ok.
#[export] Instance res_bind : MBind res := fun A B f m =>
  match m with
  | Ok a => f a
  | Stop s => Stop s
  end.

(** [assert(expr)]. *)
Definition assert_ (b : bool) (expr : string) : res unit :=
  if b then Ok tt else Stop (Assertion expr).

(** [error_handler(UBWT_ERROR_LEVEL_FATAL, t, ...)], which does not return:
    [error_handler_fatal] below shows that it exits with [EXIT_FAILURE]. *)
Definition fatal {A : Type} (t : ubwt_error_type_t) : res A :=
  Stop (Exited EXIT_FAILURE (Some t)).

(** [error_abort(__FILE__, __LINE__, func)]. *)
Definition error_abort {A : Type} (func : string) : res A := Stop (Aborted func).

(** ** [error_handler]

    The texts of system errors come from the C library; the current time is
    [None] when [datetime_now_str] fails. *)

Section handler.
Variable strerror : Z -> string.
Variable gai_strerror : Z -> string.

Definition _error_post_fatal (type : ubwt_error_type_t) : option stop :=
  Some (Exited EXIT_FAILURE (Some type)).

Definition _error_post_nonfatal : option stop := None.

(** What the switch on the level selects: the level's name and the action
    taken after the message. *)
Definition error_level_action (level : ubwt_error_level_t) (type : ubwt_error_type_t)
  : string * option stop :=
  match level with
  | UBWT_ERROR_LEVEL_INFO => ("INFO"%string, _error_post_nonfatal)
  | UBWT_ERROR_LEVEL_WARNING => ("WARNING"%string, _error_post_nonfatal)
  | UBWT_ERROR_LEVEL_CRITICAL => ("CRITICAL"%string, _error_post_nonfatal)
  | UBWT_ERROR_LEVEL_FATAL => ("FATAL"%string, _error_post_fatal type)
  end.

(** [vsnprintf(origin, sizeof(origin) - 1, ...)] keeps at most 1023 characters. *)
Definition error_origin (origin_fmt : option string) : string :=
  match origin_fmt with
  | None => EmptyString
  | Some s => String.substring 0 (UBWT_ERROR_MSG_SIZE_MAX - 1) s
  end.

(** The result: the text written to stderr ([None] when nothing is written),
    the error record, and the process end, if any. *)
Definition error_handler (min_level : ubwt_error_level_t) (now : option string)
    (errno : Z) (e : ubwt_error_t) (level : ubwt_error_level_t)
    (type : ubwt_error_type_t) (origin_fmt : option string)
  : option string * ubwt_error_t * option stop :=
  let e := {| l_errno := errno; l_eai := l_eai e |} in
  let origin := error_origin origin_fmt in
  let time_str := default EmptyString now in
  let '(level_str, post_process) := error_level_action level type in
  let reason := if truth (l_eai e) then gai_strerror (l_eai e) else strerror (l_errno e) in
  let out :=
    if error_level_value min_level <=? error_level_value level then
      fmt ← __errors !! error_type_value type;
      sprintf_s fmt
        [time_str; level_str;
         if String.eqb origin EmptyString then "unknown_origin"%string else origin;
         reason]
    else None in
  (out, e, post_process).

End handler.

(** ** Lemmas *)

Lemma bind_Ok {A B : Type} (m : res A) (f : A -> res B) (b : B) :
  m ≫= f = Ok b <-> exists a, m = Ok a /\ f a = Ok b.
Proof.
  destruct m as [a|s]; simpl; split.
  - intros H. by exists a.
  - by intros (a' & [= ->] & H).
  - done.
  - by intros (a' & [=] & _).
Qed.

Lemma assert_Ok (b : bool) (e : string) (u : unit) : assert_ b e = Ok u <-> b = true.
Proof. destruct b, u; simpl; split; naive_solver. Qed.

Lemma assert_bind_Ok {A : Type} (b : bool) (e : string) (k : unit -> res A) (a : A) :
  assert_ b e ≫= k = Ok a <-> b = true /\ k tt = Ok a.
Proof. destruct b; simpl; naive_solver. Qed.

Lemma assert_true_bind {A : Type} (e : string) (k : unit -> res A) :
  assert_ true e ≫= k = k tt.
Proof. reflexivity. Qed.

(** Peel the checks of a computation that returned. *)
Ltac res_inv H :=
  repeat match type of H with
  | assert_ _ _ ≫= _ = Ok _ => let H1 := fresh "Hchk" in
      apply assert_bind_Ok in H as [H1 H]; simpl in H
  | assert_ _ _ = Ok _ => apply assert_Ok in H
  | (if ?b then fatal _ else _) = Ok _ => let H1 := fresh "Hchk" in
      destruct b eqn:H1; [discriminate H|]; simpl in H
  end.

Definition error_types : list ubwt_error_type_t := [
  UBWT_ERROR_TYPE_NO_ERROR; UBWT_ERROR_TYPE_CURRENT_FORK_FAILED;
  UBWT_ERROR_TYPE_CONFIG_ARGV_1_INVALID; UBWT_ERROR_TYPE_CONFIG_ARGV_2_INVALID;
  UBWT_ERROR_TYPE_CONFIG_ARGV_OPT_INVALID; UBWT_ERROR_TYPE_CONFIG_ARGV_OPTARG_INVALID;
  UBWT_ERROR_TYPE_CONFIG_CONSISTENCY_FAILED; UBWT_ERROR_TYPE_TIME_GET;
  UBWT_ERROR_TYPE_NET_INIT; UBWT_ERROR_TYPE_NET_INVALID_PROTO;
  UBWT_ERROR_TYPE_NET_ADDRINFO; UBWT_ERROR_TYPE_NET_REUSEADDR_FAILED;
  UBWT_ERROR_TYPE_NET_REUSEPORT_FAILED; UBWT_ERROR_TYPE_NET_RECV_TIMEO_SET;
  UBWT_ERROR_TYPE_NET_SEND_FAILED; UBWT_ERROR_TYPE_NET_RECV_FAILED;
  UBWT_ERROR_TYPE_NET_CONNECT; UBWT_ERROR_TYPE_NET_LISTEN; UBWT_ERROR_TYPE_NET_ACCEPT;
  UBWT_ERROR_TYPE_TALK_SENDER_INIT; UBWT_ERROR_TYPE_TALK_RECEIVER_INIT;
  UBWT_ERROR_TYPE_TALK_SEND_FAILED; UBWT_ERROR_TYPE_TALK_RECV_FAILED;
  UBWT_ERROR_TYPE_TALK_HANDSHAKE_NOMATCH; UBWT_ERROR_TYPE_TALK_HANDSHAKE_FAILED;
  UBWT_ERROR_TYPE_TALK_NEGOTIATION_FAILED; UBWT_ERROR_TYPE_TALK_STREAM_FAILED;
  UBWT_ERROR_TYPE_TALK_REPORT_EXCHANGE_FAILED; UBWT_ERROR_TYPE_TALK_FINISH_FAILED;
  UBWT_ERROR_TYPE_REPORT_CONNECTION_FAILED; UBWT_ERROR_TYPE_REPORT_JSON_FILE_FAILED;
  UBWT_ERROR_TYPE_WORKER_CREATE_FAILED ].

(** The part of a message between the level and the origin. *)
Definition error_text (t : ubwt_error_type_t) : string :=
  let fmt := default EmptyString (__errors !! error_type_value t) in
  String.substring 17 (String.length fmt - 26) fmt.

Lemma errors_expand (t : ubwt_error_type_t) (a b c d : string) :
  (fmt ← __errors !! error_type_value t; sprintf_s fmt [a; b; c; d]) =
  Some ("[" +:+ a +:+ "]: ERROR: " +:+ b +:+ ": " +:+ error_text t +:+ ": " +:+
        c +:+ ": " +:+ d +:+ nl)%string.
Proof. destruct t; reflexivity. Qed.

Lemma error_text_find (t : ubwt_error_type_t) :
  snd <$> list_find (fun t' => error_text t' = error_text t) error_types = Some t.
Proof. destruct t; vm_compute; reflexivity. Qed.

Lemma error_text_inj (t t' : ubwt_error_type_t) : error_text t' = error_text t -> t' = t.
Proof.
  intros H. pose proof (error_text_find t) as Ht. pose proof (error_text_find t') as Ht'.
  rewrite H in Ht'. congruence.
Qed.

(** C37: for every error type the message table has an entry of its own whose
    expansion consumes exactly the four strings [error_handler] passes (time,
    level, origin, reason) in that order; the handler prints it exactly when the
    level reaches the configured minimum, records [errno] whatever the level,
    and ends the process, with [EXIT_FAILURE], exactly for the FATAL level. *)
Theorem error_handler_spec (strerror gai_strerror : Z -> string) (min : ubwt_error_level_t)
    (now : option string) (errno : Z) (e : ubwt_error_t) (level : ubwt_error_level_t)
    (type : ubwt_error_type_t) (origin : string) :
  let '(out, e', post) :=
    error_handler strerror gai_strerror min now errno e level type (Some origin) in
  l_errno e' = errno /\ l_eai e' = l_eai e /\
  post = (if decide (level = UBWT_ERROR_LEVEL_FATAL)
          then Some (Exited EXIT_FAILURE (Some type)) else None) /\
  out = (if error_level_value min <=? error_level_value level then
           Some ("[" +:+ default EmptyString now +:+ "]: ERROR: " +:+
                 fst (error_level_action level type) +:+ ": " +:+ error_text type +:+ ": " +:+
                 (if String.eqb (String.substring 0 1023 origin) EmptyString
                  then "unknown_origin" else String.substring 0 1023 origin) +:+ ": " +:+
                 (if truth (l_eai e) then gai_strerror (l_eai e) else strerror errno) +:+ nl)%string
         else None) /\
  (forall type', error_text type' = error_text type -> type' = type).
Proof.
  unfold error_handler. destruct (error_level_action level type) as [lstr post] eqn:Hact.
  split_and!; try done.
  - destruct level; simpl in Hact; by injection Hact as <- <-.
  - destruct (_ <=? _); [|done]. apply errors_expand.
  - apply error_text_inj.
Qed.
