(* ===== verification/Byteorder.v ===== *)
(** Host and network byte order: include/net.h.

    A host is described by its endianness, [big].  [htonl] and [htons] of the C
    library produce the value whose bytes in the host's memory are the
    big-endian (network) encoding of their argument.  [net_htonll] is the
    program's own 64-bit conversion: the inline function, which swaps the two
    32-bit halves of the object in memory, and the macro that replaces it under
    clang, which shifts them together. *)

From S2P Require Import Prelude.

Section host.
Variable big : bool.

Definition htonl (z : Z) : Z := mem_val big (be_bytes 4 z).
Definition ntohl (z : Z) : Z := be_val (mem_bytes big 4 z).
Definition htons (z : Z) : Z := mem_val big (be_bytes 2 z).
Definition ntohs (z : Z) : Z := be_val (mem_bytes big 2 z).

(** [((uint32_t * ) &x)[i]] for a 64-bit [x]. *)
Definition word32_at (x : Z) (i : nat) : Z :=
  mem_val big (take 4 (drop (4 * i) (mem_bytes big 8 x))).

(** [*(unsigned char * ) &i] for [unsigned int i = 1]: the first byte in memory. *)
Definition first_byte_of_one : Z := default 0 (head (mem_bytes big 4 1)).

(** The inline function: the two words are converted and stored exchanged. *)
Definition net_htonll (hostlonglong : Z) : Z :=
  if truth first_byte_of_one then
    let lo := htonl (word32_at hostlonglong 1) in
    let hi := htonl (word32_at hostlonglong 0) in
    mem_val big (mem_bytes big 4 lo ++ mem_bytes big 4 hi)
  else hostlonglong.

(** The macro used under clang. *)
Definition net_htonll_clang (hostlonglong : Z) : Z :=
  if truth first_byte_of_one then
    Z.lor (wrap 64 (Z.shiftl (htonl (word32_at hostlonglong 0)) 32))
          (htonl (word32_at hostlonglong 1))
  else hostlonglong.

Definition net_ntohll (netlonglong : Z) : Z := net_htonll netlonglong.

End host.

(** ** Lemmas *)

Lemma first_byte_truth (big : bool) : truth (first_byte_of_one big) = negb big.
Proof. destruct big; reflexivity. Qed.

Lemma htonl_mem (big : bool) (z : Z) : mem_bytes big 4 (htonl big z) = be_bytes 4 z.
Proof.
  apply mem_bytes_mem_val; [|apply length_be_bytes].
  apply (mem_bytes_range true).
Qed.

Lemma htons_mem (big : bool) (z : Z) : mem_bytes big 2 (htons big z) = be_bytes 2 z.
Proof.
  apply mem_bytes_mem_val; [|apply length_be_bytes].
  apply (mem_bytes_range true).
Qed.

Lemma htonl_u32 (big : bool) (z : Z) : u32 (htonl big z).
Proof. apply (mem_val_range big (be_bytes 4 z)), (mem_bytes_range true 4). Qed.

Lemma htons_u16 (big : bool) (z : Z) : u16 (htons big z).
Proof. apply (mem_val_range big (be_bytes 2 z)), (mem_bytes_range true 2). Qed.

Lemma ntohl_htonl (big : bool) (z : Z) : u32 z -> ntohl big (htonl big z) = z.
Proof.
  intros Hz. unfold ntohl. rewrite htonl_mem.
  change (be_bytes 4 z) with (mem_bytes true 4 z).
  rewrite (mem_val_mem_bytes true). by apply wrap_small.
Qed.

Lemma ntohs_htons (big : bool) (z : Z) : u16 z -> ntohs big (htons big z) = z.
Proof.
  intros Hz. unfold ntohs. rewrite htons_mem.
  change (be_bytes 2 z) with (mem_bytes true 2 z).
  rewrite (mem_val_mem_bytes true). by apply wrap_small.
Qed.

(** On either host the two conversions are the same byte reversal. *)
Lemma ntohl_is_htonl (big : bool) (z : Z) : ntohl big z = htonl big z.
Proof. destruct big; [done|]. unfold ntohl, htonl, be_val, be_bytes. done. Qed.

Lemma ntohs_is_htons (big : bool) (z : Z) : ntohs big z = htons big z.
Proof. destruct big; [done|]. unfold ntohs, htons, be_val, be_bytes. done. Qed.
(** ** The 64-bit conversion *)

Lemma le_bytes_8 (z : Z) : le_bytes 8 z = le_bytes 4 z ++ le_bytes 4 (z / 2 ^ 32).
Proof. exact (le_bytes_app 4 4 z). Qed.

Lemma le_bytes_wrap32 (z : Z) : le_bytes 4 (wrap 32 z) = le_bytes 4 z.
Proof. exact (le_bytes_wrap 4 z). Qed.

(** The halves of a little-endian 64-bit object. *)
Lemma word32_at_le (x : Z) :
  word32_at false x 0 = wrap 32 x /\ word32_at false x 1 = wrap 32 (x / 2 ^ 32).
Proof.
  unfold word32_at, mem_bytes, mem_val. rewrite le_bytes_8.
  split.
  - rewrite drop_0, take_app_length' by (by rewrite length_le_bytes).
    apply (le_val_le_bytes 4).
  - rewrite drop_app_length', take_ge by (by rewrite length_le_bytes).
    apply (le_val_le_bytes 4).
Qed.

Lemma rev_app_distr_le (x : Z) :
  be_bytes 8 x = be_bytes 4 (x / 2 ^ 32) ++ be_bytes 4 x.
Proof. unfold be_bytes. rewrite le_bytes_8. apply rev_app_distr. Qed.

Lemma net_htonll_mem (big : bool) (x : Z) :
  u64 x -> mem_bytes big 8 (net_htonll big x) = be_bytes 8 x.
Proof.
  intros Hx. unfold net_htonll. rewrite first_byte_truth. destruct big; [done|]. simpl negb.
  destruct (word32_at_le x) as [-> ->]. cbv match.
  rewrite !htonl_mem. rewrite mem_bytes_mem_val.
  - rewrite rev_app_distr_le. unfold be_bytes.
    by rewrite !le_bytes_wrap32.
  - apply Forall_app; split; apply (mem_bytes_range true).
  - rewrite length_app. autorewrite with ubwt_len. done.
Qed.

Lemma net_htonll_u64 (big : bool) (x : Z) : u64 x -> u64 (net_htonll big x).
Proof.
  intros Hx. unfold net_htonll. destruct (truth _); [|done].
  apply mem_val_unsigned.
  - apply Forall_app; split; apply mem_bytes_range.
  - by rewrite length_app, !length_mem_bytes.
Qed.

Lemma net_htonll_val (big : bool) (x : Z) :
  u64 x -> net_htonll big x = mem_val big (be_bytes 8 x).
Proof.
  intros Hx. rewrite <- (net_htonll_mem big x Hx), mem_val_mem_bytes.
  symmetry. by apply wrap_small, net_htonll_u64.
Qed.

Lemma net_ntohll_htonll (big : bool) (x : Z) :
  u64 x -> net_ntohll big (net_htonll big x) = x.
Proof.
  intros Hx. unfold net_ntohll. apply (mem_bytes_inj big 8); [|done|].
  - by apply net_htonll_u64, net_htonll_u64.
  - rewrite net_htonll_mem by (by apply net_htonll_u64).
    pose proof (net_htonll_mem big x Hx) as H. destruct big; [done|].
    unfold mem_bytes, be_bytes in *. by rewrite H, rev_involutive.
Qed.

(** A host of either endianness reads back a value from its network bytes. *)
Lemma net_ntohll_wire (big : bool) (x : Z) :
  u64 x -> net_ntohll big (mem_val big (be_bytes 8 x)) = x.
Proof. intros Hx. rewrite <- net_htonll_val by done. by apply net_ntohll_htonll. Qed.

Lemma net_htonll_clang_eq (big : bool) (x : Z) :
  u64 x -> net_htonll_clang big x = net_htonll big x.
Proof.
  intros Hx. rewrite (net_htonll_val big x Hx). unfold net_htonll_clang.
  rewrite first_byte_truth. destruct big; simpl negb; cbv match.
  { unfold mem_val, be_val, be_bytes. rewrite rev_involutive, (le_val_le_bytes 8).
    symmetry. by apply wrap_small. }
  destruct (word32_at_le x) as [-> ->]. unfold htonl, mem_val.
  unfold be_bytes at 1 2. rewrite !le_bytes_wrap32.
  fold (be_bytes 4 x) (be_bytes 4 (x / 2 ^ 32)).
  rewrite rev_app_distr_le, le_val_app, length_be_bytes.
  assert (u32 (le_val (be_bytes 4 x))) as H1
    by apply (le_val_range (be_bytes 4 x)), (mem_bytes_range true 4).
  assert (u32 (le_val (be_bytes 4 (x / 2 ^ 32)))) as H2
    by apply (le_val_range (be_bytes 4 (x / 2 ^ 32))), (mem_bytes_range true 4).
  set (a := le_val (be_bytes 4 x)) in *. set (b := le_val (be_bytes 4 (x / 2 ^ 32))) in *.
  unfold unsigned in *. rewrite Z.shiftl_mul_pow2 by lia.
  rewrite wrap_small by (unfold unsigned; lia).
  rewrite lor_mul_pow2 by (unfold unsigned; lia). change (8 * Z.of_nat 4) with 32. lia.
Qed.

(** C31: [net_htonll] puts the big-endian encoding of its argument in memory on
    hosts of both endiannesses, the variant compiled under clang computes the
    same value, and [net_ntohll] is its inverse; so a value written by one host
    is read back unchanged by the other, whatever the two endiannesses. *)
Theorem net_htonll_correct (big big' : bool) (x : Z) :
  u64 x ->
  mem_bytes big 8 (net_htonll big x) = be_bytes 8 x /\
  net_htonll_clang big x = net_htonll big x /\
  net_ntohll big' (mem_val big' (mem_bytes big 8 (net_htonll big x))) = x.
Proof.
  intros Hx. split_and!.
  - by apply net_htonll_mem.
  - by apply net_htonll_clang_eq.
  - rewrite net_htonll_mem by done. by apply net_ntohll_wire.
Qed.

Lemma net_htonll_correct_witness :
  net_htonll false 1 = 2 ^ 56 /\ net_htonll_clang false 258 = net_htonll false 258.
Proof.
  assert (u64 258) as H by (split; vm_compute; congruence).
  split; [reflexivity|]. apply (net_htonll_correct false true 258 H).
Defined.
