(* ===== verification/ConfigData.v ===== *)
(** Compile-time configuration and the run-time configuration record:
    include/config.h.

    The [#define]d constants, the feature macros with the normalisation the
    header applies to them, and [struct ubwt_config]. *)

From S2P Require Import Prelude Errors.

(** ** Constants *)

Definition UBWT_CONFIG_CTIME_SIZE : Z := 32.
Definition UBWT_CONFIG_PORT_DEFAULT : string := "19991".
Definition UBWT_CONFIG_NET_TIMEOUT_DEFAULT : Z := 120.
Definition UBWT_CONFIG_NET_TIMEOUT_TALK_STREAM_RUN : Z := 5.
Definition UBWT_CONFIG_NET_TIMEOUT_TALK_STREAM_END : Z := 20.
Definition UBWT_CONFIG_NET_MTU : Z := 1500.
Definition UBWT_CONFIG_NET_LISTEN_BACKLOG : Z := 10.
Definition UBWT_CONFIG_NET_L2_HEADER_SIZE : Z := 26.
Definition UBWT_CONFIG_NET_L3_IPV4_HEADER_SIZE : Z := 20.
Definition UBWT_CONFIG_NET_L3_IPV6_HEADER_SIZE : Z := 40.
Definition UBWT_CONFIG_NET_L4_UDP_HEADER_SIZE : Z := 8.
Definition UBWT_CONFIG_NET_L4_TCP_HEADER_SIZE : Z := 20.
Definition UBWT_CONFIG_NET_L4_PROTO_DEFAULT : string := "tcp".
Definition UBWT_CONFIG_PROCESS_WORKER_COUNT : Z := 1.
Definition UBWT_CONFIG_PROCESS_REVERSE_DELAY_SEC : Z := 3.
Definition UBWT_CONFIG_TALK_HANDSHAKE_INTERVAL_MSEC : Z := 1.
Definition UBWT_CONFIG_TALK_HANDSHAKE_ITER : Z := 20.
Definition UBWT_CONFIG_TALK_COUNT_DEFAULT : Z := 100.
Definition UBWT_CONFIG_TALK_COUNT_MAX : Z := 1000000000.
Definition UBWT_CONFIG_TALK_COUNT_MUL_MAX : Z :=
  UBWT_CONFIG_TALK_COUNT_MAX / UBWT_CONFIG_TALK_COUNT_DEFAULT.
Definition UBWT_CONFIG_TALK_PAYLOAD_DEFAULT_SIZE : Z := 1432.
Definition UBWT_CONFIG_TALK_PAYLOAD_MIN_SIZE : Z := 508.
Definition UBWT_CONFIG_TALK_PAYLOAD_MAX_SIZE : Z := 8192.
Definition UBWT_CONFIG_TALK_STREAM_MINIMUM_TIME : Z := 3.

(** [enum UBWT_NET_PROTO_L4_VALUES] of include/net.h. *)
Definition UBWT_NET_PROTO_L4_TCP : Z := 1.
Definition UBWT_NET_PROTO_L4_UDP : Z := 2.

(** [offsetof(ubwt_talk_payload_t, buf)] and its array size (include/talk.h). *)
Definition talk_payload_hdr_size : Z := 32.
Definition talk_payload_buf_size : Z := UBWT_CONFIG_TALK_PAYLOAD_MAX_SIZE - 32.

(** ** Feature macros

    A macro is undefined or defined with a value. *)

Record build := {
  UBWT_CONFIG_DEBUG : option Z;
  UBWT_CONFIG_NO_PRAGMA_PACK : option Z;
  UBWT_CONFIG_NET_NO_UDP : option Z;
  UBWT_CONFIG_NET_NO_TIMEOUT : option Z;
  UBWT_CONFIG_NET_REUSE_ADDRESS : option Z;
  UBWT_CONFIG_NET_REUSE_PORT : option Z;
  UBWT_CONFIG_NET_USE_SETSOCKOPT : option Z;
  UBWT_CONFIG_NET_UDP_CONNECT : option Z;
  UBWT_CONFIG_MULTI_THREADED : option Z;
  UBWT_CONFIG_PTHREAD_CUSTOM_BARRIER : option Z;
  UBWT_CONFIG_PTHREAD_LOCAL_STORAGE : option Z;
  UBWT_CONFIG_MISSING_INET_NTOP_DECL : option Z;
  COMPILE_WIN32 : option Z
}.

(** [#ifdef M]. *)
Definition defined (m : option Z) : bool :=
  match m with Some _ => true | None => false end.

(** [#if defined(M) && (M == 0)] [#undef M] [#endif]. *)
Definition undef_zero (m : option Z) : option Z :=
  match m with
  | Some v => if v =? 0 then None else Some v
  | None => None
  end.

(** [#ifndef M] [#define M 1] [#endif]. *)
Definition define_1 (m : option Z) : option Z :=
  match m with Some v => Some v | None => Some 1 end.

Definition config_undef_zeros (b : build) : build := {|
  UBWT_CONFIG_DEBUG := undef_zero (UBWT_CONFIG_DEBUG b);
  UBWT_CONFIG_NO_PRAGMA_PACK := undef_zero (UBWT_CONFIG_NO_PRAGMA_PACK b);
  UBWT_CONFIG_NET_NO_UDP := undef_zero (UBWT_CONFIG_NET_NO_UDP b);
  UBWT_CONFIG_NET_NO_TIMEOUT := undef_zero (UBWT_CONFIG_NET_NO_TIMEOUT b);
  UBWT_CONFIG_NET_REUSE_ADDRESS := undef_zero (UBWT_CONFIG_NET_REUSE_ADDRESS b);
  UBWT_CONFIG_NET_REUSE_PORT := undef_zero (UBWT_CONFIG_NET_REUSE_PORT b);
  UBWT_CONFIG_NET_USE_SETSOCKOPT := undef_zero (UBWT_CONFIG_NET_USE_SETSOCKOPT b);
  UBWT_CONFIG_NET_UDP_CONNECT := undef_zero (UBWT_CONFIG_NET_UDP_CONNECT b);
  UBWT_CONFIG_MULTI_THREADED := undef_zero (UBWT_CONFIG_MULTI_THREADED b);
  UBWT_CONFIG_PTHREAD_CUSTOM_BARRIER := undef_zero (UBWT_CONFIG_PTHREAD_CUSTOM_BARRIER b);
  UBWT_CONFIG_PTHREAD_LOCAL_STORAGE := undef_zero (UBWT_CONFIG_PTHREAD_LOCAL_STORAGE b);
  UBWT_CONFIG_MISSING_INET_NTOP_DECL := undef_zero (UBWT_CONFIG_MISSING_INET_NTOP_DECL b);
  COMPILE_WIN32 := undef_zero (COMPILE_WIN32 b)
|}.

(** [#ifndef UBWT_CONFIG_MULTI_THREADED]. *)
Definition config_fix_threads (b : build) : build :=
  if defined (UBWT_CONFIG_MULTI_THREADED b) then b else
  b {{ UBWT_CONFIG_PTHREAD_CUSTOM_BARRIER := None;
       UBWT_CONFIG_PTHREAD_LOCAL_STORAGE := None }}.

(** [#ifndef UBWT_CONFIG_NET_USE_SETSOCKOPT]. *)
Definition config_fix_setsockopt (b : build) : build :=
  if defined (UBWT_CONFIG_NET_USE_SETSOCKOPT b) then b else
  b {{ UBWT_CONFIG_NET_REUSE_ADDRESS := None;
       UBWT_CONFIG_NET_REUSE_PORT := None;
       UBWT_CONFIG_NET_NO_UDP ::= define_1;
       UBWT_CONFIG_NET_NO_TIMEOUT ::= define_1 }}.

(** [#ifdef UBWT_CONFIG_NET_NO_TIMEOUT]. *)
Definition config_fix_timeout (b : build) : build :=
  if defined (UBWT_CONFIG_NET_NO_TIMEOUT b) then
    b {{ UBWT_CONFIG_NET_NO_UDP ::= define_1 }}
  else b.

(** [#ifdef UBWT_CONFIG_NET_NO_UDP]. *)
Definition config_fix_udp (b : build) : build :=
  if defined (UBWT_CONFIG_NET_NO_UDP b) then
    b {{ UBWT_CONFIG_NET_UDP_CONNECT := None }}
  else b.

(** The macros as the rest of the program sees them. *)
Definition config_normalise (b : build) : build :=
  config_fix_udp (config_fix_timeout (config_fix_setsockopt
    (config_fix_threads (config_undef_zeros b)))).

(** ** [struct ubwt_config] *)

Record ubwt_config := {
  im_connector : Z;
  im_listener : Z;

  addr : string;
  port : string;

  debug : Z;
  report_full : Z;
  bidirectional : Z;
  asynchronous : Z;
  reverse_first : Z;

  report_json_file : option string;
  pid_file : option string;
  debug_file : option string;
  net_payload_buffer_file : option string;

  error_log_min_level : ubwt_error_level_t;

  net_timeout_default : Z;
  net_timeout_talk_stream_run : Z;
  net_timeout_talk_stream_end : Z;
  net_mtu : Z;
  net_reuseaddr : Z;
  net_reuseport : Z;
  net_l2_hdr_size : Z;
  net_l3_ipv4_hdr_size : Z;
  net_l3_ipv6_hdr_size : Z;
  net_l4_hdr_size : Z;
  net_l4_proto_name : string;
  net_l4_proto_value : Z;
  net_payload_buffer_size : Z;

  process_reverse_delay : Z;

  talk_handshake_interval : Z;
  talk_handshake_iter : Z;
  talk_count_current : Z;
  talk_count_default : Z;
  talk_count_max : Z;
  talk_count_mul : Z;
  talk_payload_current_size : Z;
  talk_payload_default_size : Z;
  talk_payload_max_size : Z;
  talk_stream_minimum_time : Z;

  worker_count : Z;
  worker_straight_first_count : Z;
  worker_reverse_first_count : Z
}.

(** [memset(config, 0, sizeof(struct ubwt_config))]. *)
Definition config_zero : ubwt_config := {|
  im_connector := 0; im_listener := 0; addr := ""; port := "";
  debug := 0; report_full := 0; bidirectional := 0; asynchronous := 0; reverse_first := 0;
  report_json_file := None; pid_file := None; debug_file := None;
  net_payload_buffer_file := None;
  error_log_min_level := UBWT_ERROR_LEVEL_INFO;
  net_timeout_default := 0; net_timeout_talk_stream_run := 0;
  net_timeout_talk_stream_end := 0; net_mtu := 0; net_reuseaddr := 0; net_reuseport := 0;
  net_l2_hdr_size := 0; net_l3_ipv4_hdr_size := 0; net_l3_ipv6_hdr_size := 0;
  net_l4_hdr_size := 0; net_l4_proto_name := ""; net_l4_proto_value := 0;
  net_payload_buffer_size := 0; process_reverse_delay := 0;
  talk_handshake_interval := 0; talk_handshake_iter := 0; talk_count_current := 0;
  talk_count_default := 0; talk_count_max := 0; talk_count_mul := 0;
  talk_payload_current_size := 0; talk_payload_default_size := 0;
  talk_payload_max_size := 0; talk_stream_minimum_time := 0;
  worker_count := 0; worker_straight_first_count := 0; worker_reverse_first_count := 0
|}.

(** ** C strings *)

(** [strncpy(dst, src, sizeof(dst) - 1)] followed by the terminator. *)
Definition strncpy_z (size : nat) (src : string) : string :=
  String.substring 0 (size - 1) src.

Definition strlen (s : string) : Z := Z.of_nat (String.length s).

Definition is_space (c : ascii) : bool :=
  let n := Ascii.nat_of_ascii c in (n =? 32)%nat || ((9 <=? n)%nat && (n <=? 13)%nat).

Definition digit_of (c : ascii) : option Z :=
  let n := Z.of_nat (Ascii.nat_of_ascii c) in
  if (48 <=? n) && (n <=? 57) then Some (n - 48) else None.

(** The digits at the head of a string, accumulated. *)
Fixpoint digits_val (s : string) (acc : Z) : Z :=
  match s with
  | String c s' =>
      match digit_of c with
      | Some d => digits_val s' (acc * 10 + d)
      | None => acc
      end
  | EmptyString => acc
  end.

Fixpoint skip_space (s : string) : string :=
  match s with
  | String c s' => if is_space c then skip_space s' else s
  | EmptyString => EmptyString
  end.

(** [strtol(s, NULL, 10)] on a 64-bit [long]: optional sign, digits, clamped. *)
Definition atol (s : string) : Z :=
  let clamp z := Z.max (- 2 ^ 63) (Z.min z (2 ^ 63 - 1)) in
  match skip_space s with
  | String c s' =>
      if Ascii.eqb c "-"%char then clamp (- digits_val s' 0)
      else if Ascii.eqb c "+"%char then clamp (digits_val s' 0)
      else clamp (digits_val (String c s') 0)
  | EmptyString => 0
  end.

(** [atoi(s)] is [(int) strtol(s, NULL, 10)]. *)
Definition atoi (s : string) : Z := sint 32 (atol s).

Definition null_p (p : option string) : bool :=
  match p with Some _ => false | None => true end.

(** Expose the numeric constants to [lia]. *)
Ltac unfold_config :=
  change UBWT_CONFIG_TALK_COUNT_MUL_MAX with 10000000 in *; unfold UBWT_CONFIG_CTIME_SIZE, UBWT_CONFIG_NET_TIMEOUT_DEFAULT,
    UBWT_CONFIG_NET_TIMEOUT_TALK_STREAM_RUN, UBWT_CONFIG_NET_TIMEOUT_TALK_STREAM_END,
    UBWT_CONFIG_NET_MTU, UBWT_CONFIG_NET_LISTEN_BACKLOG,
    UBWT_CONFIG_NET_L2_HEADER_SIZE, UBWT_CONFIG_NET_L3_IPV4_HEADER_SIZE,
    UBWT_CONFIG_NET_L3_IPV6_HEADER_SIZE, UBWT_CONFIG_NET_L4_UDP_HEADER_SIZE,
    UBWT_CONFIG_NET_L4_TCP_HEADER_SIZE, UBWT_CONFIG_PROCESS_WORKER_COUNT,
    UBWT_CONFIG_PROCESS_REVERSE_DELAY_SEC, UBWT_CONFIG_TALK_HANDSHAKE_INTERVAL_MSEC,
    UBWT_CONFIG_TALK_HANDSHAKE_ITER, UBWT_CONFIG_TALK_COUNT_DEFAULT,
    UBWT_CONFIG_TALK_COUNT_MAX, UBWT_CONFIG_TALK_COUNT_MUL_MAX,
    UBWT_CONFIG_TALK_PAYLOAD_DEFAULT_SIZE, UBWT_CONFIG_TALK_PAYLOAD_MIN_SIZE,
    UBWT_CONFIG_TALK_PAYLOAD_MAX_SIZE, UBWT_CONFIG_TALK_STREAM_MINIMUM_TIME,
    UBWT_NET_PROTO_L4_TCP, UBWT_NET_PROTO_L4_UDP,
    talk_payload_hdr_size, talk_payload_buf_size in *.

(** ** Properties of the normalised macros *)

Lemma undef_zero_idemp m : undef_zero (undef_zero m) = undef_zero m.
Proof. destruct m as [v|]; simpl; [|done]. destruct (v =? 0) eqn:E; simpl; by rewrite ?E. Qed.

Lemma config_undef_zeros_idemp b :
  config_undef_zeros (config_undef_zeros b) = config_undef_zeros b.
Proof. unfold config_undef_zeros; simpl. by rewrite !undef_zero_idemp. Qed.

(** The steps after the first keep every defined macro non-zero. *)
Lemma config_fixes_keep_zeros b :
  config_undef_zeros b = b ->
  config_undef_zeros (config_fix_udp (config_fix_timeout (config_fix_setsockopt
    (config_fix_threads b)))) =
  config_fix_udp (config_fix_timeout (config_fix_setsockopt (config_fix_threads b))).
Proof.
  destruct b as [? ? [?|] [?|] ? ? [?|] ? [?|] ? ? ? ?]; vm_compute; intros [=];
    f_equal; assumption || reflexivity.
Qed.

(** Whatever macros a build defines, after include/config.h has normalised
    them the combinations the sources rely on hold: without [setsockopt] there is
    no address or port reuse, no timeout and no UDP; without timeouts there is no
    UDP; without UDP no UDP connect; without threads no custom barrier and no
    thread-local storage; and no defined macro is 0. *)
Theorem config_normalise_coherent (b : build) :
  let n := config_normalise b in
  (defined (UBWT_CONFIG_NET_USE_SETSOCKOPT n) = false ->
     UBWT_CONFIG_NET_REUSE_ADDRESS n = None /\ UBWT_CONFIG_NET_REUSE_PORT n = None /\
     defined (UBWT_CONFIG_NET_NO_UDP n) = true /\ defined (UBWT_CONFIG_NET_NO_TIMEOUT n) = true) /\
  (defined (UBWT_CONFIG_NET_NO_TIMEOUT n) = true -> defined (UBWT_CONFIG_NET_NO_UDP n) = true) /\
  (defined (UBWT_CONFIG_NET_NO_UDP n) = true -> UBWT_CONFIG_NET_UDP_CONNECT n = None) /\
  (defined (UBWT_CONFIG_MULTI_THREADED n) = false ->
     UBWT_CONFIG_PTHREAD_CUSTOM_BARRIER n = None /\ UBWT_CONFIG_PTHREAD_LOCAL_STORAGE n = None) /\
  config_undef_zeros n = n.
Proof.
  intros n. split_and!; [| | | |by apply config_fixes_keep_zeros, config_undef_zeros_idemp].
  all: subst n; unfold config_normalise; generalize (config_undef_zeros b); intros b0.
  all: destruct b0 as [? ? [?|] [?|] ? ? [?|] ? [?|] ? ? ? ?]; by vm_compute.
Qed.

(** The macros uconf/params/GNU/ccflags defines (one of them misspelt). *)
Definition build_gnuhurd : build := {|
  UBWT_CONFIG_DEBUG := Some 1;
  UBWT_CONFIG_NO_PRAGMA_PACK := None;
  UBWT_CONFIG_NET_NO_UDP := Some 1;
  UBWT_CONFIG_NET_NO_TIMEOUT := Some 1;
  UBWT_CONFIG_NET_REUSE_ADDRESS := Some 1;
  UBWT_CONFIG_NET_REUSE_PORT := Some 1;
  UBWT_CONFIG_NET_USE_SETSOCKOPT := None;
  UBWT_CONFIG_NET_UDP_CONNECT := None;
  UBWT_CONFIG_MULTI_THREADED := Some 1;
  UBWT_CONFIG_PTHREAD_CUSTOM_BARRIER := Some 1;
  UBWT_CONFIG_PTHREAD_LOCAL_STORAGE := Some 1;
  UBWT_CONFIG_MISSING_INET_NTOP_DECL := None;
  COMPILE_WIN32 := None
|}.

(** The macros of uconf/params/Linux/ccflags with the default parameters. *)
Definition build_linux : build := {|
  UBWT_CONFIG_DEBUG := Some 1;
  UBWT_CONFIG_NO_PRAGMA_PACK := None;
  UBWT_CONFIG_NET_NO_UDP := None;
  UBWT_CONFIG_NET_NO_TIMEOUT := None;
  UBWT_CONFIG_NET_REUSE_ADDRESS := Some 1;
  UBWT_CONFIG_NET_REUSE_PORT := Some 1;
  UBWT_CONFIG_NET_USE_SETSOCKOPT := Some 1;
  UBWT_CONFIG_NET_UDP_CONNECT := Some 1;
  UBWT_CONFIG_MULTI_THREADED := Some 1;
  UBWT_CONFIG_PTHREAD_CUSTOM_BARRIER := None;
  UBWT_CONFIG_PTHREAD_LOCAL_STORAGE := Some 1;
  UBWT_CONFIG_MISSING_INET_NTOP_DECL := None;
  COMPILE_WIN32 := None
|}.

Example normalise_linux : config_normalise build_linux = build_linux.
Proof. reflexivity. Qed.

Example normalise_gnuhurd_no_reuse :
  UBWT_CONFIG_NET_REUSE_ADDRESS (config_normalise build_gnuhurd) = None.
Proof. reflexivity. Qed.

Example atoi_examples :
  map atoi ["42"; " -7x"; "+65536"; "abc"; "4294967297"]%string = [42; -7; 65536; 0; 1].
Proof. reflexivity. Qed.
