(* ===== verification/Usage.v ===== *)
(** Command-line options: the option letters of [_config_cmdopt_process]
    (src/config.c), the checks of [usage_check_optarg] (src/usage.c), and the
    debug output state of src/debug.c that the options [-d] and [-D] change. *)

From S2P Require Import Prelude Errors ConfigData.

(** What the operating system answers: whether [fopen(path, mode)] succeeds,
    whether [malloc(n)] does, and which socket options the headers define. *)
Record env := {
  fopen_ok : string -> string -> bool;
  malloc_ok : Z -> bool;
  so_reuseaddr : bool;
  so_reuseport : bool
}.

(** A value returned by [getopt], with [optarg] where the option takes one.
    [O_unknown] is ['?']. *)
Inductive cmdopt :=
| O_A
| O_b
| O_B (optarg : string)
| O_C (optarg : string)
| O_d (optarg : string)
| O_D
| O_F
| O_h
| O_I (optarg : string)
| O_j (optarg : string)
| O_l (optarg : string)
| O_m (optarg : string)
| O_M (optarg : string)
| O_N (optarg : string)
| O_o (optarg : string)
| O_O (optarg : string)
| O_p (optarg : string)
| O_P (optarg : string)
| O_r (optarg : string)
| O_R
| O_s (optarg : string)
| O_t (optarg : string)
| O_T (optarg : string)
| O_v
| O_w (optarg : string)
| O_W (optarg : string)
| O_unknown.

(** The option string given to [getopt]. *)
Definition cmdopt_flags (b : build) : string :=
  ((if defined (UBWT_CONFIG_MULTI_THREADED b) then "A" else "") +:+
   "bB:C:" +:+
   (if defined (UBWT_CONFIG_DEBUG b) then "d:D" else "") +:+
   "FhI:j:l:m:M:N:o:" +:+
   (if defined (UBWT_CONFIG_NET_NO_TIMEOUT b) then "" else "O:") +:+
   (if defined (UBWT_CONFIG_NET_NO_UDP b) then "" else "p:") +:+
   "P:r:Rs:t:" +:+
   (if defined (UBWT_CONFIG_NET_NO_TIMEOUT b) then "" else "T:") +:+
   "v" +:+
   (if defined (UBWT_CONFIG_NET_NO_TIMEOUT b) then "" else "w:") +:+
   (if defined (UBWT_CONFIG_MULTI_THREADED b) then "W:" else ""))%string.

(** ** Debug output *)

Inductive sink := SinkNull | SinkStderr | SinkStdout | SinkFile (path : string).

Record debug_state := {
  __debug_fs_fp : Z;
  __debug_fpout : sink
}.

Definition debug_init : debug_state :=
  {| __debug_fs_fp := 0; __debug_fpout := SinkStderr |}.

Definition debug_update (en : env) (c : ubwt_config) : res debug_state :=
  match truth (debug c), debug_file c with
  | true, Some f =>
      if String.eqb f "stderr" then Ok {| __debug_fs_fp := 0; __debug_fpout := SinkStderr |}
      else if String.eqb f "stdout" then Ok {| __debug_fs_fp := 0; __debug_fpout := SinkStdout |}
      else if fopen_ok en f "a+" then Ok {| __debug_fs_fp := 1; __debug_fpout := SinkFile f |}
      else error_abort "debug_update"
  | _, _ => Ok {| __debug_fs_fp := 0; __debug_fpout := SinkStderr |}
  end.

(** [debug_destroy] closes the file it opened; the flag stays set. *)
Definition debug_destroy (d : debug_state) : debug_state :=
  d {{ __debug_fpout := SinkNull }}.

(** ** Exits of src/usage.c *)

Definition usage_show {A : Type} (success : bool) : res A :=
  Stop (Exited (if success then EXIT_SUCCESS else EXIT_FAILURE) None).

Definition usage_version {A : Type} : res A := Stop (Exited EXIT_SUCCESS None).

(** ** [usage_check_optarg] *)

Definition reject_if (bad : bool) : res unit :=
  if bad then fatal UBWT_ERROR_TYPE_CONFIG_ARGV_OPTARG_INVALID else Ok tt.

(** The check shared by the options that name a file. *)
Definition check_file (en : env) (path mode : string) : res unit :=
  reject_if (strlen path =? 0) ;;
  reject_if (negb (fopen_ok en path mode)).

Definition opt_invalid {A : Type} : res A := fatal UBWT_ERROR_TYPE_CONFIG_ARGV_OPT_INVALID.

Definition usage_check_optarg (b : build) (en : env) (o : cmdopt) (c : ubwt_config) : res unit :=
  match o with
  | O_D | O_b | O_F | O_h | O_v => Ok tt
  | O_A =>
      reject_if (truth (reverse_first c)) ;;
      reject_if (net_l4_proto_value c =? UBWT_NET_PROTO_L4_UDP)
  | O_B optarg => reject_if ((atol optarg <? 0) || (2147483647 <? atol optarg))
  | O_C optarg => check_file en optarg "r"
  | O_d optarg =>
      reject_if (strlen optarg =? 0) ;;
      if String.eqb optarg "stderr" || String.eqb optarg "stdout" then Ok tt
      else reject_if (negb (fopen_ok en optarg "a+"))
  | O_R => reject_if (truth (asynchronous c))
  | O_I optarg => reject_if ((atoi optarg <? 0) || (65536 <=? atoi optarg))
  | O_j optarg => check_file en optarg "w+"
  | O_m optarg =>
      reject_if ((atoi optarg <? UBWT_CONFIG_TALK_PAYLOAD_MIN_SIZE) || (65536 <=? atoi optarg))
  | O_M optarg =>
      reject_if ((atoi optarg <=? 1) || (UBWT_CONFIG_TALK_COUNT_MUL_MAX <=? atoi optarg))
  | O_N optarg => reject_if ((atoi optarg <=? 0) || (65536 <=? atoi optarg))
  | O_o optarg => reject_if ((atoi optarg <? 1) || (65536 <=? atoi optarg))
  | O_O optarg =>
      if defined (UBWT_CONFIG_NET_NO_TIMEOUT b) then opt_invalid else
      reject_if ((atoi optarg <? 1) || (65536 <=? atoi optarg))
  | O_p optarg =>
      reject_if (16 <=? strlen optarg) ;;
      reject_if (negb (String.eqb optarg "tcp") && negb (String.eqb optarg "udp"))
  | O_P optarg => reject_if ((atoi optarg <=? 0) || (65536 <=? atoi optarg))
  | O_r optarg => check_file en optarg "w+"
  | O_s optarg =>
      reject_if ((atoi optarg <? UBWT_CONFIG_TALK_PAYLOAD_MIN_SIZE) || (65536 <=? atoi optarg))
  | O_t optarg => reject_if ((atoi optarg <=? 0) || (65536 <=? atoi optarg))
  | O_T optarg =>
      if defined (UBWT_CONFIG_NET_NO_TIMEOUT b) then opt_invalid else
      reject_if ((atoi optarg <=? 0) || (65536 <=? atoi optarg))
  | O_w optarg =>
      if defined (UBWT_CONFIG_NET_NO_TIMEOUT b) then opt_invalid else
      reject_if ((atoi optarg <=? 0) || (65536 <=? atoi optarg))
  | O_W optarg =>
      reject_if ((atoi optarg <=? 0) || (1024 <? atoi optarg)) ;;
      reject_if ((net_l4_proto_value c =? UBWT_NET_PROTO_L4_UDP) && (1 <? atoi optarg))
  | O_unknown => opt_invalid
  | O_l _ => opt_invalid
  end.

(** ** Lemmas *)

Lemma reject_if_Ok (bad : bool) (u : unit) : reject_if bad = Ok u <-> bad = false.
Proof. destruct bad, u; simpl; split; (done || discriminate). Qed.

Lemma reject_if_bind_Ok {A : Type} (bad : bool) (k : unit -> res A) (a : A) :
  reject_if bad ≫= k = Ok a <-> bad = false /\ k tt = Ok a.
Proof. destruct bad; simpl; split; naive_solver. Qed.
