(* ===== verification/Layout.v ===== *)
(** Packed structures in memory and on the wire.

    A C structure is given by the list of its fields' sizes in bytes, in the
    order of declaration and with every padding byte as a field of its own;
    [encode] lays values out in the memory of a host and [decode] reads them
    back.  When every field has been converted to network order the bytes no
    longer depend on the host: [encode_hton]. *)

From S2P Require Import Prelude Byteorder.

Fixpoint encode (big : bool) (ns : list nat) (vs : list Z) : list Z :=
  match ns, vs with
  | n :: ns', v :: vs' => mem_bytes big n v ++ encode big ns' vs'
  | _, _ => []
  end.

Fixpoint decode (big : bool) (ns : list nat) (bs : list Z) : list Z :=
  match ns with
  | [] => []
  | n :: ns' => mem_val big (take n bs) :: decode big ns' (drop n bs)
  end.

Definition fits : list nat -> list Z -> Prop :=
  Forall2 (fun n v => unsigned (8 * Z.of_nat n) v).

(** The value of a field after its conversion to network order. *)
Definition hton (big : bool) (n : nat) (z : Z) : Z := mem_val big (be_bytes n z).

Definition sizeof (ns : list nat) : nat := sum_list ns.

Lemma length_encode_eq big ns vs :
  length vs = length ns -> length (encode big ns vs) = sizeof ns.
Proof.
  revert vs. induction ns as [|n ns IH]; intros [|v vs] Hlen; try discriminate Hlen; simpl; [done|].
  injection Hlen as Hlen. rewrite length_app, length_mem_bytes, IH by done. done.
Qed.

Lemma length_encode big ns vs : fits ns vs -> length (encode big ns vs) = sizeof ns.
Proof. intros H. apply length_encode_eq. symmetry. by eapply Forall2_length. Qed.

Lemma encode_app big ns vs ns' vs' :
  length vs = length ns ->
  encode big (ns ++ ns') (vs ++ vs') = encode big ns vs ++ encode big ns' vs'.
Proof.
  revert vs. induction ns as [|n ns IH]; intros [|v vs] Hlen; try discriminate Hlen; simpl; [done|].
  injection Hlen as Hlen. by rewrite IH, app_assoc.
Qed.

(** One field of the bytes. *)
Lemma encode_field big ns vs i n v :
  ns !! i = Some n -> vs !! i = Some v ->
  take n (drop (sizeof (take i ns)) (encode big ns vs)) = mem_bytes big n v.
Proof.
  revert vs i. induction ns as [|n0 ns IH]; intros [|v0 vs] [|i] Hn Hv; try discriminate; unfold sizeof; simpl in *.
  - simplify_eq. rewrite drop_0. by rewrite take_app_length' by (by rewrite length_mem_bytes).
  - rewrite drop_app_ge by (rewrite length_mem_bytes; lia).
    rewrite length_mem_bytes. replace (n0 + sum_list (take i ns) - n0)%nat with (sum_list (take i ns)) by lia.
    by apply (IH vs i).
Qed.

Lemma decode_field big ns bs i n :
  ns !! i = Some n ->
  decode big ns bs !! i = Some (mem_val big (take n (drop (sizeof (take i ns)) bs))).
Proof.
  revert bs i. induction ns as [|n0 ns IH]; intros bs [|i] Hn; try discriminate; unfold sizeof; simpl in *.
  - by simplify_eq.
  - rewrite IH by done. by rewrite drop_drop.
Qed.

Lemma encode_range big ns vs : is_bytes (encode big ns vs).
Proof.
  revert vs. induction ns as [|n ns IH]; intros [|v vs]; simpl; try constructor.
  apply Forall_app. split; [apply mem_bytes_range|apply IH].
Qed.

Lemma decode_encode big ns vs rest :
  fits ns vs -> decode big ns (encode big ns vs ++ rest) = vs.
Proof.
  induction 1 as [|n v ns vs Hv _ IH]; simpl; [done|].
  rewrite <- app_assoc, take_app_length', drop_app_length' by (by rewrite length_mem_bytes).
  by rewrite IH, mem_val_mem_bytes, wrap_small.
Qed.

Lemma decode_fits big ns bs :
  is_bytes bs -> (sizeof ns <= length bs)%nat -> fits ns (decode big ns bs).
Proof.
  revert bs. induction ns as [|n ns IH]; intros bs Hbs Hlen; simpl; constructor.
  - change (sizeof (n :: ns)) with (n + sizeof ns)%nat in Hlen.
    apply mem_val_unsigned; [by apply Forall_take|]. rewrite length_take. lia.
  - change (sizeof (n :: ns)) with (n + sizeof ns)%nat in Hlen.
    apply IH; [by apply Forall_drop|]. rewrite length_drop. lia.
Qed.

Lemma encode_inj big ns vs vs' :
  fits ns vs -> fits ns vs' -> encode big ns vs = encode big ns vs' -> vs = vs'.
Proof.
  intros H H' Heq. rewrite <- (decode_encode big ns vs []), <- (decode_encode big ns vs' []) by done.
  by rewrite Heq.
Qed.

Lemma hton_mem big n z : mem_bytes big n (hton big n z) = be_bytes n z.
Proof.
  apply mem_bytes_mem_val; [apply (mem_bytes_range true)|apply length_be_bytes].
Qed.

Lemma hton_unsigned big n z : unsigned (8 * Z.of_nat n) (hton big n z).
Proof.
  apply mem_val_unsigned; [apply (mem_bytes_range true)|]. by rewrite length_be_bytes.
Qed.

(** Host memory after the conversion holds the big-endian layout. *)
Lemma encode_hton big ns vs :
  encode big ns (zip_with (hton big) ns vs) = encode true ns vs.
Proof.
  revert vs. induction ns as [|n ns IH]; intros [|v vs]; simpl; try done.
  by rewrite hton_mem, IH.
Qed.

Lemma fits_hton big ns vs :
  length vs = length ns -> fits ns (zip_with (hton big) ns vs).
Proof.
  revert vs. induction ns as [|n ns IH]; intros [|v vs] Hlen; try discriminate Hlen.
  - constructor.
  - simpl. constructor; [apply hton_unsigned|]. apply IH. simpl in Hlen. lia.
Qed.

(** A field read from big-endian memory on a host and converted back. *)
Lemma ntoh_hton big n z :
  unsigned (8 * Z.of_nat n) z -> mem_val true (mem_bytes big n (hton big n z)) = z.
Proof.
  intros Hz. rewrite hton_mem. change (be_bytes n z) with (mem_bytes true n z).
  rewrite mem_val_mem_bytes. by apply wrap_small.
Qed.

(** [hton] undoes itself: both hosts' conversions are the same byte reversal. *)
Lemma hton_hton big n z : unsigned (8 * Z.of_nat n) z -> hton big n (hton big n z) = z.
Proof.
  intros Hz. apply (mem_bytes_inj big n); [apply hton_unsigned|done|].
  rewrite hton_mem. destruct big; simpl.
  - unfold hton, mem_val, be_val. unfold be_bytes. rewrite rev_involutive, le_val_le_bytes.
    by rewrite wrap_small.
  - unfold be_bytes, hton, mem_val.
    rewrite le_bytes_le_val; [by rewrite rev_involutive| |by rewrite length_rev, length_le_bytes].
    apply Forall_rev, le_bytes_range.
Qed.

Lemma htonl_htonl big z : u32 z -> htonl big (htonl big z) = z.
Proof. exact (hton_hton big 4 z). Qed.

Lemma htons_htons big z : u16 z -> htons big (htons big z) = z.
Proof. exact (hton_hton big 2 z). Qed.

(** Values encoded on one host in network order, decoded and converted on
    another. *)
Lemma decode_wire big ns vs rest :
  fits ns vs ->
  zip_with (hton big) ns (decode big ns (encode true ns vs ++ rest)) = vs.
Proof.
  intros H. rewrite <- (encode_hton big). rewrite decode_encode.
  - induction H as [|n v ns vs Hv _ IH]; simpl; [done|]. by rewrite hton_hton, IH.
  - apply fits_hton. symmetry. by eapply Forall2_length.
Qed.

#[export] Hint Rewrite length_encode using assumption : ubwt_len.

#[global] Arguments encode : simpl never.
#[global] Arguments decode : simpl never.
