(* ===== verification/Config.v ===== *)
(** Run-time configuration: src/config.c.

    [config_init] fills the record with the defaults, applies the options in
    the order [getopt] returns them, splits the workers between the two
    directions and checks the result twice: [_config_consistency], which reports
    errors to the user, and [_config_sanity], which asserts. *)

From S2P Require Import Prelude Errors ConfigData Usage.

(** ** [_config_sanity] *)

Definition _config_sanity (b : build) (c : ubwt_config) : res unit :=
  assert_ ((strlen (port c) <=? 5) && (1 <=? atoi (port c)) && (atoi (port c) <=? 65535))
    "port" ;;
  assert_ (UBWT_CONFIG_TALK_PAYLOAD_MIN_SIZE <=? net_mtu c) "net_mtu" ;;
  assert_ ((0 <? net_timeout_default c) && (net_timeout_default c <=? 65535))
    "net_timeout_default" ;;
  assert_ ((0 <? net_timeout_talk_stream_end c) &&
           (net_timeout_talk_stream_end c <? net_timeout_default c))
    "net_timeout_talk_stream_end" ;;
  assert_ ((0 <? net_timeout_talk_stream_run c) &&
           (net_timeout_talk_stream_run c <? net_timeout_talk_stream_end c))
    "net_timeout_talk_stream_run" ;;
  assert_ (negb (net_l4_proto_value c =? 0)) "net_l4_proto_value" ;;
  assert_ ((0 <? process_reverse_delay c) &&
           (process_reverse_delay c <? net_timeout_talk_stream_end c))
    "process_reverse_delay" ;;
  assert_ (0 <? talk_handshake_iter c) "talk_handshake_iter" ;;
  assert_ (0 <? talk_count_current c) "talk_count_current" ;;
  assert_ (0 <? talk_count_default c) "talk_count_default" ;;
  assert_ (0 <? talk_count_max c) "talk_count_max" ;;
  (if truth (talk_count_mul c) then
     assert_ ((1 <? talk_count_mul c) && (talk_count_mul c <? UBWT_CONFIG_TALK_COUNT_MUL_MAX))
       "talk_count_mul"
   else Ok tt) ;;
  assert_ (UBWT_CONFIG_TALK_PAYLOAD_MIN_SIZE <=? talk_payload_current_size c)
    "talk_payload_current_size" ;;
  assert_ (UBWT_CONFIG_TALK_PAYLOAD_MIN_SIZE <=? talk_payload_default_size c)
    "talk_payload_default_size" ;;
  assert_ (UBWT_CONFIG_TALK_PAYLOAD_MIN_SIZE <=? talk_payload_max_size c)
    "talk_payload_max_size" ;;
  assert_ (talk_payload_hdr_size <? talk_payload_current_size c) "talk_payload_current_size" ;;
  assert_ (talk_payload_hdr_size <? talk_payload_default_size c) "talk_payload_default_size" ;;
  assert_ (talk_payload_hdr_size <? talk_payload_max_size c) "talk_payload_max_size" ;;
  assert_ (talk_payload_current_size c <=? talk_payload_max_size c)
    "talk_payload_max_size >= talk_payload_current_size" ;;
  assert_ (talk_payload_default_size c <=? talk_payload_max_size c)
    "talk_payload_max_size >= talk_payload_default_size" ;;
  (if truth (net_payload_buffer_size c) then
     assert_ (talk_payload_default_size c <=? net_payload_buffer_size c)
       "net_payload_buffer_size"
   else Ok tt) ;;
  assert_ (0 <? talk_stream_minimum_time c) "talk_stream_minimum_time" ;;
  if defined (UBWT_CONFIG_MULTI_THREADED b) then
    assert_ ((0 <? worker_count c) && (worker_count c <=? 1024)) "worker_count" ;;
    (if truth (asynchronous c) then
       assert_ (negb (truth (Z.land (worker_count c) 1))) "worker_count & 1" ;;
       assert_ (negb (truth (reverse_first c))) "reverse_first"
     else Ok tt) ;;
    (if net_l4_proto_value c =? UBWT_NET_PROTO_L4_UDP then
       assert_ ((net_l4_proto_value c =? UBWT_NET_PROTO_L4_UDP) && negb (truth (asynchronous c)))
         "UDP && asynchronous" ;;
       assert_ ((net_l4_proto_value c =? UBWT_NET_PROTO_L4_UDP) && (worker_count c =? 1))
         "UDP && worker_count"
     else Ok tt)
  else Ok tt.

(** ** [_config_consistency] *)

Definition inconsistent_if (bad : bool) : res unit :=
  if bad then fatal UBWT_ERROR_TYPE_CONFIG_CONSISTENCY_FAILED else Ok tt.

Definition _config_consistency (c : ubwt_config) : res unit :=
  inconsistent_if (net_timeout_talk_stream_end c <=? net_timeout_talk_stream_run c) ;;
  inconsistent_if (net_timeout_default c <=? net_timeout_talk_stream_end c) ;;
  inconsistent_if (net_timeout_talk_stream_end c <=? process_reverse_delay c) ;;
  inconsistent_if (truth (net_payload_buffer_size c) && null_p (net_payload_buffer_file c)) ;;
  inconsistent_if (negb (truth (net_payload_buffer_size c)) &&
                   negb (null_p (net_payload_buffer_file c))) ;;
  inconsistent_if (truth (net_payload_buffer_size c) &&
                   (net_payload_buffer_size c <? talk_payload_default_size c)).

(** ** [_config_cmdopt_process] *)

(** [malloc(strlen(optarg) + 1)], asserted, then [strcpy]. *)
Definition dup_optarg (en : env) (optarg : string) : res (option string) :=
  assert_ (0 <? strlen optarg) "strlen(optarg) > 0" ;;
  assert_ (malloc_ok en (strlen optarg + 1)) "malloc" ;;
  Ok (Some optarg).

(** The body of the loop for one option, after [usage_check_optarg]. *)
Definition cmdopt_apply (b : build) (en : env) (o : cmdopt) (c : ubwt_config)
    (d : debug_state) : res (ubwt_config * debug_state) :=
  let mt := defined (UBWT_CONFIG_MULTI_THREADED b) in
  let dbg := defined (UBWT_CONFIG_DEBUG b) in
  let timeout := negb (defined (UBWT_CONFIG_NET_NO_TIMEOUT b)) in
  match o with
  | O_A =>
      if mt then Ok (c {{ asynchronous := 1; bidirectional := 1 }}, d) else opt_invalid
  | O_b => Ok (c {{ bidirectional := 1 }}, d)
  | O_B optarg =>
      assert_ ((0 <=? atol optarg) && (atol optarg <=? 2147483647)) "-B" ;;
      Ok (c {{ net_payload_buffer_size := wrap 32 (atol optarg) }}, d)
  | O_C optarg =>
      f ← dup_optarg en optarg; Ok (c {{ net_payload_buffer_file := f }}, d)
  | O_d optarg =>
      if dbg then
        f ← dup_optarg en optarg;
        let c := c {{ debug_file := f; debug := 1 }} in
        d ← debug_update en c; Ok (c, d)
      else opt_invalid
  | O_D =>
      if dbg then
        let c := c {{ debug := 1 }} in
        d ← debug_update en c; Ok (c, d)
      else opt_invalid
  | O_F => Ok (c {{ report_full := 1 }}, d)
  | O_h => usage_show true
  | O_I optarg =>
      assert_ ((0 <=? atoi optarg) && (atoi optarg <? 65536)) "-I" ;;
      Ok (c {{ talk_handshake_interval := wrap 16 (atoi optarg) }}, d)
  | O_j optarg =>
      f ← dup_optarg en optarg; Ok (c {{ report_json_file := f }}, d)
  | O_m optarg =>
      assert_ ((UBWT_CONFIG_TALK_PAYLOAD_MIN_SIZE <=? atoi optarg) && (atoi optarg <? 65536))
        "-m" ;;
      Ok (c {{ net_mtu := wrap 16 (atoi optarg) }}, d)
  | O_M optarg =>
      assert_ ((1 <? atoi optarg) && (atoi optarg <? UBWT_CONFIG_TALK_COUNT_MUL_MAX)) "-M" ;;
      Ok (c {{ talk_count_mul := wrap 32 (atoi optarg) }}, d)
  | O_N optarg =>
      assert_ ((0 <? atoi optarg) && (atoi optarg <? 65536)) "-N" ;;
      Ok (c {{ talk_handshake_iter := wrap 16 (atoi optarg) }}, d)
  | O_o optarg =>
      assert_ ((0 <? atoi optarg) && (atoi optarg <? 65536)) "-o" ;;
      Ok (c {{ process_reverse_delay := wrap 16 (atoi optarg); bidirectional := 1 }}, d)
  | O_O optarg =>
      if timeout then
        assert_ ((0 <? atoi optarg) && (atoi optarg <? 65536)) "-O" ;;
        Ok (c {{ net_timeout_talk_stream_end := wrap 16 (atoi optarg) }}, d)
      else opt_invalid
  | O_p optarg =>
      assert_ (strlen optarg <? 16) "-p" ;;
      let c := c {{ net_l4_proto_name := strncpy_z 16 optarg }} in
      if String.eqb optarg "tcp" then
        Ok (c {{ net_l4_proto_value := UBWT_NET_PROTO_L4_TCP }}, d)
      else if negb (defined (UBWT_CONFIG_NET_NO_UDP b)) && String.eqb optarg "udp" then
        Ok (c {{ net_l4_proto_value := UBWT_NET_PROTO_L4_UDP }}, d)
      else usage_show false
  | O_P optarg => Ok (c {{ port := strncpy_z 8 optarg }}, d)
  | O_r optarg =>
      f ← dup_optarg en optarg; Ok (c {{ pid_file := f }}, d)
  | O_R => Ok (c {{ reverse_first := 1 }}, d)
  | O_s optarg =>
      assert_ ((UBWT_CONFIG_TALK_PAYLOAD_MIN_SIZE <=? atoi optarg) && (atoi optarg <? 65536))
        "-s" ;;
      Ok (c {{ talk_payload_default_size := wrap 16 (atoi optarg) }}, d)
  | O_t optarg =>
      assert_ ((0 <? atoi optarg) && (atoi optarg <? 65536)) "-t" ;;
      Ok (c {{ talk_stream_minimum_time := wrap 16 (atoi optarg) }}, d)
  | O_T optarg =>
      if timeout then
        assert_ ((0 <? atoi optarg) &&
                 (atoi optarg <? UBWT_CONFIG_NET_TIMEOUT_TALK_STREAM_END)) "-T" ;;
        Ok (c {{ net_timeout_talk_stream_run := wrap 16 (atoi optarg) }}, d)
      else opt_invalid
  | O_v => usage_version
  | O_w optarg =>
      if timeout then
        assert_ ((0 <? atoi optarg) && (atoi optarg <? 65536)) "-w" ;;
        Ok (c {{ net_timeout_default := wrap 16 (atoi optarg) }}, d)
      else opt_invalid
  | O_W optarg =>
      if mt then
        assert_ ((0 <? atoi optarg) && (atoi optarg <=? 1024)) "-W" ;;
        Ok (c {{ worker_count := wrap 16 (atoi optarg) }}, d)
      else opt_invalid
  | O_l _ | O_unknown => opt_invalid
  end.

(** The [while] loop over the values of [getopt]. *)
Fixpoint cmdopt_loop (b : build) (en : env) (os : list cmdopt) (c : ubwt_config)
    (d : debug_state) : res (ubwt_config * debug_state) :=
  match os with
  | [] => Ok (c, d)
  | o :: os' =>
      usage_check_optarg b en o c ;;
      cd ← cmdopt_apply b en o c d;
      cmdopt_loop b en os' (fst cd) (snd cd)
  end.

(** [os] are the values of [getopt] before -1, [operands] what follows
    [argv[optind]]. *)
Definition _config_cmdopt_process (b : build) (en : env) (os : list cmdopt)
    (operands : list string) (c : ubwt_config) (d : debug_state)
  : res (ubwt_config * debug_state) :=
  '(c, d) ← cmdopt_loop b en os c d;
  let c :=
    if defined (UBWT_CONFIG_DEBUG b) && truth (debug c)
    then c {{ error_log_min_level := UBWT_ERROR_LEVEL_INFO }} else c in
  match operands with
  | [mode; address] =>
      c ← (if String.eqb mode "connector" then Ok (c {{ im_connector := 1 }})
           else if String.eqb mode "listener" then Ok (c {{ im_listener := 1 }})
           else fatal UBWT_ERROR_TYPE_CONFIG_ARGV_1_INVALID);
      assert_ (strlen address <? 1024) "strlen(argv[optind])" ;;
      Ok (c {{ addr := strncpy_z 1024 address }}, d)
  | _ => usage_show false
  end.

(** ** [config_init] *)

(** The L4 protocol the default name selects. *)
Definition config_proto_defaults (c : ubwt_config) : ubwt_config :=
  if String.eqb UBWT_CONFIG_NET_L4_PROTO_DEFAULT "tcp" then
    c {{ net_l4_proto_value := UBWT_NET_PROTO_L4_TCP;
         net_l4_hdr_size := UBWT_CONFIG_NET_L4_TCP_HEADER_SIZE }}
  else if String.eqb UBWT_CONFIG_NET_L4_PROTO_DEFAULT "udp" then
    c {{ net_l4_proto_value := UBWT_NET_PROTO_L4_UDP;
         net_l4_hdr_size := UBWT_CONFIG_NET_L4_UDP_HEADER_SIZE }}
  else c.

(** The record before the options are read. *)
Definition config_defaults (b : build) (en : env) : ubwt_config :=
  config_proto_defaults {|
    im_connector := 0; im_listener := 0; addr := "";
    port := strncpy_z 8 UBWT_CONFIG_PORT_DEFAULT;
    debug := 0; report_full := 0; bidirectional := 0; asynchronous := 0; reverse_first := 0;
    report_json_file := None; pid_file := None; debug_file := None;
    net_payload_buffer_file := None;
    error_log_min_level := UBWT_ERROR_LEVEL_CRITICAL;
    net_timeout_default := UBWT_CONFIG_NET_TIMEOUT_DEFAULT;
    net_timeout_talk_stream_run := UBWT_CONFIG_NET_TIMEOUT_TALK_STREAM_RUN;
    net_timeout_talk_stream_end := UBWT_CONFIG_NET_TIMEOUT_TALK_STREAM_END;
    net_mtu := UBWT_CONFIG_NET_MTU;
    net_reuseaddr := Zb (defined (UBWT_CONFIG_NET_REUSE_ADDRESS b) && so_reuseaddr en);
    net_reuseport := Zb (defined (UBWT_CONFIG_NET_REUSE_PORT b) && so_reuseport en);
    net_l2_hdr_size := UBWT_CONFIG_NET_L2_HEADER_SIZE;
    net_l3_ipv4_hdr_size := UBWT_CONFIG_NET_L3_IPV4_HEADER_SIZE;
    net_l3_ipv6_hdr_size := UBWT_CONFIG_NET_L3_IPV6_HEADER_SIZE;
    net_l4_hdr_size := 0;
    net_l4_proto_name := strncpy_z 16 UBWT_CONFIG_NET_L4_PROTO_DEFAULT;
    net_l4_proto_value := 0;
    net_payload_buffer_size := 0;
    process_reverse_delay := UBWT_CONFIG_PROCESS_REVERSE_DELAY_SEC;
    talk_handshake_interval := UBWT_CONFIG_TALK_HANDSHAKE_INTERVAL_MSEC;
    talk_handshake_iter := UBWT_CONFIG_TALK_HANDSHAKE_ITER;
    talk_count_current := UBWT_CONFIG_TALK_COUNT_DEFAULT;
    talk_count_default := UBWT_CONFIG_TALK_COUNT_DEFAULT;
    talk_count_max := UBWT_CONFIG_TALK_COUNT_MAX;
    talk_count_mul := 0;
    talk_payload_current_size := UBWT_CONFIG_TALK_PAYLOAD_DEFAULT_SIZE;
    talk_payload_default_size := UBWT_CONFIG_TALK_PAYLOAD_DEFAULT_SIZE;
    talk_payload_max_size := UBWT_CONFIG_TALK_PAYLOAD_MAX_SIZE;
    talk_stream_minimum_time := UBWT_CONFIG_TALK_STREAM_MINIMUM_TIME;
    worker_count :=
      if defined (UBWT_CONFIG_MULTI_THREADED b) then UBWT_CONFIG_PROCESS_WORKER_COUNT else 0;
    worker_straight_first_count := 0; worker_reverse_first_count := 0
  |}.

(** The number of workers that start in each direction. *)
Definition config_split_workers (b : build) (c : ubwt_config) : ubwt_config :=
  if defined (UBWT_CONFIG_MULTI_THREADED b) then
    if truth (asynchronous c) then
      let c :=
        if truth (Z.land (worker_count c) 1)
        then c {{ worker_count ::= fun n => wrap 32 (n + 1) }} else c in
      c {{ worker_straight_first_count := worker_count c / 2;
           worker_reverse_first_count := worker_count c / 2 }}
    else if truth (reverse_first c) then
      c {{ worker_straight_first_count := 0;
           worker_reverse_first_count := worker_count c }}
    else
      c {{ worker_straight_first_count := worker_count c;
           worker_reverse_first_count := 0 }}
  else c.

Definition config_init (b : build) (en : env) (os : list cmdopt) (operands : list string)
    (d : debug_state) : res (ubwt_config * debug_state) :=
  '(c, d) ← _config_cmdopt_process b en os operands (config_defaults b en) d;
  let c := config_split_workers b c in
  _config_consistency c ;;
  _config_sanity b c ;;
  Ok (c, d).

(** ** [config_destroy] *)

Definition config_destroy (c : ubwt_config) : ubwt_config :=
  let c := c {{ report_json_file := None; pid_file := None; debug_file := None }} in
  match net_payload_buffer_file c with
  | Some _ => c {{ net_payload_buffer_file := None; net_payload_buffer_size := 0 }}
  | None => c
  end.
