(* ===== verification/ConfigSpec.v ===== *)
(** Proofs about src/config.c: the invariant every option keeps, what a
    configuration accepted by [config_init] satisfies, and the options whose
    checks disagree. *)

From S2P Require Import Prelude Errors ConfigData Usage Config.

(** ** The configuration invariant

    [config_inv] holds of the defaults and is kept by every option;
    [config_wf] is what a configuration accepted by [config_init] satisfies. *)

Definition bit (z : Z) : Prop := z = 0 \/ z = 1.

Record config_inv (b : build) (c : ubwt_config) : Prop := {
  inv_bidirectional : bit (bidirectional c);
  inv_asynchronous : bit (asynchronous c);
  inv_reverse_first : bit (reverse_first c);
  inv_report_full : bit (report_full c);
  inv_debug : bit (debug c);
  inv_async : asynchronous c = 1 ->
              bidirectional c = 1 /\ defined (UBWT_CONFIG_MULTI_THREADED b) = true;
  inv_timeouts : u16 (net_timeout_default c) /\ u16 (net_timeout_talk_stream_run c) /\
                 u16 (net_timeout_talk_stream_end c) /\ u16 (process_reverse_delay c);
  inv_mtu : 508 <= net_mtu c < 65536;
  inv_reuse : bit (net_reuseaddr c) /\ bit (net_reuseport c);
  inv_hdrs : net_l2_hdr_size c = 26 /\ net_l3_ipv4_hdr_size c = 20 /\
             net_l3_ipv6_hdr_size c = 40 /\ net_l4_hdr_size c = 20;
  inv_proto : net_l4_proto_value c = UBWT_NET_PROTO_L4_TCP \/
              net_l4_proto_value c = UBWT_NET_PROTO_L4_UDP /\
              defined (UBWT_CONFIG_NET_NO_UDP b) = false;
  inv_buffer : 0 <= net_payload_buffer_size c <= 2147483647;
  inv_handshake : u16 (talk_handshake_interval c) /\ 1 <= talk_handshake_iter c < 65536;
  inv_counts : talk_count_current c = 100 /\ talk_count_default c = 100 /\
               talk_count_max c = 1000000000;
  inv_mul : talk_count_mul c = 0 \/ 1 < talk_count_mul c < 10000000;
  inv_payload : talk_payload_current_size c = 1432 /\
                508 <= talk_payload_default_size c < 65536 /\ talk_payload_max_size c = 8192;
  inv_time : 1 <= talk_stream_minimum_time c < 65536;
  inv_workers : if defined (UBWT_CONFIG_MULTI_THREADED b) then 1 <= worker_count c <= 1024
                else worker_count c = 0;
  inv_split : worker_straight_first_count c = 0 /\ worker_reverse_first_count c = 0
}.

Lemma bit_Zb (x : bool) : bit (Zb x).
Proof. destruct x; [by right|by left]. Qed.

Lemma config_defaults_inv b en : config_inv b (config_defaults b en).
Proof.
  constructor; simpl; split_and?; auto using bit_Zb; unfold_config.
  all: try (unfold bit, unsigned; lia).
  destruct (defined _); lia.
Qed.

(** A [uint16_t] conversion is the identity on the checked values. *)
Lemma wrap16_small z : 0 <= z < 65536 -> wrap 16 z = z.
Proof. intros. by apply wrap_small. Qed.

Lemma wrap32_small z : 0 <= z < 4294967296 -> wrap 32 z = z.
Proof. intros. by apply wrap_small. Qed.

Lemma dup_optarg_Ok en s f : dup_optarg en s = Ok f -> f = Some s.
Proof. unfold dup_optarg. intros H. res_inv H. by injection H as <-. Qed.

(** Invert [cmdopt_apply b en o c d = Ok (c', d')] for every option. *)
Ltac cmdopt_inv o H :=
  destruct o; simpl in H;
  repeat match type of H with
  | _ ≫= _ = Ok _ => apply bind_Ok in H as (? & ? & H); simpl in H
  | (if ?x then _ else _) = Ok _ => destruct x eqn:?; simpl in H
  end;
  repeat match goal with Ha : assert_ _ _ = Ok _ |- _ => apply assert_Ok in Ha end;
  to_prop; unfold_config; try discriminate H; injection H as <- <-.

(** Every option keeps the invariant. *)
Lemma cmdopt_apply_inv b en o c d c' d' :
  config_inv b c -> cmdopt_apply b en o c d = Ok (c', d') -> config_inv b c'.
Proof.
  intros Hc H. cmdopt_inv o H.
  all: destruct Hc; destruct c; simpl in *.
  all: constructor; simpl; try assumption.
  all: unfold bit, unsigned in *; rewrite ?wrap16_small, ?wrap32_small by lia.
  all: try (by left); try (by right).
  all: try (right; split; [reflexivity|]; by apply negb_true_iff).
  all: try (intros ?; split; [done|]; done || by apply inv_async0).
  all: rewrite ?Heqb0; lia.
Qed.

(** No option touches the mode or the address. *)
Lemma cmdopt_apply_modes b en o c d c' d' :
  cmdopt_apply b en o c d = Ok (c', d') ->
  im_connector c' = im_connector c /\ im_listener c' = im_listener c.
Proof. intros H. cmdopt_inv o H; done. Qed.

Lemma cmdopt_loop_inv b en os c d c' d' :
  config_inv b c -> cmdopt_loop b en os c d = Ok (c', d') ->
  config_inv b c' /\ im_connector c' = im_connector c /\ im_listener c' = im_listener c.
Proof.
  revert c d. induction os as [|o os IH]; intros c d Hc H; simpl in H.
  { by injection H as <- <-. }
  apply bind_Ok in H as (u & _ & H). apply bind_Ok in H as ([c1 d1] & Ha & H).
  apply cmdopt_apply_modes in Ha as Hm. apply cmdopt_apply_inv in Ha; [|done].
  simpl in H. destruct Hm as [Hm1 Hm2]. apply IH in H as (? & H1 & H2); [|done].
  by rewrite <- Hm1, <- Hm2.
Qed.

(** The configurations [config_init] accepts. *)
Record config_wf (b : build) (c : ubwt_config) : Prop := {
  wf_mode : im_connector c = 1 /\ im_listener c = 0 \/ im_connector c = 0 /\ im_listener c = 1;
  wf_port : strlen (port c) <= 5 /\ 1 <= atoi (port c) <= 65535;
  wf_addr : strlen (addr c) < 1024;
  wf_bits : bit (bidirectional c) /\ bit (asynchronous c) /\ bit (reverse_first c);
  wf_timeouts : 0 < net_timeout_talk_stream_run c < net_timeout_talk_stream_end c /\
                net_timeout_talk_stream_end c < net_timeout_default c < 65536;
  wf_delay : 0 < process_reverse_delay c < net_timeout_talk_stream_end c;
  wf_mtu : 508 <= net_mtu c < 65536;
  wf_hdrs : net_l2_hdr_size c = 26 /\ net_l3_ipv4_hdr_size c = 20 /\
            net_l3_ipv6_hdr_size c = 40 /\ net_l4_hdr_size c = 20;
  wf_proto : net_l4_proto_value c = UBWT_NET_PROTO_L4_TCP \/
             net_l4_proto_value c = UBWT_NET_PROTO_L4_UDP /\
             defined (UBWT_CONFIG_NET_NO_UDP b) = false;
  wf_handshake : u16 (talk_handshake_interval c) /\ 1 <= talk_handshake_iter c < 65536;
  wf_counts : talk_count_current c = 100 /\ talk_count_default c = 100 /\
              talk_count_max c = 1000000000;
  wf_mul : talk_count_mul c = 0 \/ 1 < talk_count_mul c < 10000000;
  wf_payload : talk_payload_current_size c = 1432 /\
               508 <= talk_payload_default_size c <= 8192 /\ talk_payload_max_size c = 8192;
  wf_buffer : net_payload_buffer_size c = 0 /\ net_payload_buffer_file c = None \/
              talk_payload_default_size c <= net_payload_buffer_size c <= 2147483647 /\
              net_payload_buffer_file c <> None;
  wf_time : 1 <= talk_stream_minimum_time c < 65536;
  wf_async : asynchronous c = 1 ->
             bidirectional c = 1 /\ reverse_first c = 0 /\
             net_l4_proto_value c = UBWT_NET_PROTO_L4_TCP /\
             defined (UBWT_CONFIG_MULTI_THREADED b) = true;
  wf_workers :
    if defined (UBWT_CONFIG_MULTI_THREADED b) then
      1 <= worker_count c <= 1024 /\
      worker_straight_first_count c + worker_reverse_first_count c = worker_count c /\
      (net_l4_proto_value c = UBWT_NET_PROTO_L4_UDP -> worker_count c = 1) /\
      (asynchronous c = 1 -> worker_straight_first_count c = worker_reverse_first_count c) /\
      (asynchronous c = 0 -> reverse_first c = 0 -> worker_reverse_first_count c = 0) /\
      (asynchronous c = 0 -> reverse_first c = 1 -> worker_straight_first_count c = 0)
    else worker_count c = 0 /\ worker_straight_first_count c = 0 /\
         worker_reverse_first_count c = 0
}.

(** The fields the mode, the address and the log level are stored in are not
    constrained by the invariant. *)
Ltac inv_frame Hc c := destruct Hc; destruct c; simpl in *; constructor; simpl; assumption.

Lemma config_inv_im_connector b c z : config_inv b c -> config_inv b (c {{ im_connector := z }}).
Proof. intros Hc. inv_frame Hc c. Qed.

Lemma config_inv_im_listener b c z : config_inv b c -> config_inv b (c {{ im_listener := z }}).
Proof. intros Hc. inv_frame Hc c. Qed.

Lemma config_inv_addr b c s : config_inv b c -> config_inv b (c {{ addr := s }}).
Proof. intros Hc. inv_frame Hc c. Qed.

Lemma config_inv_log_level b c l :
  config_inv b c -> config_inv b (c {{ error_log_min_level := l }}).
Proof. intros Hc. inv_frame Hc c. Qed.

Lemma strlen_substring n m s : strlen (String.substring n m s) <= Z.of_nat m.
Proof.
  unfold strlen. enough (String.length (String.substring n m s) <= m)%nat by lia.
  revert n m. induction s as [|a s IH]; intros [|n] [|m]; simpl; try lia; apply IH || idtac.
  specialize (IH 0%nat m). lia.
Qed.

Lemma cmdopt_process_inv b en os operands d c' d' :
  _config_cmdopt_process b en os operands (config_defaults b en) d = Ok (c', d') ->
  config_inv b c' /\ strlen (addr c') < 1024 /\
  (im_connector c' = 1 /\ im_listener c' = 0 \/ im_connector c' = 0 /\ im_listener c' = 1).
Proof.
  unfold _config_cmdopt_process. intros H. apply bind_Ok in H as ([c d1] & Hl & H).
  apply cmdopt_loop_inv in Hl as (Hc & H1 & H2); [|apply config_defaults_inv].
  simpl in H1, H2.
  set (c1 := if _ && _ then _ else c) in H.
  assert (config_inv b c1 /\ im_connector c1 = 0 /\ im_listener c1 = 0) as (Hc1 & Hm1 & Hm2).
  { subst c1. destruct (_ && _); [|done]. split; [by apply config_inv_log_level|done]. }
  destruct operands as [|mode [|address [|? ?]]]; try discriminate H.
  apply bind_Ok in H as (c2 & Hmode & H).
  apply assert_bind_Ok in H as [Hlen H]. injection H as <- <-.
  split_and!.
  - apply config_inv_addr. destruct (String.eqb mode "connector"); [|destruct (String.eqb mode "listener")];
      try discriminate Hmode; injection Hmode as <-;
      (by apply config_inv_im_connector) || (by apply config_inv_im_listener).
  - simpl. unfold strncpy_z. pose proof (strlen_substring 0 (1024 - 1) address). lia.
  - destruct (String.eqb mode "connector"); [|destruct (String.eqb mode "listener")];
      try discriminate Hmode; injection Hmode as <-; simpl; auto.
Qed.

(** The workers are split without loss. *)
Lemma split_workers_spec b c :
  config_inv b c ->
  let c' := config_split_workers b c in
  worker_straight_first_count c' + worker_reverse_first_count c' = worker_count c' /\
  (asynchronous c = 1 -> worker_straight_first_count c' = worker_reverse_first_count c') /\
  (asynchronous c = 0 -> worker_count c' = worker_count c) /\
  (asynchronous c = 0 -> reverse_first c = 0 -> worker_reverse_first_count c' = 0) /\
  (asynchronous c = 0 -> reverse_first c = 1 -> worker_straight_first_count c' = 0).
Proof.
  intros Hc c'. destruct Hc as [_ Hasync Hrev _ _ _ _ _ _ _ _ _ _ _ _ _ _ Hw Hs].
  unfold config_split_workers in c'. destruct c; simpl in *.
  destruct (defined (UBWT_CONFIG_MULTI_THREADED b)); [|subst c'; unfold bit in *; simpl; lia].
  destruct Hasync as [-> | ->]; subst c'; simpl.
  { destruct Hrev as [-> | ->]; simpl; lia. }
  rewrite land_1_truth. destruct (Z.odd _) eqn:Hodd; simpl.
  - rewrite wrap32_small by lia. apply Z.odd_spec in Hodd as [k ->].
    replace (2 * k + 1 + 1) with ((k + 1) * 2) by lia. rewrite Z.div_mul by lia. lia.
  - rewrite <- Z.negb_even, negb_false_iff in Hodd. apply Z.even_spec in Hodd as [k ->].
    rewrite (Z.mul_comm 2), Z.div_mul by lia. lia.
Qed.

(** The split changes only the worker counts. *)
Lemma split_workers_frame b c :
  let c' := config_split_workers b c in
  exists n s r, c' = c {{ worker_count := n; worker_straight_first_count := s;
                          worker_reverse_first_count := r }}.
Proof.
  intros c'. subst c'. unfold config_split_workers. destruct c; simpl.
  destruct (defined _); [destruct (truth _); [destruct (truth _)|destruct (truth _)]|].
  all: do 3 eexists; reflexivity.
Qed.

Lemma inconsistent_if_Ok bad u : inconsistent_if bad = Ok u <-> bad = false.
Proof. destruct bad, u; simpl; split; (done || discriminate). Qed.

Lemma inconsistent_bind_Ok {A} bad (k : unit -> res A) a :
  inconsistent_if bad ≫= k = Ok a <-> bad = false /\ k tt = Ok a.
Proof. destruct bad; simpl; split; naive_solver. Qed.

(** What [_config_consistency] guarantees when it returns. *)
Lemma consistency_Ok c u :
  _config_consistency c = Ok u ->
  net_timeout_talk_stream_run c < net_timeout_talk_stream_end c /\
  net_timeout_talk_stream_end c < net_timeout_default c /\
  process_reverse_delay c < net_timeout_talk_stream_end c /\
  (net_payload_buffer_size c <> 0 <-> net_payload_buffer_file c <> None) /\
  (net_payload_buffer_size c <> 0 -> talk_payload_default_size c <= net_payload_buffer_size c).
Proof.
  unfold _config_consistency. intros H.
  repeat (apply inconsistent_bind_Ok in H as [? H]).
  apply inconsistent_if_Ok in H. unfold truth, null_p in *.
  destruct (net_payload_buffer_size c =? 0) eqn:E; destruct (net_payload_buffer_file c);
    simpl in *; try discriminate; to_prop; intuition (discriminate || congruence || lia).
Qed.

(** What the assertions of [_config_sanity] add to the loop invariant. *)
Lemma sanity_Ok b c u :
  _config_sanity b c = Ok u ->
  (strlen (port c) <= 5 /\ 1 <= atoi (port c) <= 65535) /\
  0 < net_timeout_talk_stream_run c /\ 0 < process_reverse_delay c /\
  net_timeout_default c <= 65535 /\
  talk_payload_default_size c <= talk_payload_max_size c /\
  (defined (UBWT_CONFIG_MULTI_THREADED b) = true ->
   1 <= worker_count c <= 1024 /\
   (asynchronous c = 1 -> reverse_first c = 0) /\
   (net_l4_proto_value c = UBWT_NET_PROTO_L4_UDP -> asynchronous c = 0 /\ worker_count c = 1)).
Proof.
  unfold _config_sanity. intros H. res_inv H.
  repeat (apply bind_Ok in H as (? & _ & H); res_inv H; simpl in H).
  to_prop. split_and!; try lia.
  intros Hmt. rewrite Hmt in H. res_inv H. apply bind_Ok in H as (? & Ha & H).
  to_prop. split_and!; try lia.
  - intros Hasync. rewrite Hasync in Ha. simpl in Ha. res_inv Ha. to_prop.
    unfold truth in Ha. to_prop. done.
  - intros Hudp. rewrite Hudp in H. simpl in H. res_inv H. to_prop.
    unfold truth in *. to_prop. done.
Qed.

Lemma config_init_inv b en os operands d c d' :
  config_init b en os operands d = Ok (c, d') ->
  exists c1, config_inv b c1 /\ strlen (addr c1) < 1024 /\
    (im_connector c1 = 1 /\ im_listener c1 = 0 \/ im_connector c1 = 0 /\ im_listener c1 = 1) /\
    c = config_split_workers b c1 /\ _config_consistency c = Ok tt /\ _config_sanity b c = Ok tt.
Proof.
  unfold config_init. intros H. apply bind_Ok in H as ([c1 d1] & Hp & H).
  apply cmdopt_process_inv in Hp as (? & ? & ?).
  apply bind_Ok in H as ([] & Hc & H). apply bind_Ok in H as ([] & Hs & H).
  injection H as <- <-. by exists c1.
Qed.

(** The configurations [config_init] returns are well formed. *)
Lemma config_init_Ok_wf b en os operands d c d' :
  config_init b en os operands d = Ok (c, d') -> config_wf b c.
Proof.
  intros H. apply config_init_inv in H as (c1 & Hinv & Haddr & Hmode & -> & Hcons & Hsan).
  apply consistency_Ok in Hcons as (Hc1 & Hc2 & Hc3 & Hc4 & Hc5).
  apply sanity_Ok in Hsan as (Hs1 & Hs2 & Hs3 & Hs4 & Hs5 & Hs6).
  pose proof (split_workers_spec b c1 Hinv) as (Hw1 & Hw2 & _ & Hw4 & Hw5).
  assert (defined (UBWT_CONFIG_MULTI_THREADED b) = false -> config_split_workers b c1 = c1) as Hst.
  { unfold config_split_workers. by intros ->. }
  destruct (split_workers_frame b c1) as (n & s & r & Heq). rewrite Heq in *.
  destruct Hinv. destruct c1; simpl in *. unfold unsigned, bit in *.
  constructor; simpl; unfold unsigned, bit; try assumption.
  - split_and!; assumption.
  - clear -inv_timeouts0 Hc1 Hc2 Hs2. lia.
  - clear -Hc3 Hs3. lia.
  - clear -inv_payload0 Hs5. lia.
  - destruct net_payload_buffer_file as [f|].
    + right. assert (net_payload_buffer_size <> 0) as Hne by (by apply Hc4).
      specialize (Hc5 Hne). clear -Hc5 inv_buffer0. split; [lia|done].
    + left. destruct (decide (net_payload_buffer_size = 0)) as [|Hne]; [done|].
      by apply Hc4 in Hne.
  - intros Ha. destruct (inv_async0 Ha) as [? Hmt]. destruct (Hs6 Hmt) as (_ & Hr & Hudp).
    split_and!; [done|by apply Hr| |done]. destruct inv_proto0 as [|[Hu _]]; [done|].
    apply Hudp in Hu. clear -Ha Hu. lia.
  - destruct (defined (UBWT_CONFIG_MULTI_THREADED b)) eqn:Hmt.
    + destruct (Hs6 eq_refl) as (Hn & _ & Hudp). split_and!; try assumption; try apply Hn.
      intros Hu. by apply Hudp.
    + specialize (Hst eq_refl). injection Hst as -> -> ->. by destruct inv_split0.
Qed.

(** C13: every configuration [config_init] returns, whatever the options and the
    order they come in, is well formed: exactly one mode, a port and timeouts in
    range and strictly ordered, a reverse delay below the stream-end timeout, a
    payload buffer present exactly when its file is, asynchronous mode only over
    TCP, bidirectional and without [-R], a single worker over UDP, and the workers
    split without loss between the two directions. *)
Theorem config_init_wf b en os operands d c d' :
  config_init b en os operands d = Ok (c, d') -> config_wf b c.
Proof. apply config_init_Ok_wf. Qed.

(** The environment of the examples: every file opens, memory suffices. *)
Definition env_ok : env :=
  {| fopen_ok := fun _ _ => true; malloc_ok := fun _ => true;
     so_reuseaddr := true; so_reuseport := true |}.

Lemma config_init_wf_witness :
  exists c, config_wf build_linux c /\ worker_count c = 6 /\ asynchronous c = 1.
Proof.
  destruct (config_init build_linux env_ok [O_A; O_W "5"; O_t "10"] ["listener"; "0.0.0.0"]%string
              debug_init) as [[c d]|] eqn:H.
  - exists c. split; [by apply (config_init_wf _ _ _ _ _ _ _ H)|].
    vm_compute in H. injection H as <- _. split; reflexivity.
  - vm_compute in H. discriminate H.
Defined.

(** ** Options whose two checks disagree *)

(** [usage_check_optarg] accepts for [-T] any value from 1 to 65535 (as its
    message says), but the assertion in the option loop requires a value below
    the default stream-end timeout of 20: values from 20 up abort the program. *)
Theorem stream_timeout_option_asserts b en s c d :
  defined (UBWT_CONFIG_NET_NO_TIMEOUT b) = false ->
  20 <= atoi s < 65536 ->
  usage_check_optarg b en (O_T s) c = Ok tt /\
  cmdopt_apply b en (O_T s) c d = Stop (Assertion "-T").
Proof.
  intros Hb Hs. simpl. rewrite Hb. simpl. unfold_config.
  replace (atoi s <=? 0) with false by lia. replace (65536 <=? atoi s) with false by lia.
  replace (atoi s <? 20) with false by lia. by rewrite andb_false_r.
Qed.

Lemma stream_timeout_option_asserts_witness :
  usage_check_optarg build_linux env_ok (O_T "25") (config_defaults build_linux env_ok) = Ok tt /\
  cmdopt_apply build_linux env_ok (O_T "25") (config_defaults build_linux env_ok) debug_init =
    Stop (Assertion "-T").
Proof.
  apply stream_timeout_option_asserts; [reflexivity|].
  vm_compute. split; congruence.
Defined.

(** The payload size used on the wire, [talk_payload_current_size], is 1432 in
    every accepted configuration, whatever [-s] options are given: the option
    stores its value in [talk_payload_default_size] only. *)
Theorem payload_size_option_ignored b en os operands d c d' :
  config_init b en os operands d = Ok (c, d') ->
  talk_payload_current_size c = UBWT_CONFIG_TALK_PAYLOAD_DEFAULT_SIZE.
Proof.
  intros H. apply config_init_inv in H as (c1 & Hinv & _ & _ & -> & _).
  destruct (split_workers_frame b c1) as (n & s & r & ->).
  destruct Hinv. destruct c1; simpl in *. by destruct inv_payload0 as [-> _].
Qed.

Lemma payload_size_option_ignored_witness :
  exists c, talk_payload_current_size c = 1432 /\ talk_payload_default_size c = 8000.
Proof.
  destruct (config_init build_linux env_ok [O_s "8000"] ["connector"; "h"]%string
              debug_init) as [[c d]|] eqn:H.
  - exists c. split; [by apply (payload_size_option_ignored _ _ _ _ _ _ _ H)|].
    vm_compute in H. injection H as <- _. reflexivity.
  - vm_compute in H. discriminate H.
Defined.
