(* ===== verification/Conn.v ===== *)
(** The connection payload: include/conn.h and src/conn.c.

    When a worker connects, each end sends the other a fixed structure that
    carries its role and the parameters both must agree on.  The payload is
    modelled down to its padding bytes, because [conn_config_match] compares the
    bytes of two structures. *)

From S2P Require Import Prelude Bitops Errors Byteorder Layout ConfigData Config ConfigSpec.

Definition UBWT_CONN_MAGIC : Z := 0x47A8F3CD.

Definition UBWT_CONN_BASE_FLAG_CONNECT : Z := 1.
Definition UBWT_CONN_BASE_FLAG_ACCEPT : Z := 2.

Inductive ubwt_conn_config_flag_t :=
| UBWT_CONN_CONFIG_FLAG_ASYNC
| UBWT_CONN_CONFIG_FLAG_BIDIR
| UBWT_CONN_CONFIG_FLAG_REVRS
| UBWT_CONN_CONFIG_FLAG_MTU
| UBWT_CONN_CONFIG_FLAG_HSINTERV
| UBWT_CONN_CONFIG_FLAG_HSITER
| UBWT_CONN_CONFIG_FLAG_CTIMEO
| UBWT_CONN_CONFIG_FLAG_STIME
| UBWT_CONN_CONFIG_FLAG_PLSIZE
| UBWT_CONN_CONFIG_FLAG_WRKCNT
| UBWT_CONN_CONFIG_FLAG_CNTMUL
| UBWT_CONN_CONFIG_FLAG_STIMEO
| UBWT_CONN_CONFIG_FLAG_ETIMEO
| UBWT_CONN_CONFIG_FLAG_REVDLY.

Definition conn_config_flag_value (f : ubwt_conn_config_flag_t) : Z :=
  match f with
  | UBWT_CONN_CONFIG_FLAG_ASYNC => 1
  | UBWT_CONN_CONFIG_FLAG_BIDIR => 2
  | UBWT_CONN_CONFIG_FLAG_REVRS => 3
  | UBWT_CONN_CONFIG_FLAG_MTU => 4
  | UBWT_CONN_CONFIG_FLAG_HSINTERV => 5
  | UBWT_CONN_CONFIG_FLAG_HSITER => 6
  | UBWT_CONN_CONFIG_FLAG_CTIMEO => 7
  | UBWT_CONN_CONFIG_FLAG_STIME => 8
  | UBWT_CONN_CONFIG_FLAG_PLSIZE => 9
  | UBWT_CONN_CONFIG_FLAG_WRKCNT => 10
  | UBWT_CONN_CONFIG_FLAG_CNTMUL => 11
  | UBWT_CONN_CONFIG_FLAG_STIMEO => 12
  | UBWT_CONN_CONFIG_FLAG_ETIMEO => 13
  | UBWT_CONN_CONFIG_FLAG_REVDLY => 14
  end.

(** [ubwt_conn_payload_t]; the last two fields are the padding bytes. *)
Record ubwt_conn_payload_t := {
  flags : Z;
  magic : Z;
  config_flags : Z;
  config_worker_count : Z;
  config_link_mtu : Z;
  config_l4_payload_size : Z;
  config_conn_timeout : Z;
  config_handshake_iter : Z;
  config_handshake_interval : Z;
  config_stream_run_timeout : Z;
  config_stream_end_timeout : Z;
  config_reverse_delay : Z;
  config_stream_time : Z;
  config_count_mul : Z;
  padding0 : Z;
  padding1 : Z
}.

(** The two layouts the header can select.  With [#pragma pack(4)] the padding
    aligns [config_stream_time]; a packed structure has it at the end. *)
Inductive conn_layout := Pack4 | PackedAligned4.

Definition conn_build_layout (b : build) : conn_layout :=
  if defined (UBWT_CONFIG_NO_PRAGMA_PACK b) then PackedAligned4 else Pack4.

Definition conn_sizes (l : conn_layout) : list nat :=
  match l with
  | Pack4 => [4; 4; 4; 2; 2; 2; 2; 2; 2; 2; 2; 2; 1; 1; 4; 4]%nat
  | PackedAligned4 => [4; 4; 4; 2; 2; 2; 2; 2; 2; 2; 2; 2; 4; 4; 1; 1]%nat
  end.

Definition conn_fields (l : conn_layout) (p : ubwt_conn_payload_t) : list Z :=
  [flags p; magic p; config_flags p; config_worker_count p; config_link_mtu p;
   config_l4_payload_size p; config_conn_timeout p; config_handshake_iter p;
   config_handshake_interval p; config_stream_run_timeout p; config_stream_end_timeout p;
   config_reverse_delay p] ++
  match l with
  | Pack4 => [padding0 p; padding1 p; config_stream_time p; config_count_mul p]
  | PackedAligned4 => [config_stream_time p; config_count_mul p; padding0 p; padding1 p]
  end.

(** The bytes of a payload in the memory of a host, and back. *)
Definition conn_bytes (big : bool) (l : conn_layout) (p : ubwt_conn_payload_t) : list Z :=
  encode big (conn_sizes l) (conn_fields l p).

Definition conn_of_fields (l : conn_layout) (vs : list Z) : ubwt_conn_payload_t :=
  let at' i := nth i vs 0 in
  let '(t, m, p0, p1) :=
    match l with
    | Pack4 => (at' 14, at' 15, at' 12, at' 13)%nat
    | PackedAligned4 => (at' 12, at' 13, at' 14, at' 15)%nat
    end in
  {| flags := at' 0%nat; magic := at' 1%nat; config_flags := at' 2%nat;
     config_worker_count := at' 3%nat; config_link_mtu := at' 4%nat;
     config_l4_payload_size := at' 5%nat; config_conn_timeout := at' 6%nat;
     config_handshake_iter := at' 7%nat; config_handshake_interval := at' 8%nat;
     config_stream_run_timeout := at' 9%nat; config_stream_end_timeout := at' 10%nat;
     config_reverse_delay := at' 11%nat; config_stream_time := t; config_count_mul := m;
     padding0 := p0; padding1 := p1 |}.

Definition conn_of_bytes (big : bool) (l : conn_layout) (bs : list Z) : ubwt_conn_payload_t :=
  conn_of_fields l (decode big (conn_sizes l) bs).

(** [offsetof(ubwt_conn_payload_t, config_flags)] in both layouts. *)
Definition conn_config_offset : nat := 8.

(** [sizeof(ubwt_conn_payload_t)] in both layouts. *)
Definition conn_payload_size : nat := 40.

Definition conn_has_connect (p : ubwt_conn_payload_t) : bool :=
  truth (bit_test (flags p) UBWT_CONN_BASE_FLAG_CONNECT) && (magic p =? UBWT_CONN_MAGIC).

Definition conn_has_accept (p : ubwt_conn_payload_t) : bool :=
  truth (bit_test (flags p) UBWT_CONN_BASE_FLAG_ACCEPT) && (magic p =? UBWT_CONN_MAGIC).

Definition conn_config_match (big : bool) (ly : conn_layout) (l r : ubwt_conn_payload_t) : bool :=
  bool_decide (drop conn_config_offset (conn_bytes big ly l) =
               drop conn_config_offset (conn_bytes big ly r)).

Definition conn_payload_hton (big : bool) (p : ubwt_conn_payload_t) : ubwt_conn_payload_t := {|
  flags := htonl big (flags p);
  magic := htonl big (magic p);
  config_flags := htonl big (config_flags p);
  config_worker_count := htons big (config_worker_count p);
  config_link_mtu := htons big (config_link_mtu p);
  config_l4_payload_size := htons big (config_l4_payload_size p);
  config_conn_timeout := htons big (config_conn_timeout p);
  config_handshake_iter := htons big (config_handshake_iter p);
  config_handshake_interval := htons big (config_handshake_interval p);
  config_stream_run_timeout := htons big (config_stream_run_timeout p);
  config_stream_end_timeout := htons big (config_stream_end_timeout p);
  config_reverse_delay := htons big (config_reverse_delay p);
  config_stream_time := htonl big (config_stream_time p);
  config_count_mul := htonl big (config_count_mul p);
  padding0 := padding0 p;
  padding1 := padding1 p
|}.

Definition conn_payload_ntoh (big : bool) (p : ubwt_conn_payload_t) : ubwt_conn_payload_t := {|
  flags := ntohl big (flags p);
  magic := ntohl big (magic p);
  config_flags := ntohl big (config_flags p);
  config_worker_count := ntohs big (config_worker_count p);
  config_link_mtu := ntohs big (config_link_mtu p);
  config_l4_payload_size := ntohs big (config_l4_payload_size p);
  config_conn_timeout := ntohs big (config_conn_timeout p);
  config_handshake_iter := ntohs big (config_handshake_iter p);
  config_handshake_interval := ntohs big (config_handshake_interval p);
  config_stream_run_timeout := ntohs big (config_stream_run_timeout p);
  config_stream_end_timeout := ntohs big (config_stream_end_timeout p);
  config_reverse_delay := ntohs big (config_reverse_delay p);
  config_stream_time := ntohl big (config_stream_time p);
  config_count_mul := ntohl big (config_count_mul p);
  padding0 := padding0 p;
  padding1 := padding1 p
|}.

(** [memset(p, 0, sizeof( *p))]. *)
Definition conn_zero : ubwt_conn_payload_t := conn_of_fields Pack4 [].

Definition set_config_flag (f : ubwt_conn_config_flag_t) (p : ubwt_conn_payload_t)
  : ubwt_conn_payload_t :=
  p {{ config_flags ::= fun w => bit_set w (conn_config_flag_value f) }}.

Definition conn_payload_create (b : build) (c : ubwt_config) : ubwt_conn_payload_t :=
  let p := conn_zero in
  let p :=
    if truth (im_connector c)
    then p {{ flags ::= fun w => bit_set w UBWT_CONN_BASE_FLAG_CONNECT }}
    else p {{ flags ::= fun w => bit_set w UBWT_CONN_BASE_FLAG_ACCEPT }} in
  let p := p {{ magic := UBWT_CONN_MAGIC }} in
  let p := if truth (asynchronous c) then set_config_flag UBWT_CONN_CONFIG_FLAG_ASYNC p else p in
  let p := if truth (bidirectional c) then set_config_flag UBWT_CONN_CONFIG_FLAG_BIDIR p else p in
  let p := if truth (reverse_first c) then set_config_flag UBWT_CONN_CONFIG_FLAG_REVRS p else p in
  let p := set_config_flag UBWT_CONN_CONFIG_FLAG_MTU p in
  let p := p {{ config_link_mtu := wrap 16 (net_mtu c) }} in
  let p := set_config_flag UBWT_CONN_CONFIG_FLAG_HSINTERV p in
  let p := p {{ config_handshake_interval := wrap 16 (talk_handshake_interval c) }} in
  let p := set_config_flag UBWT_CONN_CONFIG_FLAG_HSITER p in
  let p := p {{ config_handshake_iter := wrap 16 (talk_handshake_iter c) }} in
  let p := set_config_flag UBWT_CONN_CONFIG_FLAG_CTIMEO p in
  let p := p {{ config_conn_timeout := wrap 16 (net_timeout_default c) }} in
  let p := set_config_flag UBWT_CONN_CONFIG_FLAG_STIMEO p in
  let p := p {{ config_stream_run_timeout := wrap 16 (net_timeout_talk_stream_run c) }} in
  let p := set_config_flag UBWT_CONN_CONFIG_FLAG_ETIMEO p in
  let p := p {{ config_stream_end_timeout := wrap 16 (net_timeout_talk_stream_end c) }} in
  let p := set_config_flag UBWT_CONN_CONFIG_FLAG_STIME p in
  let p := p {{ config_stream_time := wrap 32 (talk_stream_minimum_time c) }} in
  let p := set_config_flag UBWT_CONN_CONFIG_FLAG_REVDLY p in
  let p := p {{ config_reverse_delay := wrap 16 (process_reverse_delay c) }} in
  let p := set_config_flag UBWT_CONN_CONFIG_FLAG_CNTMUL p in
  let p := p {{ config_count_mul := wrap 32 (talk_count_mul c) }} in
  let p := set_config_flag UBWT_CONN_CONFIG_FLAG_PLSIZE p in
  let p := p {{ config_l4_payload_size := wrap 16 (talk_payload_current_size c) }} in
  let p := set_config_flag UBWT_CONN_CONFIG_FLAG_WRKCNT p in
  if defined (UBWT_CONFIG_MULTI_THREADED b)
  then p {{ config_worker_count := wrap 16 (worker_count c) }}
  else p {{ config_worker_count := 1 }}.

(** ** The created payload *)

(** The flag word that [conn_payload_create] builds. *)
Definition conn_flag_bits (async bidir revrs : bool) : Z :=
  0x7FF0 + (if async then 2 else 0) + (if bidir then 4 else 0) + (if revrs then 8 else 0).

Lemma conn_payload_create_eq b c :
  conn_payload_create b c = {|
    flags := if truth (im_connector c) then 2 else 4;
    magic := UBWT_CONN_MAGIC;
    config_flags :=
      conn_flag_bits (truth (asynchronous c)) (truth (bidirectional c)) (truth (reverse_first c));
    config_worker_count :=
      if defined (UBWT_CONFIG_MULTI_THREADED b) then wrap 16 (worker_count c) else 1;
    config_link_mtu := wrap 16 (net_mtu c);
    config_l4_payload_size := wrap 16 (talk_payload_current_size c);
    config_conn_timeout := wrap 16 (net_timeout_default c);
    config_handshake_iter := wrap 16 (talk_handshake_iter c);
    config_handshake_interval := wrap 16 (talk_handshake_interval c);
    config_stream_run_timeout := wrap 16 (net_timeout_talk_stream_run c);
    config_stream_end_timeout := wrap 16 (net_timeout_talk_stream_end c);
    config_reverse_delay := wrap 16 (process_reverse_delay c);
    config_stream_time := wrap 32 (talk_stream_minimum_time c);
    config_count_mul := wrap 32 (talk_count_mul c);
    padding0 := 0; padding1 := 0 |}.
Proof.
  unfold conn_payload_create.
  destruct (truth (im_connector c)), (truth (asynchronous c)), (truth (bidirectional c)),
    (truth (reverse_first c)), (defined (UBWT_CONFIG_MULTI_THREADED b)); reflexivity.
Qed.

Lemma conn_flag_bits_inj a b r a' b' r' :
  conn_flag_bits a b r = conn_flag_bits a' b' r' -> a = a' /\ b = b' /\ r = r'.
Proof. destruct a, b, r, a', b', r'; (done || discriminate). Qed.

(** A payload whose fields are in the range of their types. *)
Definition conn_fits (p : ubwt_conn_payload_t) : Prop :=
  fits (conn_sizes Pack4) (conn_fields Pack4 p).

(** Split a [conn_fits] into the ranges of its fields. *)
Ltac conn_fits_inv H :=
  unfold conn_fits, fits, conn_fields in H; simpl in H;
  repeat (apply Forall2_cons_1 in H as [? H]).

Lemma conn_fits_layout l p : conn_fits p -> fits (conn_sizes l) (conn_fields l p).
Proof.
  destruct l; [done|]. intros H. conn_fits_inv H. unfold fits, conn_fields; simpl.
  repeat (constructor; [assumption|]). constructor.
Qed.

Lemma conn_create_fits b c : conn_fits (conn_payload_create b c).
Proof.
  rewrite conn_payload_create_eq. unfold conn_fits, fits, conn_fields. simpl.
  repeat match goal with
  | |- Forall2 _ (_ :: _) _ => apply Forall2_cons
  | |- Forall2 _ [] _ => apply Forall2_nil
  end; try (by apply (wrap_range 16)); try (by apply (wrap_range 32)).
  - destruct (truth _); split; vm_compute; congruence.
  - split; vm_compute; congruence.
  - destruct (truth _), (truth _), (truth _); split; vm_compute; congruence.
  - destruct (defined _); [by apply (wrap_range 16)|split; vm_compute; congruence].
  - split; vm_compute; congruence.
  - split; vm_compute; congruence.
Qed.

Lemma conn_of_fields_fields l p : conn_of_fields l (conn_fields l p) = p.
Proof. destruct p, l; reflexivity. Qed.

Lemma hton1 (big : bool) (z : Z) : u8 z -> hton big 1 z = z.
Proof.
  intros Hz. destruct big; unfold hton, mem_val, be_val, be_bytes, le_bytes, le_val, unsigned in *;
    simpl; rewrite Z.mod_small by lia; lia.
Qed.

(** The field-by-field conversion is the conversion of the layout. *)
Lemma conn_hton_fields big l p :
  conn_fits p ->
  conn_fields l (conn_payload_hton big p) = zip_with (hton big) (conn_sizes l) (conn_fields l p).
Proof.
  intros H. conn_fits_inv H.
  assert (hton big 1 (padding0 p) = padding0 p /\ hton big 1 (padding1 p) = padding1 p) as [Hp0 Hp1]
    by (by split; apply hton1).
  destruct l; unfold conn_fields; simpl; rewrite Hp0, Hp1; reflexivity.
Qed.

Lemma conn_ntoh_is_hton big p : conn_payload_ntoh big p = conn_payload_hton big p.
Proof. unfold conn_payload_ntoh, conn_payload_hton. by rewrite !ntohl_is_htonl, !ntohs_is_htons. Qed.

(** The bytes put on the wire are the big-endian layout. *)
Lemma conn_wire big l p :
  conn_fits p -> conn_bytes big l (conn_payload_hton big p) = encode true (conn_sizes l) (conn_fields l p).
Proof. intros H. unfold conn_bytes. rewrite conn_hton_fields by done. apply encode_hton. Qed.

Lemma conn_hton_hton big p : conn_fits p -> conn_payload_hton big (conn_payload_hton big p) = p.
Proof.
  intros H. conn_fits_inv H. destruct p. unfold conn_payload_hton; simpl in *.
  by rewrite !htonl_htonl, !htons_htons by assumption.
Qed.

(** What one host sends is what the other has after its conversion. *)
Lemma conn_transfer big big' l p rest :
  conn_fits p ->
  conn_payload_ntoh big' (conn_of_bytes big' l (conn_bytes big l (conn_payload_hton big p) ++ rest)) = p.
Proof.
  intros H. rewrite conn_wire by done. unfold conn_of_bytes.
  rewrite <- (encode_hton big'), <- conn_hton_fields by done.
  rewrite decode_encode.
  - rewrite conn_of_fields_fields, conn_ntoh_is_hton. by apply conn_hton_hton.
  - rewrite conn_hton_fields by done. apply fits_hton. by destruct l.
Qed.

Lemma conn_bytes_config big l p q :
  conn_fits p -> conn_fits q ->
  conn_config_match big l p q = true <->
  drop 2 (conn_fields l p) = drop 2 (conn_fields l q).
Proof.
  intros Hp Hq. unfold conn_config_match. rewrite bool_decide_eq_true.
  assert (forall r, drop conn_config_offset (conn_bytes big l r) =
                    encode big (drop 2 (conn_sizes l)) (drop 2 (conn_fields l r))) as Hdrop.
  { intros r. unfold conn_bytes.
    rewrite <- (take_drop 2 (conn_sizes l)) at 1. rewrite <- (take_drop 2 (conn_fields l r)) at 1.
    rewrite encode_app by (by destruct l).
    by rewrite drop_app_length' by (rewrite length_encode_eq; by destruct l). }
  rewrite !Hdrop. split; [|by intros ->].
  apply (conn_fits_layout l) in Hp. apply (conn_fits_layout l) in Hq.
  intros Heq. eapply encode_inj, Heq; apply Forall2_drop; assumption.
Qed.

(** ** The parameters the two ends must agree on *)

Record negotiated := {
  neg_async : bool; neg_bidir : bool; neg_reverse : bool;
  neg_worker_count : Z; neg_mtu : Z; neg_payload : Z;
  neg_timeout : Z; neg_handshake_iter : Z; neg_handshake_interval : Z;
  neg_run_timeout : Z; neg_end_timeout : Z; neg_reverse_delay : Z;
  neg_stream_time : Z; neg_count_mul : Z
}.

#[export] Instance negotiated_eq_dec : EqDecision negotiated.
Proof. solve_decision. Defined.

Definition negotiate (b : build) (c : ubwt_config) : negotiated := {|
  neg_async := truth (asynchronous c); neg_bidir := truth (bidirectional c);
  neg_reverse := truth (reverse_first c);
  neg_worker_count :=
    if defined (UBWT_CONFIG_MULTI_THREADED b) then worker_count c else 1;
  neg_mtu := net_mtu c; neg_payload := talk_payload_current_size c;
  neg_timeout := net_timeout_default c; neg_handshake_iter := talk_handshake_iter c;
  neg_handshake_interval := talk_handshake_interval c;
  neg_run_timeout := net_timeout_talk_stream_run c;
  neg_end_timeout := net_timeout_talk_stream_end c;
  neg_reverse_delay := process_reverse_delay c;
  neg_stream_time := talk_stream_minimum_time c; neg_count_mul := talk_count_mul c
|}.

(** The payload of a well-formed configuration carries its parameters
    untruncated. *)
Lemma conn_create_negotiated b c :
  config_wf b c ->
  let n := negotiate b c in
  conn_payload_create b c = {|
    flags := if truth (im_connector c) then 2 else 4;
    magic := UBWT_CONN_MAGIC;
    config_flags := conn_flag_bits (neg_async n) (neg_bidir n) (neg_reverse n);
    config_worker_count := neg_worker_count n; config_link_mtu := neg_mtu n;
    config_l4_payload_size := neg_payload n; config_conn_timeout := neg_timeout n;
    config_handshake_iter := neg_handshake_iter n;
    config_handshake_interval := neg_handshake_interval n;
    config_stream_run_timeout := neg_run_timeout n;
    config_stream_end_timeout := neg_end_timeout n;
    config_reverse_delay := neg_reverse_delay n; config_stream_time := neg_stream_time n;
    config_count_mul := neg_count_mul n; padding0 := 0; padding1 := 0 |}.
Proof.
  intros Hwf n. rewrite conn_payload_create_eq. subst n. destruct Hwf.
  assert (defined (UBWT_CONFIG_MULTI_THREADED b) = true -> 1 <= worker_count c <= 1024) as Hw.
  { intros H. rewrite H in wf_workers. apply wf_workers. }
  unfold negotiate; simpl. clear wf_workers. unfold unsigned in *.
  destruct (defined (UBWT_CONFIG_MULTI_THREADED b)).
  - specialize (Hw eq_refl). rewrite !wrap_small; [reflexivity|..]; unfold unsigned; clear -wf_timeouts wf_delay wf_mtu wf_handshake wf_mul wf_payload wf_time Hw; try lia.
  - rewrite !wrap_small; [reflexivity|..]; unfold unsigned; clear -wf_timeouts wf_delay wf_mtu wf_handshake wf_mul wf_payload wf_time; try lia.
Qed.

Lemma conn_create_has_connect b c :
  config_wf b c -> conn_has_connect (conn_payload_create b c) = true <-> im_connector c = 1.
Proof.
  intros Hwf. pose proof (wf_mode b c Hwf) as Hm. rewrite conn_payload_create_eq.
  unfold conn_has_connect; simpl. destruct Hm as [[-> _]|[-> _]]; vm_compute; done.
Qed.

Lemma conn_create_has_accept b c :
  config_wf b c -> conn_has_accept (conn_payload_create b c) = true <-> im_listener c = 1.
Proof.
  intros Hwf. pose proof (wf_mode b c Hwf) as Hm. rewrite conn_payload_create_eq.
  unfold conn_has_accept; simpl. destruct Hm as [[-> ->]|[-> ->]]; vm_compute; done.
Qed.

(** Comparing bytes compares the negotiated parameters. *)
Lemma conn_match_negotiated big l b b' c c' :
  config_wf b c -> config_wf b' c' ->
  conn_config_match big l (conn_payload_create b' c') (conn_payload_create b c) = true <->
  negotiate b' c' = negotiate b c.
Proof.
  intros Hwf Hwf'. rewrite conn_bytes_config by apply conn_create_fits.
  rewrite (conn_create_negotiated b c), (conn_create_negotiated b' c') by done.
  generalize (negotiate b c) (negotiate b' c'). clear. intros n n'. split; [|by intros ->].
  intros Heq. destruct n, n'. unfold conn_fields in Heq; simpl in Heq.
  destruct l in Heq; simpl in Heq; injection Heq; intros; subst;
    match goal with H : conn_flag_bits _ _ _ = _ |- _ => apply conn_flag_bits_inj in H end;
    destruct_and!; by subst.
Qed.

(** The bytes a host sends for its configuration. *)
Definition conn_wire_bytes (big : bool) (b : build) (c : ubwt_config) : list Z :=
  conn_bytes big (conn_build_layout b) (conn_payload_hton big (conn_payload_create b c)).

Lemma length_conn_wire_bytes big b c : length (conn_wire_bytes big b c) = conn_payload_size.
Proof.
  unfold conn_wire_bytes, conn_bytes. rewrite length_encode_eq by (by destruct (conn_build_layout b)).
  by destruct (conn_build_layout b).
Qed.

(** C30: whatever the endianness of the two hosts, between builds that both pack the
    payload's structure or neither do, the payload one end creates and sends reaches the other end unchanged; it carries the connect flag exactly
    when it comes from a connector and the accept flag exactly when it comes from
    a listener; and [conn_config_match], a comparison of raw bytes, accepts it
    exactly when the two configurations agree on all fourteen negotiated
    parameters (modes, workers, MTU, payload size, timeouts, handshake, delay,
    stream time and multiplier). *)
Theorem conn_negotiation (big big' : bool) b b' c c' :
  config_wf b c -> config_wf b' c' -> conn_build_layout b = conn_build_layout b' ->
  let ly := conn_build_layout b in
  let p := conn_payload_create b c in
  let wire := conn_bytes big ly (conn_payload_hton big p) in
  let q := conn_payload_ntoh big' (conn_of_bytes big' (conn_build_layout b') wire) in
  q = p /\
  length wire = conn_payload_size /\
  (conn_has_connect q = true <-> im_connector c = 1) /\
  (conn_has_accept q = true <-> im_listener c = 1) /\
  (conn_config_match big' (conn_build_layout b') (conn_payload_create b' c') q = true <->
   negotiate b' c' = negotiate b c).
Proof.
  intros Hwf Hwf' Hly ly p wire q.
  assert (q = p) as Hq.
  { subst q wire. rewrite <- Hly. rewrite <- (app_nil_r (conn_bytes _ _ _)).
    apply conn_transfer, conn_create_fits. }
  rewrite Hq. split_and!; [done|apply length_conn_wire_bytes|by apply conn_create_has_connect
    |by apply conn_create_has_accept|by apply conn_match_negotiated].
Qed.

(** Two configurations of the same test on the two ends. *)
Definition example_options : list Usage.cmdopt := [Usage.O_b; Usage.O_W "3"; Usage.O_t "5"].

Definition example_config (mode : string) (os : list Usage.cmdopt) : option ubwt_config :=
  match config_init build_linux env_ok os [mode; "10.0.0.1"]%string Usage.debug_init with
  | Ok (c, _) => Some c
  | Stop _ => None
  end.

Lemma example_config_wf mode os c : example_config mode os = Some c -> config_wf build_linux c.
Proof.
  unfold example_config. destruct (config_init _ _ _ _ _) as [[c' d]|] eqn:H; [|done].
  intros [= <-]. by apply config_init_Ok_wf in H.
Qed.

Lemma conn_negotiation_witness :
  exists c c', example_config "connector" example_options = Some c /\
    example_config "listener" example_options = Some c' /\
    conn_config_match true Pack4 (conn_payload_create build_linux c')
      (conn_payload_ntoh true (conn_of_bytes true Pack4
        (conn_bytes false Pack4 (conn_payload_hton false (conn_payload_create build_linux c)))))
      = true.
Proof.
  destruct (example_config "connector" example_options) as [c|] eqn:Hc; [|discriminate Hc].
  destruct (example_config "listener" example_options) as [c'|] eqn:Hc'; [|discriminate Hc'].
  exists c, c'. split_and!; [done|done|].
  apply (conn_negotiation false true build_linux build_linux c c'
    (example_config_wf _ _ _ Hc) (example_config_wf _ _ _ Hc') eq_refl).
  vm_compute in Hc, Hc'. injection Hc as <-. injection Hc' as <-. reflexivity.
Defined.

(** Two builds that differ in [UBWT_CONFIG_NO_PRAGMA_PACK] exchange payloads of
    the same length, but read each other's last fields at the wrong offset: *)
Definition build_no_pragma_pack : build :=
  build_linux {{ UBWT_CONFIG_NO_PRAGMA_PACK := Some 1 }}.

(** In a packed payload the stream time occupies the bytes 30 to 33. *)
Lemma conn_stream_time_bytes big p :
  take 4 (drop 30 (conn_bytes big PackedAligned4 p)) = mem_bytes big 4 (config_stream_time p).
Proof. exact (encode_field big (conn_sizes PackedAligned4) (conn_fields PackedAligned4 p) 12 4 _ eq_refl eq_refl). Qed.

Lemma conn_of_bytes_time big bs :
  config_stream_time (conn_payload_ntoh big (conn_of_bytes big PackedAligned4 bs)) =
    ntohl big (mem_val big (take 4 (drop 30 bs))).
Proof.
  unfold conn_of_bytes, conn_of_fields. simpl. by rewrite !drop_drop.
Qed.

(** In a payload sent with [#pragma pack(4)] those bytes are the padding and the
    upper half of the stream time. *)
Lemma conn_pack4_zeros big b c :
  config_wf b c ->
  take 4 (drop 30 (conn_bytes big Pack4 (conn_payload_hton big (conn_payload_create b c)))) =
  [0; 0; 0; 0].
Proof.
  intros Hwf. rewrite conn_wire by apply conn_create_fits.
  rewrite (conn_create_negotiated b c Hwf). pose proof (wf_time b c Hwf) as Ht.
  set (p := Build_ubwt_conn_payload_t _ _ _ _ _ _ _ _ _ _ _ _ _ _ _ _).
  change (conn_sizes Pack4) with (take 12 (conn_sizes Pack4) ++ [1; 1; 4; 4]%nat).
  change (conn_fields Pack4 p) with (take 12 (conn_fields Pack4 p) ++
    [0; 0; talk_stream_minimum_time c; talk_count_mul c]).
  rewrite encode_app by done.
  rewrite drop_app_length' by (by rewrite length_encode_eq).
  assert (forall z, 0 <= z < 65536 -> be_bytes 4 z = [0; 0; (z / 256) mod 256; z mod 256]) as Hbe.
  { intros z Hz. unfold be_bytes, le_bytes. simpl.
    rewrite (Z.div_div z 256 256) by lia. change (256 * 256) with 65536.
    rewrite (Z.div_small z 65536) by lia. reflexivity. }
  unfold encode, mem_bytes. rewrite (Hbe (talk_stream_minimum_time c)) by lia. reflexivity.
Qed.

(** The two layouts the header can select for the connection payload are not
    compatible: a payload sent by a build with [#pragma pack] is refused by a build
    with [UBWT_CONFIG_NO_PRAGMA_PACK] although both run the same configuration,
    whatever the configuration accepted by [config_init]. *)
Theorem conn_layouts_incompatible (big big' : bool) c c' :
  config_wf build_linux c -> config_wf build_no_pragma_pack c' ->
  negotiate build_linux c = negotiate build_no_pragma_pack c' ->
  let wire := conn_bytes big Pack4 (conn_payload_hton big (conn_payload_create build_linux c)) in
  conn_config_match big' PackedAligned4 (conn_payload_create build_no_pragma_pack c')
    (conn_payload_ntoh big' (conn_of_bytes big' PackedAligned4 wire)) = false.
Proof.
  intros Hwf Hwf' Hneg wire. apply not_true_iff_false. intros Hm.
  unfold conn_config_match in Hm. rewrite bool_decide_eq_true in Hm.
  apply (f_equal (fun l => take 4 (drop 22 l))) in Hm.
  rewrite !drop_drop in Hm. change (8 + 22)%nat with 30%nat in Hm. unfold conn_config_offset in Hm.
  rewrite !conn_stream_time_bytes in Hm.
  rewrite conn_of_bytes_time in Hm. subst wire. rewrite conn_pack4_zeros in Hm by done.
  rewrite (conn_create_negotiated _ c' Hwf') in Hm.
  change (config_stream_time _) with (talk_stream_minimum_time c') in Hm.
  assert (ntohl big' (mem_val big' [0; 0; 0; 0]) = 0) as Hz by (by destruct big').
  rewrite Hz in Hm. pose proof (wf_time _ _ Hwf') as Ht.
  apply (mem_bytes_inj big' 4) in Hm; unfold unsigned; clear -Hm Ht; lia.
Qed.

Lemma conn_layouts_incompatible_witness :
  exists c, example_config "connector" example_options = Some c /\
    conn_config_match false PackedAligned4 (conn_payload_create build_no_pragma_pack c)
      (conn_payload_ntoh false (conn_of_bytes false PackedAligned4
        (conn_bytes false Pack4 (conn_payload_hton false (conn_payload_create build_linux c)))))
      = false.
Proof.
  destruct (example_config "connector" example_options) as [c|] eqn:Hc; [|discriminate Hc].
  exists c. split; [done|]. apply example_config_wf in Hc.
  apply (conn_layouts_incompatible false false c c Hc); [|reflexivity].
  destruct Hc; constructor; assumption.
Defined.
