(* ===== verification/Stage.v ===== *)
(** The stage of a process: include/stage.h and src/stage.c.

    Every thread keeps the stage it is in and an iteration counter; most of the
    program only reports them, but src/talk.c chooses the size of a message by
    the stage. *)

From S2P Require Import Prelude Bitops.

Definition UBWT_STAGE_CTRL_FL_NO_RESET : Z := 1.
Definition UBWT_STAGE_CTRL_FL_NO_SHOW : Z := 2.

Inductive ubwt_stage_state_t :=
| UBWT_STAGE_STATE_NONE
| UBWT_STAGE_STATE_INIT_CURRENT
| UBWT_STAGE_STATE_INIT_CONFIG
| UBWT_STAGE_STATE_INIT_NET
| UBWT_STAGE_STATE_INIT_PROCESS
| UBWT_STAGE_STATE_RUNTIME_TALK_HANDSHAKE
| UBWT_STAGE_STATE_RUNTIME_TALK_NEGOTIATION
| UBWT_STAGE_STATE_RUNTIME_TALK_STREAM
| UBWT_STAGE_STATE_RUNTIME_TALK_REPORT_EXCHANGE
| UBWT_STAGE_STATE_RUNTIME_TALK_FINISH
| UBWT_STAGE_STATE_RUNTIME_REPORT_SHOW
| UBWT_STAGE_STATE_DESTROY_PROCESS
| UBWT_STAGE_STATE_DESTROY_NET
| UBWT_STAGE_STATE_DESTROY_CONFIG
| UBWT_STAGE_STATE_DESTROY_CURRENT.

#[export] Instance stage_state_eq_dec : EqDecision ubwt_stage_state_t.
Proof. solve_decision. Defined.

Definition stage_state_value (s : ubwt_stage_state_t) : nat :=
  match s with
  | UBWT_STAGE_STATE_NONE => 0
  | UBWT_STAGE_STATE_INIT_CURRENT => 1
  | UBWT_STAGE_STATE_INIT_CONFIG => 2
  | UBWT_STAGE_STATE_INIT_NET => 3
  | UBWT_STAGE_STATE_INIT_PROCESS => 4
  | UBWT_STAGE_STATE_RUNTIME_TALK_HANDSHAKE => 5
  | UBWT_STAGE_STATE_RUNTIME_TALK_NEGOTIATION => 6
  | UBWT_STAGE_STATE_RUNTIME_TALK_STREAM => 7
  | UBWT_STAGE_STATE_RUNTIME_TALK_REPORT_EXCHANGE => 8
  | UBWT_STAGE_STATE_RUNTIME_TALK_FINISH => 9
  | UBWT_STAGE_STATE_RUNTIME_REPORT_SHOW => 10
  | UBWT_STAGE_STATE_DESTROY_PROCESS => 11
  | UBWT_STAGE_STATE_DESTROY_NET => 12
  | UBWT_STAGE_STATE_DESTROY_CONFIG => 13
  | UBWT_STAGE_STATE_DESTROY_CURRENT => 14
  end.

Definition __stage_state_str : list string := [
  "UBWT_STAGE_STATE_NONE";
  "UBWT_STAGE_STATE_INIT_CURRENT";
  "UBWT_STAGE_STATE_INIT_CONFIG";
  "UBWT_STAGE_STATE_INIT_NET";
  "UBWT_STAGE_STATE_INIT_PROCESS";
  "UBWT_STAGE_STATE_RUNTIME_TALK_HANDSHAKE";
  "UBWT_STAGE_STATE_RUNTIME_TALK_NEGOTIATION";
  "UBWT_STAGE_STATE_RUNTIME_TALK_STREAM";
  "UBWT_STAGE_STATE_RUNTIME_TALK_REPORT_EXCHANGE";
  "UBWT_STAGE_STATE_RUNTIME_TALK_FINISH";
  "UBWT_STAGE_STATE_RUNTIME_REPORT_SHOW";
  "UBWT_STAGE_STATE_DESTROY_PROCESS";
  "UBWT_STAGE_STATE_DESTROY_NET";
  "UBWT_STAGE_STATE_DESTROY_CONFIG";
  "UBWT_STAGE_STATE_DESTROY_CURRENT" ]%string.

(** Indexing the table out of range is undefined in C: [None]. *)
Definition stage_state_to_str (s : ubwt_stage_state_t) : option string :=
  __stage_state_str !! stage_state_value s.

Record ubwt_stage_t := { iter : Z; state : ubwt_stage_state_t }.

Definition stage_reset (st : ubwt_stage_t) : ubwt_stage_t :=
  st {{ state := UBWT_STAGE_STATE_NONE; iter := 0 }}.

(** The second component tells whether [debug_info_stage_show] is called. *)
Definition stage_set (s : ubwt_stage_state_t) (flags : Z) (st : ubwt_stage_t)
  : ubwt_stage_t * bool :=
  let st :=
    if negb (truth (bit_test flags UBWT_STAGE_CTRL_FL_NO_RESET)) then stage_reset st else st in
  (st {{ state := s }}, negb (truth (bit_test flags UBWT_STAGE_CTRL_FL_NO_SHOW))).

Definition stage_get (st : ubwt_stage_t) : ubwt_stage_state_t := state st.

(** [iter] is a 64-bit [size_t]. *)
Definition stage_inc (flags : Z) (st : ubwt_stage_t) : ubwt_stage_t * bool :=
  (st {{ iter ::= fun i => wrap 64 (i + 1) }},
   negb (truth (bit_test flags UBWT_STAGE_CTRL_FL_NO_SHOW))).

(** The stage table names each state with the identifier of its constant
    (distinct states have distinct names, none is out of range); [stage_set] makes
    [stage_get] answer the new state and clears the iteration counter exactly when
    the no-reset flag is absent, [stage_inc] counts without changing the state,
    and each shows the stage exactly when the no-show flag is absent. *)
Theorem stage_machine (s : ubwt_stage_state_t) (fs : Z) (st : ubwt_stage_t) :
  u32 fs ->
  (exists name, stage_state_to_str s = Some name /\
     forall s', stage_state_to_str s' = Some name -> s' = s) /\
  stage_get (fst (stage_set s fs st)) = s /\
  iter (fst (stage_set s fs st)) =
    (if decide (UBWT_STAGE_CTRL_FL_NO_RESET ∈ flags fs) then iter st else 0) /\
  (snd (stage_set s fs st) = false <-> UBWT_STAGE_CTRL_FL_NO_SHOW ∈ flags fs) /\
  stage_get (fst (stage_inc fs st)) = stage_get st /\
  (unsigned 64 (iter st + 1) -> iter (fst (stage_inc fs st)) = iter st + 1) /\
  (snd (stage_inc fs st) = false <-> UBWT_STAGE_CTRL_FL_NO_SHOW ∈ flags fs).
Proof.
  intros Hfs.
  assert (forall n, 0 <= n < 32 -> negb (truth (bit_test fs n)) = false <-> n ∈ flags fs) as Hf.
  { intros n Hn. rewrite negb_false_iff, bit_test_true, elem_of_flags by done. naive_solver. }
  split_and!.
  - destruct s; (eexists; split; [reflexivity|]); intros s' Hs'; destruct s'; (done || discriminate).
  - unfold stage_set. destruct st, (truth (bit_test fs UBWT_STAGE_CTRL_FL_NO_RESET)); done.
  - unfold stage_set.
    assert (0 <= UBWT_STAGE_CTRL_FL_NO_RESET < 32) as Hn by (unfold UBWT_STAGE_CTRL_FL_NO_RESET; lia).
    specialize (Hf _ Hn). destruct st, (truth (bit_test fs UBWT_STAGE_CTRL_FL_NO_RESET));
      simpl in *; case_decide; intuition congruence.
  - apply Hf. unfold UBWT_STAGE_CTRL_FL_NO_SHOW. lia.
  - by destruct st.
  - intros Hi. unfold stage_inc. destruct st; simpl in *. by apply wrap_small.
  - apply Hf. unfold UBWT_STAGE_CTRL_FL_NO_SHOW. lia.
Qed.

Lemma stage_machine_witness :
  iter (fst (stage_set UBWT_STAGE_STATE_RUNTIME_TALK_STREAM (bit_flag UBWT_STAGE_CTRL_FL_NO_RESET)
    {| iter := 7; state := UBWT_STAGE_STATE_NONE |})) = 7.
Proof.
  assert (u32 (bit_flag UBWT_STAGE_CTRL_FL_NO_RESET)) as H by (split; vm_compute; congruence).
  destruct (stage_machine UBWT_STAGE_STATE_RUNTIME_TALK_STREAM _
    {| iter := 7; state := UBWT_STAGE_STATE_NONE |} H) as (_ & _ & Hi & _).
  rewrite Hi. reflexivity.
Defined.
