(* ===== verification/Double.v ===== *)
(** IEEE 754 double precision, as the C type [double]: the Standard Library's
    [SpecFloat] at precision 53, with rounding to nearest even, and the
    conversions from and to integers that the program uses. *)

From Stdlib Require Export SpecFloat.
From S2P Require Import Prelude.

Abbreviation double := spec_float.

(** [(double) z]. *)
Definition dbl (z : Z) : double := binary_normalize 53 1024 z 0 false.

(** A decimal literal [n / d], correctly rounded. *)
Definition dbl_lit (n d : Z) : double := SFdiv 53 1024 (dbl n) (dbl d).

Definition dmul : double -> double -> double := SFmul 53 1024.
Definition ddiv : double -> double -> double := SFdiv 53 1024.
Definition dlt (a b : double) : bool := SFltb a b.

(** [a >= b]; false when either is a NaN. *)
Definition dge (a b : double) : bool := SFleb b a.

(** Truncation towards zero; [None] for an infinity or a NaN. *)
Definition dtrunc (a : double) : option Z :=
  match a with
  | S754_zero _ => Some 0
  | S754_finite s m e =>
      let z := if 0 <=? e then Z.shiftl (Z.pos m) e else Z.shiftr (Z.pos m) (- e) in
      Some (if s then - z else z)
  | _ => None
  end.

(** Conversion to an unsigned type of [w] bits, undefined in C ([None]) when the
    truncated value is out of range. *)
Definition dbl_to_unsigned (w : Z) (a : double) : option Z :=
  z ← dtrunc a; if decide (unsigned w z) then Some z else None.

(** Small integers are exact. *)
Example dbl_exact : map (fun z => dtrunc (dbl z)) [0; 1; 1432; 2 ^ 53; 2 ^ 53 + 1] =
  [Some 0; Some 1; Some 1432; Some (2 ^ 53); Some (2 ^ 53)].
Proof. reflexivity. Qed.

Example dbl_div_mul : dtrunc (dmul (dbl 100) (dbl_lit 120 100)) = Some 120 /\
  dtrunc (ddiv (dbl 3000000) (dbl 7)) = Some 428571 /\
  dbl_to_unsigned 32 (ddiv (dbl 1) (dbl 0)) = None.
Proof. split_and!; reflexivity. Qed.
