(* ===== verification/Report.v ===== *)
(** Results of a test: include/report.h and src/report.c.

    Each worker collects the figures of its streams, the two ends exchange them
    in a fixed structure ([report_marshal], [report_unmarshal]), the main thread
    combines those of its workers and computes the bandwidths. *)

From S2P Require Import Prelude Errors Byteorder Layout ConfigData Double.

(** [ubwt_report_collect_t]. *)
Record ubwt_report_collect_t := {
  talk_latency_us : Z;
  talk_count : Z;
  talk_stream_recv_pkts : Z;
  __reserved1 : Z;
  __reserved2 : Z;
  __reserved3 : Z;
  talk_stream_time_duration : Z;
  talk_stream_time_start : Z;
  talk_stream_recv_bytes : Z
}.

(** [struct ubwt_report_compute]. *)
Record ubwt_report_compute := {
  bandwidth_theoretical_mbps : Z;
  bandwidth_estimated_mbps : double;
  bandwidth_effective_mbps : double;
  packet_loss : double;
  fragmentation_ratio : double;
  total_pkts : Z;
  hdr_size : Z
}.

(** [struct ubwt_report_result]. *)
Record ubwt_report_result := {
  collected : ubwt_report_collect_t;
  computed : ubwt_report_compute
}.

(** The result a report points to: [&results[0]], [&results[1]] or [NULL]. *)
Inductive result_ptr := ResultNull | ResultStraight | ResultReverse.

(** [struct ubwt_report]. *)
Record ubwt_report := {
  fp_export_json : option string;
  result : result_ptr;
  results0 : ubwt_report_result;
  results1 : ubwt_report_result
}.

Definition collect_zero : ubwt_report_collect_t := {|
  talk_latency_us := 0; talk_count := 0; talk_stream_recv_pkts := 0;
  __reserved1 := 0; __reserved2 := 0; __reserved3 := 0;
  talk_stream_time_duration := 0; talk_stream_time_start := 0; talk_stream_recv_bytes := 0
|}.

Definition compute_zero : ubwt_report_compute := {|
  bandwidth_theoretical_mbps := 0; bandwidth_estimated_mbps := S754_zero false;
  bandwidth_effective_mbps := S754_zero false; packet_loss := S754_zero false;
  fragmentation_ratio := S754_zero false; total_pkts := 0; hdr_size := 0
|}.

Definition result_zero : ubwt_report_result :=
  {| collected := collect_zero; computed := compute_zero |}.

Definition report_zero : ubwt_report := {|
  fp_export_json := None; result := ResultNull;
  results0 := result_zero; results1 := result_zero
|}.

(** ** Selecting and accessing the current result

    Reading through [NULL] is undefined in C; the threads of the program select a
    result before any access ([report_set_straight], [report_set_reverse] or
    [report_init]), and the model reads the first one then. *)

Definition report_result (r : ubwt_report) : ubwt_report_result :=
  match result r with ResultReverse => results1 r | _ => results0 r end.

Definition report_update (f : ubwt_report_result -> ubwt_report_result) (r : ubwt_report)
  : ubwt_report :=
  match result r with
  | ResultReverse => r {{ results1 ::= f }}
  | _ => r {{ results0 ::= f }}
  end.

Definition report_update_collected (f : ubwt_report_collect_t -> ubwt_report_collect_t)
  : ubwt_report -> ubwt_report :=
  report_update (fun x => x {{ collected ::= f }}).

Definition report_set_straight (r : ubwt_report) : ubwt_report := r {{ result := ResultStraight }}.
Definition report_set_reverse (r : ubwt_report) : ubwt_report := r {{ result := ResultReverse }}.
Definition report_init (r : ubwt_report) : ubwt_report := r {{ result := ResultStraight }}.
Definition report_destroy (r : ubwt_report) : ubwt_report := r {{ result := ResultNull }}.

Definition report_talk_latency_set (dt : Z) : ubwt_report -> ubwt_report :=
  report_update_collected (fun c => c {{ talk_latency_us := dt }}).
Definition report_talk_latency_get (r : ubwt_report) : Z :=
  talk_latency_us (collected (report_result r)).
Definition report_talk_count_set (count : Z) : ubwt_report -> ubwt_report :=
  report_update_collected (fun c => c {{ talk_count := wrap 32 count }}).
Definition report_talk_count_get (r : ubwt_report) : Z :=
  talk_count (collected (report_result r)).
Definition report_talk_stream_time_start_set (t : Z) : ubwt_report -> ubwt_report :=
  report_update_collected (fun c => c {{ talk_stream_time_start := t }}).
Definition report_talk_stream_time_start_get (r : ubwt_report) : Z :=
  talk_stream_time_start (collected (report_result r)).
Definition report_talk_stream_time_duration_set (t : Z) : ubwt_report -> ubwt_report :=
  report_update_collected (fun c => c {{ talk_stream_time_duration := t }}).
Definition report_talk_stream_time_duration_get (r : ubwt_report) : Z :=
  talk_stream_time_duration (collected (report_result r)).
Definition report_talk_stream_recv_pkts_set (recv_pkts : Z) : ubwt_report -> ubwt_report :=
  report_update_collected (fun c => c {{ talk_stream_recv_pkts := recv_pkts }}).
Definition report_talk_stream_recv_pkts_get (r : ubwt_report) : Z :=
  talk_stream_recv_pkts (collected (report_result r)).
Definition report_talk_stream_recv_bytes_set (recv_bytes : Z) : ubwt_report -> ubwt_report :=
  report_update_collected (fun c => c {{ talk_stream_recv_bytes := recv_bytes }}).
Definition report_talk_stream_recv_bytes_get (r : ubwt_report) : Z :=
  talk_stream_recv_bytes (collected (report_result r)).

(** ** Exchange *)

(** The layout is the same with and without [#pragma pack]. *)
Definition collect_sizes : list nat := [4; 4; 4; 4; 4; 4; 8; 8; 8]%nat.

Definition collect_size : nat := 48.

Definition collect_fields (c : ubwt_report_collect_t) : list Z :=
  [talk_latency_us c; talk_count c; talk_stream_recv_pkts c;
   __reserved1 c; __reserved2 c; __reserved3 c;
   talk_stream_time_duration c; talk_stream_time_start c; talk_stream_recv_bytes c].

(** [storage] is filled with zeros before the fields are stored. *)
Definition report_marshal (big : bool) (r : ubwt_report) (len : nat) : res (list Z) :=
  assert_ (bool_decide (collect_size <= len)%nat) "len >= sizeof(ubwt_report_collect_t)" ;;
  let c := collected (report_result r) in
  let s := collect_zero {{
    talk_latency_us := htonl big (talk_latency_us c);
    talk_count := htonl big (talk_count c);
    talk_stream_time_start := net_htonll big (talk_stream_time_start c);
    talk_stream_time_duration := net_htonll big (talk_stream_time_duration c);
    talk_stream_recv_pkts := htonl big (talk_stream_recv_pkts c);
    talk_stream_recv_bytes := net_htonll big (talk_stream_recv_bytes c) }} in
  Ok (encode big collect_sizes (collect_fields s) ++ replicate (len - collect_size) 0).

Definition report_unmarshal (big : bool) (storage : list Z) (len : nat) (r : ubwt_report)
  : res ubwt_report :=
  assert_ (bool_decide (collect_size <= len)%nat) "len >= sizeof(ubwt_report_collect_t)" ;;
  let at' i := nth i (decode big collect_sizes storage) 0 in
  Ok (report_update_collected (fun c => c {{
    talk_latency_us := ntohl big (at' 0%nat);
    talk_count := ntohl big (at' 1%nat);
    talk_stream_time_start := net_ntohll big (at' 7%nat);
    talk_stream_time_duration := net_ntohll big (at' 6%nat);
    talk_stream_recv_pkts := ntohl big (at' 2%nat);
    talk_stream_recv_bytes := net_ntohll big (at' 8%nat) }}) r).

(** ** Combination of the workers *)

(** One iteration of the inner loop, on the results [j] of the main thread and of
    a worker. *)
Definition collect_combine (m w : ubwt_report_collect_t) : ubwt_report_collect_t := m {{
  talk_latency_us := wrap 32 (talk_latency_us m + talk_latency_us w);
  talk_count := wrap 32 (talk_count m + talk_count w);
  talk_stream_recv_pkts := wrap 32 (talk_stream_recv_pkts m + talk_stream_recv_pkts w);
  talk_stream_time_duration :=
    if talk_stream_time_duration w <? talk_stream_time_duration m
    then talk_stream_time_duration m else talk_stream_time_duration w;
  talk_stream_time_start :=
    if talk_stream_time_start w <? talk_stream_time_start m
    then talk_stream_time_start w else talk_stream_time_start m;
  talk_stream_recv_bytes := wrap 64 (talk_stream_recv_bytes m + talk_stream_recv_bytes w) }}.

Definition combine_one (m w : ubwt_report) : ubwt_report := m {{
  results0 ::= fun x => x {{ collected ::= fun c => collect_combine c (collected (results0 w)) }};
  results1 ::= fun x => x {{ collected ::= fun c => collect_combine c (collected (results1 w)) }} }}.

(** [m] is the main thread's report and [ws] those of the list [current->next].  With a
    single report in asynchronous mode the code divides by zero, and the model by Z's
    division gives 0; [config_init] makes the number of workers of that mode even. *)
Definition report_worker_combine (c : ubwt_config) (ws : list ubwt_report) (m : ubwt_report)
  : ubwt_report :=
  let i := Z.of_nat (length ws) in
  let m := fold_left combine_one ws m in
  if i =? 0 then m else
  let avg x := x {{ collected ::= fun k => k {{ talk_latency_us ::= fun l =>
    l / (if truth (asynchronous c) then i / 2 else i) }} }} in
  m {{ results0 ::= avg; results1 ::= avg }}.

(** ** Computed results *)

Definition _report_bandwidth_theoretical_mbps (bandwidth_effective : Z) : Z :=
  if bandwidth_effective <? 10 then 10 else
  if bandwidth_effective <? 100 then 100 else
  if bandwidth_effective <? 1000 then 1000 else
  if bandwidth_effective <? 2500 then 2500 else
  if bandwidth_effective <? 5000 then 5000 else
  if bandwidth_effective <? 10000 then 10000 else
  if bandwidth_effective <? 20000 then 20000 else
  if bandwidth_effective <? 40000 then 40000 else
  if bandwidth_effective <? 100000 then 100000 else
  if bandwidth_effective <? 200000 then 200000 else
  if bandwidth_effective <? 400000 then 400000 else
  if bandwidth_effective <? 800000 then 800000 else
  if bandwidth_effective <? 1000000 then 1000000 else
  if bandwidth_effective <? 1600000 then 1600000 else
  bandwidth_effective.

(** [is_inet6] tells whether the listener's address family is [AF_INET6].  The
    result is [None] when the conversion of the effective bandwidth to
    [uint32_t] is undefined. *)
Definition report_compute (cfg : ubwt_config) (is_inet6 : bool) (c : ubwt_report_collect_t)
  : option ubwt_report_compute :=
  let hdr_size :=
    net_l2_hdr_size cfg +
    (if is_inet6 then net_l3_ipv6_hdr_size cfg else net_l3_ipv4_hdr_size cfg) +
    net_l4_hdr_size cfg in
  let total_pkts :=
    talk_stream_recv_bytes c /
    (if net_mtu cfg <? talk_payload_current_size cfg then net_mtu cfg
     else talk_payload_current_size cfg) in
  let seconds := ddiv (dbl (talk_stream_time_duration c)) (dbl 1000000) in
  let mbps octets := ddiv (ddiv (dbl (wrap 64 (octets * 8))) (dbl 1000000)) seconds in
  let estimated := mbps (wrap 64 (talk_stream_recv_bytes c + wrap 64 (total_pkts * hdr_size))) in
  let effective := mbps (talk_stream_recv_bytes c) in
  e ← dbl_to_unsigned 32 effective;
  Some {|
    hdr_size := hdr_size;
    total_pkts := total_pkts;
    bandwidth_estimated_mbps := estimated;
    bandwidth_effective_mbps := effective;
    bandwidth_theoretical_mbps := _report_bandwidth_theoretical_mbps e;
    packet_loss :=
      ddiv (dbl (wrap 32 (wrap 32 (talk_count c - talk_stream_recv_pkts c) * 100)))
           (dbl (talk_count c));
    fragmentation_ratio :=
      if dge (dbl (net_mtu cfg)) (dbl (talk_payload_current_size cfg)) then dbl 1
      else ddiv (dbl (talk_payload_current_size cfg)) (dbl (net_mtu cfg))
  |}.

Definition report_results_compute (cfg : ubwt_config) (is_inet6 : bool) (r : ubwt_report)
  : option ubwt_report :=
  k ← report_compute cfg is_inet6 (collected (report_result r));
  Some (report_update (fun x => x {{ computed := k }}) r).

(** ** Exchange: lemmas *)

(** The collected figures in the ranges of their types. *)
Definition collect_fits (c : ubwt_report_collect_t) : Prop :=
  fits collect_sizes (collect_fields c).

(** The figures that travel: the reserved fields do not. *)
Definition collect_copy (c d : ubwt_report_collect_t) : ubwt_report_collect_t := d {{
  talk_latency_us := talk_latency_us c;
  talk_count := talk_count c;
  talk_stream_time_start := talk_stream_time_start c;
  talk_stream_time_duration := talk_stream_time_duration c;
  talk_stream_recv_pkts := talk_stream_recv_pkts c;
  talk_stream_recv_bytes := talk_stream_recv_bytes c }}.

Lemma report_result_set_collected f r :
  collected (report_result (report_update_collected f r)) = f (collected (report_result r)).
Proof.
  unfold report_update_collected, report_update, report_result.
  destruct r as [? [] ? ?]; reflexivity.
Qed.

Lemma net_htonll_hton big x : u64 x -> net_htonll big x = hton big 8 x.
Proof. apply net_htonll_val. Qed.

Lemma collect_copy_fits c : collect_fits c -> collect_fits (collect_copy c collect_zero).
Proof.
  intros Hc. unfold collect_fits, collect_fields, fits in *. destruct c; simpl in *.
  repeat (apply Forall2_cons_1 in Hc as [? Hc]). repeat (apply Forall2_cons; [first [assumption|split; vm_compute; congruence]|]).
  constructor.
Qed.

(** The stored bytes are the big-endian layout of the travelling figures,
    padded with zeros. *)
Lemma report_marshal_wire big r len :
  collect_fits (collect_copy (collected (report_result r)) collect_zero) -> (collect_size <= len)%nat ->
  report_marshal big r len =
    Ok (encode true collect_sizes (collect_fields (collect_copy (collected (report_result r)) collect_zero))
        ++ replicate (len - collect_size) 0).
Proof.
  intros Hc Hlen. unfold report_marshal. rewrite bool_decide_eq_true_2, assert_true_bind by done.
  cbv zeta. apply f_equal. apply (f_equal (fun l => l ++ _)).
  destruct (collected (report_result r)).
  unfold collect_fits, collect_fields, fits in Hc; simpl in Hc.
  repeat (apply Forall2_cons_1 in Hc as [? Hc]).
  rewrite !net_htonll_hton by assumption. rewrite <- (encode_hton big).
  apply f_equal. unfold collect_fields, collect_sizes. cbn -[hton htonl].
  repeat f_equal; by destruct big.
Qed.

Lemma report_unmarshal_wire big c len rest r :
  collect_fits c -> (collect_size <= len)%nat ->
  report_unmarshal big
    (encode true collect_sizes (collect_fields (collect_copy c collect_zero)) ++ rest) len r =
  Ok (report_update_collected (collect_copy c) r).
Proof.
  intros Hc Hlen. unfold report_unmarshal. rewrite bool_decide_eq_true_2, assert_true_bind by done.
  rewrite <- (encode_hton big), decode_encode by (by apply fits_hton).
  destruct c. unfold collect_fits, collect_fields, fits in Hc; simpl in Hc.
  repeat (apply Forall2_cons_1 in Hc as [? Hc]).
  unfold collect_fields; simpl. unfold net_ntohll. rewrite !ntohl_is_htonl.
  change (hton big 4) with (htonl big).
  rewrite !htonl_htonl, !net_htonll_hton, !hton_hton by (assumption || apply (hton_unsigned big 8)).
  reflexivity.
Qed.

(** C29: the report exchange is lossless between hosts of any endianness: if the
    collected figures are in range and the payload has room for them, marshalling
    succeeds, fills exactly the payload, and unmarshalling it on the other host
    copies the six figures into the selected result and changes nothing else;
    without the room both calls fail their assertion. *)
Theorem report_exchange_roundtrip (big big' : bool) (r r' : ubwt_report) (len : nat) :
  collect_fits (collected (report_result r)) ->
  if decide (collect_size <= len)%nat then
    exists bs, report_marshal big r len = Ok bs /\ length bs = len /\
      report_unmarshal big' bs len r' =
        Ok (report_update_collected (collect_copy (collected (report_result r))) r')
  else
    (exists e, report_marshal big r len = Stop (Assertion e)) /\
    forall bs, exists e, report_unmarshal big' bs len r' = Stop (Assertion e).
Proof.
  intros Hc. case_decide as Hlen.
  - eexists. split_and!.
    + by apply report_marshal_wire; [apply collect_copy_fits|].
    + rewrite length_app, length_replicate.
      rewrite length_encode_eq by done. change (sizeof collect_sizes) with collect_size. lia.
    + by apply report_unmarshal_wire.
  - unfold report_marshal, report_unmarshal. rewrite bool_decide_eq_false_2 by done.
    split; [by eexists|]. intros bs. by eexists.
Qed.

Definition example_collect : ubwt_report_collect_t := collect_zero {{
  talk_latency_us := 1500; talk_count := 86400; talk_stream_recv_pkts := 86000;
  talk_stream_time_duration := 3100000; talk_stream_time_start := 1600000000000000;
  talk_stream_recv_bytes := 123152000 }}.

Lemma report_exchange_roundtrip_witness :
  exists bs, report_marshal false (report_zero {{ results0 := {| collected := example_collect;
                computed := compute_zero |} }}) 1432 = Ok bs /\
    report_unmarshal true bs 1432 (report_set_reverse report_zero) =
      Ok (report_update_collected (collect_copy example_collect) (report_set_reverse report_zero)).
Proof.
  assert (collect_fits example_collect) as H.
  { unfold collect_fits, fits. repeat constructor; vm_compute; congruence. }
  pose proof (report_exchange_roundtrip false true (report_zero {{ results0 :=
    {| collected := example_collect; computed := compute_zero |} }})
    (report_set_reverse report_zero) 1432 H) as T.
  rewrite decide_True in T by (apply Nat.leb_le; reflexivity).
  destruct T as (bs & H1 & _ & H2). by exists bs.
Defined.

(** ** Combination: lemmas *)

Definition sum_over {A : Type} (f : A -> Z) (l : list A) : Z := foldr (fun x a => f x + a) 0 l.
Definition max_over {A : Type} (f : A -> Z) (l : list A) : Z := foldr (fun x a => Z.max (f x) a) 0 l.

Lemma sum_over_nonneg {A : Type} (f : A -> Z) l :
  Forall (fun x => 0 <= f x) l -> 0 <= sum_over f l.
Proof. induction 1; simpl; lia. Qed.

(** A modular accumulation that does not overflow is the sum. *)
Lemma fold_wrap_sum {A B : Type} (w : Z) (get : A -> Z) (f : B -> Z) (step : A -> B -> A) l m :
  0 <= w -> (forall a b, get (step a b) = wrap w (get a + f b)) ->
  0 <= get m -> Forall (fun x => 0 <= f x) l -> get m + sum_over f l < 2 ^ w ->
  get (fold_left step l m) = get m + sum_over f l.
Proof.
  intros Hw Hstep Hm Hl. revert m Hm. induction Hl as [|b l Hb Hl IH]; intros m Hm Hlt; simpl in *; [lia|].
  pose proof (sum_over_nonneg f l Hl).
  assert (get (step m b) = get m + f b) as Heq.
  { rewrite Hstep. apply wrap_small. unfold unsigned. lia. }
  rewrite IH; rewrite Heq; lia.
Qed.

Lemma fold_max {A B : Type} (get : A -> Z) (f : B -> Z) (step : A -> B -> A) l m :
  (forall a b, get (step a b) = Z.max (get a) (f b)) -> 0 <= get m ->
  get (fold_left step l m) = Z.max (get m) (max_over f l).
Proof.
  intros Hstep. revert m. induction l as [|b l IH]; intros m Hm; simpl; [lia|].
  rewrite IH by (rewrite Hstep; lia). rewrite Hstep. lia.
Qed.

(** Minimising from 0 stays at 0. *)
Lemma fold_min_zero {A B : Type} (get : A -> Z) (f : B -> Z) (step : A -> B -> A) l m :
  (forall a b, get (step a b) = Z.min (get a) (f b)) -> get m = 0 ->
  Forall (fun x => 0 <= f x) l -> get (fold_left step l m) = 0.
Proof.
  intros Hstep Hm Hl. revert m Hm. induction Hl as [|b l Hb Hl IH]; intros m Hm; simpl; [done|].
  apply IH. rewrite Hstep. lia.
Qed.

(** The two directions of a report. *)
Inductive direction := Straight | Reverse.

Definition collected_of (d : direction) (r : ubwt_report) : ubwt_report_collect_t :=
  collected (match d with Straight => results0 r | Reverse => results1 r end).

Lemma combine_fold d ws m :
  collected_of d (fold_left combine_one ws m) =
    fold_left collect_combine (map (collected_of d) ws) (collected_of d m).
Proof.
  revert m. induction ws as [|w ws IH]; intros m; simpl; [done|].
  rewrite IH. f_equal. by destruct d.
Qed.

Lemma report_worker_combine_dir cfg ws m d :
  ws <> [] ->
  collected_of d (report_worker_combine cfg ws m) =
    (fold_left collect_combine (map (collected_of d) ws) (collected_of d m)) {{
      talk_latency_us ::= fun l => l /
        (if truth (asynchronous cfg) then Z.of_nat (length ws) / 2 else Z.of_nat (length ws)) }}.
Proof.
  intros Hws. rewrite <- combine_fold. unfold report_worker_combine.
  destruct (Z.of_nat (length ws) =? 0) eqn:E.
  { apply Z.eqb_eq in E. destruct ws; [done|simpl in E; lia]. }
  destruct (fold_left combine_one ws m); by destruct d.
Qed.

Definition collect_nonneg (c : ubwt_report_collect_t) : Prop :=
  0 <= talk_latency_us c /\ 0 <= talk_count c /\ 0 <= talk_stream_recv_pkts c /\
  0 <= talk_stream_time_duration c /\ 0 <= talk_stream_time_start c /\
  0 <= talk_stream_recv_bytes c.

(** C28: combining the workers' reports into the main thread's (whose own figures
    are zero, as [current_init] leaves them) gives, in each direction and when no
    sum overflows its type: the sums of the expected and received packets and of
    the received octets, the longest duration, and the average latency over the
    workers of that direction (all of them, or half in asynchronous mode); but the
    start time, meant to be the earliest, is always 0. *)
Theorem report_worker_combine_spec cfg ws m d :
  let cs := map (collected_of d) ws in
  let out := collected_of d (report_worker_combine cfg ws m) in
  let n := Z.of_nat (length ws) in
  ws <> [] -> collected_of d m = collect_zero -> Forall collect_nonneg cs ->
  sum_over talk_latency_us cs < 2 ^ 32 -> sum_over talk_count cs < 2 ^ 32 ->
  sum_over talk_stream_recv_pkts cs < 2 ^ 32 -> sum_over talk_stream_recv_bytes cs < 2 ^ 64 ->
  talk_count out = sum_over talk_count cs /\
  talk_stream_recv_pkts out = sum_over talk_stream_recv_pkts cs /\
  talk_stream_recv_bytes out = sum_over talk_stream_recv_bytes cs /\
  talk_stream_time_duration out = max_over talk_stream_time_duration cs /\
  talk_latency_us out =
    sum_over talk_latency_us cs / (if truth (asynchronous cfg) then n / 2 else n) /\
  talk_stream_time_start out = 0.
Proof.
  intros cs out n Hws Hm Hcs Hl Hc Hp Hb. subst out.
  rewrite report_worker_combine_dir by done. rewrite Hm. fold cs.
  assert (forall f, (forall c, collect_nonneg c -> 0 <= f c) -> Forall (fun x => 0 <= f x) cs) as Hf.
  { intros f H. eapply Forall_impl; [|exact Hcs]. simpl. auto. }
  set (acc := fold_left collect_combine cs collect_zero).
  assert (talk_count acc = 0 + sum_over talk_count cs) as E1.
  { apply (fold_wrap_sum 32); (done || apply Hf; unfold collect_nonneg; tauto). }
  assert (talk_stream_recv_pkts acc = 0 + sum_over talk_stream_recv_pkts cs) as E2.
  { apply (fold_wrap_sum 32); (done || apply Hf; unfold collect_nonneg; tauto). }
  assert (talk_stream_recv_bytes acc = 0 + sum_over talk_stream_recv_bytes cs) as E3.
  { apply (fold_wrap_sum 64); (done || apply Hf; unfold collect_nonneg; tauto). }
  assert (talk_latency_us acc = 0 + sum_over talk_latency_us cs) as E4.
  { apply (fold_wrap_sum 32); (done || apply Hf; unfold collect_nonneg; tauto). }
  assert (talk_stream_time_duration acc = Z.max 0 (max_over talk_stream_time_duration cs)) as E5.
  { apply (fold_max talk_stream_time_duration); [|done]. clear; intros a b.
    destruct a, b; unfold collect_combine; simpl. step_if; lia. }
  assert (talk_stream_time_start acc = 0) as E6.
  { apply (fold_min_zero talk_stream_time_start talk_stream_time_start);
      [|done|apply Hf; unfold collect_nonneg; tauto].
    clear; intros a b; destruct a, b; unfold collect_combine; simpl. step_if; lia. }
  assert (0 <= max_over talk_stream_time_duration cs) as Hmax.
  { clear. induction cs; simpl; lia. }
  rewrite Z.add_0_l in E1, E2, E3, E4. rewrite Z.max_r in E5 by done.
  destruct acc. clear -E1 E2 E3 E4 E5 E6. cbn in *. subst. by split_and!.
Qed.

Lemma report_worker_combine_spec_witness :
  let w := report_zero {{ results0 := {| collected := example_collect; computed := compute_zero |} }} in
  let out := collected_of Straight (report_worker_combine config_zero [w; w] report_zero) in
  talk_count out = 172800 /\ talk_latency_us out = 1500 /\ talk_stream_time_start out = 0.
Proof.
  intros w out.
  destruct (report_worker_combine_spec config_zero [w; w] report_zero Straight)
    as (H1 & _ & _ & _ & H2 & H3); [discriminate|reflexivity| | | | | |].
  - repeat constructor; simpl; vm_compute; congruence.
  - reflexivity.
  - reflexivity.
  - reflexivity.
  - reflexivity.
  - split_and!; [exact H1|exact H2|exact H3].
Defined.

(** ** Computed results: properties *)

(** The nominal speeds the estimate chooses from. *)
Definition link_speeds : list Z :=
  [10; 100; 1000; 2500; 5000; 10000; 20000; 40000; 100000; 200000; 400000; 800000; 1000000; 1600000].

(** The theoretical bandwidth is the smallest of the fourteen nominal link
    speeds strictly above the effective bandwidth, and the effective bandwidth
    itself when it reaches the largest of them. *)
Theorem theoretical_bandwidth_least (e : Z) :
  let t := _report_bandwidth_theoretical_mbps e in
  if 1600000 <=? e then t = e
  else t ∈ link_speeds /\ e < t /\ forall s, s ∈ link_speeds -> e < s -> t <= s.
Proof.
  intros t. destruct (Z.leb_spec 1600000 e) as [Hge|Hlt].
  - subst t. unfold _report_bandwidth_theoretical_mbps.
    repeat (step_if; to_prop; [lia|]). done.
  - assert (Forall (fun s => e < s -> t <= s) link_speeds /\ e < t /\ t ∈ link_speeds) as (Hall & ? & ?).
    { subst t. unfold _report_bandwidth_theoretical_mbps, link_speeds.
      repeat (step_if; to_prop;
        [split_and!; [repeat (apply Forall_cons_2; [intros; lia|]); apply Forall_nil_2|lia|set_solver]|]).
      lia. }
    split_and!; [done|done|]. intros s Hs. rewrite list.Forall_forall in Hall. by apply Hall.
Qed.

(** The packet loss is computed with 32-bit arithmetic: it is the rounded
    quotient of [100 * lost] by the expected count only while [100 * lost] is
    below [2^32]; from 42949673 lost packets on the percentage wraps around. *)
Theorem packet_loss_wraps cfg inet6 c k :
  report_compute cfg inet6 c = Some k ->
  0 <= talk_stream_recv_pkts c <= talk_count c -> talk_count c < 2 ^ 32 ->
  let lost := talk_count c - talk_stream_recv_pkts c in
  packet_loss k = ddiv (dbl ((100 * lost) mod 2 ^ 32)) (dbl (talk_count c)) /\
  ((100 * lost) mod 2 ^ 32 = 100 * lost <-> lost < 42949673).
Proof.
  intros H Hr Hc lost. unfold report_compute in H.
  apply bind_Some in H as (e & _ & [= <-]). unfold packet_loss. subst lost. split.
  - rewrite (wrap_small 32 (_ - _)) by (unfold unsigned; lia). unfold wrap. by rewrite (Z.mul_comm _ 100).
  - split; intros H.
    + pose proof (Z.mod_pos_bound (100 * (talk_count c - talk_stream_recv_pkts c)) (2 ^ 32)). lia.
    + apply Z.mod_small. lia.
Qed.

Definition example_report_config : ubwt_config :=
  config_zero {{ net_mtu := 1500; talk_payload_current_size := 1432;
                 net_l2_hdr_size := 26; net_l3_ipv4_hdr_size := 20; net_l4_hdr_size := 20 }}.

Lemma packet_loss_wraps_witness :
  exists k, report_compute example_report_config false (collect_zero {{
      talk_count := 100000000; talk_stream_recv_pkts := 57050327;
      talk_stream_time_duration := 4000000; talk_stream_recv_bytes := 81696068264 }}) = Some k /\
    dtrunc (dmul (packet_loss k) (dbl 1000)) = Some 0.
Proof.
  destruct (report_compute example_report_config false _) as [k|] eqn:H; [|vm_compute in H; discriminate].
  exists k. split; [done|].
  destruct (packet_loss_wraps _ _ _ _ H) as [-> _]; [|reflexivity|reflexivity].
  simpl. lia.
Defined.
