(* ===== verification/Thread.v ===== *)
(** The state of a thread and its interaction with the system.

    [struct ubwt_current] (include/current.h) gathers what the modules know about
    a thread; it is the record [ubwt_current] below, without the locks and the
    links of the list of threads, which Current.v models.  [thread] adds what the
    operating system will answer to the thread's calls, as scripts, and what the
    thread has done.  Code that calls the system is written in the monad [M]: it
    returns ([Done]), ends the process ([Halted]), or waits for an event the
    scripts do not contain ([Blocked]). *)

From S2P Require Import Prelude Bitops Errors Byteorder Layout ConfigData Double Report Stage.

(** ** [errno] *)

Inductive errno_t := E0 | EINTR | EAGAIN | EINVAL | EBADE | ENOBUFS | ECANCELED | E_other (z : Z).

#[export] Instance errno_eq_dec : EqDecision errno_t.
Proof. solve_decision. Defined.

(** The values on Linux. *)
Definition errno_value (e : errno_t) : Z :=
  match e with
  | E0 => 0 | EINTR => 4 | EAGAIN => 11 | EINVAL => 22 | EBADE => 52 | ENOBUFS => 105
  | ECANCELED => 125 | E_other z => z
  end.

(** The choices of include/error.h where both constants exist. *)
Definition UBWT_ERROR_ABORT : errno_t := ECANCELED.
Definition UBWT_ERROR_MSG_UNEXPECTED : errno_t := EBADE.

(** ** Addresses and sockets (include/net.h) *)

Inductive sa_family := AF_INET | AF_INET6 | AF_other (z : Z).

#[export] Instance sa_family_eq_dec : EqDecision sa_family.
Proof. solve_decision. Defined.

(** A socket address: its family and the bytes that follow. *)
Record sockaddr := { ss_family : sa_family; sa_data : list Z }.

#[export] Instance sockaddr_eq_dec : EqDecision sockaddr.
Proof. solve_decision. Defined.

Record ubwt_net_endpoint := { slen : Z; saddr : sockaddr }.

Record ubwt_net := {
  fd : Z;
  fd_listen : Z;
  domain : sa_family;
  type : Z;
  protocol : Z;
  buf : list Z;
  buf_idx : Z;
  listener : ubwt_net_endpoint;
  connector : ubwt_net_endpoint
}.

Definition endpoint_zero : ubwt_net_endpoint :=
  {| slen := 0; saddr := {| ss_family := AF_other 0; sa_data := [] |} |}.

Definition net_zero : ubwt_net := {|
  fd := 0; fd_listen := 0; domain := AF_other 0; type := 0; protocol := 0;
  buf := []; buf_idx := 0; listener := endpoint_zero; connector := endpoint_zero
|}.

(** ** Roles and talk contexts (include/process.h, include/talk.h) *)

Record ubwt_process := { im_sender : Z; im_receiver : Z; reverse : Z }.

Record ubwt_talk_context := { im_weak : Z; talk_ctx_count : Z; weak_time : Z }.

(** The array [__talk] and the counter [__talk_weak] its two entries point to;
    the threads of a process share them. *)
Record talk_shared := {
  talk_weak : Z;
  talk_straight : ubwt_talk_context;
  talk_reverse : ubwt_talk_context
}.

Definition talk_context_zero : ubwt_talk_context :=
  {| im_weak := 0; talk_ctx_count := 0; weak_time := 0 |}.

Definition talk_shared_zero : talk_shared :=
  {| talk_weak := 0; talk_straight := talk_context_zero; talk_reverse := talk_context_zero |}.

(** ** [struct ubwt_current] *)

Record ubwt_current := {
  config : ubwt_config;
  net : ubwt_net;
  time_us_start : Z;
  time_us_now : Z;
  stage : ubwt_stage_t;
  error : ubwt_error_t;
  report : ubwt_report;
  process : ubwt_process;
  talk : talk_shared;
  worker_id : Z;
  remote_worker_id : Z;
  worker_flags : Z
}.

Definition current_zero : ubwt_current := {|
  config := config_zero; net := net_zero; time_us_start := 0; time_us_now := 0;
  stage := {| iter := 0; state := UBWT_STAGE_STATE_NONE |};
  error := {| l_errno := 0; l_eai := 0 |};
  report := report_zero;
  process := {| im_sender := 0; im_receiver := 0; reverse := 0 |};
  talk := talk_shared_zero;
  worker_id := 0; remote_worker_id := 0; worker_flags := 0
|}.

(** ** What the system answers

    [RxData bs]: the bytes a read can return; a stream socket keeps those that
    were not asked for, a datagram socket drops them.  [TxAccept n]: a write takes
    at most [n] bytes.  When the script of the writes ends the remaining ones are
    taken whole, and when the one of the other calls ends they succeed. *)

Inductive rx := RxData (bs : list Z) | RxErr (e : errno_t).
Inductive tx := TxAccept (n : nat) | TxErr (e : errno_t).

(** What the other threads of the process do until a barrier opens, and whether
    this thread is the serial one. *)
Record sync := { serial : bool; others : talk_shared -> talk_shared }.

(** System calls other than reads and writes, as the thread makes them.  [C_mutex]: the
    thread takes or gives back [worker_mutex_global], the talk contexts being as
    given. *)
Inductive call :=
| C_getaddrinfo (node service : string) (socktype : Z)
| C_socket (family : sa_family) (socktype protocol : Z)
| C_reuseaddr (fd : Z)
| C_reuseport (fd : Z)
| C_rcvtimeo (fd timeout : Z)
| C_bind (fd : Z) (a : sockaddr)
| C_listen (fd backlog : Z)
| C_connect (fd : Z) (a : sockaddr)
| C_accept (fd : Z)
| C_close (fd : Z)
| C_usleep (us : Z)
| C_barrier (i : Z)
| C_sleep (s : Z)
| C_mutex (held : bool) (contexts : talk_shared).

Record thread := {
  cur : ubwt_current;
  errno : errno_t;
  k_rx : list rx;
  k_tx : list tx;
  k_sent : list (list Z);
  k_calls : list (Z * errno_t);
  k_trace : list call;
  k_clock : nat -> option (Z * Z);
  k_tick : nat;
  k_sync : list sync;
  k_log : list (ubwt_error_level_t * ubwt_error_type_t * string)
}.

(** ** The monad *)

Inductive out (A : Type) :=
| Done (a : A) (s : thread)
| Halted (e : stop) (s : thread)
| Blocked (s : thread).
Arguments Done {A} _ _.
Arguments Halted {A} _ _.
Arguments Blocked {A} _.

Definition M (A : Type) : Type := thread -> out A.

#[export] Instance M_ret : MRet M := fun A a s => Done a s.
#[export] Instance M_bind : MBind M := fun A B f m s =>
  match m s with
  | Done a s => f a s
  | Halted e s => Halted e s
  | Blocked s => Blocked s
  end.

Definition get {A : Type} (f : thread -> A) : M A := fun s => Done (f s) s.
Definition modify (f : thread -> thread) : M unit := fun s => Done tt (f s).
Definition current_of {A : Type} (f : ubwt_current -> A) : M A := get (fun s => f (cur s)).
Definition update_cur (f : ubwt_current -> ubwt_current) : M unit :=
  modify (fun s => s {{ cur ::= f }}).
Definition halt {A : Type} (e : stop) : M A := fun s => Halted e s.
Definition blocked {A : Type} : M A := fun s => Blocked s.
Definition massert (b : bool) (expr : string) : M unit :=
  if b then mret tt else halt (Assertion expr).
Definition set_errno (e : errno_t) : M unit := modify (fun s => s {{ errno := e }}).
Definition when (b : bool) (m : M unit) : M unit := if b then m else mret tt.

(** A computation of the result monad that does not use the state. *)
Definition lift_res {A : Type} (r : res A) : M A :=
  match r with Ok a => mret a | Stop e => halt e end.

(** [error_handler], without the text of the message. *)
Definition error_report (level : ubwt_error_level_t) (t : ubwt_error_type_t) (origin : string)
  : M unit :=
  e ← get errno;
  update_cur (fun c => c {{ error ::= fun r =>
    {| l_errno := errno_value e; l_eai := l_eai r |} }}) ;;
  modify (fun s => s {{ k_log ::= fun l => l ++ [(level, t, origin)] }}) ;;
  match snd (error_level_action level t) with
  | Some e => halt e
  | None => mret tt
  end.

Definition fatal_error {A : Type} (t : ubwt_error_type_t) (origin : string) : M A :=
  error_report UBWT_ERROR_LEVEL_FATAL t origin ;; halt (Exited EXIT_FAILURE (Some t)).

(** ** System calls *)

(** [read] on a stream socket: [None] is -1 with [errno] set. *)
Definition sys_read (n : nat) : M (option (list Z)) :=
  l ← get k_rx;
  match l with
  | [] => blocked
  | RxErr e :: l => modify (fun s => s {{ k_rx := l; errno := e }}) ;; mret None
  | RxData bs :: l =>
      let rest := drop n bs in
      modify (fun s => s {{ k_rx := if decide (rest = []) then l else RxData rest :: l }}) ;;
      mret (Some (take n bs))
  end.

(** [recv] on a datagram socket. *)
Definition sys_recv (n : nat) : M (option (list Z)) :=
  l ← get k_rx;
  match l with
  | [] => blocked
  | RxErr e :: l => modify (fun s => s {{ k_rx := l; errno := e }}) ;; mret None
  | RxData bs :: l => modify (fun s => s {{ k_rx := l }}) ;; mret (Some (take n bs))
  end.

(** [write], [send] or [sendto]: the number of bytes taken, or [None] for -1. *)
Definition sys_write (bs : list Z) : M (option nat) :=
  l ← get k_tx;
  match l with
  | [] => modify (fun s => s {{ k_sent ::= fun o => o ++ [bs] }}) ;; mret (Some (length bs))
  | TxErr e :: l => modify (fun s => s {{ k_tx := l; errno := e }}) ;; mret None
  | TxAccept n :: l =>
      modify (fun s => s {{ k_tx := l; k_sent ::= fun o => o ++ [take n bs] }}) ;;
      mret (Some (length (take n bs)))
  end.

Definition sys_call (c : call) : M Z :=
  modify (fun s => s {{ k_trace ::= fun t => t ++ [c] }}) ;;
  l ← get k_calls;
  match l with
  | [] => mret 0
  | (r, e) :: l =>
      modify (fun s => s {{ k_calls := l }}) ;;
      (if r <? 0 then set_errno e else mret tt) ;;
      mret r
  end.

(** [worker_barrier_wait(&worker_barrier_global[i])]: without a script the thread is
    alone at the barrier. *)
Definition sys_barrier (i : Z) : M bool :=
  modify (fun s => s {{ k_trace ::= fun t => t ++ [C_barrier i] }}) ;;
  l ← get k_sync;
  match l with
  | [] => mret true
  | b :: l =>
      modify (fun s => s {{ k_sync := l; cur ::= fun c => c {{ talk ::= others b }} }}) ;;
      mret (serial b)
  end.

(** [worker_mutex_lock(current->worker_mutex_global)] and [worker_mutex_unlock]; that they
    abort when the pthread call fails is left out (Locks.v). *)
Definition sys_mutex (held : bool) : M unit :=
  modify (fun s => s {{ k_trace ::= fun t => t ++ [C_mutex held (talk (cur s))] }}).

(** ** Time: src/datetime.c and the time functions of src/current.c *)

Definition datetime_now_us : M Z :=
  clock ← get k_clock;
  tick ← get k_tick;
  modify (fun s => s {{ k_tick := S tick }}) ;;
  match clock tick with
  | Some (tv_sec, tv_usec) => mret (wrap 64 (wrap 64 (tv_sec * 1000000) + tv_usec))
  | None => fatal_error UBWT_ERROR_TYPE_TIME_GET "time_now_us(): gettimeofday()"
  end.

Definition current_update : M unit :=
  t ← datetime_now_us;
  update_cur (fun c => c {{ time_us_now := t }}).

Definition current_time_now : M Z := current_update ;; current_of time_us_now.

Definition current_time_start : M Z := current_of time_us_start.

(** The two calls of the subtraction are evaluated left to right. *)
Definition current_time_elapsed : M Z :=
  now ← current_time_now;
  start ← current_time_start;
  mret (wrap 64 (now - start)).

(** ** Stages *)

Definition t_stage_set (s : ubwt_stage_state_t) (flags : Z) : M unit :=
  update_cur (fun c => c {{ stage ::= fun st => fst (stage_set s flags st) }}).
Definition t_stage_inc (flags : Z) : M unit :=
  update_cur (fun c => c {{ stage ::= fun st => fst (stage_inc flags st) }}).
Definition t_stage_reset : M unit :=
  update_cur (fun c => c {{ stage ::= stage_reset }}).
Definition t_report (f : ubwt_report -> ubwt_report) : M unit :=
  update_cur (fun c => c {{ report ::= f }}).
