(* ===== verification/Net.v ===== *)
(** The network: include/net.h and src/net.c.

    Opening the sockets, the exchange of connection payloads, the read and write
    loops that retry and resume partial transfers, and the buffer that fills the
    stream's payload.  The [COMPILE_WIN32] variants are not modelled. *)

From S2P Require Import Prelude Bitops Errors Byteorder Layout ConfigData Usage Double Report Stage Thread Config ConfigSpec Conn.

(** [struct addrinfo], as [getaddrinfo] returns it. *)
Record addrinfo := {
  ai_family : sa_family;
  ai_socktype : Z;
  ai_protocol : Z;
  ai_addrlen : Z;
  ai_addr : sockaddr
}.

Definition SOCK_STREAM : Z := 1.
Definition SOCK_DGRAM : Z := 2.

Definition net_im_connector : M bool := current_of (fun c => truth (im_connector (config c))).
Definition net_im_listener : M bool := current_of (fun c => truth (im_listener (config c))).
Definition net_proto : M Z := current_of (fun c => net_l4_proto_value (config c)).
Definition net_fd : M Z := current_of (fun c => fd (net c)).

Definition update_net (f : ubwt_net -> ubwt_net) : M unit := update_cur (fun c => c {{ net ::= f }}).

Definition is_tcp (p : Z) : bool := p =? UBWT_NET_PROTO_L4_TCP.
Definition is_udp (p : Z) : bool := p =? UBWT_NET_PROTO_L4_UDP.

(** The host and its build; the resolver; the contents of the files it can open;
    the address the kernel reports for the peer; the bytes an uninitialised
    payload holds. *)
Section net.
Variable big : bool.
Variable b : build.
Variable en : env.
Variable getaddrinfo : string -> string -> Z -> Z * list addrinfo.
Variable file_bytes : string -> list Z.
Variable peer : ubwt_net_endpoint.
Variable uninit : list Z.

Definition ly : conn_layout := conn_build_layout b.

Definition net_timeout_set (fd timeout : Z) : M Z :=
  if defined (UBWT_CONFIG_NET_NO_TIMEOUT b) then mret 0 else
  r ← sys_call (C_rcvtimeo fd timeout);
  if r <? 0 then
    error_report UBWT_ERROR_LEVEL_WARNING UBWT_ERROR_TYPE_NET_RECV_TIMEO_SET
      "net_timeout_set(): setsockopt()" ;;
    mret (-1)
  else mret 0.

(** ** Connection *)

(** The structure in which [n] bytes have been received. *)
Definition conn_received (bs : list Z) : ubwt_conn_payload_t :=
  conn_of_bytes big ly (bs ++ drop (length bs) uninit).

Definition net_fail (t : ubwt_error_type_t) (origin : string) : M Z :=
  error_report UBWT_ERROR_LEVEL_CRITICAL t origin ;; mret (-1).

(** The checks after the exchange, on the received payload; [has] is
    [conn_has_accept] or [conn_has_connect]. *)
Definition conn_check (t : ubwt_error_type_t) (has : ubwt_conn_payload_t -> bool)
    (who : string) (p1 p2 : ubwt_conn_payload_t) : M Z :=
  let p1 := conn_payload_ntoh big p1 in
  let p2 := conn_payload_ntoh big p2 in
  if negb (has p2) then
    error_report UBWT_ERROR_LEVEL_CRITICAL t
      (who +:+ ": Unexpected response from the remote host") ;;
    set_errno UBWT_ERROR_MSG_UNEXPECTED ;;
    mret (-1)
  else if negb (conn_config_match big ly p1 p2) then
    set_errno UBWT_ERROR_MSG_UNEXPECTED ;;
    fatal_error t (who +:+ ": Configurations from listener and connector do not match")
  else mret 0.

Definition net_connector_connect : M Z :=
  let T := UBWT_ERROR_TYPE_NET_CONNECT in
  cfg ← current_of config;
  let p1 := conn_payload_hton big (conn_payload_create b cfg) in
  let bytes := conn_bytes big ly p1 in
  f ← net_fd;
  addr ← current_of (fun c => saddr (listener (net c)));
  let proto := net_l4_proto_value cfg in
  if is_tcp proto then
    r ← sys_call (C_connect f addr);
    if r <? 0 then net_fail T "net_connector_connect(): connect()" else
    w ← sys_write bytes;
    if decide (w = Some conn_payload_size) then
      p2 ← sys_read conn_payload_size;
      match p2 with
      | Some bs =>
          if decide (length bs = conn_payload_size) then
            conn_check T conn_has_accept "net_connector_connect()" p1 (conn_received bs)
          else net_fail T "net_connector_connect(): read()"
      | None => net_fail T "net_connector_connect(): read()"
      end
    else net_fail T "net_connector_connect(): write()"
  else if negb (defined (UBWT_CONFIG_NET_NO_UDP b)) && is_udp proto then
    let exchange :=
      p2 ← sys_recv conn_payload_size;
      match p2 with
      | Some bs =>
          update_net (fun n => n {{ listener := peer }}) ;;
          conn_check T conn_has_accept "net_connector_connect()" p1 (conn_received bs)
      | None => net_fail T "net_connector_connect(): recvfrom()"
      end in
    if defined (UBWT_CONFIG_NET_UDP_CONNECT b) then
      r ← sys_call (C_connect f addr);
      if r <? 0 then net_fail T "net_connector_connect(): connect()" else
      w ← sys_write bytes;
      match w with
      | None => net_fail T "net_connector_connect(): send()"
      | Some _ => exchange
      end
    else
      w ← sys_write bytes;
      match w with
      | None => net_fail T "net_connector_connect(): sendto()"
      | Some _ => exchange
      end
  else
    error_report UBWT_ERROR_LEVEL_CRITICAL T "net_connector_connect(): Unsupported L4 protocol" ;;
    set_errno EINVAL ;;
    mret (-1).

Definition net_listener_accept : M Z :=
  let T := UBWT_ERROR_TYPE_NET_ACCEPT in
  cfg ← current_of config;
  let p1 := conn_payload_hton big (conn_payload_create b cfg) in
  let bytes := conn_bytes big ly p1 in
  let proto := net_l4_proto_value cfg in
  if is_tcp proto then
    fl ← current_of (fun c => fd_listen (net c));
    r ← sys_call (C_accept fl);
    update_net (fun n => n {{ fd := r }}) ;;
    if r <? 0 then net_fail T "net_listener_accept(): accept()" else
    update_net (fun n => n {{ connector := peer }}) ;;
    p2 ← sys_read conn_payload_size;
    match p2 with
    | Some bs =>
        if decide (length bs = conn_payload_size) then
          w ← sys_write bytes;
          if decide (w = Some conn_payload_size) then
            conn_check T conn_has_connect "net_listener_accept()" p1 (conn_received bs)
          else net_fail T "net_listener_accept(): write()"
        else net_fail T "net_listener_accept(): read()"
    | None => net_fail T "net_listener_accept(): read()"
    end
  else if negb (defined (UBWT_CONFIG_NET_NO_UDP b)) && is_udp proto then
    p2 ← sys_recv conn_payload_size;
    match p2 with
    | Some bs =>
        update_net (fun n => n {{ connector := peer }}) ;;
        w ← sys_write bytes;
        match w with
        | None => net_fail T "net_listener_accept(): sendto()"
        | Some _ => conn_check T conn_has_connect "net_listener_accept()" p1 (conn_received bs)
        end
    | None => net_fail T "net_listener_accept(): recvfrom()"
    end
  else
    error_report UBWT_ERROR_LEVEL_CRITICAL T "net_listener_accept(): Unsupported L4 protocol" ;;
    set_errno EINVAL ;;
    mret (-1).

(** ** Reading and writing

    Every turn of the loops makes one system call, so one more turn than the
    script has entries is enough ([net_read_loop_fuel], [net_write_loop_fuel]).
    The result is the number of bytes, or -1; the bytes themselves are those
    that are in the caller's buffer. *)

Fixpoint net_read_loop (who : string) (fuel : nat) (count len : nat) (acc : list Z)
  : M (Z * list Z) :=
  match fuel with
  | O => blocked
  | S fuel =>
      if bool_decide (count < len)%nat then
        proto ← net_proto;
        ret ← (if is_tcp proto then sys_read (len - count) else sys_recv (len - count));
        match ret with
        | None =>
            e ← get errno;
            if decide (e = EINTR) then net_read_loop who fuel count len acc else
            error_report UBWT_ERROR_LEVEL_WARNING UBWT_ERROR_TYPE_NET_RECV_FAILED
              (who +:+ (if is_tcp proto then ": read()" else ": recv()")) ;;
            mret (-1, acc)
        | Some bs => net_read_loop who fuel (count + length bs) len (acc ++ bs)
        end
      else mret (Z.of_nat count, acc)
  end.

Definition net_read (who : string) (len : nat) : M (Z * list Z) :=
  l ← get k_rx;
  net_read_loop who (S (length l)) 0 len [].

Definition net_read_from_connector (len : nat) : M (Z * list Z) :=
  net_read "net_read_from_connector()" len.

Definition net_read_from_listener (len : nat) : M (Z * list Z) :=
  net_read "net_read_from_listener()" len.

Fixpoint net_write_loop (who : string) (fuel : nat) (count : nat) (bs : list Z) : M Z :=
  match fuel with
  | O => blocked
  | S fuel =>
      if bool_decide (count < length bs)%nat then
        ret ← sys_write (drop count bs);
        match ret with
        | None =>
            e ← get errno;
            if decide (e = EINTR) then net_write_loop who fuel count bs else
            if decide (e = ENOBUFS) then
              sys_call (C_usleep 10) ;; net_write_loop who fuel count bs
            else
            proto ← net_proto;
            error_report UBWT_ERROR_LEVEL_WARNING UBWT_ERROR_TYPE_NET_SEND_FAILED
              (who +:+ (if is_tcp proto then ": write()" else ": sendto()")) ;;
            mret (-1)
        | Some n => net_write_loop who fuel (count + n) bs
        end
      else mret (Z.of_nat count)
  end.

Definition net_write (who : string) (bs : list Z) : M Z :=
  l ← get k_tx;
  net_write_loop who (S (S (length l))) 0 bs.

Definition net_write_to_connector (bs : list Z) : M Z := net_write "net_write_to_connector()" bs.

Definition net_write_to_listener (bs : list Z) : M Z := net_write "net_write_to_listener()" bs.

(** The payload buffer: the next [count] bytes, restarting when they would pass
    the end of the buffer. *)
Definition net_buf_fill (count : Z) : M (list Z) :=
  size ← current_of (fun c => net_payload_buffer_size (config c));
  massert (count <=? size) "count <= c->config->net_payload_buffer_size" ;;
  idx ← current_of (fun c => buf_idx (net c));
  when (size <? idx + count) (update_net (fun n => n {{ buf_idx := 0 }})) ;;
  n ← current_of net;
  update_net (fun n => n {{ buf_idx ::= fun i => wrap 32 (i + count) }}) ;;
  mret (take (Z.to_nat count) (drop (Z.to_nat (buf_idx n)) (buf n))).

(** ** Opening and closing *)

Definition hints_socktype (proto : Z) : option Z :=
  if is_udp proto then Some SOCK_DGRAM
  else if is_tcp proto then Some SOCK_STREAM
  else None.

(** The loop of [_net_connector_start]: the first address a socket opens for. *)
Fixpoint connector_open (l : list addrinfo) : M bool :=
  match l with
  | [] => mret false
  | a :: l =>
      f ← sys_call (C_socket (ai_family a) (ai_socktype a) (ai_protocol a));
      if f <? 0 then connector_open l else
      update_net (fun n => n {{
        fd := f;
        listener := {| slen := ai_addrlen a; saddr := ai_addr a |};
        domain := ai_family a;
        type := ai_socktype a;
        protocol := ai_protocol a }}) ;;
      mret true
  end.

Definition _net_connector_start : M Z :=
  cfg ← current_of config;
  match hints_socktype (net_l4_proto_value cfg) with
  | None =>
      set_errno EINVAL ;; net_fail UBWT_ERROR_TYPE_NET_INVALID_PROTO "net_connector_start()"
  | Some st =>
      sys_call (C_getaddrinfo (addr cfg) (port cfg) st) ;;
      let '(eai, l) := getaddrinfo (addr cfg) (port cfg) st in
      update_cur (fun c => c {{ error ::= fun r => {| l_errno := l_errno r; l_eai := eai |} }}) ;;
      if truth eai then net_fail UBWT_ERROR_TYPE_NET_ADDRINFO "net_connector_start(): getaddrinfo()"
      else
      ok ← connector_open l;
      if negb ok then net_fail UBWT_ERROR_TYPE_NET_ADDRINFO "net_connector_start()" else
      f ← net_fd;
      r ← net_timeout_set f (net_timeout_default cfg);
      if r <? 0 then
        net_fail UBWT_ERROR_TYPE_NET_RECV_TIMEO_SET "net_connector_start(): net_timeout_set()"
      else mret 0
  end.

(** The loop of [_net_listener_start]: the first address that can be bound.  The
    result is the descriptor. *)
Fixpoint listener_open (cfg : ubwt_config) (l : list addrinfo) : M (option Z) :=
  match l with
  | [] => mret None
  | a :: l =>
      f ← sys_call (C_socket (ai_family a) (ai_socktype a) (ai_protocol a));
      if f <? 0 then listener_open cfg l else
      (if is_tcp (net_l4_proto_value cfg)
       then update_net (fun n => n {{ fd_listen := f }})
       else update_net (fun n => n {{ fd := f }})) ;;
      update_net (fun n => n {{
        listener := {| slen := ai_addrlen a; saddr := ai_addr a |} }}) ;;
      when (defined (UBWT_CONFIG_NET_REUSE_ADDRESS b) && truth (net_reuseaddr cfg))
        (r ← sys_call (C_reuseaddr f);
         when (r <? 0)
           (error_report UBWT_ERROR_LEVEL_WARNING UBWT_ERROR_TYPE_NET_REUSEADDR_FAILED
             "net_listener_start(): setsockopt()")) ;;
      when (defined (UBWT_CONFIG_NET_REUSE_PORT b) && truth (net_reuseport cfg))
        (r ← sys_call (C_reuseport f);
         when (r <? 0)
           (error_report UBWT_ERROR_LEVEL_WARNING UBWT_ERROR_TYPE_NET_REUSEPORT_FAILED
             "net_listener_start(): setsockopt()")) ;;
      r ← sys_call (C_bind f (ai_addr a));
      if r <? 0 then sys_call (C_close f) ;; listener_open cfg l else
      mret (Some f)
  end.

Definition _net_listener_start : M Z :=
  cfg ← current_of config;
  match hints_socktype (net_l4_proto_value cfg) with
  | None =>
      set_errno EINVAL ;; net_fail UBWT_ERROR_TYPE_NET_INVALID_PROTO "net_listener_start()"
  | Some st =>
      sys_call (C_getaddrinfo (addr cfg) (port cfg) st) ;;
      let '(eai, l) := getaddrinfo (addr cfg) (port cfg) st in
      update_cur (fun c => c {{ error ::= fun r => {| l_errno := l_errno r; l_eai := eai |} }}) ;;
      if truth eai then net_fail UBWT_ERROR_TYPE_NET_ADDRINFO "net_listener_start(): getaddrinfo()"
      else
      o ← listener_open cfg l;
      match o with
      | None => net_fail UBWT_ERROR_TYPE_NET_ADDRINFO "net_listener_start()"
      | Some f =>
          r ← net_timeout_set f (net_timeout_default cfg);
          if r <? 0 then
            net_fail UBWT_ERROR_TYPE_NET_RECV_TIMEO_SET "net_listener_start(): net_timeout_set()"
          else if is_tcp (net_l4_proto_value cfg) then
            fl ← current_of (fun c => fd_listen (net c));
            r ← sys_call (C_listen fl UBWT_CONFIG_NET_LISTEN_BACKLOG);
            if r <? 0 then net_fail UBWT_ERROR_TYPE_NET_LISTEN "net_listener_listen(): listen()"
            else mret 0
          else mret 0
      end
  end.

Definition _net_listener_stop : M unit :=
  n ← current_of net;
  sys_call (C_close (fd n)) ;; sys_call (C_close (fd_listen n)) ;; mret tt.

Definition _net_connector_stop : M unit :=
  f ← net_fd; sys_call (C_close f) ;; mret tt.

Definition net_init : M unit :=
  let T := UBWT_ERROR_TYPE_NET_INIT in
  t_stage_set UBWT_STAGE_STATE_INIT_NET 0 ;;
  l ← net_im_listener;
  r ← (if (l : bool) then _net_listener_start else _net_connector_start);
  if r <? 0 then fatal_error T "net_init()" else
  cfg ← current_of config;
  let size := net_payload_buffer_size cfg in
  if truth size then
    let f := default EmptyString (net_payload_buffer_file cfg) in
    if negb (fopen_ok en f "r") then fatal_error T "net_init(): fopen(, r)" else
    if negb (malloc_ok en size) then fatal_error T "net_init(): malloc()" else
    if (length (file_bytes f) <? Z.to_nat size)%nat then fatal_error T "net_init(): fread()" else
    update_net (fun n => n {{ buf := take (Z.to_nat size) (file_bytes f) }})
  else mret tt.

Definition net_destroy : M unit :=
  t_stage_set UBWT_STAGE_STATE_DESTROY_NET 0 ;;
  l ← net_im_listener;
  (if (l : bool) then _net_listener_stop else _net_connector_stop) ;;
  update_net (fun _ => net_zero).

End net.

Definition net_sockaddr_is_inet6 (a : sockaddr) : bool := bool_decide (ss_family a = AF_INET6).

(** [sin_port] and [sin6_port] are both the first two bytes after the family. *)
Definition net_sockaddr_port (big : bool) (a : sockaddr) : Z :=
  ntohs big (mem_val big (take 2 (sa_data a))).
