(* ===== verification/NetSpec.v ===== *)
(** Properties of the network code (Net.v): the transfer loops hide the way the
    kernel splits the data, connections agree on both ends, and the payload
    buffer stays in bounds. *)

From S2P Require Import Prelude Bitops Errors Byteorder Layout ConfigData Usage Double Report Stage Thread Config ConfigSpec Conn Net.

(** ** Running computations *)

Lemma bind_Done {A B : Type} (m : M A) (f : A -> M B) s a s' :
  m s = Done a s' -> (m ≫= f) s = f a s'.
Proof. unfold mbind, M_bind. by intros ->. Qed.

Lemma bind_Halted {A B : Type} (m : M A) (f : A -> M B) s e s' :
  m s = Halted e s' -> (m ≫= f) s = Halted e s'.
Proof. unfold mbind, M_bind. by intros ->. Qed.

Lemma get_bind {A B : Type} (g : thread -> A) (f : A -> M B) s : (get g ≫= f) s = f (g s) s.
Proof. reflexivity. Qed.

Lemma modify_bind {B : Type} (g : thread -> thread) (f : unit -> M B) s :
  (modify g ≫= f) s = f tt (g s).
Proof. reflexivity. Qed.

Lemma ret_bind {A B : Type} (a : A) (f : A -> M B) s : (mret a ≫= f) s = f a s.
Proof. reflexivity. Qed.

Lemma bind_assoc {A B C : Type} (m : M A) (f : A -> M B) (g : B -> M C) s :
  ((m ≫= f) ≫= g) s = (m ≫= (fun a => f a ≫= g)) s.
Proof. unfold mbind, M_bind. by destruct (m s). Qed.

Lemma massert_bind_true {B : Type} (b : bool) e (f : unit -> M B) s :
  b = true -> (massert b e ≫= f) s = f tt s.
Proof. by intros ->. Qed.

#[export] Hint Rewrite @get_bind @modify_bind @ret_bind @bind_assoc : ubwt_run.

(** ** Scripts without fatal errors *)

Definition rx_good (r : rx) : Prop :=
  match r with RxData bs => bs <> [] | RxErr e => e = EINTR end.

Definition rx_data (l : list rx) : list Z :=
  concat (map (fun r => match r with RxData bs => bs | RxErr _ => [] end) l).

Definition tx_good (t : tx) : Prop :=
  match t with TxAccept n => (0 < n)%nat | TxErr e => e = EINTR \/ e = ENOBUFS end.

(** Replace what is left of the reads' script. *)
Definition set_rx (l : list rx) (e : errno_t) (s : thread) : thread :=
  s {{ k_rx := l; errno := e }}.

Lemma set_rx_id s : set_rx (k_rx s) (errno s) s = s.
Proof. by destruct s. Qed.

Lemma set_rx_set_rx l e l' e' s : set_rx l e (set_rx l' e' s) = set_rx l e s.
Proof. by destruct s. Qed.

Lemma k_rx_set_rx l e s : k_rx (set_rx l e s) = l.
Proof. by destruct s. Qed.

Lemma cur_set_rx l e s : cur (set_rx l e s) = cur s.
Proof. by destruct s. Qed.

(** One turn of the read loop on a stream. *)
Lemma net_read_loop_data who fuel count len acc s bs l :
  is_tcp (net_l4_proto_value (config (cur s))) = true ->
  (count < len)%nat -> k_rx s = RxData bs :: l ->
  net_read_loop who (S fuel) count len acc s =
    net_read_loop who fuel (count + length (take (len - count) bs)) len
      (acc ++ take (len - count) bs)
      (set_rx (if decide (drop (len - count) bs = []) then l
               else RxData (drop (len - count) bs) :: l) (errno s) s).
Proof.
  intros Htcp Hlt Hrx. cbn [net_read_loop]. rewrite bool_decide_eq_true_2 by done.
  unfold net_proto, current_of. rewrite get_bind, Htcp. unfold sys_read.
  rewrite bind_assoc, get_bind, Hrx. rewrite bind_assoc, modify_bind, ret_bind.
  reflexivity.
Qed.

Lemma net_read_loop_eintr who fuel count len acc s l :
  (count < len)%nat -> k_rx s = RxErr EINTR :: l ->
  net_read_loop who (S fuel) count len acc s = net_read_loop who fuel count len acc (set_rx l EINTR s).
Proof.
  intros Hlt Hrx. cbn [net_read_loop]. rewrite bool_decide_eq_true_2 by done.
  unfold net_proto, current_of. rewrite get_bind.
  destruct (is_tcp _); unfold sys_read, sys_recv; rewrite bind_assoc, get_bind, Hrx;
    rewrite bind_assoc, modify_bind, ret_bind, get_bind; by destruct s.
Qed.

Lemma net_read_loop_end who fuel len acc s :
  net_read_loop who (S fuel) len len acc s = Done (Z.of_nat len, acc) s.
Proof. cbn [net_read_loop]. by rewrite bool_decide_eq_false_2 by lia. Qed.

Lemma net_read_loop_stream who len fuel count acc s :
  is_tcp (net_l4_proto_value (config (cur s))) = true ->
  Forall rx_good (k_rx s) ->
  (count <= len)%nat -> (len - count <= length (rx_data (k_rx s)))%nat ->
  (1 <= fuel)%nat -> ((count < len)%nat -> (length (k_rx s) < fuel)%nat) ->
  exists l e,
    net_read_loop who fuel count len acc s =
      Done (Z.of_nat len, acc ++ take (len - count) (rx_data (k_rx s))) (set_rx l e s) /\
    Forall rx_good l /\ rx_data l = drop (len - count) (rx_data (k_rx s)).
Proof.
  revert count acc s. induction fuel as [|fuel IH]; intros count acc s Htcp Hgood Hle Hlen Hf1 Hf; [lia|].
  destruct (decide (count = len)) as [->|Hne].
  { exists (k_rx s), (errno s). rewrite net_read_loop_end, Nat.sub_diag, take_0, app_nil_r, set_rx_id, drop_0.
    done. }
  assert (count < len)%nat as Hlt by lia. specialize (Hf Hlt).
  destruct (k_rx s) as [|[bs|e] l] eqn:Hrx.
  - simpl in Hlen. lia.
  - inversion Hgood as [|? ? Hbs Hl]; subst. simpl in Hbs.
    rewrite (net_read_loop_data _ _ _ _ _ _ bs l) by done.
    change (rx_data (RxData bs :: l)) with (bs ++ rx_data l) in *. rewrite length_app in Hlen.
    assert (0 < length bs)%nat by (destruct bs; [done|simpl; lia]).
    simpl in Hf. rewrite length_take.
    destruct (decide (length bs <= len - count)%nat) as [Hsmall|Hbig].
    + rewrite (drop_ge bs), (take_ge bs) by lia. rewrite decide_True by done.
      rewrite Nat.min_r by lia. set (s' := set_rx l (errno s) s).
      edestruct (IH (count + length bs)%nat (acc ++ bs) s') as (l' & e' & Hrun & Hg & Hd).
      all: subst s'; rewrite ?cur_set_rx, ?k_rx_set_rx; try done; try lia.
      exists l', e'. rewrite Hrun, k_rx_set_rx, set_rx_set_rx, take_app_ge, drop_app_ge by lia.
      rewrite app_assoc. rewrite Hd, k_rx_set_rx.
      replace (len - (count + length bs))%nat with (len - count - length bs)%nat by lia. done.
    + assert (drop (len - count) bs <> []) as Hd.
      { intros Hnil%(f_equal length). rewrite length_drop in Hnil. simpl in Hnil. lia. }
      rewrite decide_False by done. rewrite Nat.min_l by lia.
      replace (count + (len - count))%nat with len by lia.
      destruct fuel as [|fuel]; [lia|]. rewrite net_read_loop_end.
      exists (RxData (drop (len - count) bs) :: l), (errno s).
      rewrite take_app_le, drop_app_le by lia. split_and!; [done|by constructor|done].
  - inversion Hgood as [|? ? He Hl]; subst. simpl in He. subst e.
    rewrite (net_read_loop_eintr _ _ _ _ _ _ l) by done.
    change (rx_data (RxErr EINTR :: l)) with (rx_data l) in *. simpl in Hf.
    edestruct (IH count acc (set_rx l EINTR s)) as (l' & e' & Hrun & Hg & Hd).
    all: rewrite ?cur_set_rx, ?k_rx_set_rx; try done; try lia.
    exists l', e'. rewrite Hrun, k_rx_set_rx, set_rx_set_rx. rewrite k_rx_set_rx in Hd. done.
Qed.

(** Reading from a stream, as the callers use it. *)
Lemma net_read_stream_ok who len s :
  is_tcp (net_l4_proto_value (config (cur s))) = true ->
  Forall rx_good (k_rx s) -> (len <= length (rx_data (k_rx s)))%nat ->
  exists l e,
    net_read who len s = Done (Z.of_nat len, take len (rx_data (k_rx s))) (set_rx l e s) /\
    Forall rx_good l /\ rx_data l = drop len (rx_data (k_rx s)).
Proof.
  intros Htcp Hgood Hlen. unfold net_read. rewrite get_bind.
  destruct (net_read_loop_stream who len (S (length (k_rx s))) 0 [] s) as (l & e & H & Hg & Hd);
    try done; try lia.
  exists l, e. rewrite Nat.sub_0_r in *. done.
Qed.

(** C24: reading [len] bytes from a stream does not depend on how the kernel cuts
    the data or on interruptions: if at least [len] bytes arrive, in chunks of any
    non-zero sizes and with any [EINTR] in between, [net_read_from_connector] and
    [net_read_from_listener] return [len] and exactly the first [len] bytes, and
    leave the rest for the next read. *)
Theorem net_read_chunking len s :
  net_l4_proto_value (config (cur s)) = UBWT_NET_PROTO_L4_TCP ->
  Forall rx_good (k_rx s) -> (len <= length (rx_data (k_rx s)))%nat ->
  (exists l e,
    net_read_from_connector len s =
      Done (Z.of_nat len, take len (rx_data (k_rx s))) (set_rx l e s) /\
    rx_data l = drop len (rx_data (k_rx s))) /\
  (exists l e,
    net_read_from_listener len s =
      Done (Z.of_nat len, take len (rx_data (k_rx s))) (set_rx l e s) /\
    rx_data l = drop len (rx_data (k_rx s))).
Proof.
  intros Htcp Hg Hl.
  assert (forall who, exists l e, net_read who len s =
      Done (Z.of_nat len, take len (rx_data (k_rx s))) (set_rx l e s) /\
    rx_data l = drop len (rx_data (k_rx s))) as H.
  { intros who. destruct (net_read_stream_ok who len s) as (l & e & H & _ & Hd);
      [by rewrite Htcp|done|done|by exists l, e]. }
  split; apply H.
Qed.

(** A listener or connector in a TCP test. *)
Definition tcp_thread (listen : bool) : thread := {|
  cur := current_zero {{ config := config_zero {{
    net_l4_proto_value := UBWT_NET_PROTO_L4_TCP; net_l4_proto_name := "tcp"%string;
    im_listener := Zb listen; im_connector := Zb (negb listen) }} }};
  errno := E0; k_rx := []; k_tx := []; k_sent := []; k_calls := []; k_trace := [];
  k_clock := fun n => Some (Z.of_nat n, 0); k_tick := 0; k_sync := []; k_log := [] |}.

Lemma net_read_chunking_witness :
  exists l e s, net_read_from_listener 4 s = Done (4, [1; 2; 3; 4]) (set_rx l e s) /\
    k_rx s = [RxData [1; 2]; RxErr EINTR; RxData [3]; RxData [4; 5; 6]].
Proof.
  pose (s := (tcp_thread false) {{ k_rx := [RxData [1; 2]; RxErr EINTR; RxData [3]; RxData [4; 5; 6]] }}).
  destruct (net_read_chunking 4 s) as [_ (l & e & H & _)].
  - reflexivity.
  - repeat constructor; discriminate.
  - apply Nat.leb_le. reflexivity.
  - exists l, e, s. split; [exact H|reflexivity].
Defined.

(** *** End of file and errors *)

Lemma net_read_loop_eof who n fuel len acc s :
  is_tcp (net_l4_proto_value (config (cur s))) = true -> (0 < len)%nat ->
  k_rx s = replicate n (RxData []) -> (n < fuel)%nat ->
  net_read_loop who fuel 0 len acc s = Blocked (set_rx [] (errno s) s).
Proof.
  revert fuel acc s. induction n as [|n IH]; intros [|fuel] acc s Htcp Hlen Hrx Hf; try lia.
  - cbn [net_read_loop]. rewrite bool_decide_eq_true_2 by done.
    unfold net_proto, current_of. rewrite get_bind, Htcp. unfold sys_read. simpl in Hrx.
    assert (set_rx [] (errno s) s = s) as -> by (rewrite <- Hrx; apply set_rx_id).
    unfold mbind, M_bind, get. by rewrite Hrx.
  - simpl in Hrx. rewrite (net_read_loop_data _ _ _ _ _ _ [] (replicate n (RxData []))) by done.
    rewrite take_nil, drop_nil, decide_True, app_nil_r by done.
    rewrite IH by (rewrite ?cur_set_rx, ?k_rx_set_rx; done || lia).
    by rewrite set_rx_set_rx.
Qed.

(** C39: a peer that closes the connection is not noticed: a [read] that returns 0
    (end of file) counts as progress, so while bytes are missing the loops call
    [read] again however many times it returns 0; the call never returns. *)
Theorem net_read_eof_spins len s n :
  net_l4_proto_value (config (cur s)) = UBWT_NET_PROTO_L4_TCP -> (0 < len)%nat ->
  k_rx s = replicate n (RxData []) ->
  net_read_from_connector len s = Blocked (set_rx [] (errno s) s) /\
  net_read_from_listener len s = Blocked (set_rx [] (errno s) s).
Proof.
  intros Htcp Hlen Hrx.
  assert (forall who, net_read who len s = Blocked (set_rx [] (errno s) s)) as H; [|split; apply H].
  intros who. unfold net_read. rewrite get_bind.
  apply (net_read_loop_eof who n); [by rewrite Htcp|done|done|]. rewrite Hrx, length_replicate. lia.
Qed.

Lemma net_read_eof_spins_witness :
  exists s, k_rx s = replicate 50 (RxData []) /\
    net_read_from_listener 32 s = Blocked (set_rx [] (errno s) s).
Proof.
  pose (s := (tcp_thread false) {{ k_rx := replicate 50 (RxData []) }}).
  assert (0 < 32)%nat as Hlen by (apply Nat.ltb_lt; reflexivity).
  destruct (net_read_eof_spins 32 s 50 eq_refl Hlen eq_refl) as [_ H].
  exists s. split; [reflexivity|exact H].
Defined.

(** ** Writing *)

(** What a sequence of writes leaves unchanged, and what it adds to the bytes
    handed to the kernel. *)
Record wrote (bs : list Z) (s s' : thread) : Prop := {
  wrote_cur : cur s' = cur s;
  wrote_rx : k_rx s' = k_rx s;
  wrote_clock : k_clock s' = k_clock s;
  wrote_tick : k_tick s' = k_tick s;
  wrote_sync : k_sync s' = k_sync s;
  wrote_log : k_log s' = k_log s;
  wrote_sent : concat (k_sent s') = concat (k_sent s) ++ bs;
  wrote_tx : Forall tx_good (k_tx s');
  wrote_calls : Forall (fun r => 0 <= fst r) (k_calls s) -> Forall (fun r => 0 <= fst r) (k_calls s')
}.

Lemma wrote_trans bs bs' s s' s'' : wrote bs s s' -> wrote bs' s' s'' -> wrote (bs ++ bs') s s''.
Proof.
  intros H H'. destruct H, H'. constructor; try congruence.
  - rewrite wrote_sent1, wrote_sent0. by rewrite app_assoc.
  - auto.
Qed.

(** An interrupted write, with the wait for buffer space. *)
Lemma wrote_retry s l e : Forall tx_good l -> wrote [] s (s {{ k_tx := l; errno := e }}).
Proof. intros Hl. destruct s; constructor; simpl; try done. by rewrite app_nil_r. Qed.

Lemma wrote_usleep us s :
  Forall tx_good (k_tx s) -> exists r s', sys_call (C_usleep us) s = Done r s' /\ wrote [] s s'.
Proof.
  intros Htx. unfold sys_call. rewrite modify_bind, get_bind.
  destruct s as [c e r t o calls tr ck tk sy lg]; simpl in *.
  destruct calls as [|[z e'] calls].
  - eexists _, _. split; [reflexivity|]. constructor; simpl; try done. by rewrite app_nil_r.
  - rewrite modify_bind. destruct (z <? 0); eexists _, _; (split; [reflexivity|]); constructor;
      simpl; try done; (by rewrite app_nil_r) || by intros [? ?]%Forall_cons_1.
Qed.

Lemma usleep_tx us s r s' : sys_call (C_usleep us) s = Done r s' -> k_tx s' = k_tx s.
Proof.
  unfold sys_call. rewrite modify_bind, get_bind.
  destruct s as [c e rr t o calls tr ck tk sy lg]; simpl. destruct calls as [|[z e'] calls].
  - by intros [= <- <-].
  - rewrite modify_bind. destruct (z <? 0); by intros [= <- <-].
Qed.

Lemma wrote_accept s l bs e :
  Forall tx_good l -> wrote bs s (s {{ k_tx := l; k_sent ::= fun o => o ++ [bs]; errno := e }}).
Proof.
  intros Hl. destruct s; constructor; simpl; try done.
  by rewrite concat_app, concat_cons, app_nil_r.
Qed.

Lemma net_write_loop_ok who fuel count bs s :
  Forall tx_good (k_tx s) -> (count <= length bs)%nat ->
  (1 <= fuel)%nat -> ((count < length bs)%nat -> (S (length (k_tx s)) < fuel)%nat) ->
  exists s', net_write_loop who fuel count bs s = Done (Z.of_nat (length bs)) s' /\
    wrote (drop count bs) s s'.
Proof.
  revert count s. induction fuel as [|fuel IH]; intros count s Htx Hle Hf1 Hf; [lia|].
  cbn [net_write_loop]. case_bool_decide as Hlt; [|].
  2: { assert (count = length bs) as -> by lia. rewrite drop_ge by lia.
       exists s. split; [done|]. constructor; try done. by rewrite app_nil_r. }
  specialize (Hf Hlt).
  assert (0 < length (drop count bs))%nat as Hrem by (rewrite length_drop; lia).
  unfold sys_write. rewrite bind_assoc, get_bind.
  destruct (k_tx s) as [|[n|e] l] eqn:Hk.
  - (* taken whole *)
    rewrite bind_assoc, modify_bind, ret_bind.
    set (s1 := s {{ k_sent ::= fun o => o ++ [drop count bs] }}).
    assert (wrote (drop count bs) s s1) as Hw.
    { replace s1 with (s {{ k_tx := []; k_sent ::= fun o => o ++ [drop count bs]; errno := errno s }}).
      - by apply wrote_accept.
      - subst s1. destruct s; simpl in *. by rewrite Hk. }
    rewrite length_drop. replace (count + (length bs - count))%nat with (length bs) by lia.
    destruct (IH (length bs) s1) as (s' & Hrun & Hw'); [apply Hw|lia|lia|lia|].
    exists s'. split; [done|]. rewrite drop_ge in Hw' by lia.
    rewrite <- (app_nil_r (drop count bs)). by eapply wrote_trans.
  - inversion Htx as [|? ? Hn Hl]; subst. simpl in Hn. simpl in Hf.
    rewrite bind_assoc, modify_bind, ret_bind.
    set (s1 := s {{ k_tx := l; k_sent ::= fun o => o ++ [take n (drop count bs)] }}).
    assert (wrote (take n (drop count bs)) s s1) as Hw.
    { replace s1 with (s {{ k_tx := l; k_sent ::= fun o => o ++ [take n (drop count bs)]; errno := errno s }}).
      - by apply wrote_accept.
      - by subst s1; destruct s. }
    assert (k_tx s1 = l) as Hk1 by (by subst s1; destruct s).
    rewrite length_take, length_drop.
    destruct (IH (count + n `min` (length bs - count))%nat s1) as (s' & Hrun & Hw').
    + by rewrite Hk1.
    + lia.
    + lia.
    + rewrite Hk1. lia.
    + exists s'. split; [done|]. rewrite <- (take_drop n (drop count bs)), drop_drop.
      eapply wrote_trans; [exact Hw|].
      destruct (decide (n <= length bs - count)%nat).
      * by rewrite Nat.min_l in Hw' by lia.
      * rewrite Nat.min_r in Hw' by lia. by rewrite !drop_ge in * by lia.
  - inversion Htx as [|? ? He Hl]; subst. simpl in He. simpl in Hf.
    rewrite bind_assoc, modify_bind, ret_bind, get_bind.
    set (s1 := s {{ k_tx := l; errno := e }}).
    assert (errno s1 = e /\ k_tx s1 = l) as [-> Hk1] by (by subst s1; destruct s).
    assert (wrote [] s s1) as Hw by (by apply wrote_retry).
    destruct He as [-> | ->].
    + rewrite decide_True by done.
      destruct (IH count s1) as (s' & Hrun & Hw'); [by rewrite Hk1|lia|lia|rewrite Hk1; lia|].
      exists s'. split; [done|]. by eapply (wrote_trans []).
    + rewrite decide_False, decide_True by done.
      destruct (wrote_usleep 10 s1) as (r & s2 & Hus & Hw2); [by rewrite Hk1|].
      rewrite (bind_Done _ _ _ _ _ Hus).
      destruct (IH count s2) as (s' & Hrun & Hw'); [apply Hw2|lia|lia| |].
      * assert (k_tx s2 = k_tx s1) as ->; [|rewrite Hk1; lia].
        by apply (usleep_tx 10 s1 r).
      * exists s'. split; [done|]. eapply (wrote_trans []); [exact Hw|]. by eapply (wrote_trans []).
Qed.

Lemma net_write_ok who bs s :
  Forall tx_good (k_tx s) ->
  exists s', net_write who bs s = Done (Z.of_nat (length bs)) s' /\ wrote bs s s'.
Proof.
  intros Htx. unfold net_write. rewrite get_bind.
  destruct (net_write_loop_ok who (S (S (length (k_tx s)))) 0 bs s) as (s' & H & Hw); try done; try lia.
  rewrite drop_0 in Hw. by exists s'.
Qed.

(** C25: writing does not depend on how many bytes the kernel takes at a time: if
    every write takes at least one byte or fails with [EINTR] or [ENOBUFS],
    [net_write_to_connector] and [net_write_to_listener] return the whole length,
    the bytes handed to the kernel are exactly the buffer in order, and the thread's
    own state, its input, its clock and its log are untouched. *)
Theorem net_write_complete bs s :
  Forall tx_good (k_tx s) ->
  (exists s', net_write_to_connector bs s = Done (Z.of_nat (length bs)) s' /\ wrote bs s s') /\
  (exists s', net_write_to_listener bs s = Done (Z.of_nat (length bs)) s' /\ wrote bs s s').
Proof. intros Htx. split; by apply net_write_ok. Qed.

Lemma net_write_complete_witness :
  exists s s', k_tx s = [TxAccept 2; TxErr EINTR; TxErr ENOBUFS; TxAccept 1] /\
    net_write_to_listener [5; 6; 7; 8] s = Done 4 s' /\ concat (k_sent s') = [5; 6; 7; 8].
Proof.
  pose (s := (tcp_thread false) {{ k_tx := [TxAccept 2; TxErr EINTR; TxErr ENOBUFS; TxAccept 1] }}).
  assert (Forall tx_good (k_tx s)) as H by (repeat constructor; simpl; auto).
  destruct (net_write_complete [5; 6; 7; 8] s H) as [_ (s' & Hrun & Hw)].
  exists s, s'. split_and!; [reflexivity|exact Hrun|]. rewrite (wrote_sent _ _ _ Hw). reflexivity.
Defined.

(** ** The payload buffer *)

(** C32: as long as the buffer has its configured size and the position is inside
    it, [net_buf_fill] copies exactly [count] consecutive bytes that lie inside the
    buffer, taken at the current position or, when they would pass the end, from
    the beginning, and leaves the position inside the buffer, after them; asked for
    more than the buffer holds it fails its assertion. *)
Theorem net_buf_fill_in_bounds s count :
  let n := net (cur s) in
  let size := net_payload_buffer_size (config (cur s)) in
  Z.of_nat (length (buf n)) = size -> 0 <= buf_idx n <= size -> size <= 2147483647 -> 0 <= count ->
  if decide (count <= size) then
    exists i s' bs, net_buf_fill count s = Done bs s' /\
      i = (if size <? buf_idx n + count then 0 else buf_idx n) /\
      bs = take (Z.to_nat count) (drop (Z.to_nat i) (buf n)) /\ Z.of_nat (length bs) = count /\
      s' = s {{ cur ::= fun c => c {{ net ::= fun n => n {{ buf_idx := i + count }} }} }} /\
      0 <= buf_idx (net (cur s')) <= size
  else exists e, net_buf_fill count s = Halted (Assertion e) s.
Proof.
  intros n size Hlen Hidx Hsize Hcount. unfold net_buf_fill, current_of.
  rewrite get_bind. fold size. case_decide as Hle.
  - rewrite massert_bind_true by (by apply Z.leb_le). rewrite get_bind. fold n.
    set (i := if size <? buf_idx n + count then 0 else buf_idx n).
    assert (0 <= i /\ i + count <= size) as Hi by (subst i; destruct (Z.ltb_spec size (buf_idx n + count)); lia).
    assert ((when (size <? buf_idx n + count) (update_net (fun n => n {{ buf_idx := 0 }}))) s =
      Done tt (s {{ cur ::= fun c => c {{ net ::= fun n => n {{ buf_idx := i }} }} }})) as Hw.
    { unfold when, i. destruct (size <? buf_idx n + count); [done|].
      unfold mret, M_ret. f_equal. subst n. destruct s as [[? [] ? ? ? ? ? ? ? ? ? ?] ? ? ? ? ? ? ? ? ? ?]; reflexivity. }
    rewrite (bind_Done _ _ _ _ _ Hw). rewrite get_bind. unfold update_net, update_cur.
    rewrite modify_bind.
    assert (wrap 32 (i + count) = i + count) as Hwrap by (apply wrap_small; unfold unsigned; lia).
    exists i. eexists _, _. split; [reflexivity|]. clear Hw.
    assert (buf_idx (net (cur (s {{ cur ::= fun c => c {{ net ::= fun n => n {{ buf_idx := i }} }} }}))) = i /\
            buf (net (cur (s {{ cur ::= fun c => c {{ net ::= fun n => n {{ buf_idx := i }} }} }}))) = buf n)
      as [-> ->] by (subst n; destruct s as [[? [] ? ? ? ? ? ? ? ? ? ?] ? ? ? ? ? ? ? ? ? ?]; done).
    split_and!; try done.
    + rewrite length_take, length_drop. clear -Hi Hlen Hcount. lia.
    + subst n size. generalize dependent i. destruct s as [[? [] ? ? ? ? ? ? ? ? ? ?] ? ? ? ? ? ? ? ? ? ?].
      intros i Hi Hwrap. simpl. by rewrite Hwrap.
    + subst n size. destruct s as [[? [] ? ? ? ? ? ? ? ? ? ?] ? ? ? ? ? ? ? ? ? ?]. simpl in *.
      clear -Hi Hwrap Hcount. lia.
    + subst n size. destruct s as [[? [] ? ? ? ? ? ? ? ? ? ?] ? ? ? ? ? ? ? ? ? ?]. simpl in *.
      clear -Hi Hwrap Hcount. lia.
  - unfold massert. replace (count <=? size) with false by (symmetry; apply Z.leb_gt; lia). by eexists.
Qed.

Lemma net_buf_fill_in_bounds_witness :
  exists s s', net_buf_fill 3 s = Done [1; 2; 3] s' /\ buf_idx (net (cur s)) = 4.
Proof.
  pose (s := (tcp_thread false) {{ cur ::= fun c => c {{
    config ::= fun k => k {{ net_payload_buffer_size := 5 }};
    net ::= fun n => n {{ buf := [1; 2; 3; 4; 5]; buf_idx := 4 }} }} }}).
  pose proof (net_buf_fill_in_bounds s 3) as T. cbv zeta in T.
  destruct T as (i & s' & bs & Hrun & Hi & Hbs & _); [reflexivity|vm_compute; split; congruence|vm_compute; congruence|lia|].
  exists s, s'. split; [|reflexivity]. rewrite Hrun, Hbs, Hi. reflexivity.
Defined.

(** [_config_consistency] compares the buffer size with the default payload
    size, which [-s] changes, while the stream sends [talk_payload_current_size]
    octets, which nothing changes: with a buffer accepted by [config_init] but
    smaller than 1432 octets the first fill of the payload aborts the program. *)
Theorem small_payload_buffer_aborts b c s :
  config_wf b c -> config (cur s) = c ->
  net_payload_buffer_size c <> 0 -> net_payload_buffer_size c < UBWT_CONFIG_TALK_PAYLOAD_DEFAULT_SIZE ->
  talk_payload_default_size c <= net_payload_buffer_size c /\
  net_buf_fill (talk_payload_current_size c) s =
    Halted (Assertion "count <= c->config->net_payload_buffer_size") s.
Proof.
  intros Hwf <- Hne Hlt. split.
  - destruct (wf_buffer _ _ Hwf) as [[H _]|[H _]]; [done|lia].
  - destruct (wf_payload _ _ Hwf) as [-> _]. unfold UBWT_CONFIG_TALK_PAYLOAD_DEFAULT_SIZE in Hlt.
    unfold net_buf_fill, current_of. rewrite get_bind. unfold massert.
    by replace (1432 <=? net_payload_buffer_size (config (cur s))) with false
      by (symmetry; apply Z.leb_gt; lia).
Qed.

Lemma small_payload_buffer_aborts_witness :
  exists c, example_config "connector" [O_s "508"; O_B "600"; O_C "payload.bin"] = Some c /\
    exists s, net_buf_fill (talk_payload_current_size c) s =
      Halted (Assertion "count <= c->config->net_payload_buffer_size") s.
Proof.
  destruct (example_config "connector" [O_s "508"; O_B "600"; O_C "payload.bin"]) as [c|] eqn:H;
    [|discriminate H].
  exists c. split; [done|]. pose proof (example_config_wf _ _ _ H) as Hwf.
  exists ((tcp_thread false) {{ cur ::= fun k => k {{ config := c }} }}).
  assert (net_payload_buffer_size c = 600) as Hs by (vm_compute in H; injection H as <-; reflexivity).
  apply (small_payload_buffer_aborts build_linux c _ Hwf); [reflexivity|rewrite Hs..].
  - discriminate.
  - reflexivity.
Defined.

(** ** Connecting over TCP *)

(** The checks of both ends on a payload that comes from the other end. *)
Lemma conn_check_wire big big' b b' c c' uninit t has who s :
  config_wf b c -> config_wf b' c' -> conn_build_layout b = conn_build_layout b' ->
  has (conn_payload_create b' c') = true ->
  let p1 := conn_payload_hton big (conn_payload_create b c) in
  let p2 := conn_received big b uninit (conn_wire_bytes big' b' c') in
  (negotiate b c = negotiate b' c' -> conn_check big b t has who p1 p2 s = Done 0 s) /\
  (negotiate b c <> negotiate b' c' ->
   exists s', conn_check big b t has who p1 p2 s = Halted (Exited EXIT_FAILURE (Some t)) s' /\
     k_sent s' = k_sent s).
Proof.
  intros Hwf Hwf' Hly Hhas p1 p2. unfold conn_check, ly.
  assert (conn_payload_ntoh big p1 = conn_payload_create b c) as ->.
  { subst p1. rewrite conn_ntoh_is_hton. apply conn_hton_hton, conn_create_fits. }
  assert (conn_payload_ntoh big p2 = conn_payload_create b' c') as ->.
  { subst p2. unfold conn_received, ly, conn_wire_bytes. rewrite Hly.
    apply conn_transfer, conn_create_fits. }
  rewrite Hhas. cbv zeta. change (negb true) with false. cbv iota.
  pose proof (conn_match_negotiated big (conn_build_layout b) b' b c' c Hwf' Hwf) as Hm.
  destruct (conn_config_match _ _ _ _); split; intros Hneg.
  - done.
  - by destruct Hneg; apply Hm.
  - by apply Hm in Hneg.
  - simpl. unfold set_errno. rewrite modify_bind. unfold fatal_error, error_report.
    eexists. split; [reflexivity|]. by destruct s.
Qed.

Lemma sys_call_ok c s :
  k_calls s = [] -> sys_call c s = Done 0 (s {{ k_trace ::= fun t => t ++ [c] }}).
Proof. intros H. unfold sys_call. rewrite modify_bind, get_bind. destruct s; simpl in *. by rewrite H. Qed.

Lemma sys_write_all bs s :
  k_tx s = [] -> sys_write bs s = Done (Some (length bs)) (s {{ k_sent ::= fun o => o ++ [bs] }}).
Proof. intros H. unfold sys_write. rewrite get_bind, H. reflexivity. Qed.

Lemma sys_read_exact bs l s :
  k_rx s = RxData bs :: l -> sys_read (length bs) s = Done (Some bs) (s {{ k_rx := l }}).
Proof.
  intros H. unfold sys_read. rewrite get_bind, H, modify_bind.
  by rewrite drop_ge, take_ge, decide_True by done.
Qed.

(** The thread after the exchange of payloads: [bs] was sent and [l] is left to read;
    its socket and the address of its peer may have changed. *)
Record connected (bs : list Z) (l : list rx) (s s' : thread) : Prop := {
  con_cur : exists n, cur s' = (cur s) {{ net := n }};
  con_rx : k_rx s' = l;
  con_tx : k_tx s' = [];
  con_calls : k_calls s' = [];
  con_sent : k_sent s' = k_sent s ++ [bs];
  con_clock : k_clock s' = k_clock s;
  con_tick : k_tick s' = k_tick s;
  con_sync : k_sync s' = k_sync s;
  con_log : k_log s' = k_log s
}.

(** The connector's side, up to the checks. *)
Lemma connect_tcp_run big b peer un s bs l :
  net_l4_proto_value (config (cur s)) = UBWT_NET_PROTO_L4_TCP ->
  k_tx s = [] -> k_calls s = [] -> k_rx s = RxData bs :: l -> length bs = conn_payload_size ->
  exists s1, connected (conn_wire_bytes big b (config (cur s))) l s s1 /\
    net_connector_connect big b peer un s =
      conn_check big b UBWT_ERROR_TYPE_NET_CONNECT conn_has_accept "net_connector_connect()"
        (conn_payload_hton big (conn_payload_create b (config (cur s)))) (conn_received big b un bs) s1.
Proof.
  intros Htcp Htx Hcalls Hrx Hlen. unfold net_connector_connect, net_fd, current_of.
  rewrite !get_bind, Htcp. change (is_tcp UBWT_NET_PROTO_L4_TCP) with true. cbv iota zeta.
  rewrite (bind_Done _ _ _ _ _ (sys_call_ok _ s Hcalls)). change (0 <? 0) with false. cbv iota.
  fold (ly b). change (conn_bytes big (ly b) _) with (conn_wire_bytes big b (config (cur s))).
  set (s1 := s {{ k_trace ::= _ }}).
  assert (k_tx s1 = [] /\ k_rx s1 = RxData bs :: l /\ k_sent s1 = k_sent s) as (Htx1 & Hrx1 & Hs1)
    by (subst s1; by destruct s).
  rewrite (bind_Done _ _ _ _ _ (sys_write_all _ s1 Htx1)).
  rewrite length_conn_wire_bytes, decide_True by done.
  set (s2 := s1 {{ k_sent ::= _ }}).
  assert (k_rx s2 = RxData bs :: l) as Hrx2 by (subst s2; by destruct s1).
  rewrite <- Hlen. rewrite (bind_Done _ _ _ _ _ (sys_read_exact bs l s2 Hrx2)).
  rewrite decide_True by done. eexists. split; [|reflexivity].
  clear Htx1 Hrx1 Hs1 Hrx2. subst s2 s1. destruct s as [[] ? ? ? ? ? ? ? ? ? ?]. simpl in *.
  constructor; simpl; try done. by eexists.
Qed.

(** The listener's side, up to the checks. *)
Lemma accept_tcp_run big b peer un s bs l :
  net_l4_proto_value (config (cur s)) = UBWT_NET_PROTO_L4_TCP ->
  k_tx s = [] -> k_calls s = [] -> k_rx s = RxData bs :: l -> length bs = conn_payload_size ->
  exists s1, connected (conn_wire_bytes big b (config (cur s))) l s s1 /\
    net_listener_accept big b peer un s =
      conn_check big b UBWT_ERROR_TYPE_NET_ACCEPT conn_has_connect "net_listener_accept()"
        (conn_payload_hton big (conn_payload_create b (config (cur s)))) (conn_received big b un bs) s1.
Proof.
  intros Htcp Htx Hcalls Hrx Hlen. unfold net_listener_accept, current_of.
  rewrite !get_bind, Htcp. change (is_tcp UBWT_NET_PROTO_L4_TCP) with true. cbv iota zeta.
  rewrite get_bind, (bind_Done _ _ _ _ _ (sys_call_ok _ s Hcalls)). change (0 <? 0) with false.
  unfold update_net, update_cur. rewrite !modify_bind. cbv iota.
  change (conn_bytes big (ly b) _) with (conn_wire_bytes big b (config (cur s))).
  match goal with |- context [(sys_read _ ≫= _) ?t] => set (s1 := t) end.
  assert (k_tx s1 = [] /\ k_rx s1 = RxData bs :: l /\ k_sent s1 = k_sent s) as (Htx1 & Hrx1 & Hs1)
    by (subst s1; by destruct s).
  pose proof (sys_read_exact bs l s1 Hrx1) as Hread. rewrite Hlen in Hread.
  rewrite (bind_Done _ _ _ _ _ Hread).
  rewrite decide_True by done.
  set (s2 := s1 {{ k_rx := l }}).
  assert (k_tx s2 = [] /\ k_sent s2 = k_sent s) as (Htx2 & Hs2)
    by (rewrite <- Hs1; subst s2; by destruct s1).
  rewrite (bind_Done _ _ _ _ _ (sys_write_all _ s2 Htx2)).
  rewrite length_conn_wire_bytes, decide_True by done. eexists. split; [|reflexivity].
  clear Htx1 Hrx1 Hs1 Htx2 Hs2 Hread. subst s2 s1. destruct s as [[] ? ? ? ? ? ? ? ? ? ?]. simpl in *.
  constructor; simpl; try done. by eexists.
Qed.

(** C23: a connector and a listener that exchange their payloads over TCP reach the
    same verdict, whatever their endiannesses, if both builds pack the payload's structure
    or neither does, each payload arrives in one read and the calls succeed: each sends exactly its own payload;
    if the negotiated parameters are equal both calls return 0, and if they differ
    both processes end with [EXIT_FAILURE]. *)
Theorem tcp_connection_agreement big big' b b' c c' peer peer' un un' sc sl rest rest' :
  config_wf b c -> config_wf b' c' -> conn_build_layout b = conn_build_layout b' ->
  im_connector c = 1 -> im_listener c' = 1 ->
  net_l4_proto_value c = UBWT_NET_PROTO_L4_TCP -> net_l4_proto_value c' = UBWT_NET_PROTO_L4_TCP ->
  config (cur sc) = c -> config (cur sl) = c' ->
  k_tx sc = [] -> k_tx sl = [] -> k_calls sc = [] -> k_calls sl = [] ->
  k_rx sc = RxData (conn_wire_bytes big' b' c') :: rest ->
  k_rx sl = RxData (conn_wire_bytes big b c) :: rest' ->
  exists sc' sl',
    k_sent sc' = k_sent sc ++ [conn_wire_bytes big b c] /\
    k_sent sl' = k_sent sl ++ [conn_wire_bytes big' b' c'] /\
    if decide (negotiate b c = negotiate b' c') then
      net_connector_connect big b peer un sc = Done 0 sc' /\
      net_listener_accept big' b' peer' un' sl = Done 0 sl'
    else
      net_connector_connect big b peer un sc =
        Halted (Exited EXIT_FAILURE (Some UBWT_ERROR_TYPE_NET_CONNECT)) sc' /\
      net_listener_accept big' b' peer' un' sl =
        Halted (Exited EXIT_FAILURE (Some UBWT_ERROR_TYPE_NET_ACCEPT)) sl'.
Proof.
  intros Hwf Hwf' Hly Hcon Hlis Htcp Htcp' <- <- Htx Htx' Hk Hk' Hrx Hrx'.
  destruct (connect_tcp_run big b peer un sc _ rest Htcp Htx Hk Hrx) as (s1 & C1 & ->);
    [apply length_conn_wire_bytes|]. pose proof (con_sent _ _ _ _ C1) as Hs1.
  destruct (accept_tcp_run big' b' peer' un' sl _ rest' Htcp' Htx' Hk' Hrx') as (s2 & C2 & ->);
    [apply length_conn_wire_bytes|]. pose proof (con_sent _ _ _ _ C2) as Hs2.
  destruct (conn_check_wire big big' b b' _ _ un UBWT_ERROR_TYPE_NET_CONNECT conn_has_accept
    "net_connector_connect()" s1 Hwf Hwf' Hly) as [Hc1 Hc2]; [by apply conn_create_has_accept|].
  destruct (conn_check_wire big' big b' b _ _ un' UBWT_ERROR_TYPE_NET_ACCEPT conn_has_connect
    "net_listener_accept()" s2 Hwf' Hwf (eq_sym Hly)) as [Hl1 Hl2]; [by apply conn_create_has_connect|].
  case_decide as Hneg.
  - exists s1, s2. auto.
  - destruct (Hc2 Hneg) as (s1' & H1 & Hs1'). destruct (Hl2 (not_eq_sym Hneg)) as (s2' & H2 & Hs2').
    exists s1', s2'. rewrite Hs1', Hs2'. auto.
Qed.

Lemma tcp_connection_agreement_witness :
  exists c c' sc sl, example_config "connector" example_options = Some c /\
    example_config "listener" example_options = Some c' /\
    net_connector_connect false build_linux endpoint_zero [] sc = Done 0 (sc {{
      k_sent := [conn_wire_bytes false build_linux c]; k_rx := [];
      k_trace := [C_connect 0 (saddr (listener (net (cur sc))))] }}) /\
    exists sl', net_listener_accept true build_linux endpoint_zero [] sl = Done 0 sl'.
Proof.
  destruct (example_config "connector" example_options) as [c|] eqn:Hc; [|discriminate Hc].
  destruct (example_config "listener" example_options) as [c'|] eqn:Hc'; [|discriminate Hc'].
  pose proof (example_config_wf _ _ _ Hc) as Hwf. pose proof (example_config_wf _ _ _ Hc') as Hwf'.
  vm_compute in Hc, Hc'. injection Hc as Hc. injection Hc' as Hc'.
  pose (sc := (tcp_thread false) {{ cur ::= fun k => k {{ config := c }};
    k_rx := [RxData (conn_wire_bytes true build_linux c')] }}).
  pose (sl := (tcp_thread true) {{ cur ::= fun k => k {{ config := c' }};
    k_rx := [RxData (conn_wire_bytes false build_linux c)] }}).
  destruct (tcp_connection_agreement false true build_linux build_linux c c' endpoint_zero endpoint_zero
    [] [] sc sl [] [] Hwf Hwf' eq_refl) as (sc' & sl' & _ & _ & Hrun);
    try reflexivity; try (subst c; reflexivity); try (subst c'; reflexivity).
  exists c, c', sc, sl.
  rewrite decide_True in Hrun by (subst c c'; reflexivity). destruct Hrun as [H1 H2].
  split_and!; [done|done| |by exists sl'].
  subst c c'. vm_compute. reflexivity.
Defined.
