(* ===== verification/Talk.v ===== *)
(** The talk between a sender and a receiver: include/talk.h and src/talk.c.

    One worker of each end runs [talk_sender], the other [talk_receiver]: a
    handshake that measures the latency, then rounds of negotiation and stream
    that are repeated with more packets while the stream is weak (shorter than the
    minimum time), then the exchange of the report and a farewell.  The debug
    output and the progress messages are not modelled. *)

From S2P Require Import Prelude Bitops Errors Byteorder Layout ConfigData Usage Double Report Stage Thread Config ConfigSpec Conn Net.

Inductive ubwt_talk_ops_t :=
| UBWT_TALK_OP_NOOP
| UBWT_TALK_OP_PING
| UBWT_TALK_OP_PONG
| UBWT_TALK_OP_LATENCY_US
| UBWT_TALK_OP_COUNT_REQ
| UBWT_TALK_OP_STREAM_START
| UBWT_TALK_OP_STREAM_RUN
| UBWT_TALK_OP_STREAM_END
| UBWT_TALK_OP_STREAM_WEAK
| UBWT_TALK_OP_REPORT
| UBWT_TALK_OP_FINISH
| UBWT_TALK_OP_FORCE_FAIL.

Definition talk_op_value (op : ubwt_talk_ops_t) : Z :=
  match op with
  | UBWT_TALK_OP_NOOP => 0
  | UBWT_TALK_OP_PING => 1
  | UBWT_TALK_OP_PONG => 2
  | UBWT_TALK_OP_LATENCY_US => 3
  | UBWT_TALK_OP_COUNT_REQ => 4
  | UBWT_TALK_OP_STREAM_START => 5
  | UBWT_TALK_OP_STREAM_RUN => 6
  | UBWT_TALK_OP_STREAM_END => 7
  | UBWT_TALK_OP_STREAM_WEAK => 8
  | UBWT_TALK_OP_REPORT => 9
  | UBWT_TALK_OP_FINISH => 10
  | UBWT_TALK_OP_FORCE_FAIL => 11
  end.

(** [ubwt_talk_payload_t].  [buf] has [talk_payload_buf_size] bytes; the list
    holds the first ones and the rest are zeros. *)
Record ubwt_talk_payload_t := {
  p_flags : Z;
  p_count : Z;
  p_latency : Z;
  p_reserved1 : Z;
  p_weak_time : Z;
  p_worker_id : Z;
  p_buf : list Z
}.

Definition payload_zero : ubwt_talk_payload_t := {|
  p_flags := 0; p_count := 0; p_latency := 0; p_reserved1 := 0;
  p_weak_time := 0; p_worker_id := 0; p_buf := []
|}.

(** The header; its layout is the same with and without [#pragma pack]. *)
Definition talk_hdr_sizes : list nat := [4; 4; 4; 4; 8; 8]%nat.

Definition talk_hdr_size : nat := 32.

Definition talk_hdr (p : ubwt_talk_payload_t) : list Z :=
  [p_flags p; p_count p; p_latency p; p_reserved1 p; p_weak_time p; p_worker_id p].

(** The bytes of the structure in memory, up to the trailing zeros. *)
Definition talk_bytes (big : bool) (p : ubwt_talk_payload_t) : list Z :=
  encode big talk_hdr_sizes (talk_hdr p) ++ p_buf p.

Definition talk_of_bytes (big : bool) (bs : list Z) : ubwt_talk_payload_t :=
  let at' i := nth i (decode big talk_hdr_sizes bs) 0 in
  {| p_flags := at' 0%nat; p_count := at' 1%nat; p_latency := at' 2%nat;
     p_reserved1 := at' 3%nat; p_weak_time := at' 4%nat; p_worker_id := at' 5%nat;
     p_buf := drop talk_hdr_size bs |}.

Definition set_op (op : ubwt_talk_ops_t) (p : ubwt_talk_payload_t) : ubwt_talk_payload_t :=
  p {{ p_flags ::= fun w => bit_set w (talk_op_value op) }}.

Definition has_op (op : ubwt_talk_ops_t) (p : ubwt_talk_payload_t) : bool :=
  truth (bit_test (p_flags p) (talk_op_value op)).

(** ** Shared contexts *)

Definition process_get_reverse : M Z := current_of (fun c => reverse (process c)).

(** [current->talk[rev]]. *)
Definition talk_ctx (rev : Z) (t : talk_shared) : ubwt_talk_context :=
  if truth rev then talk_reverse t else talk_straight t.

Definition talk_ctx_update (rev : Z) (f : ubwt_talk_context -> ubwt_talk_context)
    (t : talk_shared) : talk_shared :=
  if truth rev then t {{ talk_reverse ::= f }} else t {{ talk_straight ::= f }}.

Definition update_talk (f : talk_shared -> talk_shared) : M unit :=
  update_cur (fun c => c {{ talk ::= f }}).

(** The assignments between the lock and the unlock of the context reset. *)
Definition talk_reset (rev : Z) (t : talk_shared) : talk_shared :=
  talk_ctx_update rev (fun c => c {{ im_weak := 0; weak_time := 0 }}) (t {{ talk_weak := 0 }}).

(** Those that record a weak stream of duration [w]. *)
Definition talk_mark_weak (rev w : Z) (t : talk_shared) : talk_shared :=
  talk_ctx_update rev (fun c => c {{ im_weak ::= fun n => wrap 32 (n + 1); weak_time := w }})
    (t {{ talk_weak ::= fun n => wrap 32 (n + 1) }}).

(** ** The functions of src/talk.c *)

Section talk.
Variable big : bool.
Variable b : build.
Variable peer : ubwt_net_endpoint.
Variable uninit : list Z.

Definition mt : bool := defined (UBWT_CONFIG_MULTI_THREADED b).

Definition _talk_timeout (timeout : Z) : M unit :=
  f ← net_fd;
  r ← net_timeout_set b f timeout;
  if r <? 0 then fatal_error UBWT_ERROR_TYPE_NET_RECV_TIMEO_SET "_talk_timeout(): net_timeout_set()"
  else mret tt.

Definition _talk_weak_stream_needs_restart : M bool :=
  c ← get cur;
  let cfg := config c in
  let dir := im_weak (talk_ctx (reverse (process c)) (talk c)) in
  if mt then
    if truth (asynchronous cfg) then
      mret ((im_weak (talk_straight (talk c)) =? worker_count cfg / 2) ||
            (im_weak (talk_reverse (talk c)) =? worker_count cfg / 2))
    else mret (dir =? worker_count cfg)
  else mret (truth dir).

Definition _talk_weak_stream_needs_recount : M bool :=
  c ← get cur;
  let cfg := config c in
  mret (im_weak (talk_ctx (reverse (process c)) (talk c)) =?
        worker_count cfg / (1 + asynchronous cfg)).

(** The packet as it is sent: the fields in network order and, outside the
    handshake, the payload. *)
Definition talk_packet (c : ubwt_current) (pkt : ubwt_talk_payload_t) : list Z :=
  let handshake := bool_decide (stage_get (stage c) = UBWT_STAGE_STATE_RUNTIME_TALK_HANDSHAKE) in
  let len :=
    if handshake then talk_hdr_size else Z.to_nat (talk_payload_current_size (config c)) in
  let pktbuf := {|
    p_flags := htonl big (p_flags pkt);
    p_count := htonl big (p_count pkt);
    p_latency := htonl big (p_latency pkt);
    p_reserved1 := 0;
    p_weak_time := net_htonll big (p_weak_time pkt);
    p_worker_id := if mt then net_htonll big (worker_id c) else 0;
    p_buf := if handshake then [] else take (len - talk_hdr_size) (p_buf pkt) |} in
  resize len 0 (talk_bytes big pktbuf).

Definition _talk_send (pkt : ubwt_talk_payload_t) : M Z :=
  c ← get cur;
  let bs := talk_packet c pkt in
  if truth (im_connector (config c)) then net_write_to_listener bs
  else net_write_to_connector bs.

(** The number of bytes [_talk_recv] asks for. *)
Definition talk_len (c : ubwt_current) : nat :=
  if decide (stage_get (stage c) = UBWT_STAGE_STATE_RUNTIME_TALK_HANDSHAKE) then talk_hdr_size
  else Z.to_nat (talk_payload_current_size (config c)).

Definition talk_payload_ntoh (p : ubwt_talk_payload_t) : ubwt_talk_payload_t :=
  let p := p {{ p_flags ::= ntohl big; p_count ::= ntohl big; p_latency ::= ntohl big;
                p_weak_time ::= net_ntohll big }} in
  if mt then p {{ p_worker_id ::= net_ntohll big }} else p.

(** [pkt] is the structure received into: a read that fails may have replaced its
    first bytes, and its flags are then tested as they are in memory. *)
Definition _talk_recv (pkt : ubwt_talk_payload_t) : M (Z * ubwt_talk_payload_t) :=
  c ← get cur;
  let len := talk_len c in
  r ← (if truth (im_connector (config c)) then net_read_from_listener len
       else net_read_from_connector len);
  let '(ret, bs) := r in
  let pkt := talk_of_bytes big (bs ++ drop (length bs) (talk_bytes big pkt)) in
  pkt ← (if ret =? Z.of_nat len then
           let pkt := talk_payload_ntoh pkt in
           when mt (update_cur (fun c => c {{ remote_worker_id := p_worker_id pkt }})) ;;
           mret pkt
         else mret pkt);
  if has_op UBWT_TALK_OP_FORCE_FAIL pkt then
    set_errno UBWT_ERROR_ABORT ;; mret (-1, pkt)
  else mret (ret, pkt).

Definition _talk_send_abort : M unit :=
  errsv ← get errno;
  _talk_send (set_op UBWT_TALK_OP_FORCE_FAIL payload_zero) ;;
  if decide (errsv = E0) then mret tt else set_errno errsv.

Definition critical (t : ubwt_error_type_t) (origin : string) : M unit :=
  error_report UBWT_ERROR_LEVEL_CRITICAL t origin.

Definition _talk_sender_handshake : M Z :=
  hs_iter ← current_of (fun c => talk_handshake_iter (config c));
  dt ← datetime_now_us;
  let p := set_op UBWT_TALK_OP_PING (payload_zero {{ p_count := hs_iter }}) in
  r ← _talk_send p;
  if r <? 0 then
    critical UBWT_ERROR_TYPE_TALK_SEND_FAILED "_talk_sender_handshake(): _talk_send()" ;;
    mret (-1)
  else
  r ← _talk_recv p;
  let '(r, p) := r in
  if r <? 0 then
    critical UBWT_ERROR_TYPE_TALK_RECV_FAILED "_talk_sender_handshake(): _talk_recv()" ;;
    mret (-1)
  else if negb (p_count p =? hs_iter) then
    critical UBWT_ERROR_TYPE_TALK_HANDSHAKE_NOMATCH
      "_talk_sender_handshake(): Iteration count doesn't match between the two parties" ;;
    set_errno EINVAL ;;
    mret (-1)
  else
  now ← datetime_now_us;
  mret (sint 64 (wrap 64 (now - dt))).

Definition _talk_receiver_handshake : M Z :=
  hs_iter ← current_of (fun c => talk_handshake_iter (config c));
  r ← _talk_recv payload_zero;
  let '(r, p) := r in
  if r <? 0 then
    critical UBWT_ERROR_TYPE_TALK_RECV_FAILED "_talk_receiver_handshake(): _talk_recv()" ;;
    mret (-1)
  else if negb (has_op UBWT_TALK_OP_PING p) then
    set_errno UBWT_ERROR_MSG_UNEXPECTED ;; mret (-1)
  else if negb (p_count p =? hs_iter) then
    critical UBWT_ERROR_TYPE_TALK_HANDSHAKE_NOMATCH
      "_talk_receiver_handshake(): Iteration count doesn't match between the two parties" ;;
    set_errno EINVAL ;;
    mret (-1)
  else
  let p := (set_op UBWT_TALK_OP_PONG payload_zero) {{ p_count := hs_iter }} in
  r ← _talk_send p;
  if r <? 0 then
    critical UBWT_ERROR_TYPE_TALK_SEND_FAILED "_talk_receiver_handshake(): _talk_send()" ;;
    mret (-1)
  else mret 0.

Definition _talk_sender_negotiate (count latency : Z) : M Z :=
  let p := set_op UBWT_TALK_OP_LATENCY_US (set_op UBWT_TALK_OP_COUNT_REQ payload_zero) in
  let p := p {{ p_count := count; p_latency := latency }} in
  r ← _talk_send p;
  if r <? 0 then
    critical UBWT_ERROR_TYPE_TALK_SEND_FAILED "_talk_sender_negotiate(): _talk_send()" ;;
    mret (-1)
  else mret 0.

(** The result is [None] for -1, and otherwise the values stored through the
    pointers. *)
Definition _talk_receiver_negotiate : M (option (Z * Z)) :=
  r ← _talk_recv payload_zero;
  let '(r, p) := r in
  if r <? 0 then
    critical UBWT_ERROR_TYPE_TALK_RECV_FAILED "_talk_receiver_negotiate(): _talk_recv()" ;;
    mret None
  else if negb (has_op UBWT_TALK_OP_COUNT_REQ p) then
    set_errno UBWT_ERROR_MSG_UNEXPECTED ;; mret None
  else if negb (p_count p <? UBWT_CONFIG_TALK_COUNT_MAX) then
    set_errno EINVAL ;; mret None
  else if negb (has_op UBWT_TALK_OP_LATENCY_US p) then
    set_errno UBWT_ERROR_MSG_UNEXPECTED ;; mret None
  else mret (Some (p_count p, p_latency p)).

(** ** Barriers *)

(** The barrier of the workers of the same direction. *)
Definition wait_direction : M bool :=
  rev ← process_get_reverse;
  sys_barrier (if truth rev then 1 else 0).

(** The barrier of all the workers in asynchronous mode, of the direction's
    otherwise. *)
Definition wait_all : M unit :=
  if mt then
    cfg ← current_of config;
    (if truth (asynchronous cfg) then sys_barrier 2 else wait_direction) ;;
    mret tt
  else mret tt.

Definition wait_async : M unit :=
  if mt then
    cfg ← current_of config;
    when (truth (asynchronous cfg)) (sys_barrier 2 ;; mret tt)
  else mret tt.

(** In a build without threads the code guarded by the result always runs. *)
Definition wait_serial : M bool := if mt then wait_direction else mret true.

(** Assignments to the contexts between the lock and the unlock of the global mutex. *)
Definition update_locked (f : talk_shared -> talk_shared) : M unit :=
  when mt (sys_mutex true) ;;
  update_talk f ;;
  when mt (sys_mutex false).

Definition stream_reset : M unit :=
  wait_all ;;
  rev ← process_get_reverse;
  update_locked (talk_reset rev) ;;
  wait_all.

(** ** Streams *)

(** The loop that sends [n] packets, [p_count] being incremented after each; the
    result is the packet after the loop. *)
Fixpoint send_packets (payload_fill : bool) (payload_size : Z) (n : nat)
    (p : ubwt_talk_payload_t) : M (option ubwt_talk_payload_t) :=
  match n with
  | O => mret (Some p)
  | S n =>
      p ← (if payload_fill then
             bs ← net_buf_fill payload_size;
             mret (p {{ p_buf := bs ++ drop (length bs) (p_buf p) }})
           else mret p);
      r ← _talk_send p;
      if r <? 0 then
        critical UBWT_ERROR_TYPE_TALK_SEND_FAILED "_talk_sender_stream(): _talk_send()" ;;
        mret None
      else send_packets payload_fill payload_size n (p {{ p_count ::= fun i => wrap 32 (i + 1) }})
  end.

(** 1 if a worker of the context had a weak stream, 0 if none had, -1 on error. *)
Definition weak_result : M Z :=
  w ← current_of (fun c => talk_weak (talk c));
  mret (if 0 <? w then 1 else 0).

(** [talk_stream_minimum_time * 1000000], an [int] product. *)
Definition minimum_time_us (cfg : ubwt_config) : Z := sint 32 (talk_stream_minimum_time cfg * 1000000).

Definition _talk_sender_stream (count : Z) : M Z :=
  cfg ← current_of config;
  rev ← process_get_reverse;
  let payload_size := talk_payload_current_size cfg in
  let payload_fill := truth (net_payload_buffer_size cfg) in
  r ← _talk_recv payload_zero;
  let '(r, p) := r in
  if r <? 0 then
    critical UBWT_ERROR_TYPE_TALK_RECV_FAILED "_talk_sender_stream(): _talk_recv()" ;;
    mret (-1)
  else if negb (has_op UBWT_TALK_OP_STREAM_START p) then
    set_errno UBWT_ERROR_MSG_UNEXPECTED ;; mret (-1)
  else
  stream_reset ;;
  _talk_timeout (net_timeout_talk_stream_run cfg) ;;
  ok ← send_packets payload_fill payload_size (Z.to_nat count)
         (set_op UBWT_TALK_OP_STREAM_RUN payload_zero);
  match ok with
  | None => mret (-1)
  | Some p =>
  _talk_timeout (net_timeout_talk_stream_end cfg) ;;
  (if mt then wait_direction ;; mret tt else mret tt) ;;
  wait_async ;;
  r ← _talk_recv p;
  let '(r, p) := r in
  if r <? 0 then
    critical UBWT_ERROR_TYPE_TALK_RECV_FAILED "_talk_sender_stream(): _talk_recv()" ;;
    mret (-1)
  else if negb (has_op UBWT_TALK_OP_STREAM_END p) then
    set_errno UBWT_ERROR_MSG_UNEXPECTED ;; mret (-1)
  else
  _talk_timeout (net_timeout_default cfg) ;;
  wait_all ;;
  when (has_op UBWT_TALK_OP_STREAM_WEAK p) (update_locked (talk_mark_weak rev (p_weak_time p))) ;;
  wait_all ;;
  weak_result
  end.

(** The loop that receives the packets: the number of packets and of octets
    received, stopping early on a timeout. *)
Fixpoint recv_packets (n : nat) (i len : Z) (p : ubwt_talk_payload_t) : M (Z * Z) :=
  match n with
  | O => mret (i, len)
  | S n =>
      r ← _talk_recv p;
      let '(ret, p) := r in
      if ret <? 0 then
        e ← get errno;
        if negb (defined (UBWT_CONFIG_NET_NO_TIMEOUT b)) && bool_decide (e = EAGAIN) then
          mret (i, len)
        else fatal_error UBWT_ERROR_TYPE_TALK_RECV_FAILED "_talk_receiver_stream(): _talk_recv()"
      else recv_packets n (i + 1) (wrap 64 (len + ret)) p
  end.

Definition _talk_receiver_stream (count : Z) : M Z :=
  cfg ← current_of config;
  rev ← process_get_reverse;
  r ← _talk_send ((set_op UBWT_TALK_OP_STREAM_START payload_zero) {{ p_count := count }});
  if r <? 0 then
    critical UBWT_ERROR_TYPE_TALK_SEND_FAILED "_talk_receiver_stream(): _talk_send()" ;;
    mret (-1)
  else
  stream_reset ;;
  t0 ← datetime_now_us;
  t_report (report_talk_stream_time_start_set t0) ;;
  _talk_timeout (net_timeout_talk_stream_run cfg) ;;
  r ← recv_packets (Z.to_nat count) 0 0 payload_zero;
  let '(i, len) := r in
  _talk_timeout (net_timeout_talk_stream_end cfg) ;;
  (if mt then wait_direction ;; mret tt else mret tt) ;;
  now ← datetime_now_us;
  let t := wrap 64 (now - t0 -
    (if i =? count then 0 else sint 32 (net_timeout_talk_stream_run cfg * 1000000))) in
  elapsed ← current_time_elapsed;
  massert (t <? elapsed) "t < current_time_elapsed()" ;;
  wait_async ;;
  t_report (report_talk_stream_time_duration_set t) ;;
  t_report (report_talk_stream_recv_pkts_set i) ;;
  t_report (report_talk_stream_recv_bytes_set len) ;;
  let p := set_op UBWT_TALK_OP_STREAM_END payload_zero in
  let p :=
    if t <? wrap 64 (minimum_time_us cfg)
    then set_op UBWT_TALK_OP_STREAM_WEAK (p {{ p_weak_time := t }}) else p in
  r ← _talk_send p;
  if r <? 0 then
    critical UBWT_ERROR_TYPE_TALK_SEND_FAILED "_talk_receiver_stream(): _talk_send()" ;;
    mret (-1)
  else
  _talk_timeout (net_timeout_default cfg) ;;
  wait_all ;;
  when (has_op UBWT_TALK_OP_STREAM_WEAK p) (update_locked (talk_mark_weak rev t)) ;;
  wait_all ;;
  weak_result.

(** ** Report exchange and farewell *)

Definition _talk_sender_report_exchange : M Z :=
  cfg ← current_of config;
  r ← _talk_recv payload_zero;
  let '(r, p) := r in
  if r <? 0 then
    critical UBWT_ERROR_TYPE_TALK_RECV_FAILED "_talk_sender_report_exchange(): _talk_recv()" ;;
    mret (-1)
  else if has_op UBWT_TALK_OP_REPORT p then
    rep ← current_of report;
    rep ← lift_res (report_unmarshal big (p_buf p) (Z.to_nat (talk_payload_current_size cfg)) rep);
    t_report (fun _ => rep) ;;
    mret 0
  else set_errno UBWT_ERROR_MSG_UNEXPECTED ;; mret (-1).

Definition _talk_receiver_report_exchange : M Z :=
  cfg ← current_of config;
  rep ← current_of report;
  bs ← lift_res (report_marshal big rep (Z.to_nat (talk_payload_current_size cfg)));
  r ← _talk_send ((set_op UBWT_TALK_OP_REPORT payload_zero) {{ p_buf := bs }});
  if r <? 0 then
    critical UBWT_ERROR_TYPE_TALK_SEND_FAILED "_talk_receiver_report_exchange(): _talk_send()" ;;
    mret (-1)
  else mret 0.

Definition _talk_sender_finish : M Z :=
  r ← _talk_send (set_op UBWT_TALK_OP_FINISH payload_zero);
  if r <? 0 then
    error_report UBWT_ERROR_LEVEL_WARNING UBWT_ERROR_TYPE_TALK_SEND_FAILED
      "_talk_sender_finish(): _talk_send()" ;;
    mret (-1)
  else mret 0.

Definition _talk_receiver_finish : M Z :=
  r ← _talk_recv payload_zero;
  let '(r, p) := r in
  if r <? 0 then
    error_report UBWT_ERROR_LEVEL_WARNING UBWT_ERROR_TYPE_TALK_RECV_FAILED
      "_talk_receiver_finish(): _talk_recv()" ;;
    mret (-1)
  else if has_op UBWT_TALK_OP_FINISH p then mret 0
  else set_errno UBWT_ERROR_MSG_UNEXPECTED ;; mret (-1).

(** ** [talk_sender] *)

(** A failed phase tells the other end to fail too, and ends the process. *)
Definition abort_talk {A : Type} (t : ubwt_error_type_t) (origin : string) : M A :=
  _talk_send_abort ;; fatal_error t origin.

(** The handshake loop; the result is the sum of the round trips. *)
Fixpoint sender_handshakes (n : nat) (dt : Z) : M Z :=
  match n with
  | O => mret dt
  | S n =>
      ret ← _talk_sender_handshake;
      let ret := sint 32 ret in
      if ret <? 0 then
        abort_talk UBWT_ERROR_TYPE_TALK_HANDSHAKE_FAILED "talk_sender(): _talk_sender_handshake()"
      else
      t_stage_inc 0 ;;
      interval ← current_of (fun c => talk_handshake_interval (config c));
      (if truth interval then sys_call (C_usleep (interval * 1000)) ;; mret tt else mret tt) ;;
      sender_handshakes n (wrap 32 (dt + ret))
  end.

(** The factor by which the count grows after a weak stream of [t] microseconds. *)
Definition weak_multiplier (cfg : ubwt_config) (t : Z) : double :=
  if truth (talk_count_mul cfg) then dbl (talk_count_mul cfg) else
  let t := if t =? 0 then 1 else t in
  let tolerance := if truth (asynchronous cfg) then dbl_lit 135 100 else dbl_lit 120 100 in
  let mul := dmul (ddiv (dbl (minimum_time_us cfg)) (dbl t)) tolerance in
  if dlt mul tolerance then tolerance else mul.

(** [count *= mul] on a [uint64_t]; the conversion of an unrepresentable value is
    undefined in C, and 0 in the model (it then fails the assertion below). *)
Definition weak_count (cfg : ubwt_config) (t count : Z) : Z :=
  default 0 (dbl_to_unsigned 64 (dmul (dbl count) (weak_multiplier cfg t))).

Definition weak_recount : M unit :=
  cfg ← current_of config;
  rev ← process_get_reverse;
  update_talk (talk_ctx_update rev (fun c =>
    c {{ talk_ctx_count := weak_count cfg (weak_time c) (talk_ctx_count c) }})).

Definition talk_count_of : M Z :=
  c ← get cur;
  mret (talk_ctx_count (talk_ctx (reverse (process c)) (talk c))).

Definition no_reset : Z := bit_flag UBWT_STAGE_CTRL_FL_NO_RESET.
Definition no_show : Z := bit_flag UBWT_STAGE_CTRL_FL_NO_SHOW.

(** What happens between two rounds. *)
Definition sender_restart : M unit :=
  (if mt then
     serial ← wait_direction;
     recount ← (if (serial : bool) then _talk_weak_stream_needs_recount else mret false);
     when recount weak_recount
   else weak_recount) ;;
  (if mt then wait_direction ;; mret tt else mret tt) ;;
  cfg ← current_of config;
  count ← talk_count_of;
  massert (count <=? talk_count_max cfg) "count <= talk_count_max" ;;
  massert (talk_count_default cfg <=? count) "count >= talk_count_default" ;;
  t_stage_inc no_show.

(** The [for (;;)] loop of rounds; every round receives, so the weight of the
    input bounds their number. *)
Fixpoint sender_rounds (fuel : nat) : M unit :=
  match fuel with
  | O => blocked
  | S fuel =>
      t_stage_set UBWT_STAGE_STATE_RUNTIME_TALK_NEGOTIATION no_reset ;;
      count ← talk_count_of;
      latency ← current_of (fun c => report_talk_latency_get (report c));
      r ← _talk_sender_negotiate (wrap 32 count) latency;
      if r <? 0 then
        abort_talk UBWT_ERROR_TYPE_TALK_NEGOTIATION_FAILED "talk_sender(): _talk_sender_negotiate()"
      else
      count ← talk_count_of;
      t_report (report_talk_count_set count) ;;
      t_stage_set UBWT_STAGE_STATE_RUNTIME_TALK_STREAM no_reset ;;
      count ← talk_count_of;
      ret ← _talk_sender_stream (wrap 32 count);
      if truth ret then
        if ret <? 0 then
          abort_talk UBWT_ERROR_TYPE_TALK_STREAM_FAILED "talk_sender(): _talk_sender_stream()"
        else
        restart ← _talk_weak_stream_needs_restart;
        if (restart : bool) then sender_restart ;; sender_rounds fuel else mret tt
      else mret tt
  end.

(** The number of bytes and events of a script. *)
Definition rx_weight (l : list rx) : nat :=
  sum_list (map (fun r => match r with RxData bs => S (length bs) | RxErr _ => 1%nat end) l).

(** The end of [talk_sender]: the report and the farewell. *)
Definition talk_sender_end : M unit :=
  t_stage_set UBWT_STAGE_STATE_RUNTIME_TALK_REPORT_EXCHANGE 0 ;;
  r ← _talk_sender_report_exchange;
  if r <? 0 then
    abort_talk UBWT_ERROR_TYPE_TALK_REPORT_EXCHANGE_FAILED
      "talk_sender(): _talk_sender_report_exchange()"
  else
  t_stage_set UBWT_STAGE_STATE_RUNTIME_TALK_FINISH 0 ;;
  r ← _talk_sender_finish;
  when (r <? 0) (error_report UBWT_ERROR_LEVEL_WARNING UBWT_ERROR_TYPE_TALK_FINISH_FAILED
    "talk_sender(): _talk_sender_finish()").

Definition talk_sender : M unit :=
  t_stage_set UBWT_STAGE_STATE_RUNTIME_TALK_HANDSHAKE 0 ;;
  wait_all ;;
  cfg ← current_of config;
  dt ← sender_handshakes (Z.to_nat (talk_handshake_iter cfg)) 0;
  let dt := dt / talk_handshake_iter cfg in
  t_report (report_talk_latency_set dt) ;;
  serial ← wait_serial;
  rev ← process_get_reverse;
  when serial (update_talk (talk_ctx_update rev (fun c =>
    c {{ talk_ctx_count := talk_count_current cfg }}))) ;;
  (if mt then wait_direction ;; mret tt else mret tt) ;;
  count ← talk_count_of;
  massert (0 <? count) "count > 0" ;;
  t_stage_reset ;;
  l ← get k_rx;
  sender_rounds (S (rx_weight l)) ;;
  talk_sender_end.

(** ** [talk_receiver] *)

Fixpoint receiver_handshakes (n : nat) : M unit :=
  match n with
  | O => mret tt
  | S n =>
      r ← _talk_receiver_handshake;
      if r <? 0 then
        abort_talk UBWT_ERROR_TYPE_TALK_HANDSHAKE_FAILED
          "talk_receiver(): _talk_receiver_handshake()"
      else t_stage_inc 0 ;; receiver_handshakes n
  end.

Fixpoint receiver_rounds (fuel : nat) : M unit :=
  match fuel with
  | O => blocked
  | S fuel =>
      t_stage_set UBWT_STAGE_STATE_RUNTIME_TALK_NEGOTIATION no_reset ;;
      o ← _talk_receiver_negotiate;
      match o with
      | None =>
          abort_talk UBWT_ERROR_TYPE_TALK_NEGOTIATION_FAILED
            "talk_receiver(): _talk_receiver_negotiate()"
      | Some (count, latency) =>
          t_report (report_talk_count_set count) ;;
          t_report (report_talk_latency_set latency) ;;
          t_stage_set UBWT_STAGE_STATE_RUNTIME_TALK_STREAM no_reset ;;
          ret ← _talk_receiver_stream count;
          if truth ret then
            if ret <? 0 then
              abort_talk UBWT_ERROR_TYPE_TALK_STREAM_FAILED "talk_receiver(): _talk_receiver_stream()"
            else
            restart ← _talk_weak_stream_needs_restart;
            if (restart : bool) then t_stage_inc no_show ;; receiver_rounds fuel else mret tt
          else mret tt
      end
  end.

Definition talk_receiver : M unit :=
  t_stage_set UBWT_STAGE_STATE_RUNTIME_TALK_HANDSHAKE 0 ;;
  wait_all ;;
  cfg ← current_of config;
  receiver_handshakes (Z.to_nat (talk_handshake_iter cfg)) ;;
  t_stage_reset ;;
  l ← get k_rx;
  receiver_rounds (S (rx_weight l)) ;;
  t_stage_set UBWT_STAGE_STATE_RUNTIME_TALK_REPORT_EXCHANGE 0 ;;
  r ← _talk_receiver_report_exchange;
  if r <? 0 then
    abort_talk UBWT_ERROR_TYPE_TALK_REPORT_EXCHANGE_FAILED
      "talk_receiver(): _talk_receiver_report_exchange()"
  else
  t_stage_set UBWT_STAGE_STATE_RUNTIME_TALK_FINISH 0 ;;
  r ← _talk_receiver_finish;
  when (r <? 0) (error_report UBWT_ERROR_LEVEL_WARNING UBWT_ERROR_TYPE_TALK_FINISH_FAILED
    "talk_receiver(): _talk_receiver_finish()").

(** ** Set-up and tear-down *)

(** [UBWT_WORKER_FLAG_TASK_RUNNING] of include/worker.h. *)
Definition flag_task_running : Z := 5.

Definition worker_task_running_set : M unit :=
  update_cur (fun c => c {{ worker_flags ::= fun w => bit_set w flag_task_running }}) ;;
  current_update.

Definition worker_task_running_unset : M unit :=
  update_cur (fun c => c {{ worker_flags ::= fun w => bit_clear w flag_task_running }}) ;;
  current_update.

Definition talk_init : M unit :=
  update_talk (fun t => talk_shared_zero {{ talk_weak := talk_weak t }}) ;;
  l ← net_im_listener;
  (if (l : bool) then
     r ← net_listener_accept big b peer uninit;
     if r <? 0 then
       fatal_error UBWT_ERROR_TYPE_TALK_RECEIVER_INIT "talk_init(): net_listener_accept()"
     else mret tt
   else
     r ← net_connector_connect big b peer uninit;
     if r <? 0 then
       fatal_error UBWT_ERROR_TYPE_TALK_SENDER_INIT "talk_init(): net_connector_connect()"
     else mret tt) ;;
  when mt worker_task_running_set.

Definition talk_destroy : M unit := when mt worker_task_running_unset.

End talk.
