(* ===== verification/Quiet.v ===== *)
(** The parts of src/talk.c that do not touch what the workers share: they read and write
    messages, take the time, log and report, and whether they return, end the process or
    wait, the talk contexts, the scripts of the barriers and the barriers and mutexes in
    the trace are as they were. *)

From S2P Require Import Prelude Bitops Errors Byteorder Layout ConfigData Usage Double Report Stage Thread Config Conn Net Talk.

(** ** Definitions *)

(** The calls by which the workers meet: barriers and mutexes. *)
Definition meeting (c : call) : bool := match c with C_barrier _ | C_mutex _ _ => true | _ => false end.

Definition meetings (s : thread) : list call := filter (fun c => meeting c = true) (k_trace s).

(** What the thread has to do with the other workers is the same. *)
Record undisturbed (s s' : thread) : Prop := {
  un_config : config (cur s') = config (cur s);
  un_process : process (cur s') = process (cur s);
  un_talk : talk (cur s') = talk (cur s);
  un_sync : k_sync s' = k_sync s;
  un_meetings : meetings s' = meetings s
}.

(** The state in which a computation stops, however it does. *)
Definition final {A : Type} (r : out A) : thread :=
  match r with Done _ s => s | Halted _ s => s | Blocked s => s end.

Definition quiet {A : Type} (m : M A) : Prop := forall s, undisturbed s (final (m s)).

(** ** Rules *)

#[export] Instance undisturbed_preorder : PreOrder undisturbed.
Proof. split; [by intros s|]. intros s1 s2 s3 [] []. constructor; congruence. Qed.

Lemma quiet_bind {A B : Type} (m : M A) (f : A -> M B) : quiet m -> (forall a, quiet (f a)) -> quiet (m ≫= f).
Proof.
  intros Hm Hf s. specialize (Hm s). unfold mbind, M_bind. destruct (m s) as [a s1|e s1|s1]; [|done..].
  etransitivity; [exact Hm|apply Hf].
Qed.

Lemma quiet_modify f : (forall s, undisturbed s (f s)) -> quiet (modify f).
Proof. intros H s. apply H. Qed.

Lemma quiet_ret {A : Type} (a : A) : quiet (mret a).
Proof. by intros s. Qed.

Lemma quiet_get {A : Type} (g : thread -> A) : quiet (get g).
Proof. by intros s. Qed.

Lemma quiet_halt {A : Type} e : quiet (@halt A e).
Proof. by intros s. Qed.

Lemma quiet_blocked {A : Type} : quiet (@blocked A).
Proof. by intros s. Qed.

Lemma quiet_lift {A : Type} (r : res A) : quiet (lift_res r).
Proof. by intros s; destruct r. Qed.

Lemma quiet_massert x expr : quiet (massert x expr).
Proof. by intros s; destruct x. Qed.

Lemma quiet_call c : meeting c = false -> quiet (sys_call c).
Proof.
  intros Hc. apply quiet_bind.
  - apply quiet_modify. intros s. constructor; try done.
    change (filter (fun c => meeting c = true) (k_trace s ++ [c]) = meetings s). unfold meetings.
    rewrite list.filter_app, list.filter_cons_False by (by rewrite Hc). by rewrite list.filter_nil, app_nil_r.
  - intros _. apply quiet_bind; [apply quiet_get|]. intros [|[r e] l]; [apply quiet_ret|].
    apply quiet_bind; [by apply quiet_modify|]. intros _. apply quiet_bind; [|intros _; apply quiet_ret].
    destruct (r <? 0); [by apply quiet_modify|apply quiet_ret].
Qed.

Create HintDb quiet discriminated.
#[export] Hint Constants Opaque : quiet.
#[export] Hint Resolve quiet_get quiet_ret quiet_halt quiet_blocked quiet_lift quiet_massert : quiet.

(** Walks through a computation; the functions it calls have their lemmas in [quiet], or
    are the assumption of an induction. *)
Ltac quiet_go :=
  repeat lazymatch goal with
  | |- quiet (_ ≫= _) => apply quiet_bind; [|intros ?]
  | |- quiet (current_of _) => apply quiet_get
  | |- quiet (update_cur _) => apply quiet_modify; by intros [[]]
  | |- quiet (update_net _) => apply quiet_modify; by intros [[]]
  | |- quiet (t_report _) => apply quiet_modify; by intros [[]]
  | |- quiet (t_stage_set _ _) => apply quiet_modify; by intros [[]]
  | |- quiet (t_stage_inc _) => apply quiet_modify; by intros [[]]
  | |- quiet t_stage_reset => apply quiet_modify; by intros [[]]
  | |- quiet (set_errno _) => apply quiet_modify; by intros []
  | |- quiet (modify _) => apply quiet_modify; by intros []
  | |- quiet (sys_call _) => by apply quiet_call
  | |- quiet (when ?x _) => destruct x; unfold when
  | |- quiet (if _ then _ else _) => step_if
  | |- quiet (match _ with _ => _ end) => step_if
  | |- quiet (let _ := _ in _) => cbv zeta
  | |- quiet _ => solve [auto with quiet]
  end.

(** ** The system, errors and time *)

Lemma quiet_error level t o : quiet (error_report level t o).
Proof. unfold error_report. quiet_go. Qed.
#[export] Hint Resolve quiet_error : quiet.

Lemma quiet_fatal {A : Type} t o : quiet (@fatal_error A t o).
Proof. unfold fatal_error. quiet_go. Qed.

Lemma quiet_read n : quiet (sys_read n).
Proof. unfold sys_read. quiet_go. Qed.

Lemma quiet_recv n : quiet (sys_recv n).
Proof. unfold sys_recv. quiet_go. Qed.

Lemma quiet_write bs : quiet (sys_write bs).
Proof. unfold sys_write. quiet_go. Qed.
#[export] Hint Resolve quiet_fatal quiet_read quiet_recv quiet_write : quiet.

Lemma quiet_time : quiet datetime_now_us.
Proof. unfold datetime_now_us. quiet_go. Qed.
#[export] Hint Resolve quiet_time : quiet.

Lemma quiet_elapsed : quiet current_time_elapsed.
Proof. unfold current_time_elapsed, current_time_now, current_time_start, current_update. quiet_go. Qed.
#[export] Hint Resolve quiet_elapsed : quiet.

(** ** src/net.c *)

Lemma quiet_read_loop who fuel : forall count len acc, quiet (net_read_loop who fuel count len acc).
Proof. induction fuel as [|fuel IH]; intros; cbn [net_read_loop]; unfold net_proto; quiet_go; apply IH. Qed.

Lemma quiet_write_loop who fuel : forall count bs, quiet (net_write_loop who fuel count bs).
Proof. induction fuel as [|fuel IH]; intros; cbn [net_write_loop]; unfold net_proto; quiet_go; apply IH. Qed.
#[export] Hint Resolve quiet_read_loop quiet_write_loop : quiet.

Lemma quiet_buf_fill n : quiet (net_buf_fill n).
Proof. unfold net_buf_fill. quiet_go. Qed.

Lemma quiet_timeout_set b f t : quiet (net_timeout_set b f t).
Proof. unfold net_timeout_set. quiet_go. Qed.
#[export] Hint Resolve quiet_buf_fill quiet_timeout_set : quiet.

(** ** src/talk.c *)

Section talk.
Context (big : bool) (b : build).

Lemma quiet_send p : quiet (_talk_send big b p).
Proof. unfold _talk_send, net_write_to_listener, net_write_to_connector, net_write. quiet_go. Qed.

Lemma quiet_receive p : quiet (_talk_recv big b p).
Proof. unfold _talk_recv, net_read_from_listener, net_read_from_connector, net_read. quiet_go. Qed.

Lemma quiet_timeout t : quiet (_talk_timeout b t).
Proof. unfold _talk_timeout, net_fd. quiet_go. Qed.

Hint Resolve quiet_send quiet_receive quiet_timeout : quiet.

Lemma quiet_critical t o : quiet (critical t o).
Proof. unfold critical. quiet_go. Qed.

Lemma quiet_abort {A : Type} t o : quiet (@abort_talk big b A t o).
Proof. unfold abort_talk, _talk_send_abort. quiet_go. Qed.

Hint Resolve quiet_critical quiet_abort : quiet.

Lemma quiet_sender_handshakes n : forall dt, quiet (sender_handshakes big b n dt).
Proof.
  induction n as [|n IH]; intros; cbn [sender_handshakes]; unfold _talk_sender_handshake; quiet_go; apply IH.
Qed.

Lemma quiet_receiver_handshakes n : quiet (receiver_handshakes big b n).
Proof. induction n as [|n IH]; cbn [receiver_handshakes]; unfold _talk_receiver_handshake; quiet_go; apply IH. Qed.

Lemma quiet_sender_negotiate count latency : quiet (_talk_sender_negotiate big b count latency).
Proof. unfold _talk_sender_negotiate. quiet_go. Qed.

Lemma quiet_receiver_negotiate : quiet (_talk_receiver_negotiate big b).
Proof. unfold _talk_receiver_negotiate. quiet_go. Qed.

Lemma quiet_send_packets fill size n : forall p, quiet (send_packets big b fill size n p).
Proof. induction n as [|n IH]; intros; cbn [send_packets]; quiet_go; apply IH. Qed.

Lemma quiet_recv_packets n : forall i len p, quiet (recv_packets big b n i len p).
Proof. induction n as [|n IH]; intros; cbn [recv_packets]; quiet_go; apply IH. Qed.

Lemma quiet_sender_report : quiet (_talk_sender_report_exchange big b).
Proof. unfold _talk_sender_report_exchange. quiet_go. Qed.

Lemma quiet_receiver_report : quiet (_talk_receiver_report_exchange big b).
Proof. unfold _talk_receiver_report_exchange. quiet_go. Qed.

Lemma quiet_sender_finish : quiet (_talk_sender_finish big b).
Proof. unfold _talk_sender_finish. quiet_go. Qed.

Lemma quiet_receiver_finish : quiet (_talk_receiver_finish big b).
Proof. unfold _talk_receiver_finish. quiet_go. Qed.

End talk.

#[export] Hint Resolve quiet_send quiet_receive quiet_timeout quiet_critical quiet_abort quiet_sender_handshakes
  quiet_receiver_handshakes quiet_sender_negotiate quiet_receiver_negotiate quiet_send_packets quiet_recv_packets
  quiet_sender_report quiet_receiver_report quiet_sender_finish quiet_receiver_finish : quiet.
