(* ===== verification/TalkSpec.v ===== *)
(** The talk between a sender and a receiver completes and both ends agree.

    The specification is a list of messages for each direction ([sender_messages],
    [receiver_messages]); the theorems show that [talk_sender], given the
    receiver's messages, returns and sends exactly the sender's, and conversely, over
    TCP, whatever the chunks in which the bytes travel, and whatever the other workers of
    an end do to the contexts they share while this one waits at a barrier. *)

From S2P Require Import Prelude Bitops Errors Byteorder Layout ConfigData Usage Double Report Stage Thread Config ConfigSpec Conn Net NetSpec Talk.

(** ** What is supposed of the system *)

(** What is supposed of the script of the barriers holds of what is left of it. *)
Class Tailed (P : list sync -> Prop) := tailed : forall e l, P (e :: l) -> P l.

(** The thread is alone at the barriers; or nothing is supposed. *)
Definition alone (l : list sync) : Prop := l = [].
Definition anyone (l : list sync) : Prop := True.

#[export] Instance alone_tailed : Tailed alone.
Proof. by intros e l. Qed.

#[export] Instance anyone_tailed : Tailed anyone.
Proof. by intros e l. Qed.

(** The system lets the thread proceed: reads and writes without fatal errors, the
    other calls succeed. *)
Record io_ok (P : list sync -> Prop) (s : thread) : Prop := {
  io_rx : Forall rx_good (k_rx s);
  io_tx : Forall tx_good (k_tx s);
  io_calls : Forall (fun r => 0 <= fst r) (k_calls s);
  io_sync : P (k_sync s)
}.
Arguments io_rx {P s}.
Arguments io_tx {P s}.
Arguments io_calls {P s}.
Arguments io_sync {P s}.

(** ** The thread between two steps *)

(** The talk contexts and the script of the barriers. *)
Definition shared : Type := talk_shared * list sync.

Definition shared_of (s : thread) : shared := (talk (cur s), k_sync s).

(** What the talk leaves alone in the thread's record, and what it may use: *)
Record same_thread (c c' : ubwt_current) : Prop := {
  same_config : config c' = config c;
  same_process : process c' = process c;
  same_worker_id : worker_id c' = worker_id c;
  same_start : time_us_start c' = time_us_start c;
  same_net : net c' = net c
}.

Lemma same_thread_refl c : same_thread c c.
Proof. done. Qed.

Lemma same_thread_trans c c' c'' : same_thread c c' -> same_thread c' c'' -> same_thread c c''.
Proof. intros [] []. constructor; congruence. Qed.

(** What a step makes of the thread when it changes the talk contexts and the report. *)
Record acts (s s' : thread) (x : shared) (rp : ubwt_report) : Prop := {
  acts_thread : same_thread (cur s) (cur s');
  acts_stage : state (stage (cur s')) = state (stage (cur s));
  acts_shared : shared_of s' = x;
  acts_report : report (cur s') = rp
}.

(** Everything but the stage's counter and the fields only the thread reads. *)
Definition keeps (s s' : thread) : Prop := acts s s' (shared_of s) (report (cur s)).

Lemma acts_trans s s' s'' x rp x' rp' : acts s s' x rp -> acts s' s'' x' rp' -> acts s s'' x' rp'.
Proof. intros [] []. constructor; [by eapply same_thread_trans|congruence..]. Qed.

(** [acts_trans] when the second part only keeps. *)
Lemma acts_keeps s s' s'' x rp : acts s s' x rp -> keeps s' s'' -> acts s s'' x rp.
Proof. intros [? ? <- <-] []. constructor; [by eapply same_thread_trans|congruence..]. Qed.

Lemma keeps_refl s : keeps s s.
Proof. done. Qed.

Lemma keeps_trans s s' s'' : keeps s s' -> keeps s' s'' -> keeps s s''.
Proof. apply acts_keeps. Qed.

(** ** Runs *)

Section runs.
Context {P : list sync -> Prop} {HP : Tailed P}.

Abbreviation io_ok := (io_ok P).

(** From [s] to [s'] the thread's record was changed by [u], the bytes [i] were
    read, the bytes [o] written and the clock read [t] times; nothing was logged. *)
Record step (u : ubwt_current -> ubwt_current) (i o : list Z) (t : nat) (s s' : thread) : Prop := {
  st_cur : cur s' = u (cur s);
  st_in : rx_data (k_rx s) = i ++ rx_data (k_rx s');
  st_out : concat (k_sent s') = concat (k_sent s) ++ o;
  st_clock : k_clock s' = k_clock s;
  st_tick : k_tick s' = (k_tick s + t)%nat;
  st_log : k_log s' = k_log s;
  st_sync : k_sync s' = k_sync s;
  st_ok : io_ok s'
}.

Definition runs {A : Type} (m : M A) (s : thread) (a : A) u i o t (s' : thread) : Prop :=
  m s = Done a s' /\ step u i o t s s'.

Lemma step_refl s : io_ok s -> step (fun c => c) [] [] 0 s s.
Proof. intros H. constructor; by rewrite ?app_nil_r, ?Nat.add_0_r. Qed.

Lemma step_trans u i o t u' i' o' t' s s' s'' :
  step u i o t s s' -> step u' i' o' t' s' s'' ->
  step (fun c => u' (u c)) (i ++ i') (o ++ o') (t + t') s s''.
Proof.
  intros [] []. constructor; try congruence.
  - rewrite st_in0, st_in1. by rewrite app_assoc.
  - rewrite st_out1, st_out0. by rewrite app_assoc.
  - lia.
Qed.

Lemma step_conv u i o t u' i' o' t' s s' :
  step u i o t s s' -> u (cur s) = u' (cur s) -> i = i' -> o = o' -> t = t' ->
  step u' i' o' t' s s'.
Proof. intros [] Hu -> -> ->. constructor; congruence. Qed.

(** A step without the function on the thread's record and the barriers. *)
Record moves (i o : list Z) (t : nat) (s s' : thread) : Prop := {
  mv_in : rx_data (k_rx s) = i ++ rx_data (k_rx s');
  mv_out : concat (k_sent s') = concat (k_sent s) ++ o;
  mv_clock : k_clock s' = k_clock s;
  mv_tick : k_tick s' = (k_tick s + t)%nat;
  mv_log : k_log s' = k_log s;
  mv_ok : io_ok s'
}.

Lemma step_moves u i o t s s' : step u i o t s s' -> moves i o t s s'.
Proof. intros []. by constructor. Qed.

Lemma moves_trans i o t i' o' t' s s' s'' :
  moves i o t s s' -> moves i' o' t' s' s'' -> moves (i ++ i') (o ++ o') (t + t') s s''.
Proof.
  intros [] []. constructor; try congruence.
  - rewrite mv_in0, mv_in1. by rewrite app_assoc.
  - rewrite mv_out1, mv_out0. by rewrite app_assoc.
  - lia.
Qed.

Lemma moves_conv i o t i' o' t' s s' :
  moves i o t s s' -> i = i' -> o = o' -> t = t' -> moves i' o' t' s s'.
Proof. intros H -> -> ->. done. Qed.

Lemma moves_refl s : io_ok s -> moves [] [] 0 s s.
Proof. intros H. constructor; by rewrite ?app_nil_r, ?Nat.add_0_r. Qed.

Lemma moves_rx i o t s s' rest :
  moves i o t s s' -> rx_data (k_rx s) = i ++ rest -> rx_data (k_rx s') = rest.
Proof. intros [] H. rewrite H in mv_in0. by apply app_inv_head in mv_in0. Qed.

Lemma moves_nil_rx o t s s' : moves [] o t s s' -> rx_data (k_rx s') = rx_data (k_rx s).
Proof. intros M. symmetry. apply (mv_in _ _ _ _ _ M). Qed.

Lemma moves_clock i o t s s' : moves i o t s s' -> k_clock s' = k_clock s /\ k_tick s' = (k_tick s + t)%nat.
Proof. intros M. split; apply M. Qed.

Lemma step_keeps i o t s s' : step (fun c => c) i o t s s' -> keeps s s'.
Proof. intros []. cbv beta in st_cur0. constructor; unfold shared_of; by rewrite ?st_cur0, ?st_sync0. Qed.

(** Changes of the contexts and of the report. *)
Lemma step_acts u i o t s s' :
  step u i o t s s' -> same_thread (cur s) (u (cur s)) -> state (stage (u (cur s))) = state (stage (cur s)) ->
  acts s s' (talk (u (cur s)), k_sync s) (report (u (cur s))).
Proof. intros []. constructor; unfold shared_of; by rewrite ?st_cur0, ?st_sync0. Qed.

Lemma runs_bind {A B : Type} (m : M A) (f : A -> M B) s a s1 r s2 u i o t u' i' o' t' :
  runs m s a u i o t s1 -> runs (f a) s1 r u' i' o' t' s2 ->
  runs (m ≫= f) s r (fun c => u' (u c)) (i ++ i') (o ++ o') (t + t') s2.
Proof.
  intros [H S] [H' S']. split; [by rewrite (bind_Done _ _ _ _ _ H)|by eapply step_trans].
Qed.

Lemma runs_get {A : Type} (g : thread -> A) s :
  io_ok s -> runs (get g) s (g s) (fun c => c) [] [] 0 s.
Proof. intros H. split; [done|by apply step_refl]. Qed.

Lemma runs_ret {A : Type} (a : A) s : io_ok s -> runs (mret a) s a (fun c => c) [] [] 0 s.
Proof. intros H. split; [done|by apply step_refl]. Qed.

(** The state after an update of the thread's record. *)
Definition set_cur (c : ubwt_current) (s : thread) : thread := s {{ cur := c }}.

Lemma runs_update_cur f s :
  io_ok s -> runs (update_cur f) s tt f [] [] 0 (set_cur (f (cur s)) s).
Proof.
  intros []. split; [done|]. destruct s; constructor; simpl in *; by rewrite ?app_nil_r, ?Nat.add_0_r.
Qed.

Lemma runs_call c s :
  io_ok s -> exists r s', runs (sys_call c) s r (fun c => c) [] [] 0 s' /\ (r <? 0) = false.
Proof.
  intros []. unfold runs, sys_call. rewrite modify_bind, get_bind.
  destruct s as [cu e r tx o calls tr ck tk sy lg]; simpl in *.
  destruct calls as [|[z e'] calls].
  - eexists _, _. split; [split; [reflexivity|]|done]. constructor; simpl; by rewrite ?app_nil_r, ?Nat.add_0_r.
  - inversion io_calls0 as [|? ? Hz Hc]; subst. simpl in Hz.
    rewrite modify_bind. assert ((z <? 0) = false) as Hf by lia. rewrite Hf.
    eexists _, _. split; [split; [reflexivity|]|done]. constructor; simpl; by rewrite ?app_nil_r, ?Nat.add_0_r.
Qed.

(** The value of the clock's [n]th reading. *)
Definition clock_us (clk : nat -> option (Z * Z)) (n : nat) : Z :=
  match clk n with
  | Some (tv_sec, tv_usec) => wrap 64 (wrap 64 (tv_sec * 1000000) + tv_usec)
  | None => 0
  end.

Lemma runs_time s :
  io_ok s -> k_clock s (k_tick s) <> None ->
  exists s', runs datetime_now_us s (clock_us (k_clock s) (k_tick s)) (fun c => c) [] [] 1 s'.
Proof.
  intros [] Hclk. unfold runs, datetime_now_us, clock_us. rewrite !get_bind, modify_bind.
  destruct (k_clock s (k_tick s)) as [[sec usec]|]; [|done].
  eexists. split; [reflexivity|]. destruct s; constructor; simpl in *; by rewrite ?app_nil_r, ?Nat.add_1_r.
Qed.

(** A write and a read as steps. *)
Lemma runs_write who bs s :
  io_ok s -> exists s', runs (net_write who bs) s (Z.of_nat (length bs)) (fun c => c) [] bs 0 s'.
Proof.
  intros []. destruct (net_write_ok who bs s) as (s' & Hrun & Hw); [done|].
  exists s'. split; [done|]. destruct Hw. constructor; try congruence.
  - by rewrite wrote_rx.
  - lia.
  - constructor; try congruence; auto.
Qed.

Lemma runs_read who len s :
  io_ok s -> is_tcp (net_l4_proto_value (config (cur s))) = true ->
  (len <= length (rx_data (k_rx s)))%nat ->
  exists s', runs (net_read who len) s (Z.of_nat len, take len (rx_data (k_rx s)))
    (fun c => c) (take len (rx_data (k_rx s))) [] 0 s'.
Proof.
  intros [] Htcp Hlen.
  destruct (net_read_stream_ok who len s) as (l & e & Hrun & Hg & Hd); try done.
  exists (set_rx l e s). split; [done|].
  destruct s; constructor; simpl in *; by rewrite ?Hd, ?take_drop, ?app_nil_r, ?Nat.add_0_r.
Qed.

(** ** Messages on the wire *)

(** A packet whose fields are in the range of their types. *)
Record p_ok (p : ubwt_talk_payload_t) : Prop := {
  ok_flags : u32 (p_flags p);
  ok_count : u32 (p_count p);
  ok_latency : u32 (p_latency p);
  ok_weak_time : u64 (p_weak_time p)
}.

(** The [len] bytes of a packet sent by worker [wid]; [m] tells whether the sender
    is a build with threads. *)
Definition msg_bytes (m : bool) (wid : Z) (len : nat) (p : ubwt_talk_payload_t) : list Z :=
  resize len 0
    (encode true talk_hdr_sizes
       [p_flags p; p_count p; p_latency p; 0; p_weak_time p; if m then wid else 0] ++
     take (len - talk_hdr_size) (p_buf p)).

Lemma length_msg_bytes m wid len p : length (msg_bytes m wid len p) = len.
Proof. apply length_resize. Qed.

Lemma talk_packet_msg big b c p :
  p_ok p -> u64 (worker_id c) ->
  talk_packet big b c p = msg_bytes (mt b) (worker_id c) (talk_len c) p.
Proof.
  intros [Hf Hc Hl Hw] Hwid. unfold talk_packet, msg_bytes, talk_len, talk_bytes.
  assert (encode big talk_hdr_sizes
    [htonl big (p_flags p); htonl big (p_count p); htonl big (p_latency p); 0;
     net_htonll big (p_weak_time p); if mt b then net_htonll big (worker_id c) else 0] =
    encode true talk_hdr_sizes
    [p_flags p; p_count p; p_latency p; 0; p_weak_time p; if mt b then worker_id c else 0]) as Henc.
  { rewrite <- (encode_hton big). f_equal. cbn [zip_with talk_hdr_sizes].
    rewrite !net_htonll_hton by done.
    assert (hton big 8 0 = 0 /\ hton big 4 0 = 0) as [H8 H4] by (by destruct big).
    destruct (mt b); by rewrite ?H8, H4. }
  unfold talk_hdr; cbn [p_flags p_count p_latency p_reserved1 p_weak_time p_worker_id p_buf].
  rewrite Henc. case_bool_decide as Hst; [rewrite decide_True by done|rewrite decide_False by done].
  - rewrite Nat.sub_diag, take_0. done.
  - done.
Qed.

(** The header fields read from the bytes of a message. *)
Lemma decode_msg big m wid len p rest :
  p_ok p -> u64 wid -> (talk_hdr_size <= len)%nat ->
  decode big talk_hdr_sizes (msg_bytes m wid len p ++ rest) =
    zip_with (hton big) talk_hdr_sizes
      [p_flags p; p_count p; p_latency p; 0; p_weak_time p; if m then wid else 0].
Proof.
  intros [Hf Hc Hl Hw] Hwid Hlen. unfold msg_bytes.
  set (hdr := encode true _ _). assert (length hdr = talk_hdr_size) as Hhdr by (apply length_encode_eq; done).
  rewrite resize_spec. rewrite take_app_ge, Hhdr by lia. rewrite <- !app_assoc.
  subst hdr. rewrite <- (encode_hton big). apply decode_encode. apply fits_hton. done.
Qed.

Lemma drop_msg m wid len p :
  (talk_hdr_size <= len)%nat ->
  drop talk_hdr_size (msg_bytes m wid len p) = resize (len - talk_hdr_size) 0 (take (len - talk_hdr_size) (p_buf p)).
Proof.
  intros Hlen. unfold msg_bytes.
  set (hdr := encode true _ _). assert (length hdr = talk_hdr_size) as Hhdr by (apply length_encode_eq; done).
  rewrite drop_resize_le by done. f_equal.
Qed.

(** The two payloads carry the same message. *)
Record same_msg (p p' : ubwt_talk_payload_t) : Prop := {
  same_flags : p_flags p' = p_flags p;
  same_count : p_count p' = p_count p;
  same_latency : p_latency p' = p_latency p;
  same_weak_time : p_weak_time p' = p_weak_time p
}.

Definition set_remote (b : build) (z : Z) (c : ubwt_current) : ubwt_current :=
  if mt b then c {{ remote_worker_id := z }} else c.

(** The packet made from the bytes of a message. *)
Lemma received_message big b pkt m wid len p :
  p_ok p -> u64 wid -> (talk_hdr_size <= len)%nat ->
  let bytes := msg_bytes m wid len p in
  let p' := talk_payload_ntoh big b (talk_of_bytes big (bytes ++ drop (length bytes) (talk_bytes big pkt))) in
  same_msg p p' /\ (mt b = true -> p_worker_id p' = if m then wid else 0) /\
  exists r, p_buf p' = drop talk_hdr_size bytes ++ r.
Proof.
  intros Hp Hwid Hlen bytes. pose proof (length_msg_bytes m wid len p) as Hml. subst bytes.
  unfold talk_of_bytes. rewrite decode_msg by done. destruct Hp. unfold talk_payload_ntoh.
  set (fs := zip_with (hton big) talk_hdr_sizes _). cbv zeta.
  assert (u64 (if m then wid else 0)) as Hw by (destruct m; [done|split; vm_compute; congruence]).
  assert (forall z, u32 z -> ntohl big (hton big 4 z) = z) as H4 by (intros; by apply ntohl_htonl).
  assert (forall z, u64 z -> net_ntohll big (hton big 8 z) = z) as H8.
  { intros z Hz. unfold net_ntohll. rewrite net_htonll_hton by apply (hton_unsigned big 8). by apply hton_hton. }
  split_and!.
  - destruct (mt b); constructor; subst fs; simpl; auto.
  - intros ->. subst fs. simpl. by apply H8.
  - exists (drop (length (msg_bytes m wid len p)) (talk_bytes big pkt)).
    assert (drop talk_hdr_size (msg_bytes m wid len p ++ drop (length (msg_bytes m wid len p)) (talk_bytes big pkt)) =
      drop talk_hdr_size (msg_bytes m wid len p) ++ drop (length (msg_bytes m wid len p)) (talk_bytes big pkt)) as Hd
      by (by rewrite drop_app_le by lia).
    rewrite <- Hd. by destruct (mt b).
Qed.

(** Receiving any message: [_talk_recv] fails exactly if the message says so. *)
Lemma recv_message big b pkt s m wid p rest :
  io_ok s -> is_tcp (net_l4_proto_value (config (cur s))) = true ->
  let len := talk_len (cur s) in
  (talk_hdr_size <= len)%nat -> p_ok p -> u64 wid ->
  rx_data (k_rx s) = msg_bytes m wid len p ++ rest ->
  exists p' s',
    _talk_recv big b pkt s =
      (if has_op UBWT_TALK_OP_FORCE_FAIL p then set_errno UBWT_ERROR_ABORT ;; mret (-1, p')
       else mret (Z.of_nat len, p')) s' /\
    step (set_remote b (if m then wid else 0)) (msg_bytes m wid len p) [] 0 s s' /\
    same_msg p p' /\ exists r, p_buf p' = drop talk_hdr_size (msg_bytes m wid len p) ++ r.
Proof.
  intros Hio Htcp len Hlen Hp Hwid Hrx.
  pose proof (length_msg_bytes m wid len p) as Hml.
  destruct (runs_read (if truth (im_connector (config (cur s))) then "net_read_from_listener()"
     else "net_read_from_connector()") len s Hio Htcp) as (s1 & Hrun & Hstep).
  { rewrite Hrx, length_app. lia. }
  rewrite Hrx, take_app_length' in Hrun, Hstep by done.
  destruct (received_message big b pkt m wid len p Hp Hwid Hlen) as (Hsame & Hrw & Hbuf).
  set (bytes := msg_bytes m wid len p) in *.
  set (pk1 := talk_payload_ntoh big b (talk_of_bytes big
    (bytes ++ drop (length bytes) (talk_bytes big pkt)))) in *.
  assert (has_op UBWT_TALK_OP_FORCE_FAIL pk1 = has_op UBWT_TALK_OP_FORCE_FAIL p) as Hff.
  { unfold has_op. by rewrite (same_flags _ _ Hsame). }
  assert ((if truth (im_connector (config (cur s))) then net_read_from_listener len
           else net_read_from_connector len) s = Done (Z.of_nat len, bytes) s1) as Hread.
  { unfold net_read_from_listener, net_read_from_connector. by destruct (truth _). }
  assert (exists s2, (when (mt b) (update_cur (fun c => c {{ remote_worker_id := p_worker_id pk1 }}))) s1 = Done tt s2 /\
    step (set_remote b (if m then wid else 0)) bytes [] 0 s s2) as (s2 & Hwhen & Hstep2).
  { unfold set_remote, when. destruct (mt b) eqn:Hmt; [|by exists s1].
    destruct (runs_update_cur (fun c => c {{ remote_worker_id := p_worker_id pk1 }}) s1 (st_ok _ _ _ _ _ _ Hstep)) as [Hu Su].
    eexists. split; [exact Hu|]. eapply step_conv; [by eapply step_trans|..]; rewrite ?app_nil_r; try done.
    by rewrite Hrw. }
  exists pk1, s2. split_and!; [|done..].
  unfold _talk_recv. rewrite get_bind. fold len. rewrite (bind_Done _ _ _ _ _ Hread).
  cbv beta iota zeta. rewrite Z.eqb_refl. fold pk1. rewrite bind_assoc, (bind_Done _ _ _ _ _ Hwhen), ret_bind.
  by rewrite Hff.
Qed.

Lemma runs_recv big b pkt s m wid p rest :
  io_ok s -> is_tcp (net_l4_proto_value (config (cur s))) = true ->
  let len := talk_len (cur s) in
  (talk_hdr_size <= len)%nat -> p_ok p -> u64 wid -> has_op UBWT_TALK_OP_FORCE_FAIL p = false ->
  rx_data (k_rx s) = msg_bytes m wid len p ++ rest ->
  exists p' s',
    runs (_talk_recv big b pkt) s (Z.of_nat len, p') (set_remote b (if m then wid else 0))
      (msg_bytes m wid len p) [] 0 s' /\
    same_msg p p' /\
    exists r, p_buf p' = drop talk_hdr_size (msg_bytes m wid len p) ++ r.
Proof.
  intros Hio Htcp len Hlen Hp Hwid Hff Hrx.
  destruct (recv_message big b pkt s m wid p rest) as (p' & s' & Hrun & Hstep & Hsame & Hbuf); [done..|].
  rewrite Hff in Hrun. by exists p', s'.
Qed.

(** The message of [_talk_send_abort]. *)
Definition m_abort : ubwt_talk_payload_t := set_op UBWT_TALK_OP_FORCE_FAIL payload_zero.

Lemma recv_abort big b pkt s m wid rest :
  io_ok s -> is_tcp (net_l4_proto_value (config (cur s))) = true ->
  (talk_hdr_size <= talk_len (cur s))%nat -> u64 wid ->
  rx_data (k_rx s) = msg_bytes m wid (talk_len (cur s)) m_abort ++ rest ->
  exists p' s', _talk_recv big b pkt s = Done (-1, p') s' /\ errno s' = UBWT_ERROR_ABORT /\
    cur s' = set_remote b (if m then wid else 0) (cur s) /\ io_ok s' /\ rx_data (k_rx s') = rest.
Proof.
  intros Hio Htcp Hlen Hwid Hrx.
  assert (p_ok m_abort) as Hp by (constructor; split; vm_compute; congruence).
  destruct (recv_message big b pkt s m wid m_abort rest Hio Htcp Hlen Hp Hwid Hrx) as (p' & s' & Hrun & Hstep & _ & _).
  change (has_op UBWT_TALK_OP_FORCE_FAIL m_abort) with true in Hrun.
  exists p', (s' {{ errno := UBWT_ERROR_ABORT }}). destruct Hstep as [Hc Hin _ _ _ _ _ []].
  split_and!; try done. simpl. rewrite Hrx in Hin. by apply app_inv_head in Hin.
Qed.

Lemma has_op_same op p p' : same_msg p p' -> has_op op p' = has_op op p.
Proof. intros []. unfold has_op. by rewrite same_flags0. Qed.

Lemma runs_send big b p s :
  io_ok s -> p_ok p -> u64 (worker_id (cur s)) ->
  exists s', runs (_talk_send big b p) s (Z.of_nat (talk_len (cur s))) (fun c => c) []
    (msg_bytes (mt b) (worker_id (cur s)) (talk_len (cur s)) p) 0 s'.
Proof.
  intros Hio Hp Hwid. unfold runs, _talk_send. rewrite get_bind, talk_packet_msg by done.
  set (bs := msg_bytes _ _ _ _). cbv zeta.
  destruct (runs_write (if truth (im_connector (config (cur s))) then "net_write_to_listener()"
     else "net_write_to_connector()") bs s Hio) as (s' & Hrun & Hstep).
  exists s'. subst bs. rewrite length_msg_bytes in Hrun. split; [|done].
  unfold net_write_to_listener, net_write_to_connector. by destruct (truth _).
Qed.

Lemma runs_timeout b t s :
  io_ok s -> exists s', runs (_talk_timeout b t) s tt (fun c => c) [] [] 0 s'.
Proof.
  intros Hio. unfold runs, _talk_timeout, net_fd, current_of. rewrite get_bind. unfold net_timeout_set.
  destruct (defined _).
  - rewrite ret_bind. exists s. split; [done|by apply step_refl].
  - rewrite bind_assoc.
    destruct (runs_call (C_rcvtimeo (fd (net (cur s))) t) s Hio) as (r & s' & [Hrun Hstep] & Hr).
    rewrite (bind_Done _ _ _ _ _ Hrun), Hr, ret_bind. by exists s'.
Qed.

(** ** Barriers

    At a barrier the others do what the script says; a thread without one is alone, and
    the serial one. *)

Definition waited (x : shared) : shared :=
  match snd x with
  | [] => x
  | e :: l => (others e (fst x), l)
  end.

Definition is_serial (x : shared) : bool :=
  match snd x with
  | [] => true
  | e :: _ => serial e
  end.

(** The waits of a build with threads, and those of the asynchronous mode. *)
Definition waited_mt (b : build) (x : shared) : shared := if mt b then waited x else x.
Definition waited_async (b : build) (cfg : ubwt_config) (x : shared) : shared :=
  if mt b && truth (asynchronous cfg) then waited x else x.

Definition at_barrier {A : Type} (m : M A) (r : A) (x : shared) (s : thread) : Prop :=
  exists s', m s = Done r s' /\ moves [] [] 0 s s' /\ acts s s' x (report (cur s)).

Lemma barrier_run i s : io_ok s -> at_barrier (sys_barrier i) (is_serial (shared_of s)) (waited (shared_of s)) s.
Proof.
  intros []. unfold at_barrier, sys_barrier, is_serial, waited, shared_of. rewrite modify_bind, get_bind.
  destruct s as [cu e r tx o calls tr ck tk sy lg]; simpl in *. destruct sy as [|y sy].
  - eexists. split; [reflexivity|]. split; [|done]. constructor; simpl; by rewrite ?app_nil_r, ?Nat.add_0_r.
  - eexists. split; [reflexivity|]. split; [|by destruct cu].
    constructor; simpl; rewrite ?app_nil_r, ?Nat.add_0_r; try done. constructor; try done. by eapply tailed.
Qed.

Lemma barrier_then (m : M bool) r x s :
  at_barrier m r x s -> at_barrier (m ;; mret tt) tt x s.
Proof. intros (s' & H & M & Ac). exists s'. by rewrite (bind_Done _ _ _ _ _ H). Qed.

Lemma barrier_none s : io_ok s -> at_barrier (mret tt) tt (shared_of s) s.
Proof. intros H. exists s. split; [done|]. split; [by apply moves_refl|done]. Qed.

Lemma wait_direction_run s : io_ok s -> at_barrier wait_direction (is_serial (shared_of s)) (waited (shared_of s)) s.
Proof. intros Hio. unfold at_barrier, wait_direction, process_get_reverse, current_of. rewrite get_bind. by apply barrier_run. Qed.

Lemma wait_dir_mt_run b s :
  io_ok s -> at_barrier (if mt b then wait_direction ;; mret tt else mret tt) tt (waited_mt b (shared_of s)) s.
Proof.
  intros Hio. unfold waited_mt. destruct (mt b); [|by apply barrier_none].
  eapply barrier_then. by apply wait_direction_run.
Qed.

Lemma wait_all_run b s : io_ok s -> at_barrier (wait_all b) tt (waited_mt b (shared_of s)) s.
Proof.
  intros Hio. unfold wait_all, waited_mt. destruct (mt b); [|by apply barrier_none].
  unfold at_barrier, current_of. rewrite get_bind. destruct (truth _); eapply barrier_then; [by apply barrier_run|by apply wait_direction_run].
Qed.

Lemma wait_async_run b s :
  io_ok s -> at_barrier (wait_async b) tt (waited_async b (config (cur s)) (shared_of s)) s.
Proof.
  intros Hio. unfold wait_async, waited_async. destruct (mt b); [|by apply barrier_none].
  unfold at_barrier, current_of. rewrite get_bind. destruct (truth _); cbn [when andb]; [|by apply barrier_none].
  eapply barrier_then. by apply barrier_run.
Qed.

Lemma wait_serial_run b s :
  io_ok s -> at_barrier (wait_serial b) (if mt b then is_serial (shared_of s) else true) (waited_mt b (shared_of s)) s.
Proof.
  intros Hio. unfold wait_serial, waited_mt. destruct (mt b); [by apply wait_direction_run|].
  exists s. split; [done|]. split; [by apply moves_refl|done].
Qed.

End runs.

(** ** The messages *)

Definition m_ping (n : Z) : ubwt_talk_payload_t :=
  set_op UBWT_TALK_OP_PING (payload_zero {{ p_count := n }}).
Definition m_pong (n : Z) : ubwt_talk_payload_t :=
  (set_op UBWT_TALK_OP_PONG payload_zero) {{ p_count := n }}.
Definition m_negotiate (count latency : Z) : ubwt_talk_payload_t :=
  (set_op UBWT_TALK_OP_LATENCY_US (set_op UBWT_TALK_OP_COUNT_REQ payload_zero))
    {{ p_count := count; p_latency := latency }}.
Definition m_start (count : Z) : ubwt_talk_payload_t :=
  (set_op UBWT_TALK_OP_STREAM_START payload_zero) {{ p_count := count }}.
Definition m_run (i : Z) : ubwt_talk_payload_t :=
  (set_op UBWT_TALK_OP_STREAM_RUN payload_zero) {{ p_count := i }}.
Definition m_end (cfg : ubwt_config) (t : Z) : ubwt_talk_payload_t :=
  let p := set_op UBWT_TALK_OP_STREAM_END payload_zero in
  if t <? wrap 64 (minimum_time_us cfg)
  then set_op UBWT_TALK_OP_STREAM_WEAK (p {{ p_weak_time := t }}) else p.
Definition m_report (bs : list Z) : ubwt_talk_payload_t :=
  (set_op UBWT_TALK_OP_REPORT payload_zero) {{ p_buf := bs }}.
Definition m_finish : ubwt_talk_payload_t := set_op UBWT_TALK_OP_FINISH payload_zero.

(** A stream of [t] microseconds is too short for the configuration. *)
Definition weak (cfg : ubwt_config) (t : Z) : bool := t <? wrap 64 (minimum_time_us cfg).

Ltac solve_p_ok :=
  constructor; simpl; (assumption || (split; vm_compute; congruence) || (unfold unsigned in *; lia)).

Lemma m_ping_ok n : u32 n -> p_ok (m_ping n).
Proof. intros. solve_p_ok. Qed.
Lemma m_pong_ok n : u32 n -> p_ok (m_pong n).
Proof. intros. solve_p_ok. Qed.
Lemma m_negotiate_ok c l : u32 c -> u32 l -> p_ok (m_negotiate c l).
Proof. intros. solve_p_ok. Qed.
Lemma m_start_ok n : u32 n -> p_ok (m_start n).
Proof. intros. solve_p_ok. Qed.
Lemma m_run_ok n : u32 n -> p_ok (m_run n).
Proof. intros. solve_p_ok. Qed.
Lemma m_end_ok cfg t : u64 t -> p_ok (m_end cfg t).
Proof. intros. unfold m_end. destruct (_ <? _); solve_p_ok. Qed.
Lemma m_report_ok bs : p_ok (m_report bs).
Proof. solve_p_ok. Qed.
Lemma m_finish_ok : p_ok m_finish.
Proof. solve_p_ok. Qed.

#[export] Hint Resolve m_ping_ok m_pong_ok m_negotiate_ok m_start_ok m_run_ok m_end_ok
  m_report_ok m_finish_ok : ubwt.

(** A test over TCP, with the payload taken from the zeroed packet. *)
Record tcp_talk (cfg : ubwt_config) : Prop := {
  talk_tcp : net_l4_proto_value cfg = UBWT_NET_PROTO_L4_TCP;
  talk_size : talk_payload_current_size cfg = 1432;
  talk_nofill : net_payload_buffer_size cfg = 0;
  talk_iter : 1 <= talk_handshake_iter cfg < 65536;
  talk_time : 1 <= talk_stream_minimum_time cfg < 65536;
  talk_current : talk_count_current cfg = 100;
  talk_default : talk_count_default cfg = 100;
  talk_max : talk_count_max cfg = 1000000000
}.

(** A single worker; it is not asynchronous. *)
Record single (cfg : ubwt_config) (b : build) : Prop := {
  single_talk : tcp_talk cfg;
  single_sync : asynchronous cfg = 0;
  single_count : defined (UBWT_CONFIG_MULTI_THREADED b) = true -> worker_count cfg = 1
}.

Definition msg_size : nat := 1432.

Lemma talk_len_handshake c :
  state (stage c) = UBWT_STAGE_STATE_RUNTIME_TALK_HANDSHAKE -> talk_len c = talk_hdr_size.
Proof. intros H. unfold talk_len, stage_get. by rewrite H. Qed.

Lemma talk_len_other cfg c :
  tcp_talk cfg -> config c = cfg ->
  state (stage c) <> UBWT_STAGE_STATE_RUNTIME_TALK_HANDSHAKE -> talk_len c = msg_size.
Proof.
  intros Hs Hc H. unfold talk_len, stage_get. rewrite decide_False by done.
  by rewrite Hc, (talk_size _ Hs).
Qed.

(** A clock that never fails, never goes back and advances by less than 2^31
    microseconds (some 35 minutes) between two readings. *)
Record clock_ok (clk : nat -> option (Z * Z)) : Prop := {
  clock_some : forall n, clk n <> None;
  clock_mono : forall n, clock_us clk n <= clock_us clk (S n) < clock_us clk n + 2 ^ 31;
  clock_range : forall n, 0 <= clock_us clk n < 2 ^ 63
}.

(** ** The handshake *)

Lemma of_nat_ltb_0 n : (Z.of_nat n <? 0) = false.
Proof. apply Z.ltb_ge. lia. Qed.

Lemma wrap_difference clk n :
  clock_ok clk ->
  wrap 64 (clock_us clk (S n) - clock_us clk n) = clock_us clk (S n) - clock_us clk n.
Proof.
  intros []. pose proof (clock_mono0 n). pose proof (clock_range0 n). pose proof (clock_range0 (S n)).
  apply wrap_small. unfold unsigned. lia.
Qed.

Lemma sint_small w z : 1 <= w -> 0 <= z < 2 ^ (w - 1) -> sint w z = z.
Proof.
  intros Hw Hz. unfold sint. rewrite Z.mod_small; [lia|].
  replace (2 ^ w) with (2 * 2 ^ (w - 1)); [lia|]. rewrite <- Z.pow_succ_r by lia. f_equal. lia.
Qed.

Section endpoint.
Context {P : list sync -> Prop} {HP : Tailed P}.
Context (big : bool) (b : build) (cfg : ubwt_config).
Context (Hs : tcp_talk cfg).

Abbreviation io_ok := (io_ok P).
Abbreviation moves := (moves (P := P)).
Abbreviation runs := (runs (P := P)).
Abbreviation step := (step (P := P)).

(** The facts about the thread that every step keeps. *)
Record at_stage (st : ubwt_stage_state_t) (s : thread) : Prop := {
  at_io : io_ok s;
  at_config : config (cur s) = cfg;
  at_wid : u64 (worker_id (cur s));
  at_state : state (stage (cur s)) = st
}.

Lemma at_tcp st s : at_stage st s -> is_tcp (net_l4_proto_value (config (cur s))) = true.
Proof. intros []. by rewrite at_config0, (talk_tcp _ Hs). Qed.

Lemma moves_at st i o t s s' :
  at_stage st s -> moves i o t s s' -> keeps s s' -> at_stage st s'.
Proof. intros [] M [[] ? ? ?]. constructor; [apply M|congruence|congruence|congruence]. Qed.

Lemma at_step st i o t s s' :
  at_stage st s -> step (fun c => c) i o t s s' -> at_stage st s'.
Proof. intros H S. eapply moves_at; [done|by eapply step_moves|by eapply step_keeps]. Qed.

(** What a message received leaves. *)
Lemma set_remote_keeps z i o t s s' : step (set_remote b z) i o t s s' -> keeps s s'.
Proof.
  intros []. constructor; unfold shared_of; rewrite ?st_cur0, ?st_sync0; unfold set_remote; destruct (mt b); by destruct (cur s).
Qed.

Definition hs := UBWT_STAGE_STATE_RUNTIME_TALK_HANDSHAKE.

(** The length of the messages in a stage. *)
Lemma at_len st s :
  at_stage st s -> talk_len (cur s) = (if decide (st = hs) then talk_hdr_size else msg_size).
Proof.
  intros []. case_decide as Hd.
  - apply talk_len_handshake. unfold hs in Hd. congruence.
  - eapply talk_len_other; [exact Hs|done|].
    intros Heq. apply Hd. unfold hs. congruence.
Qed.

Lemma talk_len_ge st s : at_stage st s -> (talk_hdr_size <= talk_len (cur s))%nat.
Proof. intros H. rewrite (at_len _ _ H). case_decide; apply Nat.leb_le; reflexivity. Qed.

(** Sending and receiving a message in a stage. *)
Lemma at_send st s p :
  at_stage st s -> p_ok p ->
  exists s', runs (_talk_send big b p) s (Z.of_nat (talk_len (cur s))) (fun c => c) []
    (msg_bytes (mt b) (worker_id (cur s)) (talk_len (cur s)) p) 0 s' /\ at_stage st s'.
Proof.
  intros Hst Hp. destruct (runs_send (P := P) big b p s) as (s' & H); [apply Hst|done|apply Hst|].
  exists s'. split; [done|]. destruct H. by eapply at_step.
Qed.

Lemma at_recv st s pkt m wid p rest :
  at_stage st s -> p_ok p -> u64 wid -> has_op UBWT_TALK_OP_FORCE_FAIL p = false ->
  rx_data (k_rx s) = msg_bytes m wid (talk_len (cur s)) p ++ rest ->
  exists p' s',
    runs (_talk_recv big b pkt) s (Z.of_nat (talk_len (cur s)), p') (set_remote b (if m then wid else 0))
      (msg_bytes m wid (talk_len (cur s)) p) [] 0 s' /\
    same_msg p p' /\ at_stage st s' /\ rx_data (k_rx s') = rest /\
    exists r, p_buf p' = drop talk_hdr_size (msg_bytes m wid (talk_len (cur s)) p) ++ r.
Proof.
  intros Hst Hp Hwid Hff Hrx.
  destruct (runs_recv (P := P) big b pkt s m wid p rest) as (p' & s' & [Hrun Hstep] & Hsame & Hbuf); try done.
  - apply Hst.
  - by eapply at_tcp.
  - by eapply talk_len_ge.
  - exists p', s'. split_and!; try done.
    + eapply moves_at; [done|by eapply step_moves|by eapply set_remote_keeps].
    + pose proof (st_in _ _ _ _ _ _ Hstep) as Hin. rewrite Hrx in Hin. by apply app_inv_head in Hin.
Qed.

Lemma sender_handshake_run s m wid rest :
  at_stage hs s -> clock_ok (k_clock s) -> u64 wid ->
  rx_data (k_rx s) = msg_bytes m wid talk_hdr_size (m_pong (talk_handshake_iter cfg)) ++ rest ->
  exists s', _talk_sender_handshake big b s =
      Done (clock_us (k_clock s) (S (k_tick s)) - clock_us (k_clock s) (k_tick s)) s' /\
    moves (msg_bytes m wid talk_hdr_size (m_pong (talk_handshake_iter cfg)))
      (msg_bytes (mt b) (worker_id (cur s)) talk_hdr_size (m_ping (talk_handshake_iter cfg))) 2 s s' /\
    keeps s s'.
Proof.
  intros Hst Hclk Hwid Hrx. pose proof (talk_iter _ Hs) as Hiter.
  assert (u32 (talk_handshake_iter cfg)) as Hu by (unfold unsigned; lia).
  pose proof (at_len _ _ Hst) as Hlen. rewrite decide_True in Hlen by done.
  unfold _talk_sender_handshake, current_of. rewrite get_bind.
  rewrite (at_config _ _ Hst). fold (m_ping (talk_handshake_iter cfg)). cbv zeta.
  destruct (runs_time (P := P) s) as (s1 & [H1 S1]); [apply Hst|by apply clock_some|].
  pose proof (at_step _ _ _ _ _ _ Hst S1) as Hst1.
  rewrite (bind_Done _ _ _ _ _ H1).
  destruct (at_send _ s1 (m_ping (talk_handshake_iter cfg)) Hst1) as (s2 & [H2 S2] & Hst2); [auto with ubwt|].
  rewrite (bind_Done _ _ _ _ _ H2), of_nat_ltb_0.
  assert (talk_len (cur s2) = talk_hdr_size) as Hlen2 by (by rewrite (at_len _ _ Hst2)).
  pose proof (step_moves _ _ _ _ _ _ S1) as M1. pose proof (step_moves _ _ _ _ _ _ S2) as M2.
  destruct (at_recv _ s2 (m_ping (talk_handshake_iter cfg)) m wid (m_pong (talk_handshake_iter cfg)) rest Hst2)
    as (p' & s3 & [H3 S3] & Hsame & Hst3 & _ & _);
    [auto with ubwt|done|reflexivity|by rewrite Hlen2, (moves_nil_rx _ _ _ _ M2), (moves_nil_rx _ _ _ _ M1)|].
  rewrite (bind_Done _ _ _ _ _ H3). cbv beta iota. rewrite of_nat_ltb_0.
  rewrite (same_count _ _ Hsame). change (p_count (m_pong (talk_handshake_iter cfg))) with (talk_handshake_iter cfg).
  rewrite Z.eqb_refl. change (negb true) with false. cbv iota.
  pose proof (step_moves _ _ _ _ _ _ S3) as M3.
  pose proof (moves_trans _ _ _ _ _ _ _ _ _ M1 (moves_trans _ _ _ _ _ _ _ _ _ M2 M3)) as M13.
  destruct (moves_clock _ _ _ _ _ M13) as [Hc3 Ht3].
  replace (k_tick s + (1 + (0 + 0)))%nat with (S (k_tick s)) in Ht3 by lia.
  destruct (runs_time (P := P) s3) as (s4 & [H4 S4]); [apply Hst3|rewrite Hc3; by apply clock_some|].
  rewrite (bind_Done _ _ _ _ _ H4), Hc3, Ht3. rewrite wrap_difference by done.
  pose proof (clock_mono _ Hclk (k_tick s)) as Hmono.
  rewrite sint_small by lia.
  exists s4. split_and!; [reflexivity| |].
  - eapply moves_conv; [eapply moves_trans; [exact M13|eapply step_moves, S4]|..].
    + by rewrite !app_nil_r, Hlen2.
    + assert (cur s1 = cur s) as -> by apply S1. by rewrite !app_nil_r, Hlen.
    + done.
  - eapply keeps_trans; [by eapply step_keeps|]. eapply keeps_trans; [by eapply step_keeps|].
    eapply keeps_trans; [by eapply set_remote_keeps|by eapply step_keeps].
Qed.

(** The bytes of a message of worker [wid] of the other end in a stage. *)
Definition at_len_of (st : ubwt_stage_state_t) : nat := if decide (st = hs) then talk_hdr_size else msg_size.

Lemma receiver_handshake_run s m wid rest :
  at_stage hs s -> u64 wid ->
  rx_data (k_rx s) = msg_bytes m wid talk_hdr_size (m_ping (talk_handshake_iter cfg)) ++ rest ->
  exists s', _talk_receiver_handshake big b s = Done 0 s' /\
    moves (msg_bytes m wid talk_hdr_size (m_ping (talk_handshake_iter cfg)))
      (msg_bytes (mt b) (worker_id (cur s)) talk_hdr_size (m_pong (talk_handshake_iter cfg))) 0 s s' /\
    keeps s s'.
Proof.
  intros Hst Hwid Hrx. pose proof (talk_iter _ Hs) as Hiter.
  assert (u32 (talk_handshake_iter cfg)) as Hu by (unfold unsigned; lia).
  assert (talk_len (cur s) = talk_hdr_size) as Hlen by (by rewrite (at_len _ _ Hst)).
  unfold _talk_receiver_handshake, current_of. rewrite get_bind, (at_config _ _ Hst).
  destruct (at_recv _ s payload_zero m wid (m_ping (talk_handshake_iter cfg)) rest Hst)
    as (p' & s1 & [H1 S1] & Hsame & Hst1 & _ & _); [auto with ubwt|done|reflexivity|by rewrite Hlen|].
  rewrite (bind_Done _ _ _ _ _ H1). cbv beta iota. rewrite of_nat_ltb_0.
  rewrite (has_op_same _ _ _ Hsame), (same_count _ _ Hsame).
  change (has_op UBWT_TALK_OP_PING (m_ping (talk_handshake_iter cfg))) with true.
  change (p_count (m_ping (talk_handshake_iter cfg))) with (talk_handshake_iter cfg).
  rewrite Z.eqb_refl. change (negb true) with false. cbv iota zeta.
  fold (m_pong (talk_handshake_iter cfg)).
  destruct (at_send _ s1 (m_pong (talk_handshake_iter cfg)) Hst1) as (s2 & [H2 S2] & Hst2); [auto with ubwt|].
  rewrite (bind_Done _ _ _ _ _ H2), of_nat_ltb_0.
  exists s2. split; [reflexivity|].
  pose proof (set_remote_keeps _ _ _ _ _ _ S1) as K1. split.
  - eapply moves_conv; [eapply moves_trans; [eapply step_moves, S1|eapply step_moves, S2]|..]; try done.
    + by rewrite app_nil_r, Hlen.
    + rewrite (same_worker_id _ _ (acts_thread _ _ _ _ K1)). by rewrite (at_len _ _ Hst1).
  - eapply keeps_trans; [exact K1|by eapply step_keeps].
Qed.

(** The sum of [n] round trips from reading [tick] of the clock. *)
Fixpoint rtt_sum (clk : nat -> option (Z * Z)) (tick n : nat) (acc : Z) : Z :=
  match n with
  | O => acc
  | S n => rtt_sum clk (tick + 2) n (wrap 32 (acc + (clock_us clk (S tick) - clock_us clk tick)))
  end.

Lemma run_stage_inc st fl s :
  at_stage st s ->
  exists s', t_stage_inc fl s = Done tt s' /\ moves [] [] 0 s s' /\ keeps s s'.
Proof.
  intros Hst. destruct (runs_update_cur (fun c => c {{ stage ::= fun x => fst (stage_inc fl x) }}) s (at_io _ _ Hst))
    as [H S].
  eexists. split; [exact H|]. split; [by eapply step_moves|].
  destruct s as [[] ? ? ? ? ? ? ? ? ? ?]. by repeat constructor.
Qed.

Lemma run_interval z s :
  io_ok s ->
  exists s', (if truth z then sys_call (C_usleep (z * 1000)) ;; mret tt else mret tt) s = Done tt s' /\
    moves [] [] 0 s s' /\ keeps s s'.
Proof.
  intros Hio. destruct (truth z).
  - destruct (runs_call (C_usleep (z * 1000)) s Hio) as (r & s' & [H S] & _).
    exists s'. rewrite (bind_Done _ _ _ _ _ H). split; [done|]. split; [by eapply step_moves|by eapply step_keeps].
  - exists s. split; [done|]. split; [by apply moves_refl|done].
Qed.

(** [n] times the same message. *)
Definition repeat_msg (n : nat) (bs : list Z) : list Z := concat (replicate n bs).

Lemma repeat_msg_S n bs : repeat_msg (S n) bs = bs ++ repeat_msg n bs.
Proof. reflexivity. Qed.

Lemma sender_handshakes_run n s m wid rest dt :
  at_stage hs s -> clock_ok (k_clock s) -> u64 wid ->
  rx_data (k_rx s) =
    repeat_msg n (msg_bytes m wid talk_hdr_size (m_pong (talk_handshake_iter cfg))) ++ rest ->
  exists s', sender_handshakes big b n dt s = Done (rtt_sum (k_clock s) (k_tick s) n dt) s' /\
    moves (repeat_msg n (msg_bytes m wid talk_hdr_size (m_pong (talk_handshake_iter cfg))))
      (repeat_msg n (msg_bytes (mt b) (worker_id (cur s)) talk_hdr_size (m_ping (talk_handshake_iter cfg))))
      (2 * n) s s' /\
    keeps s s'.
Proof.
  revert s dt. induction n as [|n IH]; intros s dt Hst Hclk Hwid Hrx.
  - exists s. split; [done|]. split; [apply moves_refl, Hst|done].
  - rewrite repeat_msg_S, <- app_assoc in Hrx.
    destruct (sender_handshake_run s m wid _ Hst Hclk Hwid Hrx) as (s1 & H1 & M1 & K1).
    pose proof (moves_at _ _ _ _ _ _ Hst M1 K1) as Hst1.
    pose proof (moves_rx _ _ _ _ _ _ M1 Hrx) as Hrx1.
    pose proof (clock_mono _ Hclk (k_tick s)) as Hmono.
    cbn [sender_handshakes]. rewrite (bind_Done _ _ _ _ _ H1). rewrite sint_small by lia. cbv zeta.
    replace (clock_us (k_clock s) (S (k_tick s)) - clock_us (k_clock s) (k_tick s) <? 0) with false by lia.
    destruct (run_stage_inc _ 0 s1 Hst1) as (s2 & H2 & M2 & K2).
    rewrite (bind_Done _ _ _ _ _ H2). unfold current_of. rewrite get_bind.
    pose proof (moves_at _ _ _ _ _ _ Hst1 M2 K2) as Hst2.
    destruct (run_interval (talk_handshake_interval (config (cur s2))) s2 (at_io _ _ Hst2)) as (s3 & H3 & M3 & K3).
    pose proof (moves_at _ _ _ _ _ _ Hst2 M3 K3) as Hst3.
    rewrite (bind_Done _ _ _ _ _ H3).
    assert (k_clock s3 = k_clock s /\ k_tick s3 = (k_tick s + 2)%nat) as [Hc3 Ht3].
    { destruct M1, M2, M3. split; [congruence|lia]. }
    assert (rx_data (k_rx s3) = rx_data (k_rx s1)) as Hrx3.
    { by rewrite (moves_nil_rx _ _ _ _ M3), (moves_nil_rx _ _ _ _ M2). }
    edestruct (IH s3) as (s' & H' & M' & K'); [exact Hst3|by rewrite Hc3|done|by rewrite Hrx3|].
    exists s'. rewrite H', Hc3, Ht3. split; [done|].
    assert (keeps s s3) as K13 by (eapply keeps_trans; [exact K1|by eapply keeps_trans]).
    split; [|by eapply keeps_trans].
    eapply moves_conv; [eapply moves_trans; [exact M1|eapply moves_trans; [exact M2|eapply moves_trans; [exact M3|exact M']]]|..].
    + done.
    + rewrite (same_worker_id _ _ (acts_thread _ _ _ _ K13)). done.
    + lia.
Qed.

Lemma receiver_handshakes_run n s m wid rest :
  at_stage hs s -> u64 wid ->
  rx_data (k_rx s) =
    repeat_msg n (msg_bytes m wid talk_hdr_size (m_ping (talk_handshake_iter cfg))) ++ rest ->
  exists s', receiver_handshakes big b n s = Done tt s' /\
    moves (repeat_msg n (msg_bytes m wid talk_hdr_size (m_ping (talk_handshake_iter cfg))))
      (repeat_msg n (msg_bytes (mt b) (worker_id (cur s)) talk_hdr_size (m_pong (talk_handshake_iter cfg))))
      0 s s' /\
    keeps s s'.
Proof.
  revert s. induction n as [|n IH]; intros s Hst Hwid Hrx.
  - exists s. split; [done|]. split; [apply moves_refl, Hst|done].
  - rewrite repeat_msg_S, <- app_assoc in Hrx.
    destruct (receiver_handshake_run s m wid _ Hst Hwid Hrx) as (s1 & H1 & M1 & K1).
    pose proof (moves_at _ _ _ _ _ _ Hst M1 K1) as Hst1.
    pose proof (moves_rx _ _ _ _ _ _ M1 Hrx) as Hrx1.
    cbn [receiver_handshakes]. rewrite (bind_Done _ _ _ _ _ H1). change (0 <? 0) with false. cbv iota.
    destruct (run_stage_inc _ 0 s1 Hst1) as (s2 & H2 & M2 & K2).
    rewrite (bind_Done _ _ _ _ _ H2).
    pose proof (moves_at _ _ _ _ _ _ Hst1 M2 K2) as Hst2.
    assert (rx_data (k_rx s2) = rx_data (k_rx s1)) as Hrx2 by apply (moves_nil_rx _ _ _ _ M2).
    edestruct (IH s2) as (s' & H' & M' & K'); [exact Hst2|done|by rewrite Hrx2|].
    exists s'. rewrite H'. split; [done|].
    assert (keeps s s2) as K12 by (by eapply keeps_trans).
    split; [|by eapply keeps_trans].
    eapply moves_conv; [eapply moves_trans; [exact M1|eapply moves_trans; [exact M2|exact M']]|..]; try done.
    rewrite (same_worker_id _ _ (acts_thread _ _ _ _ K12)). done.
Qed.

End endpoint.
