(* ===== verification/TalkRounds.v ===== *)
(** The rounds of negotiation and stream, and the whole talk: continuation of
    TalkSpec.v. *)

From S2P Require Import Prelude Bitops Errors Byteorder Layout ConfigData Usage Double Report Stage Thread Config ConfigSpec Conn Net NetSpec Talk TalkSpec.

(** A part that makes [F] of the shared state and [G] of the report, after another. *)
Lemma acts_seq F G s s1 s2 x rp :
  acts s s1 x rp -> acts s1 s2 (F (shared_of s1)) (G (report (cur s1))) -> acts s s2 (F x) (G rp).
Proof. intros H1 H2. eapply acts_trans; [exact H1|]. by destruct H1 as [_ _ <- <-]. Qed.

(** An update of the talk contexts. *)
Definition on_talk (f : talk_shared -> talk_shared) (x : shared) : shared := (f (fst x), snd x).

Lemma run_update_talk {P : list sync -> Prop} f s :
  io_ok P s ->
  exists s', update_talk f s = Done tt s' /\ moves (P := P) [] [] 0 s s' /\
    acts s s' (on_talk f (shared_of s)) (report (cur s)).
Proof.
  intros Hio. destruct (runs_update_cur (fun c => c {{ talk ::= f }}) s Hio) as [H S].
  eexists. split; [exact H|]. split; [by eapply step_moves|].
  destruct s as [[] ? ? ? ? ? ? ? ? ? ?]. by repeat constructor.
Qed.

Lemma run_update_locked {P : list sync -> Prop} b f s :
  io_ok P s ->
  exists s', update_locked b f s = Done tt s' /\ moves (P := P) [] [] 0 s s' /\
    acts s s' (on_talk f (shared_of s)) (report (cur s)).
Proof.
  intros []. unfold update_locked, when. destruct s as [[] ? ? ? ? ? ? ? ? ? ?], (mt b); simpl in *;
    eexists; (split; [reflexivity|]); split; constructor; simpl; rewrite ?app_nil_r, ?Nat.add_0_r; done.
Qed.

Lemma run_report {P : list sync -> Prop} f s :
  io_ok P s ->
  exists s', t_report f s = Done tt s' /\ moves (P := P) [] [] 0 s s' /\
    acts s s' (shared_of s) (f (report (cur s))).
Proof.
  intros Hio. destruct (runs_update_cur (fun c => c {{ report ::= f }}) s Hio) as [H S].
  eexists. split; [exact H|]. split; [by eapply step_moves|].
  destruct s as [[] ? ? ? ? ? ? ? ? ? ?]. by repeat constructor.
Qed.

(** The bytes of a sequence of messages outside the handshake. *)
Definition stream_bytes (m : bool) (wid : Z) (ps : list ubwt_talk_payload_t) : list Z :=
  concat (map (msg_bytes m wid msg_size) ps).

Lemma stream_bytes_cons m wid p ps :
  stream_bytes m wid (p :: ps) = msg_bytes m wid msg_size p ++ stream_bytes m wid ps.
Proof. reflexivity. Qed.

Lemma stream_bytes_app m wid ps qs :
  stream_bytes m wid (ps ++ qs) = stream_bytes m wid ps ++ stream_bytes m wid qs.
Proof. unfold stream_bytes. by rewrite map_app, concat_app. Qed.

Definition packets (i : Z) (n : nat) : list ubwt_talk_payload_t := map m_run (seqZ i (Z.of_nat n)).

Lemma packets_S i n : packets i (S n) = m_run i :: packets (i + 1) n.
Proof.
  unfold packets. rewrite seqZ_cons by lia. simpl. do 2 f_equal; try lia.
  f_equal; lia.
Qed.

Section rounds.
Context {P : list sync -> Prop} {HP : Tailed P}.
Context (big : bool) (b : build) (cfg : ubwt_config).
Context (Hs : tcp_talk cfg).

Abbreviation at_stage := (at_stage (P := P)).
Abbreviation moves := (moves (P := P)).

Lemma acts_at st i o t s s' x rp :
  at_stage cfg st s -> moves i o t s s' -> acts s s' x rp -> at_stage cfg st s'.
Proof.
  intros [Hio Hc Hw Hst] M [[Ec _ Ew _ _] Est _ _].
  constructor; [apply M|congruence|by rewrite Ew|congruence].
Qed.

Definition streaming := UBWT_STAGE_STATE_RUNTIME_TALK_STREAM.

Lemma len_other st s : at_stage cfg st s -> st <> hs -> talk_len (cur s) = msg_size.
Proof. intros H Hne. by rewrite (at_len cfg Hs _ _ H), decide_False. Qed.

(** Sending and receiving outside the handshake. *)
Lemma other_send st s p :
  at_stage cfg st s -> st <> hs -> p_ok p ->
  exists s', _talk_send big b p s = Done (Z.of_nat msg_size) s' /\
    moves [] (msg_bytes (mt b) (worker_id (cur s)) msg_size p) 0 s s' /\
    keeps s s' /\ at_stage cfg st s'.
Proof.
  intros Hst Hne Hp. destruct (at_send big b cfg st s p Hst Hp) as (s' & [H S] & Hst').
  rewrite (len_other _ _ Hst Hne) in *. exists s'. split_and!; [done|by eapply step_moves|by eapply step_keeps|done].
Qed.

Lemma other_recv st s pkt m wid p rest :
  at_stage cfg st s -> st <> hs -> p_ok p -> u64 wid -> has_op UBWT_TALK_OP_FORCE_FAIL p = false ->
  rx_data (k_rx s) = msg_bytes m wid msg_size p ++ rest ->
  exists p' s', _talk_recv big b pkt s = Done (Z.of_nat msg_size, p') s' /\
    moves (msg_bytes m wid msg_size p) [] 0 s s' /\ same_msg p p' /\
    keeps s s' /\ at_stage cfg st s' /\ rx_data (k_rx s') = rest /\
    exists r, p_buf p' = drop talk_hdr_size (msg_bytes m wid msg_size p) ++ r.
Proof.
  intros Hst Hne Hp Hwid Hff Hrx. pose proof (len_other _ _ Hst Hne) as Hl.
  destruct (at_recv big b cfg Hs st s pkt m wid p rest Hst Hp Hwid Hff) as (p' & s' & [H S] & Hsame & Hst' & Hrx' & Hbuf);
    [by rewrite Hl|]. rewrite Hl in *.
  exists p', s'. split_and!; try done; [by eapply step_moves|by eapply set_remote_keeps].
Qed.

Lemma run_timeout st t s :
  at_stage cfg st s -> exists s', _talk_timeout b t s = Done tt s' /\ moves [] [] 0 s s' /\
    keeps s s' /\ at_stage cfg st s'.
Proof.
  intros Hst. destruct (runs_timeout b t s (at_io _ _ _ Hst)) as (s' & [H S]).
  exists s'. split_and!; [done|by eapply step_moves|by eapply step_keeps|by eapply at_step].
Qed.

(** The barriers. *)
Lemma at_barrier_at {A : Type} (m : M A) r x st s :
  at_stage cfg st s -> at_barrier (P := P) m r x s ->
  exists s', m s = Done r s' /\ moves [] [] 0 s s' /\ acts s s' x (report (cur s)) /\ at_stage cfg st s'.
Proof. intros Hst (s' & H & Mv & Ac). exists s'. split_and!; [done..|by eapply acts_at]. Qed.

Lemma run_wait_all st s :
  at_stage cfg st s -> exists s', wait_all b s = Done tt s' /\ moves [] [] 0 s s' /\
    acts s s' (waited_mt b (shared_of s)) (report (cur s)) /\ at_stage cfg st s'.
Proof. intros Hst. apply at_barrier_at; [done|]. apply wait_all_run, Hst. Qed.

Lemma run_wait_async st s :
  at_stage cfg st s -> exists s', wait_async b s = Done tt s' /\ moves [] [] 0 s s' /\
    acts s s' (waited_async b cfg (shared_of s)) (report (cur s)) /\ at_stage cfg st s'.
Proof. intros Hst. apply at_barrier_at; [done|]. rewrite <- (at_config _ _ _ Hst). apply wait_async_run, Hst. Qed.

Lemma run_wait_dir st s :
  at_stage cfg st s -> exists s', (if mt b then wait_direction ;; mret tt else mret tt) s = Done tt s' /\
    moves [] [] 0 s s' /\ acts s s' (waited_mt b (shared_of s)) (report (cur s)) /\ at_stage cfg st s'.
Proof. intros Hst. apply at_barrier_at; [done|]. apply wait_dir_mt_run, Hst. Qed.

(** Run one step whose lemma gives the result, the moves, what is kept and the
    stage. *)
Ltac run L := let s' := fresh "s" in let H := fresh "H" in let Mv := fresh "Mv" in
  let K := fresh "K" in let St := fresh "St" in
  destruct L as (s' & H & Mv & K & St); rewrite (bind_Done _ _ _ _ _ H); clear H.

(** The context reset of a stream. *)
Definition stream_start (rev : Z) (x : shared) : shared := waited_mt b (on_talk (talk_reset rev) (waited_mt b x)).

Lemma run_stream_reset st s :
  at_stage cfg st s ->
  exists s', stream_reset b s = Done tt s' /\ moves [] [] 0 s s' /\
    acts s s' (stream_start (reverse (process (cur s))) (shared_of s)) (report (cur s)) /\
    at_stage cfg st s'.
Proof.
  intros Hst. unfold stream_reset. run (run_wait_all st s Hst).
  unfold process_get_reverse, current_of. rewrite get_bind.
  destruct (run_update_locked b (talk_reset (reverse (process (cur s0)))) s0 (at_io _ _ _ St)) as (s1 & H1 & M1 & A1).
  rewrite (bind_Done _ _ _ _ _ H1). pose proof (acts_at _ _ _ _ _ _ _ _ St M1 A1) as St1.
  destruct (run_wait_all st s1 St1) as (s2 & H2 & M2 & A2 & St2).
  rewrite (same_process _ _ (acts_thread _ _ _ _ K)) in A1.
  pose proof (acts_seq (on_talk _) (fun r => r) _ _ _ _ _ K A1) as A01.
  pose proof (acts_seq (waited_mt b) (fun r => r) _ _ _ _ _ A01 A2) as A02.
  exists s2. split_and!; [done| |exact A02|done].
  eapply moves_conv; [eapply moves_trans; [exact Mv|eapply moves_trans; [exact M1|exact M2]]|done..].
Qed.

(** The packets of a stream. *)
Lemma run_send_packets n i s :
  at_stage cfg streaming s -> 0 <= i -> i + Z.of_nat n < 2 ^ 32 ->
  exists s', send_packets big b false 1432 n (m_run i) s = Done (Some (m_run (i + Z.of_nat n))) s' /\
    moves [] (stream_bytes (mt b) (worker_id (cur s)) (packets i n)) 0 s s' /\
    keeps s s' /\ at_stage cfg streaming s'.
Proof.
  revert i s. induction n as [|n IH]; intros i s Hst Hi Hn.
  - exists s. rewrite Z.add_0_r. split_and!; [done|by apply moves_refl, Hst|done|done].
  - cbn [send_packets]. rewrite ret_bind.
    destruct (other_send _ s (m_run i) Hst) as (s1 & H1 & M1 & K1 & St1); [done|apply m_run_ok; unfold unsigned; lia|].
    rewrite (bind_Done _ _ _ _ _ H1). change (Z.of_nat msg_size <? 0) with false. cbv iota.
    assert ((m_run i) {{ p_count ::= fun i => wrap 32 (i + 1) }} = m_run (i + 1)) as ->.
    { unfold m_run. simpl. rewrite wrap_small by (unfold unsigned; lia). done. }
    destruct (IH (i + 1) s1 St1) as (s' & H' & M' & K' & St'); [lia|lia|].
    exists s'. rewrite H'. split_and!; [| |by eapply keeps_trans|done].
    + do 3 f_equal. lia.
    + eapply moves_conv; [eapply moves_trans; [exact M1|exact M']|done| |done].
      rewrite packets_S, stream_bytes_cons. by rewrite (same_worker_id _ _ (acts_thread _ _ _ _ K1)).
Qed.

Lemma run_recv_packets n i0 len0 i m wid pkt rest s :
  at_stage cfg streaming s -> u64 wid -> 0 <= i -> i + Z.of_nat n < 2 ^ 32 ->
  0 <= len0 -> len0 + Z.of_nat n * 1432 < 2 ^ 64 ->
  rx_data (k_rx s) = stream_bytes m wid (packets i n) ++ rest ->
  exists s', recv_packets big b n i0 len0 pkt s =
      Done (i0 + Z.of_nat n, len0 + Z.of_nat n * 1432) s' /\
    moves (stream_bytes m wid (packets i n)) [] 0 s s' /\
    keeps s s' /\ at_stage cfg streaming s'.
Proof.
  revert i0 len0 i pkt s. induction n as [|n IH]; intros i0 len0 i pkt s Hst Hwid Hi Hn Hl0 Hl Hrx.
  - exists s. split_and!; [|by apply moves_refl, Hst|done|done]. cbn [recv_packets].
    unfold mret, M_ret. do 2 f_equal; lia.
  - rewrite packets_S, stream_bytes_cons, <- app_assoc in Hrx. cbn [recv_packets].
    destruct (other_recv _ s pkt m wid (m_run i) _ Hst ltac:(done)
      ltac:(apply m_run_ok; unfold unsigned; lia) Hwid eq_refl Hrx) as (p' & s1 & H1 & M1 & _ & K1 & St1 & Hrx1 & _).
    rewrite (bind_Done _ _ _ _ _ H1). cbv beta iota. change (Z.of_nat msg_size <? 0) with false. cbv iota.
    change (Z.of_nat msg_size) with 1432. rewrite wrap_small by (unfold unsigned; lia).
    destruct (IH (i0 + 1) (len0 + 1432) (i + 1) p' s1 St1) as (s' & H' & M' & K' & St'); try done; try lia.
    exists s'. rewrite H'. split_and!; [| |by eapply keeps_trans|done].
    + do 2 f_equal; lia.
    + eapply moves_conv; [eapply moves_trans; [exact M1|exact M']| |done..].
      by rewrite packets_S, stream_bytes_cons.
Qed.

(** ** One stream *)

(** The shared state after a stream of [t] microseconds: the reset, the end of the
    stream, and the mark of a weak one, each between barriers. *)
Definition stream_over (rev t : Z) (x : shared) : shared :=
  let x := waited_mt b x in
  waited_mt b (if weak cfg t then on_talk (talk_mark_weak rev t) x else x).

Definition after_stream (rev t : Z) (x : shared) : shared :=
  stream_over rev t (waited_async b cfg (waited_mt b (stream_start rev x))).

(** A worker had a weak stream. *)
Definition any_weak (x : shared) : bool := 0 <? talk_weak (fst x).

Lemma m_end_weak t : has_op UBWT_TALK_OP_STREAM_WEAK (m_end cfg t) = weak cfg t.
Proof. unfold m_end, weak. by destruct (_ <? _). Qed.

Lemma m_end_end t : has_op UBWT_TALK_OP_STREAM_END (m_end cfg t) = true.
Proof. unfold m_end. by destruct (_ <? _). Qed.

Lemma m_end_ff t : has_op UBWT_TALK_OP_FORCE_FAIL (m_end cfg t) = false.
Proof. unfold m_end. by destruct (_ <? _). Qed.

Lemma m_end_time t : weak cfg t = true -> p_weak_time (m_end cfg t) = t.
Proof. unfold m_end, weak. by intros ->. Qed.

Lemma run_when_weak st t rev s :
  at_stage cfg st s ->
  exists s', when (weak cfg t) (update_locked b (talk_mark_weak rev t)) s = Done tt s' /\
    moves [] [] 0 s s' /\
    acts s s' (if weak cfg t then on_talk (talk_mark_weak rev t) (shared_of s) else shared_of s)
      (report (cur s)) /\ at_stage cfg st s'.
Proof.
  intros Hst. unfold when. destruct (weak cfg t).
  - destruct (run_update_locked b (talk_mark_weak rev t) s (at_io _ _ _ Hst)) as (s' & H & M & A).
    exists s'. split_and!; [done|done|done|by eapply acts_at].
  - exists s. split_and!; [done|apply moves_refl, Hst|done|done].
Qed.

(** The end of both streams: the wait, the update and the result. *)
Lemma run_stream_end st t rev s :
  at_stage cfg st s ->
  exists s', (wait_all b ;; when (weak cfg t) (update_locked b (talk_mark_weak rev t)) ;;
              wait_all b ;; weak_result) s = Done (Zb (any_weak (stream_over rev t (shared_of s)))) s' /\
    moves [] [] 0 s s' /\ acts s s' (stream_over rev t (shared_of s)) (report (cur s)) /\ at_stage cfg st s'.
Proof.
  intros Hst. run (run_wait_all st s Hst).
  destruct (run_when_weak st t rev s0 St) as (s1 & H1 & M1 & A1 & St1).
  rewrite (bind_Done _ _ _ _ _ H1). run (run_wait_all st s1 St1).
  pose proof (acts_seq (fun x => if weak cfg t then on_talk (talk_mark_weak rev t) x else x) (fun r => r) _ _ _ _ _ K A1) as A01.
  pose proof (acts_seq (waited_mt b) (fun r => r) _ _ _ _ _ A01 K0) as A02.
  exists s2. split_and!; [|  |exact A02|done].
  - unfold weak_result, current_of. rewrite get_bind. unfold any_weak, stream_over.
    change (talk (cur s2)) with (fst (shared_of s2)). rewrite (acts_shared _ _ _ _ A02).
    by destruct (0 <? _).
  - eapply moves_conv; [eapply moves_trans; [exact Mv|eapply moves_trans; [exact M1|exact Mv0]]|done..].
Qed.

Lemma sender_stream_run s m wid c0 t rest C :
  at_stage cfg streaming s -> u64 wid -> u32 c0 -> u64 t -> 0 <= C < 2 ^ 32 ->
  rx_data (k_rx s) = stream_bytes m wid [m_start c0; m_end cfg t] ++ rest ->
  let x := after_stream (reverse (process (cur s))) t (shared_of s) in
  exists s', _talk_sender_stream big b C s = Done (Zb (any_weak x)) s' /\
    moves (stream_bytes m wid [m_start c0; m_end cfg t])
      (stream_bytes (mt b) (worker_id (cur s)) (packets 0 (Z.to_nat C))) 0 s s' /\
    acts s s' x (report (cur s)) /\ at_stage cfg streaming s'.
Proof.
  intros Hst Hwid Hc0 Ht HC Hrx x.
  rewrite !stream_bytes_cons, <- !app_assoc in Hrx. change (stream_bytes m wid []) with (@nil Z) in Hrx.
  rewrite app_nil_l in Hrx.
  unfold _talk_sender_stream, process_get_reverse, current_of. rewrite !get_bind.
  rewrite (at_config _ _ _ Hst), (talk_size _ Hs), (talk_nofill _ Hs). cbv zeta.
  destruct (other_recv _ s payload_zero m wid (m_start c0) _ Hst ltac:(done) ltac:(auto with ubwt) Hwid
    eq_refl Hrx) as (p1 & s1 & H1 & M1 & Hsame1 & K1 & St1 & Hrx1 & _).
  rewrite (bind_Done _ _ _ _ _ H1). cbv beta iota. change (Z.of_nat msg_size <? 0) with false. cbv iota.
  rewrite (has_op_same _ _ _ Hsame1). change (has_op UBWT_TALK_OP_STREAM_START (m_start c0)) with true.
  change (negb true) with false. cbv iota.
  destruct (run_stream_reset _ s1 St1) as (s2 & H2 & M2 & A2 & St2). rewrite (bind_Done _ _ _ _ _ H2).
  rewrite (same_process _ _ (acts_thread _ _ _ _ K1)) in A2. set (rev := reverse (process (cur s))) in *.
  pose proof (acts_seq (stream_start rev) (fun r => r) _ _ _ _ _ K1 A2) as A12.
  run (run_timeout _ (net_timeout_talk_stream_run cfg) s2 St2).
  change (truth 0) with false. change (set_op UBWT_TALK_OP_STREAM_RUN payload_zero) with (m_run 0).
  destruct (run_send_packets (Z.to_nat C) 0 s0 St) as (s3 & H3 & M3 & K3 & St3); [lia|lia|].
  rewrite (bind_Done _ _ _ _ _ H3). cbv iota.
  run (run_timeout _ (net_timeout_talk_stream_end cfg) s3 St3).
  pose proof (acts_keeps _ _ _ _ _ (acts_keeps _ _ _ _ _ (acts_keeps _ _ _ _ _ A12 K) K3) K0) as A4.
  run (run_wait_dir _ s4 St0). run (run_wait_async _ s5 St4).
  pose proof (acts_seq (waited_mt b) (fun r => r) _ _ _ _ _ A4 K2) as A5.
  pose proof (acts_seq (waited_async b cfg) (fun r => r) _ _ _ _ _ A5 K4) as A6.
  pose proof (moves_trans _ _ _ _ _ _ _ _ _ M2 (moves_trans _ _ _ _ _ _ _ _ _ Mv (moves_trans _ _ _ _ _ _ _ _ _ M3
    (moves_trans _ _ _ _ _ _ _ _ _ Mv0 (moves_trans _ _ _ _ _ _ _ _ _ Mv1 Mv2))))) as M26.
  assert (rx_data (k_rx s6) = msg_bytes m wid msg_size (m_end cfg t) ++ rest) as Hrx6
    by (rewrite <- Hrx1; apply (moves_nil_rx _ _ _ _ M26)).
  destruct (other_recv _ s6 (m_run (0 + Z.of_nat (Z.to_nat C))) m wid (m_end cfg t) _ St5 ltac:(done)
    ltac:(auto with ubwt) Hwid (m_end_ff t) Hrx6) as (p7 & s7 & H7 & M7 & Hsame7 & K7 & St7 & Hrx7 & _).
  rewrite (bind_Done _ _ _ _ _ H7). cbv beta iota. change (Z.of_nat msg_size <? 0) with false. cbv iota.
  rewrite !(has_op_same _ _ _ Hsame7), m_end_end, m_end_weak, (same_weak_time _ _ Hsame7).
  change (negb true) with false. cbv iota.
  run (run_timeout _ (net_timeout_default cfg) s7 St7).
  pose proof (acts_keeps _ _ _ _ _ (acts_keeps _ _ _ _ _ A6 K7) K5) as A8.
  destruct (run_stream_end _ t rev s8 St6) as (s9 & H9 & M9 & A9 & St9).
  pose proof (acts_seq (stream_over rev t) (fun r => r) _ _ _ _ _ A8 A9) as A. change (acts s s9 x (report (cur s))) in A.
  rewrite (acts_shared _ _ _ _ A8) in H9. change (stream_over rev t _) with x in H9.
  exists s9. split_and!; [|  |done|done].
  - rewrite <- H9. unfold mbind, M_bind. destruct (wait_all b s8) as [[] y| |]; try done.
    destruct (weak cfg t) eqn:Ew; [|done]. by rewrite (m_end_time t Ew).
  - assert (worker_id (cur s0) = worker_id (cur s)) as Ew.
    { rewrite (same_worker_id _ _ (acts_thread _ _ _ _ K)). apply (same_worker_id _ _ (acts_thread _ _ _ _ A12)). }
    rewrite Ew in M26.
    eapply moves_conv; [eapply moves_trans; [exact M1|eapply moves_trans; [exact M26|
      eapply moves_trans; [exact M7|eapply moves_trans; [exact Mv3|exact M9]]]]|..].
    + by rewrite !stream_bytes_cons, !app_nil_l, !app_nil_r.
    + by rewrite !app_nil_l, !app_nil_r.
    + done.
Qed.

Lemma run_time st s :
  at_stage cfg st s -> k_clock s (k_tick s) <> None ->
  exists s', datetime_now_us s = Done (clock_us (k_clock s) (k_tick s)) s' /\
    moves [] [] 1 s s' /\ keeps s s' /\ at_stage cfg st s'.
Proof.
  intros Hst Hclk. destruct (runs_time s (at_io _ _ _ Hst) Hclk) as (s' & [H S]).
  exists s'. split_and!; [done|by eapply step_moves|by eapply step_keeps|by eapply at_step].
Qed.

Lemma run_elapsed st s :
  at_stage cfg st s -> k_clock s (k_tick s) <> None ->
  exists s', current_time_elapsed s =
      Done (wrap 64 (clock_us (k_clock s) (k_tick s) - time_us_start (cur s))) s' /\
    moves [] [] 1 s s' /\ keeps s s' /\ at_stage cfg st s'.
Proof.
  intros Hst Hclk. destruct (run_time st s Hst Hclk) as (s1 & H1 & M1 & K1 & St1).
  unfold current_time_elapsed, current_time_now, current_update, current_time_start, current_of.
  rewrite bind_assoc, bind_assoc, (bind_Done _ _ _ _ _ H1).
  set (v := clock_us (k_clock s) (k_tick s)).
  destruct (runs_update_cur (fun c => c {{ time_us_now := v }}) s1 (at_io _ _ _ St1)) as [H2 S2].
  set (s2 := set_cur _ s1) in *.
  rewrite (bind_Done _ _ _ _ _ H2), !get_bind.
  assert (keeps s1 s2) as K2.
  { subst s2. clear. destruct s1 as [[] ? ? ? ? ? ? ? ? ? ?]. by repeat constructor. }
  assert (time_us_now (cur s2) = v) as -> by (subst s2; by destruct s1 as [[] ? ? ? ? ? ? ? ? ? ?]).
  assert (time_us_start (cur s2) = time_us_start (cur s)) as ->.
  { rewrite (same_start _ _ (acts_thread _ _ _ _ K2)). apply (same_start _ _ (acts_thread _ _ _ _ K1)). }
  exists s2. split; [done|]. assert (moves [] [] 1 s s2) as M.
  { eapply moves_conv; [eapply moves_trans; [exact M1|by eapply step_moves]|done..]. }
  assert (keeps s s2) as K by (by eapply keeps_trans).
  split_and!; [done|done|]. eapply moves_at; [exact Hst|exact M|exact K].
Qed.

(** The report of a stream of [n] packets that starts at [t0] and lasts [t]. *)
Definition stream_report (t0 t n : Z) (r : ubwt_report) : ubwt_report :=
  report_talk_stream_recv_bytes_set (n * 1432) (report_talk_stream_recv_pkts_set n
    (report_talk_stream_time_duration_set t (report_talk_stream_time_start_set t0 r))).

Lemma receiver_stream_run s m wid rest C :
  at_stage cfg streaming s -> u64 wid -> 0 <= C < 2 ^ 32 -> clock_ok (k_clock s) ->
  0 <= time_us_start (cur s) < clock_us (k_clock s) (k_tick s) ->
  rx_data (k_rx s) = stream_bytes m wid (packets 0 (Z.to_nat C)) ++ rest ->
  let t0 := clock_us (k_clock s) (k_tick s) in
  let t := clock_us (k_clock s) (S (k_tick s)) - t0 in
  let x := after_stream (reverse (process (cur s))) t (shared_of s) in
  exists s', _talk_receiver_stream big b C s = Done (Zb (any_weak x)) s' /\
    moves (stream_bytes m wid (packets 0 (Z.to_nat C)))
      (stream_bytes (mt b) (worker_id (cur s)) [m_start C; m_end cfg t]) 3 s s' /\
    acts s s' x (stream_report t0 t C (report (cur s))) /\
    at_stage cfg streaming s'.
Proof.
  intros Hst Hwid HC Hclk Hstart Hrx t0 t x.
  unfold _talk_receiver_stream, process_get_reverse, current_of. rewrite !get_bind.
  rewrite (at_config _ _ _ Hst). fold (m_start C).
  destruct (other_send _ s (m_start C) Hst) as (s1 & H1 & M1 & K1 & St1); [done|auto with ubwt|].
  rewrite (bind_Done _ _ _ _ _ H1). change (Z.of_nat msg_size <? 0) with false. cbv iota.
  destruct (run_stream_reset _ s1 St1) as (s2 & H2 & M2 & A2 & St2). rewrite (bind_Done _ _ _ _ _ H2).
  rewrite (same_process _ _ (acts_thread _ _ _ _ K1)) in A2. set (rev := reverse (process (cur s))) in *.
  pose proof (acts_seq (stream_start rev) (fun r => r) _ _ _ _ _ K1 A2) as A12.
  pose proof (moves_trans _ _ _ _ _ _ _ _ _ M1 M2) as M12.
  destruct (moves_clock _ _ _ _ _ M12) as [Hc2 Ht2]. rewrite Nat.add_0_r in Ht2.
  destruct (run_time _ s2 St2) as (s3 & H3 & M3 & K3 & St3); [rewrite Hc2; by apply clock_some|].
  rewrite (bind_Done _ _ _ _ _ H3), Hc2, Ht2. fold t0.
  destruct (run_report (report_talk_stream_time_start_set t0) s3 (at_io _ _ _ St3)) as (s4 & H4 & M4 & A4).
  rewrite (bind_Done _ _ _ _ _ H4). pose proof (acts_at _ _ _ _ _ _ _ _ St3 M4 A4) as St4.
  run (run_timeout _ (net_timeout_talk_stream_run cfg) s4 St4).
  pose proof (acts_keeps _ _ _ _ _ (acts_seq (fun x => x) (report_talk_stream_time_start_set t0) _ _ _ _ _
    (acts_keeps _ _ _ _ _ A12 K3) A4) K) as A5.
  pose proof (moves_trans _ _ _ _ _ _ _ _ _ M12 (moves_trans _ _ _ _ _ _ _ _ _ M3
    (moves_trans _ _ _ _ _ _ _ _ _ M4 Mv))) as M15.
  assert (rx_data (k_rx s0) = stream_bytes m wid (packets 0 (Z.to_nat C)) ++ rest) as Hrx5.
  { rewrite <- Hrx. apply (moves_nil_rx _ _ _ _ M15). }
  destruct (run_recv_packets (Z.to_nat C) 0 0 0 m wid payload_zero rest s0 St Hwid ltac:(lia) ltac:(lia)
    ltac:(lia) ltac:(lia) Hrx5) as (s6 & H6 & M6 & K6 & St6).
  rewrite (bind_Done _ _ _ _ _ H6). cbv beta iota. rewrite !Z.add_0_l, Z2Nat.id by lia.
  run (run_timeout _ (net_timeout_talk_stream_end cfg) s6 St6).
  run (run_wait_dir _ s5 St0).
  pose proof (acts_seq (waited_mt b) (fun r => r) _ _ _ _ _ (acts_keeps _ _ _ _ _ (acts_keeps _ _ _ _ _ A5 K6) K0) K2) as A7.
  pose proof (moves_trans _ _ _ _ _ _ _ _ _ M15 (moves_trans _ _ _ _ _ _ _ _ _ M6
    (moves_trans _ _ _ _ _ _ _ _ _ Mv0 Mv1))) as M18.
  destruct (moves_clock _ _ _ _ _ M18) as [Hc8 Ht8].
  destruct (run_time _ s7 St5) as (s8 & H8 & M8 & K8 & St8); [rewrite Hc8; by apply clock_some|].
  rewrite (bind_Done _ _ _ _ _ H8), Hc8, Ht8. rewrite Z.eqb_refl, Z.sub_0_r.
  replace (k_tick s + (0 + 0 + (1 + (0 + 0)) + (0 + (0 + 0))))%nat with (S (k_tick s)) by lia.
  subst t0. rewrite wrap_difference by done. fold t.
  pose proof (moves_trans _ _ _ _ _ _ _ _ _ M18 M8) as M19.
  destruct (moves_clock _ _ _ _ _ M19) as [Hc9 Ht9].
  destruct (run_elapsed _ s8 St8) as (s9 & H9 & M9 & K9 & St9); [rewrite Hc9; by apply clock_some|].
  rewrite (bind_Done _ _ _ _ _ H9), Hc9, Ht9.
  set (t0 := clock_us (k_clock s) (k_tick s)) in *.
  pose proof (acts_keeps _ _ _ _ _ (acts_keeps _ _ _ _ _ A7 K8) K9) as A9.
  pose proof (acts_keeps _ _ _ _ _ A7 K8) as A8. rewrite (same_start _ _ (acts_thread _ _ _ _ A8)).
  pose proof (clock_mono _ Hclk (k_tick s)) as Hm1. pose proof (clock_mono _ Hclk (S (k_tick s))) as Hm2.
  pose proof (clock_range _ Hclk (S (S (k_tick s)))) as Hr3.
  replace (k_tick s + (0 + 0 + (1 + (0 + 0)) + (0 + (0 + 0)) + 1))%nat with (S (S (k_tick s))) by lia.
  rewrite (wrap_small 64 (clock_us (k_clock s) (S (S (k_tick s))) - time_us_start (cur s)))
    by (unfold unsigned; fold t0 in Hm1; lia).
  rewrite massert_bind_true by (apply Z.ltb_lt; subst t; fold t0 in Hm1; lia).
  destruct (run_wait_async _ s9 St9) as (s10 & H10 & M10 & A10 & St10). rewrite (bind_Done _ _ _ _ _ H10).
  pose proof (acts_seq (waited_async b cfg) (fun r => r) _ _ _ _ _ A9 A10) as B10.
  destruct (run_report (report_talk_stream_time_duration_set t) s10 (at_io _ _ _ St10)) as (s11 & H11 & M11 & A11).
  rewrite (bind_Done _ _ _ _ _ H11). pose proof (acts_at _ _ _ _ _ _ _ _ St10 M11 A11) as St11.
  pose proof (acts_seq (fun x => x) (report_talk_stream_time_duration_set t) _ _ _ _ _ B10 A11) as B11.
  destruct (run_report (report_talk_stream_recv_pkts_set C) s11 (at_io _ _ _ St11)) as (s12 & H12 & M12' & A12').
  rewrite (bind_Done _ _ _ _ _ H12). pose proof (acts_at _ _ _ _ _ _ _ _ St11 M12' A12') as St12.
  pose proof (acts_seq (fun x => x) (report_talk_stream_recv_pkts_set C) _ _ _ _ _ B11 A12') as B12.
  destruct (run_report (report_talk_stream_recv_bytes_set (C * 1432)) s12 (at_io _ _ _ St12)) as (s13 & H13 & M13 & A13).
  rewrite (bind_Done _ _ _ _ _ H13). pose proof (acts_at _ _ _ _ _ _ _ _ St12 M13 A13) as St13.
  pose proof (acts_seq (fun x => x) (report_talk_stream_recv_bytes_set (C * 1432)) _ _ _ _ _ B12 A13) as B13.
  cbv zeta. fold (m_end cfg t).
  assert (u64 t) as Hut by (subst t; unfold unsigned; fold t0 in Hm1; lia).
  destruct (other_send _ s13 (m_end cfg t) St13) as (s14 & H14 & M14 & K14 & St14); [done|auto with ubwt|].
  rewrite (bind_Done _ _ _ _ _ H14). change (Z.of_nat msg_size <? 0) with false. cbv iota.
  destruct (run_timeout _ (net_timeout_default cfg) s14 St14) as (s15 & H15 & M15' & K15 & St15).
  rewrite (bind_Done _ _ _ _ _ H15), m_end_weak.
  pose proof (acts_keeps _ _ _ _ _ (acts_keeps _ _ _ _ _ B13 K14) K15) as B15.
  destruct (run_stream_end _ t rev s15 St15) as (s16 & H16 & M16 & A16 & St16).
  pose proof (acts_seq (stream_over rev t) (fun r => r) _ _ _ _ _ B15 A16) as B16.
  change (acts s s16 x (stream_report t0 t C (report (cur s)))) in B16.
  rewrite (acts_shared _ _ _ _ B15) in H16. change (stream_over rev t _) with x in H16.
  exists s16. split_and!; [exact H16| |done|done].
  rewrite (same_worker_id _ _ (acts_thread _ _ _ _ B13)) in M14.
  eapply moves_conv; [eapply moves_trans; [exact M19|eapply moves_trans; [exact M9|eapply moves_trans; [exact M10|
    eapply moves_trans; [exact M11|eapply moves_trans; [exact M12'|eapply moves_trans; [exact M13|
    eapply moves_trans; [exact M14|eapply moves_trans; [exact M15'|exact M16]]]]]]]]|..].
  - by rewrite !app_nil_l, !app_nil_r.
  - by rewrite !stream_bytes_cons, !app_nil_l, !app_nil_r.
  - done.
Qed.

End rounds.
