(* ===== verification/TalkComplete.v ===== *)
(** The whole talk: the sequence of rounds, the exchange of the report and the
    theorem that the two ends complete and agree. *)

From S2P Require Import Prelude Bitops Errors Byteorder Layout ConfigData Usage Double Report Stage Thread Config ConfigSpec Conn Net NetSpec Talk TalkSpec TalkRounds.

(** ** The specification *)

(** The rounds of a talk, each with its number of packets and the duration of its
    stream; the messages they make in each direction. *)
Fixpoint sender_rounds_msgs (lat : Z) (rs : list (Z * Z)) : list ubwt_talk_payload_t :=
  match rs with
  | [] => []
  | (C, _) :: rs => m_negotiate C lat :: packets 0 (Z.to_nat C) ++ sender_rounds_msgs lat rs
  end.

Fixpoint receiver_rounds_msgs (cfg : ubwt_config) (rs : list (Z * Z)) : list ubwt_talk_payload_t :=
  match rs with
  | [] => []
  | (C, t) :: rs => m_start C :: m_end cfg t :: receiver_rounds_msgs cfg rs
  end.

Fixpoint last_round (rs : list (Z * Z)) : Z * Z :=
  match rs with
  | [] => (0, 0)
  | [r] => r
  | _ :: rs => last_round rs
  end.

(** What the worker decides on the state of the contexts after a stream, and what
    becomes of them between two rounds. *)
Section decisions.
Context (b : build) (cfg : ubwt_config) (rev : Z).

Definition count_of (x : shared) : Z := talk_ctx_count (talk_ctx rev (fst x)).

Definition restarts (tk : talk_shared) : bool :=
  if mt b then
    if truth (asynchronous cfg) then
      (im_weak (talk_straight tk) =? worker_count cfg / 2) || (im_weak (talk_reverse tk) =? worker_count cfg / 2)
    else im_weak (talk_ctx rev tk) =? worker_count cfg
  else truth (im_weak (talk_ctx rev tk)).

Definition again (x : shared) : bool := any_weak x && restarts (fst x).

Definition recounts (tk : talk_shared) : bool :=
  im_weak (talk_ctx rev tk) =? worker_count cfg / (1 + asynchronous cfg).

Definition recount : talk_shared -> talk_shared :=
  talk_ctx_update rev (fun c => c {{ talk_ctx_count := weak_count cfg (weak_time c) (talk_ctx_count c) }}).

(** The serial worker computes the new count. *)
Definition restarted (x : shared) : shared :=
  if mt b then
    let y := waited x in
    waited (if is_serial x && recounts (fst y) then on_talk recount y else y)
  else on_talk recount x.

(** The rounds that a sender goes through from the shared state [x], and a receiver:
    another follows when the worker decides to restart. *)
Inductive sender_session : shared -> list (Z * Z) -> Prop :=
| sender_last x C t :
    count_of x = C -> 0 < C < 1000000000 -> u64 t -> again (after_stream b cfg rev t x) = false ->
    sender_session x [(C, t)]
| sender_again x C t rs :
    count_of x = C -> 0 < C < 1000000000 -> u64 t -> again (after_stream b cfg rev t x) = true ->
    100 <= count_of (restarted (after_stream b cfg rev t x)) ->
    sender_session (restarted (after_stream b cfg rev t x)) rs ->
    sender_session x ((C, t) :: rs).

Inductive receiver_session : shared -> list (Z * Z) -> Prop :=
| receiver_last x C t :
    0 < C < 1000000000 -> u64 t -> again (after_stream b cfg rev t x) = false -> receiver_session x [(C, t)]
| receiver_again x C t rs :
    0 < C < 1000000000 -> u64 t -> again (after_stream b cfg rev t x) = true ->
    receiver_session (after_stream b cfg rev t x) rs -> receiver_session x ((C, t) :: rs).

Lemma sender_session_count x rs : sender_session x rs -> 0 < count_of x < 1000000000.
Proof. by destruct 1; subst. Qed.

End decisions.

(** The durations are those a clock measures from reading [tick] on. *)
Fixpoint timed (clk : nat -> option (Z * Z)) (tick : nat) (ts : list Z) : Prop :=
  match ts with
  | [] => True
  | t :: ts => t = clock_us clk (S tick) - clock_us clk tick /\ timed clk (tick + 3) ts
  end.

(** When the last stream starts. *)
Definition last_start (clk : nat -> option (Z * Z)) (tick : nat) (ts : list Z) : Z :=
  clock_us clk (tick + 3 * (length ts - 1)).

(** What a step makes of the thread, the stage excepted. *)
Record sets (s s' : thread) (x : shared) (rp : ubwt_report) : Prop := {
  sets_thread : same_thread (cur s) (cur s');
  sets_shared : shared_of s' = x;
  sets_report : report (cur s') = rp
}.

Lemma acts_sets s s' x rp : acts s s' x rp -> sets s s' x rp.
Proof. by intros [? _ ? ?]. Qed.

Lemma sets_trans s s' s'' x rp x' rp' : sets s s' x rp -> sets s' s'' x' rp' -> sets s s'' x' rp'.
Proof. intros [T _ _] [T' ? ?]. constructor; [by eapply same_thread_trans|congruence..]. Qed.

(** A part that makes [F] of the shared state and [G] of the report, after another. *)
Lemma sets_seq F G s s1 s2 x rp :
  sets s s1 x rp -> sets s1 s2 (F (shared_of s1)) (G (report (cur s1))) -> sets s s2 (F x) (G rp).
Proof. intros H1 H2. eapply sets_trans; [exact H1|]. by destruct H1 as [_ <- <-]. Qed.

Lemma sets_keeps s s' s'' x rp : sets s s' x rp -> keeps s' s'' -> sets s s'' x rp.
Proof. intros H K. by eapply (sets_seq (fun x => x) (fun r => r)), acts_sets. Qed.

(** The talk updates the selected result only. *)
Definition other_result (r : ubwt_report) : ubwt_report_result :=
  match result r with ResultReverse => results0 r | _ => results1 r end.

Definition same_side (r r' : ubwt_report) : Prop :=
  result r' = result r /\ other_result r' = other_result r.

Lemma same_side_trans r r' r'' : same_side r r' -> same_side r' r'' -> same_side r r''.
Proof. intros [? ?] [? ?]. split; congruence. Qed.

Lemma same_side_update f r : same_side r (report_update_collected f r).
Proof. destruct r as [? [] ? ?]; done. Qed.

Section complete.
Context {P : list sync -> Prop} {HP : Tailed P}.
Context (big : bool) (b : build) (cfg : ubwt_config).
Context (Hs : tcp_talk cfg).

Abbreviation at_stage := (at_stage (P := P)).
Abbreviation moves := (moves (P := P)).

Lemma run_stage_set st st' fl s :
  at_stage cfg st s ->
  exists s', t_stage_set st' fl s = Done tt s' /\ moves [] [] 0 s s' /\
    sets s s' (shared_of s) (report (cur s)) /\ at_stage cfg st' s'.
Proof.
  intros [Hio Hc Hw _].
  destruct (runs_update_cur (fun c => c {{ stage ::= fun x => fst (stage_set st' fl x) }}) s Hio) as [H S].
  eexists. split; [exact H|]. split; [by eapply step_moves|].
  destruct s as [[? ? ? ? stg ? ? ? ? ? ? ?] ? ? ? ? ? ? ? ? ? ?]. split; [by repeat constructor|].
  constructor; simpl in *; [apply S|done|done|].
  unfold stage_set. destruct stg. simpl. by destruct (truth _).
Qed.

Lemma run_stage_reset st s :
  at_stage cfg st s ->
  exists s', t_stage_reset s = Done tt s' /\ moves [] [] 0 s s' /\
    sets s s' (shared_of s) (report (cur s)) /\ at_stage cfg UBWT_STAGE_STATE_NONE s'.
Proof.
  intros [Hio Hc Hw _].
  destruct (runs_update_cur (fun c => c {{ stage ::= stage_reset }}) s Hio) as [H S].
  eexists. split; [exact H|]. split; [by eapply step_moves|].
  destruct s as [[] ? ? ? ? ? ? ? ? ? ?]. split; [by repeat constructor|].
  constructor; simpl in *; [apply S|done..].
Qed.

(** The decisions of the code are those of the specification. *)
Lemma run_needs_restart st s :
  at_stage cfg st s ->
  _talk_weak_stream_needs_restart b s =
    Done (restarts b cfg (reverse (process (cur s))) (fst (shared_of s))) s.
Proof.
  intros Hst. unfold _talk_weak_stream_needs_restart, restarts. rewrite get_bind, (at_config _ _ _ Hst).
  destruct (mt b); [by destruct (truth _)|done].
Qed.

Lemma run_needs_recount st s :
  at_stage cfg st s ->
  _talk_weak_stream_needs_recount s = Done (recounts cfg (reverse (process (cur s))) (fst (shared_of s))) s.
Proof.
  intros Hst. unfold _talk_weak_stream_needs_recount, recounts. by rewrite get_bind, (at_config _ _ _ Hst).
Qed.

Lemma run_talk_count s :
  talk_count_of s = Done (count_of (reverse (process (cur s))) (shared_of s)) s.
Proof. reflexivity. Qed.

Ltac run L := let s' := fresh "s" in let H := fresh "H" in let Mv := fresh "Mv" in
  let K := fresh "K" in let St := fresh "St" in
  destruct L as (s' & H & Mv & K & St); rewrite (bind_Done _ _ _ _ _ H); clear H.

Lemma run_recount s :
  at_stage cfg streaming s ->
  exists s', weak_recount s = Done tt s' /\ moves [] [] 0 s s' /\
    acts s s' (on_talk (recount cfg (reverse (process (cur s)))) (shared_of s)) (report (cur s)) /\
    at_stage cfg streaming s'.
Proof.
  intros Hst. unfold weak_recount, process_get_reverse, current_of.
  rewrite !get_bind, (at_config _ _ _ Hst).
  match goal with |- context [update_talk ?f] =>
    destruct (run_update_talk f s (at_io _ _ _ Hst)) as (s' & H & M & A) end.
  exists s'. split_and!; [exact H|exact M|exact A|by eapply acts_at].
Qed.

(** The first barrier of a restart, and the serial worker's work. *)
Definition recounted (rev : Z) (x : shared) : shared :=
  if mt b then
    let y := waited x in
    if is_serial x && recounts cfg rev (fst y) then on_talk (recount cfg rev) y else y
  else on_talk (recount cfg rev) x.

Lemma run_recounted s :
  at_stage cfg streaming s ->
  exists s', (if mt b then
     serial ← wait_direction;
     recount ← (if (serial : bool) then _talk_weak_stream_needs_recount else mret false);
     when recount weak_recount
   else weak_recount) s = Done tt s' /\ moves [] [] 0 s s' /\
    acts s s' (recounted (reverse (process (cur s))) (shared_of s)) (report (cur s)) /\
    at_stage cfg streaming s'.
Proof.
  intros Hst. unfold recounted. destruct (mt b); [|by apply run_recount].
  run (at_barrier_at cfg _ _ _ _ s Hst (wait_direction_run s (at_io _ _ _ Hst))).
  pose proof (same_process _ _ (acts_thread _ _ _ _ K)) as Ep.
  destruct (is_serial (shared_of s)); cbn [andb].
  - rewrite (bind_Done _ _ _ _ _ (run_needs_recount _ s0 St)), Ep, (acts_shared _ _ _ _ K).
    cbv zeta. destruct (recounts _ _ _); cbn [when].
    + destruct (run_recount s0 St) as (s1 & H1 & M1 & A1 & St1). rewrite Ep in A1.
      exists s1. split_and!; [done| |by eapply (acts_seq (on_talk _) (fun r => r))|done].
      eapply moves_conv; [eapply moves_trans; [exact Mv|exact M1]|done..].
    + by exists s0.
  - rewrite ret_bind. by exists s0.
Qed.

(** Between two rounds. *)
Lemma run_sender_restart s :
  at_stage cfg streaming s ->
  let x := restarted b cfg (reverse (process (cur s))) (shared_of s) in
  100 <= count_of (reverse (process (cur s))) x <= 1000000000 ->
  exists s', sender_restart b s = Done tt s' /\ moves [] [] 0 s s' /\
    acts s s' x (report (cur s)) /\ at_stage cfg streaming s'.
Proof.
  intros Hst x Hcount. unfold sender_restart.
  run (run_recounted s Hst). run (run_wait_dir b cfg _ s0 St).
  pose proof (acts_seq (waited_mt b) (fun r => r) _ _ _ _ _ K K0) as A.
  assert (waited_mt b (recounted (reverse (process (cur s))) (shared_of s)) = x) as Ex.
  { subst x. unfold waited_mt, recounted, restarted. by destruct (mt b). }
  rewrite Ex in A. unfold current_of. rewrite get_bind, (bind_Done _ _ _ _ _ (run_talk_count s1)).
  rewrite (acts_shared _ _ _ _ A), (same_process _ _ (acts_thread _ _ _ _ A)).
  rewrite (at_config _ _ _ St0), (talk_max _ Hs), (talk_default _ Hs).
  rewrite !massert_bind_true by (apply Z.leb_le; lia).
  destruct (run_stage_inc cfg _ no_show s1 St0) as (s2 & H2 & M2 & K2).
  exists s2. split_and!; [done| |by eapply acts_keeps|by eapply moves_at].
  eapply moves_conv; [eapply moves_trans; [exact Mv|eapply moves_trans; [exact Mv0|exact M2]]|done..].
Qed.

(** ** The rounds of the sender *)

Lemma latency_set_count c r : report_talk_latency_get (report_talk_count_set c r) = report_talk_latency_get r.
Proof. destruct r as [? [] [[]] [[]]]; reflexivity. Qed.

Lemma other_ne_hs : UBWT_STAGE_STATE_RUNTIME_TALK_NEGOTIATION <> hs.
Proof. discriminate. Qed.

(** One round of the sender, up to the decision. *)
Lemma sender_round st s fuel lat m wid rest C t :
  at_stage cfg st s -> u32 lat -> u64 wid -> 0 < C < 1000000000 -> u64 t ->
  let rev := reverse (process (cur s)) in
  let x := after_stream b cfg rev t (shared_of s) in
  count_of rev (shared_of s) = C ->
  report_talk_latency_get (report (cur s)) = lat ->
  rx_data (k_rx s) = stream_bytes m wid [m_start C; m_end cfg t] ++ rest ->
  exists s', sender_rounds big b (S fuel) s =
      (if again b cfg rev x then (sender_restart b ;; sender_rounds big b fuel) s' else Done tt s') /\
    moves (stream_bytes m wid [m_start C; m_end cfg t])
      (stream_bytes (mt b) (worker_id (cur s)) (m_negotiate C lat :: packets 0 (Z.to_nat C))) 0 s s' /\
    sets s s' x (report_talk_count_set C (report (cur s))) /\ at_stage cfg streaming s'.
Proof.
  intros Hst Hlat Hwid HC Ht rev x Hcount Hlatency Hrx. cbn [sender_rounds].
  assert (forall rp s', sets s s' (shared_of s) rp -> talk_count_of s' = Done C s') as Hcnt.
  { intros rp s' [T X _]. rewrite run_talk_count, X, (same_process _ _ T). by rewrite <- Hcount. }
  run (run_stage_set st UBWT_STAGE_STATE_RUNTIME_TALK_NEGOTIATION no_reset s Hst).
  rewrite (bind_Done _ _ _ _ _ (Hcnt _ _ K)). unfold current_of. rewrite get_bind, (sets_report _ _ _ _ K), Hlatency.
  rewrite (wrap_small 32 C) by (unfold unsigned; lia).
  unfold _talk_sender_negotiate. fold (m_negotiate C lat). cbv zeta. rewrite bind_assoc.
  destruct (other_send big b cfg Hs _ s0 (m_negotiate C lat) St other_ne_hs) as (s1 & H1 & M1 & K1 & St1);
    [apply m_negotiate_ok; [unfold unsigned; lia|done]|].
  rewrite (bind_Done _ _ _ _ _ H1). change (Z.of_nat msg_size <? 0) with false. cbv iota. rewrite ret_bind.
  change (0 <? 0) with false. cbv iota.
  pose proof (sets_keeps _ _ _ _ _ K K1) as A1. rewrite (bind_Done _ _ _ _ _ (Hcnt _ _ A1)).
  destruct (run_report (report_talk_count_set C) s1 (at_io _ _ _ St1)) as (s2 & H2 & M2 & A2).
  rewrite (bind_Done _ _ _ _ _ H2). pose proof (acts_at cfg _ _ _ _ _ _ _ _ St1 M2 A2) as St2.
  pose proof (sets_seq (fun x => x) (report_talk_count_set C) _ _ _ _ _ A1 (acts_sets _ _ _ _ A2)) as A12.
  run (run_stage_set _ UBWT_STAGE_STATE_RUNTIME_TALK_STREAM no_reset s2 St2).
  pose proof (sets_seq (fun x => x) (fun r => r) _ _ _ _ _ A12 K0) as A3. cbv beta in A3.
  rewrite (bind_Done _ _ _ _ _ (Hcnt _ _ A3)). rewrite (wrap_small 32 C) by (unfold unsigned; lia).
  assert (rx_data (k_rx s3) = stream_bytes m wid [m_start C; m_end cfg t] ++ rest) as Hrx3.
  { rewrite <- Hrx. rewrite (moves_nil_rx _ _ _ _ Mv0), (moves_nil_rx _ _ _ _ M2), (moves_nil_rx _ _ _ _ M1).
    apply (moves_nil_rx _ _ _ _ Mv). }
  destruct (sender_stream_run big b cfg Hs s3 m wid C t rest C St0 Hwid ltac:(unfold unsigned; lia) Ht
    ltac:(lia) Hrx3) as (s4 & H4 & M4 & A4 & St4).
  rewrite (bind_Done _ _ _ _ _ H4).
  rewrite (same_process _ _ (sets_thread _ _ _ _ A3)), (sets_shared _ _ _ _ A3). fold rev. fold x.
  rewrite (same_process _ _ (sets_thread _ _ _ _ A3)) in A4. fold rev in A4.
  pose proof (sets_seq (after_stream b cfg rev t) (fun r => r) _ _ _ _ _ A3 (acts_sets _ _ _ _ A4)) as A5. fold x in A5.
  exists s4. split_and!; [|  |done|done].
  - unfold again. destruct (any_weak x); [|done]. change (truth (Zb true)) with true.
    change (Zb true <? 0) with false. cbv iota. cbn [andb].
    rewrite (bind_Done _ _ _ _ _ (run_needs_restart _ s4 St4)).
    rewrite (sets_shared _ _ _ _ A5), (same_process _ _ (sets_thread _ _ _ _ A5)). fold rev.
    by destruct (restarts _ _ _ _).
  - rewrite (same_worker_id _ _ (sets_thread _ _ _ _ A3)) in M4. rewrite (same_worker_id _ _ (sets_thread _ _ _ _ K)) in M1.
    eapply moves_conv; [eapply moves_trans; [exact Mv|eapply moves_trans; [exact M1|eapply moves_trans; [exact M2|
      eapply moves_trans; [exact Mv0|exact M4]]]]|..]; try done.
Qed.

Lemma sender_rounds_run rev x rs :
  sender_session b cfg rev x rs ->
  forall fuel st s lat m wid rest,
  (length rs <= fuel)%nat -> at_stage cfg st s -> u32 lat -> u64 wid ->
  reverse (process (cur s)) = rev -> shared_of s = x ->
  report_talk_latency_get (report (cur s)) = lat ->
  rx_data (k_rx s) = stream_bytes m wid (receiver_rounds_msgs cfg rs) ++ rest ->
  exists s', sender_rounds big b fuel s = Done tt s' /\
    moves (stream_bytes m wid (receiver_rounds_msgs cfg rs))
      (stream_bytes (mt b) (worker_id (cur s)) (sender_rounds_msgs lat rs)) 0 s s' /\
    at_stage cfg streaming s' /\ same_thread (cur s) (cur s') /\
    same_side (report (cur s)) (report (cur s')).
Proof.
  induction 1 as [x C t Hcount HC Ht Hagain|x C t rs Hcount HC Ht Hagain Hmin Hsess IH];
    intros [|fuel] st s lat m wid rest Hfuel Hst Hlat Hwid Hrev Hx Hlatency Hrx; try (simpl in Hfuel; lia).
  - destruct (sender_round st s fuel lat m wid rest C t) as (s' & H & M & A & St);
      rewrite ?Hrev, ?Hx in *; try done.
    rewrite Hagain in H. exists s'. split_and!; [done| |done|apply A|].
    + cbn [receiver_rounds_msgs sender_rounds_msgs]. by rewrite app_nil_r.
    + rewrite (sets_report _ _ _ _ A). apply same_side_update.
  - cbn [receiver_rounds_msgs] in Hrx.
    change (m_start C :: m_end cfg t :: ?x) with ([m_start C; m_end cfg t] ++ x) in Hrx.
    rewrite stream_bytes_app, <- app_assoc in Hrx.
    destruct (sender_round st s fuel lat m wid _ C t Hst Hlat Hwid HC Ht ltac:(by rewrite Hrev, Hx) Hlatency Hrx)
      as (s1 & H1 & M1 & A1 & St1). rewrite Hrev, Hx in H1, A1. rewrite Hagain in H1. rewrite H1.
    pose proof (sender_session_count _ _ _ _ _ Hsess) as HC'.
    pose proof (run_sender_restart s1 St1) as R. cbv zeta in R.
    rewrite (sets_shared _ _ _ _ A1), (same_process _ _ (sets_thread _ _ _ _ A1)), Hrev in R.
    destruct R as (s2 & H2 & M2 & A2 & St2); [lia|].
    rewrite (bind_Done _ _ _ _ _ H2).
    pose proof (moves_rx _ _ _ _ _ _ M1 Hrx) as Hrx1.
    pose proof (same_thread_trans _ _ _ (sets_thread _ _ _ _ A1) (acts_thread _ _ _ _ A2)) as T2.
    destruct (IH fuel streaming s2 lat m wid rest) as (s' & H' & M' & St' & T' & R'); try done.
    + simpl in Hfuel. lia.
    + by rewrite (same_process _ _ T2).
    + apply A2.
    + rewrite (acts_report _ _ _ _ A2), (sets_report _ _ _ _ A1). by rewrite latency_set_count.
    + by rewrite (moves_nil_rx _ _ _ _ M2).
    + exists s'. split_and!; [done| |done|by eapply same_thread_trans|].
      * rewrite (same_worker_id _ _ T2) in M'.
        eapply moves_conv; [eapply moves_trans; [exact M1|eapply moves_trans; [exact M2|exact M']]|..]; [| |done];
          by rewrite app_nil_l, <- stream_bytes_app.
      * rewrite (acts_report _ _ _ _ A2), (sets_report _ _ _ _ A1) in R'.
        eapply same_side_trans; [apply same_side_update|exact R'].
Qed.

(** ** The rounds of the receiver *)

(** The receiver's report after a round. *)
Definition round_report (lat C t0 t : Z) (r : ubwt_report) : ubwt_report :=
  stream_report t0 t C (report_talk_latency_set lat (report_talk_count_set C r)).

(** One round of the receiver, up to the decision. *)
Lemma receiver_round st s fuel lat m wid rest C :
  at_stage cfg st s -> u32 lat -> u64 wid -> 0 < C < 1000000000 -> st <> hs ->
  clock_ok (k_clock s) -> 0 <= time_us_start (cur s) < clock_us (k_clock s) (k_tick s) ->
  rx_data (k_rx s) = stream_bytes m wid (m_negotiate C lat :: packets 0 (Z.to_nat C)) ++ rest ->
  let t0 := clock_us (k_clock s) (k_tick s) in
  let t := clock_us (k_clock s) (S (k_tick s)) - t0 in
  let rev := reverse (process (cur s)) in
  let x := after_stream b cfg rev t (shared_of s) in
  exists s', receiver_rounds big b (S fuel) s =
      (if again b cfg rev x then (t_stage_inc no_show ;; receiver_rounds big b fuel) s' else Done tt s') /\
    moves (stream_bytes m wid (m_negotiate C lat :: packets 0 (Z.to_nat C)))
      (stream_bytes (mt b) (worker_id (cur s)) [m_start C; m_end cfg t]) 3 s s' /\
    sets s s' x (round_report lat C t0 t (report (cur s))) /\ at_stage cfg streaming s'.
Proof.
  intros Hst Hlat Hwid HC Hne Hclk Hstart Hrx t0 t rev x. cbn [receiver_rounds].
  run (run_stage_set st UBWT_STAGE_STATE_RUNTIME_TALK_NEGOTIATION no_reset s Hst).
  rewrite stream_bytes_cons, <- app_assoc in Hrx. rewrite <- (moves_nil_rx _ _ _ _ Mv) in Hrx.
  unfold _talk_receiver_negotiate. rewrite bind_assoc.
  destruct (other_recv big b cfg Hs _ s0 payload_zero m wid (m_negotiate C lat) _ St other_ne_hs
    ltac:(apply m_negotiate_ok; [unfold unsigned; lia|done]) Hwid eq_refl Hrx)
    as (p1 & s1 & H1 & M1 & Hsame & K1 & St1 & Hrx1 & _).
  rewrite (bind_Done _ _ _ _ _ H1). cbv beta iota. change (Z.of_nat msg_size <? 0) with false. cbv iota.
  rewrite !(has_op_same _ _ _ Hsame), (same_count _ _ Hsame), (same_latency _ _ Hsame).
  change (has_op UBWT_TALK_OP_COUNT_REQ (m_negotiate C lat)) with true.
  change (has_op UBWT_TALK_OP_LATENCY_US (m_negotiate C lat)) with true.
  change (p_count (m_negotiate C lat)) with C. change (p_latency (m_negotiate C lat)) with lat.
  assert (C <? UBWT_CONFIG_TALK_COUNT_MAX = true) as -> by (apply Z.ltb_lt; unfold UBWT_CONFIG_TALK_COUNT_MAX; lia).
  change (negb true) with false. cbv iota. rewrite ret_bind.
  destruct (run_report (report_talk_count_set C) s1 (at_io _ _ _ St1)) as (s2 & H2 & M2 & A2).
  rewrite (bind_Done _ _ _ _ _ H2). pose proof (acts_at cfg _ _ _ _ _ _ _ _ St1 M2 A2) as St2.
  destruct (run_report (report_talk_latency_set lat) s2 (at_io _ _ _ St2)) as (s3 & H3 & M3 & A3).
  rewrite (bind_Done _ _ _ _ _ H3). pose proof (acts_at cfg _ _ _ _ _ _ _ _ St2 M3 A3) as St3.
  run (run_stage_set _ UBWT_STAGE_STATE_RUNTIME_TALK_STREAM no_reset s3 St3).
  pose proof (sets_seq (fun x => x) (report_talk_count_set C) _ _ _ _ _ (sets_keeps _ _ _ _ _ K K1) (acts_sets _ _ _ _ A2)) as B2.
  pose proof (sets_seq (fun x => x) (report_talk_latency_set lat) _ _ _ _ _ B2 (acts_sets _ _ _ _ A3)) as B3.
  pose proof (sets_seq (fun x => x) (fun r => r) _ _ _ _ _ B3 K0) as A4. cbv beta in A4.
  pose proof (moves_trans _ _ _ _ _ _ _ _ _ Mv (moves_trans _ _ _ _ _ _ _ _ _ M1
    (moves_trans _ _ _ _ _ _ _ _ _ M2 (moves_trans _ _ _ _ _ _ _ _ _ M3 Mv0)))) as M4.
  destruct (moves_clock _ _ _ _ _ M4) as [Hc4 Ht4]. rewrite Nat.add_0_r in Ht4.
  assert (rx_data (k_rx s4) = stream_bytes m wid (packets 0 (Z.to_nat C)) ++ rest) as Hrx4.
  { rewrite (moves_nil_rx _ _ _ _ Mv0), (moves_nil_rx _ _ _ _ M3), (moves_nil_rx _ _ _ _ M2). exact Hrx1. }
  destruct (receiver_stream_run big b cfg Hs s4 m wid rest C) as (s5 & H5 & M5 & A5 & St5);
    [done|done|lia|by rewrite Hc4| |done|].
  { rewrite (same_start _ _ (sets_thread _ _ _ _ A4)). by rewrite Hc4, Ht4. }
  rewrite Hc4, Ht4 in *. fold t0 in H5, M5, A5. fold t in H5, M5, A5.
  rewrite (bind_Done _ _ _ _ _ H5).
  rewrite (same_process _ _ (sets_thread _ _ _ _ A4)), (sets_shared _ _ _ _ A4). fold rev. fold x.
  rewrite (same_process _ _ (sets_thread _ _ _ _ A4)) in A5. fold rev in A5.
  pose proof (sets_seq (after_stream b cfg rev t) (stream_report t0 t C) _ _ _ _ _ A4 (acts_sets _ _ _ _ A5)) as A6.
  fold x in A6. change (sets s s5 x (round_report lat C t0 t (report (cur s)))) in A6.
  exists s5. split_and!; [|  |done|done].
  - unfold again. destruct (any_weak x); [|done]. change (truth (Zb true)) with true.
    change (Zb true <? 0) with false. cbv iota. cbn [andb].
    rewrite (bind_Done _ _ _ _ _ (run_needs_restart _ s5 St5)).
    rewrite (sets_shared _ _ _ _ A6), (same_process _ _ (sets_thread _ _ _ _ A6)). fold rev.
    by destruct (restarts _ _ _ _).
  - rewrite (same_worker_id _ _ (sets_thread _ _ _ _ A4)) in M5.
    eapply moves_conv; [eapply moves_trans; [exact M4|exact M5]|..]; [|done|done].
    by rewrite stream_bytes_cons, !app_nil_l, !app_nil_r.
Qed.

(** The figures of the last round, as the receiver collected them. *)
Definition final_figures (lat C t0 t : Z) : ubwt_report_collect_t := collect_zero {{
  talk_latency_us := lat; talk_count := C; talk_stream_recv_pkts := C;
  talk_stream_time_duration := t; talk_stream_time_start := t0;
  talk_stream_recv_bytes := C * 1432 }}.

(** The figures of a talk whose rounds begin at reading [tick] of the receiver's clock. *)
Definition rounds_figures (lat : Z) (clk : nat -> option (Z * Z)) (tick : nat) (rs : list (Z * Z)) :
    ubwt_report_collect_t :=
  final_figures lat (fst (last_round rs)) (last_start clk tick (map snd rs)) (snd (last_round rs)).

(** A report that shows these figures. *)
Definition shows (f : ubwt_report_collect_t) (r : ubwt_report) : Prop :=
  collect_copy (collected (report_result r)) collect_zero = f.

Lemma round_report_shows lat C t0 t r :
  u32 C -> shows (final_figures lat C t0 t) (round_report lat C t0 t r).
Proof.
  intros HC. unfold shows, round_report, stream_report.
  unfold report_talk_stream_recv_bytes_set, report_talk_stream_recv_pkts_set,
    report_talk_stream_time_duration_set, report_talk_stream_time_start_set,
    report_talk_latency_set, report_talk_count_set.
  rewrite !report_result_set_collected, (wrap_small 32 C) by done.
  destruct (collected (report_result r)). reflexivity.
Qed.

Lemma round_report_side lat C t0 t r : same_side r (round_report lat C t0 t r).
Proof. unfold round_report, stream_report. by destruct r as [? [] ? ?]. Qed.

Lemma receiver_rounds_run rev x rs :
  receiver_session b cfg rev x rs ->
  forall fuel st s lat m wid rest,
  (length rs <= fuel)%nat -> at_stage cfg st s -> st <> hs -> u32 lat -> u64 wid ->
  clock_ok (k_clock s) -> 0 <= time_us_start (cur s) < clock_us (k_clock s) (k_tick s) ->
  reverse (process (cur s)) = rev -> shared_of s = x ->
  timed (k_clock s) (k_tick s) (map snd rs) ->
  rx_data (k_rx s) = stream_bytes m wid (sender_rounds_msgs lat rs) ++ rest ->
  exists s', receiver_rounds big b fuel s = Done tt s' /\
    moves (stream_bytes m wid (sender_rounds_msgs lat rs))
      (stream_bytes (mt b) (worker_id (cur s)) (receiver_rounds_msgs cfg rs)) (3 * length rs) s s' /\
    at_stage cfg streaming s' /\ same_thread (cur s) (cur s') /\
    same_side (report (cur s)) (report (cur s')) /\
    shows (rounds_figures lat (k_clock s) (k_tick s) rs) (report (cur s')).
Proof.
  induction 1 as [x C t HC Ht Hagain|x C t rs HC Ht Hagain Hsess IH];
    intros [|fuel] st s lat m wid rest Hfuel Hst Hne Hlat Hwid Hclk Hstart Hrev Hx Htimed Hrx; try (simpl in Hfuel; lia).
  - cbn [sender_rounds_msgs] in Hrx. rewrite app_nil_r in Hrx. destruct Htimed as [Et _]. cbn [snd] in Et.
    destruct (receiver_round st s fuel lat m wid rest C) as (s' & H & M & A & St); try done.
    rewrite Hrev, Hx, <- Et in *. rewrite Hagain in H. exists s'. split_and!; [done| |done|apply A| |].
    + cbn [sender_rounds_msgs receiver_rounds_msgs]. by rewrite app_nil_r.
    + rewrite (sets_report _ _ _ _ A). apply round_report_side.
    + rewrite (sets_report _ _ _ _ A). unfold rounds_figures, last_start. simpl. rewrite Nat.add_0_r.
      apply round_report_shows. unfold unsigned; lia.
  - cbn [sender_rounds_msgs] in Hrx. rewrite app_comm_cons, stream_bytes_app, <- app_assoc in Hrx.
    destruct Htimed as [Et Htimed]. cbn [snd] in Et.
    destruct (receiver_round st s fuel lat m wid _ C Hst Hlat Hwid HC Hne Hclk Hstart Hrx) as (s1 & H1 & M1 & A1 & St1).
    rewrite Hrev, Hx, <- Et in *. rewrite Hagain in H1. rewrite H1.
    pose proof (moves_rx _ _ _ _ _ _ M1 Hrx) as Hrx1.
    destruct (run_stage_inc cfg _ no_show s1 St1) as (s2 & H2 & M2 & K2).
    rewrite (bind_Done _ _ _ _ _ H2). pose proof (moves_at cfg _ _ _ _ _ _ St1 M2 K2) as St2.
    pose proof (moves_trans _ _ _ _ _ _ _ _ _ M1 M2) as M12.
    pose proof (sets_keeps _ _ _ _ _ A1 K2) as A2.
    destruct (moves_clock _ _ _ _ _ M12) as [Hc2 Ht2]. simpl in Ht2.
    pose proof (sets_thread _ _ _ _ A2) as T2.
    destruct (IH fuel streaming s2 lat m wid rest) as (s' & H' & M' & St' & T' & D' & R'); try done.
    + simpl in Hfuel. lia.
    + by rewrite Hc2.
    + rewrite (same_start _ _ T2), Hc2, Ht2.
      pose proof (clock_mono _ Hclk (k_tick s)). pose proof (clock_mono _ Hclk (S (k_tick s))).
      pose proof (clock_mono _ Hclk (S (S (k_tick s)))).
      replace (k_tick s + 3)%nat with (S (S (S (k_tick s)))) by lia. lia.
    + by rewrite (same_process _ _ T2).
    + apply A2.
    + by rewrite Hc2, Ht2.
    + by rewrite (moves_nil_rx _ _ _ _ M2).
    + exists s'. split_and!; [done| |done|by eapply same_thread_trans| |].
      * rewrite (same_worker_id _ _ T2) in M'.
        eapply moves_conv; [eapply moves_trans; [exact M12|exact M']|..]; [| |simpl; lia].
        -- cbn [sender_rounds_msgs]. by rewrite app_comm_cons, stream_bytes_app, app_nil_r.
        -- cbn [receiver_rounds_msgs]. rewrite app_nil_r. by rewrite <- stream_bytes_app.
      * eapply same_side_trans; [|exact D']. rewrite (sets_report _ _ _ _ A2). apply round_report_side.
      * rewrite Hc2, Ht2 in R'. destruct rs as [|r rs']; [by inversion Hsess|].
        unfold rounds_figures in *. change (last_round ((C, t) :: r :: rs')) with (last_round (r :: rs')).
        unfold last_start in *. simpl length in *.
        replace (k_tick s + 3 * (S (S (length (map snd rs'))) - 1))%nat
          with (k_tick s + 3 + 3 * (S (length (map snd rs')) - 1))%nat by lia. exact R'.
Qed.

End complete.

(** ** The whole talk *)

(** The payload of the report message. *)
Definition report_wire (f : ubwt_report_collect_t) : list Z :=
  encode true collect_sizes (collect_fields f) ++ replicate (msg_size - collect_size) 0.

(** The bytes each end sends during the whole talk. *)
Definition sender_talk (cfg : ubwt_config) (m : bool) (wid lat : Z) (rs : list (Z * Z)) : list Z :=
  repeat_msg (Z.to_nat (talk_handshake_iter cfg))
    (msg_bytes m wid talk_hdr_size (m_ping (talk_handshake_iter cfg))) ++
  stream_bytes m wid (sender_rounds_msgs lat rs ++ [m_finish]).

Definition receiver_talk (cfg : ubwt_config) (m : bool) (wid : Z) (rs : list (Z * Z))
    (f : ubwt_report_collect_t) : list Z :=
  repeat_msg (Z.to_nat (talk_handshake_iter cfg))
    (msg_bytes m wid talk_hdr_size (m_pong (talk_handshake_iter cfg))) ++
  stream_bytes m wid (receiver_rounds_msgs cfg rs ++ [m_report (report_wire f)]).

(** The shared state at the first round: the serial sender sets the count. *)
Definition sender_start (b : build) (cfg : ubwt_config) (rev : Z) (x : shared) : shared :=
  let x := waited_mt b x in
  let y := waited_mt b x in
  waited_mt b (if (if mt b then is_serial x else true) then
    on_talk (talk_ctx_update rev (fun c => c {{ talk_ctx_count := talk_count_current cfg }})) y else y).

Definition receiver_start (b : build) (x : shared) : shared := waited_mt b x.

Lemma length_stream_bytes m wid ps : length (stream_bytes m wid ps) = (msg_size * length ps)%nat.
Proof.
  induction ps as [|p ps IH]; [done|].
  rewrite stream_bytes_cons, length_app, length_msg_bytes, IH. simpl length. lia.
Qed.

Lemma rx_weight_data l : (length (rx_data l) <= rx_weight l)%nat.
Proof.
  unfold rx_data, rx_weight. induction l as [|[bs|e] l IH]; simpl; [lia|rewrite length_app; lia|lia].
Qed.

Lemma length_receiver_msgs cfg rs : (length rs <= length (receiver_rounds_msgs cfg rs))%nat.
Proof. induction rs as [|[C t] rs IH]; simpl; lia. Qed.

Lemma length_sender_msgs lat rs : (length rs <= length (sender_rounds_msgs lat rs))%nat.
Proof. induction rs as [|[C t] rs IH]; simpl; [lia|]. rewrite length_app. lia. Qed.

(** The input left when the rounds begin bounds their number. *)
Lemma rounds_fuel m wid ms ps rest l (rs : list (Z * Z)) :
  rx_data l = stream_bytes m wid (ms ++ ps) ++ rest -> (length rs <= length ms)%nat ->
  (length rs <= S (rx_weight l))%nat.
Proof.
  intros Hrx Hts. pose proof (rx_weight_data l) as Hw.
  rewrite Hrx, length_app, length_stream_bytes, length_app in Hw. unfold msg_size in Hw. lia.
Qed.

Lemma rtt_sum_u32 clk tick n acc : u32 acc -> u32 (rtt_sum clk tick n acc).
Proof.
  revert tick acc. induction n as [|n IH]; intros tick acc Hacc; simpl; [done|].
  apply IH. by apply wrap_range.
Qed.

(** The latency the sender computes from its clock. *)
Definition talk_latency (cfg : ubwt_config) (clk : nat -> option (Z * Z)) (tick : nat) : Z :=
  rtt_sum clk tick (Z.to_nat (talk_handshake_iter cfg)) 0 / talk_handshake_iter cfg.

Lemma talk_latency_u32 cfg clk tick : tcp_talk cfg -> u32 (talk_latency cfg clk tick).
Proof.
  intros Hs. pose proof (talk_iter _ Hs) as Hi. unfold talk_latency.
  assert (u32 (rtt_sum clk tick (Z.to_nat (talk_handshake_iter cfg)) 0)) as Hr
    by (apply rtt_sum_u32; split; vm_compute; congruence).
  unfold unsigned in *. split; [apply Z.div_pos; lia|].
  apply Z.div_lt_upper_bound; [lia|]. nia.
Qed.

Lemma final_figures_fits lat C t0 t :
  u32 lat -> u32 C -> u64 t0 -> u64 t -> collect_fits (final_figures lat C t0 t).
Proof.
  intros. unfold collect_fits, collect_fields, fits, final_figures. simpl.
  repeat (apply Forall2_cons; [first [assumption|unfold unsigned in *; lia]|]).
  constructor.
Qed.

Lemma rounds_figures_fits b cfg rev x rs lat clk tick :
  receiver_session b cfg rev x rs -> clock_ok clk -> u32 lat -> collect_fits (rounds_figures lat clk tick rs).
Proof.
  intros Hsess Hclk Hlat.
  assert (u32 (fst (last_round rs)) /\ u64 (snd (last_round rs))) as [HC Ht].
  { induction Hsess as [x C t HC Ht _|x C t rs HC Ht _ Hsess IH].
    - split; [unfold unsigned; simpl; lia|done].
    - destruct rs; [inversion Hsess|exact IH]. }
  apply final_figures_fits; try done. unfold last_start.
  pose proof (clock_range _ Hclk (tick + 3 * (length (map snd rs) - 1))). unfold unsigned. lia.
Qed.

Section whole.
Context {P : list sync -> Prop} {HP : Tailed P}.
Context (big : bool) (b : build) (cfg : ubwt_config).
Context (Hs : tcp_talk cfg).

Abbreviation at_stage := (at_stage (P := P)).
Abbreviation moves := (moves (P := P)).

Ltac run L := let s' := fresh "s" in let H := fresh "H" in let Mv := fresh "Mv" in
  let K := fresh "K" in let St := fresh "St" in
  destruct L as (s' & H & Mv & K & St); rewrite (bind_Done _ _ _ _ _ H); clear H.

(** The report message is unmarshalled into the selected result. *)
Lemma sender_report_run st s m wid f rest :
  at_stage cfg st s -> st <> hs -> u64 wid -> collect_fits f -> f = collect_copy f collect_zero ->
  rx_data (k_rx s) = msg_bytes m wid msg_size (m_report (report_wire f)) ++ rest ->
  exists s', _talk_sender_report_exchange big b s = Done 0 s' /\
    moves (msg_bytes m wid msg_size (m_report (report_wire f))) [] 0 s s' /\
    at_stage cfg st s' /\ same_thread (cur s) (cur s') /\
    same_side (report (cur s)) (report (cur s')) /\ shows f (report (cur s')).
Proof.
  intros Hst Hne Hwid Hf Hcopy Hrx. unfold _talk_sender_report_exchange, current_of.
  rewrite get_bind, (at_config _ _ _ Hst), (talk_size _ Hs).
  destruct (other_recv big b cfg Hs st s payload_zero m wid (m_report (report_wire f)) rest Hst Hne
    (m_report_ok _) Hwid eq_refl Hrx) as (p & s1 & H1 & M1 & Hsame & K1 & St1 & Hrx1 & r & Hbuf).
  rewrite (bind_Done _ _ _ _ _ H1). cbv beta iota. change (Z.of_nat msg_size <? 0) with false. cbv iota.
  rewrite (has_op_same _ _ _ Hsame). change (has_op UBWT_TALK_OP_REPORT (m_report (report_wire f))) with true.
  cbv iota. rewrite get_bind, Hbuf.
  assert (exists rest', drop talk_hdr_size (msg_bytes m wid msg_size (m_report (report_wire f))) ++ r =
    encode true collect_sizes (collect_fields (collect_copy f collect_zero)) ++ rest') as [rest' ->].
  { rewrite drop_msg by (apply Nat.leb_le; reflexivity). rewrite <- Hcopy.
    change (p_buf (m_report (report_wire f))) with (report_wire f). unfold report_wire.
    set (e := encode true collect_sizes (collect_fields f)).
    assert (length e = collect_size) as He by (by apply length_encode_eq).
    rewrite take_app_ge by (rewrite He; apply Nat.leb_le; reflexivity).
    rewrite resize_spec. rewrite take_app_ge by (rewrite He; apply Nat.leb_le; reflexivity).
    rewrite <- !app_assoc. by eexists. }
  rewrite report_unmarshal_wire by (done || (apply Nat.leb_le; reflexivity)).
  cbn [lift_res]. rewrite ret_bind.
  destruct (run_report (fun _ => report_update_collected (collect_copy f) (report (cur s1))) s1 (at_io _ _ _ St1))
    as (s2 & H2 & M2 & A2).
  rewrite (bind_Done _ _ _ _ _ H2). exists s2. split_and!; [done| | | | |].
  - eapply moves_conv; [eapply moves_trans; [exact M1|exact M2]|..]; [by rewrite app_nil_r|done..].
  - by eapply acts_at.
  - eapply same_thread_trans; [apply K1|apply A2].
  - rewrite (acts_report _ _ _ _ A2), (acts_report _ _ _ _ K1). apply same_side_update.
  - rewrite (acts_report _ _ _ _ A2). unfold shows. rewrite report_result_set_collected.
    rewrite Hcopy. by destruct (collected (report_result (report (cur s1)))), f.
Qed.

(** What the senders do before the first round. *)
Lemma run_sender_start st s :
  at_stage cfg st s ->
  exists s', (forall A (k : M A),
    (serial ← wait_serial b;
     rev ← process_get_reverse;
     when serial (update_talk (talk_ctx_update rev (fun c =>
       c {{ talk_ctx_count := talk_count_current cfg }}))) ;;
     (if mt b then wait_direction ;; mret tt else mret tt) ;; k) s = k s') /\
    moves [] [] 0 s s' /\
    acts s s' (let x := shared_of s in let y := waited_mt b x in
      waited_mt b (if (if mt b then is_serial x else true) then
        on_talk (talk_ctx_update (reverse (process (cur s)))
          (fun c => c {{ talk_ctx_count := talk_count_current cfg }})) y else y)) (report (cur s)) /\
    at_stage cfg st s'.
Proof.
  intros Hst. cbv zeta.
  destruct (at_barrier_at cfg _ _ _ _ s Hst (wait_serial_run b s (at_io _ _ _ Hst))) as (s1 & H1 & M1 & A1 & St1).
  set (serial := if mt b then _ else _) in *. set (g := talk_ctx_update _ _).
  assert (exists s2, (when serial (update_talk g)) s1 = Done tt s2 /\ moves [] [] 0 s1 s2 /\
    acts s1 s2 (if serial then on_talk g (shared_of s1) else shared_of s1) (report (cur s1)) /\ at_stage cfg st s2)
    as (s2 & H2 & M2 & A2 & St2).
  { unfold when. destruct serial.
    - destruct (run_update_talk g s1 (at_io _ _ _ St1)) as (s2 & H2 & M2 & A2).
      exists s2. split_and!; [done..|by eapply acts_at].
    - exists s1. split_and!; [done|apply moves_refl, St1|done|done]. }
  destruct (run_wait_dir b cfg _ s2 St2) as (s3 & H3 & M3 & A3 & St3).
  pose proof (acts_seq (fun x => if serial then on_talk g x else x) (fun r => r) _ _ _ _ _ A1 A2) as A12.
  pose proof (acts_seq (waited_mt b) (fun r => r) _ _ _ _ _ A12 A3) as A13.
  exists s3. split_and!; [| |exact A13|done].
  - intros A k. rewrite (bind_Done _ _ _ _ _ H1). unfold process_get_reverse, current_of. rewrite get_bind.
    rewrite (same_process _ _ (acts_thread _ _ _ _ A1)). fold g.
    by rewrite (bind_Done _ _ _ _ _ H2), (bind_Done _ _ _ _ _ H3).
  - eapply moves_conv; [eapply moves_trans; [exact M1|eapply moves_trans; [exact M2|exact M3]]|done..].
Qed.

Lemma talk_sender_run st s m wid rest rs f :
  at_stage cfg st s -> u64 wid -> clock_ok (k_clock s) ->
  let rev := reverse (process (cur s)) in
  sender_session b cfg rev (sender_start b cfg rev (shared_of s)) rs ->
  collect_fits f -> f = collect_copy f collect_zero ->
  rx_data (k_rx s) = receiver_talk cfg m wid rs f ++ rest ->
  exists s', talk_sender big b s = Done tt s' /\
    moves (receiver_talk cfg m wid rs f)
      (sender_talk cfg (mt b) (worker_id (cur s)) (talk_latency cfg (k_clock s) (k_tick s)) rs)
      (2 * Z.to_nat (talk_handshake_iter cfg)) s s' /\
    at_stage cfg UBWT_STAGE_STATE_RUNTIME_TALK_FINISH s' /\ same_thread (cur s) (cur s') /\
    same_side (report (cur s)) (report (cur s')) /\ shows f (report (cur s')).
Proof.
  intros Hst Hwid Hclk rev Hsess Hf Hcopy Hrx. unfold receiver_talk in *. rewrite <- app_assoc in Hrx.
  unfold talk_sender, talk_sender_end.
  run (run_stage_set cfg st UBWT_STAGE_STATE_RUNTIME_TALK_HANDSHAKE 0 s Hst).
  run (run_wait_all b cfg _ s0 St). unfold current_of. rewrite get_bind, (at_config _ _ _ St0).
  pose proof (moves_trans _ _ _ _ _ _ _ _ _ Mv Mv0) as M1.
  pose proof (sets_seq (waited_mt b) (fun r => r) _ _ _ _ _ K (acts_sets _ _ _ _ K0)) as A1.
  destruct (moves_clock _ _ _ _ _ M1) as [Hc1 Ht1]. rewrite Nat.add_0_r in Ht1.
  destruct (sender_handshakes_run big b cfg Hs (Z.to_nat (talk_handshake_iter cfg)) s1 m wid
    (stream_bytes m wid (receiver_rounds_msgs cfg rs ++ [m_report (report_wire f)]) ++ rest) 0 St0)
    as (s2 & H2 & M2 & K2); [by rewrite Hc1|done|by rewrite (moves_nil_rx _ _ _ _ M1)|].
  rewrite (bind_Done _ _ _ _ _ H2), Hc1, Ht1. fold (talk_latency cfg (k_clock s) (k_tick s)).
  set (lat := talk_latency cfg (k_clock s) (k_tick s)).
  assert (u32 lat) as Hlat by (by eapply talk_latency_u32).
  pose proof (moves_at cfg _ _ _ _ _ _ St0 M2 K2) as St2. cbv zeta.
  assert (rx_data (k_rx s2) = stream_bytes m wid (receiver_rounds_msgs cfg rs ++ [m_report (report_wire f)]) ++ rest)
    as Hrx2.
  { eapply moves_rx; [exact M2|]. by rewrite (moves_nil_rx _ _ _ _ M1). }
  destruct (run_report (report_talk_latency_set lat) s2 (at_io _ _ _ St2)) as (s3 & H3 & M3 & A3).
  rewrite (bind_Done _ _ _ _ _ H3). pose proof (acts_at cfg _ _ _ _ _ _ _ _ St2 M3 A3) as St3.
  pose proof (sets_seq (fun x => x) (report_talk_latency_set lat) _ _ _ _ _ (sets_keeps _ _ _ _ _ A1 K2)
    (acts_sets _ _ _ _ A3)) as B3. cbv beta in B3.
  destruct (run_sender_start _ s3 St3) as (s4 & H4 & Mv1 & K1 & St1). rewrite H4. clear H4.
  rewrite (sets_shared _ _ _ _ B3), (same_process _ _ (sets_thread _ _ _ _ B3)) in K1. fold rev in K1.
  change (acts s3 s4 (sender_start b cfg rev (shared_of s)) (report (cur s3))) in K1.
  assert (sets s s4 (sender_start b cfg rev (shared_of s)) (report_talk_latency_set lat (report (cur s)))) as A4.
  { eapply sets_trans; [exact B3|]. rewrite <- (sets_report _ _ _ _ B3). by apply acts_sets. }
  rewrite (bind_Done _ _ _ _ _ (run_talk_count s4)), (sets_shared _ _ _ _ A4),
    (same_process _ _ (sets_thread _ _ _ _ A4)). fold rev.
  rewrite massert_bind_true by (pose proof (sender_session_count _ _ _ _ _ Hsess); lia).
  run (run_stage_reset cfg _ s4 St1). rewrite get_bind.
  pose proof (sets_seq (fun x => x) (fun r => r) _ _ _ _ _ A4 K3) as A5. cbv beta in A5.
  assert (report_talk_latency_get (report (cur s5)) = lat) as Hlatency.
  { rewrite (sets_report _ _ _ _ A5). unfold report_talk_latency_get, report_talk_latency_set.
    by rewrite report_result_set_collected. }
  pose proof (moves_trans _ _ _ _ _ _ _ _ _ M3 (moves_trans _ _ _ _ _ _ _ _ _ Mv1 Mv2)) as M7.
  rewrite <- (moves_nil_rx _ _ _ _ M7) in Hrx2.
  assert (length rs <= S (rx_weight (k_rx s5)))%nat as Hfuel.
  { eapply rounds_fuel; [exact Hrx2|apply length_receiver_msgs]. }
  rewrite stream_bytes_app, <- app_assoc in Hrx2.
  destruct (sender_rounds_run big b cfg Hs rev _ rs Hsess _ _ s5 lat m wid _ Hfuel St4 Hlat Hwid
    (f_equal reverse (same_process _ _ (sets_thread _ _ _ _ A5))) (sets_shared _ _ _ _ A5) Hlatency Hrx2)
    as (s8 & H8 & M8 & St8 & T8 & D8).
  rewrite (bind_Done _ _ _ _ _ H8).
  pose proof (moves_rx _ _ _ _ _ _ M8 Hrx2) as Hrx8.
  run (run_stage_set cfg _ UBWT_STAGE_STATE_RUNTIME_TALK_REPORT_EXCHANGE 0 s8 St8).
  rewrite <- (moves_nil_rx _ _ _ _ Mv3) in Hrx8. rewrite stream_bytes_cons, <- app_assoc in Hrx8.
  destruct (sender_report_run _ s6 m wid f _ St5 ltac:(done) Hwid Hf Hcopy Hrx8) as (s10 & H10 & M10 & St10 & T10 & D10 & R10).
  rewrite (bind_Done _ _ _ _ _ H10). change (0 <? 0) with false. cbv iota.
  run (run_stage_set cfg _ UBWT_STAGE_STATE_RUNTIME_TALK_FINISH 0 s10 St10).
  unfold _talk_sender_finish. fold m_finish. rewrite bind_assoc.
  destruct (other_send big b cfg Hs _ s7 m_finish St6 ltac:(done) m_finish_ok) as (s12 & H12 & M12 & K12 & St12).
  rewrite (bind_Done _ _ _ _ _ H12). change (Z.of_nat msg_size <? 0) with false. cbv iota. rewrite ret_bind.
  pose proof (sets_thread _ _ _ _ A5) as T7.
  assert (same_thread (cur s) (cur s7)) as T11.
  { eapply same_thread_trans; [exact T7|]. eapply same_thread_trans; [exact T8|].
    eapply same_thread_trans; [apply K4|]. eapply same_thread_trans; [exact T10|]. apply K5. }
  exists s12. split_and!; [done| |done| | |].
  - assert (worker_id (cur s1) = worker_id (cur s)) as Ew1 by apply (same_worker_id _ _ (sets_thread _ _ _ _ A1)).
    rewrite Ew1 in M2. rewrite (same_worker_id _ _ T7) in M8. rewrite (same_worker_id _ _ T11) in M12.
    eapply moves_conv; [eapply moves_trans; [exact M1|eapply moves_trans; [exact M2|eapply moves_trans; [exact M7|
      eapply moves_trans; [exact M8|eapply moves_trans; [exact Mv3|eapply moves_trans; [exact M10|
      eapply moves_trans; [exact Mv4|exact M12]]]]]]]|..].
    + rewrite stream_bytes_app, stream_bytes_cons, !app_nil_l, !app_nil_r. done.
    + unfold sender_talk. rewrite stream_bytes_app, stream_bytes_cons, !app_nil_l, !app_nil_r. done.
    + lia.
  - eapply same_thread_trans; [exact T11|apply K12].
  - rewrite (acts_report _ _ _ _ K12), (sets_report _ _ _ _ K5). eapply same_side_trans; [|exact D10].
    rewrite (sets_report _ _ _ _ K4). eapply same_side_trans; [|exact D8].
    rewrite (sets_report _ _ _ _ A5). apply same_side_update.
  - rewrite (acts_report _ _ _ _ K12), (sets_report _ _ _ _ K5). exact R10.
Qed.

Lemma receiver_report_run st s f :
  at_stage cfg st s -> st <> hs -> collect_fits f -> shows f (report (cur s)) ->
  exists s', _talk_receiver_report_exchange big b s = Done 0 s' /\
    moves [] (msg_bytes (mt b) (worker_id (cur s)) msg_size (m_report (report_wire f))) 0 s s' /\
    keeps s s' /\ at_stage cfg st s'.
Proof.
  intros Hst Hne Hf Hshow. unfold _talk_receiver_report_exchange, current_of.
  rewrite !get_bind, (at_config _ _ _ Hst), (talk_size _ Hs).
  change (Z.to_nat 1432) with msg_size.
  rewrite report_marshal_wire by ((by rewrite Hshow) || (apply Nat.leb_le; reflexivity)).
  rewrite Hshow. fold (report_wire f). cbn [lift_res]. rewrite ret_bind. fold (m_report (report_wire f)).
  destruct (other_send big b cfg Hs _ s (m_report (report_wire f)) Hst Hne (m_report_ok _)) as (s1 & H1 & M1 & K1 & St1).
  rewrite (bind_Done _ _ _ _ _ H1). change (Z.of_nat msg_size <? 0) with false. cbv iota.
  by exists s1.
Qed.

Lemma talk_receiver_run st s m wid lat rest rs :
  at_stage cfg st s -> u64 wid -> u32 lat -> clock_ok (k_clock s) ->
  receiver_session b cfg (reverse (process (cur s))) (receiver_start b (shared_of s)) rs ->
  0 <= time_us_start (cur s) < clock_us (k_clock s) (k_tick s) ->
  timed (k_clock s) (k_tick s) (map snd rs) ->
  rx_data (k_rx s) = sender_talk cfg m wid lat rs ++ rest ->
  let f := rounds_figures lat (k_clock s) (k_tick s) rs in
  exists s', talk_receiver big b s = Done tt s' /\
    moves (sender_talk cfg m wid lat rs) (receiver_talk cfg (mt b) (worker_id (cur s)) rs f)
      (3 * length rs) s s' /\
    at_stage cfg UBWT_STAGE_STATE_RUNTIME_TALK_FINISH s' /\ same_thread (cur s) (cur s') /\
    same_side (report (cur s)) (report (cur s')) /\ shows f (report (cur s')).
Proof.
  intros Hst Hwid Hlat Hclk Hsess Hstart Htimed Hrx f. unfold sender_talk in *. rewrite <- app_assoc in Hrx.
  unfold talk_receiver.
  run (run_stage_set cfg st UBWT_STAGE_STATE_RUNTIME_TALK_HANDSHAKE 0 s Hst).
  run (run_wait_all b cfg _ s0 St). unfold current_of. rewrite get_bind, (at_config _ _ _ St0).
  pose proof (moves_trans _ _ _ _ _ _ _ _ _ Mv Mv0) as M1.
  pose proof (sets_seq (waited_mt b) (fun r => r) _ _ _ _ _ K (acts_sets _ _ _ _ K0)) as A1.
  destruct (receiver_handshakes_run big b cfg Hs (Z.to_nat (talk_handshake_iter cfg)) s1 m wid
    (stream_bytes m wid (sender_rounds_msgs lat rs ++ [m_finish]) ++ rest) St0 Hwid)
    as (s2 & H2 & M2 & K2); [by rewrite (moves_nil_rx _ _ _ _ M1)|].
  rewrite (bind_Done _ _ _ _ _ H2). pose proof (moves_at cfg _ _ _ _ _ _ St0 M2 K2) as St2.
  assert (rx_data (k_rx s2) = stream_bytes m wid (sender_rounds_msgs lat rs ++ [m_finish]) ++ rest) as Hrx2.
  { eapply moves_rx; [exact M2|]. by rewrite (moves_nil_rx _ _ _ _ M1). }
  run (run_stage_reset cfg _ s2 St2). rewrite get_bind.
  pose proof (sets_seq (fun x => x) (fun r => r) _ _ _ _ _ (sets_keeps _ _ _ _ _ A1 K2) K1) as A3.
  change (sets s s3 (receiver_start b (shared_of s)) (report (cur s))) in A3.
  rewrite <- (moves_nil_rx _ _ _ _ Mv1) in Hrx2.
  assert (length rs <= S (rx_weight (k_rx s3)))%nat as Hfuel.
  { eapply rounds_fuel; [exact Hrx2|apply length_sender_msgs]. }
  rewrite stream_bytes_app, <- app_assoc in Hrx2.
  pose proof (moves_trans _ _ _ _ _ _ _ _ _ M1 (moves_trans _ _ _ _ _ _ _ _ _ M2 Mv1)) as M3.
  destruct (moves_clock _ _ _ _ _ M3) as [Hc3 Ht3]. simpl in Ht3. rewrite Nat.add_0_r in Ht3.
  pose proof (sets_thread _ _ _ _ A3) as T3.
  destruct (receiver_rounds_run big b cfg Hs _ _ rs Hsess (S (rx_weight (k_rx s3))) _ s3 lat m wid
    (stream_bytes m wid [m_finish] ++ rest) Hfuel St1 ltac:(done) Hlat Hwid)
    as (s4 & H4 & M4 & St4 & T4 & D4 & R4); rewrite ?Hc3, ?Ht3, ?(same_start _ _ T3); try done.
  { by rewrite (same_process _ _ T3). }
  { apply A3. }
  rewrite Hc3, Ht3 in R4. fold f in R4. rewrite (bind_Done _ _ _ _ _ H4).
  pose proof (moves_rx _ _ _ _ _ _ M4 Hrx2) as Hrx4.
  run (run_stage_set cfg _ UBWT_STAGE_STATE_RUNTIME_TALK_REPORT_EXCHANGE 0 s4 St4).
  assert (collect_fits f) as Hf by (by eapply rounds_figures_fits).
  destruct (receiver_report_run _ s5 f St3 ltac:(done) Hf) as (s6 & H6 & M6 & K6 & St6).
  { by rewrite (sets_report _ _ _ _ K3). }
  rewrite (bind_Done _ _ _ _ _ H6). change (0 <? 0) with false. cbv iota.
  run (run_stage_set cfg _ UBWT_STAGE_STATE_RUNTIME_TALK_FINISH 0 s6 St6).
  rewrite stream_bytes_cons in Hrx4. rewrite <- app_assoc in Hrx4.
  rewrite <- (moves_nil_rx _ _ _ _ Mv2), <- (moves_nil_rx _ _ _ _ M6), <- (moves_nil_rx _ _ _ _ Mv3) in Hrx4.
  unfold _talk_receiver_finish. rewrite bind_assoc.
  destruct (other_recv big b cfg Hs _ s7 payload_zero m wid m_finish _ St5 ltac:(done) m_finish_ok Hwid eq_refl Hrx4)
    as (p8 & s8 & H8 & M8 & Hsame8 & K8 & St8 & _ & _).
  rewrite (bind_Done _ _ _ _ _ H8). cbv beta iota. change (Z.of_nat msg_size <? 0) with false. cbv iota.
  rewrite (has_op_same _ _ _ Hsame8). change (has_op UBWT_TALK_OP_FINISH m_finish) with true. cbv iota.
  rewrite ret_bind.
  assert (same_thread (cur s) (cur s5)) as T5.
  { eapply same_thread_trans; [exact T3|]. eapply same_thread_trans; [exact T4|]. apply K3. }
  exists s8. split_and!; [done| |done| | |].
  - assert (worker_id (cur s1) = worker_id (cur s)) as Ew1 by apply (same_worker_id _ _ (sets_thread _ _ _ _ A1)).
    rewrite Ew1 in M3. rewrite (same_worker_id _ _ T3) in M4. rewrite (same_worker_id _ _ T5) in M6.
    eapply moves_conv; [eapply moves_trans; [exact M3|eapply moves_trans; [exact M4|eapply moves_trans; [exact Mv2|
      eapply moves_trans; [exact M6|eapply moves_trans; [exact Mv3|exact M8]]]]]|..].
    + rewrite stream_bytes_app, stream_bytes_cons, !app_nil_l, !app_nil_r. done.
    + unfold receiver_talk. rewrite stream_bytes_app, stream_bytes_cons, !app_nil_l, !app_nil_r. done.
    + simpl. lia.
  - eapply same_thread_trans; [exact T5|]. eapply same_thread_trans; [apply K6|].
    eapply same_thread_trans; [apply K4|apply K8].
  - rewrite (acts_report _ _ _ _ K8), (sets_report _ _ _ _ K4), (acts_report _ _ _ _ K6), (sets_report _ _ _ _ K3).
    eapply same_side_trans; [|exact D4]. by rewrite (sets_report _ _ _ _ A3).
  - rewrite (acts_report _ _ _ _ K8), (sets_report _ _ _ _ K4), (acts_report _ _ _ _ K6), (sets_report _ _ _ _ K3). exact R4.
Qed.

End whole.

(** ** Both ends together *)

(** The configurations of the two ends agree on what governs the talk; the exchange
    of configurations at the start of a connection compares these fields. *)
Record same_talk (cfg cfg' : ubwt_config) : Prop := {
  same_iter : talk_handshake_iter cfg' = talk_handshake_iter cfg;
  same_time : talk_stream_minimum_time cfg' = talk_stream_minimum_time cfg;
  same_mul : talk_count_mul cfg' = talk_count_mul cfg;
  same_async : asynchronous cfg' = asynchronous cfg
}.

Lemma same_talk_weak cfg cfg' : same_talk cfg cfg' ->
  (forall t, weak cfg' t = weak cfg t) /\ (forall t, m_end cfg' t = m_end cfg t) /\
  (forall t C, weak_count cfg' t C = weak_count cfg t C).
Proof.
  intros [_ Ht Hm Ha]. unfold weak, m_end, weak_count, weak_multiplier, minimum_time_us.
  by rewrite Ht, Hm, Ha.
Qed.

Lemma same_talk_bytes cfg cfg' : same_talk cfg cfg' -> forall m wid lat rs f,
  sender_talk cfg' m wid lat rs = sender_talk cfg m wid lat rs /\
  receiver_talk cfg' m wid rs f = receiver_talk cfg m wid rs f.
Proof.
  intros H m wid lat rs f. unfold sender_talk, receiver_talk. rewrite (same_iter _ _ H). split; [done|].
  do 3 f_equal. destruct (same_talk_weak _ _ H) as (_ & He & _).
  induction rs as [|[C t] rs IH]; [done|]. simpl. by rewrite He, IH.
Qed.

(** A talk between two workers over TCP completes.  For any chunking of the
    bytes by the network, any builds and byte orders, any number of workers beside
    these two, whatever those do to the contexts at the barriers, and any number of
    retries of weak streams that both ends decide: given the bytes the other end
    sends, [talk_sender] and
    [talk_receiver] both return, each sends exactly the bytes the other one was
    given, each leaves in its input what follows the talk, neither logs an error,
    and the reports of both ends show the same figures: the sender's latency, and
    the count, the packets, the bytes, the start and the duration of the last stream. *)
Lemma talk_completes big big' b b' cfg cfg' st st' ss sr rs rest rest' :
  tcp_talk cfg -> tcp_talk cfg' -> same_talk cfg cfg' ->
  at_stage (P := anyone) cfg st ss -> at_stage (P := anyone) cfg' st' sr ->
  clock_ok (k_clock ss) -> clock_ok (k_clock sr) ->
  0 <= time_us_start (cur sr) < clock_us (k_clock sr) (k_tick sr) ->
  let rev := reverse (process (cur ss)) in
  sender_session b cfg rev (sender_start b cfg rev (shared_of ss)) rs ->
  receiver_session b' cfg' (reverse (process (cur sr))) (receiver_start b' (shared_of sr)) rs ->
  timed (k_clock sr) (k_tick sr) (map snd rs) ->
  let lat := talk_latency cfg (k_clock ss) (k_tick ss) in
  let f := rounds_figures lat (k_clock sr) (k_tick sr) rs in
  let sent := sender_talk cfg (mt b) (worker_id (cur ss)) lat rs in
  let replied := receiver_talk cfg (mt b') (worker_id (cur sr)) rs f in
  rx_data (k_rx ss) = replied ++ rest -> rx_data (k_rx sr) = sent ++ rest' ->
  exists ss' sr',
    talk_sender big b ss = Done tt ss' /\ talk_receiver big' b' sr = Done tt sr' /\
    concat (k_sent ss') = concat (k_sent ss) ++ sent /\
    concat (k_sent sr') = concat (k_sent sr) ++ replied /\
    rx_data (k_rx ss') = rest /\ rx_data (k_rx sr') = rest' /\
    k_log ss' = k_log ss /\ k_log sr' = k_log sr /\
    shows f (report (cur ss')) /\ shows f (report (cur sr')).
Proof.
  intros Hs Hs' Hsame Hss Hsr Hclk Hclk' Hstart rev Hsess Hsess' Htimed lat f sent replied Hrx Hrx'.
  assert (u32 lat) as Hlat by (by eapply talk_latency_u32).
  assert (collect_fits f) as Hf by (by eapply rounds_figures_fits).
  destruct (talk_sender_run big b cfg Hs st ss (mt b') (worker_id (cur sr)) rest rs f Hss (at_wid _ _ _ Hsr)
    Hclk Hsess Hf eq_refl Hrx) as (ss' & H & M & _ & _ & _ & R).
  destruct (same_talk_bytes _ _ Hsame (mt b) (worker_id (cur ss)) lat rs f) as [E _].
  destruct (talk_receiver_run big' b' cfg' Hs' st' sr (mt b) (worker_id (cur ss)) lat rest' rs Hsr
    (at_wid _ _ _ Hss) Hlat Hclk' Hsess' Hstart Htimed ltac:(by rewrite E)) as (sr' & H' & M' & _ & _ & _ & R').
  rewrite E in M'. fold f in M', R'.
  destruct (same_talk_bytes _ _ Hsame (mt b') (worker_id (cur sr)) lat rs f) as [_ E']. rewrite E' in M'.
  exists ss', sr'. pose proof (moves_rx _ _ _ _ _ _ M Hrx). pose proof (moves_rx _ _ _ _ _ _ M' Hrx').
  destruct M, M'. by split_and!.
Qed.

(** ** Workers that are alone *)

(** The sequences of stream durations of a talk whose first round has [C] packets:
    every stream but the last is too short, and each retry has the count the
    sender computes, within the limits of the configuration. *)
Inductive session (cfg : ubwt_config) : Z -> list Z -> Prop :=
| session_last C t :
    0 < C < 1000000000 -> u64 t -> weak cfg t = false -> session cfg C [t]
| session_weak C t ts :
    0 < C < 1000000000 -> u64 t -> weak cfg t = true ->
    100 <= weak_count cfg t C ->
    session cfg (weak_count cfg t C) ts -> session cfg C (t :: ts).

Fixpoint rounds_of (cfg : ubwt_config) (C : Z) (ts : list Z) : list (Z * Z) :=
  match ts with
  | [] => []
  | t :: ts => (C, t) :: rounds_of cfg (weak_count cfg t C) ts
  end.

Lemma rounds_of_snd cfg C ts : map snd (rounds_of cfg C ts) = ts.
Proof. revert C. induction ts as [|t ts IH]; intros C; [done|]. simpl. by rewrite IH. Qed.

Lemma same_talk_session cfg cfg' C ts : same_talk cfg cfg' -> session cfg C ts -> session cfg' C ts.
Proof.
  intros H. destruct (same_talk_weak _ _ H) as (Hw & _ & Hc).
  induction 1; [by constructor; rewrite ?Hw|]. constructor; rewrite ?Hw, ?Hc; done.
Qed.

Lemma same_talk_rounds cfg cfg' C ts : same_talk cfg cfg' -> rounds_of cfg' C ts = rounds_of cfg C ts.
Proof.
  intros H. destruct (same_talk_weak _ _ H) as (_ & _ & Hc). revert C.
  induction ts as [|t ts IH]; intros C; [done|]. simpl. by rewrite Hc, IH.
Qed.

Lemma waited_mt_alone b (x : shared) : snd x = [] -> waited_mt b x = x.
Proof. unfold waited_mt, waited. intros ->. by destruct (mt b). Qed.

Section lone.
Context (b : build) (cfg : ubwt_config) (rev : Z).
Context (Hs : single cfg b).

(** The contexts after a stream. *)
Lemma after_stream_alone t x :
  snd x = [] ->
  after_stream b cfg rev t x =
    on_talk (fun tk => (if weak cfg t then talk_mark_weak rev t else fun tk => tk) (talk_reset rev tk)) x.
Proof.
  intros Hx. unfold after_stream, stream_over, stream_start, waited_async, waited_mt, waited.
  rewrite (single_sync _ _ Hs). change (truth 0) with false. rewrite andb_false_r.
  destruct x as [tk l]. simpl in Hx. subst l. by destruct (mt b), (weak cfg t).
Qed.

Lemma after_stream_facts t x :
  snd x = [] ->
  let y := after_stream b cfg rev t x in
  snd y = [] /\ again b cfg rev y = weak cfg t /\ count_of rev y = count_of rev x /\
  (weak cfg t = true -> im_weak (talk_ctx rev (fst y)) = 1 /\ weak_time (talk_ctx rev (fst y)) = t).
Proof.
  intros Hx y. subst y. rewrite (after_stream_alone _ _ Hx).
  assert (truth (asynchronous cfg) = false) as Ha by (by rewrite (single_sync _ _ Hs)).
  assert (mt b = true -> worker_count cfg = 1) as Hw by apply (single_count _ _ Hs).
  unfold again, any_weak, restarts, count_of. rewrite Ha.
  destruct x as [[? [] []] l]. simpl in Hx. subst l.
  unfold on_talk, talk_mark_weak, talk_reset, talk_ctx_update, talk_ctx.
  destruct (weak cfg t), (truth rev), (mt b); split_and!; try done; simpl; by rewrite Hw by done.
Qed.

Lemma restarted_facts t x :
  snd x = [] -> im_weak (talk_ctx rev (fst x)) = 1 -> weak_time (talk_ctx rev (fst x)) = t ->
  let y := restarted b cfg rev x in
  snd y = [] /\ count_of rev y = weak_count cfg t (count_of rev x).
Proof.
  intros Hx Hweak Ht y.
  assert (y = on_talk (recount cfg rev) x) as ->.
  { subst y. unfold restarted, waited, is_serial. rewrite Hx. cbv zeta. destruct (mt b) eqn:Hmt; [|done].
    unfold recounts. rewrite Hweak, (single_sync _ _ Hs), (single_count _ _ Hs Hmt). unfold on_talk; simpl.
    by rewrite Hx. }
  split; [done|]. unfold on_talk, recount, count_of, talk_ctx_update, talk_ctx in *. subst t. destruct x as [[? ? ?] ?].
  by destruct (truth rev).
Qed.

Lemma session_sender C ts : session cfg C ts ->
  forall x, snd x = [] -> count_of rev x = C -> sender_session b cfg rev x (rounds_of cfg C ts).
Proof.
  induction 1 as [C t HC Ht Hweak|C t ts HC Ht Hweak Hmin Hsess IH]; intros x Hx Hcount;
    destruct (after_stream_facts t x Hx) as (Hy & Hagain & Hc & Hw); rewrite Hweak in Hagain.
  - by apply sender_last.
  - destruct (Hw Hweak) as [Hw1 Hw2]. destruct (restarted_facts t _ Hy Hw1 Hw2) as [Hz Hcz].
    rewrite Hc, Hcount in Hcz. apply sender_again; try done; [by rewrite Hcz|by apply IH].
Qed.

Lemma session_receiver C ts : session cfg C ts ->
  forall x, snd x = [] -> receiver_session b cfg rev x (rounds_of cfg C ts).
Proof.
  induction 1 as [C t HC Ht Hweak|C t ts HC Ht Hweak Hmin Hsess IH]; intros x Hx;
    destruct (after_stream_facts t x Hx) as (Hy & Hagain & _ & _); rewrite Hweak in Hagain.
  - by apply receiver_last.
  - apply receiver_again; try done. by apply IH.
Qed.

Lemma sender_start_alone x :
  snd x = [] -> snd (sender_start b cfg rev x) = [] /\ count_of rev (sender_start b cfg rev x) = 100.
Proof.
  intros Hx. destruct x as [tk l]. simpl in Hx. subst l.
  unfold sender_start, is_serial, waited_mt, waited, count_of, on_talk, talk_ctx, talk_ctx_update.
  rewrite (talk_current _ (single_talk _ _ Hs)). by destruct (mt b), (truth rev).
Qed.

(** A lone worker's talk goes through the rounds of its session. *)
Lemma session_starts ts :
  session cfg 100 ts -> forall x, snd x = [] ->
  sender_session b cfg rev (sender_start b cfg rev x) (rounds_of cfg 100 ts) /\
  receiver_session b cfg rev (receiver_start b x) (rounds_of cfg 100 ts).
Proof.
  intros H x Hx. destruct (sender_start_alone x Hx) as [Hs1 Hs2].
  split; [by apply session_sender|]. apply session_receiver; [done|].
  unfold receiver_start. by rewrite waited_mt_alone.
Qed.

End lone.

(** Threads for the examples: the first stream takes half of the minimum time and the
    second one twice. *)
Definition demo_clock (n : nat) : option (Z * Z) :=
  Some (1000, match n with O => 0 | 1%nat | 2%nat | 3%nat => 500000 | _ => 2500000 end).

Definition demo_config (connect : Z) : ubwt_config := config_zero {{
  net_l4_proto_value := UBWT_NET_PROTO_L4_TCP; worker_count := 1; im_connector := connect;
  talk_payload_current_size := 1432; talk_handshake_iter := 2; talk_stream_minimum_time := 1;
  talk_count_current := 100; talk_count_default := 100; talk_count_max := 1000000000 }}.

Definition demo_thread (connect wid : Z) (input : list rx) : thread := {|
  cur := current_zero {{ config := demo_config connect; worker_id := wid }};
  errno := E0; k_rx := input; k_tx := [TxAccept 7]; k_sent := []; k_calls := []; k_trace := [];
  k_clock := demo_clock; k_tick := 0; k_sync := []; k_log := [] |}.

Lemma demo_single connect : single (demo_config connect) build_linux.
Proof. by repeat constructor. Qed.

Lemma demo_clock_ok : clock_ok demo_clock.
Proof.
  constructor; [done|..]; intros [|[|[|[|n]]]]; vm_compute; split; congruence.
Qed.

Lemma demo_at {P : list sync -> Prop} connect wid input : P [] -> u64 wid ->
  Forall rx_good input ->
  at_stage (P := P) (demo_config connect) UBWT_STAGE_STATE_NONE (demo_thread connect wid input).
Proof. intros HP Hw Hr. constructor; [constructor; simpl; try done; by repeat constructor|done..]. Qed.
