(* ===== verification/TalkCrew.v ===== *)
(** A talk with several workers a side: what the others do at the barriers, for the
    synchronised and the asynchronous mode, and the rounds both ends go through. *)

From S2P Require Import Prelude Bitops Errors Byteorder Layout ConfigData Usage Double Report Stage Thread Config ConfigSpec Conn Net NetSpec Talk TalkSpec TalkRounds TalkComplete.

(** ** Marks

    The weak streams of a round, each with its direction and its duration, in the order in
    which the workers record them. *)

Abbreviation mark := (bool * Z)%type.

Definition marked (ms : list mark) (tk : talk_shared) : talk_shared :=
  foldl (fun tk '(rev, u) => talk_mark_weak (Zb rev) u tk) tk ms.

Definition tally (rev : bool) (ms : list mark) : Z := Z.of_nat (length (filter (fun m => m.1 = rev) ms)).

(** The duration recorded last in a direction, [t] if there is none. *)
Definition last_mark (rev : bool) (t : Z) (ms : list mark) : Z :=
  foldl (fun t '(d, u) => if decide (d = rev) then u else t) t ms.

Lemma tally_nonneg rev ms : 0 <= tally rev ms.
Proof. unfold tally. lia. Qed.

Lemma tally_cons rev d u ms : tally rev ((d, u) :: ms) = Zb (bool_decide (d = rev)) + tally rev ms.
Proof.
  unfold tally. rewrite filter_cons. cbn [fst]. destruct (decide (d = rev)) as [Hd|Hd].
  - rewrite bool_decide_eq_true_2 by done. change (Zb true) with 1. cbn [length]. lia.
  - rewrite bool_decide_eq_false_2 by done. change (Zb false) with 0. lia.
Qed.

#[export] Instance tally_proper rev : Proper (Permutation ==> eq) (tally rev).
Proof. intros ms ms' H. unfold tally. by rewrite H. Qed.

Lemma talk_ctx_mark rev d u tk :
  talk_ctx (Zb rev) (talk_mark_weak (Zb d) u tk) =
    if decide (d = rev) then (talk_ctx (Zb rev) tk) {{ im_weak ::= fun n => wrap 32 (n + 1); weak_time := u }}
    else talk_ctx (Zb rev) tk.
Proof. destruct tk. by destruct rev, d. Qed.

Lemma marked_facts ms : forall tk rev n,
  0 <= talk_weak tk -> talk_weak tk + Z.of_nat (length ms) < 2 ^ 32 ->
  im_weak (talk_ctx (Zb rev) tk) = n -> 0 <= n <= talk_weak tk ->
  talk_weak (marked ms tk) = talk_weak tk + Z.of_nat (length ms) /\
  im_weak (talk_ctx (Zb rev) (marked ms tk)) = n + tally rev ms /\
  talk_ctx_count (talk_ctx (Zb rev) (marked ms tk)) = talk_ctx_count (talk_ctx (Zb rev) tk) /\
  weak_time (talk_ctx (Zb rev) (marked ms tk)) = last_mark rev (weak_time (talk_ctx (Zb rev) tk)) ms.
Proof.
  induction ms as [|[d u] ms IH]; intros tk rev n Hw Hlen Hn Hnw.
  - cbn [marked foldl length]. change (tally rev []) with 0. change (last_mark rev ?t []) with t.
    split_and!; (done || lia).
  - cbn [length] in Hlen. set (tk' := talk_mark_weak (Zb d) u tk).
    assert (talk_weak tk' = talk_weak tk + 1) as Hw'.
    { subst tk'. unfold talk_mark_weak, talk_ctx_update. destruct tk as [w ? ?], d; simpl in *; rewrite wrap_small; unfold unsigned; lia. }
    assert (talk_ctx (Zb rev) tk' = _) as Hctx by exact (talk_ctx_mark rev d u tk).
    change (marked ((d, u) :: ms) tk) with (marked ms tk'). rewrite tally_cons.
    change (last_mark rev ?t ((d, u) :: ms)) with (last_mark rev (if decide (d = rev) then u else t) ms).
    destruct (IH tk' rev (n + Zb (bool_decide (d = rev)))) as (E1 & E2 & E3 & E4).
    + lia.
    + lia.
    + rewrite Hctx. case_decide; [rewrite bool_decide_eq_true_2 by done|rewrite bool_decide_eq_false_2 by done].
      * destruct (talk_ctx (Zb rev) tk). simpl in *. rewrite wrap_small by (unfold unsigned; lia). by subst.
      * by rewrite Z.add_0_r.
    + rewrite Hw'. case_bool_decide; simpl; lia.
    + rewrite E1, E2, E3, E4, Hctx, Hw'. split_and!; [simpl; lia|lia| |].
      * by case_decide; destruct (talk_ctx (Zb rev) tk).
      * by case_decide; destruct (talk_ctx (Zb rev) tk).
Qed.

(** ** The rounds of a crew

    A worker's round: the duration of its own stream and the marks of the others, those
    recorded before and after its own; [serial_now] tells whether it is the serial worker
    when the round is repeated. *)
Record crew_round := { own : Z; before : list mark; after : list mark; serial_now : bool }.

Section crew.
Context (cfg : ubwt_config) (d : bool).

(** All the marks of the round. *)
Definition marks (r : crew_round) : list mark :=
  before r ++ (if weak cfg (own r) then [(d, own r)] else []) ++ after r.

(** The decision of the workers on the marks of a round, and the count of the next one. *)
Definition decides (ms : list mark) : bool :=
  negb (bool_decide (ms = [])) &&
  (if truth (asynchronous cfg) then (tally false ms =? worker_count cfg / 2) || (tally true ms =? worker_count cfg / 2)
   else tally d ms =? worker_count cfg).

Definition recounts_after (ms : list mark) : bool := tally d ms =? worker_count cfg / (1 + asynchronous cfg).

Definition next_count (ms : list mark) (C : Z) : Z :=
  if recounts_after ms then weak_count cfg (last_mark d 0 ms) C else C.

(** The rounds of a worker, the first one of [C] packets: the crew repeats all but the
    last. *)
Inductive crew_session : Z -> list crew_round -> Prop :=
| crew_last C r :
    0 < C < 1000000000 -> u64 (own r) -> Z.of_nat (length (marks r)) < 2 ^ 32 ->
    decides (marks r) = false -> crew_session C [r]
| crew_again C r rs :
    0 < C < 1000000000 -> u64 (own r) -> Z.of_nat (length (marks r)) < 2 ^ 32 ->
    decides (marks r) = true -> 100 <= next_count (marks r) C ->
    crew_session (next_count (marks r) C) rs -> crew_session C (r :: rs).

Fixpoint crew_rounds (C : Z) (rs : list crew_round) : list (Z * Z) :=
  match rs with
  | [] => []
  | r :: rs => (C, own r) :: crew_rounds (next_count (marks r) C) rs
  end.

(** ** What the others do at the barriers *)

Definition does (f : talk_shared -> talk_shared) : sync := {| serial := false; others := f |}.

Definition idle : sync := does (fun tk => tk).

(** The reset of a round: in asynchronous mode those of the other direction reset theirs. *)
Definition all_reset (tk : talk_shared) : talk_shared :=
  if truth (asynchronous cfg) then talk_reset (Zb false) (talk_reset (Zb true) tk) else talk_reset (Zb d) tk.

Definition stream_script (r : crew_round) : list sync :=
  [idle; does all_reset; idle] ++ (if truth (asynchronous cfg) then [idle] else []) ++
  [does (marked (before r)); does (marked (after r))].

(** The serial worker of a direction sets the count. *)
Definition serially (s : bool) (f : talk_shared -> talk_shared) : list sync :=
  [{| serial := s; others := fun tk => tk |}; does (if s then fun tk => tk else f)].

Definition count_first : talk_shared -> talk_shared :=
  talk_ctx_update (Zb d) (fun c => c {{ talk_ctx_count := talk_count_current cfg }}).

Definition count_next (tk : talk_shared) : talk_shared :=
  if recounts cfg (Zb d) tk then recount cfg (Zb d) tk else tk.

Fixpoint sender_script (rs : list crew_round) : list sync :=
  match rs with
  | [] => []
  | r :: rs => stream_script r ++ serially (serial_now r) count_next ++ sender_script rs
  end.

Definition receiver_script (rs : list crew_round) : list sync := rs ≫= stream_script.

End crew.

Section sessions.
Context (b : build) (cfg : ubwt_config) (d : bool).
Context (Hmt : mt b = true).

(** The contexts after the stream of a round. *)
Lemma after_stream_crew r tk l :
  after_stream b cfg (Zb d) (own r) (tk, stream_script cfg d r ++ l) =
    (marked (marks cfg d r) (all_reset cfg d (talk_reset (Zb d) tk)), l).
Proof.
  unfold after_stream, stream_over, stream_start, waited_async, waited_mt, stream_script, marks, marked.
  rewrite Hmt, !foldl_app. by destruct (truth (asynchronous cfg)), (weak cfg (own r)).
Qed.

Lemma all_reset_facts tk rev :
  let tk' := all_reset cfg d (talk_reset (Zb d) tk) in
  talk_weak tk' = 0 /\ (truth (asynchronous cfg) = true \/ rev = d -> im_weak (talk_ctx (Zb rev) tk') = 0) /\
  weak_time (talk_ctx (Zb d) tk') = 0 /\ talk_ctx_count (talk_ctx (Zb d) tk') = talk_ctx_count (talk_ctx (Zb d) tk).
Proof.
  unfold all_reset, talk_reset, talk_ctx_update. destruct tk as [? [] []].
  destruct (truth (asynchronous cfg)), d, rev; split_and!; try done; by intros [].
Qed.

(** What the workers read in them. *)
Lemma crew_stream_facts r tk l :
  Z.of_nat (length (marks cfg d r)) < 2 ^ 32 ->
  let y := marked (marks cfg d r) (all_reset cfg d (talk_reset (Zb d) tk)) in
  again b cfg (Zb d) (y, l) = decides cfg d (marks cfg d r) /\
  talk_ctx_count (talk_ctx (Zb d) y) = talk_ctx_count (talk_ctx (Zb d) tk) /\
  recounts cfg (Zb d) y = recounts_after cfg d (marks cfg d r) /\
  weak_time (talk_ctx (Zb d) y) = last_mark d 0 (marks cfg d r).
Proof.
  intros Hlen y. set (ms := marks cfg d r) in *. set (tk' := all_reset cfg d (talk_reset (Zb d) tk)) in *.
  pose proof (fun rev => all_reset_facts tk rev) as F. fold tk' in F. cbv zeta in F.
  destruct (F d) as (Hw & Hi & Ht & Hc). specialize (Hi (or_intror eq_refl)).
  assert (forall rev, im_weak (talk_ctx (Zb rev) tk') = 0 ->
    talk_weak y = Z.of_nat (length ms) /\ im_weak (talk_ctx (Zb rev) y) = tally rev ms /\
    talk_ctx_count (talk_ctx (Zb rev) y) = talk_ctx_count (talk_ctx (Zb rev) tk') /\
    weak_time (talk_ctx (Zb rev) y) = last_mark rev (weak_time (talk_ctx (Zb rev) tk')) ms) as M.
  { intros rev Hrev. destruct (marked_facts ms tk' rev 0) as (E1 & E2 & E3 & E4); rewrite ?Hw; try done; try lia.
    by rewrite Hw in E1. }
  destruct (M d Hi) as (E1 & E2 & E3 & E4). rewrite Hc in E3. rewrite Ht in E4. split_and!; [|done| |done].
  - unfold again, any_weak, restarts, decides. cbn [fst]. rewrite Hmt, E1, E2. f_equal.
    + destruct ms; [done|]. rewrite bool_decide_eq_false_2 by done. cbn [negb]. apply Z.ltb_lt. cbn [length]. lia.
    + destruct (truth (asynchronous cfg)) eqn:Ha; [|done].
      destruct (M false (proj1 (proj2 (F false)) (or_introl eq_refl))) as (_ & Es & _).
      destruct (M true (proj1 (proj2 (F true)) (or_introl eq_refl))) as (_ & Er & _).
      change (talk_ctx (Zb false) y) with (talk_straight y) in Es. change (talk_ctx (Zb true) y) with (talk_reverse y) in Er.
      by rewrite Es, Er.
  - unfold recounts, recounts_after. by rewrite E2.
Qed.

(** The decision after the stream of a round. *)
Lemma again_crew r tk l :
  Z.of_nat (length (marks cfg d r)) < 2 ^ 32 ->
  again b cfg (Zb d) (after_stream b cfg (Zb d) (own r) (tk, stream_script cfg d r ++ l)) = decides cfg d (marks cfg d r).
Proof. intros Hlen. rewrite after_stream_crew. by destruct (crew_stream_facts r tk l Hlen) as [-> _]. Qed.

Lemma restarted_crew s y l :
  restarted b cfg (Zb d) (y, serially s (count_next cfg d) ++ l) = (count_next cfg d y, l).
Proof. unfold restarted, serially, count_next. rewrite Hmt. destruct s; [|done]. by destruct (recounts cfg (Zb d) y) eqn:E; simpl; rewrite E. Qed.

Lemma count_next_count ms y :
  recounts cfg (Zb d) y = recounts_after cfg d ms -> weak_time (talk_ctx (Zb d) y) = last_mark d 0 ms ->
  talk_ctx_count (talk_ctx (Zb d) (count_next cfg d y)) = next_count cfg d ms (talk_ctx_count (talk_ctx (Zb d) y)).
Proof.
  intros Hr Hw. unfold count_next, next_count. rewrite Hr, <- Hw. destruct (recounts_after _ _ _); [|done].
  unfold recount, talk_ctx_update. by destruct y, d.
Qed.

Lemma crew_sender C rs :
  crew_session cfg d C rs -> forall tk l, talk_ctx_count (talk_ctx (Zb d) tk) = C ->
  sender_session b cfg (Zb d) (tk, sender_script cfg d rs ++ l) (crew_rounds cfg d C rs).
Proof.
  induction 1 as [C r HC Ht Hlen Hd|C r rs HC Ht Hlen Hd Hmin Hsess IH]; intros tk l Hcount.
  - change (sender_script cfg d [r] ++ l) with ((stream_script cfg d r ++ serially (serial_now r) (count_next cfg d)) ++ l).
    rewrite <- app_assoc. apply sender_last; try done. by rewrite again_crew.
  - cbn [sender_script crew_rounds]. rewrite <- !app_assoc. set (l' := sender_script cfg d rs ++ l).
    destruct (crew_stream_facts r tk (serially (serial_now r) (count_next cfg d) ++ l') Hlen) as (Ha & Hc & Hr & Hw).
    pose proof (count_next_count _ _ Hr Hw) as Hn. rewrite Hc, Hcount in Hn.
    apply sender_again; rewrite ?after_stream_crew, ?restarted_crew; try done.
    + by rewrite Ha.
    + unfold count_of. cbn [fst]. by rewrite Hn.
    + by apply IH.
Qed.

End sessions.

(** ** Both ends *)

(** The same round seen by the workers of a pair: the stream takes the same time, and the
    others record the same marks, in whatever order and at whatever point. *)
Record same_round (cfg : ubwt_config) (d : bool) (r r' : crew_round) : Prop := {
  same_own : own r' = own r;
  same_marks : Permutation (marks cfg d r') (marks cfg d r)
}.

(** What the receivers' end decides depends on the marks as a multiset. *)
#[export] Instance decides_proper cfg d : Proper (Permutation ==> eq) (decides cfg d).
Proof.
  intros ms ms' H. unfold decides. rewrite (tally_proper false _ _ H), (tally_proper true _ _ H), (tally_proper d _ _ H).
  f_equal. f_equal. apply bool_decide_ext. split; intros ->.
  - by apply Permutation_nil in H.
  - symmetry in H. by apply Permutation_nil in H.
Qed.

(** The receiver goes through the rounds of its sender: it learns their counts. *)
Lemma crew_receiver_paired b cfg d C rs : mt b = true ->
  crew_session cfg d C rs -> forall rs', Forall2 (same_round cfg d) rs rs' ->
  forall tk l, receiver_session b cfg (Zb d) (tk, receiver_script cfg d rs' ++ l) (crew_rounds cfg d C rs).
Proof.
  intros Hmt. induction 1 as [C r HC Ht Hlen Hd|C r rs HC Ht Hlen Hd Hmin Hsess IH]; intros rs' Hf tk l;
    inversion Hf as [|? r' ? rs'' [Ho Hm] Hf']; subst.
  - inversion Hf'; subst. apply receiver_last; try done. cbn [receiver_script mbind list_bind].
    by rewrite <- app_assoc, <- Ho, again_crew, Hm by (by rewrite ?Hm).
  - apply receiver_again; try done; cbn [receiver_script mbind list_bind]; rewrite <- app_assoc, <- Ho.
    + by rewrite again_crew, Hm by (by rewrite ?Hm).
    + rewrite after_stream_crew by done. by apply IH.
Qed.

(** The ends agree on what the crews decide. *)
Lemma same_talk_crew cfg cfg' d : same_talk cfg cfg' -> worker_count cfg' = worker_count cfg ->
  (forall r, marks cfg' d r = marks cfg d r) /\ (forall ms, decides cfg' d ms = decides cfg d ms) /\
  (forall ms C, next_count cfg' d ms C = next_count cfg d ms C).
Proof.
  intros H Hn. destruct (same_talk_weak _ _ H) as (Hw & _ & Hc).
  unfold marks, decides, next_count, recounts_after. rewrite (same_async _ _ H), Hn.
  split_and!; intros; by rewrite ?Hw, ?Hc.
Qed.

Lemma same_talk_crew_session cfg cfg' d C rs :
  same_talk cfg cfg' -> worker_count cfg' = worker_count cfg ->
  crew_session cfg d C rs -> crew_session cfg' d C rs /\ crew_rounds cfg' d C rs = crew_rounds cfg d C rs.
Proof.
  intros H Hn. destruct (same_talk_crew _ _ d H Hn) as (Hm & Hd & Hc).
  induction 1 as [C r HC Ht Hlen Hdec|C r rs HC Ht Hlen Hdec Hmin Hsess [IH1 IH2]].
  - split; [apply crew_last; by rewrite ?Hm, ?Hd|done].
  - split; [|cbn [crew_rounds]; by rewrite Hm, Hc, IH2].
    apply crew_again; rewrite ?Hm, ?Hd, ?Hc; done.
Qed.

Lemma crew_rounds_own cfg d C rs : map snd (crew_rounds cfg d C rs) = map own rs.
Proof. revert C. induction rs as [|r rs IH]; intros C; [done|]. simpl. by rewrite IH. Qed.

(** What the others do before the first round. *)
Definition sender_crew (cfg : ubwt_config) (d first : bool) (rs : list crew_round) : list sync :=
  idle :: serially first (count_first cfg d) ++ sender_script cfg d rs.

Definition receiver_crew (cfg : ubwt_config) (d : bool) (rs : list crew_round) : list sync :=
  idle :: receiver_script cfg d rs.

Lemma sender_start_crew b cfg d first rs tk : mt b = true ->
  exists tk', sender_start b cfg (Zb d) (tk, sender_crew cfg d first rs) = (tk', sender_script cfg d rs) /\
    talk_ctx_count (talk_ctx (Zb d) tk') = talk_count_current cfg.
Proof.
  intros Hmt. unfold sender_start, sender_crew, waited_mt. rewrite Hmt. eexists. split; [by destruct first|].
  unfold talk_ctx_update. destruct tk. by destruct first, d.
Qed.


(** Two workers a side.  In the first round the streams take 0.5 and 0.6 seconds, and the
    other worker's mark comes last at the senders: 200 packets follow, in 2 seconds.  The
    other stream is too short again, and the round is not repeated. *)
Definition pair_config (connect : Z) : ubwt_config := (demo_config connect) {{ worker_count := 2 }}.

Definition pair_thread (connect wid : Z) (input : list rx) (l : list sync) : thread :=
  (demo_thread connect wid input) {{ k_sync := l; cur ::= fun c => c {{ config := pair_config connect }} }}.

Definition pair_rounds : list crew_round :=
  [{| own := 500000; before := []; after := [(false, 600000)]; serial_now := false |};
   {| own := 2000000; before := [(false, 900000)]; after := []; serial_now := true |}].

(** The same rounds at the receivers. *)
Definition pair_rounds' : list crew_round :=
  [{| own := 500000; before := [(false, 600000)]; after := []; serial_now := true |};
   {| own := 2000000; before := []; after := [(false, 900000)]; serial_now := false |}].

Lemma pair_session : crew_session (pair_config 1) false 100 pair_rounds.
Proof.
  apply crew_again; [lia|split; vm_compute; congruence|by vm_compute|by vm_compute|by vm_compute|].
  replace (next_count _ _ _ _) with 200 by (by vm_compute).
  apply crew_last; [lia|split; vm_compute; congruence|by vm_compute|by vm_compute].
Qed.

Lemma pair_same : Forall2 (same_round (pair_config 1) false) pair_rounds pair_rounds'.
Proof. repeat constructor. Qed.

Lemma pair_at connect wid input l : u64 wid -> Forall rx_good input ->
  at_stage (P := anyone) (pair_config connect) UBWT_STAGE_STATE_NONE (pair_thread connect wid input l).
Proof. intros Hw Hr. constructor; [constructor; simpl; try done; by repeat constructor|done..]. Qed.

