(* ===== verification/TalkFail.v ===== *)
(** A failure at one end ends both: what [_talk_send_abort] sends makes the peer fail
    where it waits, whatever it waits for. *)

From S2P Require Import Prelude Bitops Errors Byteorder Layout ConfigData Usage Double Report Stage Thread Config ConfigSpec Conn Net NetSpec Talk TalkSpec TalkRounds TalkComplete.

(** The process ends with the error [t]. *)
Definition ends {A : Type} (t : ubwt_error_type_t) (m : M A) (s : thread) : Prop :=
  exists s', m s = Halted (Exited EXIT_FAILURE (Some t)) s'.

Lemma ends_bind {A B : Type} t (m : M A) (f : A -> M B) s a s1 :
  m s = Done a s1 -> ends t (f a) s1 -> ends t (m ≫= f) s.
Proof. intros H [s' Hf]. exists s'. by rewrite (bind_Done _ _ _ _ _ H). Qed.

Lemma ends_bind_l {A B : Type} t (m : M A) (f : A -> M B) s : ends t m s -> ends t (m ≫= f) s.
Proof. intros [s' H]. exists s'. by rewrite (bind_Halted _ _ _ _ _ H). Qed.

Lemma fatal_ends {A : Type} t o s : ends t (@fatal_error A t o) s.
Proof. eexists. reflexivity. Qed.

Section fail.
Context {P : list sync -> Prop} {HP : Tailed P}.
Context (big : bool) (b : build) (cfg : ubwt_config).
Context (Hs : tcp_talk cfg).

Abbreviation at_stage := (at_stage (P := P) cfg).

Lemma m_abort_ok : p_ok m_abort.
Proof. solve_p_ok. Qed.

(** The failing end tells its peer, and ends with its own error. *)
Lemma abort_talk_run {A : Type} t o st s :
  at_stage st s ->
  exists s', @abort_talk big b A t o s = Halted (Exited EXIT_FAILURE (Some t)) s' /\
    concat (k_sent s') = concat (k_sent s) ++ msg_bytes (mt b) (worker_id (cur s)) (talk_len (cur s)) m_abort /\
    (errno s <> E0 -> l_errno (error (cur s')) = errno_value (errno s)).
Proof.
  intros Hst. unfold abort_talk, _talk_send_abort. fold m_abort. rewrite bind_assoc, get_bind, bind_assoc.
  destruct (at_send big b cfg st s m_abort Hst m_abort_ok) as (s1 & [H1 S1] & _). rewrite (bind_Done _ _ _ _ _ H1).
  pose proof (st_out _ _ _ _ _ _ S1) as Hout.
  case_decide as He; (eexists; split; [reflexivity|]); split; done.
Qed.

Lemma abort_talk_ends {A : Type} t o st s : at_stage st s -> ends t (@abort_talk big b A t o) s.
Proof. intros Hst. destruct (@abort_talk_run A t o st s Hst) as (s' & H & _). by exists s'. Qed.

(** ** The peer *)

(** [y] waits for a message, and the next one in its input is the peer's abort. *)
Record aborted (st : ubwt_stage_state_t) (m : bool) (wid : Z) (rest : list Z) (y : thread) : Prop := {
  ab_stage : at_stage st y;
  ab_wid : u64 wid;
  ab_rx : rx_data (k_rx y) = msg_bytes m wid (talk_len (cur y)) m_abort ++ rest
}.

Lemma aborted_recv st m wid rest y pkt :
  aborted st m wid rest y ->
  exists p' y', _talk_recv big b pkt y = Done (-1, p') y' /\ at_stage st y' /\ errno y' = UBWT_ERROR_ABORT.
Proof.
  intros [Hst Hwid Hrx].
  destruct (recv_abort (P := P) big b pkt y m wid rest) as (p' & y' & H & He & Hc & Hio & _); try done.
  - apply Hst.
  - by eapply at_tcp.
  - by eapply talk_len_ge.
  - exists p', y'. split_and!; [done| |done]. destruct Hst. constructor; rewrite ?Hc; try done; unfold set_remote; by destruct (mt b).
Qed.

Lemma critical_run t o st y :
  at_stage st y -> exists y', critical t o y = Done tt y' /\ at_stage st y' /\ errno y' = errno y.
Proof. intros [[] ? ? ?]. eexists. split; [reflexivity|]. split; [|done]. constructor; [by constructor|done..]. Qed.

(** A phase that starts by receiving fails, with the errno of an abort. *)
Definition phase_fails {A : Type} (m : M A) (r : A) (st : ubwt_stage_state_t) (y : thread) : Prop :=
  exists y', m y = Done r y' /\ at_stage st y' /\ errno y' = UBWT_ERROR_ABORT.

Lemma phase_fails_intro {A : Type} (f : Z * ubwt_talk_payload_t -> M A) pkt t o r st m wid rest y :
  aborted st m wid rest y -> (forall p s, f (-1, p) s = (critical t o ;; mret r) s) ->
  phase_fails (_talk_recv big b pkt ≫= f) r st y.
Proof.
  intros Hab Hf. destruct (aborted_recv st m wid rest y pkt Hab) as (p' & y1 & H1 & Hst1 & He1).
  destruct (critical_run t o st y1 Hst1) as (y2 & H2 & Hst2 & He2).
  exists y2. rewrite (bind_Done _ _ _ _ _ H1), Hf, (bind_Done _ _ _ _ _ H2). split_and!; [done|done|congruence].
Qed.

Lemma receiver_handshake_fails m wid rest y :
  aborted hs m wid rest y -> phase_fails (_talk_receiver_handshake big b) (-1) hs y.
Proof.
  intros Hab. unfold _talk_receiver_handshake, current_of, phase_fails. rewrite get_bind.
  by eapply phase_fails_intro.
Qed.

Lemma receiver_negotiate_fails st m wid rest y :
  aborted st m wid rest y -> phase_fails (_talk_receiver_negotiate big b) None st y.
Proof. intros Hab. unfold _talk_receiver_negotiate. by eapply phase_fails_intro. Qed.

Lemma report_exchange_fails st m wid rest y :
  aborted st m wid rest y -> phase_fails (_talk_sender_report_exchange big b) (-1) st y.
Proof.
  intros Hab. unfold _talk_sender_report_exchange, current_of, phase_fails. rewrite get_bind.
  by eapply phase_fails_intro.
Qed.

Lemma sender_stream_fails count st m wid rest y :
  aborted st m wid rest y -> phase_fails (_talk_sender_stream big b count) (-1) st y.
Proof.
  intros Hab. unfold _talk_sender_stream, process_get_reverse, current_of, phase_fails. rewrite !get_bind. cbv zeta.
  by eapply phase_fails_intro.
Qed.

(** Within a stream, the packets after the first are awaited in a loop. *)
Lemma recv_packets_end n i len p st m wid rest y :
  aborted st m wid rest y -> ends UBWT_ERROR_TYPE_TALK_RECV_FAILED (recv_packets big b (S n) i len p) y.
Proof.
  intros Hab. destruct (aborted_recv st m wid rest y p Hab) as (p' & y1 & H1 & Hst1 & He1).
  cbn [recv_packets]. eapply ends_bind; [exact H1|]. cbv beta iota. change (-1 <? 0) with true. cbv iota.
  eapply ends_bind; [reflexivity|]. rewrite He1. rewrite bool_decide_eq_false_2 by done. rewrite andb_false_r.
  apply fatal_ends.
Qed.

Lemma receiver_handshakes_end n m wid rest y :
  aborted hs m wid rest y -> ends UBWT_ERROR_TYPE_TALK_HANDSHAKE_FAILED (receiver_handshakes big b (S n)) y.
Proof.
  intros Hab. destruct (receiver_handshake_fails m wid rest y Hab) as (y1 & H1 & Hst1 & _).
  cbn [receiver_handshakes]. eapply ends_bind; [exact H1|]. by eapply abort_talk_ends.
Qed.

Lemma sender_handshakes_end n dt m wid rest y :
  aborted hs m wid rest y -> k_clock y (k_tick y) <> None ->
  ends UBWT_ERROR_TYPE_TALK_HANDSHAKE_FAILED (sender_handshakes big b (S n) dt) y.
Proof.
  intros [Hst Hwid Hrx] Hclk.
  assert (phase_fails (_talk_sender_handshake big b) (-1) hs y) as (y1 & H1 & Hst1 & _).
  { unfold _talk_sender_handshake, current_of, phase_fails. rewrite get_bind.
    destruct (runs_time (P := P) y) as (y1 & [H1 S1]); [apply Hst|done|]. rewrite (bind_Done _ _ _ _ _ H1).
    pose proof (at_step _ _ _ _ _ _ _ Hst S1) as Hst1. cbv zeta.
    destruct (at_send big b cfg hs y1 (m_ping (talk_handshake_iter (config (cur y)))) Hst1) as (y2 & [H2 S2] & Hst2).
    { apply m_ping_ok. rewrite (at_config _ _ _ Hst). pose proof (talk_iter _ Hs). unfold unsigned. lia. }
    unfold m_ping in H2. rewrite (bind_Done _ _ _ _ _ H2), of_nat_ltb_0.
    eapply phase_fails_intro; [|done]. constructor; [done|exact Hwid|].
    pose proof (st_in _ _ _ _ _ _ S1) as E1. pose proof (st_in _ _ _ _ _ _ S2) as E2. simpl in E1, E2.
    rewrite <- E2, <- E1, Hrx. by rewrite (st_cur _ _ _ _ _ _ S2), (st_cur _ _ _ _ _ _ S1). }
  cbn [sender_handshakes]. eapply ends_bind; [exact H1|]. by eapply abort_talk_ends.
Qed.

Lemma aborted_stage st st' m wid rest y f :
  aborted st m wid rest y -> st <> hs -> st' <> hs ->
  exists y', t_stage_set st' f y = Done tt y' /\ aborted st' m wid rest y'.
Proof.
  intros [Hst Hwid Hrx] Hne Hne'. eexists. split; [reflexivity|].
  assert (at_stage st' (y {{ cur ::= fun c => c {{ stage ::= fun x => fst (stage_set st' f x) }} }})) as Hst'.
  { destruct Hst as [[] ? ? ?]. constructor; [by constructor|done..]. }
  constructor; [exact Hst'|exact Hwid|].
  pose proof (at_len _ Hs _ _ Hst) as L. pose proof (at_len _ Hs _ _ Hst') as L'.
  rewrite decide_False in L by done. rewrite decide_False in L' by done. rewrite L'. rewrite L in Hrx. exact Hrx.
Qed.

Lemma receiver_rounds_end n st m wid rest y :
  aborted st m wid rest y -> st <> hs ->
  ends UBWT_ERROR_TYPE_TALK_NEGOTIATION_FAILED (receiver_rounds big b (S n)) y.
Proof.
  intros Hab Hne. cbn [receiver_rounds].
  destruct (aborted_stage st UBWT_STAGE_STATE_RUNTIME_TALK_NEGOTIATION m wid rest y no_reset Hab Hne) as (y1 & H1 & Hab1); [done|].
  eapply ends_bind; [exact H1|]. destruct (receiver_negotiate_fails _ m wid rest y1 Hab1) as (y2 & H2 & Hst2 & _).
  eapply ends_bind; [exact H2|]. by eapply abort_talk_ends.
Qed.

(** The sender that waits for the report. *)
Lemma sender_end_fails st m wid rest y :
  aborted st m wid rest y -> st <> hs ->
  ends UBWT_ERROR_TYPE_TALK_REPORT_EXCHANGE_FAILED (talk_sender_end big b) y.
Proof.
  intros Hab Hne. unfold talk_sender_end.
  destruct (aborted_stage st UBWT_STAGE_STATE_RUNTIME_TALK_REPORT_EXCHANGE m wid rest y 0 Hab Hne) as (y1 & H1 & Hab1); [done|].
  eapply ends_bind; [exact H1|]. destruct (report_exchange_fails _ m wid rest y1 Hab1) as (y2 & H2 & Hst2 & _).
  eapply ends_bind; [exact H2|]. by eapply abort_talk_ends.
Qed.

Lemma aborted_moves st m wid rest y y' :
  aborted st m wid rest y -> at_stage st y' -> rx_data (k_rx y') = rx_data (k_rx y) -> aborted st m wid rest y'.
Proof.
  intros [Hst Hwid Hrx] Hst' E. constructor; [done|done|].
  by rewrite E, Hrx, (at_len _ Hs _ _ Hst), (at_len _ Hs _ _ Hst').
Qed.

Lemma aborted_negotiate count latency st m wid rest y :
  aborted st m wid rest y -> u32 count -> u32 latency ->
  exists y', _talk_sender_negotiate big b count latency y = Done 0 y' /\ aborted st m wid rest y'.
Proof.
  intros Hab Hc Hl. pose proof (ab_stage _ _ _ _ _ Hab) as Hst. unfold _talk_sender_negotiate. cbv zeta.
  fold (m_negotiate count latency).
  destruct (at_send big b cfg st y (m_negotiate count latency) Hst) as (y' & [H S] & Hst'); [auto with ubwt|].
  exists y'. rewrite (bind_Done _ _ _ _ _ H), of_nat_ltb_0. split; [done|].
  apply (aborted_moves st m wid rest y); [done|done|]. pose proof (st_in _ _ _ _ _ _ S) as E. by simpl in E.
Qed.

Lemma sender_rounds_end n st m wid rest y :
  aborted st m wid rest y -> st <> hs -> u32 (report_talk_latency_get (report (cur y))) ->
  ends UBWT_ERROR_TYPE_TALK_STREAM_FAILED (sender_rounds big b (S n)) y.
Proof.
  intros Hab Hne Hlat. cbn [sender_rounds].
  destruct (aborted_stage st UBWT_STAGE_STATE_RUNTIME_TALK_NEGOTIATION m wid rest y no_reset Hab Hne) as (y1 & H1 & Hab1); [done|].
  assert (u32 (report_talk_latency_get (report (cur y1)))) as Hlat1 by (by injection H1 as <-).
  eapply ends_bind; [exact H1|]. eapply ends_bind; [reflexivity|]. eapply ends_bind; [reflexivity|].
  match goal with |- ends _ (_talk_sender_negotiate _ _ (wrap 32 ?c) ?l ≫= _) _ =>
    destruct (aborted_negotiate (wrap 32 c) l _ m wid rest y1 Hab1) as (y2 & H2 & Hab2); [by apply wrap_range|done|] end.
  eapply ends_bind; [exact H2|]. change (0 <? 0) with false. cbv iota. eapply ends_bind; [reflexivity|].
  eapply ends_bind; [reflexivity|].
  match goal with |- ends _ _ ?z => assert (aborted UBWT_STAGE_STATE_RUNTIME_TALK_NEGOTIATION m wid rest z) as Hab3 end.
  { apply (aborted_moves _ m wid rest y2); [done| |done]. destruct Hab2 as [[[] ? ? ?] _ _]. constructor; [by constructor|done..]. }
  match goal with |- ends _ _ ?z =>
    destruct (aborted_stage _ UBWT_STAGE_STATE_RUNTIME_TALK_STREAM m wid rest z no_reset Hab3) as (y4 & H4 & Hab4); [done|done|] end.
  eapply ends_bind; [exact H4|]. eapply ends_bind; [reflexivity|].
  match goal with |- ends _ (_talk_sender_stream _ _ ?c ≫= _) _ =>
    destruct (sender_stream_fails c _ m wid rest y4 Hab4) as (y5 & H5 & Hst5 & _) end.
  eapply ends_bind; [exact H5|]. by eapply abort_talk_ends.
Qed.

End fail.

(** C6: a failure at one end ends both.  When a phase fails, [abort_talk] sends the peer
    one message of the size the peer waits for, ends the process, and reports the
    error of the failure, not of the notice.  The two ends talk over TCP with the default
    payload (no buffer given with -P), are both in the handshake or both after it, and
    the writes are taken.  Where the peer then waits for a message, the notice makes
    [_talk_recv] return -1 with ECANCELED.  So the peer's process ends with a fatal
    error: in the handshake, in either role; after it, at a receiver that waits for the
    next negotiation or for a packet of the stream, and at a sender that begins a round,
    where it waits for the start of the stream, or that waits for the report.  (A
    receiver that waits for the farewell only logs a warning, as the code has it.) *)
Theorem failure_reaches_peer big b cfg big' b' cfg' t o st s st' y rest :
  tcp_talk cfg -> tcp_talk cfg' -> at_stage (P := anyone) cfg st s -> at_stage (P := anyone) cfg' st' y ->
  (st = hs <-> st' = hs) ->
  let msg := msg_bytes (mt b) (worker_id (cur s)) (talk_len (cur s)) m_abort in
  rx_data (k_rx y) = msg ++ rest ->
  (exists s', @abort_talk big b unit t o s = Halted (Exited EXIT_FAILURE (Some t)) s' /\
    concat (k_sent s') = concat (k_sent s) ++ msg /\
    (errno s <> E0 -> l_errno (error (cur s')) = errno_value (errno s))) /\
  (forall pkt, exists p' y', _talk_recv big' b' pkt y = Done (-1, p') y' /\ errno y' = ECANCELED) /\
  (st' = hs -> forall n,
    ends UBWT_ERROR_TYPE_TALK_HANDSHAKE_FAILED (receiver_handshakes big' b' (S n)) y /\
    (k_clock y (k_tick y) <> None -> forall dt,
      ends UBWT_ERROR_TYPE_TALK_HANDSHAKE_FAILED (sender_handshakes big' b' (S n) dt) y)) /\
  (st' <> hs -> forall n,
    ends UBWT_ERROR_TYPE_TALK_NEGOTIATION_FAILED (receiver_rounds big' b' (S n)) y /\
    (u32 (report_talk_latency_get (report (cur y))) ->
      ends UBWT_ERROR_TYPE_TALK_STREAM_FAILED (sender_rounds big' b' (S n)) y) /\
    (forall i len p, ends UBWT_ERROR_TYPE_TALK_RECV_FAILED (recv_packets big' b' (S n) i len p) y) /\
    ends UBWT_ERROR_TYPE_TALK_REPORT_EXCHANGE_FAILED (talk_sender_end big' b') y).
Proof.
  intros Hs Hs' Hst Hst' Hsame msg Hrx.
  assert (aborted (P := anyone) cfg' st' (mt b) (worker_id (cur s)) rest y) as Hab.
  { constructor; [done|apply Hst|]. rewrite Hrx. subst msg. f_equal. f_equal.
    rewrite (at_len _ Hs _ _ Hst), (at_len _ Hs' _ _ Hst'). by repeat case_decide; intuition. }
  split_and!.
  - by eapply abort_talk_run.
  - intros pkt. destruct (aborted_recv big' b' cfg' Hs' _ _ _ _ y pkt Hab) as (p' & y' & ? & _ & ?). by exists p', y'.
  - intros -> n. split; [by eapply receiver_handshakes_end|]. intros. by eapply sender_handshakes_end.
  - intros Hne n. split_and!.
    + by eapply receiver_rounds_end.
    + intros. by eapply sender_rounds_end.
    + intros. by eapply recv_packets_end.
    + by eapply sender_end_fails.
Qed.

Definition demo_stage (st : ubwt_stage_state_t) (e : errno_t) (s : thread) : thread :=
  s {{ errno := e; cur ::= fun c => c {{ stage := {| iter := 0; state := st |} }} }}.

(** The sender fails on an unexpected message while the receiver waits for the next
    negotiation; the notice comes in two pieces. *)
Lemma failure_reaches_peer_witness :
  let s := demo_stage UBWT_STAGE_STATE_RUNTIME_TALK_STREAM EBADE (demo_thread 1 1 []) in
  let msg := msg_bytes true 1 1432 m_abort in
  let y := demo_stage UBWT_STAGE_STATE_RUNTIME_TALK_NEGOTIATION E0
    (demo_thread 0 2 [RxData (take 1000 msg); RxErr EINTR; RxData (drop 1000 msg)]) in
  (exists s', @abort_talk false build_linux unit UBWT_ERROR_TYPE_TALK_STREAM_FAILED "talk_sender()" s =
     Halted (Exited EXIT_FAILURE (Some UBWT_ERROR_TYPE_TALK_STREAM_FAILED)) s' /\
     concat (k_sent s') = msg /\ l_errno (error (cur s')) = 52) /\
  ends UBWT_ERROR_TYPE_TALK_NEGOTIATION_FAILED (receiver_rounds true build_linux 1) y.
Proof.
  intros s msg y.
  destruct (failure_reaches_peer false build_linux (demo_config 1) true build_linux (demo_config 0)
    UBWT_ERROR_TYPE_TALK_STREAM_FAILED "talk_sender()" UBWT_STAGE_STATE_RUNTIME_TALK_STREAM s
    UBWT_STAGE_STATE_RUNTIME_TALK_NEGOTIATION y []) as ((s' & H1 & H2 & H3) & _ & _ & H4).
  - apply demo_single.
  - apply demo_single.
  - constructor; [constructor; simpl; try done; by repeat constructor|done|split; vm_compute; congruence|done].
  - constructor; [constructor; simpl; try done; by repeat constructor|done|split; vm_compute; congruence|done].
  - done.
  - vm_compute. reflexivity.
  - split; [|apply (H4 ltac:(done) 0%nat)]. exists s'. split; [exact H1|]. split; [exact H2|]. by apply H3.
Defined.
