(* ===== verification/Barrier.v ===== *)
(** The barrier of src/worker.c for systems without [pthread_barrier_t]
    ([UBWT_CONFIG_PTHREAD_CUSTOM_BARRIER]): [worker_barrier_init] and
    [worker_barrier_wait] as a transition system of threads that share the barrier.

    A thread is somewhere in [worker_barrier_wait]; a step of the thread goes from
    one call that may block (locking a mutex, waiting for a condition) to the next,
    which no other thread can observe in between because the variables are only
    used under the mutexes.  Waiting threads may also wake up spuriously.  The
    theorems show that no thread leaves a round before all of them have entered
    it, that each round has exactly one serial thread, and that the locks, taken in
    both orders, never deadlock. *)

From S2P Require Import Prelude.

(** Where a caller is: outside of the function, or before one of its calls that may
    block. *)
Inductive place :=
| Outside            (** before the call, and before the lock of [mutex[0]] *)
| Asleep0            (** waiting for [cond[0]] *)
| Woken0             (** signalled, before [mutex[0]] is locked again *)
| Entering           (** holding [mutex[0]], before the lock of [mutex[1]] *)
| Asleep1            (** waiting for [cond[1]] *)
| Woken1             (** signalled, before [mutex[1]] is locked again *)
| Opening            (** first released: holding [mutex[1]], before [mutex[0]] *)
| Closing            (** last released: holding [mutex[1]], before [mutex[0]] *)
| Returned (serial : bool)
| Failed.            (** the assertion failed *)

#[export] Instance place_eq_dec : EqDecision place.
Proof. solve_decision. Defined.

(** A caller, with the number of times it was counted as waiting, it returned, and
    it was the serial one. *)
Record caller := { at_place : place; entered : nat; left : nat; serials : nat }.

(** [ubwt_worker_barrier_t], the owners of its mutexes, and the callers.  The
    threads waiting for a condition are those whose place says so. *)
Record barrier := {
  total : Z;
  count : Z;
  waiting : Z;
  block_r : Z;
  mutex0 : option nat;
  mutex1 : option nat;
  callers : list caller
}.

Definition new_caller : caller := {| at_place := Outside; entered := 0; left := 0; serials := 0 |}.

(** [worker_barrier_init], and [n] threads that are about to call. *)
Definition worker_barrier_init (n : Z) : barrier := {|
  total := n; count := n; waiting := 0; block_r := 0; mutex0 := None; mutex1 := None;
  callers := replicate (Z.to_nat n) new_caller
|}.

Definition update (i : nat) (f : caller -> caller) (s : barrier) : barrier :=
  s {{ callers ::= alter f i }}.

(** The caller at another place, counted, and returning. *)
Definition moved (p : place) (c : caller) : caller :=
  {| at_place := p; entered := entered c; left := left c; serials := serials c |}.
Definition arrived (c : caller) : caller :=
  {| at_place := at_place c; entered := S (entered c); left := left c; serials := serials c |}.
Definition departed (serial : bool) (c : caller) : caller :=
  {| at_place := Returned serial; entered := entered c; left := S (left c);
     serials := if serial then S (serials c) else serials c |}.

Definition goto (i : nat) (p : place) : barrier -> barrier := update i (moved p).

(** [worker_cond_broadcast]: the threads at [p] go to [q]. *)
Definition wake (p q : place) (c : caller) : caller :=
  if decide (at_place c = p) then moved q c else c.

Definition broadcast (p q : place) (s : barrier) : barrier := s {{ callers ::= map (wake p q) }}.

Definition return_from (i : nat) (serial : bool) : barrier -> barrier := update i (departed serial).

(** From the decrements on (lines 164 to 182), holding [mutex[1]]. *)
Definition depart (i : nat) (s : barrier) : barrier :=
  let s := s {{ count ::= fun n => wrap 32 (n - 1); waiting ::= fun n => wrap 32 (n - 1) }} in
  if count s =? 0 then goto i Closing s
  else return_from i false (s {{ mutex1 := None }}).

(** From the test of the loop on [waiting] on, holding [mutex[1]]. *)
Definition check_all (i : nat) (s : barrier) : barrier :=
  if waiting s <? count s then goto i Asleep1 (s {{ mutex1 := None }})
  else if negb (count s =? waiting s) then goto i Failed s
  else if count s =? total s then goto i Opening s
  else depart i s.

(** The step of thread [i], [None] if it is blocked or has nothing to do. *)
Definition worker_barrier_step (i : nat) (s : barrier) : option barrier :=
  c ← callers s !! i;
  match at_place c with
  | Outside | Woken0 =>
      if mutex0 s then None else
      Some (if truth (block_r s) then goto i Asleep0 s
            else goto i Entering (s {{ mutex0 := Some i }}))
  | Entering =>
      if mutex1 s then None else
      Some (check_all i (update i arrived
        (s {{ mutex1 := Some i; waiting ::= fun n => wrap 32 (n + 1); mutex0 := None }})))
  | Woken1 =>
      if mutex1 s then None else Some (check_all i (s {{ mutex1 := Some i }}))
  | Opening =>
      if mutex0 s then None else
      Some (depart i (broadcast Asleep1 Woken1 (s {{ block_r := 1 }})))
  | Closing =>
      if mutex0 s then None else
      Some (return_from i true (broadcast Asleep0 Woken0
        (s {{ block_r := 0; count := total s; mutex1 := None }})))
  | Asleep0 | Asleep1 | Returned _ | Failed => None
  end.

(** The steps of the system: a thread runs, wakes up spuriously, or calls again. *)
Inductive barrier_step : barrier -> barrier -> Prop :=
| step_run i s s' : worker_barrier_step i s = Some s' -> barrier_step s s'
| step_spurious0 i s c : callers s !! i = Some c -> at_place c = Asleep0 -> barrier_step s (goto i Woken0 s)
| step_spurious1 i s c : callers s !! i = Some c -> at_place c = Asleep1 -> barrier_step s (goto i Woken1 s)
| step_call i s c b : callers s !! i = Some c -> at_place c = Returned b -> barrier_step s (goto i Outside s).

Inductive reachable (n : Z) : barrier -> Prop :=
| reach_init : reachable n (worker_barrier_init n)
| reach_step s s' : reachable n s -> barrier_step s s' -> reachable n s'.

(** Threads run in the order of a schedule. *)
Fixpoint run_schedule (order : list nat) (s : barrier) : option barrier :=
  match order with
  | [] => Some s
  | i :: order => s' ← worker_barrier_step i s; run_schedule order s'
  end.

(** ** Counting callers *)

Definition tally (f : caller -> nat) (l : list caller) : nat := sum_list (map f l).

Definition is_at (p : place) (c : caller) : nat := if decide (at_place c = p) then 1%nat else 0%nat.

Definition many (p : place) (s : barrier) : nat := tally (is_at p) (callers s).

Lemma tally_alter f g i l c :
  l !! i = Some c -> (tally f (alter g i l) + f c = tally f l + f (g c))%nat.
Proof.
  revert i. induction l as [|x l IH]; intros [|i] Hc; [done..| |].
  - injection Hc as ->. unfold tally. simpl. lia.
  - specialize (IH i Hc). change (alter g (S i) (x :: l)) with (x :: alter g i l).
    unfold tally in *. rewrite !map_cons. simpl sum_list in *. lia.
Qed.

Lemma tally_map f g l : tally f (map g l) = tally (f ∘ g) l.
Proof. unfold tally. by rewrite map_map. Qed.

Lemma tally_ext f g l : (forall c, c ∈ l -> f c = g c) -> tally f l = tally g l.
Proof.
  induction l as [|x l IH]; intros H; [done|]. unfold tally in *. simpl.
  rewrite H by constructor. f_equal. apply IH. intros. apply H. by constructor.
Qed.

Lemma tally_elem f l i c : l !! i = Some c -> (f c <= tally f l)%nat.
Proof.
  revert i. induction l as [|x l IH]; intros [|i] Hc; simplify_eq/=; unfold tally in *; simpl; [lia|].
  specialize (IH _ Hc). lia.
Qed.

Lemma tally_add f g l : tally (fun c => (f c + g c)%nat) l = (tally f l + tally g l)%nat.
Proof. induction l as [|x l IH]; [done|]. unfold tally in *. simpl. lia. Qed.

Lemma tally_pos f l : (0 < tally f l)%nat -> exists i c, l !! i = Some c /\ (0 < f c)%nat.
Proof.
  induction l as [|x l IH]; unfold tally in *; simpl; [lia|]. intros H.
  destruct (Nat.eq_dec (f x) 0) as [E|E].
  - destruct IH as (i & c & ? & ?); [lia|]. by exists (S i), c.
  - exists 0%nat, x. simpl. split; [done|lia].
Qed.

(** ** The invariant *)

(** Between two openings the callers gather; then they are released until the last
    one closes the barrier. *)
Inductive phase := Gather | Release.

(** A caller in round [g] (the number of rounds that were closed). *)
Definition caller_ok (ph : phase) (g : nat) (c : caller) : Prop :=
  match ph, at_place c with
  | Gather, (Outside | Woken0 | Entering | Returned _) => entered c = g /\ left c = g
  | Gather, (Asleep1 | Woken1 | Opening) => entered c = S g /\ left c = g
  | Release, (Woken1 | Closing) => entered c = S g /\ left c = g
  | Release, (Outside | Asleep0 | Woken0 | Returned _) => entered c = S g /\ left c = S g
  | _, _ => False
  end.

Definition counted (c : caller) : nat :=
  match at_place c with Asleep1 | Woken1 | Opening => 1%nat | _ => 0%nat end.

(** The places that hold each mutex. *)
Definition holds0 (p : place) : bool := match p with Entering => true | _ => false end.
Definition holds1 (p : place) : bool := match p with Opening | Closing => true | _ => false end.

Definition owned (p : place -> bool) (m : option nat) (l : list caller) : Prop :=
  forall i, m = Some i <-> exists c, l !! i = Some c /\ p (at_place c) = true.

Definition phase_ok (n : Z) (ph : phase) (s : barrier) : Prop :=
  match ph with
  | Gather => block_r s = 0 /\ count s = n /\ (mutex1 s = None <-> waiting s < n)
  | Release => block_r s = 1 /\ count s = waiting s /\ count s < n /\ (mutex1 s = None <-> 0 < count s)
  end.

Record barrier_inv (n : Z) (ph : phase) (g : nat) (s : barrier) : Prop := {
  inv_total : total s = n;
  inv_length : Z.of_nat (length (callers s)) = n;
  inv_callers : forall i c, callers s !! i = Some c -> caller_ok ph g c;
  inv_waiting : waiting s = Z.of_nat (tally counted (callers s));
  inv_serials : tally serials (callers s) = g;
  inv_mutex0 : owned holds0 (mutex0 s) (callers s);
  inv_mutex1 : owned holds1 (mutex1 s) (callers s);
  inv_phase : phase_ok n ph s
}.

Lemma tally_le f l : (forall c, (f c <= 1)%nat) -> (tally f l <= length l)%nat.
Proof. intros H. induction l as [|x l IH]; [done|]. unfold tally in *. simpl. specialize (H x). lia. Qed.

Lemma tally_full f l i c : (forall c, (f c <= 1)%nat) -> tally f l = length l -> l !! i = Some c -> f c = 1%nat.
Proof.
  intros H. revert i. induction l as [|x l IH]; intros [|i] Ht Hc; simplify_eq/=;
    pose proof (tally_le f l H); unfold tally in *; simpl in *.
  - specialize (H c). lia.
  - apply (IH i); [|done]. specialize (H x). lia.
Qed.

Lemma counted_le c : (counted c <= 1)%nat.
Proof. unfold counted. destruct (at_place c); lia. Qed.

(** How a mutex changes hands when caller [i] goes from [c] to [c']. *)
Definition handover (p : place -> bool) (i : nat) (c c' : caller) (m m' : option nat) : Prop :=
  m' = (if p (at_place c') then Some i else if p (at_place c) then None else m) /\
  (p (at_place c') = true -> p (at_place c) = true \/ m = None).

Lemma owned_alter p m m' i c c' l :
  owned p m l -> l !! i = Some c -> handover p i c c' m m' -> owned p m' (alter (fun _ => c') i l).
Proof.
  intros Hown Hc [-> Hp] j.
  assert (forall k, p (at_place c) = true -> m = Some k -> k = i) as Huniq.
  { intros k Hpc Hm. assert (m = Some i) as Hi by (apply Hown; by exists c). congruence. }
  destruct (decide (i = j)) as [<-|Hne].
  - rewrite list_lookup_alter, decide_True, Hc by done. simpl.
    destruct (p (at_place c')) eqn:Ec'.
    { split; [|done]. intros _. by exists c'. }
    split.
    + destruct (p (at_place c)) eqn:Ec; [done|]. intros Hm. apply Hown in Hm as (c0 & Hc0 & H0). congruence.
    + intros (c0 & [= <-] & H0). congruence.
  - rewrite list_lookup_alter, decide_False by done. rewrite <- (Hown j).
    destruct (p (at_place c')) eqn:Ec'.
    { split; [intros [= ->]; done|]. intros Hm. destruct (Hp eq_refl) as [H0|H0]; [|congruence].
      by rewrite (Huniq j H0 Hm) in Hne. }
    destruct (p (at_place c)) eqn:Ec; [|done].
    split; [done|]. intros Hm. by rewrite (Huniq j eq_refl Hm) in Hne.
Qed.

(** A step of caller [i] that stays in the phase. *)
Lemma inv_move n ph g s s' i c c' :
  barrier_inv n ph g s -> callers s !! i = Some c -> callers s' = alter (fun _ => c') i (callers s) ->
  total s' = total s -> caller_ok ph g c' -> serials c' = serials c ->
  waiting s' = waiting s - Z.of_nat (counted c) + Z.of_nat (counted c') ->
  handover holds0 i c c' (mutex0 s) (mutex0 s') -> handover holds1 i c c' (mutex1 s) (mutex1 s') ->
  phase_ok n ph s' -> barrier_inv n ph g s'.
Proof.
  intros [] Hc Hcs Ht Hok Hser Hw H0 H1 Hph. constructor; [congruence|..]; try done.
  - by rewrite Hcs, length_alter.
  - intros j cj. rewrite Hcs, list_lookup_alter. case_decide as Hj; [subst j|by apply inv_callers0].
    rewrite Hc. simpl. by intros [= <-].
  - rewrite Hw, Hcs, inv_waiting0. pose proof (tally_alter counted (fun _ => c') i _ _ Hc). lia.
  - rewrite Hcs. pose proof (tally_alter serials (fun _ => c') i _ _ Hc) as E. simpl in E. lia.
  - rewrite Hcs. by eapply owned_alter.
  - rewrite Hcs. by eapply owned_alter.
Qed.

Lemma alter_const (f : caller -> caller) (i : nat) (l : list caller) c : l !! i = Some c -> alter f i l = alter (fun _ => f c) i l.
Proof.
  revert i. induction l as [|x l IH]; intros [|i] Hc; simplify_eq/=; [done|].
  change (x :: alter f i l = x :: alter (fun _ => f c) i l). f_equal. by apply IH.
Qed.

Ltac handover_tac := unfold handover; simpl; repeat match goal with
  | H : at_place _ = _ |- _ => rewrite H end; simpl; first [done|split; [done|intros; by auto]].

(** The count of the waiting callers stays a 32-bit number. *)
Lemma inv_waiting_range n ph g s : barrier_inv n ph g s -> 0 <= waiting s <= n.
Proof.
  intros []. rewrite inv_waiting0. pose proof (tally_le counted (callers s) counted_le). lia.
Qed.

Lemma inv_owner p m l i c : owned p m l -> l !! i = Some c -> p (at_place c) = true -> m = Some i.
Proof. intros Hown Hc Hp. apply Hown. by exists c. Qed.

(** When a caller is about to open the barrier, all of them are counted. *)
Lemma inv_opening n g s i c :
  barrier_inv n Gather g s -> callers s !! i = Some c -> at_place c = Opening ->
  waiting s = n /\ forall j c', callers s !! j = Some c' -> counted c' = 1%nat.
Proof.
  intros H Hc Hp. pose proof (inv_waiting_range _ _ _ _ H). destruct H.
  assert (mutex1 s = Some i) as Hm by (eapply inv_owner; [done..|]; by rewrite Hp).
  destruct inv_phase0 as (_ & _ & Hph).
  assert (waiting s = n) as Hw.
  { destruct (Z.eq_dec (waiting s) n); [done|]. assert (mutex1 s = None) by (apply Hph; lia). congruence. }
  split; [done|]. intros j c' Hc'. eapply tally_full; [apply counted_le| |done]. lia.
Qed.

Lemma step_enter n ph g s s' i c :
  barrier_inv n ph g s -> callers s !! i = Some c -> at_place c = Outside \/ at_place c = Woken0 ->
  worker_barrier_step i s = Some s' -> barrier_inv n ph g s'.
Proof.
  intros H Hc Hp Hs. unfold worker_barrier_step in Hs. rewrite Hc in Hs. simpl in Hs.
  assert (mutex0 s = None) as Hm by (destruct Hp as [Hp|Hp]; rewrite Hp in Hs; by destruct (mutex0 s)).
  pose proof (inv_callers _ _ _ _ H _ _ Hc) as Hok. pose proof (inv_phase _ _ _ _ H) as Hph.
  assert (s' = if truth (block_r s) then goto i Asleep0 s else goto i Entering (s {{ mutex0 := Some i }})) as ->.
  { rewrite Hm in Hs. by destruct Hp as [Hp|Hp]; rewrite Hp in Hs; injection Hs. }
  clear Hs. unfold caller_ok in Hok. destruct ph, Hph as (Hb & Hph); rewrite Hb; simpl.
  - eapply (inv_move _ _ _ _ _ i c (moved Entering c)); [exact H|done|..]; destruct s; simpl in *.
    + by apply alter_const.
    + done.
    + by destruct Hp as [Hp|Hp]; rewrite Hp in Hok.
    + done.
    + unfold counted. simpl. destruct Hp as [->| ->]; lia.
    + split; [done|by auto].
    + unfold handover. simpl. by destruct Hp as [->| ->].
    + done.
  - eapply (inv_move _ _ _ _ _ i c (moved Asleep0 c)); [exact H|done|..]; destruct s; simpl in *.
    + by apply alter_const.
    + done.
    + by destruct Hp as [Hp|Hp]; rewrite Hp in Hok.
    + done.
    + unfold counted. simpl. destruct Hp as [->| ->]; lia.
    + unfold handover. simpl. by destruct Hp as [->| ->].
    + unfold handover. simpl. by destruct Hp as [->| ->].
    + done.
Qed.

Lemma alter_alter (f f' : caller -> caller) (i : nat) (l : list caller) c :
  l !! i = Some c -> alter f i (alter f' i l) = alter (fun _ => f (f' c)) i l.
Proof.
  revert i. induction l as [|x l IH]; intros [|i] Hc; simplify_eq/=; [done|].
  change (x :: alter f i (alter f' i l) = x :: alter (fun _ => f (f' c)) i l). f_equal. by apply IH.
Qed.

Lemma wrap_pred n z : u32 n -> 0 < z <= n -> wrap 32 (z - 1) = z - 1.
Proof. intros Hn Hz. apply wrap_small. unfold unsigned in *. lia. Qed.

(** The branches of [check_all]. *)
Lemma check_all_asleep i s :
  waiting s < count s -> check_all i s = goto i Asleep1 (s {{ mutex1 := None }}).
Proof. intros H. unfold check_all. by replace (waiting s <? count s) with true by lia. Qed.

Lemma check_all_open i s :
  waiting s = count s -> count s = total s -> check_all i s = goto i Opening s.
Proof. intros H H'. unfold check_all. by rewrite H, Z.ltb_irrefl, Z.eqb_refl, H', Z.eqb_refl. Qed.

Lemma check_all_depart i s :
  waiting s = count s -> count s < total s -> check_all i s = depart i s.
Proof.
  intros H H'. unfold check_all. rewrite H, Z.ltb_irrefl, Z.eqb_refl. simpl.
  by replace (count s =? total s) with false by lia.
Qed.

(** The last lock of the entry: the caller is counted, and sleeps or opens. *)
Lemma step_count n ph g s s' i c :
  u32 n -> barrier_inv n ph g s -> callers s !! i = Some c -> at_place c = Entering ->
  worker_barrier_step i s = Some s' -> barrier_inv n ph g s'.
Proof.
  intros Hn H Hc Hp Hs. unfold worker_barrier_step in Hs. rewrite Hc in Hs. simpl in Hs. rewrite Hp in Hs.
  pose proof (inv_callers _ _ _ _ H _ _ Hc) as Hok. pose proof (inv_phase _ _ _ _ H) as Hph.
  pose proof (inv_waiting_range _ _ _ _ H) as Hw. pose proof (inv_total _ _ _ _ H) as Ht.
  unfold caller_ok in Hok. rewrite Hp in Hok. destruct s as [tot cnt wt blk m0 m1 l]; simpl in *.
  destruct ph; [|done]. simpl in Hph. destruct Hph as (Hb & Hcnt & Hm1).
  destruct m1; [done|]. injection Hs as <-.
  assert (wt < n) as Hlt by (by apply Hm1).
  assert (wrap 32 (wt + 1) = wt + 1) as Hwr by (apply wrap_small; unfold unsigned in *; lia).
  rewrite Hwr. destruct (Z.lt_ge_cases (wt + 1) n) as [Hlt'|Hge].
  - rewrite check_all_asleep by (unfold update; simpl; lia).
    eapply (inv_move _ _ _ _ _ i c (moved Asleep1 (arrived c))); [exact H|done|..]; simpl in *.
    + by apply alter_alter.
    + done.
    + by destruct Hok as [-> ->].
    + done.
    + unfold counted. simpl. rewrite Hp. lia.
    + unfold handover. simpl. by rewrite Hp.
    + unfold handover. simpl. by rewrite Hp.
    + split_and!; [done..|]. simpl. split; [lia|done].
  - rewrite check_all_open by (unfold update; simpl; lia).
    eapply (inv_move _ _ _ _ _ i c (moved Opening (arrived c))); [exact H|done|..]; simpl in *.
    + by apply alter_alter.
    + done.
    + by destruct Hok as [-> ->].
    + done.
    + unfold counted. simpl. rewrite Hp. lia.
    + unfold handover. simpl. by rewrite Hp.
    + unfold handover. simpl. rewrite Hp. by auto.
    + split_and!; [done..|]. simpl. split; [done|lia].
Qed.

(** Woken callers sleep again while the others gather, and leave afterwards. *)
Lemma step_woken n ph g s s' i c :
  u32 n -> barrier_inv n ph g s -> callers s !! i = Some c -> at_place c = Woken1 ->
  worker_barrier_step i s = Some s' -> barrier_inv n ph g s'.
Proof.
  intros Hn H Hc Hp Hs. unfold worker_barrier_step in Hs. rewrite Hc in Hs. simpl in Hs. rewrite Hp in Hs.
  pose proof (inv_callers _ _ _ _ H _ _ Hc) as Hok. pose proof (inv_phase _ _ _ _ H) as Hph.
  pose proof (inv_waiting_range _ _ _ _ H) as Hw. pose proof (inv_total _ _ _ _ H) as Ht.
  unfold caller_ok in Hok. rewrite Hp in Hok. destruct s as [tot cnt wt blk m0 m1 l]; simpl in *.
  destruct m1; [done|]. injection Hs as <-. destruct ph.
  - simpl in Hph. destruct Hph as (Hb & Hcnt & Hm1). assert (wt < n) as Hlt by (by apply Hm1).
    rewrite check_all_asleep by (unfold update; simpl; lia).
    eapply (inv_move _ _ _ _ _ i c (moved Asleep1 c)); [exact H|done|..]; simpl in *.
    + by apply alter_const.
    + done.
    + done.
    + done.
    + unfold counted. simpl. rewrite Hp. lia.
    + unfold handover. simpl. by rewrite Hp.
    + unfold handover. simpl. by rewrite Hp.
    + split_and!; [done..|]. simpl. split; [lia|done].
  - simpl in Hph. destruct Hph as (Hb & Hcnt & Hltn & Hm1). assert (0 < cnt) as Hpos by (by apply Hm1).
    rewrite check_all_depart by (unfold update; simpl; lia). unfold depart. simpl.
    rewrite <- Hcnt, (wrap_pred n) by (done || lia).
    destruct (Z.eqb_spec (cnt - 1) 0) as [Hz|Hnz].
    + eapply (inv_move _ _ _ _ _ i c (moved Closing c)); [exact H|done|..]; simpl in *.
      * by apply alter_const.
      * done.
      * done.
      * done.
      * unfold counted. simpl. rewrite Hp. lia.
      * unfold handover. simpl. by rewrite Hp.
      * unfold handover. simpl. rewrite Hp. by auto.
      * split_and!; [done..|lia|]. simpl. split; [done|lia].
    + eapply (inv_move _ _ _ _ _ i c (departed false c)); [exact H|done|..]; simpl in *.
      * by apply alter_const.
      * done.
      * by destruct Hok as [-> ->].
      * done.
      * unfold counted. simpl. rewrite Hp. lia.
      * unfold handover. simpl. by rewrite Hp.
      * unfold handover. simpl. by rewrite Hp.
      * split_and!; [done..|lia|]. simpl. split; [lia|done].
Qed.

(** Broadcasts only change the places. *)
Lemma tally_wake f p q l : (forall c, f (wake p q c) = f c) -> tally f (map (wake p q) l) = tally f l.
Proof. intros H. rewrite tally_map. apply tally_ext. intros c _. apply H. Qed.

Lemma serials_wake p q c : serials (wake p q c) = serials c.
Proof. unfold wake. by case_decide. Qed.

Lemma counted_wake p q c :
  counted (moved p c) = counted (moved q c) -> counted (wake p q c) = counted c.
Proof. intros H. unfold wake. case_decide as Hp; [|done]. unfold counted in *. simpl in *. by rewrite Hp. Qed.

Lemma owned_wake h p q m l : h p = h q -> owned h m l -> owned h m (map (wake p q) l).
Proof.
  intros Hpq Hown i. rewrite (Hown i), list_lookup_fmap.
  assert (forall c, h (at_place (wake p q c)) = h (at_place c)) as Hw.
  { intros c. unfold wake. case_decide as Hp; [|done]. simpl. by rewrite Hp. }
  destruct (l !! i) as [c|]; simpl; [|by split; intros (? & ? & _)].
  split; intros (c' & [= <-] & Hc'); eexists; (split; [done|]); by rewrite ?Hw in *.
Qed.

(** The other callers when caller [i] opens the barrier: all were counted, and all
    are awake after the broadcast. *)
Lemma opened_others n g s i c j cj :
  barrier_inv n Gather g s -> callers s !! i = Some c -> at_place c = Opening -> i <> j ->
  map (wake Asleep1 Woken1) (callers s) !! j = Some cj -> caller_ok Release g cj.
Proof.
  intros H Hc Hp Hj. destruct (inv_opening _ _ _ _ _ H Hc Hp) as [_ Hall]. rewrite list_lookup_fmap.
  destruct (callers s !! j) as [c0|] eqn:E; [|done]. intros [= <-].
  pose proof (Hall _ _ E) as Hcj. pose proof (inv_callers _ _ _ _ H _ _ E) as Hokj.
  assert (at_place c0 <> Opening) as Hno.
  { intros Hop. assert (Some i = Some j); [|congruence].
    rewrite <- (inv_owner _ _ _ _ _ (inv_mutex1 _ _ _ _ H) Hc) by (by rewrite Hp).
    rewrite <- (inv_owner _ _ _ _ _ (inv_mutex1 _ _ _ _ H) E) by (by rewrite Hop). done. }
  unfold counted in Hcj. unfold caller_ok, wake in *.
  destruct (at_place c0) eqn:Ep; try done; case_decide; simpl; rewrite ?Ep; done.
Qed.

(** The state after the opening, where the opener is the caller [c']. *)
Lemma opened_inv n g s i c c' :
  barrier_inv n Gather g s -> callers s !! i = Some c -> at_place c = Opening -> mutex0 s = None ->
  at_place c' = Closing /\ n = 1 \/ at_place c' = Returned false /\ n <> 1 ->
  serials c' = serials c -> caller_ok Release g c' ->
  barrier_inv n Release g {| total := n; count := n - 1; waiting := n - 1; block_r := 1; mutex0 := None;
    mutex1 := if decide (at_place c' = Closing) then Some i else None;
    callers := alter (fun _ => c') i (map (wake Asleep1 Woken1) (callers s)) |}.
Proof.
  intros H Hc Hp Hm0 Hc' Hserc' Hok'. destruct (inv_opening _ _ _ _ _ H Hc Hp) as [Hw Hall].
  set (l1 := map _ _).
  assert (l1 !! i = Some c) as Hc1.
  { unfold l1. rewrite list_lookup_fmap, Hc. simpl. unfold wake. by rewrite decide_False by congruence. }
  pose proof (owned_wake holds0 Asleep1 Woken1 _ _ eq_refl (inv_mutex0 _ _ _ _ H)) as H0'.
  pose proof (owned_wake holds1 Asleep1 Woken1 _ _ eq_refl (inv_mutex1 _ _ _ _ H)) as H1'.
  fold l1 in H0', H1'. rewrite Hm0 in H0'.
  rewrite (inv_owner _ _ _ _ _ (inv_mutex1 _ _ _ _ H) Hc) in H1' by (by rewrite Hp).
  assert (tally counted l1 = tally counted (callers s)) as Hcnt by (apply tally_wake; intros; by apply counted_wake).
  assert (tally serials l1 = g) as Hser1.
  { rewrite <- (inv_serials _ _ _ _ H). apply tally_wake; intros; apply serials_wake. }
  pose proof (inv_waiting _ _ _ _ H) as Hwait. pose proof (tally_elem counted _ _ _ Hc) as Hle.
  rewrite (Hall _ _ Hc) in Hle. constructor; simpl.
  - done.
  - rewrite length_alter. unfold l1. rewrite length_map. apply (inv_length _ _ _ _ H).
  - intros j cj. rewrite list_lookup_alter. case_decide as Hj; [|by eapply opened_others].
    subst j. rewrite Hc1. simpl. by intros [= <-].
  - pose proof (tally_alter counted (fun _ => c') i _ _ Hc1) as E. rewrite (Hall _ _ Hc) in E.
    assert (counted c' = 0%nat) as E' by (unfold counted; by destruct Hc' as [[-> _]|[-> _]]). lia.
  - pose proof (tally_alter serials (fun _ => c') i _ _ Hc1) as E. simpl in E. lia.
  - apply (owned_alter _ None _ _ c); [done|done|]. unfold handover. rewrite Hp.
    by destruct Hc' as [[-> _]|[-> _]].
  - apply (owned_alter _ (Some i) _ _ c); [done|done|]. unfold handover. rewrite Hp.
    destruct Hc' as [[-> _]|[-> _]]; simpl; auto.
  - split_and!; [done|done|lia|]. destruct Hc' as [[-> ->]|[-> Hn']]; simpl; [done|]. split; [lia|done].
Qed.

Lemma step_open n ph g s s' i c :
  u32 n -> barrier_inv n ph g s -> callers s !! i = Some c -> at_place c = Opening ->
  worker_barrier_step i s = Some s' -> barrier_inv n Release g s'.
Proof.
  intros Hn H Hc Hp Hs. unfold worker_barrier_step in Hs. rewrite Hc in Hs. simpl in Hs. rewrite Hp in Hs.
  pose proof (inv_callers _ _ _ _ H _ _ Hc) as Hok. unfold caller_ok in Hok. rewrite Hp in Hok.
  destruct ph; [|done]. destruct (mutex0 s) eqn:Hm0; [done|]. injection Hs as <-.
  pose proof (inv_owner _ _ _ _ _ (inv_mutex1 _ _ _ _ H) Hc ltac:(by rewrite Hp)) as Hm1.
  destruct (inv_opening _ _ _ _ _ H Hc Hp) as [Hw Hall].
  assert (1 <= n).
  { pose proof (tally_elem counted _ _ _ Hc) as Hle. rewrite (Hall _ _ Hc) in Hle.
    pose proof (inv_waiting _ _ _ _ H). lia. }
  pose proof (inv_total _ _ _ _ H) as Ht. pose proof (inv_phase _ _ _ _ H) as (_ & Hcnt & _).
  pose proof (fun c' => opened_inv _ _ _ _ _ c' H Hc Hp Hm0) as Hinv.
  assert (map (wake Asleep1 Woken1) (callers s) !! i = Some c) as Hc1.
  { rewrite list_lookup_fmap, Hc. simpl. unfold wake. by rewrite decide_False by congruence. }
  destruct s as [tot cnt wt blk m0 m1 l]; simpl in *. subst wt tot cnt m0 m1.
  unfold depart, broadcast. simpl. rewrite (wrap_pred n) by (done || lia).
  destruct (Z.eqb_spec (n - 1) 0) as [Hz|Hnz]; unfold goto, return_from, update; simpl.
  - rewrite (alter_const (moved Closing) _ _ _ Hc1).
    apply (Hinv (moved Closing c)); [left; split; [done|lia]|done..].
  - rewrite (alter_const (departed false) _ _ _ Hc1).
    apply (Hinv (departed false c)); [right; split; [done|lia]|done|].
    unfold caller_ok. simpl. by destruct Hok as [-> ->].
Qed.

(** The last caller of the release closes the barrier: the next round begins. *)
Lemma step_close n ph g s s' i c :
  barrier_inv n ph g s -> callers s !! i = Some c -> at_place c = Closing ->
  worker_barrier_step i s = Some s' -> barrier_inv n Gather (S g) s'.
Proof.
  intros H Hc Hp Hs. unfold worker_barrier_step in Hs. rewrite Hc in Hs. simpl in Hs. rewrite Hp in Hs.
  pose proof (inv_callers _ _ _ _ H _ _ Hc) as Hok. unfold caller_ok in Hok. rewrite Hp in Hok.
  destruct ph; [done|]. destruct (mutex0 s) eqn:Hm0; [done|]. injection Hs as <-.
  pose proof (inv_owner _ _ _ _ _ (inv_mutex1 _ _ _ _ H) Hc ltac:(by rewrite Hp)) as Hm1.
  assert (wake Asleep0 Woken0 c = c) as Hwc by (unfold wake; by rewrite decide_False by congruence).
  destruct H as [Ht Hl Hcs Hwait Hser H0 H1 Hph]. destruct s as [tot cnt wt blk m0 m1 l]; simpl in *.
  destruct Hph as (_ & Hcw & Hlt & Hz). subst tot m0 m1.
  assert (wt = 0) as Hw0.
  { destruct (Z.eq_dec wt 0); [done|]. assert (Some i = None) by (apply Hz; lia). done. }
  set (l1 := map (wake Asleep0 Woken0) l).
  assert (l1 !! i = Some c) as Hc1 by (unfold l1; rewrite list_lookup_fmap, Hc; simpl; by rewrite Hwc).
  pose proof (owned_wake holds0 Asleep0 Woken0 _ _ eq_refl H0) as H0'.
  pose proof (owned_wake holds1 Asleep0 Woken0 _ _ eq_refl H1) as H1'. fold l1 in H0', H1'.
  assert (tally counted l1 = tally counted l) as Hcnt by (apply tally_wake; intros; by apply counted_wake).
  assert (tally serials l1 = g) as Hser1 by (rewrite <- Hser; apply tally_wake; intros; apply serials_wake).
  unfold return_from, broadcast, update. simpl. fold l1. rewrite (alter_const (departed true) _ _ _ Hc1).
  constructor; simpl.
  - done.
  - rewrite length_alter. unfold l1. by rewrite length_map.
  - intros j cj. rewrite list_lookup_alter. case_decide as Hj.
    + subst j. rewrite Hc1. simpl. intros [= <-]. unfold caller_ok. simpl. by destruct Hok as [-> ->].
    + unfold l1. rewrite list_lookup_fmap. destruct (l !! j) as [c0|] eqn:E; [|done]. intros [= <-].
      pose proof (Hcs _ _ E) as Hokj. pose proof (tally_elem counted _ _ _ E) as Hle.
      assert (at_place c0 <> Closing) as Hno.
      { intros Hcl. assert (Some i = Some j) by (apply H1; exists c0; by rewrite Hcl). congruence. }
      assert (counted c0 = 0%nat) as Hz0 by lia. unfold counted in Hz0. unfold caller_ok, wake in *.
      destruct (at_place c0) eqn:Ep; try done; case_decide; simpl; rewrite ?Ep; done.
  - pose proof (tally_alter counted (fun _ => departed true c) i _ _ Hc1) as E.
    assert (counted c = 0%nat) as E0 by (unfold counted; by rewrite Hp).
    cbv beta in E. change (counted (departed true c)) with 0%nat in E. lia.
  - pose proof (tally_alter serials (fun _ => departed true c) i _ _ Hc1) as E. simpl in E. lia.
  - apply (owned_alter _ None _ _ c); [done|done|]. unfold handover. simpl. by rewrite ?Hp.
  - apply (owned_alter _ (Some i) _ _ c); [done|done|]. unfold handover. simpl. by rewrite ?Hp.
  - split_and!; [done|done|]. split; [intros _; lia|done].
Qed.

Lemma step_inv n ph g s s' i :
  u32 n -> barrier_inv n ph g s -> worker_barrier_step i s = Some s' ->
  exists ph' g', barrier_inv n ph' g' s'.
Proof.
  intros Hn H Hs. destruct (callers s !! i) as [c|] eqn:Hc.
  2: { unfold worker_barrier_step in Hs. by rewrite Hc in Hs. }
  assert (worker_barrier_step i s = Some s') as Hs' by done.
  unfold worker_barrier_step in Hs'. rewrite Hc in Hs'. simpl in Hs'.
  destruct (at_place c) eqn:Hp; try done; clear Hs'.
  - exists ph, g. eapply step_enter; eauto.
  - exists ph, g. eapply step_enter; eauto.
  - exists ph, g. by eapply step_count.
  - exists ph, g. by eapply step_woken.
  - exists Release, g. by eapply step_open.
  - exists Gather, (S g). by eapply step_close.
Qed.

(** A caller that only changes its place, without a mutex. *)
Lemma goto_inv n ph g s i c p :
  barrier_inv n ph g s -> callers s !! i = Some c -> caller_ok ph g (moved p c) ->
  counted (moved p c) = counted c -> holds0 p = false -> holds0 (at_place c) = false ->
  holds1 p = false -> holds1 (at_place c) = false -> barrier_inv n ph g (goto i p s).
Proof.
  intros H Hc Hok Hcnt H0 H0' H1 H1'. pose proof (inv_phase _ _ _ _ H) as Hph.
  eapply (inv_move _ _ _ _ _ i c (moved p c)); [exact H|exact Hc|..]; destruct s; simpl in *.
  - by apply alter_const.
  - done.
  - done.
  - done.
  - rewrite Hcnt. lia.
  - unfold handover. simpl. by rewrite H0, H0'.
  - unfold handover. simpl. by rewrite H1, H1'.
  - by destruct ph.
Qed.

Lemma barrier_step_inv n ph g s s' :
  u32 n -> barrier_inv n ph g s -> barrier_step s s' -> exists ph' g', barrier_inv n ph' g' s'.
Proof.
  intros Hn H Hs. destruct Hs as [i s s' Hs|i s c Hc Hp|i s c Hc Hp|i s c b Hc Hp].
  - by eapply step_inv.
  - exists ph, g. pose proof (inv_callers _ _ _ _ H _ _ Hc) as Hok. unfold caller_ok in Hok. rewrite Hp in Hok.
    eapply goto_inv; try done; unfold counted, caller_ok; rewrite ?Hp; by destruct ph.
  - exists ph, g. pose proof (inv_callers _ _ _ _ H _ _ Hc) as Hok. unfold caller_ok in Hok. rewrite Hp in Hok.
    eapply goto_inv; try done; unfold counted, caller_ok; rewrite ?Hp; by destruct ph.
  - exists ph, g. pose proof (inv_callers _ _ _ _ H _ _ Hc) as Hok. unfold caller_ok in Hok. rewrite Hp in Hok.
    eapply goto_inv; try done; unfold counted, caller_ok; rewrite ?Hp; by destruct ph.
Qed.

Lemma init_inv n : 1 <= n -> barrier_inv n Gather 0 (worker_barrier_init n).
Proof.
  intros Hn.
  assert (forall i c, callers (worker_barrier_init n) !! i = Some c -> c = new_caller) as Hnew.
  { intros i c Hc. by apply lookup_replicate in Hc as [-> _]. }
  assert (forall f, f new_caller = 0%nat -> tally f (replicate (Z.to_nat n) new_caller) = 0%nat) as Ht.
  { intros f Hf. induction (Z.to_nat n) as [|k IH]; [done|]. unfold tally in *. simpl. by rewrite Hf. }
  constructor; simpl.
  - done.
  - rewrite length_replicate. lia.
  - intros i c Hc. by rewrite (Hnew i c Hc).
  - by rewrite Ht.
  - by apply Ht.
  - intros i. split; [done|]. intros (c & Hc & Hh). by rewrite (Hnew i c Hc) in Hh.
  - intros i. split; [done|]. intros (c & Hc & Hh). by rewrite (Hnew i c Hc) in Hh.
  - split_and!; [done..|]. split; [lia|done].
Qed.

Lemma reachable_inv n s : u32 n -> 1 <= n -> reachable n s -> exists ph g, barrier_inv n ph g s.
Proof.
  intros Hn Hn1. induction 1 as [|s s' _ (ph & g & IH) Hs].
  - exists Gather, 0%nat. by apply init_inv.
  - by eapply barrier_step_inv.
Qed.

(** ** Progress *)

Lemma tally_lack f l : (forall c, (f c <= 1)%nat) -> (tally f l < length l)%nat ->
  exists i c, l !! i = Some c /\ f c = 0%nat.
Proof.
  intros H. induction l as [|x l IH]; intros Hl; unfold tally in *; simpl in *; [lia|].
  destruct (Nat.eq_dec (f x) 0) as [E|E]; [by exists 0%nat, x|].
  destruct IH as (i & c & ? & ?); [specialize (H x); lia|]. by exists (S i), c.
Qed.

Definition can_run (s : barrier) : Prop := exists i s', worker_barrier_step i s = Some s'.

Lemma holds0_entering p : holds0 p = true -> p = Entering.
Proof. by destruct p. Qed.

(** While callers leave, one of them can always run. *)
Lemma release_can_run n g s : barrier_inv n Release g s -> can_run s.
Proof.
  intros []. destruct inv_phase0 as (Hb & Hcw & Hlt & Hm).
  assert (mutex0 s = None) as Hm0.
  { destruct (mutex0 s) as [j|] eqn:E; [|done]. destruct (proj1 (inv_mutex2 j) eq_refl) as (c & Hc & Hh).
    apply holds0_entering in Hh. pose proof (inv_callers0 _ _ Hc) as Hok. unfold caller_ok in Hok.
    by rewrite Hh in Hok. }
  destruct (mutex1 s) as [i|] eqn:Hm1.
  - destruct (proj1 (inv_mutex3 i) eq_refl) as (c & Hc & Hh). exists i.
    pose proof (inv_callers0 _ _ Hc) as Hok. unfold worker_barrier_step, caller_ok in *. rewrite Hc. simpl.
    destruct (at_place c); try done. rewrite Hm0. by eexists.
  - assert (0 < tally counted (callers s))%nat as Hpos by (pose proof (proj1 Hm eq_refl); lia).
    apply tally_pos in Hpos as (i & c & Hc & Hcnt). exists i.
    pose proof (inv_callers0 _ _ Hc) as Hok. unfold worker_barrier_step, caller_ok, counted in *. rewrite Hc. simpl.
    destruct (at_place c); try done; try lia. rewrite Hm1. by eexists.
Qed.

(** While they gather, one of those inside or about to enter can run. *)
Lemma gather_can_run n g s :
  barrier_inv n Gather g s -> (forall i c b, callers s !! i = Some c -> at_place c <> Returned b) -> can_run s.
Proof.
  intros H Hret. pose proof H as Hinv. destruct H. destruct inv_phase0 as (Hb & Hcnt & Hm).
  destruct (mutex1 s) as [i|] eqn:Hm1.
  - destruct (proj1 (inv_mutex3 i) eq_refl) as (c & Hc & Hh).
    pose proof (inv_callers0 _ _ Hc) as Hok. unfold caller_ok in Hok.
    destruct (at_place c) eqn:Hp; try done.
    destruct (inv_opening _ _ _ _ _ Hinv Hc Hp) as [_ Hall].
    assert (mutex0 s = None) as Hm0.
    { destruct (mutex0 s) as [j|] eqn:E; [|done]. destruct (proj1 (inv_mutex2 j) eq_refl) as (c' & Hc' & Hh').
      apply holds0_entering in Hh'. specialize (Hall _ _ Hc'). unfold counted in Hall. by rewrite Hh' in Hall. }
    exists i. unfold worker_barrier_step. rewrite Hc. simpl. rewrite Hp, Hm0. by eexists.
  - assert (forall j c, callers s !! j = Some c -> at_place c = Entering -> can_run s) as Hent.
    { intros j c Hc Hp. exists j. unfold worker_barrier_step. rewrite Hc. simpl. rewrite Hp, Hm1. by eexists. }
    destruct (tally_lack counted (callers s) counted_le) as (i & c & Hc & Hz).
    { pose proof (proj1 Hm eq_refl). lia. }
    destruct (mutex0 s) as [j|] eqn:Hm0.
    { destruct (proj1 (inv_mutex2 j) eq_refl) as (c' & Hc' & Hh'). eapply Hent; [done|by apply holds0_entering]. }
    pose proof (inv_callers0 _ _ Hc) as Hok. unfold caller_ok, counted in *.
    destruct (at_place c) eqn:Hp; try done; try (by eapply Hent); try (by eapply Hret in Hc; rewrite Hp in Hc);
      exists i; unfold worker_barrier_step; rewrite Hc; simpl; rewrite Hp, Hm0; by eexists.
Qed.

(** ** Termination *)

(** Every step lowers the weight, for callers that do not call again; [b] exceeds
    the number of callers by four. *)
Definition weight (b : nat) (c : caller) : nat :=
  match at_place c with
  | Outside | Woken0 => 3 * b + 2
  | Asleep0 => 3 * b + 1
  | Entering => 3 * b
  | Woken1 => 2 * b + 3
  | Asleep1 => 2 * b + 2
  | Opening => 2 * b + 1
  | Closing => b
  | Returned _ | Failed => 0
  end%nat.

Definition total_weight (s : barrier) : nat :=
  tally (weight (length (callers s) + 4)) (callers s).

Lemma tally_wake_le b p q l :
  (forall c, (weight b (moved q c) <= S (weight b (moved p c)))%nat) ->
  (tally (weight b) (map (wake p q) l) <= tally (weight b) l + length l)%nat.
Proof.
  intros H. induction l as [|x l IH]; [done|]. unfold tally in *. simpl.
  assert (weight b (wake p q x) <= S (weight b x))%nat; [|lia].
  unfold wake. case_decide as Hp; [|lia]. specialize (H x). unfold weight in *. simpl in *. by rewrite Hp.
Qed.

(** What [depart] and [check_all] make of the caller. *)
Lemma depart_callers b i s :
  exists f, callers (depart i s) = alter f i (callers s) /\ forall x, (weight b (f x) <= b)%nat.
Proof.
  unfold depart. case_match; [exists (moved Closing)|exists (departed false)];
    (split; [done|intros; unfold weight; simpl; lia]).
Qed.

Lemma check_all_callers b i s :
  exists f, callers (check_all i s) = alter f i (callers s) /\ forall x, (weight b (f x) <= 2 * b + 2)%nat.
Proof.
  unfold check_all. case_match; [exists (moved Asleep1); split; [done|intros; unfold weight; simpl; lia]|].
  case_match; [exists (moved Failed); split; [done|intros; unfold weight; simpl; lia]|].
  case_match; [exists (moved Opening); split; [done|intros; unfold weight; simpl; lia]|].
  destruct (depart_callers b i s) as (f & Hf & Hw). exists f. split; [done|]. intros x. specialize (Hw x). lia.
Qed.

Lemma tally_alter_lt b f (i : nat) (l : list caller) c k :
  l !! i = Some c -> (weight b (f c) + k < weight b c)%nat ->
  (tally (weight b) (alter f i l) + k < tally (weight b) l)%nat.
Proof. intros Hc Hw. pose proof (tally_alter (weight b) f i l c Hc). lia. Qed.

(** The same after a broadcast, when the weight pays for it. *)
Lemma tally_alter_wake_lt b f (i : nat) (l : list caller) c p q :
  l !! i = Some c -> at_place c <> p -> (weight b (f c) + length l < weight b c)%nat ->
  (forall c, (weight b (moved q c) <= S (weight b (moved p c)))%nat) ->
  (tally (weight b) (alter f i (map (wake p q) l)) < tally (weight b) l)%nat.
Proof.
  intros Hc Hp Hw Hpq. pose proof (tally_wake_le b p q l Hpq) as Hle.
  assert (map (wake p q) l !! i = Some c) as Hc1.
  { rewrite list_lookup_fmap, Hc. simpl. unfold wake. by rewrite decide_False. }
  pose proof (tally_alter (weight b) f i _ c Hc1). lia.
Qed.

Definition lighter (s s' : barrier) : Prop :=
  length (callers s') = length (callers s) /\ (total_weight s' < total_weight s)%nat.

Lemma lighter_alter s s' f i c :
  callers s !! i = Some c -> callers s' = alter f i (callers s) ->
  (let b := (length (callers s) + 4)%nat in (weight b (f c) < weight b c)%nat) -> lighter s s'.
Proof.
  intros Hc Hs Hw. unfold lighter, total_weight. rewrite Hs, length_alter. split; [done|].
  pose proof (tally_alter_lt _ f i _ c 0 Hc ltac:(rewrite Nat.add_0_r; exact Hw)). lia.
Qed.

Lemma lighter_wake s s' f i c p q :
  callers s !! i = Some c -> at_place c <> p -> callers s' = alter f i (map (wake p q) (callers s)) ->
  (forall b, (weight b (moved q c) <= S (weight b (moved p c)))%nat) ->
  (let b := (length (callers s) + 4)%nat in (weight b (f c) + length (callers s) < weight b c)%nat) -> lighter s s'.
Proof.
  intros Hc Hp Hs Hpq Hw. unfold lighter, total_weight. rewrite Hs, length_alter, length_map. split; [done|].
  apply (tally_alter_wake_lt _ _ _ _ c); [done..|]. intros c'. apply Hpq.
Qed.

Lemma lighter_check i s s' f0 c :
  callers s !! i = Some c -> callers s' = alter f0 i (callers s) ->
  (let b := (length (callers s) + 4)%nat in (2 * b + 2 < weight b c)%nat) -> lighter s (check_all i s').
Proof.
  intros Hc Hs Hw. destruct (check_all_callers (length (callers s) + 4) i s') as (f & Hf & Hle).
  apply (lighter_alter _ _ (fun _ => f (f0 c)) i c); [done| |].
  - rewrite Hf, Hs. by apply alter_alter.
  - intros b. specialize (Hle (f0 c)). cbv zeta in Hw. fold b in Hle, Hw. lia.
Qed.

Lemma step_lighter i s s' : worker_barrier_step i s = Some s' -> lighter s s'.
Proof.
  intros Hs. unfold worker_barrier_step in Hs. destruct (callers s !! i) as [c|] eqn:Hc; [|done]. simpl in Hs.
  assert (forall p, at_place c = p -> forall b, weight b c = weight b (moved p c)) as Hwc.
  { intros p Hp b. unfold weight. simpl. by rewrite Hp. }
  destruct (at_place c) eqn:Hp; try done;
    first [destruct (mutex0 s); [done|]|destruct (mutex1 s); [done|]]; injection Hs as <-.
  - destruct (truth (block_r s));
      [apply (lighter_alter _ _ (moved Asleep0) i c)|apply (lighter_alter _ _ (moved Entering) i c)];
      try (by destruct s); intros b; rewrite (Hwc _ eq_refl); unfold weight; simpl; lia.
  - destruct (truth (block_r s));
      [apply (lighter_alter _ _ (moved Asleep0) i c)|apply (lighter_alter _ _ (moved Entering) i c)];
      try (by destruct s); intros b; rewrite (Hwc _ eq_refl); unfold weight; simpl; lia.
  - apply (lighter_check i s _ arrived c); [done|by destruct s|].
    intros b. rewrite (Hwc _ eq_refl). unfold weight. simpl. lia.
  - apply (lighter_check i s _ (fun c => c) c); [done| |].
    { destruct s; simpl in *. symmetry. by apply list_alter_id. }
    intros b. rewrite (Hwc _ eq_refl). unfold weight. simpl. lia.
  - match goal with |- lighter _ (depart i ?x) =>
      destruct (depart_callers (length (callers s) + 4) i x) as (f & Hf & Hw) end.
    apply (lighter_wake _ _ f i c Asleep1 Woken1); [done|congruence|by destruct s| |].
    { intros b. unfold weight. simpl. lia. }
    intros b. specialize (Hw c). fold b in Hw. rewrite (Hwc _ eq_refl).
    unfold weight at 2. simpl. lia.
  - apply (lighter_wake _ _ (departed true) i c Asleep0 Woken0); [done|congruence|by destruct s| |].
    { intros b. unfold weight. simpl. lia. }
    intros b. rewrite (Hwc _ eq_refl). unfold weight. simpl. lia.
Qed.

Lemma schedule_lighter order s s' :
  run_schedule order s = Some s' -> (length order + total_weight s' <= total_weight s)%nat.
Proof.
  revert s. induction order as [|i order IH]; intros s Hr; simpl in *; [by simplify_eq|].
  destruct (worker_barrier_step i s) as [s1|] eqn:E; [|done]. simpl in Hr.
  destruct (step_lighter _ _ _ E). specialize (IH _ Hr). lia.
Qed.

(** Callers that have called once. *)
Definition once (c : caller) : Prop :=
  match at_place c with
  | Returned b => left c = 1%nat /\ serials c = (if b then 1 else 0)%nat
  | _ => left c = 0%nat /\ serials c = 0%nat
  end.

Definition fresh (c : caller) : Prop := left c = 0%nat /\ serials c = 0%nat.

Lemma once_moved p c : (forall b, p <> Returned b) -> fresh c -> once (moved p c).
Proof. intros Hp [Hl Hs]. unfold once. simpl. destruct p; try done. by destruct (Hp serial). Qed.

Lemma once_departed b c : fresh c -> once (departed b c).
Proof. intros [Hl Hs]. unfold once. simpl. rewrite Hl, Hs. by destruct b. Qed.

Lemma once_wake p q c :
  (forall b, p <> Returned b) -> (forall b, q <> Returned b) -> once c -> once (wake p q c).
Proof.
  intros Hp Hq Hc. unfold wake. case_decide as E; [|done]. apply once_moved; [done|].
  unfold once in Hc. rewrite E in Hc. unfold fresh. destruct p; try done. by destruct (Hp serial).
Qed.

Lemma Forall_once_alter f (i : nat) (l : list caller) c :
  Forall once l -> l !! i = Some c -> once (f c) -> Forall once (alter f i l).
Proof. intros Hl Hc Hf. apply Forall_alter; [done|]. intros x Hx. by simplify_eq. Qed.

Lemma Forall_once_wake p q l :
  (forall b, p <> Returned b) -> (forall b, q <> Returned b) -> Forall once l -> Forall once (map (wake p q) l).
Proof. intros Hp Hq. induction 1; simpl; constructor; [by apply once_wake|done]. Qed.

Lemma depart_once i s c :
  callers s !! i = Some c -> fresh c -> Forall once (callers s) -> Forall once (callers (depart i s)).
Proof.
  intros Hc Hf Hall. unfold depart. case_match; destruct s; simpl in *.
  - eapply Forall_once_alter; [done|done|]. by apply once_moved.
  - eapply Forall_once_alter; [done|done|]. by apply once_departed.
Qed.

Lemma check_all_once i s c :
  callers s !! i = Some c -> fresh c -> Forall once (callers s) -> Forall once (callers (check_all i s)).
Proof.
  intros Hc Hf Hall. unfold check_all. repeat case_match; try (by eapply depart_once);
    destruct s; simpl in *; (eapply Forall_once_alter; [done|done|by apply once_moved]).
Qed.

Lemma step_once i s s' :
  worker_barrier_step i s = Some s' -> Forall once (callers s) -> Forall once (callers s').
Proof.
  intros Hs Hall. unfold worker_barrier_step in Hs. destruct (callers s !! i) as [c|] eqn:Hc; [|done]. simpl in Hs.
  pose proof (Forall_lookup_1 _ _ _ _ Hall Hc) as Ho. unfold once in Ho.
  destruct (at_place c) eqn:Hp; try done;
    first [destruct (mutex0 s); [done|]|destruct (mutex1 s); [done|]]; injection Hs as <-.
  - destruct (truth _); destruct s; simpl in *; (eapply Forall_once_alter; [done|done|by apply once_moved]).
  - destruct (truth _); destruct s; simpl in *; (eapply Forall_once_alter; [done|done|by apply once_moved]).
  - destruct s; simpl in *. apply (check_all_once _ _ (arrived c)); simpl; [|done|].
    + by rewrite list_lookup_alter, decide_True, Hc by done.
    + eapply Forall_once_alter; [done|done|]. unfold once. simpl. by rewrite Hp.
  - destruct s; simpl in *. by eapply check_all_once.
  - destruct s; simpl in *. apply (depart_once _ _ c); simpl; [|done|].
    + rewrite list_lookup_fmap, Hc. simpl. unfold wake. by rewrite decide_False by congruence.
    + by apply Forall_once_wake.
  - destruct s; simpl in *. eapply (Forall_once_alter _ _ _ c); [| |by apply once_departed].
    + by apply Forall_once_wake.
    + rewrite list_lookup_fmap, Hc. simpl. unfold wake. by rewrite decide_False by congruence.
Qed.

Lemma schedule_reachable n order s s' :
  reachable n s -> Forall once (callers s) -> run_schedule order s = Some s' ->
  reachable n s' /\ Forall once (callers s').
Proof.
  revert s. induction order as [|i order IH]; intros s Hr Ho Hs; simpl in *; [by simplify_eq|].
  destruct (worker_barrier_step i s) as [s1|] eqn:E; [|done].
  apply (IH s1); [by eapply reach_step; [|eapply step_run]|by eapply step_once|done].
Qed.

Lemma init_once n : Forall once (callers (worker_barrier_init n)).
Proof. simpl. by apply Forall_replicate. Qed.

(** A round that cannot go on is complete. *)
Lemma stuck_complete n s i0 c0 ph g :
  barrier_inv n ph g s -> Forall once (callers s) -> ~ can_run s -> callers s !! i0 = Some c0 ->
  ph = Gather /\ g = 1%nat /\ forall i c, callers s !! i = Some c -> exists b, at_place c = Returned b.
Proof.
  intros H Hall Hstuck Hc0. destruct ph; [|by destruct Hstuck; eapply release_can_run].
  assert (forall i c, callers s !! i = Some c -> left c = g /\ once c) as Hleft.
  { intros i c Hc. split; [|by eapply Forall_lookup_1].
    pose proof (inv_callers _ _ _ _ H _ _ Hc) as Hok. unfold caller_ok in Hok.
    destruct (at_place c); try done; by destruct Hok as [_ ?]. }
  destruct (Hleft _ _ Hc0) as [Hg0 Ho0]. unfold once in Ho0.
  destruct (decide (g = 1)%nat) as [Hg|Hg].
  - split_and!; [done|done|]. intros i c Hc. destruct (Hleft _ _ Hc) as [Hl Ho]. unfold once in Ho.
    destruct (at_place c); try (destruct Ho; lia). by eexists.
  - destruct Hstuck. eapply gather_can_run; [done|]. intros i c b Hc Hp.
    destruct (Hleft _ _ Hc) as [Hl Ho]. unfold once in Ho. rewrite Hp in Ho. destruct Ho. lia.
Qed.

Lemma tally_const f k l : (forall c, c ∈ l -> f c = k) -> tally f l = (k * length l)%nat.
Proof.
  induction l as [|x l IH]; intros H; unfold tally in *; simpl; [lia|].
  rewrite (H x) by constructor. rewrite IH; [lia|]. intros. apply H. by constructor.
Qed.

(** C7: no thread leaves the barrier before all have entered it, for any number of
    rounds, any interleaving and any spurious wake-up: a thread that returned [k]
    times was preceded by [k] entries of each of the threads.  The assertion of
    [worker_barrier_wait] never fails, and when every thread has returned [k]
    times, exactly [k] of the returns told a thread that it is the serial one. *)
Theorem barrier_safety n s :
  u32 n -> 1 <= n -> reachable n s ->
  (forall i j c c', callers s !! i = Some c -> callers s !! j = Some c' -> (left c <= entered c')%nat) /\
  (forall i c, callers s !! i = Some c -> at_place c <> Failed) /\
  (forall k, (forall i c, callers s !! i = Some c -> left c = k) -> tally serials (callers s) = k).
Proof.
  intros Hn Hn1 Hr. destruct (reachable_inv _ _ Hn Hn1 Hr) as (ph & g & H). destruct H. split_and!.
  - intros i j c c' Hc Hc'. pose proof (inv_callers0 _ _ Hc) as Hok. pose proof (inv_callers0 _ _ Hc') as Hok'.
    unfold caller_ok in *. destruct ph, (at_place c), (at_place c'); try done; lia.
  - intros i c Hc Hp. pose proof (inv_callers0 _ _ Hc) as Hok. unfold caller_ok in Hok. rewrite Hp in Hok. by destruct ph.
  - intros k Hk. rewrite inv_serials0.
    destruct (callers s !! 0%nat) as [c|] eqn:Hc.
    2: { apply lookup_ge_None in Hc. lia. }
    pose proof (Hk _ _ Hc) as Hkc. pose proof (inv_callers0 _ _ Hc) as Hok.
    destruct ph; [unfold caller_ok in Hok; destruct (at_place c); try done; destruct Hok; congruence|].
    destruct (decide (k = g)) as [|Hne]; [done|]. destruct inv_phase0 as (_ & Hcw & _ & Hm).
    destruct (mutex1 s) as [i|] eqn:Hm1.
    + destruct (proj1 (inv_mutex3 i) eq_refl) as (c' & Hc' & Hh). pose proof (inv_callers0 _ _ Hc') as Hok'.
      pose proof (Hk _ _ Hc') as Hk'. unfold caller_ok in Hok'. destruct (at_place c'); try done. destruct Hok'. congruence.
    + assert (0 < tally counted (callers s))%nat as Hpos by (pose proof (proj1 Hm eq_refl); lia).
      apply tally_pos in Hpos as (i & c' & Hc' & Hcnt). pose proof (inv_callers0 _ _ Hc') as Hok'.
      pose proof (Hk _ _ Hc') as Hk'. unfold caller_ok, counted in *.
      destruct (at_place c'); try done; lia.
Qed.

(** C8: the barrier does not deadlock although its two mutexes are taken in both
    orders: in any reachable state where no thread is between two calls, some
    thread can run without a spurious wake-up; and while a round is being
    released one can run even if others have already returned. *)
Theorem barrier_no_deadlock n s :
  u32 n -> 1 <= n -> reachable n s ->
  (forall i c b, callers s !! i = Some c -> at_place c <> Returned b) \/ block_r s = 1 ->
  exists i s', worker_barrier_step i s = Some s'.
Proof.
  intros Hn Hn1 Hr Hor. destruct (reachable_inv _ _ Hn Hn1 Hr) as ([] & g & H).
  - destruct Hor as [Hret|Hb]; [by eapply gather_can_run|].
    destruct (inv_phase _ _ _ _ H) as (Hb' & _). congruence.
  - by eapply release_can_run.
Qed.

(** C9: a round terminates.  However the [n] threads of a new barrier are scheduled,
    they take at most [n * (3 * n + 14)] steps; when none can go on, all have
    returned, exactly one of them as the serial one, and the barrier is as
    [worker_barrier_init] left it. *)
Theorem barrier_round_completes n order s :
  u32 n -> 1 <= n -> run_schedule order (worker_barrier_init n) = Some s ->
  Z.of_nat (length order) <= n * (3 * n + 14) /\
  ((forall i, worker_barrier_step i s = None) ->
   many (Returned true) s = 1%nat /\ Z.of_nat (many (Returned false) s) = n - 1 /\
   Z.of_nat (length (callers s)) = n /\
   count s = n /\ waiting s = 0 /\ block_r s = 0 /\ mutex0 s = None /\ mutex1 s = None).
Proof.
  intros Hn Hn1 Hs. pose proof (schedule_lighter _ _ _ Hs) as Hle.
  assert (Z.of_nat (total_weight (worker_barrier_init n)) = n * (3 * n + 14)) as Htw.
  { unfold total_weight. simpl. rewrite length_replicate, (tally_const _ (3 * (Z.to_nat n + 4) + 2)).
    - rewrite length_replicate. lia.
    - intros c Hc. by apply elem_of_replicate in Hc as [-> _]. }
  split; [lia|]. intros Hstuck.
  destruct (schedule_reachable n _ _ _ (reach_init n) (init_once n) Hs) as [Hr Ho].
  destruct (reachable_inv _ _ Hn Hn1 Hr) as (ph & g & H).
  destruct (callers s !! 0%nat) as [c0|] eqn:Hc0.
  2: { apply lookup_ge_None in Hc0. pose proof (inv_length _ _ _ _ H). lia. }
  destruct (stuck_complete _ _ _ _ _ _ H Ho ltac:(by intros (i & s1 & E); rewrite Hstuck in E) Hc0) as (-> & -> & Hret).
  assert (forall i c, callers s !! i = Some c ->
    is_at (Returned true) c = serials c /\ (is_at (Returned true) c + is_at (Returned false) c = 1)%nat /\
    counted c = 0%nat /\ holds0 (at_place c) = false /\ holds1 (at_place c) = false) as Hone.
  { intros i c Hc. destruct (Hret _ _ Hc) as [b Hb]. pose proof (Forall_lookup_1 _ _ _ _ Ho Hc) as Hoc.
    unfold once in Hoc. rewrite Hb in Hoc. destruct Hoc as [_ ->]. unfold is_at, counted. rewrite Hb. by destruct b. }
  assert (forall c, c ∈ callers s -> exists i, callers s !! i = Some c) as Hin by (intros; by apply list_elem_of_lookup).
  destruct H. assert (many (Returned true) s = 1%nat) as Hm1.
  { unfold many. rewrite (tally_ext _ serials); [done|]. intros c Hc. destruct (Hin _ Hc) as [i Hi]. by apply (Hone i). }
  destruct inv_phase0 as (Hb & Hcnt & _). split_and!; try done.
  - assert (many (Returned true) s + many (Returned false) s = 1 * length (callers s))%nat as E; [|lia].
    unfold many. rewrite <- tally_add. apply tally_const.
    intros c Hc. destruct (Hin _ Hc) as [i Hi]. by apply (Hone i).
  - rewrite inv_waiting0, (tally_const _ 0); [lia|]. intros c Hc. destruct (Hin _ Hc) as [i Hi]. by apply (Hone i).
  - destruct (mutex0 s) as [i|] eqn:E; [|done]. destruct (proj1 (inv_mutex2 i) eq_refl) as (c & Hc & Hh).
    destruct (Hone _ _ Hc) as (_ & _ & _ & ? & _). congruence.
  - destruct (mutex1 s) as [i|] eqn:E; [|done]. destruct (proj1 (inv_mutex3 i) eq_refl) as (c & Hc & Hh).
    destruct (Hone _ _ Hc) as (_ & _ & _ & _ & ?). congruence.
Qed.

(** Two threads, and a round in which the first one to arrive leaves last. *)
Definition demo_order : list nat := [0; 0; 1; 1; 1; 0; 0]%nat.

Definition demo_after (k : nat) : barrier :=
  default (worker_barrier_init 2) (run_schedule (take k demo_order) (worker_barrier_init 2)).

Lemma demo_reachable k : (k <= 7)%nat -> reachable 2 (demo_after k).
Proof.
  intros Hk. unfold demo_after.
  destruct (run_schedule (take k demo_order) (worker_barrier_init 2)) as [s|] eqn:E; [|apply reach_init].
  by apply (schedule_reachable 2 _ _ _ (reach_init 2) (init_once 2) E).
Qed.

Lemma barrier_safety_witness :
  map (fun c => (entered c, left c)) (callers (demo_after 5)) = [(1, 0); (1, 1)]%nat /\
  (forall i c, callers (demo_after 5) !! i = Some c -> at_place c <> Failed) /\
  tally serials (callers (demo_after 7)) = 1%nat.
Proof.
  split; [reflexivity|]. split.
  - apply (barrier_safety 2 (demo_after 5)); [split; vm_compute; congruence|lia|apply demo_reachable; lia].
  - destruct (barrier_safety 2 (demo_after 7)) as (_ & _ & H);
      [split; vm_compute; congruence|lia|apply demo_reachable; lia|].
    apply H. intros [|[|i]] c Hc; vm_compute in Hc; by simplify_eq.
Defined.

Lemma barrier_no_deadlock_witness :
  exists i s', worker_barrier_step i (demo_after 5) = Some s'.
Proof.
  apply (barrier_no_deadlock 2); [split; vm_compute; congruence|lia|apply demo_reachable; lia|].
  right. reflexivity.
Defined.

Lemma barrier_round_completes_witness :
  exists s, run_schedule demo_order (worker_barrier_init 2) = Some s /\
    many (Returned true) s = 1%nat /\ many (Returned false) s = 1%nat /\ count s = 2 /\ waiting s = 0.
Proof.
  destruct (run_schedule demo_order (worker_barrier_init 2)) as [s|] eqn:E; [|discriminate E].
  exists s. split; [done|].
  destruct (barrier_round_completes 2 demo_order s) as [_ H]; [split; vm_compute; congruence|lia|done|].
  destruct H as (H1 & H2 & _ & H4 & H5 & _).
  - vm_compute in E. injection E as <-. intros [|[|i]]; reflexivity.
  - split_and!; [done|lia|done|done].
Defined.
