(* ===== verification/Process.v ===== *)
(** A worker's life: src/process.c, the tasks and barriers of src/worker.c and
    src/runtime.c.

    A worker runs [process_run], in which it talks in one direction, or in both one
    after the other; it is the sender of the straight direction if it connects and
    of the reverse direction if it listens.  [worker_init] sizes the barriers the
    workers of a direction meet at, and [runtime_do] says which workers there are.
    The messages on the standard output are not modelled. *)

From S2P Require Import Prelude Bitops Errors Byteorder ConfigData Usage Double Report Stage Thread Config ConfigSpec Conn Net NetSpec Talk.

(** ** Roles *)

Definition process_set_im_sender : M unit :=
  update_cur (fun c => c {{ process ::= fun p => p {{ im_sender := 1; im_receiver := 0 }} }}).
Definition process_set_im_receiver : M unit :=
  update_cur (fun c => c {{ process ::= fun p => p {{ im_sender := 0; im_receiver := 1 }} }}).
Definition process_set_reverse : M unit :=
  update_cur (fun c => c {{ process ::= fun p => p {{ reverse := 1 }} }}).
Definition process_set_straight : M unit :=
  update_cur (fun c => c {{ process ::= fun p => p {{ reverse := 0 }} }}).

Definition process_init : M unit := t_stage_set UBWT_STAGE_STATE_INIT_PROCESS 0 ;; current_update.
Definition process_destroy : M unit := t_stage_set UBWT_STAGE_STATE_DESTROY_PROCESS 0 ;; current_update.

(** [UBWT_WORKER_FLAG_TASK_JOINABLE] of include/worker.h. *)
Definition flag_task_joinable : Z := 6.

(** [current_exit], the last action of a worker. *)
Definition current_exit : M unit :=
  update_cur (fun c => c {{ worker_flags ::= fun w => bit_set (bit_clear w flag_task_running) flag_task_joinable }}) ;;
  current_update.

Section process.
Variable big : bool.
Variable b : build.
Variable peer : ubwt_net_endpoint.
Variable uninit : list Z.

Definition _process_listener_straight (init cleanup : bool) : M unit :=
  process_set_straight ;;
  t_report report_set_straight ;;
  process_set_im_receiver ;;
  when init (talk_init big b peer uninit) ;;
  talk_receiver big b ;;
  when cleanup (talk_destroy b).

Definition _process_connector_straight (init cleanup : bool) : M unit :=
  process_set_straight ;;
  t_report report_set_straight ;;
  process_set_im_sender ;;
  when init (talk_init big b peer uninit) ;;
  talk_sender big b ;;
  when cleanup (talk_destroy b).

Definition _process_listener_reverse (init cleanup : bool) : M unit :=
  process_set_reverse ;;
  t_report report_set_reverse ;;
  process_set_im_sender ;;
  when init (talk_init big b peer uninit) ;;
  talk_sender big b ;;
  when cleanup (talk_destroy b).

Definition _process_connector_reverse (init cleanup : bool) : M unit :=
  process_set_reverse ;;
  t_report report_set_reverse ;;
  process_set_im_receiver ;;
  when init (talk_init big b peer uninit) ;;
  talk_receiver big b ;;
  when cleanup (talk_destroy b).

(** [sleep(current->config->process_reverse_delay)]. *)
Definition reverse_delay : M unit :=
  d ← current_of (fun c => process_reverse_delay (config c));
  sys_call (C_sleep d) ;; mret tt.

(** [current->config->bidirectional && !current->config->asynchronous]. *)
Definition both_directions (c : ubwt_config) : bool :=
  truth (bidirectional c) && negb (truth (asynchronous c)).

Definition _process_run_straight_first : M unit :=
  l ← net_im_listener;
  both ← current_of (fun c => both_directions (config c));
  if (l : bool) then
    if (both : bool) then
      _process_listener_straight true false ;;
      reverse_delay ;;
      _process_listener_reverse false true
    else _process_listener_straight true true
  else
    if (both : bool) then
      _process_connector_straight true false ;;
      _process_connector_reverse false true
    else _process_connector_straight true true.

Definition _process_run_reverse_first : M unit :=
  l ← net_im_listener;
  both ← current_of (fun c => both_directions (config c));
  if (l : bool) then
    if (both : bool) then
      _process_listener_reverse true false ;;
      reverse_delay ;;
      _process_listener_straight false true
    else _process_listener_reverse true true
  else
    if (both : bool) then
      _process_connector_reverse true false ;;
      _process_connector_straight false true
    else _process_connector_reverse true true.

Definition process_run (reverse_first : Z) : M unit :=
  (if truth reverse_first then _process_run_reverse_first else _process_run_straight_first) ;;
  when (mt b) current_exit.

End process.

(** ** The barriers of the workers: [worker_init] and [worker_destroy] *)

(** The sizes of [__worker_barrier_global], [None] for one that is not set up. *)
Definition worker_init (c : ubwt_config) : list (option Z) :=
  let straight :=
    if truth (worker_straight_first_count c) && truth (bidirectional c)
    then Some (worker_straight_first_count c)
    else if truth (worker_straight_first_count c) then Some (worker_straight_first_count c)
    else if truth (bidirectional c) then Some (worker_count c) else None in
  let rev :=
    if truth (worker_reverse_first_count c) && truth (bidirectional c)
    then Some (worker_reverse_first_count c)
    else if truth (worker_reverse_first_count c) then Some (worker_reverse_first_count c)
    else if truth (bidirectional c) then Some (worker_count c) else None in
  [straight; rev; if truth (asynchronous c) then Some (worker_count c) else None].

(** Which barriers [worker_destroy] destroys. *)
Definition worker_destroy (c : ubwt_config) : list bool :=
  [truth (worker_straight_first_count c) || truth (bidirectional c);
   truth (worker_reverse_first_count c) || truth (bidirectional c);
   truth (asynchronous c)].

(** The tasks [runtime_do] creates, as the arguments of [process_run]. *)
Definition runtime_tasks (c : ubwt_config) : list Z :=
  replicate (Z.to_nat (worker_straight_first_count c)) 0 ++
  replicate (Z.to_nat (worker_reverse_first_count c)) 1.

(** ** The plan of a worker *)

Inductive role := Sender | Receiver.

#[export] Instance role_eq_dec : EqDecision role.
Proof. solve_decision. Defined.

Definition peer_role (r : role) : role := match r with Sender => Receiver | Receiver => Sender end.

Lemma bind_ext {A B : Type} (m m' : M A) (f f' : A -> M B) s :
  m s = m' s -> (forall a s', f a s' = f' a s') -> (m ≫= f) s = (m' ≫= f') s.
Proof. intros Hm Hf. unfold mbind, M_bind. rewrite Hm. by destruct (m' s). Qed.

(** The directions a worker talks in, in order; [true] is the reverse one. *)
Definition plan_directions (both reverse_first : bool) : list bool :=
  if both then [reverse_first; negb reverse_first] else [reverse_first].

(** Who sends in a direction. *)
Definition plan_role (listener rev : bool) : role := if xorb listener rev then Receiver else Sender.

Lemma plan_role_peer listener rev : plan_role (negb listener) rev = peer_role (plan_role listener rev).
Proof. by destruct listener, rev. Qed.

(** What a worker does in a direction: turn to it, connect if it is the first one,
    talk, and mark itself as not running if it is the last one. *)
Definition aim (listener rev : bool) : M unit :=
  (if rev then process_set_reverse else process_set_straight) ;;
  t_report (if rev then report_set_reverse else report_set_straight) ;;
  match plan_role listener rev with Sender => process_set_im_sender | Receiver => process_set_im_receiver end.

Section phases.
Variable big : bool.
Variable b : build.
Variable peer : ubwt_net_endpoint.
Variable uninit : list Z.

Definition talk_as (r : role) : M unit :=
  match r with Sender => talk_sender big b | Receiver => talk_receiver big b end.

Definition phase_run (listener init cleanup rev : bool) : M unit :=
  aim listener rev ;;
  when init (talk_init big b peer uninit) ;;
  talk_as (plan_role listener rev) ;;
  when cleanup (talk_destroy b).

(** The directions one after the other; the listener waits between them. *)
Fixpoint phases_run (listener init : bool) (revs : list bool) : M unit :=
  match revs with
  | [] => mret tt
  | [rev] => phase_run listener init true rev
  | rev :: revs =>
      phase_run listener init false rev ;;
      when listener reverse_delay ;;
      phases_run listener false revs
  end.

End phases.

(** The four functions are the phases, and the order of the calls is the plan's. *)
Lemma process_run_phases big b peer un reverse_first s :
  let cfg := config (cur s) in
  process_run big b peer un reverse_first s =
    (phases_run big b peer un (truth (im_listener cfg)) true
       (plan_directions (both_directions cfg) (truth reverse_first)) ;;
     when (mt b) current_exit) s.
Proof.
  intros cfg. set (l := truth (im_listener cfg)).
  assert (forall (lr rr : bool) init cleanup s',
    phase_run big b peer un lr init cleanup rr s' =
    (match lr, rr with
     | true, true => _process_listener_reverse | true, false => _process_listener_straight
     | false, true => _process_connector_reverse | false, false => _process_connector_straight
     end) big b peer un init cleanup s') as Hphase.
  { intros lr rr init cleanup s'. unfold phase_run, aim. rewrite !bind_assoc. by destruct lr, rr. }
  assert (forall rf : bool, (if rf then _process_run_reverse_first big b peer un else _process_run_straight_first big b peer un) s =
    phases_run big b peer un l true (plan_directions (both_directions cfg) rf) s) as Hrun.
  { intros rf. unfold _process_run_reverse_first, _process_run_straight_first, net_im_listener, current_of, plan_directions.
    destruct rf; rewrite !get_bind; fold cfg; fold l; destruct l, (both_directions cfg); cbn [phases_run negb];
      rewrite ?Hphase; try done; symmetry; repeat (apply bind_ext; [by rewrite ?Hphase|intros _ ?]);
      by rewrite ?Hphase. }
  unfold process_run. apply bind_ext; [|done]. rewrite <- Hrun. by destruct (truth reverse_first).
Qed.

(** C27: [process_run] carries out the plan: the four functions for the two ends and
    the two directions, their [init] and [cleanup] arguments, the order of the
    directions and the delay come down to running, for each direction of
    [plan_directions], the role that [plan_role] gives the end; and the roles of
    the two ends are opposite in every direction. *)
Theorem process_run_plan big b peer un reverse_first s :
  let cfg := config (cur s) in
  let l := truth (im_listener cfg) in
  process_run big b peer un reverse_first s =
    (phases_run big b peer un l true (plan_directions (both_directions cfg) (truth reverse_first)) ;;
     when (mt b) current_exit) s /\
  forall rev, plan_role (negb l) rev = peer_role (plan_role l rev).
Proof.
  intros cfg l. split; [apply process_run_phases|intros; apply plan_role_peer].
Qed.

(** A run of the three scenarios on an idle worker of a test in both directions. *)
Lemma process_run_plan_example :
  plan_directions true true = [true; false] /\ plan_directions false true = [true] /\
  map (plan_role true) [true; false] = [Sender; Receiver] /\
  map (plan_role false) [true; false] = [Receiver; Sender].
Proof. done. Qed.

(** ** The sizes of the barriers *)

(** How many of the tasks talk in a direction. *)
Definition participants (c : ubwt_config) (rev : bool) : Z :=
  Z.of_nat (length (filter (fun t => rev ∈ plan_directions (both_directions c) (truth t)) (runtime_tasks c))).

Lemma filter_replicate_all {A : Type} (P : A -> Prop) `{forall x, Decision (P x)} n x :
  length (filter P (replicate n x)) = if decide (P x) then n else 0%nat.
Proof.
  induction n as [|n IH]; [by case_decide|]. simpl replicate. rewrite list.filter_cons.
  destruct (decide (P x)) in IH |- *; simpl; by rewrite IH.
Qed.

Lemma elem_of_plan rev both rf :
  rev ∈ plan_directions both rf <-> both || eqb rev rf = true.
Proof. destruct both, rev, rf; simpl; set_solver. Qed.

Lemma participants_split c rev :
  0 <= worker_straight_first_count c -> 0 <= worker_reverse_first_count c ->
  participants c rev =
    (if both_directions c || eqb rev false then worker_straight_first_count c else 0) +
    (if both_directions c || eqb rev true then worker_reverse_first_count c else 0).
Proof.
  intros Hs Hr. unfold participants, runtime_tasks. rewrite list.filter_app, length_app, !filter_replicate_all.
  change (truth 0) with false. change (truth 1) with true.
  rewrite (decide_ext _ _ _ _ (elem_of_plan rev (both_directions c) false)).
  rewrite (decide_ext _ _ _ _ (elem_of_plan rev (both_directions c) true)).
  destruct (_ || eqb rev false), (_ || eqb rev true); simpl; lia.
Qed.

(** The barriers fit the workers.  For a configuration that [config_init]
    accepts, in a build with threads: as many tasks are created as there are
    workers; the barrier of a direction is set up for exactly the tasks that talk
    in that direction, whenever there are any; in asynchronous mode the common
    barrier is set up for all the tasks; and [worker_destroy] destroys exactly the
    barriers that were set up. *)
Theorem worker_barriers_fit b c :
  config_wf b c -> defined (UBWT_CONFIG_MULTI_THREADED b) = true ->
  Z.of_nat (length (runtime_tasks c)) = worker_count c /\
  (forall rev, 0 < participants c rev ->
    nth (if rev then 1 else 0)%nat (worker_init c) None = Some (participants c rev)) /\
  (asynchronous c = 1 -> nth 2 (worker_init c) None = Some (worker_count c) /\
    participants c false + participants c true = worker_count c) /\
  map (fun o => bool_decide (o <> None)) (worker_init c) = worker_destroy c.
Proof.
  intros Hwf Hmt. pose proof (wf_workers _ _ Hwf) as Hw. rewrite Hmt in Hw.
  destruct (wf_bits _ _ Hwf) as (Hbi & Has & Hrev). destruct Hw as (Hn & Hsum & _ & Ha & Hs & Hr).
  pose proof (wf_async _ _ Hwf) as Hasync.
  assert (0 <= worker_straight_first_count c /\ 0 <= worker_reverse_first_count c) as [Hs0 Hr0].
  { destruct Has as [Has|Has]; [destruct Hrev as [Hrv|Hrv]|]; [specialize (Hs Has Hrv)|specialize (Hr Has Hrv)|
      specialize (Ha Has)]; lia. }
  assert (forall z, bit z -> truth z = (z =? 1)) as Hbit by (intros z [->| ->]; done).
  assert (forall z, truth z = negb (z =? 0)) as Htruth by done.
  split_and!.
  - unfold runtime_tasks. rewrite length_app, !length_replicate. lia.
  - intros rev. rewrite participants_split by done. unfold worker_init, both_directions.
    destruct Has as [Has|Has]; [destruct Hrev as [Hrv|Hrv]|]; 
      [specialize (Hs Has Hrv)|specialize (Hr Has Hrv)|specialize (Ha Has); destruct (Hasync Has) as (Hb1 & _ & _)];
      destruct Hbi as [Hb|Hb]; try lia; rewrite Has, Hb; destruct rev; cbn [nth andb orb negb eqb truth Z.eqb];
      rewrite ?Htruth; intros Hpos;
      repeat match goal with |- context [?a =? 0] => destruct (Z.eqb_spec a 0) end; simpl in *; try lia; f_equal; lia.
  - intros Has1. rewrite !participants_split by done. destruct (Hasync Has1) as (Hb1 & _ & _).
    unfold worker_init, both_directions. rewrite Has1, Hb1. simpl. split; [done|lia].
  - unfold worker_init, worker_destroy. cbn [map].
    destruct (truth (worker_straight_first_count c)), (truth (worker_reverse_first_count c)),
      (truth (bidirectional c)), (truth (asynchronous c)); reflexivity.
Qed.

(** Asynchronous mode asked for with three workers: four are created, two per
    direction. *)
Lemma worker_barriers_fit_witness :
  exists c, example_config "listener" [O_A; O_W "3"] = Some c /\
    nth 2 (worker_init c) None = Some 4 /\ participants c false + participants c true = 4.
Proof.
  destruct (example_config "listener" [O_A; O_W "3"]) as [c|] eqn:H; [|discriminate H].
  exists c. split; [done|]. pose proof (example_config_wf _ _ _ H) as Hwf.
  destruct (worker_barriers_fit build_linux c Hwf eq_refl) as (_ & _ & Ha & _).
  vm_compute in H. injection H as <-. apply Ha. reflexivity.
Defined.
