(* ===== verification/ProcessSpec.v ===== *)
(** Two workers, from the connection to the end: [process_run] of a connector and of
    a listener, each with a configuration accepted by [config_init], complete and
    agree on the figures of every direction tested. *)

From S2P Require Import Prelude Bitops Errors Byteorder Layout ConfigData Usage Double Report Stage Thread Config ConfigSpec Conn Net NetSpec Talk TalkSpec TalkRounds TalkComplete Process.

(** The workers are alone at the barriers. *)
Abbreviation at_stage := (at_stage (P := alone)).
Abbreviation moves := (moves (P := alone)).

(** ** Configurations *)

(** A test with a single worker over TCP, with the default payload. *)
Record single_tcp_test (b : build) (c : ubwt_config) : Prop := {
  test_wf : config_wf b c;
  test_tcp : net_l4_proto_value c = UBWT_NET_PROTO_L4_TCP;
  test_workers : defined (UBWT_CONFIG_MULTI_THREADED b) = true -> worker_count c = 1;
  test_nofill : net_payload_buffer_size c = 0
}.

(** A single worker is not asynchronous: this mode makes the count even. *)
Lemma test_single b c : single_tcp_test b c -> single c b.
Proof.
  intros [Hwf Htcp Hw Hb]. pose proof (wf_counts _ _ Hwf) as (Hc & Hd & Hm).
  destruct (wf_payload _ _ Hwf) as [Hp _]. constructor; [by constructor; try done; try apply Hwf| |done].
  destruct (wf_bits _ _ Hwf) as (_ & [Ha|Ha] & _); [done|].
  destruct (wf_async _ _ Hwf Ha) as (_ & _ & _ & Hmt). specialize (Hw Hmt).
  pose proof (wf_workers _ _ Hwf) as Hws. rewrite Hmt in Hws.
  destruct Hws as (_ & Hsum & _ & Heq & _). specialize (Heq Ha). lia.
Qed.

Lemma truth_bit_inj x y : bit x -> bit y -> truth x = truth y -> x = y.
Proof. by intros [->| ->] [->| ->]. Qed.

(** What the negotiation establishes. *)
Lemma negotiate_same b b' c c' :
  single_tcp_test b c -> single_tcp_test b' c' -> negotiate b c = negotiate b' c' ->
  same_talk c c' /\ bidirectional c' = bidirectional c /\ reverse_first c' = reverse_first c.
Proof.
  intros H H' Hn.
  pose proof (f_equal neg_handshake_iter Hn : talk_handshake_iter c = talk_handshake_iter c').
  pose proof (f_equal neg_stream_time Hn : talk_stream_minimum_time c = talk_stream_minimum_time c').
  pose proof (f_equal neg_count_mul Hn : talk_count_mul c = talk_count_mul c').
  pose proof (f_equal neg_bidir Hn : truth (bidirectional c) = truth (bidirectional c')).
  pose proof (f_equal neg_reverse Hn : truth (reverse_first c) = truth (reverse_first c')).
  pose proof (single_sync _ _ (test_single _ _ H)). pose proof (single_sync _ _ (test_single _ _ H')).
  destruct (wf_bits _ _ (test_wf _ _ H)) as (? & _ & ?). destruct (wf_bits _ _ (test_wf _ _ H')) as (? & _ & ?).
  split; [constructor; congruence|]. split; apply truth_bit_inj; auto.
Qed.

(** ** One end, before and after the talk *)

(** What [process_run] keeps of the thread's record. *)
Record carries (c c' : ubwt_current) : Prop := {
  carries_config : config c' = config c;
  carries_worker_id : worker_id c' = worker_id c;
  carries_start : time_us_start c' = time_us_start c
}.

Lemma carries_trans c c' c'' : carries c c' -> carries c' c'' -> carries c c''.
Proof. intros [] []. constructor; congruence. Qed.

Lemma carries_thread c c' : same_thread c c' -> carries c c'.
Proof. intros []. by constructor. Qed.

(** The result of a direction. *)
Definition result_of (rev : bool) (r : ubwt_report) : ubwt_report_result :=
  if rev then results1 r else results0 r.

Definition side (rev : bool) : result_ptr := if rev then ResultReverse else ResultStraight.

(** A report that shows figures in a direction. *)
Definition shows_in (rev : bool) (f : ubwt_report_collect_t) (r : ubwt_report) : Prop :=
  collect_copy (collected (result_of rev r)) collect_zero = f.

Lemma shows_side rev f r : result r = side rev -> shows f r -> shows_in rev f r.
Proof. intros Hr H. unfold shows, report_result in H. rewrite Hr in H. by destruct rev. Qed.

Lemma same_side_other rev r r' :
  result r = side rev -> same_side r r' -> result_of (negb rev) r' = result_of (negb rev) r.
Proof. intros Hr [H1 H2]. unfold other_result in H2. rewrite H1, Hr in H2. by destruct rev. Qed.

(** A step that leaves the talk's parameters and the reports alone. *)
Lemma update_moves cfg st s f :
  at_stage cfg st s -> carries (cur s) (f (cur s)) -> stage (f (cur s)) = stage (cur s) ->
  exists s', update_cur f s = Done tt s' /\ moves [] [] 0 s s' /\ at_stage cfg st s' /\
    cur s' = f (cur s) /\ exists c, s' = set_cur c s.
Proof.
  intros [Hio Hc Hw Hst] [] Hstg. destruct (runs_update_cur f s Hio) as [H S].
  eexists. split; [exact H|]. split; [by eapply step_moves|]. split; [|split; [by destruct s|by eexists]].
  constructor; [apply S|..]; destruct s; simpl in *; congruence.
Qed.

(** Turning to a direction. *)
Lemma aim_run cfg st l rev s :
  at_stage cfg st s ->
  exists s', aim l rev s = Done tt s' /\ moves [] [] 0 s s' /\ at_stage cfg st s' /\ carries (cur s) (cur s') /\
    result (report (cur s')) = side rev /\ (forall d, result_of d (report (cur s')) = result_of d (report (cur s))) /\
    exists c, s' = set_cur c s.
Proof.
  intros Hst. unfold aim, process_set_reverse, process_set_straight, process_set_im_sender, process_set_im_receiver.
  assert (forall s : thread, (if rev then process_set_reverse else process_set_straight) s =
    update_cur (fun c => c {{ process ::= fun p => p {{ reverse := Zb rev }} }}) s) as E1 by (by destruct rev).
  assert (forall s : thread, match plan_role l rev with Sender => process_set_im_sender | Receiver => process_set_im_receiver end s =
    update_cur (fun c => c {{ process ::= fun p => p {{
      im_sender := (match plan_role l rev with Sender => 1 | Receiver => 0 end);
      im_receiver := (match plan_role l rev with Sender => 0 | Receiver => 1 end) }} }}) s) as E3
    by (by destruct (plan_role l rev)).
  destruct (update_moves cfg st s (fun c => c {{ process ::= fun p => p {{ reverse := Zb rev }} }}) Hst)
    as (s1 & H1 & M1 & St1 & C1 & k1 & E1'); [by destruct (cur s)|by destruct (cur s)|].
  unfold process_set_reverse, process_set_straight in E1. rewrite <- (E1 s) in H1. rewrite (bind_Done _ _ _ _ _ H1).
  destruct (update_moves cfg st s1 (fun c => c {{ report ::= if rev then report_set_reverse else report_set_straight }}) St1)
    as (s2 & H2 & M2 & St2 & C2 & k2 & E2'); [by destruct (cur s1)|by destruct (cur s1)|].
  unfold t_report. rewrite (bind_Done _ _ _ _ _ H2).
  match type of E3 with forall s, _ = update_cur ?f s =>
    destruct (update_moves cfg st s2 f St2) as (s3 & H3 & M3 & St3 & C3 & k3 & E3'); [by destruct (cur s2)|by destruct (cur s2)|] end.
  unfold process_set_im_sender, process_set_im_receiver in E3. rewrite <- (E3 s2) in H3.
  exists s3. rewrite C2, C1 in C3. split_and!; [done| |done|..].
  - eapply moves_conv; [eapply moves_trans; [exact M1|eapply moves_trans; [exact M2|exact M3]]|done..].
  - rewrite C3. by destruct (cur s).
  - rewrite C3. destruct (cur s) as [? ? ? ? ? ? [? ? ? ?] ? ? ? ? ?]. by destruct rev.
  - intros d. rewrite C3. destruct (cur s) as [? ? ? ? ? ? [? ? ? ?] ? ? ? ? ?]. by destruct rev, d.
  - exists k3. rewrite E3', E2', E1'. by destruct s.
Qed.

(** Everything but the thread's parameters and its reports may change. *)
Record quiet (cfg : ubwt_config) (st : ubwt_stage_state_t) (t : nat) (s s' : thread) : Prop := {
  quiet_moves : moves [] [] t s s';
  quiet_at : at_stage cfg st s';
  quiet_carries : carries (cur s) (cur s');
  quiet_report : report (cur s') = report (cur s)
}.

Lemma quiet_refl cfg st s : at_stage cfg st s -> quiet cfg st 0 s s.
Proof. intros H. constructor; try done. eapply step_moves, step_refl, H. Qed.

(** A change of the worker's flags, and the time it was made. *)
Lemma flags_run cfg st s (g : Z -> Z) :
  at_stage cfg st s -> clock_ok (k_clock s) ->
  exists s', (update_cur (fun c => c {{ worker_flags ::= g }}) ;; current_update) s = Done tt s' /\ quiet cfg st 1 s s'.
Proof.
  intros Hst Hclk.
  destruct (update_moves cfg st s (fun c => c {{ worker_flags ::= g }}) Hst) as (s1 & H1 & M1 & St1 & C1 & k1 & E1');
    [by destruct (cur s)|by destruct (cur s)|].
  rewrite (bind_Done _ _ _ _ _ H1). unfold current_update.
  destruct (moves_clock _ _ _ _ _ M1) as [Hc1 _].
  destruct (runs_time (P := alone) s1) as (s2 & [H2 S2]); [apply St1|rewrite Hc1; by apply clock_some|].
  rewrite (bind_Done _ _ _ _ _ H2). pose proof (at_step cfg _ _ _ _ _ _ St1 S2) as St2.
  assert (cur s2 = cur s1) as C2 by apply S2.
  match goal with |- context [update_cur ?f] =>
    destruct (update_moves cfg st s2 f St2) as (s3 & H3 & M3 & St3 & C3 & k3 & E3'); [by destruct (cur s2)|by destruct (cur s2)|] end.
  exists s3. split; [done|]. rewrite C2, C1 in C3. constructor; [|done|..].
  - eapply moves_conv; [eapply moves_trans; [exact M1|eapply moves_trans; [eapply step_moves, S2|exact M3]]|done..].
  - rewrite C3. by destruct (cur s).
  - rewrite C3. by destruct (cur s).
Qed.

(** The clock readings of a worker's change of state. *)
Definition flag_ticks (b : build) : nat := if mt b then 1 else 0.

Lemma flags_when_run b cfg st s (m : M unit) (g : Z -> Z) :
  m = (update_cur (fun c => c {{ worker_flags ::= g }}) ;; current_update) ->
  at_stage cfg st s -> clock_ok (k_clock s) ->
  exists s', when (mt b) m s = Done tt s' /\ quiet cfg st (flag_ticks b) s s'.
Proof.
  intros -> Hst Hclk. unfold when, flag_ticks. destruct (mt b); [by apply flags_run|].
  exists s. split; [done|by apply quiet_refl].
Qed.

Lemma delay_run cfg st s (l : bool) :
  at_stage cfg st s -> exists s', when l reverse_delay s = Done tt s' /\ quiet cfg st 0 s s'.
Proof.
  intros Hst. destruct l; [|exists s; split; [done|by apply quiet_refl]].
  unfold when, reverse_delay, current_of. rewrite get_bind.
  destruct (runs_call (P := alone) (C_sleep (process_reverse_delay (config (cur s)))) s (at_io _ _ _ Hst)) as (r & s1 & [H S] & _).
  rewrite (bind_Done _ _ _ _ _ H). exists s1. split; [done|]. assert (cur s1 = cur s) as E by apply S.
  constructor; [by eapply step_moves|by eapply at_step|by rewrite E|by rewrite E].
Qed.

(** ** The connection *)

(** A thread about to connect: nothing scripted but the input, which begins with
    the other end's payload. *)
Record about_to_connect (wire : list Z) (s : thread) : Prop := {
  about_tx : k_tx s = [];
  about_calls : k_calls s = [];
  about_rx : exists l, k_rx s = RxData wire :: l
}.

(** The exchange as a step. *)
Lemma connected_moves bs wire l st cfg s s' :
  at_stage cfg st s -> k_rx s = RxData wire :: l -> connected bs l s s' ->
  moves wire bs 0 s s' /\ at_stage cfg st s' /\ carries (cur s) (cur s') /\ report (cur s') = report (cur s).
Proof.
  intros [Hio Hc Hw Hst] Hrx [[n Hcur] Hrx' Htx Hk Hsent Hclk Htick Hsync Hlog].
  assert (io_ok alone s') as Hio'.
  { destruct Hio as [Hr _ _ Hs]. constructor; rewrite ?Htx, ?Hk, ?Hsync; auto.
    rewrite Hrx'. rewrite Hrx in Hr. by inversion Hr. }
  split_and!.
  - constructor; try done; try (rewrite Hrx, Hrx'; done); try lia.
    rewrite Hsent, concat_app. simpl. by rewrite app_nil_r.
  - constructor; rewrite ?Hcur; [done|..]; by destruct (cur s).
  - rewrite Hcur. by destruct (cur s).
  - rewrite Hcur. by destruct (cur s).
Qed.

Lemma about_set_cur wire c s : about_to_connect wire s -> about_to_connect wire (set_cur c s).
Proof. intros []. constructor; by destruct s. Qed.

(** The hypotheses about the two ends of a connection. *)
Record paired (b b' : build) (c c' : ubwt_config) : Prop := {
  pair_test : single_tcp_test b c;
  pair_test' : single_tcp_test b' c';
  pair_layout : conn_build_layout b = conn_build_layout b';
  pair_negotiated : negotiate b c = negotiate b' c';
  pair_modes : truth (im_listener c) = negb (truth (im_listener c'))
}.

Lemma paired_sym b b' c c' : paired b b' c c' -> paired b' b c' c.
Proof. intros []. constructor; auto. rewrite pair_modes0. by rewrite negb_involutive. Qed.

(** The first part of [talk_init]. *)
Lemma connect_run big big' b b' c c' peer un st s (l : list rx) :
  paired b b' c c' -> at_stage c st s -> about_to_connect (conn_wire_bytes big' b' c') s ->
  exists s', (im ← net_im_listener;
    (if (im : bool) then
       r ← net_listener_accept big b peer un;
       if r <? 0 then fatal_error UBWT_ERROR_TYPE_TALK_RECEIVER_INIT "talk_init(): net_listener_accept()" else mret tt
     else
       r ← net_connector_connect big b peer un;
       if r <? 0 then fatal_error UBWT_ERROR_TYPE_TALK_SENDER_INIT "talk_init(): net_connector_connect()" else mret tt)) s
    = Done tt s' /\
    moves (conn_wire_bytes big' b' c') (conn_wire_bytes big b c) 0 s s' /\ at_stage c st s' /\
    carries (cur s) (cur s') /\ report (cur s') = report (cur s).
Proof.
  intros [Ht Ht' Hly Hneg Hmode] Hst [Htx Hk [rest Hrx]].
  pose proof (test_wf _ _ Ht) as Hwf. pose proof (test_wf _ _ Ht') as Hwf'.
  pose proof (at_config _ _ _ Hst) as Hcfg. unfold net_im_listener, current_of. rewrite get_bind, Hcfg.
  destruct (wf_mode _ _ Hwf) as [[Hc Hl]|[Hc Hl]]; destruct (wf_mode _ _ Hwf') as [[Hc' Hl']|[Hc' Hl']];
    rewrite Hl, Hl' in Hmode; try discriminate Hmode; rewrite Hl; change (truth 0) with false; change (truth 1) with true; cbv iota.
  - destruct (connect_tcp_run big b peer un s _ rest (eq_trans (f_equal _ Hcfg) (test_tcp _ _ Ht)) Htx Hk Hrx)
      as (s1 & C1 & E1); [apply length_conn_wire_bytes|].
    destruct (conn_check_wire big big' b b' c c' un UBWT_ERROR_TYPE_NET_CONNECT conn_has_accept
      "net_connector_connect()" s1 Hwf Hwf' Hly) as [Hc1 _]; [by apply conn_create_has_accept|].
    rewrite Hcfg in E1, C1. rewrite Hc1 in E1 by done. rewrite (bind_Done _ _ _ _ _ E1).
    change (0 <? 0) with false. exists s1. split; [done|]. by eapply connected_moves.
  - destruct (accept_tcp_run big b peer un s _ rest (eq_trans (f_equal _ Hcfg) (test_tcp _ _ Ht)) Htx Hk Hrx)
      as (s1 & C1 & E1); [apply length_conn_wire_bytes|].
    destruct (conn_check_wire big big' b b' c c' un UBWT_ERROR_TYPE_NET_ACCEPT conn_has_connect
      "net_listener_accept()" s1 Hwf Hwf' Hly) as [Hc1 _]; [by apply conn_create_has_connect|].
    rewrite Hcfg in E1, C1. rewrite Hc1 in E1 by done. rewrite (bind_Done _ _ _ _ _ E1).
    change (0 <? 0) with false. exists s1. split; [done|]. by eapply connected_moves.
Qed.

(** ** One direction *)

Section one.
Context (big big' : bool) (b b' : build) (c c' : ubwt_config) (peer : ubwt_net_endpoint) (un : list Z).
Context (Hpair : paired b b' c c').

Notation wire := (conn_wire_bytes big b c).
Notation wire' := (conn_wire_bytes big' b' c').

(** What the connection adds to the exchange of a direction, if it opens it. *)
Definition opening {A : Type} (init : bool) (l : list A) : list A := if init then l else [].
Definition flag_ticks_if (init : bool) : nat := if init then flag_ticks b else 0.

Lemma talk_init_run st s :
  at_stage c st s -> clock_ok (k_clock s) -> about_to_connect wire' s ->
  exists s', talk_init big b peer un s = Done tt s' /\ moves wire' wire (flag_ticks b) s s' /\ at_stage c st s' /\
    carries (cur s) (cur s') /\ report (cur s') = report (cur s).
Proof.
  intros Hst Hclk Habout. unfold talk_init, update_talk.
  match goal with |- context [update_cur ?f] => destruct (update_moves c st s f Hst) as (s1 & H1 & M1 & St1 & C1 & k1 & E1);
    [by destruct (cur s)|by destruct (cur s)|] end.
  rewrite (bind_Done _ _ _ _ _ H1). rewrite <- bind_assoc.
  destruct (connect_run big big' b b' c c' peer un st s1 [] Hpair St1) as (s2 & H2 & M2 & St2 & C2 & R2).
  { rewrite E1. by apply about_set_cur. }
  rewrite (bind_Done _ _ _ _ _ H2). destruct (moves_clock _ _ _ _ _ (moves_trans _ _ _ _ _ _ _ _ _ M1 M2)) as [Hc2 _].
  destruct (flags_when_run b c st s2 worker_task_running_set (fun w => bit_set w flag_task_running) eq_refl St2)
    as (s3 & H3 & [M3 St3 C3 R3]); [by rewrite Hc2|].
  exists s3. split; [done|]. split_and!; [|done|..].
  - eapply moves_conv; [eapply moves_trans; [exact M1|eapply moves_trans; [exact M2|exact M3]]|..]; by rewrite ?app_nil_r.
  - eapply carries_trans; [|eapply carries_trans; [exact C2|exact C3]]. rewrite C1. by destruct (cur s).
  - rewrite R3, R2, C1. by destruct (cur s).
Qed.

(** Up to the talk. *)
Lemma phase_begin_run st s l (init rev : bool) :
  at_stage c st s -> clock_ok (k_clock s) -> (init = true -> about_to_connect wire' s) ->
  exists s', (aim l rev ;; when init (talk_init big b peer un)) s = Done tt s' /\
    moves (opening init wire') (opening init wire) (flag_ticks_if init) s s' /\ at_stage c st s' /\
    carries (cur s) (cur s') /\ result (report (cur s')) = side rev /\
    (forall d, result_of d (report (cur s')) = result_of d (report (cur s))).
Proof.
  intros Hst Hclk Habout. destruct (aim_run c st l rev s Hst) as (s1 & H1 & M1 & St1 & C1 & R1 & D1 & k1 & E1).
  rewrite (bind_Done _ _ _ _ _ H1). destruct (moves_clock _ _ _ _ _ M1) as [Hc1 _].
  unfold opening, flag_ticks_if. destruct init; [|by exists s1].
  destruct (talk_init_run st s1 St1) as (s2 & H2 & M2 & St2 & C2 & R2); [by rewrite Hc1|rewrite E1; by apply about_set_cur, Habout|].
  exists s2. split_and!; [done| |done|by eapply carries_trans|by rewrite R2|by rewrite R2].
  eapply moves_conv; [eapply moves_trans; [exact M1|exact M2]|done..].
Qed.

(** A direction, given what the talk does. *)
Lemma phase_one st s l (init cleanup rev : bool) i o t f rest :
  at_stage c st s -> clock_ok (k_clock s) -> (init = true -> about_to_connect wire' s) ->
  rx_data (k_rx s) = opening init wire' ++ i ++ rest ->
  (forall s1, at_stage c st s1 -> carries (cur s) (cur s1) -> k_clock s1 = k_clock s ->
    k_tick s1 = (k_tick s + flag_ticks_if init)%nat -> rx_data (k_rx s1) = i ++ rest ->
    exists s2, talk_as big b (plan_role l rev) s1 = Done tt s2 /\ moves i o t s1 s2 /\
      at_stage c UBWT_STAGE_STATE_RUNTIME_TALK_FINISH s2 /\ same_thread (cur s1) (cur s2) /\
      same_side (report (cur s1)) (report (cur s2)) /\ shows f (report (cur s2))) ->
  exists s', phase_run big b peer un l init cleanup rev s = Done tt s' /\
    moves (opening init wire' ++ i) (opening init wire ++ o)
      (flag_ticks_if init + t + flag_ticks_if cleanup) s s' /\
    at_stage c UBWT_STAGE_STATE_RUNTIME_TALK_FINISH s' /\ carries (cur s) (cur s') /\
    shows_in rev f (report (cur s')) /\ result_of (negb rev) (report (cur s')) = result_of (negb rev) (report (cur s)).
Proof.
  intros Hst Hclk Habout Hrx Htalk. unfold phase_run.
  destruct (phase_begin_run st s l init rev Hst Hclk Habout) as (s1 & H1 & M1 & St1 & C1 & R1 & D1).
  rewrite <- bind_assoc, (bind_Done _ _ _ _ _ H1). destruct (moves_clock _ _ _ _ _ M1) as [Hc1 Ht1].
  destruct (Htalk s1 St1 C1 Hc1 Ht1 (moves_rx _ _ _ _ _ _ M1 Hrx)) as (s2 & H2 & M2 & St2 & T2 & S2 & F2).
  rewrite (bind_Done _ _ _ _ _ H2). destruct (moves_clock _ _ _ _ _ M2) as [Hc2 _].
  assert (exists s3, when cleanup (talk_destroy b) s2 = Done tt s3 /\
    quiet c UBWT_STAGE_STATE_RUNTIME_TALK_FINISH (flag_ticks_if cleanup) s2 s3) as (s3 & H3 & [M3 St3 C3 R3]).
  { unfold flag_ticks_if, talk_destroy. destruct cleanup; [|exists s2; split; [done|by apply quiet_refl]].
    apply (flags_when_run b c _ s2 worker_task_running_unset (fun w => bit_clear w flag_task_running) eq_refl St2).
    by rewrite Hc2, Hc1. }
  exists s3. split_and!; [done| |done|..].
  - eapply moves_conv; [eapply moves_trans; [exact M1|eapply moves_trans; [exact M2|exact M3]]|..];
      rewrite ?app_nil_r; (done || lia).
  - eapply carries_trans; [exact C1|]. eapply carries_trans; [by apply carries_thread|exact C3].
  - rewrite R3. apply shows_side; [|done]. by rewrite (proj1 S2).
  - rewrite R3, <- D1. by apply (same_side_other rev).
Qed.

End one.

(** ** A direction at both ends *)

(** What the two ends exchange in a direction: the latency the sender measures and
    the figures the receiver collects, their clocks being read from [tx] and [ty]
    on; [mx] and [my] tell which builds have threads, [wx] and [wy] are the workers. *)
Definition clock := nat -> option (Z * Z).

Definition direction_latency (c : ubwt_config) (kx : clock) (tx : nat) : Z := talk_latency c kx tx.

Definition direction_figures (c : ubwt_config) (kx ky : clock) (tx ty : nat) (ts : list Z) : ubwt_report_collect_t :=
  rounds_figures (direction_latency c kx tx) ky ty (rounds_of c 100 ts).

Definition direction_sent (mx : bool) (wx : Z) (c : ubwt_config) (kx : clock) (tx : nat) (ts : list Z) : list Z :=
  sender_talk c mx wx (direction_latency c kx tx) (rounds_of c 100 ts).

Definition direction_replied (my : bool) (wy : Z) (c : ubwt_config) (kx ky : clock) (tx ty : nat) (ts : list Z) : list Z :=
  receiver_talk c my wy (rounds_of c 100 ts) (direction_figures c kx ky tx ty ts).

(** A thread ready for a direction. *)
Record ready (c : ubwt_config) (s : thread) : Prop := {
  ready_at : exists st, at_stage c st s;
  ready_clock : clock_ok (k_clock s);
  ready_start : 0 <= time_us_start (cur s) < clock_us (k_clock s) (k_tick s)
}.

Lemma clock_mono_le clk n m : clock_ok clk -> (n <= m)%nat -> clock_us clk n <= clock_us clk m.
Proof. intros H. induction 1 as [|m _ IH]; [done|]. pose proof (clock_mono _ H m). lia. Qed.

Lemma ready_moves c st i o t s s' :
  ready c s -> moves i o t s s' -> at_stage c st s' -> carries (cur s) (cur s') -> ready c s'.
Proof.
  intros [_ Hclk Hstart] M Hst [_ _ Hs]. destruct (moves_clock _ _ _ _ _ M) as [Hc Ht].
  constructor; [by eexists|by rewrite Hc|]. rewrite Hs, Hc, Ht.
  pose proof (clock_mono_le _ (k_tick s) (k_tick s + t) Hclk). lia.
Qed.

(** The result of a direction for one of the ends. *)
Record direction_done (c : ubwt_config) (rev : bool) (f : ubwt_report_collect_t) (i o : list Z) (t : nat)
    (s s' : thread) : Prop := {
  done_moves : moves i o t s s';
  done_ready : ready c s';
  done_carries : carries (cur s) (cur s');
  done_shows : shows_in rev f (report (cur s'));
  done_other : result_of (negb rev) (report (cur s')) = result_of (negb rev) (report (cur s))
}.

Lemma phase_pair big big' b b' c c' peer peer' un un' lx ly rev init cleanup x y ts restx resty :
  paired b b' c c' -> plan_role lx rev = Sender -> plan_role ly rev = Receiver ->
  ready c x -> ready c' y ->
  (init = true -> about_to_connect (conn_wire_bytes big' b' c') x /\ about_to_connect (conn_wire_bytes big b c) y) ->
  let tx := (k_tick x + flag_ticks_if b init)%nat in
  let ty := (k_tick y + flag_ticks_if b' init)%nat in
  session c 100 ts -> timed (k_clock y) ty ts ->
  let f := direction_figures c (k_clock x) (k_clock y) tx ty ts in
  let ix := opening init (conn_wire_bytes big' b' c') ++ direction_replied (mt b') (worker_id (cur y)) c (k_clock x) (k_clock y) tx ty ts in
  let iy := opening init (conn_wire_bytes big b c) ++ direction_sent (mt b) (worker_id (cur x)) c (k_clock x) tx ts in
  rx_data (k_rx x) = ix ++ restx -> rx_data (k_rx y) = iy ++ resty ->
  exists x' y',
    phase_run big b peer un lx init cleanup rev x = Done tt x' /\
    phase_run big' b' peer' un' ly init cleanup rev y = Done tt y' /\
    direction_done c rev f ix iy (flag_ticks_if b init + 2 * Z.to_nat (talk_handshake_iter c) + flag_ticks_if b cleanup) x x' /\
    direction_done c' rev f iy ix (flag_ticks_if b' init + 3 * length ts + flag_ticks_if b' cleanup) y y'.
Proof.
  intros Hpair Hrx Hry Rx Ry Habout tx ty Hsess Htimed f ix iy Hix Hiy.
  pose proof (test_single _ _ (pair_test _ _ _ _ Hpair)) as Hs. pose proof (test_single _ _ (pair_test' _ _ _ _ Hpair)) as Hs'.
  destruct (negotiate_same _ _ _ _ (pair_test _ _ _ _ Hpair) (pair_test' _ _ _ _ Hpair) (pair_negotiated _ _ _ _ Hpair))
    as (Hsame & _ & _).
  pose proof Rx as [[stx Hstx] Hclkx Hstartx]. pose proof Ry as [[sty Hsty] Hclky Hstarty].
  assert (forall s : thread, io_ok alone s -> snd (shared_of s) = []) as Halone by (intros s []; done).
  assert (u32 (direction_latency c (k_clock x) tx)) as Hlat by (by eapply talk_latency_u32, single_talk).
  assert (collect_fits f) as Hf.
  { eapply rounds_figures_fits; [|done|done]. eapply (session_receiver b c 0 Hs 100 ts Hsess (talk_shared_zero, [])). done. }
  unfold ix, iy in Hix, Hiy. rewrite <- app_assoc in Hix, Hiy.
  destruct (phase_one big big' b b' c c' peer un Hpair stx x lx init cleanup rev (direction_replied (mt b') (worker_id (cur y)) c (k_clock x) (k_clock y) tx ty ts)
    (direction_sent (mt b) (worker_id (cur x)) c (k_clock x) tx ts) (2 * Z.to_nat (talk_handshake_iter c)) f restx Hstx Hclkx) as (x' & Ex & Mx & Stx & Cx & Fx & Ox);
    [by apply Habout|done| |].
  { intros s1 St1 C1 Hc1 Ht1 Hr1. rewrite Hrx. cbn [talk_as].
    destruct (session_starts b c (reverse (process (cur s1))) Hs ts Hsess (shared_of s1) (Halone _ (at_io _ _ _ St1))) as [Hss _].
    destruct (talk_sender_run big b c (single_talk _ _ Hs) stx s1 (mt b') (worker_id (cur y)) restx (rounds_of c 100 ts) f
      St1 (at_wid _ _ _ Hsty) ltac:(by rewrite Hc1) Hss Hf eq_refl Hr1) as (s2 & E & M & St2 & T & D & F).
    rewrite (carries_worker_id _ _ C1), Hc1, Ht1 in M. exists s2. by split_and!. }
  destruct (phase_one big' big b' b c' c peer' un' (paired_sym _ _ _ _ Hpair) sty y ly init cleanup rev (direction_sent (mt b) (worker_id (cur x)) c (k_clock x) tx ts)
    (direction_replied (mt b') (worker_id (cur y)) c (k_clock x) (k_clock y) tx ty ts) (3 * length ts) f resty Hsty Hclky) as (y' & Ey & My & Sty & Cy & Fy & Oy);
    [by apply Habout|done| |].
  { intros s1 St1 C1 Hc1 Ht1 Hr1. rewrite Hry. cbn [talk_as].
    destruct (same_talk_bytes _ _ Hsame (mt b) (worker_id (cur x)) (direction_latency c (k_clock x) tx) (rounds_of c 100 ts) f) as [E1 _].
    destruct (same_talk_bytes _ _ Hsame (mt b') (worker_id (cur y)) (direction_latency c (k_clock x) tx) (rounds_of c 100 ts) f) as [_ E2].
    destruct (session_starts b' c' (reverse (process (cur s1))) Hs' ts (same_talk_session _ _ _ _ Hsame Hsess) (shared_of s1)
      (Halone _ (at_io _ _ _ St1))) as [_ Hsr]. rewrite (same_talk_rounds _ _ 100 ts Hsame) in Hsr.
    destruct (talk_receiver_run big' b' c' (single_talk _ _ Hs') sty s1 (mt b) (worker_id (cur x)) (direction_latency c (k_clock x) tx)
      resty (rounds_of c 100 ts) St1
      (at_wid _ _ _ Hstx) Hlat) as (s2 & E & M & St2 & T & D & F);
      [by rewrite Hc1|exact Hsr| |by rewrite Hc1, Ht1, rounds_of_snd|by rewrite E1|].
    { rewrite Hc1, Ht1, (carries_start _ _ C1). fold ty. pose proof (clock_mono_le _ (k_tick y) ty Hclky). lia. }
    rewrite Hc1, Ht1 in M, F. change (rounds_figures _ _ _ _) with f in M, F.
    replace (3 * length (rounds_of c 100 ts))%nat with (3 * length ts)%nat in M
      by (by rewrite <- (length_map snd (rounds_of _ _ _)), rounds_of_snd).
    rewrite (carries_worker_id _ _ C1), E1, E2 in M. exists s2. by split_and!. }
  exists x', y'. split_and!; [done|done|constructor; try done|constructor; try done].
  - by eapply (ready_moves c _ _ _ _ x).
  - by eapply (ready_moves c' _ _ _ _ y).
Qed.

(** ** The whole test *)

(** An end of the test: whether its build has threads, its worker and its clock. *)
Record talker := { t_threads : bool; t_worker : Z; t_clock : clock }.

Definition talker_of (b : build) (s : thread) : talker :=
  {| t_threads := mt b; t_worker := worker_id (cur s); t_clock := k_clock s |}.

(** A test is the list of its directions, each with the durations of its streams.
    [ta] and [tl] are the readings of the clocks of the connector [a] and of the
    listener [l]; a direction takes two readings per handshake at the sender and
    three per stream at the receiver. *)
Section conversation.
Context (c : ubwt_config) (a l : talker).

Definition sender_readings : nat := 2 * Z.to_nat (talk_handshake_iter c).
Definition receiver_readings (ts : list Z) : nat := 3 * length ts.

Definition connector_next (rev : bool) (ts : list Z) (ta : nat) : nat :=
  ta + (if rev then receiver_readings ts else sender_readings).
Definition listener_next (rev : bool) (ts : list Z) (tl : nat) : nat :=
  tl + (if rev then sender_readings else receiver_readings ts).

Definition figures_in (rev : bool) (ts : list Z) (ta tl : nat) : ubwt_report_collect_t :=
  if rev then direction_figures c (t_clock l) (t_clock a) tl ta ts
  else direction_figures c (t_clock a) (t_clock l) ta tl ts.

Definition from_connector (rev : bool) (ts : list Z) (ta tl : nat) : list Z :=
  if rev then direction_replied (t_threads a) (t_worker a) c (t_clock l) (t_clock a) tl ta ts
  else direction_sent (t_threads a) (t_worker a) c (t_clock a) ta ts.

Definition from_listener (rev : bool) (ts : list Z) (ta tl : nat) : list Z :=
  if rev then direction_sent (t_threads l) (t_worker l) c (t_clock l) tl ts
  else direction_replied (t_threads l) (t_worker l) c (t_clock a) (t_clock l) ta tl ts.

Fixpoint to_listener (tests : list (bool * list Z)) (ta tl : nat) : list Z :=
  match tests with
  | [] => []
  | (rev, ts) :: tests =>
      from_connector rev ts ta tl ++ to_listener tests (connector_next rev ts ta) (listener_next rev ts tl)
  end.

Fixpoint to_connector (tests : list (bool * list Z)) (ta tl : nat) : list Z :=
  match tests with
  | [] => []
  | (rev, ts) :: tests =>
      from_listener rev ts ta tl ++ to_connector tests (connector_next rev ts ta) (listener_next rev ts tl)
  end.

Fixpoint figures (tests : list (bool * list Z)) (ta tl : nat) : list (bool * ubwt_report_collect_t) :=
  match tests with
  | [] => []
  | (rev, ts) :: tests =>
      (rev, figures_in rev ts ta tl) :: figures tests (connector_next rev ts ta) (listener_next rev ts tl)
  end.

(** The durations are those of a session and those the receivers measure. *)
Fixpoint measured (tests : list (bool * list Z)) (ta tl : nat) : Prop :=
  match tests with
  | [] => True
  | (rev, ts) :: tests =>
      session c 100 ts /\ timed (t_clock (if rev then a else l)) (if rev then ta else tl) ts /\
      measured tests (connector_next rev ts ta) (listener_next rev ts tl)
  end.

End conversation.

Lemma same_talk_directions c c' : same_talk c c' -> forall k k' m w t t' ts,
  direction_latency c' k t = direction_latency c k t /\
  direction_figures c' k k' t t' ts = direction_figures c k k' t t' ts /\
  direction_sent m w c' k t ts = direction_sent m w c k t ts /\
  direction_replied m w c' k k' t t' ts = direction_replied m w c k k' t t' ts.
Proof.
  intros H k k' m w t t' ts.
  assert (direction_latency c' k t = direction_latency c k t) as E.
  { unfold direction_latency, talk_latency. by rewrite (same_iter _ _ H). }
  assert (direction_figures c' k k' t t' ts = direction_figures c k k' t t' ts) as E'.
  { unfold direction_figures. by rewrite E, (same_talk_rounds _ _ _ _ H). }
  split_and!; [done|done|..].
  - unfold direction_sent. rewrite E, (same_talk_rounds _ _ _ _ H).
    by destruct (same_talk_bytes _ _ H m w (direction_latency c k t) (rounds_of c 100 ts) collect_zero) as [-> _].
  - unfold direction_replied. rewrite E', (same_talk_rounds _ _ _ _ H).
    by destruct (same_talk_bytes _ _ H m w 0 (rounds_of c 100 ts) (direction_figures c k k' t t' ts)) as [_ ->].
Qed.

(** A direction of the test, whoever sends. *)
Lemma phase_ends big big' b b' c c' peer peer' un un' (rev init cleanup : bool) x y ts restx resty :
  paired b b' c c' -> im_listener c = 0 -> ready c x -> ready c' y ->
  (init = true -> about_to_connect (conn_wire_bytes big' b' c') x /\ about_to_connect (conn_wire_bytes big b c) y) ->
  let a := talker_of b x in
  let l := talker_of b' y in
  let ta := (k_tick x + flag_ticks_if b init)%nat in
  let tl := (k_tick y + flag_ticks_if b' init)%nat in
  session c 100 ts -> timed (t_clock (if rev then a else l)) (if rev then ta else tl) ts ->
  let f := figures_in c a l rev ts ta tl in
  let ix := opening init (conn_wire_bytes big' b' c') ++ from_listener c a l rev ts ta tl in
  let iy := opening init (conn_wire_bytes big b c) ++ from_connector c a l rev ts ta tl in
  rx_data (k_rx x) = ix ++ restx -> rx_data (k_rx y) = iy ++ resty ->
  exists x' y',
    phase_run big b peer un false init cleanup rev x = Done tt x' /\
    phase_run big' b' peer' un' true init cleanup rev y = Done tt y' /\
    direction_done c rev f ix iy (connector_next c rev ts (flag_ticks_if b init) + flag_ticks_if b cleanup) x x' /\
    direction_done c' rev f iy ix (listener_next c rev ts (flag_ticks_if b' init) + flag_ticks_if b' cleanup) y y'.
Proof.
  intros Hpair Hmode Rx Ry Habout a l ta tl Hsess Htimed f ix iy Hix Hiy.
  destruct (negotiate_same _ _ _ _ (pair_test _ _ _ _ Hpair) (pair_test' _ _ _ _ Hpair) (pair_negotiated _ _ _ _ Hpair))
    as (Hsame & _ & _).
  unfold f, ix, iy, figures_in, from_listener, from_connector, connector_next, listener_next, sender_readings, receiver_readings in *.
  destruct rev.
  - destruct (same_talk_directions _ _ Hsame (t_clock l) (t_clock a) (t_threads l) (t_worker l) tl ta ts) as (_ & Ef & Es & _).
    destruct (same_talk_directions _ _ Hsame (t_clock l) (t_clock a) (t_threads a) (t_worker a) tl ta ts) as (_ & _ & _ & Er).
    rewrite <- Ef, <- Es, <- Er in *. rewrite <- (same_iter _ _ Hsame).
    destruct (phase_pair big' big b' b c' c peer' peer un' un true false true init cleanup y x ts resty restx
      (paired_sym _ _ _ _ Hpair) eq_refl eq_refl Ry Rx) as (y' & x' & Ey & Ex & Dy & Dx); try done.
    + intros Hi. by destruct (Habout Hi).
    + by eapply same_talk_session.
    + by exists x', y'.
  - destruct (phase_pair big big' b b' c c' peer peer' un un' false true false init cleanup x y ts restx resty
      Hpair eq_refl eq_refl Rx Ry) as (x' & y' & Ex & Ey & Dx & Dy); try done.
    by exists x', y'.
Qed.

(** The result of a list of directions for one of the ends. *)
Record test_done (c : ubwt_config) (figs : list (bool * ubwt_report_collect_t)) (i o : list Z) (s s' : thread) : Prop := {
  test_moves : exists t, moves i o t s s';
  test_ready : ready c s';
  test_carries : carries (cur s) (cur s');
  test_shows : Forall (fun '(rev, f) => shows_in rev f (report (cur s'))) figs;
  test_other : forall rev, rev ∉ map fst figs -> result_of rev (report (cur s')) = result_of rev (report (cur s))
}.

Lemma not_elem_singleton (rev d : bool) : d ∉ [rev] -> d = negb rev.
Proof. destruct rev, d; intros H; (done || (destruct H; by constructor)). Qed.

Lemma test_done_one c rev f i o t s s' :
  direction_done c rev f i o t s s' -> test_done c [(rev, f)] i o s s'.
Proof.
  intros []. constructor; try done; [by eexists|by constructor|].
  intros d Hd. by rewrite (not_elem_singleton rev d Hd).
Qed.

Lemma test_done_cons c rev f figs i o t i' o' st s s1 s2 s' :
  direction_done c rev f i o t s s1 -> quiet c st 0 s1 s2 -> test_done c figs i' o' s2 s' ->
  rev ∉ map fst figs -> test_done c ((rev, f) :: figs) (i ++ i') (o ++ o') s s'.
Proof.
  intros [M R C S O] [M1 _ C1 R1] [[t' M'] R' C' S' O'] Hrev. constructor.
  - eexists. eapply moves_conv; [eapply moves_trans; [exact M|eapply moves_trans; [exact M1|exact M']]|..]; done.
  - done.
  - eapply carries_trans; [exact C|by eapply carries_trans].
  - constructor; [|done]. unfold shows_in in *. by rewrite (O' _ Hrev), R1.
  - intros d Hd. simpl in Hd. rewrite not_elem_of_cons in Hd. destruct Hd as [Hne Hd].
    rewrite (O' _ Hd), R1. replace d with (negb rev) by (by destruct d, rev). done.
Qed.

Lemma figures_fst c a l tests ta tl : map fst (figures c a l tests ta tl) = map fst tests.
Proof. revert ta tl. induction tests as [|[rev ts] tests IH]; intros ta tl; [done|]. simpl. by rewrite IH. Qed.

Lemma ready_quiet c st t s s' : ready c s -> quiet c st t s s' -> ready c s'.
Proof. intros R [M St C _]. by eapply ready_moves. Qed.

Lemma talker_quiet c st t b s s' : quiet c st t s s' -> talker_of b s' = talker_of b s /\ k_tick s' = (k_tick s + t)%nat.
Proof.
  intros [M _ [_ Hw _] _]. destruct (moves_clock _ _ _ _ _ M) as [Hc Ht].
  split; [|done]. unfold talker_of. by rewrite Hw, Hc.
Qed.

Lemma talker_done c rev f i o t b s s' :
  direction_done c rev f i o t s s' -> talker_of b s' = talker_of b s /\ k_tick s' = (k_tick s + t)%nat.
Proof.
  intros [M _ [_ Hw _] _ _]. destruct (moves_clock _ _ _ _ _ M) as [Hc Ht].
  split; [|done]. unfold talker_of. by rewrite Hw, Hc.
Qed.

Section both.
Context (big big' : bool) (b b' : build) (c c' : ubwt_config) (peer peer' : ubwt_net_endpoint) (un un' : list Z).
Context (Hpair : paired b b' c c') (Hmode : im_listener c = 0).

Notation wire := (conn_wire_bytes big b c).
Notation wire' := (conn_wire_bytes big' b' c').

Lemma phases_ends tests : forall init x y rest rest',
  tests <> [] -> NoDup (map fst tests) -> ready c x -> ready c' y ->
  (init = true -> about_to_connect wire' x /\ about_to_connect wire y) ->
  let a := talker_of b x in
  let l := talker_of b' y in
  let ta := (k_tick x + flag_ticks_if b init)%nat in
  let tl := (k_tick y + flag_ticks_if b' init)%nat in
  measured c a l tests ta tl ->
  let ix := opening init wire' ++ to_connector c a l tests ta tl in
  let iy := opening init wire ++ to_listener c a l tests ta tl in
  rx_data (k_rx x) = ix ++ rest -> rx_data (k_rx y) = iy ++ rest' ->
  exists x' y',
    phases_run big b peer un false init (map fst tests) x = Done tt x' /\
    phases_run big' b' peer' un' true init (map fst tests) y = Done tt y' /\
    test_done c (figures c a l tests ta tl) ix iy x x' /\ test_done c' (figures c a l tests ta tl) iy ix y y'.
Proof.
  induction tests as [|[rev ts] tests IH]; [done|].
  intros init x y rest rest' _ Hnd Rx Ry Habout a l ta tl [Hsess [Htimed Hmeas]] ix iy Hix Hiy.
  destruct tests as [|t2 tests].
  - destruct (phase_ends big big' b b' c c' peer peer' un un' rev init true x y ts rest rest' Hpair Hmode Rx Ry Habout Hsess Htimed)
      as (x' & y' & Ex & Ey & Dx & Dy); [rewrite Hix; subst ix; simpl; by rewrite app_nil_r|rewrite Hiy; subst iy; simpl; by rewrite app_nil_r|].
    exists x', y'. cbn [phases_run map fst]. split_and!; [done|done|..];
      subst ix iy; cbn [figures to_connector to_listener]; rewrite !app_nil_r; by eapply test_done_one.
  - destruct (phase_ends big big' b b' c c' peer peer' un un' rev init false x y ts
      (to_connector c a l (t2 :: tests) (connector_next c rev ts ta) (listener_next c rev ts tl) ++ rest)
      (to_listener c a l (t2 :: tests) (connector_next c rev ts ta) (listener_next c rev ts tl) ++ rest')
      Hpair Hmode Rx Ry Habout Hsess Htimed) as (x1 & y1 & Ex & Ey & Dx & Dy).
    { rewrite Hix. subst ix. cbn [to_connector]. destruct t2. by rewrite <- !app_assoc. }
    { rewrite Hiy. subst iy. cbn [to_listener]. destruct t2. by rewrite <- !app_assoc. }
    destruct (ready_at _ _ (done_ready _ _ _ _ _ _ _ _ Dx)) as [stx Stx].
    destruct (ready_at _ _ (done_ready _ _ _ _ _ _ _ _ Dy)) as [sty Sty].
    destruct (delay_run c stx x1 false Stx) as (x2 & Ex2 & Qx). destruct (delay_run c' sty y1 true Sty) as (y2 & Ey2 & Qy).
    destruct (talker_done _ _ _ _ _ _ b _ _ Dx) as [Tx Kx]. destruct (talker_done _ _ _ _ _ _ b' _ _ Dy) as [Ty Ky].
    destruct (talker_quiet _ _ _ b _ _ Qx) as [Tx2 Kx2]. destruct (talker_quiet _ _ _ b' _ _ Qy) as [Ty2 Ky2].
    assert (k_tick x2 + flag_ticks_if b false = connector_next c rev ts ta)%nat as Ka.
    { rewrite Kx2, Kx. subst ta. unfold connector_next, flag_ticks_if. lia. }
    assert (k_tick y2 + flag_ticks_if b' false = listener_next c rev ts tl)%nat as Kl.
    { rewrite Ky2, Ky. subst tl. unfold listener_next, flag_ticks_if. lia. }
    inversion Hnd as [|? ? Hrev Hnd']; subst.
    destruct (IH false x2 y2 rest rest') as (x' & y' & Ex' & Ey' & Dx' & Dy');
      [done|done|eapply ready_quiet; [apply Dx|exact Qx]|eapply ready_quiet; [apply Dy|exact Qy]|done|..];
      rewrite ?Tx2, ?Ty2, ?Tx, ?Ty, ?Ka, ?Kl; fold a; fold l; [done|..].
    { rewrite (moves_nil_rx _ _ _ _ (quiet_moves _ _ _ _ _ Qx)).
      eapply moves_rx; [apply Dx|]. rewrite Hix. subst ix. cbn [to_connector]. destruct t2. by rewrite <- !app_assoc. }
    { rewrite (moves_nil_rx _ _ _ _ (quiet_moves _ _ _ _ _ Qy)).
      eapply moves_rx; [apply Dy|]. rewrite Hiy. subst iy. cbn [to_listener]. destruct t2. by rewrite <- !app_assoc. }
    rewrite Tx2, Ty2, Tx, Ty, Ka, Kl in Dx', Dy'. fold a in Dx', Dy'. fold l in Dx', Dy'.
    assert (rev ∉ map fst (figures c a l (t2 :: tests) (connector_next c rev ts ta) (listener_next c rev ts tl))) as Hrev'
      by (by rewrite figures_fst).
    exists x', y'. split_and!.
    + change (phases_run big b peer un false init (map fst ((rev, ts) :: t2 :: tests))) with
        (phase_run big b peer un false init false rev ;; when false reverse_delay ;;
         phases_run big b peer un false false (map fst (t2 :: tests))).
      by rewrite (bind_Done _ _ _ _ _ Ex), (bind_Done _ _ _ _ _ Ex2).
    + change (phases_run big' b' peer' un' true init (map fst ((rev, ts) :: t2 :: tests))) with
        (phase_run big' b' peer' un' true init false rev ;; when true reverse_delay ;;
         phases_run big' b' peer' un' true false (map fst (t2 :: tests))).
      by rewrite (bind_Done _ _ _ _ _ Ey), (bind_Done _ _ _ _ _ Ey2).
    + pose proof (test_done_cons _ _ _ _ _ _ _ _ _ _ _ _ _ _ Dx Qx Dx' Hrev') as D.
      subst ix iy. cbn [opening app] in D. rewrite <- !app_assoc in D. exact D.
    + pose proof (test_done_cons _ _ _ _ _ _ _ _ _ _ _ _ _ _ Dy Qy Dy' Hrev') as D.
      subst ix iy. cbn [opening app] in D. rewrite <- !app_assoc in D. exact D.
Qed.

End both.

(** The end of a worker. *)
Lemma exit_run b c s s1 t i o :
  ready c s1 -> moves i o t s s1 ->
  exists s', when (mt b) current_exit s1 = Done tt s' /\ moves i o (t + flag_ticks b) s s' /\
    report (cur s') = report (cur s1).
Proof.
  intros [[st St] Hclk _] M.
  destruct (flags_when_run b c st s1 current_exit (fun w => bit_set (bit_clear w flag_task_running) flag_task_joinable)
    eq_refl St Hclk) as (s' & E & [M' _ _ R']).
  exists s'. split_and!; [done| |done].
  eapply moves_conv; [eapply moves_trans; [exact M|exact M']|..]; by rewrite ?app_nil_r.
Qed.

Lemma Forall_both {A : Type} (P Q : A -> Prop) l : Forall P l -> Forall Q l -> Forall (fun x => P x /\ Q x) l.
Proof. induction 1; intros H'; inversion H'; subst; constructor; auto. Qed.


(** A test in both directions, with one worker and a minimum time of one second.  The
    first straight stream is too short and is repeated with 240 packets. *)
Definition demo_options : list cmdopt := [O_b; O_W "1"; O_t "1"].

Definition demo_end (mode : string) : ubwt_config := default config_zero (Conn.example_config mode demo_options).

Definition demo_tests : list (bool * list Z) := [(false, [500000; 2000000]); (true, [2000000])].

(** The readings of the clocks, in microseconds after 1000 seconds. *)
Definition listener_clock (n : nat) : option (Z * Z) :=
  Some (1000, if (n <? 2)%nat then 0 else if (n <? 5)%nat then 500000 else 2500000).

Definition connector_clock (n : nat) : option (Z * Z) := Some (1000, if (n <? 42)%nat then 0 else 2000000).

Definition demo_worker (mode : string) (k : clock) (wid : Z) (input : list rx) : thread := {|
  cur := current_zero {{ config := demo_end mode; worker_id := wid }};
  errno := E0; k_rx := input; k_tx := []; k_sent := []; k_calls := []; k_trace := [];
  k_clock := k; k_tick := 0; k_sync := []; k_log := [] |}.

Lemma demo_end_ok mode :
  mode = "connector"%string \/ mode = "listener"%string -> Conn.example_config mode demo_options = Some (demo_end mode).
Proof. by intros [->| ->]. Qed.

Lemma demo_test_ok mode :
  mode = "connector"%string \/ mode = "listener"%string -> single_tcp_test build_linux (demo_end mode).
Proof.
  intros H. constructor; [by eapply example_config_wf, demo_end_ok|..]; by destruct H as [->| ->].
Qed.

Lemma demo_paired : paired build_linux build_linux (demo_end "connector") (demo_end "listener").
Proof. constructor; [apply demo_test_ok; auto|apply demo_test_ok; auto|done|reflexivity|reflexivity]. Qed.

Lemma demo_clocks_ok : clock_ok connector_clock /\ clock_ok listener_clock.
Proof.
  split; constructor; try done; intros n; unfold clock_us, connector_clock, listener_clock;
    repeat match goal with |- context [(?a <? ?b)%nat] => destruct (Nat.ltb_spec a b) end;
    try lia; vm_compute; split; congruence.
Qed.

Lemma demo_ready mode k wid input :
  clock_ok k -> u64 wid -> Forall rx_good input -> 0 < clock_us k 0 ->
  ready (demo_end mode) (demo_worker mode k wid input).
Proof.
  intros Hk Hw Hi H0. constructor; [exists UBWT_STAGE_STATE_NONE; constructor; [constructor|..]; simpl; try done|done|].
  simpl. lia.
Qed.

Lemma demo_measured :
  measured (demo_end "connector") {| t_threads := true; t_worker := 7; t_clock := connector_clock |}
    {| t_threads := true; t_worker := 8; t_clock := listener_clock |} demo_tests 1 1.
Proof.
  assert (forall t, 0 <= t < 2 ^ 63 -> u64 t) as Hu by (unfold unsigned; lia).
  split; [|split; [by vm_compute|split; [|by vm_compute]]].
  - apply session_weak; [lia|by apply Hu|by vm_compute|by vm_compute|].
    replace (weak_count (demo_end "connector") 500000 100) with 240 by (by vm_compute).
    apply session_last; [lia|by apply Hu|by vm_compute].
  - apply session_last; [lia|by apply Hu|by vm_compute].
Qed.

Lemma rx_data_two p q : rx_data [RxData p; RxData q] = (p ++ q) ++ [].
Proof. unfold rx_data. simpl. by rewrite !app_nil_r. Qed.

