(* ===== verification/Typed.v ===== *)
(** Every worker stays within its types, whatever it is given.

    The theorems about completed talks suppose a peer that follows the protocol.
    Here nothing is supposed of the peer, the network, the clock and the other
    workers: the bytes that arrive are any bytes, calls fail in any way, and time
    goes anywhere.  A computation is [safe] if from a well-typed thread it leaves a
    well-typed thread, ends the process in one of the ways the program provides for,
    and waits only when its input is exhausted, so that no loop of the program runs
    on its own. *)

From S2P Require Import Prelude Bitops Errors Byteorder Layout ConfigData Usage Double Report Stage Thread Config ConfigSpec Conn Net NetSpec Talk Process.

(** ** The C types of the state *)

Record typed_collect (c : ubwt_report_collect_t) : Prop := {
  ty_latency : u32 (talk_latency_us c);
  ty_count : u32 (talk_count c);
  ty_pkts : u32 (talk_stream_recv_pkts c);
  ty_duration : u64 (talk_stream_time_duration c);
  ty_start : u64 (talk_stream_time_start c);
  ty_bytes : u64 (talk_stream_recv_bytes c)
}.

Definition typed_report (r : ubwt_report) : Prop :=
  typed_collect (collected (results0 r)) /\ typed_collect (collected (results1 r)).

Record typed_context (x : ubwt_talk_context) : Prop := {
  ty_im_weak : u32 (im_weak x);
  ty_ctx_count : u64 (talk_ctx_count x);
  ty_weak_time : u64 (weak_time x)
}.

Record typed_shared (t : talk_shared) : Prop := {
  ty_weak : u32 (talk_weak t);
  ty_straight : typed_context (talk_straight t);
  ty_reverse : typed_context (talk_reverse t)
}.

Record typed_current (c : ubwt_current) : Prop := {
  ty_report : typed_report (report c);
  ty_talk : typed_shared (talk c);
  ty_iter : u64 (iter (stage c));
  ty_flags : u32 (worker_flags c);
  ty_worker_id : u64 (worker_id c);
  ty_remote : u64 (remote_worker_id c);
  ty_now : u64 (time_us_now c);
  ty_buf : is_bytes (buf (net c));
  ty_idx : u32 (buf_idx (net c))
}.

Definition rx_bytes (r : rx) : Prop := match r with RxData bs => is_bytes bs | RxErr _ => True end.

(** A well-typed thread: also what it can still read and what it has sent are
    bytes, and the other workers keep the types of what they share. *)
Record typed (s : thread) : Prop := {
  ty_cur : typed_current (cur s);
  ty_rx : Forall rx_bytes (k_rx s);
  ty_sent : Forall is_bytes (k_sent s);
  ty_sync : Forall (fun y => forall t, typed_shared t -> typed_shared (others y t)) (k_sync s)
}.

(** ** How a worker may end the process

    With an error of its own, or at an assertion: of the talk's count, which a weak
    stream may raise above the maximum, of the duration of a stream, which the clock
    may contradict, or of the payload buffer, if it is smaller than a payload. *)
Definition ending (c : ubwt_config) (e : stop) : Prop :=
  match e with
  | Exited status why => status = EXIT_FAILURE /\ why <> None
  | Aborted _ => False
  | Assertion x =>
      x ∈ ["count > 0"; "count <= talk_count_max"; "count >= talk_count_default";
           "t < current_time_elapsed()"]%string \/
      x = "count <= c->config->net_payload_buffer_size"%string /\
      0 < net_payload_buffer_size c < talk_payload_current_size c
  end.

(** ** Safe computations *)

Section safe.
Variable cfg : ubwt_config.

Record sane (s : thread) : Prop := { sane_typed : typed s; sane_config : config (cur s) = cfg }.

Lemma sane_intro s s' :
  sane s -> typed_current (cur s') -> config (cur s') = cfg -> Forall rx_bytes (k_rx s') ->
  Forall is_bytes (k_sent s') -> k_sync s' = k_sync s -> sane s'.
Proof. intros [[] ] Hc Hcfg Hr Ht Hy. split; [|done]. split; [done..|]. by rewrite Hy. Qed.

(** From [s], with at least [d] of the input's weight consumed by a result. *)
Definition outcome {A : Type} (d : nat) (Q : A -> Prop) (s : thread) (o : out A) : Prop :=
  match o with
  | Done a s' => sane s' /\ (rx_weight (k_rx s') + d <= rx_weight (k_rx s))%nat /\ Q a
  | Halted e s' => sane s' /\ ending cfg e
  | Blocked s' => sane s' /\ k_rx s' = []
  end.

Definition safe {A : Type} (d : nat) (m : M A) (Q : A -> Prop) : Prop :=
  forall s, sane s -> outcome d Q s (m s).

Lemma outcome_done {A : Type} (Q : A -> Prop) a s s' :
  sane s' -> k_rx s' = k_rx s -> Q a -> outcome 0 Q s (Done a s').
Proof. intros Hs Hrx Ha. split_and!; [done|rewrite Hrx; lia|done]. Qed.

Lemma outcome_later {A : Type} d e (Q : A -> Prop) s s' o :
  (rx_weight (k_rx s') + d <= rx_weight (k_rx s) + e)%nat -> outcome e Q s' o -> outcome d Q s o.
Proof. intros Hle H. destruct o as [a s2|x s2|s2]; [|exact H..]. destruct H as (? & ? & ?). split_and!; [done|lia|done]. Qed.

Lemma outcome_bind {A B : Type} d e (m : M A) (f : A -> M B) P Q s :
  outcome d P s (m s) ->
  (forall a s1, P a -> sane s1 -> (rx_weight (k_rx s1) + d <= rx_weight (k_rx s))%nat ->
    outcome e Q s1 (f a s1)) ->
  outcome (d + e) Q s ((m ≫= f) s).
Proof.
  unfold mbind, M_bind. intros H Hf. destruct (m s) as [a s1|x s1|s1]; [|exact H..].
  destruct H as (Hs & Hw & Ha). specialize (Hf a s1 Ha Hs Hw).
  destruct (f a s1); simpl in *; [|exact Hf..].
  destruct Hf as (? & ? & ?). split_and!; [done|lia|done].
Qed.

Lemma safe_bind {A B : Type} d (m : M A) (f : A -> M B) P Q :
  safe 0 m P -> (forall a, P a -> safe d (f a) Q) -> safe d (m ≫= f) Q.
Proof. intros H Hf s Hs. apply (outcome_bind 0 d _ _ P); [by apply H|]. intros a s1 Ha Hs1 _. by apply Hf. Qed.

Lemma safe_bind_eats {A B : Type} (m : M A) (f : A -> M B) P Q :
  safe 1 m P -> (forall a, P a -> safe 0 (f a) Q) -> safe 1 (m ≫= f) Q.
Proof. intros H Hf s Hs. apply (outcome_bind 1 0 _ _ P); [by apply H|]. intros a s1 Ha Hs1 _. by apply Hf. Qed.

Lemma safe_weaken {A : Type} d (m : M A) (P Q : A -> Prop) :
  safe d m P -> (forall a, P a -> Q a) -> safe 0 m Q.
Proof.
  intros H HQ s Hs. specialize (H s Hs). destruct (m s); simpl in *; [|exact H..].
  destruct H as (? & ? & ?). split_and!; [done|lia|auto].
Qed.

Lemma safe_ret {A : Type} (a : A) (Q : A -> Prop) : Q a -> safe 0 (mret a) Q.
Proof. intros HQ s Hs. simpl. split_and!; [done|lia|auto]. Qed.

Lemma safe_get {A : Type} (g : thread -> A) (Q : A -> Prop) : (forall s, sane s -> Q (g s)) -> safe 0 (get g) Q.
Proof. intros HQ s Hs. simpl. split_and!; [done|lia|auto]. Qed.

Lemma safe_current_of {A : Type} (g : ubwt_current -> A) (Q : A -> Prop) :
  (forall c, typed_current c -> config c = cfg -> Q (g c)) -> safe 0 (current_of g) Q.
Proof. intros HQ. apply safe_get. intros s [[] Hc]. by apply HQ. Qed.

Lemma safe_blocked {A : Type} d (Q : A -> Prop) s : sane s -> k_rx s = [] -> outcome d Q s (blocked s).
Proof. intros. by split. Qed.

Lemma safe_update_cur f :
  (forall c, typed_current c -> config c = cfg -> typed_current (f c) /\ config (f c) = cfg) ->
  safe 0 (update_cur f) (fun _ => True).
Proof.
  intros Hf s Hs. pose proof Hs as [[Hc Hr Ht Hy] Hcfg]. destruct (Hf _ Hc Hcfg) as [Hc' Hcfg'].
  apply outcome_done; [|done..]. by apply (sane_intro s).
Qed.

Lemma safe_halt {A : Type} d e (Q : A -> Prop) : ending cfg e -> safe d (halt e) Q.
Proof. intros He s Hs. by split. Qed.

Lemma safe_massert b x : ending cfg (Assertion x) -> safe 0 (massert b x) (fun _ => b = true).
Proof. intros H. unfold massert. destruct b; [by apply safe_ret|by apply safe_halt]. Qed.

Lemma safe_set_errno e : safe 0 (set_errno e) (fun _ => True).
Proof. intros s Hs. pose proof Hs as [[] ]. apply outcome_done; [by apply (sane_intro s)|done..]. Qed.

Lemma safe_when b m : safe 0 m (fun _ => True) -> safe 0 (when b m) (fun _ => True).
Proof. intros H. destruct b; [exact H|by apply safe_ret]. Qed.

Lemma safe_modify f :
  (forall s, sane s -> sane (f s) /\ k_rx (f s) = k_rx s) -> safe 0 (modify f) (fun _ => True).
Proof. intros Hf s Hs. destruct (Hf s Hs) as [Hs' Hrx]. by apply outcome_done. Qed.

Lemma safe_error_report level t origin : safe 0 (error_report level t origin) (fun _ => True).
Proof.
  unfold error_report. apply (safe_bind 0 _ _ (fun _ => True)); [by apply safe_get|]. intros e _.
  apply (safe_bind 0 _ _ (fun _ => True)); [apply safe_update_cur; by intros c []|]. intros _ _.
  apply (safe_bind 0 _ _ (fun _ => True)).
  - apply safe_modify. intros s Hs. pose proof Hs as [[] ]. split; [by apply (sane_intro s)|done].
  - intros _ _. by destruct level; (apply safe_ret || apply safe_halt).
Qed.

Lemma safe_fatal_error {A : Type} d t origin (Q : A -> Prop) : safe d (fatal_error t origin) Q.
Proof. apply (safe_bind d _ _ (fun _ => True)); [apply safe_error_report|]. intros _ _. by apply safe_halt. Qed.

(** ** The system *)

Definition read_ok (n : nat) (o : option (list Z)) : Prop :=
  match o with Some bs => is_bytes bs /\ (length bs <= n)%nat | None => True end.

(** What a read does to the script: an entry is removed, or all that was asked for is
    taken from it. *)
Definition read_step (n : nat) (s : thread) (o : option (list Z)) (s' : thread) : Prop :=
  sane s' /\ (rx_weight (k_rx s') < rx_weight (k_rx s))%nat /\ read_ok n o /\
  ((length (k_rx s') < length (k_rx s))%nat \/
   (length (k_rx s') = length (k_rx s) /\ exists bs, o = Some bs /\ length bs = n)).

Lemma sane_rx l e s : sane s -> Forall rx_bytes l -> sane (set_rx l e s).
Proof. intros Hs Hl. pose proof Hs as [[] ]. by apply (sane_intro s). Qed.

Lemma sys_read_step n s r l :
  (0 < n)%nat -> sane s -> k_rx s = r :: l -> exists o s', sys_read n s = Done o s' /\ read_step n s o s'.
Proof.
  intros Hn Hs Hrx. pose proof (ty_rx _ (sane_typed _ Hs)) as Hty. rewrite Hrx in Hty.
  apply list.Forall_cons in Hty as [Hr Hl]. unfold sys_read. rewrite get_bind, Hrx.
  destruct r as [bs|e]; rewrite modify_bind.
  - exists (Some (take n bs)). eexists. split; [reflexivity|]. unfold read_step.
    change (s {{ k_rx := ?x }}) with (set_rx x (errno s) s). rewrite Hrx.
    assert (is_bytes (take n bs)) by (by apply Forall_take).
    assert (length (take n bs) <= n)%nat by (rewrite length_take; lia).
    case_decide as Hd.
    + split_and!; [by apply sane_rx|simpl; unfold rx_weight; simpl; lia|done|left; simpl; lia].
    + assert (n < length bs)%nat.
      { destruct (decide (n < length bs)%nat); [done|]. destruct Hd. apply drop_ge. lia. }
      split_and!; [|simpl; unfold rx_weight; simpl; rewrite length_drop; lia|done|].
      * apply sane_rx; [done|]. constructor; [by apply Forall_drop|done].
      * right. split; [done|]. exists (take n bs). split; [done|]. rewrite length_take. lia.
  - exists None. eexists. split; [reflexivity|]. unfold read_step. rewrite Hrx.
    change (s {{ k_rx := ?x; errno := ?y }}) with (set_rx x y s).
    split_and!; [by apply sane_rx|simpl; unfold rx_weight; simpl; lia|done|left; simpl; lia].
Qed.

Lemma sys_recv_step n s r l :
  sane s -> k_rx s = r :: l -> exists o s', sys_recv n s = Done o s' /\ read_step n s o s'.
Proof.
  intros Hs Hrx. pose proof (ty_rx _ (sane_typed _ Hs)) as Hty. rewrite Hrx in Hty.
  apply list.Forall_cons in Hty as [Hr Hl]. unfold sys_recv. rewrite get_bind, Hrx.
  destruct r as [bs|e]; rewrite modify_bind.
  - exists (Some (take n bs)). eexists. split; [reflexivity|]. unfold read_step. rewrite Hrx.
    change (s {{ k_rx := ?x }}) with (set_rx x (errno s) s).
    split_and!; [by apply sane_rx|simpl; unfold rx_weight; simpl; lia| |left; simpl; lia].
    split; [by apply Forall_take|rewrite length_take; lia].
  - exists None. eexists. split; [reflexivity|]. unfold read_step. rewrite Hrx.
    change (s {{ k_rx := ?x; errno := ?y }}) with (set_rx x y s).
    split_and!; [by apply sane_rx|simpl; unfold rx_weight; simpl; lia|done|left; simpl; lia].
Qed.

Lemma safe_of_step (m : M (option (list Z))) n :
  (forall s, k_rx s = [] -> m s = Blocked s) ->
  (forall s r l, sane s -> k_rx s = r :: l -> exists o s', m s = Done o s' /\ read_step n s o s') ->
  safe 1 m (read_ok n).
Proof.
  intros H0 Hm s Hs. destruct (k_rx s) as [|r l] eqn:Hrx.
  - rewrite H0 by done. by split.
  - destruct (Hm s r l Hs Hrx) as (o & s' & -> & Hs' & Hw & Ho & _). split_and!; [done|lia|done].
Qed.

Lemma sys_read_blocks n s : k_rx s = [] -> sys_read n s = Blocked s.
Proof. intros H. unfold sys_read. by rewrite get_bind, H. Qed.

Lemma sys_recv_blocks n s : k_rx s = [] -> sys_recv n s = Blocked s.
Proof. intros H. unfold sys_recv. by rewrite get_bind, H. Qed.

Lemma safe_sys_read n : (0 < n)%nat -> safe 1 (sys_read n) (read_ok n).
Proof. intros Hn. apply safe_of_step; [apply sys_read_blocks|]. intros. by eapply sys_read_step. Qed.

Lemma safe_sys_recv n : safe 1 (sys_recv n) (read_ok n).
Proof. apply safe_of_step; [apply sys_recv_blocks|]. intros. by eapply sys_recv_step. Qed.

(** A write hands over bytes and uses up an entry of its script, or takes all. *)
Lemma sys_write_step bs s :
  sane s -> is_bytes bs -> exists o s', sys_write bs s = Done o s' /\ sane s' /\ k_rx s' = k_rx s /\
    ((length (k_tx s') < length (k_tx s))%nat \/ (length (k_tx s') = length (k_tx s) /\ o = Some (length bs))).
Proof.
  intros Hs Hbs. pose proof Hs as [[Hc Hr Hsent Hy] Hcfg]. unfold sys_write. rewrite get_bind.
  assert (forall cs, is_bytes cs -> Forall is_bytes (k_sent s ++ [cs])) as Happ.
  { intros cs Hcs. apply list.Forall_app. split; [done|]. by apply list.Forall_singleton. }
  assert (forall s', cur s' = cur s -> k_rx s' = k_rx s -> k_sync s' = k_sync s -> Forall is_bytes (k_sent s') -> sane s') as Hsane.
  { intros s' E1 E2 E3 E4. apply (sane_intro s); rewrite ?E1, ?E2; done. }
  destruct s as [cu e r tx o calls tr ck tk sy lg]; simpl in *.
  destruct tx as [|[n|e'] l]; rewrite modify_bind; eexists _, _; (split; [reflexivity|]); simpl;
    (split; [by apply Hsane; simpl; try (apply Happ; try apply Forall_take)|]); (split; [reflexivity|]); (left; lia) || (by right).
Qed.

Lemma safe_sys_write bs : is_bytes bs -> safe 0 (sys_write bs) (fun _ => True).
Proof. intros Hbs s Hs. destruct (sys_write_step bs s Hs Hbs) as (o & s' & -> & Hs' & Hrx & _). by apply outcome_done. Qed.

Lemma sane_frame f :
  (forall s, cur (f s) = cur s /\ k_rx (f s) = k_rx s /\ k_sent (f s) = k_sent s /\ k_sync (f s) = k_sync s) ->
  safe 0 (modify f) (fun _ => True).
Proof.
  intros Hf. apply safe_modify. intros s Hs. pose proof Hs as [[] Hc]. destruct (Hf s) as (E1 & E2 & E3 & E4).
  split; [|done]. apply (sane_intro s); rewrite ?E1, ?E2, ?E3; done.
Qed.

Lemma sys_call_step c s :
  sane s -> exists r s', sys_call c s = Done r s' /\ sane s' /\ k_rx s' = k_rx s /\ k_tx s' = k_tx s.
Proof.
  intros Hs. pose proof Hs as [[Hc Hr Hsent Hy] Hcfg]. unfold sys_call. rewrite modify_bind, get_bind.
  assert (forall s', cur s' = cur s -> k_rx s' = k_rx s -> k_sync s' = k_sync s -> k_sent s' = k_sent s -> sane s') as Hsane.
  { intros s' E1 E2 E3 E4. apply (sane_intro s); rewrite ?E1, ?E2, ?E4; done. }
  destruct s as [cu e r tx o [|[z e'] calls] tr ck tk sy lg]; simpl in *.
  - eexists _, _. split; [reflexivity|]. split; [by apply Hsane|done].
  - rewrite modify_bind. destruct (z <? 0); eexists _, _; (split; [reflexivity|]); (split; [by apply Hsane|done]).
Qed.

Lemma safe_sys_call c : safe 0 (sys_call c) (fun _ => True).
Proof. intros s Hs. destruct (sys_call_step c s Hs) as (r & s' & -> & Hs' & Hrx & _). by apply outcome_done. Qed.

Lemma safe_sys_barrier i : safe 0 (sys_barrier i) (fun _ => True).
Proof.
  unfold sys_barrier. apply (safe_bind 0 _ _ (fun _ => True)); [by apply sane_frame|]. intros _ _ s Hs.
  rewrite get_bind. destruct (k_sync s) as [|y l] eqn:Hy; [by apply outcome_done|].
  rewrite modify_bind. apply outcome_done; [|done..].
  destruct Hs as [[Hc Hr Ht Hys] Hcfg]. rewrite Hy in Hys. apply list.Forall_cons in Hys as [Hy1 Hys].
  split; [|done]. split; [|done..]. destruct Hc. split; simpl; auto.
Qed.

Lemma safe_sys_mutex held : safe 0 (sys_mutex held) (fun _ => True).
Proof. by apply sane_frame. Qed.

Lemma safe_time : safe 0 datetime_now_us (fun t => u64 t).
Proof.
  unfold datetime_now_us. do 2 (apply (safe_bind 0 _ _ (fun _ => True)); [by apply safe_get|]; intros ? _).
  apply (safe_bind 0 _ _ (fun _ => True)); [by apply sane_frame|]. intros _ _.
  step_if; [|apply safe_fatal_error]. destruct p. apply safe_ret. by apply wrap_range.
Qed.

(** ** The transfer loops *)

Lemma read_loop_outcome who fuel count len acc s :
  sane s -> is_bytes acc -> (length (k_rx s) < fuel \/ len <= count /\ 0 < fuel)%nat ->
  outcome (if decide (count < len)%nat then 1 else 0) (fun r => is_bytes (snd r)) s
    (net_read_loop who fuel count len acc s).
Proof.
  revert count acc s. induction fuel as [|fuel IH]; intros count acc s Hs Hacc Hfuel; [lia|].
  cbn [net_read_loop]. case_bool_decide as Hlt.
  2:{ rewrite decide_False by done. apply outcome_done; done. }
  rewrite decide_True by done. destruct Hfuel as [Hfuel|?]; [|lia].
  unfold net_proto, current_of. rewrite get_bind.
  destruct (k_rx s) as [|r l] eqn:Hrx.
  { destruct (is_tcp _); unfold mbind, M_bind; [rewrite sys_read_blocks by done|rewrite sys_recv_blocks by done]; done. }
  assert (exists o s', (if is_tcp (net_l4_proto_value (config (cur s))) then sys_read (len - count) else sys_recv (len - count)) s
    = Done o s' /\ read_step (len - count) s o s') as (o & s' & Hrun & Hs' & Hw & Ho & Hlen).
  { destruct (is_tcp _); [eapply sys_read_step|eapply sys_recv_step]; (done || lia). }
  rewrite (bind_Done _ _ _ _ _ Hrun). assert (0 < fuel)%nat as Hf0 by (simpl in Hfuel; lia). rewrite <- Hrx in Hfuel.
  assert (forall count' acc', is_bytes acc' ->
      (length (k_rx s') < length (k_rx s) \/ len <= count')%nat ->
      outcome 1 (fun r => is_bytes (snd r)) s (net_read_loop who fuel count' len acc' s')) as Hgo.
  { intros count' acc' Hacc' Hor. eapply outcome_later; [|apply IH]; [lia|done|done|]. destruct Hor; [left; lia|right; lia]. }
  destruct o as [bs|].
  - destruct Ho as [Hbs _]. apply Hgo; [by apply list.Forall_app|].
    destruct Hlen as [?|(_ & ? & [= <-] & ?)]; [by left|right; lia].
  - destruct Hlen as [Hlen|(_ & ? & ? & _)]; [|done]. rewrite get_bind. case_decide; [apply Hgo; auto|].
    apply (outcome_later _ 0 _ _ s'); [lia|].
    apply (safe_bind 0 _ _ (fun _ => True)); [apply safe_error_report| |done]. intros _ _. by apply safe_ret.
Qed.

Lemma safe_net_read who len : (0 < len)%nat -> safe 1 (net_read who len) (fun r => is_bytes (snd r)).
Proof.
  intros Hlen s Hs. unfold net_read. rewrite get_bind.
  pose proof (read_loop_outcome who (S (length (k_rx s))) 0 len [] s Hs) as H. rewrite decide_True in H by done.
  apply H; [constructor|left; lia].
Qed.

Lemma write_loop_outcome who fuel count bs s :
  sane s -> is_bytes bs -> (length (k_tx s) + 1 < fuel \/ length bs <= count /\ 0 < fuel)%nat ->
  outcome 0 (fun _ => True) s (net_write_loop who fuel count bs s).
Proof.
  intros Hs Hbs. revert count s Hs. induction fuel as [|fuel IH]; intros count s Hs Hfuel; [lia|].
  cbn [net_write_loop]. case_bool_decide as Hlt; [|by apply outcome_done].
  destruct Hfuel as [Hfuel|?]; [|lia].
  destruct (sys_write_step (drop count bs) s Hs) as (o & s' & Hrun & Hs' & Hrx & Hlen); [by apply Forall_drop|].
  rewrite (bind_Done _ _ _ _ _ Hrun).
  assert (forall o', outcome 0 (fun _ : Z => True) s' o' -> outcome 0 (fun _ => True) s o') as Hback.
  { intros o'. apply outcome_later. rewrite Hrx. lia. }
  destruct o as [n|].
  - apply Hback, IH; [done|]. destruct Hlen as [?|[_ [= ->]]]; [left; lia|right; rewrite length_drop; lia].
  - destruct Hlen as [Hlen|[_ ?]]; [|done]. rewrite get_bind. apply Hback. case_decide; [apply IH; [done|left; lia]|].
    case_decide.
    + destruct (sys_call_step (C_usleep 10) s' Hs') as (r & s2 & Hc & Hs2 & Hrx2 & Htx2).
      rewrite (bind_Done _ _ _ _ _ Hc).
      eapply outcome_later; [|apply IH; [done|left; rewrite Htx2; lia]]. rewrite Hrx2. lia.
    + unfold net_proto, current_of. rewrite get_bind.
      apply (safe_bind 0 _ _ (fun _ => True)); [apply safe_error_report| |done]. intros _ _. by apply safe_ret.
Qed.

Lemma safe_net_write who bs : is_bytes bs -> safe 0 (net_write who bs) (fun _ => True).
Proof. intros Hbs s Hs. unfold net_write. rewrite get_bind. apply write_loop_outcome; [done|done|left; lia]. Qed.

End safe.
