(* ===== verification/TypedRun.v ===== *)
(** A worker's whole run stays within its types: the safety of Typed.v for the
    functions of src/net.c, src/talk.c and src/process.c, up to [process_run]. *)

From S2P Require Import Prelude Bitops Errors Byteorder Layout ConfigData Usage Double Report Stage Thread Config ConfigSpec Conn Net NetSpec Talk Process Typed.

(** ** Automation

    [safe_go] walks through a computation: a step whose lemma is a hint gives what is
    known of its result, and of any other step only its safety is asked. *)

Lemma safe_current_any cfg {A : Type} (g : ubwt_current -> A) : safe cfg 0 (current_of g) (fun _ => True).
Proof. by apply safe_current_of. Qed.

Lemma safe_config cfg : safe cfg 0 (current_of config) (fun c => c = cfg).
Proof. by apply safe_current_of. Qed.

Lemma safe_get_cur cfg : safe cfg 0 (get cur) (fun c => typed_current c /\ config c = cfg).
Proof. apply safe_get. by intros s [[] ]. Qed.

Lemma safe_get_any cfg {A : Type} (g : thread -> A) : safe cfg 0 (get g) (fun _ => True).
Proof. by apply safe_get. Qed.

Lemma safe_report cfg : safe cfg 0 (current_of report) typed_report.
Proof. apply safe_current_of. by intros c []. Qed.

Lemma safe_net cfg : safe cfg 0 (current_of net) (fun n => is_bytes (buf n)).
Proof. apply safe_current_of. by intros c []. Qed.

Lemma safe_true cfg {A : Type} d (m : M A) P : safe cfg d m P -> safe cfg 0 m (fun _ => True).
Proof. intros H. by eapply safe_weaken. Qed.

Lemma safe_bind_drop cfg {A B : Type} (m : M A) (f : A -> M B) P Q :
  safe cfg 1 m P -> (forall a, P a -> safe cfg 0 (f a) Q) -> safe cfg 0 (m ≫= f) Q.
Proof. intros H. apply safe_bind. by eapply safe_weaken. Qed.

Lemma safe_read_conn cfg : safe cfg 1 (sys_read conn_payload_size) (read_ok conn_payload_size).
Proof. apply safe_sys_read. unfold conn_payload_size. lia. Qed.

Lemma conn_bytes_range big l p : is_bytes (conn_bytes big l p).
Proof. apply encode_range. Qed.

Create HintDb safe.
#[export] Hint Resolve safe_read_conn safe_sys_recv conn_bytes_range : safe.
#[export] Hint Resolve safe_config safe_get_cur safe_report safe_net | 0 : safe.
#[export] Hint Resolve safe_current_any safe_get_any | 1 : safe.
#[export] Hint Resolve safe_set_errno safe_error_report safe_fatal_error safe_sys_write safe_sys_call safe_sys_barrier safe_sys_mutex safe_time : safe.

Ltac safe_step :=
  lazymatch goal with
  | |- safe _ _ (mret _) _ => apply safe_ret; solve [auto with safe]
  | |- safe _ _ (when _ _) _ => apply safe_when
  | |- safe _ _ (if _ then _ else _) _ => step_if
  | |- safe _ _ (get k_rx ≫= _) _ => fail
  | |- safe _ _ (_ ≫= _) _ =>
      first [eapply safe_bind; [solve [eauto 3 with safe]|intros ? ?; cbv beta in *]
            |eapply safe_bind_drop; [solve [eauto 3 with safe]|intros ? ?; cbv beta in *]
            |eapply safe_bind_eats; [solve [eauto 3 with safe]|intros ? ?; cbv beta in *]
            |apply (safe_bind _ _ _ _ (fun _ => True)); [|intros ? _]]
  | |- safe _ _ (match ?x with _ => _ end) _ => destruct x; cbn [fst snd] in *; destruct_and?
  | |- safe _ _ _ (fun _ => True) => first [solve [eauto 3 with safe]|eapply safe_true; solve [eauto 3 with safe]]
  | |- safe _ _ _ _ => solve [eauto 3 with safe]
  end.

Ltac safe_go := repeat (safe_step || (progress cbv beta zeta)).

(** A loop whose every turn consumes input ends within the weight of the input. *)
Definition safe_fuel (cfg : ubwt_config) {A : Type} (n : nat) (m : M A) (Q : A -> Prop) : Prop :=
  forall s, sane cfg s -> (rx_weight (k_rx s) < n)%nat -> outcome cfg 0 Q s (m s).

Lemma fuel_safe cfg {A : Type} n (m : M A) Q : safe cfg 0 m Q -> safe_fuel cfg n m Q.
Proof. intros H s Hs _. by apply H. Qed.

Lemma fuel_bind cfg {A B : Type} n (m : M A) (f : A -> M B) P Q :
  safe cfg 0 m P -> (forall a, P a -> safe_fuel cfg n (f a) Q) -> safe_fuel cfg n (m ≫= f) Q.
Proof.
  intros H Hf s Hs Hn. apply (outcome_bind _ 0 0 _ _ P); [by apply H|].
  intros a s1 Ha Hs1 Hle. apply Hf; [done|done|lia].
Qed.

Lemma fuel_bind_eats cfg {A B : Type} n (m : M A) (f : A -> M B) P Q :
  safe cfg 1 m P -> (forall a, P a -> safe_fuel cfg n (f a) Q) -> safe_fuel cfg (S n) (m ≫= f) Q.
Proof.
  intros H Hf s Hs Hn. apply (outcome_later _ 0 (1 + 0) _ s s); [lia|].
  apply (outcome_bind _ 1 0 _ _ P); [by apply H|]. intros a s1 Ha Hs1 Hle. apply Hf; [done|done|lia].
Qed.

Ltac fuel_step :=
  lazymatch goal with
  | |- safe_fuel _ _ (_ ≫= _) _ =>
      first [eapply fuel_bind_eats; [solve [eauto 3 with safe]|intros ? ?; cbv beta in *]
            |eapply fuel_bind; [solve [eauto 3 with safe]|intros ? ?; cbv beta in *]]
  | |- safe_fuel _ _ (if _ then _ else _) _ => step_if
  | |- safe_fuel _ _ (match ?x with _ => _ end) _ => destruct x; cbn [fst snd] in *; destruct_and?
  end.

(** ** The values that cross the network *)

Lemma mem_val_short big w bs :
  is_bytes bs -> 8 * Z.of_nat (length bs) <= w -> unsigned w (mem_val big bs).
Proof. intros Hbs Hw. eapply unsigned_weaken; [exact Hw|lia|]. by apply mem_val_range. Qed.

(** Decoding gives values of the fields' types from any bytes, even too few. *)
Lemma decode_field_range big ns bs i n w :
  is_bytes bs -> ns !! i = Some n -> w = 8 * Z.of_nat n -> unsigned w (nth i (decode big ns bs) 0).
Proof.
  intros Hbs Hn ->. pose proof (decode_field big ns bs i n Hn) as Hd.
  rewrite (nth_lookup_Some _ _ _ _ Hd). apply mem_val_short; [by apply Forall_take, Forall_drop|].
  rewrite length_take. lia.
Qed.

Lemma ntohl_u32 big z : u32 (ntohl big z).
Proof. rewrite ntohl_is_htonl. apply htonl_u32. Qed.

Lemma net_ntohll_u64 big z : u64 z -> u64 (net_ntohll big z).
Proof. apply net_htonll_u64. Qed.

Lemma report_update_typed f r :
  (forall c, typed_collect c -> typed_collect (f c)) -> typed_report r -> typed_report (report_update_collected f r).
Proof.
  intros Hf [H0 H1]. unfold report_update_collected, report_update, typed_report.
  destruct r as [fp [] [c0 k0] [c1 k1]]; simpl in *; auto.
Qed.

Lemma report_unmarshal_typed big bs len r r' :
  is_bytes bs -> typed_report r -> report_unmarshal big bs len r = Ok r' -> typed_report r'.
Proof.
  intros Hbs Hr. unfold report_unmarshal, assert_. destruct (bool_decide _); [|done]. intros [= <-].
  apply report_update_typed; [|done]. intros c []. constructor.
  1-3: apply ntohl_u32.
  - exact (net_ntohll_u64 _ _ (decode_field_range big collect_sizes bs 6 8 64 Hbs eq_refl eq_refl)).
  - exact (net_ntohll_u64 _ _ (decode_field_range big collect_sizes bs 7 8 64 Hbs eq_refl eq_refl)).
  - exact (net_ntohll_u64 _ _ (decode_field_range big collect_sizes bs 8 8 64 Hbs eq_refl eq_refl)).
Qed.

(** What is known of a packet received. *)
Record p_typed (p : ubwt_talk_payload_t) : Prop := {
  ty_p_count : u32 (p_count p);
  ty_p_latency : u32 (p_latency p);
  ty_p_weak_time : u64 (p_weak_time p);
  ty_p_worker_id : u64 (p_worker_id p);
  ty_p_buf : is_bytes (p_buf p)
}.

Lemma talk_bytes_range big p : is_bytes (p_buf p) -> is_bytes (talk_bytes big p).
Proof. intros H. apply list.Forall_app. split; [apply encode_range|done]. Qed.

Lemma talk_of_bytes_typed big bs : is_bytes bs -> p_typed (talk_of_bytes big bs).
Proof.
  intros Hbs. constructor; [| | | |by apply Forall_drop].
  - exact (decode_field_range big talk_hdr_sizes bs 1 4 32 Hbs eq_refl eq_refl).
  - exact (decode_field_range big talk_hdr_sizes bs 2 4 32 Hbs eq_refl eq_refl).
  - exact (decode_field_range big talk_hdr_sizes bs 4 8 64 Hbs eq_refl eq_refl).
  - exact (decode_field_range big talk_hdr_sizes bs 5 8 64 Hbs eq_refl eq_refl).
Qed.

Lemma talk_ntoh_typed big b p : p_typed p -> p_typed (talk_payload_ntoh big b p).
Proof.
  intros []. unfold talk_payload_ntoh. destruct (mt b); constructor; simpl; auto using ntohl_u32, net_ntohll_u64.
Qed.

Lemma talk_packet_range big b c p : is_bytes (p_buf p) -> is_bytes (talk_packet big b c p).
Proof.
  intros H. unfold talk_packet. apply Forall_resize; [done|]. apply talk_bytes_range. simpl.
  destruct (bool_decide _); [constructor|by apply Forall_take].
Qed.

(** ** The network *)

Section run.
Variable big : bool.
Variable b : build.
Variable peer : ubwt_net_endpoint.
Variable uninit : list Z.
Variable cfg : ubwt_config.
Hypothesis Hwf : config_wf b cfg.

Abbreviation safe := (safe cfg).

Lemma safe_net_timeout_set fd t : safe 0 (net_timeout_set b fd t) (fun _ => True).
Proof. unfold net_timeout_set. safe_go. Qed.

Lemma safe_update_net f :
  (forall n, is_bytes (buf n) -> u32 (buf_idx n) -> is_bytes (buf (f n)) /\ u32 (buf_idx (f n))) ->
  safe 0 (update_net f) (fun _ => True).
Proof.
  intros Hf. apply safe_update_cur. intros c [] Hc. destruct (Hf (net c)) as [? ?]; [done..|]. split; [|done]. by constructor.
Qed.

Hint Resolve safe_net_timeout_set : safe.

Lemma safe_net_fail t o : safe 0 (net_fail t o) (fun _ => True).
Proof. unfold net_fail. safe_go. Qed.

Lemma safe_conn_check t has who p1 p2 : safe 0 (conn_check big b t has who p1 p2) (fun _ => True).
Proof. unfold conn_check. safe_go. Qed.

Lemma safe_set_listener e : safe 0 (update_net (fun n => n {{ listener := e }})) (fun _ => True).
Proof. by apply safe_update_net. Qed.

Lemma safe_set_connector e : safe 0 (update_net (fun n => n {{ connector := e }})) (fun _ => True).
Proof. by apply safe_update_net. Qed.

Lemma safe_set_fd z : safe 0 (update_net (fun n => n {{ fd := z }})) (fun _ => True).
Proof. by apply safe_update_net. Qed.

Hint Resolve safe_net_fail safe_conn_check safe_set_listener safe_set_connector safe_set_fd : safe.

Lemma safe_net_connector_connect : safe 0 (net_connector_connect big b peer uninit) (fun _ => True).
Proof. unfold net_connector_connect, net_fd. safe_go. Qed.

Lemma safe_net_listener_accept : safe 0 (net_listener_accept big b peer uninit) (fun _ => True).
Proof. unfold net_listener_accept. safe_go. Qed.

Hint Resolve safe_net_connector_connect safe_net_listener_accept : safe.

(** The payload buffer. *)
Lemma safe_net_buf_fill :
  net_payload_buffer_size cfg <> 0 -> safe 0 (net_buf_fill (talk_payload_current_size cfg)) is_bytes.
Proof.
  intros Hne. assert (0 < net_payload_buffer_size cfg) as Hpos by (destruct (wf_buffer _ _ Hwf), (wf_payload _ _ Hwf); lia).
  unfold net_buf_fill. apply (safe_bind _ _ _ _ (fun a => a = net_payload_buffer_size cfg)).
  { apply safe_current_of. by intros c _ ->. }
  intros ? ->. apply (safe_bind _ _ _ _ (fun _ => True)).
  { destruct (_ <=? _) eqn:Hle; [by apply safe_ret|]. apply safe_halt. right. split; [done|]. to_prop. lia. }
  intros _ _. safe_go.
  - by apply safe_update_net.
  - apply safe_update_net. intros n' ? ?. split; [done|]. simpl. by apply wrap_range.
  - apply safe_ret. by apply Forall_take, Forall_drop.
Qed.

(** ** Packets *)

Lemma safe_talk_timeout t : safe 0 (_talk_timeout b t) (fun _ => True).
Proof. unfold _talk_timeout, net_fd. safe_go. Qed.

Lemma safe_talk_send p : is_bytes (p_buf p) -> safe 0 (_talk_send big b p) (fun _ => True).
Proof.
  intros Hp. unfold _talk_send, net_write_to_listener, net_write_to_connector. eapply safe_bind; [apply safe_get_cur|].
  intros c _. destruct (truth _); by apply safe_net_write, talk_packet_range.
Qed.

Lemma talk_len_pos c : config c = cfg -> (0 < talk_len c)%nat.
Proof.
  intros Hc. unfold talk_len. case_decide; [unfold talk_hdr_size; lia|].
  rewrite Hc. destruct (wf_payload _ _ Hwf). lia.
Qed.

Lemma safe_talk_recv p : is_bytes (p_buf p) -> safe 1 (_talk_recv big b p) (fun r => p_typed (snd r)).
Proof.
  intros Hp. unfold _talk_recv. eapply safe_bind; [apply safe_get_cur|]. intros c [Hc Hcfg]. cbv zeta.
  apply (safe_bind_eats _ _ _ (fun r => is_bytes (snd r))).
  { destruct (truth _); apply safe_net_read; by apply talk_len_pos. }
  intros [ret bs] Hbs. simpl in Hbs.
  assert (p_typed (talk_of_bytes big (bs ++ drop (length bs) (talk_bytes big p)))) as Ht.
  { apply talk_of_bytes_typed, list.Forall_app. split; [done|]. by apply Forall_drop, talk_bytes_range. }
  apply (safe_bind _ _ _ _ p_typed).
  { destruct (_ =? _); [|by apply safe_ret]. pose proof (talk_ntoh_typed big b _ Ht) as Ht'.
    apply (safe_bind _ _ _ _ (fun _ => True)); [|intros _ _; by apply safe_ret]. apply safe_when, safe_update_cur.
    intros c' [] Hc'. split; [|done]. by constructor; try apply Ht'. }
  intros p' Hp'. destruct (has_op _ _); [|by apply safe_ret].
  eapply safe_bind; [apply safe_set_errno|]. intros _ _. by apply safe_ret.
Qed.

Hint Resolve safe_talk_timeout safe_talk_send safe_talk_recv safe_net_buf_fill : safe.
Hint Extern 2 (is_bytes _) => (simple apply ty_p_buf; eassumption) || (constructor; fail) : safe.

Lemma safe_critical t o : safe 0 (critical t o) (fun _ => True).
Proof. unfold critical. safe_go. Qed.

Hint Resolve safe_critical : safe.

Lemma safe_talk_send_abort : safe 0 (_talk_send_abort big b) (fun _ => True).
Proof. unfold _talk_send_abort. safe_go. Qed.

Lemma safe_sender_handshake : safe 0 (_talk_sender_handshake big b) (fun _ => True).
Proof. unfold _talk_sender_handshake. safe_go. Qed.

Lemma safe_receiver_handshake : safe 0 (_talk_receiver_handshake big b) (fun _ => True).
Proof. unfold _talk_receiver_handshake. safe_go. Qed.

Lemma safe_sender_negotiate count latency : safe 0 (_talk_sender_negotiate big b count latency) (fun _ => True).
Proof. unfold _talk_sender_negotiate. safe_go. Qed.

Lemma safe_receiver_negotiate : safe 1 (_talk_receiver_negotiate big b)
  (fun o => match o with Some (count, latency) => u32 count /\ u32 latency | None => True end).
Proof.
  unfold _talk_receiver_negotiate. eapply safe_bind_eats; [by apply safe_talk_recv; constructor|].
  intros [r p] []. simpl in *. safe_go.
Qed.

Hint Resolve safe_talk_send_abort safe_sender_handshake safe_receiver_handshake safe_sender_negotiate safe_receiver_negotiate : safe.

(** ** What the workers share *)

Lemma safe_wait_direction : safe 0 wait_direction (fun _ => True).
Proof. unfold wait_direction, process_get_reverse. safe_go. Qed.

Hint Resolve safe_wait_direction : safe.

Lemma safe_wait_all : safe 0 (wait_all b) (fun _ => True).
Proof. unfold wait_all. safe_go. Qed.

Lemma safe_wait_async : safe 0 (wait_async b) (fun _ => True).
Proof. unfold wait_async. safe_go. Qed.

Lemma safe_wait_serial : safe 0 (wait_serial b) (fun _ => True).
Proof. unfold wait_serial. safe_go. Qed.

Hint Resolve safe_wait_all safe_wait_async safe_wait_serial : safe.

Lemma safe_update_talk f :
  (forall t, typed_shared t -> typed_shared (f t)) -> safe 0 (update_talk f) (fun _ => True).
Proof. intros Hf. apply safe_update_cur. intros c [] Hc. split; [|done]. constructor; simpl; auto. Qed.

Lemma talk_ctx_update_typed rev f t :
  (forall x, typed_context x -> typed_context (f x)) -> typed_shared t -> typed_shared (talk_ctx_update rev f t).
Proof. intros Hf []. unfold talk_ctx_update. destruct (truth rev); constructor; simpl; auto. Qed.

Lemma talk_reset_typed rev t : typed_shared t -> typed_shared (talk_reset rev t).
Proof.
  intros []. apply talk_ctx_update_typed; [|by constructor]. intros x []. by constructor.
Qed.

Lemma talk_mark_weak_typed rev w t : u64 w -> typed_shared t -> typed_shared (talk_mark_weak rev w t).
Proof.
  intros Hw []. apply talk_ctx_update_typed.
  - intros x []. constructor; simpl; auto using wrap_range with lia.
  - constructor; simpl; auto using wrap_range with lia.
Qed.

Lemma safe_update_locked f :
  (forall t, typed_shared t -> typed_shared (f t)) -> safe 0 (update_locked b f) (fun _ => True).
Proof.
  intros Hf. pose proof (safe_update_talk f Hf) as Hu. unfold update_locked.
  eapply safe_bind; [safe_go|]. intros _ _. eapply safe_bind; [exact Hu|]. intros _ _. safe_go.
Qed.

Lemma safe_mark_weak rev w : u64 w -> safe 0 (update_locked b (talk_mark_weak rev w)) (fun _ => True).
Proof. intros Hw. apply safe_update_locked. intros t. by apply talk_mark_weak_typed. Qed.

Lemma safe_stream_reset : safe 0 (stream_reset b) (fun _ => True).
Proof.
  unfold stream_reset, process_get_reverse. safe_go. apply safe_update_locked. intros t. apply talk_reset_typed.
Qed.

Lemma safe_process_get_reverse : safe 0 process_get_reverse (fun _ => True).
Proof. apply safe_current_any. Qed.

Lemma safe_weak_result : safe 0 weak_result (fun _ => True).
Proof. unfold weak_result. safe_go. Qed.

Hint Resolve safe_stream_reset safe_process_get_reverse safe_mark_weak safe_weak_result : safe.

(** ** Stages and figures *)

Lemma safe_stage f :
  (forall st, u64 (iter st) -> u64 (iter (f st))) -> safe 0 (update_cur (fun c => c {{ stage ::= f }})) (fun _ => True).
Proof. intros Hf. apply safe_update_cur. intros c [] Hc. split; [|done]. constructor; simpl; auto. Qed.

Lemma safe_stage_set s fl : safe 0 (t_stage_set s fl) (fun _ => True).
Proof. apply safe_stage. intros st. unfold stage_set. destruct st. by destruct (negb _). Qed.

Lemma safe_stage_inc fl : safe 0 (t_stage_inc fl) (fun _ => True).
Proof. apply safe_stage. intros st _. simpl. by apply wrap_range. Qed.

Lemma safe_stage_reset : safe 0 t_stage_reset (fun _ => True).
Proof. by apply safe_stage. Qed.

Lemma safe_t_report f :
  (forall r, typed_report r -> typed_report (f r)) -> safe 0 (t_report f) (fun _ => True).
Proof. intros Hf. apply safe_update_cur. intros c [] Hc. split; [|done]. constructor; simpl; auto. Qed.

Lemma safe_figure f :
  (forall c, typed_collect c -> typed_collect (f c)) -> safe 0 (t_report (report_update_collected f)) (fun _ => True).
Proof. intros Hf. apply safe_t_report. intros r. by apply report_update_typed. Qed.

Lemma safe_latency_set dt : u32 dt -> safe 0 (t_report (report_talk_latency_set dt)) (fun _ => True).
Proof. intros H. apply safe_figure. intros c []. by constructor. Qed.

Lemma safe_count_set n : safe 0 (t_report (report_talk_count_set n)) (fun _ => True).
Proof. apply safe_figure. intros c []. constructor; simpl; auto using wrap_range with lia. Qed.

Lemma safe_start_set t : u64 t -> safe 0 (t_report (report_talk_stream_time_start_set t)) (fun _ => True).
Proof. intros H. apply safe_figure. intros c []. by constructor. Qed.

Lemma safe_duration_set t : u64 t -> safe 0 (t_report (report_talk_stream_time_duration_set t)) (fun _ => True).
Proof. intros H. apply safe_figure. intros c []. by constructor. Qed.

Lemma safe_pkts_set n : u32 n -> safe 0 (t_report (report_talk_stream_recv_pkts_set n)) (fun _ => True).
Proof. intros H. apply safe_figure. intros c []. by constructor. Qed.

Lemma safe_bytes_set n : u64 n -> safe 0 (t_report (report_talk_stream_recv_bytes_set n)) (fun _ => True).
Proof. intros H. apply safe_figure. intros c []. by constructor. Qed.

Lemma safe_set_report r : typed_report r -> safe 0 (t_report (fun _ => r)) (fun _ => True).
Proof. intros H. by apply safe_t_report. Qed.

Lemma safe_assertion c x : ending cfg (Assertion x) -> safe 0 (massert c x) (fun _ => True).
Proof. intros H. eapply safe_true, safe_massert, H. Qed.

Hint Resolve safe_stage_set safe_stage_inc safe_stage_reset safe_latency_set safe_count_set safe_start_set
  safe_duration_set safe_pkts_set safe_bytes_set safe_set_report safe_assertion : safe.
Hint Extern 1 (unsigned _ (wrap _ _)) => apply wrap_range; lia : safe.
Hint Extern 1 (ending _ (Assertion _)) => left; repeat constructor; fail : safe.
Hint Extern 1 (is_bytes (p_buf (if ?c then _ else _))) => destruct c; constructor : safe.

(** ** Streams *)

Lemma safe_send_packets n p :
  is_bytes (p_buf p) ->
  safe 0 (send_packets big b (truth (net_payload_buffer_size cfg)) (talk_payload_current_size cfg) n p)
    (fun o => match o with Some p => is_bytes (p_buf p) | None => True end).
Proof.
  revert p. induction n as [|n IH]; intros p Hp; simpl; [by apply safe_ret|].
  apply (safe_bind _ _ _ _ (fun p => is_bytes (p_buf p))).
  - destruct (truth _) eqn:Hfill; [|by apply safe_ret]. apply truth_spec in Hfill.
    eapply safe_bind; [by apply safe_net_buf_fill|]. intros bs Hbs. apply safe_ret.
    apply list.Forall_app. split; [done|by apply Forall_drop].
  - intros p' Hp'. eapply safe_bind; [by apply safe_talk_send|]. intros r _. step_if; [|by apply IH].
    eapply safe_bind; [apply safe_critical|]. intros _ _. by apply safe_ret.
Qed.

Hint Resolve safe_send_packets ty_p_weak_time : safe.

Lemma safe_sender_stream count : safe 1 (_talk_sender_stream big b count) (fun _ => True).
Proof.
  unfold _talk_sender_stream. eapply safe_bind; [apply safe_config|]. intros ? ->.
  eapply safe_bind; [apply safe_process_get_reverse|]. intros rev _.
  eapply safe_bind_eats; [by apply safe_talk_recv; constructor|]. intros [r p] Hp. simpl in Hp. safe_go.
Qed.

Lemma safe_recv_packets n i len p :
  is_bytes (p_buf p) -> u64 len ->
  safe 0 (recv_packets big b n i len p) (fun r => i <= fst r <= i + Z.of_nat n /\ u64 (snd r)).
Proof.
  revert i len p. induction n as [|n IH]; intros i len p Hp Hlen; simpl; [apply safe_ret; simpl; split; [lia|done]|].
  eapply safe_bind_drop; [by apply safe_talk_recv|]. intros [ret p'] Hp'. simpl in Hp'. step_if.
  - eapply safe_bind; [apply safe_get_any|]. intros e _. step_if; [|apply safe_fatal_error].
    apply safe_ret. simpl. split; [lia|done].
  - eapply safe_weaken; [apply IH; [by apply ty_p_buf|by apply wrap_range]|]. simpl. intros [i' len'] [? ?]. simpl in *.
    split; [lia|done].
Qed.

Lemma safe_time_elapsed : safe 0 current_time_elapsed (fun _ => True).
Proof.
  unfold current_time_elapsed, current_time_now, current_time_start, current_update. safe_go.
  apply safe_update_cur. intros c [] Hc. split; [|done]. by constructor.
Qed.

Hint Resolve safe_time_elapsed : safe.

Lemma safe_recv_stream count :
  u32 count -> safe 0 (recv_packets big b (Z.to_nat count) 0 0 payload_zero) (fun r => u32 (fst r) /\ u64 (snd r)).
Proof.
  intros Hcount. eapply safe_weaken; [by apply safe_recv_packets; [constructor|]|]. intros [i len] [? ?]. simpl in *.
  split; [|done]. unfold unsigned in *. lia.
Qed.

Hint Resolve safe_recv_stream : safe.

Lemma safe_receiver_stream count : u32 count -> safe 0 (_talk_receiver_stream big b count) (fun _ => True).
Proof. intros Hcount. unfold _talk_receiver_stream. safe_go. Qed.

(** ** The phases after the streams *)

Lemma payload_room : (collect_size <= Z.to_nat (talk_payload_current_size cfg))%nat.
Proof. destruct (wf_payload _ _ Hwf) as [-> _]. unfold collect_size. lia. Qed.

Lemma safe_unmarshal bs r :
  is_bytes bs -> typed_report r ->
  safe 0 (lift_res (report_unmarshal big bs (Z.to_nat (talk_payload_current_size cfg)) r)) typed_report.
Proof.
  intros Hbs Hr. destruct (report_unmarshal _ _ _ _) as [r'|e] eqn:H.
  - apply safe_ret. by eapply report_unmarshal_typed.
  - unfold report_unmarshal, assert_ in H. rewrite bool_decide_true in H by apply payload_room. discriminate H.
Qed.

Lemma safe_marshal r :
  safe 0 (lift_res (report_marshal big r (Z.to_nat (talk_payload_current_size cfg)))) is_bytes.
Proof.
  unfold report_marshal, assert_. rewrite bool_decide_true by apply payload_room. apply safe_ret.
  apply list.Forall_app. split; [apply encode_range|by apply list.Forall_replicate].
Qed.

Hint Resolve safe_unmarshal safe_marshal : safe.

Lemma safe_sender_report_exchange : safe 0 (_talk_sender_report_exchange big b) (fun _ => True).
Proof. unfold _talk_sender_report_exchange. eapply safe_bind; [apply safe_config|]. intros ? ->. safe_go. Qed.

Lemma safe_receiver_report_exchange : safe 0 (_talk_receiver_report_exchange big b) (fun _ => True).
Proof. unfold _talk_receiver_report_exchange. eapply safe_bind; [apply safe_config|]. intros ? ->. safe_go. Qed.

Lemma safe_sender_finish : safe 0 (_talk_sender_finish big b) (fun _ => True).
Proof. unfold _talk_sender_finish. safe_go. Qed.

Lemma safe_receiver_finish : safe 0 (_talk_receiver_finish big b) (fun _ => True).
Proof. unfold _talk_receiver_finish. safe_go. Qed.

Hint Resolve safe_sender_stream safe_receiver_stream safe_sender_report_exchange safe_receiver_report_exchange
  safe_sender_finish safe_receiver_finish : safe.

(** ** The talk *)

Lemma safe_abort_talk {A : Type} t o (Q : A -> Prop) : safe 0 (abort_talk big b t o) Q.
Proof. unfold abort_talk. safe_go. Qed.

Hint Resolve safe_abort_talk : safe.

Lemma safe_sender_handshakes n dt : u32 dt -> safe 0 (sender_handshakes big b n dt) (fun dt => u32 dt).
Proof.
  revert dt. induction n as [|n IH]; intros dt Hdt; simpl; [by apply safe_ret|]. safe_go.
Qed.

Lemma safe_receiver_handshakes n : safe 0 (receiver_handshakes big b n) (fun _ => True).
Proof. induction n as [|n IH]; simpl; [by apply safe_ret|]. safe_go. Qed.

Lemma weak_count_u64 c t n : u64 (weak_count c t n).
Proof.
  unfold weak_count, dbl_to_unsigned. destruct (dtrunc _) as [z|]; simpl; [|done]. by case_decide.
Qed.

Lemma safe_weak_recount : safe 0 weak_recount (fun _ => True).
Proof.
  unfold weak_recount. safe_go. apply safe_update_talk. intros t. apply talk_ctx_update_typed.
  intros x []. constructor; simpl; auto using weak_count_u64.
Qed.

Lemma safe_count_of : safe 0 talk_count_of (fun n => u64 n).
Proof.
  unfold talk_count_of. eapply safe_bind; [apply safe_get_cur|]. intros c [[_ Ht _ _ _ _ _ _ _] _]. apply safe_ret.
  destruct Ht as [_ [] []]. unfold talk_ctx. by destruct (truth _).
Qed.

Lemma safe_needs_restart : safe 0 (_talk_weak_stream_needs_restart b) (fun _ => True).
Proof. unfold _talk_weak_stream_needs_restart. safe_go. Qed.

Lemma safe_needs_recount : safe 0 _talk_weak_stream_needs_recount (fun _ => True).
Proof. unfold _talk_weak_stream_needs_recount. safe_go. Qed.

Hint Resolve safe_sender_handshakes safe_receiver_handshakes safe_weak_recount safe_count_of safe_needs_restart safe_needs_recount : safe.

Lemma safe_sender_restart : safe 0 (sender_restart b) (fun _ => True).
Proof. unfold sender_restart. safe_go. Qed.

Hint Resolve safe_sender_restart : safe.

Lemma fuel_sender_rounds n : safe_fuel cfg n (sender_rounds big b n) (fun _ => True).
Proof.
  induction n as [|n IH]; [intros s _ Hn; lia|]. simpl.
  repeat (fuel_step || exact IH); apply fuel_safe; safe_go.
Qed.

Lemma fuel_receiver_rounds n : safe_fuel cfg n (receiver_rounds big b n) (fun _ => True).
Proof.
  induction n as [|n IH]; [intros s _ Hn; lia|]. simpl.
  repeat (fuel_step || exact IH); apply fuel_safe; safe_go.
Qed.

(** The fuel given to the rounds is enough. *)
Lemma safe_rounds {A : Type} (rounds : nat -> M unit) (f : unit -> M A) Q :
  (forall n, safe_fuel cfg n (rounds n) (fun _ => True)) -> (forall a, safe 0 (f a) Q) ->
  safe 0 (l ← get k_rx; rounds (S (rx_weight l)) ≫= f) Q.
Proof.
  intros Hr Hf s Hs. rewrite get_bind. apply (outcome_bind _ 0 0 _ _ (fun _ => True)).
  - apply Hr; [done|]. lia.
  - intros a s1 _ Hs1 _. by apply Hf.
Qed.

Lemma safe_count_init rev :
  safe 0 (update_talk (talk_ctx_update rev (fun c => c {{ talk_ctx_count := talk_count_current cfg }}))) (fun _ => True).
Proof.
  apply safe_update_talk. intros t. apply talk_ctx_update_typed. intros x []. constructor; simpl; auto.
  destruct (wf_counts _ _ Hwf) as [-> _]. done.
Qed.

Lemma latency_u32 dt : u32 dt -> u32 (dt / talk_handshake_iter cfg).
Proof.
  intros H. destruct (wf_handshake _ _ Hwf) as [_ Hi]. unfold unsigned in *. split.
  - apply Z.div_pos; lia.
  - apply Z.div_lt_upper_bound; nia.
Qed.

Hint Resolve safe_count_init latency_u32 : safe.
Hint Extern 1 (unsigned _ 0) => done : safe.

Lemma safe_talk_sender : safe 0 (talk_sender big b) (fun _ => True).
Proof.
  unfold talk_sender, talk_sender_end. do 2 (eapply safe_bind; [solve [auto with safe]|intros _ _]).
  eapply safe_bind; [apply safe_config|]. intros ? ->.
  safe_go. apply safe_rounds; [apply fuel_sender_rounds|]. intros _. safe_go.
Qed.

Lemma safe_talk_receiver : safe 0 (talk_receiver big b) (fun _ => True).
Proof.
  unfold talk_receiver. do 2 (eapply safe_bind; [solve [auto with safe]|intros _ _]).
  eapply safe_bind; [apply safe_config|]. intros ? ->.
  do 2 (eapply safe_bind; [solve [auto with safe]|intros _ _]).
  apply safe_rounds; [apply fuel_receiver_rounds|]. intros _. safe_go.
Qed.

Hint Resolve safe_talk_sender safe_talk_receiver : safe.

(** ** The process *)

Lemma safe_flags f :
  (forall w, u32 w -> u32 (f w)) -> safe 0 (update_cur (fun c => c {{ worker_flags ::= f }})) (fun _ => True).
Proof. intros Hf. apply safe_update_cur. intros c [] Hc. split; [|done]. constructor; simpl; auto. Qed.

Lemma safe_current_update : safe 0 current_update (fun _ => True).
Proof.
  unfold current_update. safe_go. apply safe_update_cur. intros c [] Hc. split; [|done]. by constructor.
Qed.

Lemma safe_roles f : safe 0 (update_cur (fun c => c {{ process ::= f }})) (fun _ => True).
Proof. apply safe_update_cur. intros c [] Hc. split; [|done]. by constructor. Qed.

Hint Resolve safe_current_update safe_roles : safe.

Lemma safe_flag_set n : 0 <= n < 32 -> safe 0 (update_cur (fun c => c {{ worker_flags ::= fun w => bit_set w n }})) (fun _ => True).
Proof. intros Hn. apply safe_flags. intros w Hw. by apply bit_set_u32. Qed.

Lemma safe_flag_clear n : 0 <= n < 32 -> safe 0 (update_cur (fun c => c {{ worker_flags ::= fun w => bit_clear w n }})) (fun _ => True).
Proof. intros Hn. apply safe_flags. intros w Hw. by apply bit_clear_u32. Qed.

Hint Resolve safe_flag_set safe_flag_clear : safe.
Hint Extern 1 (0 <= _ < 32) => unfold flag_task_running; lia : safe.

Lemma safe_talk_init : safe 0 (talk_init big b peer uninit) (fun _ => True).
Proof.
  unfold talk_init, worker_task_running_set, net_im_listener. safe_go.
  apply safe_update_talk. intros t []. constructor; [done|by constructor..].
Qed.

Lemma safe_talk_destroy : safe 0 (talk_destroy b) (fun _ => True).
Proof. unfold talk_destroy, worker_task_running_unset. safe_go. Qed.

Lemma safe_select f : f = report_set_straight \/ f = report_set_reverse -> safe 0 (t_report f) (fun _ => True).
Proof. intros Hf. apply safe_t_report. intros r. by destruct Hf as [-> | ->]. Qed.

Lemma safe_current_exit : safe 0 current_exit (fun _ => True).
Proof.
  unfold current_exit. safe_go. apply safe_flags. intros w Hw. by apply bit_set_u32, bit_clear_u32.
Qed.

Hint Resolve safe_talk_init safe_talk_destroy safe_select safe_current_exit : safe.

Lemma safe_process_run rf : safe 0 (process_run big b peer uninit rf) (fun _ => True).
Proof.
  unfold process_run, _process_run_straight_first, _process_run_reverse_first, _process_listener_straight,
    _process_connector_straight, _process_listener_reverse, _process_connector_reverse, reverse_delay, net_im_listener,
    process_set_straight, process_set_reverse, process_set_im_sender, process_set_im_receiver. safe_go.
Qed.

End run.

(** C3: a worker stays within its types whatever it is given.  From any well-typed
    thread with a configuration that [config_init] accepts - whatever bytes the peer
    sends, however the system calls fail, whatever time the clock shows and whatever
    the other workers do to what they share - [process_run] keeps every figure,
    counter, identifier and flag word in the range of its C type, sends bytes only and
    leaves the configuration alone; it ends the process only with an error of its own
    or at one of five assertions; and it waits only for input that has not arrived, so
    the fuel of its loops is always enough. *)
Theorem process_run_type_safe big b peer uninit reverse_first s :
  config_wf b (config (cur s)) -> typed s ->
  match process_run big b peer uninit reverse_first s with
  | Done _ s' => typed s' /\ config (cur s') = config (cur s)
  | Halted e s' => typed s' /\ config (cur s') = config (cur s) /\ ending (config (cur s)) e
  | Blocked s' => typed s' /\ config (cur s') = config (cur s) /\ k_rx s' = []
  end.
Proof.
  intros Hwf Hs. pose proof (safe_process_run big b peer uninit (config (cur s)) Hwf reverse_first s) as H.
  destruct (process_run _ _ _ _ _ s) as [[] s'|e s'|s']; destruct H as [[Ht Hc] H]; by try destruct H.
Qed.

(** A thread whose state is zero is well typed. *)
Lemma typed_zero c wid s :
  cur s = current_zero {{ config := c; worker_id := wid }} -> u64 wid ->
  Forall rx_bytes (k_rx s) -> k_sent s = [] -> k_sync s = [] -> typed s.
Proof.
  intros Hc Hw Hr Ht Hy. split; rewrite ?Hc, ?Ht, ?Hy; [|done|constructor..].
  constructor; simpl; try done; repeat constructor; done.
Qed.

(** A listener to which garbage is sent after a correct connection, in odd chunks. *)
Definition garbage : list rx :=
  [RxData (conn_bytes false Pack4 (conn_payload_hton false (conn_payload_create build_linux
     (default config_zero (Conn.example_config "connector" [])))));
   RxErr EINTR; RxData (replicate 3 255); RxData []; RxData (replicate 60 254)].

Definition victim : thread := {|
  cur := current_zero {{ config := default config_zero (Conn.example_config "listener" []); worker_id := 8 }};
  errno := E0; k_rx := garbage; k_tx := []; k_sent := []; k_calls := []; k_trace := [];
  k_clock := fun _ => Some (0, 0); k_tick := 0; k_sync := []; k_log := [] |}.

Lemma victim_typed : config_wf build_linux (config (cur victim)) /\ typed victim.
Proof.
  split; [by apply (example_config_wf "listener" [])|].
  apply (typed_zero (default config_zero (Conn.example_config "listener" [])) 8); [done|done| |done..].
  apply Forall_cons_2; [apply conn_bytes_range|]. apply Forall_cons_2; [done|].
  apply Forall_cons_2; [by apply list.Forall_replicate|]. apply Forall_cons_2; [constructor|].
  apply Forall_cons_2; [by apply list.Forall_replicate|constructor].
Qed.

Lemma process_run_type_safe_witness :
  exists s', process_run false build_linux endpoint_zero [] 0 victim =
      Halted (Exited EXIT_FAILURE (Some UBWT_ERROR_TYPE_TALK_HANDSHAKE_FAILED)) s' /\
    typed s' /\ remote_worker_id (cur s') = 18374403900871474942.
Proof.
  destruct victim_typed as [Hwf Ht].
  pose proof (process_run_type_safe false build_linux endpoint_zero [] 0 victim Hwf Ht) as T.
  assert (exists s', process_run false build_linux endpoint_zero [] 0 victim =
      Halted (Exited EXIT_FAILURE (Some UBWT_ERROR_TYPE_TALK_HANDSHAKE_FAILED)) s' /\
    remote_worker_id (cur s') = 18374403900871474942) as (s' & E & Hr).
  { eexists. split; [vm_compute; reflexivity|reflexivity]. }
  rewrite E in T. exists s'. exact (conj E (conj (proj1 T) Hr)).
Defined.
