(* ===== verification/Crew.v ===== *)
(** The workers of one end in a talk, and the contexts they share: src/talk.c with
    the barriers of src/worker.c.

    Every worker of a direction runs [talk_sender], or every one [talk_receiver]; in
    asynchronous mode both directions run at once.  They share [__talk] and
    [__talk_weak]: they reset them, count the weak streams, decide together whether to
    repeat the streams, and one of them computes the new number of packets.  Talk.v has
    these functions as one thread runs them; here the workers are interleaved, at the
    grain of the accesses to the contexts and of the barriers; [accesses] says what an
    action reads and writes, and under which mutex, so that two that conflict are
    excluded ([contexts_race_free]) and an action can stand for its assignments.  What a
    worker does besides - packets, clocks, reports - concerns no other worker of its end
    and comes in as the outcome of its stream. *)

From S2P Require Import Prelude Bitops Errors Byteorder ConfigData Usage Double Report Stage Thread Config ConfigSpec Conn Net NetSpec Talk Process.

(** ** The accesses to the contexts

    As functions of the contexts; [access_needs_restart] and the lemmas after it show
    that the functions of Talk.v compute these. *)

Definition im_weak_of (rev : bool) (t : talk_shared) : Z := im_weak (talk_ctx (Zb rev) t).
Definition count_of (rev : bool) (t : talk_shared) : Z := talk_ctx_count (talk_ctx (Zb rev) t).

(** [_talk_weak_stream_needs_restart]. *)
Definition needs_restart (cfg : ubwt_config) (rev : bool) (t : talk_shared) : bool :=
  if truth (asynchronous cfg) then
    (im_weak_of false t =? worker_count cfg / 2) || (im_weak_of true t =? worker_count cfg / 2)
  else im_weak_of rev t =? worker_count cfg.

(** [_talk_weak_stream_needs_recount]. *)
Definition needs_recount (cfg : ubwt_config) (rev : bool) (t : talk_shared) : bool :=
  im_weak_of rev t =? worker_count cfg / (1 + asynchronous cfg).

(** [count = talk_count_current] and [count *= mul]. *)
Definition count_start (cfg : ubwt_config) (rev : bool) : talk_shared -> talk_shared :=
  talk_ctx_update (Zb rev) (fun c => c {{ talk_ctx_count := talk_count_current cfg }}).

Definition count_again (cfg : ubwt_config) (rev : bool) : talk_shared -> talk_shared :=
  talk_ctx_update (Zb rev) (fun c => c {{ talk_ctx_count := weak_count cfg (weak_time c) (talk_ctx_count c) }}).

(** ** Where a worker is

    Between two rounds a sender passes two barriers of its direction
    ([sender_restart]), a receiver none. *)

Inductive place :=
| Begin          (* [talk_sender], [talk_receiver]: the first barrier *)
| Start1         (* the barrier whose serial thread sets the count *)
| Starting
| Start2
| Started        (* reads the count: [count > 0] *)
| Reset1         (* [stream_reset]: the first barrier *)
| Resetting
| Reset2
| Stream         (* the packets are through: the barrier of the direction *)
| StreamAll      (* and in asynchronous mode the common one *)
| Outcome        (* the weak flag of [STREAM_END] is computed, or received *)
| Mark1
| Marking        (* the weak stream is counted *)
| Mark2
| Result         (* [weak_result] *)
| Restart        (* [_talk_weak_stream_needs_restart] *)
| Recount1       (* [sender_restart]: the first barrier *)
| Recounting
| Recount2
| Recounted      (* reads the count: within its limits *)
| Finish.        (* leaves the loop of rounds *)

#[export] Instance place_eq_dec : EqDecision place.
Proof. solve_decision. Defined.

(** A worker: its direction, its place, what the last barrier returned, the outcome of
    its present stream - the duration of a weak one - and what it has done: the counts
    it went by, the outcomes it marked and the decisions it took. *)
Record crew_worker := {
  w_rev : bool;
  w_place : place;
  w_serial : bool;
  w_outcome : option Z;
  w_counts : list Z;
  w_outcomes : list (option Z);
  w_decisions : list bool
}.

Record crew := { contexts : talk_shared; workers : list crew_worker; failed : option string }.

Definition goes (p : place) (w : crew_worker) : crew_worker := w {{ w_place := p }}.

(** How many satisfy a test. *)
Fixpoint headcount {A : Type} (f : A -> bool) (l : list A) : Z :=
  match l with [] => 0 | x :: l => Zb (f x) + headcount f l end.

Section crew.
Variable cfg : ubwt_config.
(** Whether this end listens. *)
Variable listens : bool.

Definition async : bool := truth (asynchronous cfg).
Definition sends (rev : bool) : bool := bool_decide (plan_role listens rev = Sender).

(** The barrier a worker waits at: [wait_all] or [wait_direction]. *)
Definition meets (w : crew_worker) : option Z :=
  let all := if async then 2 else Zb (w_rev w) in
  match w_place w with
  | Begin | Reset1 | Reset2 | StreamAll | Mark1 | Mark2 => Some all
  | Start1 | Start2 | Stream | Recount1 | Recount2 => Some (Zb (w_rev w))
  | _ => None
  end.

(** Where it goes when the barrier opens. *)
Definition after_barrier (rev : bool) (p : place) : place :=
  match p with
  | Begin => if sends rev then Start1 else Reset1
  | Start1 => Starting
  | Start2 => Started
  | Reset1 => Resetting
  | Reset2 => Stream
  | Stream => if async then StreamAll else Outcome
  | StreamAll => Outcome
  | Mark1 => Marking
  | Mark2 => Result
  | Recount1 => Recounting
  | Recount2 => Recounted
  | p => p
  end.

(** An action of a worker that is not at a barrier; [o] is the outcome of its stream. *)
Inductive acted := Moves (w : crew_worker) (t : talk_shared) | Asserts (expr : string) | Idle.

Definition act (o : option Z) (w : crew_worker) (t : talk_shared) : acted :=
  let rev := w_rev w in
  match w_place w with
  | Starting => Moves (goes Start2 w) (if w_serial w then count_start cfg rev t else t)
  | Started =>
      if 0 <? count_of rev t then Moves (goes Reset1 (w {{ w_counts ::= fun l => l ++ [count_of rev t] }})) t
      else Asserts "count > 0"
  | Resetting => Moves (goes Reset2 w) (talk_reset (Zb rev) t)
  | Outcome => Moves (goes Mark1 (w {{ w_outcome := o }})) t
  | Marking =>
      Moves (goes Mark2 (w {{ w_outcomes ::= fun l => l ++ [w_outcome w] }}))
        (match w_outcome w with Some time => talk_mark_weak (Zb rev) time t | None => t end)
  | Result =>
      if 0 <? talk_weak t then Moves (goes Restart w) t
      else Moves (goes Finish (w {{ w_decisions ::= fun l => l ++ [false] }})) t
  | Restart =>
      if needs_restart cfg rev t
      then Moves (goes (if sends rev then Recount1 else Reset1) (w {{ w_decisions ::= fun l => l ++ [true] }})) t
      else Moves (goes Finish (w {{ w_decisions ::= fun l => l ++ [false] }})) t
  | Recounting =>
      Moves (goes Recount2 w) (if w_serial w && needs_recount cfg rev t then count_again cfg rev t else t)
  | Recounted =>
      if negb (count_of rev t <=? talk_count_max cfg) then Asserts "count <= talk_count_max"
      else if negb (talk_count_default cfg <=? count_of rev t) then Asserts "count >= talk_count_default"
      else Moves (goes Reset1 (w {{ w_counts ::= fun l => l ++ [count_of rev t] }})) t
  | _ => Idle
  end.

(** *** The accesses of an action

    The variables of the contexts: the counter that both share, and the three fields of
    each. *)
Inductive variable := V_weak | V_im_weak (rev : bool) | V_weak_time (rev : bool) | V_count (rev : bool).

(** An access: the variable, whether it is written, and whether the worker holds
    [worker_mutex_global] meanwhile. *)
Record access := { on : variable; stores : bool; locked : bool }.

Definition loads_plain (v : variable) : access := {| on := v; stores := false; locked := false |}.
Definition stores_plain (v : variable) : access := {| on := v; stores := true; locked := false |}.
Definition loads_locked (v : variable) : access := {| on := v; stores := false; locked := true |}.
Definition stores_locked (v : variable) : access := {| on := v; stores := true; locked := true |}.

(** What a worker reads and writes where it is.  A sender at [Reset1] reads the count
    again, to negotiate it, to report it and to send as many packets. *)
Definition accesses (w : crew_worker) : list access :=
  let rev := w_rev w in
  match w_place w with
  | Starting => if w_serial w then [stores_plain (V_count rev)] else []
  | Started | Recounted => [loads_plain (V_count rev)]
  | Reset1 => if sends rev then [loads_plain (V_count rev)] else []
  | Resetting => [stores_locked V_weak; stores_locked (V_im_weak rev); stores_locked (V_weak_time rev)]
  | Marking =>
      match w_outcome w with
      | Some _ => [loads_locked V_weak; stores_locked V_weak; loads_locked (V_im_weak rev);
                   stores_locked (V_im_weak rev); stores_locked (V_weak_time rev)]
      | None => []
      end
  | Result => [loads_plain V_weak]
  | Restart => if async then [loads_plain (V_im_weak false); loads_plain (V_im_weak true)] else [loads_plain (V_im_weak rev)]
  | Recounting =>
      if w_serial w
      then [loads_plain (V_im_weak rev); loads_plain (V_weak_time rev); loads_plain (V_count rev); stores_plain (V_count rev)]
      else []
  | _ => []
  end.

(** Two accesses of which one could see the other half done. *)
Definition conflict (a a' : access) : Prop := on a = on a' /\ (stores a || stores a') = true.

(** The worker [i] acts. *)
Definition crew_act (i : nat) (o : option Z) (c : crew) : option crew :=
  w ← workers c !! i;
  match failed c with
  | Some _ => None
  | None =>
      match act o w (contexts c) with
      | Moves w t => Some (c {{ workers ::= insert i w; contexts := t }})
      | Asserts expr => Some (c {{ failed := Some expr }})
      | Idle => None
      end
  end.

(** The barrier [j] opens when as many workers wait at it as it was set up for; the
    worker [k] is the serial one. *)
Definition at_barrier (j : Z) (w : crew_worker) : bool := bool_decide (meets w = Some j).

Definition waiting (j : Z) (l : list crew_worker) : Z := headcount (at_barrier j) l.

Definition open_worker (j : Z) (k : nat) (n : nat) (w : crew_worker) : crew_worker :=
  if at_barrier j w
  then w {{ w_place ::= after_barrier (w_rev w); w_serial := bool_decide (n = k) }}
  else w.

Definition crew_open (j : Z) (k : nat) (c : crew) : option crew :=
  match failed c, nth (Z.to_nat j) (worker_init cfg) None, workers c !! k with
  | None, Some size, Some w =>
      if at_barrier j w && (waiting j (workers c) =? size)
      then Some (c {{ workers ::= imap (open_worker j k) }})
      else None
  | _, _, _ => None
  end.

(** A step of the workers: one acts, or a barrier opens. *)
Inductive crew_event := Act (i : nat) (o : option Z) | Open (j : Z) (k : nat).

Definition crew_step (e : crew_event) (c : crew) : option crew :=
  match e with
  | Act i o => crew_act i o c
  | Open j k => crew_open j k c
  end.

Fixpoint crew_run (l : list crew_event) (c : crew) : option crew :=
  match l with
  | [] => Some c
  | e :: l => crew_step e c ≫= crew_run l
  end.

(** The directions of the workers: each has its own in asynchronous mode, and otherwise
    all talk in [rev]. *)
Definition crew_directions (rev : bool) : list bool :=
  if async then map truth (runtime_tasks cfg) else replicate (length (runtime_tasks cfg)) rev.

Definition worker_begin (rev : bool) : crew_worker := {|
  w_rev := rev; w_place := Begin; w_serial := false; w_outcome := None;
  w_counts := []; w_outcomes := []; w_decisions := [] |}.

Definition crew_begin (rev : bool) (t : talk_shared) : crew :=
  {| contexts := t; workers := map worker_begin (crew_directions rev); failed := None |}.

End crew.
