(* ===== verification/CrewSpec.v ===== *)
(** What the workers of one end agree on: the invariants of Crew.v. *)

From S2P Require Import Prelude Bitops Errors Byteorder ConfigData Usage Double Report Stage Thread Config ConfigSpec Conn Net NetSpec Talk Process Crew.

(** ** Tallies *)

Lemma Zb_range x : 0 <= Zb x <= 1.
Proof. by destruct x. Qed.

Lemma headcount_range {A : Type} (f : A -> bool) l : 0 <= headcount f l <= Z.of_nat (length l).
Proof. induction l as [|x l IH]; cbn [headcount length]; [lia|]. pose proof (Zb_range (f x)). lia. Qed.

Lemma headcount_app {A : Type} (f : A -> bool) l k : headcount f (l ++ k) = headcount f l + headcount f k.
Proof. induction l as [|x l IH]; cbn [headcount app]; lia. Qed.

Lemma headcount_ext {A : Type} (f g : A -> bool) l : (forall x, x ∈ l -> f x = g x) -> headcount f l = headcount g l.
Proof.
  induction l as [|x l IH]; intros H; cbn [headcount]; [done|]. rewrite (H x), IH; [done| |set_solver].
  intros y Hy. apply H. set_solver.
Qed.

Lemma headcount_map {A B : Type} (g : A -> B) (f : B -> bool) l : headcount f (map g l) = headcount (fun x => f (g x)) l.
Proof. induction l as [|x l IH]; cbn [headcount map]; [done|by rewrite IH]. Qed.

Lemma headcount_insert {A : Type} (f : A -> bool) l i x y :
  l !! i = Some x -> headcount f (<[i := y]> l) = headcount f l - Zb (f x) + Zb (f y).
Proof.
  revert i. induction l as [|z l IH]; intros [|i] H; try discriminate H; simpl.
  - injection H as ->. lia.
  - rewrite (IH i H). lia.
Qed.

Lemma headcount_zero {A : Type} (f : A -> bool) l : (forall x, x ∈ l -> f x = false) -> headcount f l = 0.
Proof. intros H. rewrite (headcount_ext f (fun _ => false)) by done. clear. by induction l. Qed.

Lemma headcount_positive {A : Type} (f : A -> bool) l : 0 < headcount f l <-> exists x, x ∈ l /\ f x = true.
Proof.
  split.
  - induction l as [|x l IH]; cbn [headcount]; [lia|]. intros H. destruct (f x) eqn:E; [exists x; set_solver|].
    simpl in H. destruct IH as (y & Hy & Ey); [lia|]. exists y. set_solver.
  - intros (x & Hx & E). induction l as [|y l IH]; [set_solver|]. cbn [headcount]. pose proof (Zb_range (f y)).
    pose proof (headcount_range f l). apply elem_of_cons in Hx as [->|Hx]; [rewrite E; simpl; lia|]. specialize (IH Hx). lia.
Qed.

Lemma headcount_imap {A : Type} (f : A -> bool) (g : nat -> A -> A) l :
  (forall n x, l !! n = Some x -> f (g n x) = f x) -> headcount f (imap g l) = headcount f l.
Proof.
  revert g. induction l as [|x l IH]; intros g H; [done|]. rewrite imap_cons. cbn [headcount].
  rewrite (H 0%nat x eq_refl), IH; [done|]. intros n y Hn. by apply (H (S n)).
Qed.

Lemma headcount_one {A : Type} (f : A -> bool) (g : nat -> A -> A) l k :
  (k < length l)%nat -> (forall n x, l !! n = Some x -> f (g n x) = bool_decide (n = k)) -> headcount f (imap g l) = 1.
Proof.
  revert g k. induction l as [|x l IH]; intros g k Hk H; [simpl in Hk; lia|]. rewrite imap_cons. cbn [headcount].
  rewrite (H 0%nat x eq_refl). destruct k as [|k].
  - rewrite bool_decide_eq_true_2 by done. rewrite headcount_zero; [done|]. intros y Hy.
    apply list_elem_of_lookup in Hy as (n & Hn). rewrite list_lookup_imap in Hn. apply fmap_Some in Hn as (z & Hz & ->).
    unfold compose. by rewrite (H (S n) z Hz).
  - rewrite bool_decide_eq_false_2 by done. rewrite (IH _ k); [done|simpl in Hk; lia|].
    intros n y Hn. unfold compose. rewrite (H (S n) y Hn). apply bool_decide_ext. lia.
Qed.

(** A smaller test with the same headcount is the same test. *)
Lemma headcount_le {A : Type} (f g : A -> bool) l : (forall x, x ∈ l -> f x = true -> g x = true) -> headcount f l <= headcount g l.
Proof.
  induction l as [|x l IH]; intros H; cbn [headcount]; [lia|].
  assert (headcount f l <= headcount g l) by (apply IH; set_solver).
  destruct (f x) eqn:E; [rewrite (H x) by set_solver|pose proof (Zb_range (g x))]; simpl; lia.
Qed.

Lemma headcount_full {A : Type} (f g : A -> bool) l :
  (forall x, x ∈ l -> f x = true -> g x = true) -> headcount f l = headcount g l -> forall x, x ∈ l -> f x = g x.
Proof.
  induction l as [|y l IH]; intros H Heq x Hx; [set_solver|]. cbn [headcount] in Heq.
  assert (headcount f l <= headcount g l) by (apply headcount_le; set_solver).
  assert (Zb (f y) <= Zb (g y)) by (destruct (f y) eqn:E; [rewrite (H y) by set_solver|pose proof (Zb_range (g y))]; simpl; lia).
  apply elem_of_cons in Hx as [->|Hx].
  - assert (Zb (f y) = Zb (g y)) as E by lia. by destruct (f y), (g y).
  - apply IH; [set_solver|lia|done].
Qed.

(** ** Where the workers are *)

Section spec.
Context (cfg : ubwt_config) (listens : bool).

(** The sizes of the barriers and the directions fit the mode. *)
Record fits (dirs : list bool) : Prop := {
  fits_bit : bit (asynchronous cfg);
  fits_size : forall d, d ∈ dirs ->
    nth (Z.to_nat (Zb d)) (worker_init cfg) None = Some (headcount (eqb d) dirs);
  fits_all : async cfg = true -> nth 2 (worker_init cfg) None = Some (Z.of_nat (length dirs));
  fits_half : async cfg = true -> forall d, headcount (eqb d) dirs = worker_count cfg / 2;
  fits_one : async cfg = false -> forall d d', d ∈ dirs -> d' ∈ dirs -> d = d';
  fits_count : async cfg = false -> Z.of_nat (length dirs) = worker_count cfg;
  fits_some : 0 < Z.of_nat (length dirs) <= 1024
}.

(** The rounds a worker has decided on. *)
Definition round (w : crew_worker) : nat := length (w_decisions w).

Definition round_barriers : nat := if async cfg then 5 else 4.

(** How many barriers of all the workers it has passed, and how many of its direction
    since. *)
Definition phase (w : crew_worker) : nat :=
  let K := round_barriers in
  match w_place w with
  | Begin => 0
  | Start1 | Starting | Start2 | Started | Reset1 | Recount1 | Recounting | Recount2 | Recounted | Finish => 1 + K * round w
  | Resetting | Reset2 => 2 + K * round w
  | Stream | StreamAll => 3 + K * round w
  | Outcome | Mark1 => K - 1 + K * round w
  | Marking | Mark2 => K + K * round w
  | Result | Restart => 1 + K + K * round w
  end.

Definition subphase (w : crew_worker) : nat :=
  match w_place w with
  | Starting | Start2 | Recounting | Recount2 | StreamAll => 1
  | Started | Recounted => 2
  | Reset1 => if sends listens (w_rev w) then 2 else 0
  | Outcome | Mark1 => if async cfg then 0 else 1
  | _ => 0
  end.

(** What the place of a worker says of its history. *)
Record worker_ok (w : crew_worker) : Prop := {
  ok_sends : match w_place w with
    | Start1 | Starting | Start2 | Started | Recount1 | Recounting | Recount2 | Recounted => sends listens (w_rev w) = true
    | _ => True end;
  ok_async : w_place w = StreamAll -> async cfg = true;
  ok_round : match w_place w with
    | Begin | Start1 | Starting | Start2 | Started => round w = 0
    | Recount1 | Recounting | Recount2 | Recounted | Finish => 1 <= round w
    | _ => True end%nat;
  ok_outcomes : length (w_outcomes w) =
    (match w_place w with Mark2 | Result | Restart => 1 | _ => 0 end + round w)%nat;
  ok_counts : sends listens (w_rev w) = true -> length (w_counts w) =
    (match w_place w with
     | Reset1 | Resetting | Reset2 | Stream | StreamAll | Outcome | Mark1 | Marking | Mark2 | Result | Restart => 1
     | _ => 0 end + round w)%nat;
  ok_decisions : w_decisions w =
    match w_place w with
    | Finish => replicate (round w - 1) true ++ [false]
    | _ => replicate (round w) true end
}.

(** The workers are together: no barrier has let some pass and others not. *)
Record together (dirs : list bool) (l : list crew_worker) : Prop := {
  to_dirs : map w_rev l = dirs;
  to_ok : Forall worker_ok l;
  to_phase : forall w w', w ∈ l -> w' ∈ l -> phase w = phase w';
  to_sub : forall w w', w ∈ l -> w' ∈ l -> w_rev w = w_rev w' -> subphase w = subphase w'
}.

Lemma elem_insert (l : list crew_worker) i w w' x : l !! i = Some w -> x ∈ <[i := w']> l -> x = w' \/ x ∈ l.
Proof.
  intros Hi Hx. apply list_elem_of_lookup in Hx as (j & Hj).
  apply list_lookup_insert_Some in Hj as [(_ & -> & _)|[_ Hj]]; [by left|right]. by eapply list_elem_of_lookup_2.
Qed.

Lemma snoc_true (ds : list bool) :
  ds = replicate (length ds) true -> ds ++ [true] = replicate (length ds + 1) true.
Proof. intros H. rewrite H at 1. by rewrite replicate_add. Qed.

Lemma snoc_false (ds : list bool) :
  ds = replicate (length ds) true -> ds ++ [false] = replicate (length ds + 1 - 1) true ++ [false].
Proof. intros H. rewrite H at 1. do 2 f_equal. lia. Qed.

(** An action keeps the phases. *)
Lemma act_phase o w t w' t' :
  worker_ok w -> act cfg listens o w t = Moves w' t' ->
  w_rev w' = w_rev w /\ phase w' = phase w /\ subphase w' = subphase w /\ worker_ok w'.
Proof.
  intros [Hs Ha Hr Ho Hc Hd] H. destruct w as [rev p ser out cs os ds].
  unfold act, phase, subphase, round_barriers in *. simpl in *.
  destruct (sends listens rev) eqn:Es, (async cfg) eqn:Ea, p; try discriminate H; try discriminate Hs;
    repeat (step_if_in H; try discriminate H); injection H as <- <-; unfold round in *; simpl in *;
    (split_and!; [done|rewrite ?length_app; simpl; lia|try done; by rewrite Es|]);
    constructor; unfold round; simpl; rewrite ?length_app; simpl; rewrite ?Es; try done; intros; try lia;
    auto using snoc_true, snoc_false; try (rewrite Hc by done); lia.
Qed.

(** ** When a barrier opens *)

(** The workers a barrier is for. *)
Definition in_group (j : Z) (w : crew_worker) : bool := (async cfg && (j =? 2)) || (Zb (w_rev w) =? j).

(** A place before a barrier of all the workers. *)
Definition for_all (p : place) : bool :=
  match p with Begin | Reset1 | Reset2 | StreamAll | Mark1 | Mark2 => true | _ => false end.

Lemma at_barrier_meets j w : at_barrier cfg j w = true <-> meets cfg w = Some j.
Proof. unfold at_barrier. by rewrite bool_decide_eq_true. Qed.

(** What the barrier says of the worker. *)
Lemma meets_inv j w :
  meets cfg w = Some j ->
  j = (if for_all (w_place w) then if async cfg then 2 else Zb (w_rev w) else Zb (w_rev w)) /\
  after_barrier cfg listens (w_rev w) (w_place w) <> w_place w.
Proof.
  unfold meets. destruct w as [rev p ? ? ? ? ?]; simpl. destruct p; intros [= <-]; simpl; split; try done;
    by repeat case_match.
Qed.

Lemma at_in_group j w : at_barrier cfg j w = true -> in_group j w = true.
Proof.
  intros [-> _]%at_barrier_meets%meets_inv. unfold in_group.
  destruct (async cfg), (for_all _); simpl; rewrite ?Z.eqb_refl, ?orb_true_r; done.
Qed.

Lemma open_phase j w ser :
  worker_ok w -> meets cfg w = Some j ->
  let w' := w {{ w_place ::= after_barrier cfg listens (w_rev w); w_serial := ser }} in
  phase w' = (Nat.b2n (for_all (w_place w)) + phase w)%nat /\
  subphase w' = (if for_all (w_place w) then 0 else S (subphase w))%nat /\ worker_ok w'.
Proof.
  intros [Hs Ha Hr Ho Hc Hd] H w'. destruct w as [rev p ? out cs os ds].
  unfold meets, phase, subphase, round_barriers in *. simpl in *.
  destruct (sends listens rev) eqn:Es, (async cfg) eqn:Ea, p; try discriminate H; try discriminate Hs;
    try discriminate (Ha eq_refl); simpl; rewrite ?Es, ?Ea; simpl; rewrite ?Es; unfold w', round in *; simpl in *;
    (split_and!; [lia|done|]); constructor; unfold round; simpl; rewrite ?Es, ?Ea; simpl; rewrite ?Es; try done; intros; auto; try lia; by rewrite ?Hc by done.
Qed.

(** Workers that wait at the same barrier are at the same place. *)
Lemma same_place j w w' :
  worker_ok w -> worker_ok w' -> phase w = phase w' -> (w_rev w = w_rev w' -> subphase w = subphase w') ->
  meets cfg w = Some j -> meets cfg w' = Some j -> w_place w = w_place w' /\ round w = round w'.
Proof.
  intros Hok Hok' Hph Hsub H H'.
  assert (w_rev w = w_rev w' \/ for_all (w_place w) = true /\ for_all (w_place w') = true /\ async cfg = true) as Hcase.
  { apply meets_inv in H as [E _], H' as [E' _]. rewrite E in E'.
    destruct (async cfg), (for_all (w_place w)), (for_all (w_place w')), (w_rev w), (w_rev w'); try done; auto. }
  unfold meets in *. destruct Hok as [Hs Hq Hr _ _ _], Hok' as [Hs' Hq' Hr' _ _ _].
  destruct Hcase as [Hrev|(Ha & Ha' & Has)].
  - specialize (Hsub Hrev). rewrite <- Hrev in *. unfold phase, subphase, round_barriers in *. rewrite <- Hrev in *.
    destruct (sends listens (w_rev w)), (async cfg), (w_place w), (w_place w'); try done;
      try discriminate (Hq eq_refl); try discriminate (Hq' eq_refl); split; (done || lia).
  - unfold phase, round_barriers in *. rewrite Has in *.
    destruct (w_place w), (w_place w'); try done; split; (done || lia).
Qed.

Section opening.
Context (dirs : list bool) (l : list crew_worker).
Context (Hfits : fits dirs) (Ht : together dirs l).

Lemma member_ok w : w ∈ l -> worker_ok w.
Proof. intros H. destruct Ht as [_ Hok _ _]. by eapply list.Forall_forall in Hok. Qed.

Lemma member_dir w : w ∈ l -> w_rev w ∈ dirs.
Proof. clear Hfits. intros H. rewrite <- (to_dirs _ _ Ht). apply list_elem_of_fmap. by exists w. Qed.

Lemma group_size j w :
  w ∈ l -> at_barrier cfg j w = true ->
  nth (Z.to_nat j) (worker_init cfg) None = Some (headcount (in_group j) l).
Proof.
  intros Hw Hj. apply at_barrier_meets, meets_inv in Hj as [-> _]. pose proof (member_dir w Hw) as Hd.
  pose proof (fits_size _ Hfits _ Hd) as Hsize. pose proof (fits_all _ Hfits) as Hall. unfold in_group.
  assert (headcount (fun x => Zb (w_rev x) =? Zb (w_rev w)) l = headcount (eqb (w_rev w)) dirs) as Hdir.
  { rewrite <- (to_dirs _ _ Ht), headcount_map. apply headcount_ext. intros x _. by destruct (w_rev w), (w_rev x). }
  destruct (async cfg) eqn:Ea; [destruct (for_all (w_place w))|destruct (for_all (w_place w))]; simpl andb.
  - change (Z.to_nat 2) with 2%nat. rewrite Hall by done. f_equal. rewrite <- (to_dirs _ _ Ht), length_map. clear.
    induction l as [|x k IH]; [done|]. cbn [headcount length]. rewrite <- IH. simpl. lia.
  - rewrite Hsize, <- Hdir. f_equal. apply headcount_ext. intros x _. by destruct (w_rev w), (w_rev x).
  - by rewrite Hsize, <- Hdir.
  - by rewrite Hsize, <- Hdir.
Qed.

(** The barrier opens: those that wait at it are all it is for. *)
Lemma open_group j w size :
  w ∈ l -> at_barrier cfg j w = true -> nth (Z.to_nat j) (worker_init cfg) None = Some size ->
  waiting cfg j l = size -> forall x, x ∈ l -> at_barrier cfg j x = in_group j x.
Proof.
  intros Hw Hj Hsize Hwait. rewrite (group_size j w Hw Hj) in Hsize. injection Hsize as <-.
  by apply headcount_full; [intros; apply at_in_group|].
Qed.

(** Two workers of which only one passes: in asynchronous mode, at a barrier of a
    direction that is not the other's. *)
Lemma passes_alone j w w' :
  w ∈ l -> w' ∈ l -> in_group j w = true -> in_group j w' = false -> at_barrier cfg j w = true ->
  w_rev w <> w_rev w' /\ for_all (w_place w) = false.
Proof.
  intros Hw Hw' Hg Hg' Hj. apply at_barrier_meets, meets_inv in Hj as [-> _]. unfold in_group in *.
  destruct (async cfg) eqn:Ea.
  - destruct (for_all (w_place w)); [discriminate Hg'|]. split; [|done]. intros E. by rewrite E, Z.eqb_refl, orb_true_r in Hg'.
  - exfalso. rewrite (fits_one _ Hfits Ea (w_rev w') (w_rev w)) in Hg' by (by apply member_dir).
    by destruct (for_all (w_place w)); rewrite Z.eqb_refl in Hg'.
Qed.

(** What the opening makes of each worker. *)
Lemma open_member j k y :
  y ∈ imap (open_worker cfg listens j k) l -> exists n w, l !! n = Some w /\ y = open_worker cfg listens j k n w.
Proof.
  intros Hy. apply list_elem_of_lookup in Hy as (n & Hn). rewrite list_lookup_imap in Hn.
  apply fmap_Some in Hn as (w & Hw & ->). by exists n, w.
Qed.

Lemma open_worker_rev j k n w : w_rev (open_worker cfg listens j k n w) = w_rev w.
Proof. unfold open_worker. by destruct (at_barrier cfg j w). Qed.

Lemma open_together j k w size :
  w ∈ l -> at_barrier cfg j w = true -> nth (Z.to_nat j) (worker_init cfg) None = Some size ->
  waiting cfg j l = size -> together dirs (imap (open_worker cfg listens j k) l).
Proof.
  intros Hw Hj Hsize Hwait. pose proof (open_group j w size Hw Hj Hsize Hwait) as Hgroup.
  assert (forall n x, l !! n = Some x -> worker_ok (open_worker cfg listens j k n x)) as Hok.
  { intros n x Hx. apply list_elem_of_lookup_2 in Hx. unfold open_worker. destruct (at_barrier cfg j x) eqn:E; [|by apply member_ok].
    apply at_barrier_meets in E. by apply (open_phase j x _ (member_ok x Hx) E). }
  assert (forall x x' n n', x ∈ l -> x' ∈ l ->
    let y := open_worker cfg listens j k n x in let y' := open_worker cfg listens j k n' x' in
    phase y = phase y' /\ (w_rev y = w_rev y' -> subphase y = subphase y')) as Hpair.
  { intros x x' n n' Hx Hx' y y'. unfold y, y'. rewrite !open_worker_rev. unfold open_worker.
    pose proof (to_phase _ _ Ht x x' Hx Hx') as Hph. pose proof (to_sub _ _ Ht x x' Hx Hx') as Hsub.
    destruct (at_barrier cfg j x) eqn:E, (at_barrier cfg j x') eqn:E'.
    - apply at_barrier_meets in E, E'.
      destruct (open_phase j x (bool_decide (n = k)) (member_ok x Hx) E) as (-> & -> & _).
      destruct (open_phase j x' (bool_decide (n' = k)) (member_ok x' Hx') E') as (-> & -> & _).
      destruct (same_place j x x' (member_ok x Hx) (member_ok x' Hx') Hph Hsub E E') as [-> _].
      split; [lia|]. intros Hr. by rewrite Hsub.
    - rewrite Hgroup in E' by done. pose proof E as Hg. rewrite Hgroup in Hg by done.
      destruct (passes_alone j x x' Hx Hx' Hg E' E) as [Hr Hf]. apply at_barrier_meets in E.
      destruct (open_phase j x (bool_decide (n = k)) (member_ok x Hx) E) as (-> & _). rewrite Hf. by split.
    - rewrite Hgroup in E by done. pose proof E' as Hg. rewrite Hgroup in Hg by done.
      destruct (passes_alone j x' x Hx' Hx Hg E E') as [Hr Hf]. apply at_barrier_meets in E'.
      destruct (open_phase j x' (bool_decide (n' = k)) (member_ok x' Hx') E') as (-> & _). rewrite Hf. split; [done|congruence].
    - done. }
  constructor.
  - rewrite <- (to_dirs _ _ Ht). apply list_eq. intros n. rewrite !list_lookup_fmap, list_lookup_imap.
    destruct (l !! n); simpl; [by rewrite open_worker_rev|done].
  - apply list.Forall_forall. intros y Hy. apply open_member in Hy as (n & x & Hx & ->). by apply Hok.
  - intros y y' Hy Hy'. apply open_member in Hy as (n & x & Hx & ->), Hy' as (n' & x' & Hx' & ->).
    apply list_elem_of_lookup_2 in Hx, Hx'. by apply Hpair.
  - intros y y' Hy Hy'. apply open_member in Hy as (n & x & Hx & ->), Hy' as (n' & x' & Hx' & ->).
    apply list_elem_of_lookup_2 in Hx, Hx'. by apply Hpair.
Qed.

Lemma act_together o i w t w' t' :
  l !! i = Some w -> act cfg listens o w t = Moves w' t' -> together dirs (<[i := w']> l).
Proof.
  intros Hi Hact. pose proof (list_elem_of_lookup_2 _ _ _ Hi) as Hw.
  destruct (act_phase o w t w' t' (member_ok w Hw) Hact) as (Er & Ep & Es & Hok).
  assert (forall x, x ∈ <[i := w']> l -> exists y, y ∈ l /\ w_rev x = w_rev y /\ phase x = phase y /\
    subphase x = subphase y /\ worker_ok x) as Hall.
  { intros x [->|Hx]%(elem_insert l i w w' x Hi); [by exists w|]. exists x. split_and!; try done. by apply member_ok. }
  constructor.
  - rewrite <- (to_dirs _ _ Ht), list_fmap_insert, list_insert_id; [done|].
    rewrite list_lookup_fmap, Hi. simpl. by rewrite Er.
  - apply list.Forall_forall. intros x Hx. by destruct (Hall x Hx) as (y & _ & _ & _ & _ & H).
  - intros x x' Hx Hx'. destruct (Hall x Hx) as (y & Hy & _ & -> & _), (Hall x' Hx') as (y' & Hy' & _ & -> & _).
    by apply (to_phase _ _ Ht).
  - intros x x' Hx Hx'. destruct (Hall x Hx) as (y & Hy & -> & _ & -> & _), (Hall x' Hx') as (y' & Hy' & -> & _ & -> & _).
    by apply (to_sub _ _ Ht).
Qed.

(** A barrier of all the workers opens for all of them, at one place. *)
Lemma all_pass j w size x :
  w ∈ l -> at_barrier cfg j w = true -> nth (Z.to_nat j) (worker_init cfg) None = Some size ->
  waiting cfg j l = size -> for_all (w_place w) = true -> x ∈ l ->
  at_barrier cfg j x = true /\ w_place x = w_place w.
Proof.
  intros Hw Hj Hsize Hwait Hall Hx. pose proof (open_group j w size Hw Hj Hsize Hwait) as Hgroup.
  assert (at_barrier cfg j x = true) as Hjx.
  { destruct (at_barrier cfg j x) eqn:E; [done|]. rewrite Hgroup in E by done. pose proof Hj as Hg. rewrite Hgroup in Hg by done.
    destruct (passes_alone j w x Hw Hx Hg E Hj) as [_ Hf]. congruence. }
  split; [done|]. apply at_barrier_meets in Hj, Hjx.
  by apply (same_place j x w (member_ok x Hx) (member_ok w Hw) (to_phase _ _ Ht x w Hx Hw) (to_sub _ _ Ht x w Hx Hw)).
Qed.
End opening.

(** ** The weak streams are counted *)

Definition weak_last (w : crew_worker) : bool :=
  match list.last (w_outcomes w) with Some (Some _) => true | _ => false end.

(** Whether the worker has counted a weak stream in the present round. *)
Definition voted (w : crew_worker) : bool :=
  match w_place w with
  | Mark2 | Result | Restart | Recount1 | Recounting | Recount2 | Recounted | Reset1 | Finish => weak_last w
  | _ => false
  end.

Definition votes (d : bool) (l : list crew_worker) : Z := headcount (fun w => eqb (w_rev w) d && voted w) l.

(** From the packets of a round to the decision, and to the new count. *)
Definition live (p : place) : bool :=
  match p with
  | Stream | StreamAll | Outcome | Mark1 | Marking | Mark2 | Result | Restart | Recount1 | Recounting => true
  | _ => false
  end.

Definition weak_time_of (rev : bool) (t : talk_shared) : Z := weak_time (talk_ctx (Zb rev) t).

Record counted (t : talk_shared) (l : list crew_worker) : Prop := {
  co_reset : forall w, w ∈ l -> w_place w = Reset2 -> im_weak_of (w_rev w) t = 0 /\ talk_weak t = 0;
  co_votes : forall w, w ∈ l -> live (w_place w) = true ->
    (forall x, x ∈ l -> im_weak_of (w_rev x) t = votes (w_rev x) l) /\ talk_weak t = votes false l + votes true l;
  co_time : forall w, w ∈ l -> live (w_place w) = true -> forall x, x ∈ l -> 0 < votes (w_rev x) l ->
    exists y, y ∈ l /\ w_rev y = w_rev x /\ voted y = true /\
      list.last (w_outcomes y) = Some (Some (weak_time_of (w_rev x) t))
}.

Lemma reset_contexts r d t :
  im_weak_of d (talk_reset (Zb r) t) = (if eqb d r then 0 else im_weak_of d t) /\ talk_weak (talk_reset (Zb r) t) = 0 /\
  count_of d (talk_reset (Zb r) t) = count_of d t.
Proof. by destruct t as [? [] []], r, d. Qed.

Lemma mark_contexts r time d t :
  im_weak_of d (talk_mark_weak (Zb r) time t) = (if eqb d r then wrap 32 (im_weak_of d t + 1) else im_weak_of d t) /\
  talk_weak (talk_mark_weak (Zb r) time t) = wrap 32 (talk_weak t + 1) /\
  weak_time_of d (talk_mark_weak (Zb r) time t) = (if eqb d r then time else weak_time_of d t) /\
  count_of d (talk_mark_weak (Zb r) time t) = count_of d t.
Proof. by destruct t as [? [] []], r, d. Qed.

Lemma count_contexts f r d t :
  let t' := talk_ctx_update (Zb r) (fun c => c {{ talk_ctx_count := f c }}) t in
  im_weak_of d t' = im_weak_of d t /\ talk_weak t' = talk_weak t /\ weak_time_of d t' = weak_time_of d t /\
  count_of d t' = if eqb d r then f (talk_ctx (Zb r) t) else count_of d t.
Proof. by destruct t as [? [] []], r, d. Qed.

(** The actions that neither reset nor count. *)
Lemma act_quiet o w t w' t' :
  worker_ok w -> act cfg listens o w t = Moves w' t' -> w_place w <> Resetting -> w_place w <> Marking ->
  (forall d, im_weak_of d t' = im_weak_of d t /\ weak_time_of d t' = weak_time_of d t) /\ talk_weak t' = talk_weak t /\
  voted w' = voted w /\ (live (w_place w') = true -> live (w_place w) = true) /\ w_place w' <> Reset2 /\
  w_outcomes w' = w_outcomes w.
Proof.
  intros [_ _ Hr Ho _ _] H Hn1 Hn2. destruct w as [rev p ser out cs os ds].
  assert (p = Started -> os = []) as Hnil.
  { intros ->. simpl in *. apply length_zero_iff_nil. lia. }
  unfold act in H. simpl in *.
  destruct p; try discriminate H; try done; repeat (step_if_in H; try discriminate H); injection H as <- <-;
    (split_and!; [intros d; unfold count_start, count_again;
       try (match goal with |- context [talk_ctx_update (Zb rev) (fun c => c {{ talk_ctx_count := @?f c }}) t] =>
         destruct (count_contexts f rev d t) as (? & _ & ? & _) end); by split
      |unfold count_start, count_again; by destruct t as [? [] []], rev
      |try done; unfold voted; simpl; by rewrite ?Hnil|done..]).
Qed.

(** Workers that are together are not some counting and some resetting. *)
Lemma apart w x :
  worker_ok w -> worker_ok x -> phase w = phase x ->
  (w_place w = Resetting \/ w_place w = Reset2 -> live (w_place x) = false) /\
  (w_place w = Resetting -> w_place x <> Marking).
Proof.
  intros [_ Hq Hr _ _ _] [_ Hq' Hr' _ _ _] H. unfold phase, round_barriers in H.
  split; [intros [E|E]|intros E E']; rewrite E in *; destruct (async cfg), (w_place x); try done;
    try discriminate (Hq' eq_refl); lia.
Qed.

Lemma votes_insert d l i w w' :
  l !! i = Some w -> w_rev w' = w_rev w ->
  votes d (<[i := w']> l) = votes d l + (if eqb (w_rev w) d then Zb (voted w') - Zb (voted w) else 0).
Proof.
  intros Hi Hr. unfold votes. rewrite (headcount_insert _ _ _ _ _ Hi), Hr. destruct (eqb (w_rev w) d); simpl; lia.
Qed.

Lemma votes_bound dirs l d : fits dirs -> together dirs l -> 0 <= votes d l <= 1024.
Proof.
  intros Hf Ht. unfold votes. pose proof (headcount_range (fun w => eqb (w_rev w) d && voted w) l).
  pose proof (fits_some _ Hf). rewrite <- (to_dirs _ _ Ht), length_map in H0. lia.
Qed.

Lemma votes_both l : votes false l + votes true l = headcount voted l.
Proof. unfold votes. induction l as [|w l IH]; cbn [headcount]; [done|]. destruct (w_rev w), (voted w); simpl in *; lia. Qed.

Section counting.
Context (dirs : list bool) (l : list crew_worker) (t : talk_shared).
Context (Hfits : fits dirs) (Ht : together dirs l) (Hco : counted t l).

Context (o : option Z) (i : nat) (w w' : crew_worker) (t' : talk_shared).
Context (Hi : l !! i = Some w) (Hact : act cfg listens o w t = Moves w' t').

Lemma actor_in : w ∈ l.
Proof. by eapply list_elem_of_lookup_2. Qed.

Lemma actor_ok : worker_ok w.
Proof. apply (member_ok dirs l Ht), actor_in. Qed.

Lemma actor_rev : w_rev w' = w_rev w.
Proof. by destruct (act_phase o w t w' t' actor_ok Hact). Qed.

Lemma actor_new : w' ∈ <[i := w']> l.
Proof. apply list_elem_of_lookup_2 with (i := i). apply list_lookup_insert_eq. by eapply lookup_lt_Some. Qed.

(** A worker other than the actor, or of which only what the action keeps is asked. *)
Lemma others_stay (P : crew_worker -> Prop) :
  (P w -> P w') -> (exists y, y ∈ l /\ P y) -> exists y, y ∈ <[i := w']> l /\ P y.
Proof.
  intros HP (y & Hy & H). apply list_elem_of_lookup in Hy as (n & Hn). destruct (decide (n = i)) as [->|Hne].
  - rewrite Hi in Hn. injection Hn as <-. exists w'. split; [apply actor_new|by apply HP].
  - exists y. split; [|done]. apply list_elem_of_lookup_2 with (i := n). by rewrite list_lookup_insert_ne.
Qed.

Lemma new_members x : x ∈ <[i := w']> l -> exists y, y ∈ l /\ w_rev x = w_rev y /\ (x = w' /\ y = w \/ x = y).
Proof.
  intros [->|Hx]%(elem_insert l i w w' x Hi); [exists w|exists x; auto].
  split; [apply actor_in|split; [apply actor_rev|auto]].
Qed.

Lemma reset_counted : w_place w = Resetting -> counted t' (<[i := w']> l).
Proof.
  intros E. assert (w' = goes Reset2 w /\ t' = talk_reset (Zb (w_rev w)) t) as [Ew Et].
  { clear - Hact E. unfold act in Hact. rewrite E in Hact. by injection Hact as <- <-. }
  assert (forall x, x ∈ <[i := w']> l -> live (w_place x) = false) as Hdead.
  { intros x Hx. destruct (new_members x Hx) as (y & Hy & _ & [[-> _]| ->]); [by rewrite Ew|].
    apply (apart w y actor_ok (member_ok dirs l Ht y Hy) (to_phase _ _ Ht w y actor_in Hy)). by left. }
  constructor; try (intros x Hx Hl; by rewrite Hdead in Hl).
  rewrite Et. intros x Hx Hp. destruct (new_members x Hx) as (y & Hy & -> & Hcase).
  destruct (reset_contexts (w_rev w) (w_rev y) t) as (-> & -> & _). split; [|done].
  destruct Hcase as [[_ ->]| ->]; [by rewrite eqb_reflx|].
  destruct (co_reset _ _ Hco y Hy Hp) as [-> _]. by destruct (eqb _ _).
Qed.

Lemma mark_counted : w_place w = Marking -> counted t' (<[i := w']> l).
Proof.
  intros E. assert (live (w_place w) = true) as Hl by (by rewrite E).
  destruct (co_votes _ _ Hco w actor_in Hl) as [Hv Hv2]. pose proof (co_time _ _ Hco w actor_in Hl) as Htime.
  assert (voted w = false) as Hnv by (unfold voted; by rewrite E).
  assert (w' = goes Mark2 (w {{ w_outcomes ::= fun os => os ++ [w_outcome w] }}) /\
    t' = match w_outcome w with Some time => talk_mark_weak (Zb (w_rev w)) time t | None => t end) as [Ew Et].
  { clear - Hact E. unfold act in Hact. rewrite E in Hact. by injection Hact as <- <-. }
  assert (voted w' = bool_decide (is_Some (w_outcome w)) /\ list.last (w_outcomes w') = Some (w_outcome w)) as [Hv' Hlast].
  { rewrite Ew. unfold voted, weak_last. simpl. rewrite last_snoc. by destruct (w_outcome w). }
  assert (forall d, votes d (<[i := w']> l) = votes d l + Zb (eqb (w_rev w) d && voted w')) as Hvotes.
  { intros d. rewrite (votes_insert d l i w w' Hi actor_rev), Hnv. destruct (eqb _ _), (voted w'); simpl; lia. }
  pose proof (votes_bound dirs l false Hfits Ht) as B0. pose proof (votes_bound dirs l true Hfits Ht) as B1.
  constructor.
  - intros x Hx Hp. exfalso. destruct (new_members x Hx) as (y & Hy & _ & [[-> _]| ->]); [by rewrite Ew in Hp|].
    destruct (apart y w (member_ok dirs l Ht y Hy) actor_ok (to_phase _ _ Ht y w Hy actor_in)) as [Ha _].
    rewrite Ha in Hl by auto. done.
  - intros _ _ _. rewrite !Hvotes, Et, Hv'. split.
    + intros x Hx. destruct (new_members x Hx) as (y & Hy & -> & _). rewrite Hvotes, Hv'. specialize (Hv y Hy).
      destruct (w_outcome w) as [time|]; [|by rewrite andb_false_r, Z.add_0_r].
      destruct (mark_contexts (w_rev w) time (w_rev y) t) as (-> & _). rewrite Hv.
      destruct (w_rev y), (w_rev w); simpl; rewrite ?wrap_small by (unfold unsigned; lia); lia.
    + destruct (w_outcome w) as [time|]; [|rewrite !andb_false_r; simpl; lia].
      destruct (mark_contexts (w_rev w) time false t) as (_ & -> & _). rewrite Hv2, wrap_small by (unfold unsigned; lia).
      destruct (w_rev w); simpl; lia.
  - intros _ _ _ x Hx Hpos. destruct (new_members x Hx) as (y & Hy & Exr & _). rewrite Exr, Hvotes in *.
    destruct (eqb (w_rev w) (w_rev y) && voted w') eqn:Enew.
    + apply andb_true_iff in Enew as [Er Ev]. apply eqb_prop in Er. rewrite Hv' in Ev.
      destruct (w_outcome w) as [time|]; [|discriminate Ev]. exists w'. split; [apply actor_new|].
      rewrite actor_rev, Hlast, Et, <- Er. destruct (mark_contexts (w_rev w) time (w_rev w) t) as (_ & _ & -> & _).
      by rewrite eqb_reflx.
    + change (Zb false) with 0 in Hpos. rewrite Z.add_0_r in Hpos. destruct (Htime y Hy Hpos) as (z & Hz & Ez & Vz & Tz).
      apply (others_stay (fun z => w_rev z = w_rev y /\ voted z = true /\
        list.last (w_outcomes z) = Some (Some (weak_time_of (w_rev y) t')))); [intros (_ & H & _); congruence|].
      exists z. split_and!; try done. rewrite Tz, Et. destruct (w_outcome w) as [time|]; [|done].
      destruct (mark_contexts (w_rev w) time (w_rev y) t) as (_ & _ & -> & _).
      rewrite Hv' in Enew. simpl in Enew. rewrite andb_true_r in Enew. by destruct (w_rev w), (w_rev y).
Qed.

Lemma quiet_counted : w_place w <> Resetting -> w_place w <> Marking -> counted t' (<[i := w']> l).
Proof.
  intros N1 N2. destruct (act_quiet o w t w' t' actor_ok Hact N1 N2) as (Hsame & Hw8 & Hvo & Hli & Hnr & Hos).
  assert (forall d, votes d (<[i := w']> l) = votes d l) as Hvotes.
  { intros d. rewrite (votes_insert d l i w w' Hi actor_rev), Hvo. destruct (eqb _ _); lia. }
  assert (forall x, x ∈ <[i := w']> l -> exists y, y ∈ l /\ w_rev x = w_rev y /\
    (live (w_place x) = true -> live (w_place y) = true) /\ (w_place x = Reset2 -> w_place y = Reset2)) as Hold.
  { intros x Hx. destruct (new_members x Hx) as (y & Hy & Er & [[-> Ey]| ->]); exists y; rewrite ?Ey; split_and!; auto; by rewrite <- Ey. }
  constructor.
  - intros x Hx Hp. destruct (Hold x Hx) as (y & Hy & -> & _ & Hpy). rewrite (proj1 (Hsame _)), Hw8.
    exact (co_reset _ _ Hco y Hy (Hpy Hp)).
  - intros x Hx Hp. destruct (Hold x Hx) as (y & Hy & _ & Hly & _). destruct (co_votes _ _ Hco y Hy (Hly Hp)) as [Hv Hv2].
    rewrite Hw8, !Hvotes. split; [|done]. intros z Hz. destruct (Hold z Hz) as (y' & Hy' & -> & _).
    by rewrite Hvotes, (proj1 (Hsame _)), Hv.
  - intros x Hx Hp z Hz Hpos. destruct (Hold x Hx) as (y & Hy & _ & Hly & _). destruct (Hold z Hz) as (y' & Hy' & Er' & _).
    rewrite Er', Hvotes, (proj2 (Hsame _)) in *.
    apply (others_stay (fun v => w_rev v = w_rev y' /\ voted v = true /\
      list.last (w_outcomes v) = Some (Some (weak_time_of (w_rev y') t)))).
    + rewrite actor_rev, Hvo, Hos. done.
    + exact (co_time _ _ Hco y Hy (Hly Hp) y' Hy' Hpos).
Qed.

Lemma act_counted : counted t' (<[i := w']> l).
Proof.
  destruct (decide (w_place w = Resetting)); [by apply reset_counted|].
  destruct (decide (w_place w = Marking)); [by apply mark_counted|by apply quiet_counted].
Qed.
End counting.

Section opening_counted.
Context (dirs : list bool) (l : list crew_worker) (t : talk_shared).
Context (Hfits : fits dirs) (Ht : together dirs l) (Hco : counted t l).
Context (j : Z) (k : nat) (w : crew_worker) (size : Z).
Context (Hw : w ∈ l) (Hj : at_barrier cfg j w = true) (Hsize : nth (Z.to_nat j) (worker_init cfg) None = Some size).
Context (Hwait : waiting cfg j l = size).

Local Abbreviation opened := (imap (open_worker cfg listens j k) l).

Lemma opener_place x : x ∈ l -> at_barrier cfg j x = true -> w_place x = w_place w /\ round x = round w.
Proof.
  intros Hx Hjx. pose proof Hj as Hjw. apply at_barrier_meets in Hjx, Hjw.
  apply (same_place j x w (member_ok dirs l Ht x Hx) (member_ok dirs l Ht w Hw)); try done;
    [by apply (to_phase _ _ Ht)|by apply (to_sub _ _ Ht)].
Qed.

(** All the workers go from one place to one place. *)
Lemma opened_all p y :
  w_place w = p -> for_all p = true -> y ∈ opened ->
  exists x, x ∈ l /\ w_place x = p /\ w_rev y = w_rev x /\ w_place y = after_barrier cfg listens (w_rev x) p.
Proof.
  intros Hp Hf Hy. apply open_member in Hy as (n & x & Hx & ->). apply list_elem_of_lookup_2 in Hx. rewrite <- Hp in Hf.
  destruct (all_pass dirs l Hfits Ht j w size x Hw Hj Hsize Hwait Hf Hx) as [Hjx Hpx].
  exists x. split_and!; [done|by rewrite Hpx|apply open_worker_rev|]. unfold open_worker. rewrite Hjx.
  destruct x; simpl in *. by rewrite Hpx, Hp.
Qed.

Lemma opened_reset1 : w_place w = Reset1 -> counted t opened.
Proof.
  intros Hp. assert (forall y, y ∈ opened -> w_place y = Resetting) as H.
  { intros y Hy. by destruct (opened_all Reset1 y Hp eq_refl Hy) as (x & _ & _ & _ & ->). }
  constructor; intros y Hy Hq; rewrite H in Hq; done.
Qed.

Lemma opened_reset2 : w_place w = Reset2 -> counted t opened.
Proof.
  intros Hp. assert (forall y, y ∈ opened -> w_place y = Stream /\ im_weak_of (w_rev y) t = 0 /\ talk_weak t = 0) as H.
  { intros y Hy. destruct (opened_all Reset2 y Hp eq_refl Hy) as (x & Hx & Hpx & -> & ->).
    split; [done|]. by apply (co_reset _ _ Hco x). }
  assert (forall d, votes d opened = 0) as Hz.
  { intros d. apply headcount_zero. intros y Hy. unfold voted. destruct (H y Hy) as [-> _]. by rewrite andb_false_r. }
  constructor.
  - intros y Hy Hq. destruct (H y Hy) as [E _]. congruence.
  - intros y Hy _. rewrite !Hz. split; [|by destruct (H y Hy) as (_ & _ & ->)].
    intros x Hx. rewrite Hz. by destruct (H x Hx) as (_ & -> & _).
  - intros y Hy _ x Hx. rewrite Hz. lia.
Qed.

Lemma opened_other : w_place w <> Reset1 -> w_place w <> Reset2 -> counted t opened.
Proof.
  intros N1 N2.
  assert (forall n x, l !! n = Some x -> let y := open_worker cfg listens j k n x in
    voted y = voted x /\ (live (w_place y) = true -> live (w_place x) = true) /\ (w_place y = Reset2 -> w_place x = Reset2) /\
    w_outcomes y = w_outcomes x) as Hone.
  { intros n x Hx. apply list_elem_of_lookup_2 in Hx. unfold open_worker. destruct (at_barrier cfg j x) eqn:E; [|done].
    destruct (opener_place x Hx E) as [Hp _]. apply at_barrier_meets, meets_inv in E as [_ Hne].
    destruct (member_ok dirs l Ht x Hx) as [_ _ Hr Ho _ _]. rewrite <- Hp in *.
    destruct x as [rev p ? out cs os ds]. unfold voted, weak_last, round in *. simpl in *.
    destruct p; try done; simpl in *; repeat case_match; try done.
    all: destruct os; [done|simpl in *; lia]. }
  assert (forall d, votes d opened = votes d l) as Hvotes.
  { intros d. apply headcount_imap. intros n x Hx. rewrite open_worker_rev. by destruct (Hone n x Hx) as [-> _]. }
  assert (forall y, y ∈ opened -> exists n x, l !! n = Some x /\ y = open_worker cfg listens j k n x /\ w_rev y = w_rev x) as Hmem.
  { intros y Hy. apply open_member in Hy as (n & x & Hx & ->). exists n, x. by rewrite open_worker_rev. }
  constructor.
  - intros y Hy Hp. destruct (Hmem y Hy) as (n & x & Hx & -> & ->). destruct (Hone n x Hx) as (_ & _ & Hr & _).
    apply (co_reset _ _ Hco x); [by eapply list_elem_of_lookup_2|auto].
  - intros y Hy Hl. destruct (Hmem y Hy) as (n & x & Hx & -> & _). destruct (Hone n x Hx) as (_ & Hlx & _).
    destruct (co_votes _ _ Hco x) as [Hv Hv2]; [by eapply list_elem_of_lookup_2|auto|]. rewrite !Hvotes. split; [|done].
    intros z Hz. destruct (Hmem z Hz) as (n' & x' & Hx' & -> & ->). rewrite Hvotes. apply Hv. by eapply list_elem_of_lookup_2.
  - intros y Hy Hl z Hz. destruct (Hmem y Hy) as (n & x & Hx & -> & _). destruct (Hone n x Hx) as (_ & Hlx & _).
    destruct (Hmem z Hz) as (n' & x' & Hx' & -> & ->). rewrite Hvotes. intros Hpos. apply list_elem_of_lookup_2 in Hx, Hx'.
    destruct (co_time _ _ Hco x Hx (Hlx Hl) x' Hx' Hpos) as (v & Hv & Er & Vv & Tv).
    apply list_elem_of_lookup in Hv as (m & Hm). destruct (Hone m v Hm) as (Ev & _ & _ & Eo).
    exists (open_worker cfg listens j k m v). rewrite open_worker_rev, Ev, Eo. split_and!; try done.
    apply list_elem_of_lookup_2 with (i := m). by rewrite list_lookup_imap, Hm.
Qed.

Lemma open_counted : counted t opened.
Proof.
  destruct (decide (w_place w = Reset1)); [by apply opened_reset1|].
  destruct (decide (w_place w = Reset2)); [by apply opened_reset2|by apply opened_other].
Qed.
End opening_counted.
End spec.
