(* ===== verification/CrewAgree.v ===== *)
(** The decisions and the counts of the workers of one end: continuation of CrewSpec.v. *)

From S2P Require Import Prelude Bitops Errors Byteorder ConfigData Usage Double Report Stage Thread Config ConfigSpec Conn Net NetSpec Talk Process Crew CrewSpec.

Section agree.
Context (cfg : ubwt_config) (listens : bool).

(** ** Decisions *)

Definition weak_at (r : nat) (w : crew_worker) : bool :=
  match w_outcomes w !! r with Some (Some _) => true | _ => false end.

(** How many workers of a direction had a weak stream in round [r]. *)
Definition votes_at (r : nat) (d : bool) (l : list crew_worker) : Z :=
  headcount (fun w => eqb (w_rev w) d && weak_at r w) l.

(** The decision on round [r]: the streams are repeated if all those of a direction
    were weak - in asynchronous mode, of either direction. *)
Definition decided (r : nat) (rev : bool) (l : list crew_worker) : bool :=
  if async cfg then (votes_at r false l =? worker_count cfg / 2) || (votes_at r true l =? worker_count cfg / 2)
  else votes_at r rev l =? worker_count cfg.

Definition agreed (l : list crew_worker) : Prop :=
  forall w r v, w ∈ l -> w_decisions w !! r = Some v ->
    (forall x, x ∈ l -> (r < length (w_outcomes x))%nat) /\ v = decided r (w_rev w) l.

(** What a worker has marked stays: the new list has, at each place, a worker of the
    same direction with at least the same outcomes. *)
Definition grows (l l' : list crew_worker) : Prop :=
  Forall2 (fun w w' => w_rev w' = w_rev w /\ w_outcomes w `prefix_of` w_outcomes w') l l'.

Lemma grows_refl l : grows l l.
Proof. induction l; by constructor. Qed.

Lemma grows_insert l i w w' :
  l !! i = Some w -> w_rev w' = w_rev w -> w_outcomes w `prefix_of` w_outcomes w' -> grows l (<[i := w']> l).
Proof.
  revert i. induction l as [|x l IH]; intros [|i] Hi Hr Hp; try discriminate Hi; simpl.
  - injection Hi as ->. constructor; [done|apply grows_refl].
  - constructor; [done|by apply (IH i)].
Qed.

Lemma grows_member l l' w' : grows l l' -> w' ∈ l' ->
  exists w, w ∈ l /\ w_rev w' = w_rev w /\ w_outcomes w `prefix_of` w_outcomes w'.
Proof.
  intros Hg Hw. induction Hg as [|x x' l l' H _ IH]; [set_solver|]. apply elem_of_cons in Hw as [->|Hw].
  - exists x. set_solver.
  - destruct (IH Hw) as (y & ? & ?). exists y. set_solver.
Qed.

Lemma grows_votes l l' r d :
  grows l l' -> (forall x, x ∈ l -> (r < length (w_outcomes x))%nat) -> votes_at r d l' = votes_at r d l.
Proof.
  intros Hg Hall. unfold votes_at. induction Hg as [|x x' l l' [Hr Hp] _ IH]; [done|]. cbn [headcount].
  rewrite IH by set_solver. do 2 f_equal. rewrite Hr. f_equal. unfold weak_at. destruct Hp as [k ->].
  rewrite lookup_app_l; [done|]. apply Hall. set_solver.
Qed.

Lemma grows_decided l l' r d :
  grows l l' -> (forall x, x ∈ l -> (r < length (w_outcomes x))%nat) -> decided r d l' = decided r d l.
Proof. intros Hg Hall. unfold decided. by rewrite !(grows_votes l l' r) by done. Qed.

Lemma grows_length l l' r :
  grows l l' -> (forall x, x ∈ l -> (r < length (w_outcomes x))%nat) -> forall x, x ∈ l' -> (r < length (w_outcomes x))%nat.
Proof.
  intros Hg Hall x Hx. destruct (grows_member l l' x Hg Hx) as (w & Hw & _ & Hp). apply prefix_length in Hp.
  specialize (Hall w Hw). lia.
Qed.

Lemma grows_open l j k : grows l (imap (open_worker cfg listens j k) l).
Proof.
  apply Forall2_same_length_lookup. split; [by rewrite length_imap|]. intros i w w' Hw Hw'.
  rewrite list_lookup_imap, Hw in Hw'. injection Hw' as <-. rewrite open_worker_rev. split; [done|].
  unfold open_worker. by destruct (at_barrier cfg j w).
Qed.

Section step.
Context (dirs : list bool) (l : list crew_worker) (t : talk_shared).
Context (Hfits : fits cfg dirs) (Ht : together cfg listens dirs l) (Hco : counted t l) (Hag : agreed l).

(** A worker that decides: the others have marked their streams of the round, and the
    counters are the votes of the round. *)
Lemma deciding w x :
  w ∈ l -> w_place w = Result \/ w_place w = Restart -> x ∈ l ->
  length (w_outcomes x) = S (round w) /\ voted x = weak_at (round w) x.
Proof.
  intros Hw Hp Hx. destruct (member_ok cfg listens dirs l Ht x Hx) as [_ Hq Hr Ho _ _].
  pose proof (to_phase _ _ _ _ Ht w x Hw Hx) as Hph.
  assert (length (w_outcomes x) = S (round w) /\ voted x = weak_last x) as [Hlen ->].
  { unfold phase, round_barriers, voted in *. rewrite Ho.
    destruct Hp as [E|E]; rewrite E in Hph; destruct (async cfg), (w_place x); try lia; (split; [lia|done]). }
  split; [done|]. unfold weak_last, weak_at. rewrite last_lookup, Hlen. done.
Qed.

Lemma half_positive : async cfg = true -> 0 < worker_count cfg / 2.
Proof.
  intros Ha. pose proof (fits_half _ _ Hfits Ha false) as H0. pose proof (fits_half _ _ Hfits Ha true) as H1.
  pose proof (fits_some _ _ Hfits) as [Hpos _].
  assert (headcount (eqb false) dirs + headcount (eqb true) dirs = Z.of_nat (length dirs)) as E; [|lia].
  clear. induction dirs as [|[] ds IH]; cbn [headcount length]; [done|simpl in *; lia..].
Qed.

Lemma direction_of d : async cfg = true -> exists x, x ∈ l /\ w_rev x = d.
Proof.
  intros Ha. pose proof (half_positive Ha) as Hpos. rewrite <- (fits_half _ _ Hfits Ha d), <- (to_dirs _ _ _ _ Ht), headcount_map in Hpos.
  apply headcount_positive in Hpos as (x & Hx & E). exists x. split; [done|]. by apply eqb_prop in E.
Qed.

Lemma votes_round w d : w ∈ l -> w_place w = Result \/ w_place w = Restart -> votes d l = votes_at (round w) d l.
Proof. intros Hw Hp. apply headcount_ext. intros x Hx. by destruct (deciding w x Hw Hp Hx) as [_ ->]. Qed.

Lemma restart_decided w :
  w ∈ l -> w_place w = Restart -> needs_restart cfg (w_rev w) t = decided (round w) (w_rev w) l.
Proof.
  intros Hw Hp. destruct (co_votes _ _ Hco w Hw) as [Hv _]; [by rewrite Hp|]. unfold needs_restart, decided.
  fold (async cfg). rewrite <- !(votes_round w) by auto. destruct (async cfg) eqn:Ha; [|by rewrite Hv].
  destruct (direction_of false Ha) as (x & Hx & Ex), (direction_of true Ha) as (y & Hy & Ey).
  pose proof (Hv x Hx) as H1. pose proof (Hv y Hy) as H2. rewrite Ex in H1. rewrite Ey in H2. by rewrite H1, H2.
Qed.

Lemma result_decided w :
  w ∈ l -> w_place w = Result -> (0 <? talk_weak t) = false -> decided (round w) (w_rev w) l = false.
Proof.
  intros Hw Hp Hz. apply Z.ltb_ge in Hz. destruct (co_votes _ _ Hco w Hw) as [_ Hv]; [by rewrite Hp|].
  pose proof (votes_bound cfg listens dirs l false Hfits Ht). pose proof (votes_bound cfg listens dirs l true Hfits Ht).
  unfold decided. rewrite <- !(votes_round w) by auto. destruct (async cfg) eqn:Ha.
  - pose proof (half_positive Ha). apply orb_false_iff. lia.
  - pose proof (fits_count _ _ Hfits Ha). pose proof (fits_some _ _ Hfits).
    destruct (w_rev w); apply Z.eqb_neq; lia.
Qed.

Lemma act_outcomes o w w' t' :
  act cfg listens o w t = Moves w' t' -> w_outcomes w `prefix_of` w_outcomes w'.
Proof.
  intros H. destruct w as [rev p ser out cs os ds]. unfold act in H. simpl in *.
  destruct p; try discriminate H; repeat (step_if_in H; try discriminate H); injection H as <- <-; simpl;
    (done || by apply prefix_app_r).
Qed.

(** An action decides nothing, or what [decided] says. *)
Lemma act_decisions o w w' t' :
  w ∈ l -> act cfg listens o w t = Moves w' t' ->
  w_decisions w' = w_decisions w \/
  (w_place w = Result \/ w_place w = Restart) /\ w_decisions w' = w_decisions w ++ [decided (round w) (w_rev w) l].
Proof.
  intros Hw H. pose proof (restart_decided w Hw) as Hres. pose proof (result_decided w Hw) as Hrst.
  destruct w as [rev p ser out cs os ds]. unfold act in H. simpl in *.
  destruct p; try discriminate H; try (repeat (step_if_in H; try discriminate H); injection H as <- <-; simpl; by left).
  - destruct (0 <? talk_weak t) eqn:Ez; injection H as <- <-; [by left|right]. split; [by left|]. simpl.
    by rewrite (Hrst eq_refl eq_refl).
  - rewrite <- Hres by done. destruct (needs_restart cfg rev t); injection H as <- <-; right; simpl; auto.
Qed.

Lemma act_agreed o i w w' t' :
  l !! i = Some w -> act cfg listens o w t = Moves w' t' -> agreed (<[i := w']> l).
Proof.
  intros Hi Hact. pose proof (list_elem_of_lookup_2 _ _ _ Hi) as Hw.
  destruct (act_phase cfg listens o w t w' t' (member_ok _ _ dirs l Ht w Hw) Hact) as (Er & _).
  pose proof (grows_insert l i w w' Hi Er (act_outcomes o w w' t' Hact)) as Hg.
  assert (forall r d, (forall x, x ∈ l -> (r < length (w_outcomes x))%nat) ->
    (forall x, x ∈ <[i := w']> l -> (r < length (w_outcomes x))%nat) /\
    decided r d l = decided r d (<[i := w']> l)) as Hstay.
  { intros r d Hall. split; [by apply (grows_length l)|by rewrite (grows_decided l _ r d Hg)]. }
  intros x r v [->|Hx]%(elem_insert l i w w' x Hi) Hv.
  - rewrite Er. destruct (act_decisions o w w' t' Hw Hact) as [E|[Hp E]]; rewrite E in Hv.
    + destruct (Hag w r v Hw Hv) as [Hall ->]. by apply Hstay.
    + apply lookup_app_Some in Hv as [Hv|[Hlen Hv]]; [destruct (Hag w r v Hw Hv) as [Hall ->]; by apply Hstay|].
      apply list_lookup_singleton_Some in Hv as [Hr <-]. fold (round w) in *. assert (r = round w) as -> by lia.
      apply Hstay. intros y Hy. destruct (deciding w y Hw Hp Hy) as [-> _]. lia.
  - destruct (Hag x r v Hx Hv) as [Hall ->]. by apply Hstay.
Qed.

Lemma open_agreed j k : agreed (imap (open_worker cfg listens j k) l).
Proof.
  intros y r v Hy Hv. apply open_member in Hy as (n & x & Hx & ->). apply list_elem_of_lookup_2 in Hx.
  rewrite open_worker_rev. assert (w_decisions x !! r = Some v) as Hv'.
  { unfold open_worker in Hv. by destruct (at_barrier cfg j x). }
  destruct (Hag x r v Hx Hv') as [Hall ->]. split; [by apply (grows_length l), Hall; apply grows_open|].
  symmetry. apply grows_decided; [apply grows_open|done].
Qed.
End step.

(** ** Counts *)

(** The places between reading the count and the next change of it. *)
Definition knows_count (p : place) : bool :=
  match p with
  | Reset1 | Resetting | Reset2 | Stream | StreamAll | Outcome | Mark1 | Marking | Mark2 | Result | Restart | Recount1
  | Finish => true
  | _ => false
  end.

(** The worker that is to change the count. *)
Definition changes_count (w : crew_worker) : bool :=
  w_serial w && match w_place w with Starting | Recounting => true | _ => false end.

Definition changers (d : bool) (l : list crew_worker) : Z := headcount (fun w => eqb (w_rev w) d && changes_count w) l.

(** The count [y] that follows [x] after round [r] was repeated: recomputed from the
    duration of one of the weak streams if all those of the direction were weak. *)
Definition recounted (r : nat) (d : bool) (x y : Z) (l : list crew_worker) : Prop :=
  if votes_at r d l =? worker_count cfg / (1 + asynchronous cfg) then
    exists w time, w ∈ l /\ w_rev w = d /\ w_outcomes w !! r = Some (Some time) /\ y = weak_count cfg time x
  else y = x.

Record counts_ok (t : talk_shared) (l : list crew_worker) : Prop := {
  cc_one : forall d, changers d l <= 1;
  cc_last : forall w, w ∈ l -> sends listens (w_rev w) = true -> knows_count (w_place w) = true ->
    list.last (w_counts w) = Some (count_of (w_rev w) t);
  cc_start : forall w, w ∈ l -> changers (w_rev w) l = 0 ->
    match w_place w with Starting | Start2 | Started => count_of (w_rev w) t = talk_count_current cfg | _ => True end;
  cc_again : forall w, w ∈ l ->
    match w_place w with
    | Recounting | Recount2 | Recounted => exists x, list.last (w_counts w) = Some x /\
        (0 < changers (w_rev w) l -> count_of (w_rev w) t = x) /\
        (changers (w_rev w) l = 0 -> recounted (round w - 1) (w_rev w) x (count_of (w_rev w) t) l)
    | _ => True
    end;
  cc_first : forall w x, w ∈ l -> w_counts w !! 0%nat = Some x -> x = talk_count_current cfg;
  cc_next : forall w r x y, w ∈ l -> w_counts w !! r = Some x -> w_counts w !! S r = Some y ->
    recounted r (w_rev w) x y l;
  cc_same : forall w w' r x y, w ∈ l -> w' ∈ l -> w_rev w = w_rev w' ->
    w_counts w !! r = Some x -> w_counts w' !! r = Some y -> x = y;
  cc_receiver : forall w, w ∈ l -> sends listens (w_rev w) = false -> w_counts w = []
}.

Lemma grows_recounted l l' r d x y :
  grows l l' -> (forall w, w ∈ l -> (r < length (w_outcomes w))%nat) -> recounted r d x y l -> recounted r d x y l'.
Proof.
  intros Hg Hall. unfold recounted. rewrite (grows_votes l l' r d Hg Hall). destruct (_ =? _); [|done].
  intros (w & time & Hw & Er & Ho & ->). apply list_elem_of_lookup in Hw as (i & Hi).
  destruct (Forall2_lookup_l _ _ _ _ _ Hg Hi) as (w' & Hi' & Er' & [k Hp]).
  exists w', time. split_and!; [by eapply list_elem_of_lookup_2|congruence| |done].
  rewrite Hp. by apply lookup_app_l_Some.
Qed.

Lemma changers_pos d l : 0 <= changers d l.
Proof. apply headcount_range. Qed.

Section count_step.
Context (dirs : list bool) (l : list crew_worker) (t : talk_shared).
Context (Hfits : fits cfg dirs) (Ht : together cfg listens dirs l) (Hco : counted t l) (Hag : agreed l).
Context (Hcc : counts_ok t l).

(** What the rounds before are known by. *)
Lemma round_known w r : w ∈ l -> (r < round w)%nat -> forall x, x ∈ l -> (r < length (w_outcomes x))%nat.
Proof.
  intros Hw Hr. destruct (lookup_lt_is_Some_2 (w_decisions w) r Hr) as [v Hv]. by destruct (Hag w r v Hw Hv).
Qed.

(** Two workers of a direction: one that changes the count, and another one. *)
Lemma change_apart w x :
  w ∈ l -> x ∈ l -> w_rev w = w_rev x -> w_place w = Starting \/ w_place w = Recounting ->
  sends listens (w_rev w) = true /\ knows_count (w_place x) = false /\
  (w_place w = Starting -> match w_place x with Recounting | Recount2 | Recounted => False | _ => True end) /\
  (w_place w = Recounting -> match w_place x with Starting | Start2 | Started => False | _ => True end).
Proof.
  intros Hw Hx Hr Hp. pose proof (to_phase _ _ _ _ Ht w x Hw Hx) as Hph. pose proof (to_sub _ _ _ _ Ht w x Hw Hx Hr) as Hsub.
  destruct (member_ok _ _ _ _ Ht w Hw) as [Hs _ Hrw _ _ _], (member_ok _ _ _ _ Ht x Hx) as [Hs' Hq Hrx _ _ _].
  unfold phase, subphase, round_barriers in *. rewrite <- Hr in *.
  destruct Hp as [E|E]; rewrite E in *; rewrite Hs in *;
    destruct (async cfg), (w_place x); try done; try discriminate (Hq eq_refl); split_and!; try done; lia.
Qed.

(** One that has read the count: nobody is to change it, and the others of the
    direction that have read it in this round know its value. *)
Lemma read_apart w x :
  w ∈ l -> x ∈ l -> w_rev w = w_rev x -> w_place w = Started \/ w_place w = Recounted ->
  sends listens (w_rev w) = true /\ changes_count x = false /\
  (w_place x = Reset1 \/ length (w_counts x) = round w) /\ length (w_counts w) = round w.
Proof.
  intros Hw Hx Hr Hp. pose proof (to_phase _ _ _ _ Ht w x Hw Hx) as Hph. pose proof (to_sub _ _ _ _ Ht w x Hw Hx Hr) as Hsub.
  destruct (member_ok _ _ _ _ Ht w Hw) as [Hs _ Hrw _ Hcw _], (member_ok _ _ _ _ Ht x Hx) as [Hs' Hq Hrx _ Hcx _].
  unfold phase, subphase, round_barriers, changes_count in *. rewrite <- Hr in *.
  assert (sends listens (w_rev w) = true) as Hsend by (by destruct Hp as [E|E]; rewrite E in Hs).
  specialize (Hcw Hsend). specialize (Hcx Hsend). rewrite Hcw, Hcx, Hsend in *.
  destruct Hp as [E|E]; rewrite E in *;
    destruct (async cfg), (w_place x); try done; try discriminate (Hq eq_refl); split_and!;
    rewrite ?andb_false_r; try done; try lia; (by left) || (right; lia).
Qed.

(** *** After an action *)

Context (o : option Z) (i : nat) (w w' : crew_worker) (t' : talk_shared).
Context (Hi : l !! i = Some w) (Hact : act cfg listens o w t = Moves w' t').

Local Abbreviation acted_list := (<[i := w']> l).

Lemma actor : w ∈ l /\ w_rev w' = w_rev w /\ grows l acted_list.
Proof.
  pose proof (list_elem_of_lookup_2 _ _ _ Hi) as Hw.
  destruct (act_phase cfg listens o w t w' t' (member_ok _ _ dirs l Ht w Hw) Hact) as (Er & _).
  split_and!; [done|done|]. apply grows_insert with (w := w); [done|done|]. by eapply act_outcomes.
Qed.

Lemma acted_member x : x ∈ acted_list -> x = w' \/ x ∈ l.
Proof. by apply elem_insert with (w := w). Qed.

Lemma act_changers d : changers d acted_list = changers d l - Zb (eqb (w_rev w) d && changes_count w).
Proof.
  destruct actor as (_ & Er & _). unfold changers. rewrite (headcount_insert _ _ _ _ _ Hi), Er.
  assert (changes_count w' = false) as ->; [|rewrite andb_false_r; simpl; lia].
  clear - Hact. destruct w as [rev p ser out cs os ds]. unfold act in Hact. simpl in *. unfold changes_count.
  destruct p; try discriminate Hact; repeat (step_if_in Hact; try discriminate Hact); injection Hact as <- <-; simpl;
    by rewrite ?andb_false_r.
Qed.

(** What the rounds before looked like, seen afterwards. *)
Lemma act_recounted x r d a c :
  x ∈ l -> (r < round x)%nat -> recounted r d a c l -> recounted r d a c acted_list.
Proof.
  intros Hx Hr. apply grows_recounted; [apply actor|]. by apply (round_known x r).
Qed.

Lemma act_next x r a c :
  x ∈ l -> w_counts x !! r = Some a -> w_counts x !! S r = Some c -> recounted r (w_rev x) a c acted_list.
Proof.
  intros Hx Ha Hc. apply (act_recounted x); [done| |by apply (cc_next _ _ Hcc x)].
  destruct (sends listens (w_rev x)) eqn:Hs; [|rewrite (cc_receiver _ _ Hcc x Hx Hs) in Ha; done].
  pose proof (lookup_lt_Some _ _ _ Hc) as Hlen.
  destruct (member_ok _ _ _ _ Ht x Hx) as [_ _ _ _ Hcl _]. specialize (Hcl Hs). destruct (w_place x); lia.
Qed.

(** An action that leaves the counts and their changers alone. *)
Lemma keep_counts :
  w_counts w' = w_counts w -> (forall d, count_of d t' = count_of d t) -> changes_count w = false ->
  (knows_count (w_place w') = true -> knows_count (w_place w) = true) ->
  match w_place w' with
  | Starting | Start2 | Started => match w_place w with Starting | Start2 | Started => True | _ => False end
  | Recounting | Recount2 | Recounted =>
      round w' = round w /\ match w_place w with Recounting | Recount2 | Recounted => True | _ => False end
  | _ => True
  end ->
  counts_ok t' acted_list.
Proof.
  intros Ec Et Hch Hk Hpl. destruct actor as (Hw & Er & Hg).
  assert (forall d, changers d acted_list = changers d l) as Hchs.
  { intros d. rewrite act_changers, Hch, andb_false_r. simpl. lia. }
  assert (forall x, x ∈ acted_list -> exists y, y ∈ l /\ w_rev x = w_rev y /\ w_counts x = w_counts y) as Hmem.
  { intros x [->|Hx]%acted_member; [by exists w|by exists x]. }
  constructor.
  - intros d. rewrite Hchs. apply (cc_one _ _ Hcc).
  - intros x [->|Hx]%acted_member Hs Hkx; rewrite Et; [|by apply (cc_last _ _ Hcc)].
    rewrite Er, Ec in *. apply (cc_last _ _ Hcc); auto.
  - intros x [->|Hx]%acted_member Hz; rewrite Hchs in Hz; rewrite Et; [|by apply (cc_start _ _ Hcc)].
    rewrite Er in *. pose proof (cc_start _ _ Hcc w Hw Hz) as H. by destruct (w_place w'); destruct (w_place w).
  - assert (forall x, x ∈ l -> forall a, (1 <= round x)%nat -> recounted (round x - 1) (w_rev x) a (count_of (w_rev x) t) l ->
      recounted (round x - 1) (w_rev x) a (count_of (w_rev x) t) acted_list) as Hrec.
    { intros x Hx a Hr. apply (act_recounted x); [done|lia]. }
    intros x [->|Hx]%acted_member; rewrite Hchs, Et.
    + pose proof (cc_again _ _ Hcc w Hw) as H. destruct (member_ok _ _ _ _ Ht w Hw) as [_ _ Hrw _ _ _]. rewrite Er, Ec.
      destruct (w_place w'); try done; destruct Hpl as [-> Hpl]; destruct (w_place w); try done;
        destruct H as (a & Ha & H1 & H2); exists a; split_and!; auto.
    + pose proof (cc_again _ _ Hcc x Hx) as H. destruct (member_ok _ _ _ _ Ht x Hx) as [_ _ Hrw _ _ _].
      destruct (w_place x); try done; destruct H as (a & Ha & H1 & H2); exists a; split_and!; auto.
  - intros x a Hx. destruct (Hmem x Hx) as (y & Hy & _ & ->). by apply (cc_first _ _ Hcc).
  - intros x r a c Hx. destruct (Hmem x Hx) as (y & Hy & -> & ->). by apply act_next.
  - intros x x' r a c Hx Hx'. destruct (Hmem x Hx) as (y & Hy & -> & ->), (Hmem x' Hx') as (y' & Hy' & -> & ->).
    by apply (cc_same _ _ Hcc).
  - intros x Hx. destruct (Hmem x Hx) as (y & Hy & -> & ->). by apply (cc_receiver _ _ Hcc).
Qed.

(** *** When the count is read *)

Section reading.
Context (Hp : w_place w = Started \/ w_place w = Recounted).
Context (Ec : w_counts w' = w_counts w ++ [count_of (w_rev w) t]).

Lemma read_quiet : changes_count w = false /\ changers (w_rev w) l = 0.
Proof.
  destruct actor as (Hw & _). split; [by apply (read_apart w w)|].
  apply headcount_zero. intros x Hx. destruct (eqb (w_rev x) (w_rev w)) eqn:E; [|done]. apply eqb_prop in E.
  by destruct (read_apart w x Hw Hx (eq_sym E) Hp) as (_ & -> & _).
Qed.

(** The count is the first one, or follows the last. *)
Lemma read_value :
  w_counts w = [] /\ count_of (w_rev w) t = talk_count_current cfg \/
  exists a, list.last (w_counts w) = Some a /\ (1 <= round w)%nat /\
    recounted (round w - 1) (w_rev w) a (count_of (w_rev w) t) l.
Proof.
  destruct actor as (Hw & _), read_quiet as [_ Hzero]. destruct (read_apart w w Hw Hw eq_refl Hp) as (_ & _ & _ & Hlen).
  destruct (member_ok _ _ _ _ Ht w Hw) as [_ _ Hrw _ _ _]. destruct Hp as [E|E].
  - left. pose proof (cc_start _ _ Hcc w Hw Hzero) as H. rewrite E in *. split; [|done]. apply length_zero_iff_nil. lia.
  - right. pose proof (cc_again _ _ Hcc w Hw) as H. rewrite E in *. destruct H as (a & Ha & _ & H). exists a. auto.
Qed.

Lemma read_first a : w_counts w' !! 0%nat = Some a -> a = talk_count_current cfg.
Proof.
  destruct actor as (Hw & _). rewrite Ec. intros [Ha|[Hl Ha]]%lookup_app_Some; [by apply (cc_first _ _ Hcc w)|].
  destruct read_value as [[E Hv]|(b & Hb & _)].
  - rewrite E in Ha. injection Ha as <-. done.
  - destruct (w_counts w); [discriminate Hb|simpl in Hl; lia].
Qed.

Lemma read_next r a c :
  w_counts w' !! r = Some a -> w_counts w' !! S r = Some c -> recounted r (w_rev w) a c acted_list.
Proof.
  destruct actor as (Hw & _). destruct (read_apart w w Hw Hw eq_refl Hp) as (_ & _ & _ & Hlen). rewrite Ec.
  intros Ha [Hc|[Hl Hc]]%lookup_app_Some.
  - rewrite lookup_app_l in Ha by (apply lookup_lt_Some in Hc; lia). by apply act_next.
  - apply list_lookup_singleton_Some in Hc as [Hr <-]. rewrite lookup_app_l in Ha by lia.
    destruct read_value as [[E _]|(b & Hb & Hr1 & Hrec)]; [by rewrite E in Ha|].
    rewrite last_lookup in Hb. rewrite Hlen in *. assert (r = round w - 1)%nat as -> by lia.
    rewrite Nat.sub_1_r in *. rewrite Ha in Hb. injection Hb as ->. apply (act_recounted w); [done|lia|done].
Qed.

(** It is what the others of the direction have read. *)
Lemma read_same x r a c :
  x ∈ l -> w_rev x = w_rev w -> w_counts x !! r = Some a -> w_counts w' !! r = Some c -> a = c.
Proof.
  destruct actor as (Hw & _). destruct (read_apart w w Hw Hw eq_refl Hp) as (Hs & _ & _ & Hlen).
  rewrite Ec. intros Hx Hrx Ha [Hc|[Hl Hc]]%lookup_app_Some; [by apply (cc_same _ _ Hcc x w r a c)|].
  apply list_lookup_singleton_Some in Hc as [Hr <-]. rewrite Hlen in *. pose proof (lookup_lt_Some _ _ _ Ha) as Hlt.
  destruct (read_apart w x Hw Hx (eq_sym Hrx) Hp) as (_ & _ & [Hp1|Hl1] & _); [|lia].
  pose proof (cc_last _ _ Hcc x Hx ltac:(by rewrite Hrx) ltac:(by rewrite Hp1)) as Hlast.
  destruct (member_ok _ _ _ _ Ht x Hx) as [_ _ _ _ Hcx _]. specialize (Hcx ltac:(by rewrite Hrx)). rewrite Hp1 in Hcx.
  pose proof (to_phase _ _ _ _ Ht w x Hw Hx) as Hph. rewrite last_lookup, Hcx in Hlast. simpl in Hlast.
  assert (round x = round w) as Er1.
  { unfold phase, round_barriers in Hph. rewrite Hp1 in Hph.
    destruct Hp as [E|E]; rewrite E in Hph; destruct (async cfg); lia. }
  rewrite Er1, Hrx in Hlast. assert (r = round w) as -> by lia. congruence.
Qed.

Lemma read_counts : w_place w' = Reset1 -> t' = t -> counts_ok t' acted_list.
Proof.
  intros Ep Et. rewrite Et. destruct actor as (Hw & Er & Hg), read_quiet as [Hch _].
  destruct (read_apart w w Hw Hw eq_refl Hp) as (Hs & _).
  assert (forall d, changers d acted_list = changers d l) as Hchs.
  { intros d. rewrite act_changers, Hch, andb_false_r. simpl. lia. }
  constructor.
  - intros d. rewrite Hchs. apply (cc_one _ _ Hcc).
  - intros x [->|Hx]%acted_member Hsx Hk; [|by apply (cc_last _ _ Hcc)]. by rewrite Er, Ec, last_snoc.
  - intros x [->|Hx]%acted_member Hz; [by rewrite Ep|]. rewrite Hchs in Hz. by apply (cc_start _ _ Hcc).
  - intros x [->|Hx]%acted_member; [by rewrite Ep|]. rewrite Hchs. pose proof (cc_again _ _ Hcc x Hx) as H.
    destruct (member_ok _ _ _ _ Ht x Hx) as [_ _ Hrx _ _ _].
    destruct (w_place x); try done; destruct H as (a & Ha & H1 & H2); exists a; (split_and!; [done|done|]);
      intros Hz; (apply (act_recounted x); [done|lia|auto]).
  - intros x a [->|Hx]%acted_member; [apply read_first|by apply (cc_first _ _ Hcc x)].
  - intros x r a c [->|Hx]%acted_member; [rewrite Er; apply read_next|by apply act_next].
  - intros x x' r a c [->|Hx]%acted_member [->|Hx']%acted_member; rewrite ?Er; intros Hrr Ha Hc.
    + congruence.
    + symmetry. by apply (read_same x' r).
    + by apply (read_same x r).
    + by apply (cc_same _ _ Hcc x x' r).
  - intros x [->|Hx]%acted_member Hsx; [congruence|by apply (cc_receiver _ _ Hcc)].
Qed.
End reading.

(** *** When the count changes *)

Section changing.
Context (Hp : w_place w = Starting /\ w_place w' = Start2 \/ w_place w = Recounting /\ w_place w' = Recount2).
Context (Hser : w_serial w = true) (Ec : w_counts w' = w_counts w) (Ed : w_decisions w' = w_decisions w).
Context (f : ubwt_talk_context -> Z).
Context (Et : forall d, count_of d t' = if eqb d (w_rev w) then f (talk_ctx (Zb (w_rev w)) t) else count_of d t).

Lemma changing_place : w_place w = Starting \/ w_place w = Recounting.
Proof. destruct Hp as [[E _]|[E _]]; auto. Qed.

Lemma changing_changers : changers (w_rev w) l = 1 /\ changers (w_rev w) acted_list = 0 /\
  forall d, d <> w_rev w -> changers d acted_list = changers d l.
Proof.
  destruct actor as (Hw & _). assert (changes_count w = true) as E.
  { unfold changes_count. rewrite Hser. by destruct changing_place as [->| ->]. }
  assert (0 < changers (w_rev w) l) as Hpos.
  { apply headcount_positive. exists w. by rewrite eqb_reflx, E. }
  pose proof (cc_one _ _ Hcc (w_rev w)). split_and!; [lia|rewrite act_changers, eqb_reflx, E; simpl; lia|].
  intros d Hd. rewrite act_changers. destruct (eqb (w_rev w) d) eqn:Eq; [|simpl; lia]. by apply eqb_prop in Eq.
Qed.

(** What the change must establish. *)
Context (Hstart : w_place w = Starting -> f (talk_ctx (Zb (w_rev w)) t) = talk_count_current cfg).
Context (Hagain : w_place w = Recounting -> recounted (round w - 1) (w_rev w) (count_of (w_rev w) t) (f (talk_ctx (Zb (w_rev w)) t)) l).

Lemma change_value : count_of (w_rev w) t' = f (talk_ctx (Zb (w_rev w)) t).
Proof. by rewrite Et, eqb_reflx. Qed.

Lemma change_again x :
  x ∈ l -> w_rev x = w_rev w -> w_place w = Recounting ->
  match w_place x with Recounting | Recount2 | Recounted => True | _ => False end ->
  exists a, list.last (w_counts x) = Some a /\ (0 < changers (w_rev w) acted_list -> count_of (w_rev w) t' = a) /\
    (changers (w_rev w) acted_list = 0 -> recounted (round x - 1) (w_rev w) a (count_of (w_rev w) t') acted_list).
Proof.
  destruct actor as (Hw & _), changing_changers as (H1 & H0 & _). intros Hx Erx Ew Hpx.
  pose proof (cc_again _ _ Hcc x Hx) as H. pose proof (to_phase _ _ _ _ Ht w x Hw Hx) as Hph.
  destruct (member_ok _ _ _ _ Ht w Hw) as [_ _ Hrw _ _ _]. rewrite Ew in Hrw.
  assert (round x = round w) as Ed'.
  { unfold phase, round_barriers in Hph. rewrite Ew in Hph. destruct (w_place x), (async cfg); try done; lia. }
  rewrite Erx in H. assert (exists a, list.last (w_counts x) = Some a /\ count_of (w_rev w) t = a) as (a & Ha & Ea).
  { destruct (w_place x); try done; destruct H as (a & Ha & Hb & _); exists a; (split; [done|]); apply Hb; lia. }
  exists a. split_and!; [done|lia|]. intros _. rewrite change_value, Ed', <- Ea.
  apply (act_recounted w); [done|lia|by apply Hagain].
Qed.

Lemma change_counts : counts_ok t' acted_list.
Proof.
  destruct actor as (Hw & Er & Hg), changing_changers as (H1 & H0 & Hother).
  assert (forall x, x ∈ l -> w_rev x <> w_rev w -> changers (w_rev x) acted_list = changers (w_rev x) l /\
    count_of (w_rev x) t' = count_of (w_rev x) t) as Hfar.
  { intros x Hx Hne. split; [by apply Hother|]. rewrite Et. destruct (eqb _ _) eqn:E; [|done]. by apply eqb_prop in E. }
  assert (forall x, x ∈ acted_list -> exists y, y ∈ l /\ w_rev x = w_rev y /\ w_counts x = w_counts y) as Hmem.
  { intros x [->|Hx]%acted_member; [by exists w|by exists x]. }
  pose proof change_value as Ef.
  constructor.
  - intros d. destruct (decide (d = w_rev w)) as [->|Hd]; [lia|]. rewrite Hother by done. apply (cc_one _ _ Hcc).
  - intros x [->|Hx]%acted_member Hs Hk; [by destruct Hp as [[_ E]|[_ E]]; rewrite E in Hk|].
    destruct (decide (w_rev x = w_rev w)) as [E|Hne].
    + destruct (change_apart w x Hw Hx (eq_sym E) changing_place) as (_ & Hk' & _). congruence.
    + destruct (Hfar x Hx Hne) as [_ ->]. by apply (cc_last _ _ Hcc).
  - intros x Hx Hz. destruct (acted_member x Hx) as [->|Hx'].
    + rewrite Er, Ef. destruct Hp as [[E E']|[E E']]; rewrite E'; [by apply Hstart|done].
    + destruct (decide (w_rev x = w_rev w)) as [E|Hne].
      * destruct (change_apart w x Hw Hx' (eq_sym E) changing_place) as (_ & _ & _ & Hno). rewrite E, Ef.
        destruct changing_place as [Ew|Ew]; [rewrite (Hstart Ew); by destruct (w_place x)|].
        specialize (Hno Ew). by destruct (w_place x).
      * destruct (Hfar x Hx' Hne) as [Ech ->]. rewrite Ech in Hz. by apply (cc_start _ _ Hcc).
  - intros x [->|Hx]%acted_member.
    + rewrite Er, Ec. destruct Hp as [[_ E']|[E E']]; rewrite E'; [done|].
      assert (round w' = round w) as -> by (unfold round; by rewrite Ed).
      destruct (change_again w Hw eq_refl E) as (a & Ha & H2); [by rewrite E|]. by exists a.
    + destruct (decide (w_rev x = w_rev w)) as [E|Hne].
      * rewrite E. destruct (change_apart w x Hw Hx (eq_sym E) changing_place) as (_ & _ & Hno & _).
        destruct changing_place as [Ew|Ew]; [specialize (Hno Ew); by destruct (w_place x)|].
        pose proof (change_again x Hx E Ew) as H. destruct (w_place x); try done; by apply H.
      * destruct (Hfar x Hx Hne) as [-> ->]. pose proof (cc_again _ _ Hcc x Hx) as H.
        destruct (member_ok _ _ _ _ Ht x Hx) as [_ _ Hrx _ _ _].
        destruct (w_place x); try done; destruct H as (a & Ha & Hb & Hc); exists a; (split_and!; [done|done|]);
          intros Hz; (apply (act_recounted x); [done|lia|auto]).
  - intros x a Hx. destruct (Hmem x Hx) as (y & Hy & _ & ->). by apply (cc_first _ _ Hcc).
  - intros x r a c Hx. destruct (Hmem x Hx) as (y & Hy & -> & ->). by apply act_next.
  - intros x x' r a c Hx Hx'. destruct (Hmem x Hx) as (y & Hy & -> & ->), (Hmem x' Hx') as (y' & Hy' & -> & ->).
    by apply (cc_same _ _ Hcc).
  - intros x Hx. destruct (Hmem x Hx) as (y & Hy & -> & ->). by apply (cc_receiver _ _ Hcc).
Qed.
End changing.

(** The new count of the serial sender. *)
Lemma recounting_votes x :
  w ∈ l -> w_place w = Recounting -> x ∈ l -> w_rev x = w_rev w ->
  length (w_outcomes x) = round w /\ voted x = weak_at (round w - 1) x /\ (1 <= round w)%nat.
Proof.
  intros Hw E Hx Hr. pose proof (to_phase _ _ _ _ Ht w x Hw Hx) as Hph. pose proof (to_sub _ _ _ _ Ht w x Hw Hx (eq_sym Hr)) as Hsub.
  destruct (member_ok _ _ _ _ Ht w Hw) as [Hs _ Hrw _ _ _], (member_ok _ _ _ _ Ht x Hx) as [_ Hq Hrx Hox _ _].
  rewrite E in *.
  assert (length (w_outcomes x) = round w /\ voted x = weak_last x) as [Hlen ->].
  { unfold phase, subphase, round_barriers, voted in *. rewrite E, Hr in *. rewrite Hox, Hs in *.
    destruct (async cfg), (w_place x); try done; try discriminate (Hq eq_refl); try lia; (split; [lia|done]). }
  split_and!; [done| |done]. unfold weak_last, weak_at. rewrite last_lookup, Hlen, Nat.sub_1_r. done.
Qed.

Lemma recount_value :
  w_place w = Recounting ->
  let d := w_rev w in
  recounted (round w - 1) d (count_of d t)
    (if needs_recount cfg d t then weak_count cfg (weak_time_of d t) (count_of d t) else count_of d t) l.
Proof.
  intros E d. destruct actor as (Hw & _).
  assert (live (w_place w) = true) as Hl by (by rewrite E).
  assert (votes d l = votes_at (round w - 1) d l) as Hvotes.
  { apply headcount_ext. intros x Hx. destruct (eqb (w_rev x) d) eqn:Er; [|done]. apply eqb_prop in Er.
    by destruct (recounting_votes x Hw E Hx Er) as (_ & -> & _). }
  unfold recounted, needs_recount. destruct (co_votes _ _ Hco w Hw Hl) as [Hv _]. specialize (Hv w Hw). fold d in Hv.
  rewrite Hv, <- Hvotes. destruct (Z.eqb_spec (votes d l) (worker_count cfg / (1 + asynchronous cfg))) as [Hn|_]; [|done].
  assert (0 < votes d l) as Hpos.
  { rewrite Hn. destruct (fits_bit _ _ Hfits) as [Ha|Ha]; rewrite Ha.
    - rewrite Z.div_1_r. pose proof (fits_count _ _ Hfits ltac:(unfold async; by rewrite Ha)). pose proof (fits_some _ _ Hfits). lia.
    - apply (half_positive dirs Hfits). unfold async. by rewrite Ha. }
  destruct (co_time _ _ Hco w Hw Hl w Hw Hpos) as (y & Hy & Er & _ & Hlast).
  destruct (recounting_votes y Hw E Hy Er) as (Hlen & _ & Hr). exists y, (weak_time_of d t). split_and!; [done|done| |done].
  rewrite last_lookup, Hlen in Hlast. by rewrite Nat.sub_1_r.
Qed.

Lemma count_of_start d :
  count_of d (count_start cfg (w_rev w) t) = if eqb d (w_rev w) then talk_count_current cfg else count_of d t.
Proof. clear. by destruct t as [? [] []], (w_rev w), d. Qed.

Lemma count_of_again d :
  count_of d (count_again cfg (w_rev w) t) =
    if eqb d (w_rev w) then weak_count cfg (weak_time_of (w_rev w) t) (count_of (w_rev w) t) else count_of d t.
Proof. clear. by destruct t as [? [] []], (w_rev w), d. Qed.

Lemma act_counts : counts_ok t' acted_list.
Proof.
  pose proof Hact as H. unfold act in H.
  assert (forall p, w_place w = p -> (w_serial w = false \/ match p with Starting | Recounting => False | _ => True end) ->
    changes_count w = false) as Hquiet.
  { intros p E [Hs|Hs]; unfold changes_count; [by rewrite Hs|]. rewrite E. by destruct p; rewrite ?andb_false_r. }
  destruct (w_place w) eqn:E; try discriminate H.
  - destruct (w_serial w) eqn:Es; injection H as Ew Et.
    + apply (change_counts) with (f := fun _ => talk_count_current cfg); rewrite <- ?Ew, <- ?Et, ?E; try done; [by left|].
      intros d. apply count_of_start.
    + apply keep_counts; rewrite <- ?Ew, <- ?Et, ?E; try done. apply (Hquiet _ eq_refl). by left.
  - destruct (0 <? count_of (w_rev w) t); [|discriminate H]. injection H as Ew Et.
    apply read_counts; rewrite <- ?Ew, ?E; by auto || by destruct w.
  - injection H as Ew Et. apply keep_counts; rewrite <- ?Ew, <- ?Et, ?E; try done; [|by apply (Hquiet _ eq_refl); right].
    intros d. by destruct (reset_contexts (w_rev w) d t) as (_ & _ & ->).
  - injection H as Ew Et. apply keep_counts; rewrite <- ?Ew, <- ?Et, ?E; try done. by apply (Hquiet _ eq_refl); right.
  - injection H as Ew Et. apply keep_counts; rewrite <- ?Ew, <- ?Et, ?E; try done; [|by apply (Hquiet _ eq_refl); right].
    intros d. destruct (w_outcome w) as [time|]; [|done]. by destruct (mark_contexts (w_rev w) time d t) as (_ & _ & _ & ->).
  - destruct (0 <? talk_weak t); injection H as Ew Et; apply keep_counts; rewrite <- ?Ew, <- ?Et, ?E; try done;
      by apply (Hquiet _ eq_refl); right.
  - destruct (needs_restart cfg (w_rev w) t); [destruct (sends listens (w_rev w))|]; injection H as Ew Et;
      apply keep_counts; rewrite <- ?Ew, <- ?Et, ?E; try done; by apply (Hquiet _ eq_refl); right.
  - destruct (w_serial w) eqn:Es; injection H as Ew Et.
    + apply (change_counts) with (f := fun c => if needs_recount cfg (w_rev w) t
        then weak_count cfg (weak_time c) (talk_ctx_count c) else talk_ctx_count c);
        rewrite <- ?Ew, <- ?Et, ?E; try done; [by right| |intros _; by apply recount_value].
      intros d. simpl. destruct (needs_recount cfg (w_rev w) t); [apply count_of_again|].
      destruct (eqb d (w_rev w)) eqn:Eq; [|done]. by apply eqb_prop in Eq as ->.
    + apply keep_counts; rewrite <- ?Ew, <- ?Et, ?E; try done. apply (Hquiet _ eq_refl). by left.
  - destruct (negb (count_of (w_rev w) t <=? talk_count_max cfg)); [discriminate H|].
    destruct (negb (talk_count_default cfg <=? count_of (w_rev w) t)); [discriminate H|]. injection H as Ew Et.
    apply read_counts; rewrite <- ?Ew, ?E; by auto || by destruct w.
Qed.
End count_step.

Section count_open.
Context (dirs : list bool) (l : list crew_worker) (t : talk_shared).
Context (Hfits : fits cfg dirs) (Ht : together cfg listens dirs l) (Hag : agreed l) (Hcc : counts_ok t l).
Context (j : Z) (k : nat) (w : crew_worker) (size : Z).
Context (Hk : l !! k = Some w) (Hj : at_barrier cfg j w = true).
Context (Hsize : nth (Z.to_nat j) (worker_init cfg) None = Some size) (Hwait : waiting cfg j l = size).

Local Abbreviation opened := (imap (open_worker cfg listens j k) l).

Lemma opener_in : w ∈ l.
Proof. by eapply list_elem_of_lookup_2. Qed.

(** What opening keeps of a worker. *)
Lemma open_keeps n x :
  let y := open_worker cfg listens j k n x in
  w_rev y = w_rev x /\ w_counts y = w_counts x /\ round y = round x /\
  (at_barrier cfg j x = false -> y = x).
Proof. unfold open_worker, round. by destruct (at_barrier cfg j x). Qed.

(** Whether the barrier is one after which the count is changed. *)
Definition opens_change : bool := match w_place w with Start1 | Recount1 => true | _ => false end.

Lemma opens_direction x :
  opens_change = true -> x ∈ l -> at_barrier cfg j x = eqb (w_rev x) (w_rev w).
Proof.
  intros Hch Hx. rewrite (open_group cfg listens dirs l Hfits Ht j w size opener_in Hj Hsize Hwait x Hx).
  destruct (meets_inv cfg listens j w (proj1 (at_barrier_meets cfg j w) Hj)) as [Ej _]. rewrite Ej. unfold in_group, opens_change in *.
  destruct (w_place w); try discriminate Hch; simpl; destruct (async cfg), (w_rev w), (w_rev x); done.
Qed.

Lemma open_changes n x :
  l !! n = Some x ->
  changes_count (open_worker cfg listens j k n x) =
    if at_barrier cfg j x then opens_change && bool_decide (n = k) else changes_count x.
Proof.
  intros Hx. apply list_elem_of_lookup_2 in Hx. unfold open_worker. destruct (at_barrier cfg j x) eqn:E; [|done].
  destruct (opener_place cfg listens dirs l Ht j w opener_in Hj x Hx E) as [Hp _].
  destruct (meets_inv cfg listens j x (proj1 (at_barrier_meets cfg j x) E)) as [_ Hne].
  unfold changes_count, opens_change. rewrite <- Hp in *.
  destruct x as [rev p ? ? ? ? ?]. simpl in *. destruct p; try done; simpl; rewrite ?andb_true_r, ?andb_false_r; try done;
    repeat case_match; simpl; by rewrite ?andb_false_r.
Qed.

Lemma waits_quiet x : at_barrier cfg j x = true -> changes_count x = false.
Proof.
  intros H%at_barrier_meets. unfold meets, changes_count in *. destruct (w_place x); rewrite ?andb_false_r; done.
Qed.

Lemma open_changers d :
  changers d opened = if opens_change && eqb d (w_rev w) then 1 else changers d l.
Proof.
  unfold changers. destruct (opens_change && eqb d (w_rev w)) eqn:E.
  - apply andb_true_iff in E as [Hch Hd]. apply eqb_prop in Hd as ->.
    apply headcount_one with (k := k); [by eapply lookup_lt_Some|]. intros n x Hx. rewrite open_worker_rev, (open_changes n x Hx).
    rewrite (opens_direction x Hch) by (by eapply list_elem_of_lookup_2). rewrite Hch.
    destruct (eqb (w_rev x) (w_rev w)) eqn:Er; simpl; [done|]. symmetry. apply bool_decide_eq_false. intros ->.
    rewrite Hk in Hx. injection Hx as <-. by rewrite eqb_reflx in Er.
  - apply headcount_imap. intros n x Hx. rewrite open_worker_rev, (open_changes n x Hx).
    destruct (eqb (w_rev x) d) eqn:Er; [|done]. apply eqb_prop in Er as <-. simpl.
    destruct (at_barrier cfg j x) eqn:Eb; [|done]. rewrite (waits_quiet x Eb).
    destruct opens_change eqn:Hch; [|done]. rewrite (opens_direction x Hch) in Eb by (by eapply list_elem_of_lookup_2).
    simpl in E. congruence.
Qed.

(** The changers of the direction of a worker that does not pass. *)
Lemma open_changers_other x :
  x ∈ l -> at_barrier cfg j x = false -> changers (w_rev x) opened = changers (w_rev x) l.
Proof.
  intros Hx Hb. rewrite open_changers. destruct opens_change eqn:Hch; [|done]. rewrite (opens_direction x Hch Hx) in Hb.
  by rewrite Hb.
Qed.

Lemma open_changers_passing x :
  x ∈ l -> at_barrier cfg j x = true ->
  changers (w_rev x) opened = if opens_change then 1 else changers (w_rev x) l.
Proof.
  intros Hx Hb. rewrite open_changers. destruct opens_change eqn:Hch; [|done]. rewrite (opens_direction x Hch Hx) in Hb.
  by rewrite Hb.
Qed.

Lemma open_recounted x r a c :
  x ∈ l -> (r < round x)%nat -> recounted r (w_rev x) a c l -> recounted r (w_rev x) a c opened.
Proof. intros Hx Hr. apply grows_recounted; [apply grows_open|]. by apply (round_known l Hag x r). Qed.

(** Those that pass. *)
Lemma open_passes n x :
  x ∈ l -> at_barrier cfg j x = true -> let y := open_worker cfg listens j k n x in
  w_place y = after_barrier cfg listens (w_rev x) (w_place w) /\ w_place x = w_place w.
Proof.
  intros Hx Hb. destruct (opener_place cfg listens dirs l Ht j w opener_in Hj x Hx Hb) as [Hp _].
  unfold open_worker. rewrite Hb. destruct x; simpl in *. by rewrite Hp.
Qed.

Lemma open_counts : counts_ok t opened.
Proof.
  assert (forall y, y ∈ opened -> exists n x, x ∈ l /\ y = open_worker cfg listens j k n x /\ w_rev y = w_rev x /\
    w_counts y = w_counts x /\ round y = round x) as Hmem.
  { intros y Hy. apply open_member in Hy as (n & x & Hx & ->). apply list_elem_of_lookup_2 in Hx.
    destruct (open_keeps n x) as (? & ? & ? & _). by exists n, x. }
  assert (opens_change = true -> changers (w_rev w) opened = 1) as Hone.
  { intros Hch. by rewrite open_changers, Hch, eqb_reflx. }
  constructor.
  - intros d. rewrite open_changers. destruct (_ && _); [lia|apply (cc_one _ _ Hcc)].
  - intros y Hy Hs Hkn. destruct (Hmem y Hy) as (n & x & Hx & Ey & Er & Ec & _). rewrite Er, Ec in *.
    apply (cc_last _ _ Hcc); [done|done|]. destruct (at_barrier cfg j x) eqn:Eb.
    + destruct (open_passes n x Hx Eb) as [Ep Ep']. rewrite Ey, Ep in Hkn. rewrite Ep'. clear - Hkn Hs.
      destruct (w_place w); try done; simpl in *; by rewrite Hs in Hkn.
    + destruct (open_keeps n x) as (_ & _ & _ & E). by rewrite <- E, <- Ey.
  - intros y Hy Hz. destruct (Hmem y Hy) as (n & x & Hx & Ey & Er & _ & _). rewrite Er in *.
    destruct (at_barrier cfg j x) eqn:Eb.
    + destruct (open_passes n x Hx Eb) as [Ep Ep']. rewrite Ey, Ep. pose proof (cc_start _ _ Hcc x Hx) as Hst.
      rewrite (open_changers_passing x Hx Eb) in Hz. unfold opens_change in Hz. rewrite Ep' in Hst. clear - Hz Hst.
      destruct (w_place w); simpl; try done; try (by apply Hst); by repeat case_match.
    + rewrite (open_changers_other x Hx Eb) in Hz. destruct (open_keeps n x) as (_ & _ & _ & E). rewrite Ey, E by done.
      by apply (cc_start _ _ Hcc).
  - intros y Hy. destruct (Hmem y Hy) as (n & x & Hx & Ey & Er & Ec & Ed). rewrite Er, Ec, Ed.
    pose proof (cc_again _ _ Hcc x Hx) as Hag'. destruct (member_ok _ _ _ _ Ht x Hx) as [Hs _ Hr _ _ _].
    destruct (at_barrier cfg j x) eqn:Eb.
    + destruct (open_passes n x Hx Eb) as [Ep Ep']. rewrite Ey, Ep, (open_changers_passing x Hx Eb). unfold opens_change.
      pose proof (cc_last _ _ Hcc x Hx) as Hlast. pose proof (proj1 (at_barrier_meets cfg j x) Eb) as Hm.
      unfold meets in Hm. rewrite Ep' in *.
      destruct (w_place w); simpl; try done; try (by repeat case_match).
      * exists (count_of (w_rev x) t). split_and!; [by apply Hlast|done|lia].
      * destruct Hag' as (a & Ha & H1 & H2). exists a. split_and!; [done|done|]. intros Hz.
        apply (open_recounted x); [done|lia|auto].
    + rewrite (open_changers_other x Hx Eb). destruct (open_keeps n x) as (_ & _ & _ & E). rewrite Ey, E by done.
      destruct (w_place x); try done; destruct Hag' as (a & Ha & H1 & H2); exists a; (split_and!; [done|done|]);
        intros Hz; (apply (open_recounted x); [done|lia|auto]).
  - intros y a Hy. destruct (Hmem y Hy) as (n & x & Hx & _ & _ & -> & _). by apply (cc_first _ _ Hcc).
  - intros y r a c Hy Ha Hc. destruct (Hmem y Hy) as (n & x & Hx & _ & Er & Ec & _). rewrite Er, Ec in *.
    apply open_recounted; [done| |by apply (cc_next _ _ Hcc x)].
    destruct (sends listens (w_rev x)) eqn:Hs; [|rewrite (cc_receiver _ _ Hcc x Hx Hs) in Ha; done].
    pose proof (lookup_lt_Some _ _ _ Hc). destruct (member_ok _ _ _ _ Ht x Hx) as [_ _ _ _ Hcl _]. specialize (Hcl Hs).
    destruct (w_place x); lia.
  - intros y y' r a c Hy Hy'. destruct (Hmem y Hy) as (n & x & Hx & _ & -> & -> & _), (Hmem y' Hy') as (n' & x' & Hx' & _ & -> & -> & _).
    by apply (cc_same _ _ Hcc).
  - intros y Hy. destruct (Hmem y Hy) as (n & x & Hx & _ & -> & -> & _). by apply (cc_receiver _ _ Hcc).
Qed.
End count_open.
End agree.
