(* ===== verification/CrewRun.v ===== *)
(** The workers of an end through a whole talk: what is true of every state they reach
    (CrewSpec.v, CrewAgree.v), for the configurations that [config_init] accepts. *)

From S2P Require Import Prelude Bitops Errors Byteorder ConfigData Usage Double Report Stage Thread Config ConfigSpec Conn Net NetSpec Talk Process Crew CrewSpec CrewAgree.

(** ** The mode and the barriers *)

Lemma headcount_replicate {A : Type} (f : A -> bool) n x : headcount f (replicate n x) = if f x then Z.of_nat n else 0.
Proof. induction n as [|n IH]; cbn [replicate headcount]; [by destruct (f x)|]. rewrite IH. destruct (f x); simpl; lia. Qed.

(** The workers of a configuration: how many, and how many per direction. *)
Lemma crew_fits b cfg rev :
  config_wf b cfg -> defined (UBWT_CONFIG_MULTI_THREADED b) = true -> 0 < participants cfg rev ->
  fits cfg (crew_directions cfg rev).
Proof.
  intros Hwf Hmt Hpart. pose proof (wf_workers _ _ Hwf) as Hw. rewrite Hmt in Hw.
  destruct (wf_bits _ _ Hwf) as (Hbi & Has & Hrev). destruct Hw as (Hn & Hsum & _ & Ha & Hs & Hr).
  pose proof (wf_async _ _ Hwf) as Hasync.
  assert (0 <= worker_straight_first_count cfg /\ 0 <= worker_reverse_first_count cfg) as [Hs0 Hr0].
  { destruct Has as [Has|Has]; [destruct Hrev as [Hrv|Hrv]|]; [specialize (Hs Has Hrv)|specialize (Hr Has Hrv)|
      specialize (Ha Has)]; lia. }
  assert (Z.of_nat (length (crew_directions cfg rev)) = worker_count cfg) as Hlen.
  { unfold crew_directions, runtime_tasks. destruct (async cfg);
      rewrite ?length_map, ?length_replicate, length_app, !length_replicate; lia. }
  rewrite participants_split in Hpart by done. unfold both_directions in Hpart.
  assert (asynchronous cfg = 0 -> forall d, d ∈ crew_directions cfg rev -> d = rev) as Hone.
  { intros E d. unfold crew_directions, async. rewrite E. simpl. by intros [-> _]%elem_of_replicate. }
  assert (forall d, headcount (eqb d) (crew_directions cfg rev) = if truth (asynchronous cfg)
    then if d then worker_reverse_first_count cfg else worker_straight_first_count cfg
    else if eqb d rev then worker_count cfg else 0) as Htally.
  { intros d. unfold crew_directions, async, runtime_tasks. destruct (truth (asynchronous cfg)).
    - rewrite headcount_map, headcount_app, !headcount_replicate. destruct d; simpl; lia.
    - rewrite headcount_replicate, length_app, !length_replicate. destruct (eqb d rev); lia. }
  constructor; try (rewrite Hlen); try lia; try done.
  - intros d Hd. rewrite Htally. unfold worker_init. destruct Has as [E|E].
    + rewrite (Hone E d Hd), eqb_reflx, E. rewrite E in Hpart. simpl.
      destruct Hrev as [Hrv|Hrv]; [specialize (Hs E Hrv)|specialize (Hr E Hrv)];
        destruct Hbi as [Hb|Hb]; rewrite Hb in *; destruct rev; simpl in *; unfold truth in *;
        repeat match goal with |- context [?a =? 0] => destruct (Z.eqb_spec a 0) end; simpl in *; try lia; f_equal; lia.
    + destruct (Hasync E) as (Hb & _). specialize (Ha E). rewrite E, Hb. unfold truth.
      destruct d; simpl; repeat match goal with |- context [?a =? 0] => destruct (Z.eqb_spec a 0) end; simpl; try lia; f_equal; lia.
  - intros E. unfold worker_init, async in *. by rewrite E.
  - intros E d. rewrite Htally. unfold async in E. rewrite E.
    assert (asynchronous cfg = 1) as E1 by (destruct Has as [E0|E0]; [by rewrite E0 in E|done]). specialize (Ha E1).
    replace (worker_count cfg) with (worker_straight_first_count cfg * 2) by lia. rewrite Z.div_mul by lia. destruct d; lia.
  - intros E d d' Hd Hd'. assert (asynchronous cfg = 0) as E0 by (destruct Has as [E0|E0]; [done|unfold async in E; by rewrite E0 in E]).
    by rewrite (Hone E0 d Hd), (Hone E0 d' Hd').
Qed.

(** ** Every state that is reached *)

Section run.
Context (cfg : ubwt_config) (listens : bool) (dirs : list bool) (Hfits : fits cfg dirs).

Record crew_inv (c : crew) : Prop := {
  inv_together : together cfg listens dirs (workers c);
  inv_counted : counted (contexts c) (workers c);
  inv_agreed : agreed cfg (workers c);
  inv_counts : counts_ok cfg listens (contexts c) (workers c)
}.

Lemma begin_inv t : crew_inv {| contexts := t; workers := map worker_begin dirs; failed := None |}.
Proof.
  assert (forall w, w ∈ map worker_begin dirs -> exists d, w = worker_begin d) as Hall.
  { intros w Hw. apply list_elem_of_fmap in Hw as (d & -> & _). by exists d. }
  assert (forall d, changers d (map worker_begin dirs) = 0) as Hch.
  { intros d. apply headcount_zero. intros w Hw. destruct (Hall w Hw) as [? ->]. apply andb_false_r. }
  constructor; simpl.
  - constructor.
    + rewrite map_map. apply map_id.
    + apply list.Forall_forall. intros w Hw. destruct (Hall w Hw) as [d ->]. by constructor.
    + intros w w' Hw Hw'. destruct (Hall w Hw) as [d ->], (Hall w' Hw') as [d' ->]. done.
    + intros w w' Hw Hw' _. destruct (Hall w Hw) as [d ->], (Hall w' Hw') as [d' ->]. done.
  - constructor; intros w Hw H; by destruct (Hall w Hw) as [d ->].
  - intros w r v Hw Hv. by destruct (Hall w Hw) as [d ->].
  - constructor; try (intros w; intros; match goal with H : w ∈ _ |- _ => destruct (Hall w H) as [? ->] end; done).
    intros d. rewrite Hch. lia.
Qed.

Lemma crew_step_inv e c c' : crew_inv c -> crew_step cfg listens e c = Some c' -> crew_inv c'.
Proof.
  intros [Ht Hco Hag Hcc] H. destruct e as [i o|j k]; simpl in H.
  - unfold crew_act in H. apply bind_Some in H as (w & Hi & H). destruct (failed c); [done|].
    destruct (act cfg listens o w (contexts c)) as [w' t'|expr|] eqn:Hact; [|by injection H as <-|done].
    injection H as <-. constructor; simpl.
    + by eapply act_together.
    + by eapply act_counted.
    + by eapply act_agreed.
    + by eapply act_counts.
  - unfold crew_open in H. destruct (failed c); [done|]. destruct (nth (Z.to_nat j) (worker_init cfg) None) as [size|] eqn:Hsize; [|done].
    destruct (workers c !! k) as [w|] eqn:Hk; [|done]. destruct (at_barrier cfg j w && _) eqn:E; [|done].
    apply andb_true_iff in E as [Hj Hwait%Z.eqb_eq]. pose proof (list_elem_of_lookup_2 _ _ _ Hk) as Hw.
    injection H as <-. constructor; simpl.
    + by eapply open_together.
    + by eapply open_counted.
    + by eapply open_agreed.
    + by eapply open_counts.
Qed.

Lemma run_inv l c c' : crew_inv c -> crew_run cfg listens l c = Some c' -> crew_inv c'.
Proof.
  revert c. induction l as [|e l IH]; intros c Hc H; simpl in H; [by injection H as <-|].
  apply bind_Some in H as (c1 & H1 & H). apply (IH c1); [by eapply crew_step_inv|done].
Qed.
End run.

(** The states of the crew of a configuration. *)
Definition reached (cfg : ubwt_config) (listens rev : bool) (c : crew) : Prop :=
  exists t l, crew_run cfg listens l (crew_begin cfg rev t) = Some c.

Lemma reached_inv b cfg listens rev c :
  config_wf b cfg -> defined (UBWT_CONFIG_MULTI_THREADED b) = true -> 0 < participants cfg rev ->
  reached cfg listens rev c ->
  fits cfg (crew_directions cfg rev) /\ crew_inv cfg listens (crew_directions cfg rev) c.
Proof.
  intros Hwf Hmt Hpart (t & l & H). pose proof (crew_fits b cfg rev Hwf Hmt Hpart) as Hf. split; [done|].
  eapply run_inv; [done|apply begin_inv|exact H].
Qed.

(** ** Agreement *)

(** C4: the workers of an end agree on every round.  For every configuration that
    [config_init] accepts with threads, with any number of workers, in both modes and
    at either end: in every state that any interleaving of the workers reaches, a
    decision on a round - repeat the streams, or stop - was taken when every worker had
    marked the outcome of its stream of that round; it is "repeat" exactly if all the
    streams of the direction were weak, in asynchronous mode those of either
    direction; and so no two workers decide differently on a round. *)
Theorem crew_agrees b cfg listens rev c :
  config_wf b cfg -> defined (UBWT_CONFIG_MULTI_THREADED b) = true -> 0 < participants cfg rev ->
  reached cfg listens rev c ->
  (forall w r v, w ∈ workers c -> w_decisions w !! r = Some v ->
    (forall x, x ∈ workers c -> exists o, w_outcomes x !! r = Some o) /\
    v = decided cfg r (w_rev w) (workers c)) /\
  (forall w w' r v v', w ∈ workers c -> w' ∈ workers c ->
    w_decisions w !! r = Some v -> w_decisions w' !! r = Some v' -> v = v').
Proof.
  intros Hwf Hmt Hpart Hreach. destruct (reached_inv b cfg listens rev c Hwf Hmt Hpart Hreach) as (Hf & [Ht _ Hag _]).
  split.
  - intros w r v Hw Hv. destruct (Hag w r v Hw Hv) as [Hall Hd]. split; [|done]. intros x Hx.
    destruct (lookup_lt_is_Some_2 _ _ (Hall x Hx)) as [o Ho]. by exists o.
  - intros w w' r v v' Hw Hw' Hv Hv'. destruct (Hag w r v Hw Hv) as [_ ->], (Hag w' r v' Hw' Hv') as [_ ->].
    unfold decided. destruct (async cfg) eqn:Ha; [done|].
    rewrite (fits_one _ _ Hf Ha (w_rev w) (w_rev w')); [done| |]; by apply (member_dir _ _ _ _ Ht).
Qed.

(** Equal outcomes, equal decisions. *)
Lemma votes_at_ext r d l l' :
  map w_rev l = map w_rev l' ->
  (forall i w w', l !! i = Some w -> l' !! i = Some w' -> weak_at r w = weak_at r w') -> votes_at r d l = votes_at r d l'.
Proof.
  revert l'. induction l as [|w l IH]; intros [|w' l'] Hr H; try discriminate Hr; [done|]. injection Hr as E Hr.
  unfold votes_at in *. cbn [headcount]. rewrite E, (H 0%nat w w' eq_refl eq_refl). f_equal. apply (IH l' Hr).
  intros i x x' Hx Hx'. by apply (H (S i) x x').
Qed.

(** C5: the two ends agree on every round.  Let a connector and a listener have the
    same numbers of workers and the same mode, and let the outcome a worker marks for a
    round be the one its partner at the other end marks (the receiver sends it with
    [STREAM_END]).  Then, whatever the interleavings at the two ends, no worker of one
    end repeats a round after which a worker of the other end stops. *)
Theorem ends_agree b b' cfg cfg' rev c c' :
  config_wf b cfg -> defined (UBWT_CONFIG_MULTI_THREADED b) = true -> 0 < participants cfg rev ->
  config_wf b' cfg' -> defined (UBWT_CONFIG_MULTI_THREADED b') = true -> 0 < participants cfg' rev ->
  asynchronous cfg' = asynchronous cfg -> worker_count cfg' = worker_count cfg ->
  crew_directions cfg' rev = crew_directions cfg rev ->
  reached cfg false rev c -> reached cfg' true rev c' ->
  (forall i w w' r o o', workers c !! i = Some w -> workers c' !! i = Some w' ->
    w_outcomes w !! r = Some o -> w_outcomes w' !! r = Some o' -> o = o') ->
  forall w w' r v v', w ∈ workers c -> w' ∈ workers c' ->
    w_decisions w !! r = Some v -> w_decisions w' !! r = Some v' -> v = v'.
Proof.
  intros Hwf Hmt Hpart Hwf' Hmt' Hpart' Ea Ec Ed Hr Hr' Hpair w w' r v v' Hw Hw' Hv Hv'.
  destruct (reached_inv b cfg _ rev c Hwf Hmt Hpart Hr) as (Hf & [Ht _ Hag _]).
  destruct (reached_inv b' cfg' _ rev c' Hwf' Hmt' Hpart' Hr') as (Hf' & [Ht' _ Hag' _]).
  destruct (Hag w r v Hw Hv) as [Hall ->], (Hag' w' r v' Hw' Hv') as [Hall' ->].
  assert (forall d, votes_at r d (workers c) = votes_at r d (workers c')) as Hvotes.
  { intros d. apply votes_at_ext.
    - rewrite (to_dirs _ _ _ _ Ht), (to_dirs _ _ _ _ Ht'). by symmetry.
    - intros i x x' Hx Hx'. unfold weak_at.
      destruct (lookup_lt_is_Some_2 _ _ (Hall x (list_elem_of_lookup_2 _ _ _ Hx))) as [o Ho].
      destruct (lookup_lt_is_Some_2 _ _ (Hall' x' (list_elem_of_lookup_2 _ _ _ Hx'))) as [o' Ho'].
      by rewrite Ho, Ho', (Hpair i x x' r o o' Hx Hx' Ho Ho'). }
  unfold decided, async. rewrite !Hvotes, Ea, Ec. destruct (truth (asynchronous cfg)) eqn:E; [done|].
  rewrite (fits_one _ _ Hf E (w_rev w) (w_rev w')); [done| |].
  - by apply (member_dir _ _ _ _ Ht).
  - rewrite <- Ed. by apply (member_dir _ _ _ _ Ht').
Qed.

(** C11: the workers of a direction send the same number of packets in every round: the
    first count is the configured one, and the count after a repeated round is
    computed once, from the duration of one of its weak streams, if all the streams
    of the direction were weak; in asynchronous mode, when only those of the other
    direction were, it stays. *)
Theorem crew_counts b cfg listens rev c :
  config_wf b cfg -> defined (UBWT_CONFIG_MULTI_THREADED b) = true -> 0 < participants cfg rev ->
  reached cfg listens rev c ->
  (forall w w' r x y, w ∈ workers c -> w' ∈ workers c -> w_rev w = w_rev w' ->
    w_counts w !! r = Some x -> w_counts w' !! r = Some y -> x = y) /\
  (forall w x, w ∈ workers c -> w_counts w !! 0%nat = Some x -> x = 100) /\
  (forall w r x y, w ∈ workers c -> w_counts w !! r = Some x -> w_counts w !! S r = Some y ->
    recounted cfg r (w_rev w) x y (workers c)).
Proof.
  intros Hwf Hmt Hpart Hreach. destruct (reached_inv b cfg listens rev c Hwf Hmt Hpart Hreach) as (_ & [_ _ _ Hcc]).
  split_and!; [apply (cc_same _ _ _ _ Hcc)| |apply (cc_next _ _ _ _ Hcc)].
  intros w x Hw Hx. rewrite (cc_first _ _ _ _ Hcc w x Hw Hx). apply (wf_counts _ _ Hwf).
Qed.

(** ** Races *)

(** The reads of the weak counters and durations without the mutex, their writes, and
    the reads of the count. *)
Definition reads_weak (p : place) : bool := match p with Result | Restart | Recounting => true | _ => false end.
Definition writes_weak (p : place) : bool := match p with Resetting | Marking => true | _ => false end.
Definition reads_count (p : place) : bool := match p with Started | Recounted | Reset1 => true | _ => false end.

Lemma headcount_two {A : Type} (f : A -> bool) l i j x y :
  i <> j -> l !! i = Some x -> l !! j = Some y -> f x = true -> f y = true -> 2 <= headcount f l.
Proof.
  intros Hne Hi Hj Hx Hy. assert (2 <= headcount f (<[i := x]> l)) as H; [|by rewrite list_insert_id in H].
  revert i j Hne Hi Hj. induction l as [|z l IH]; intros [|i] [|j] Hne Hi Hj; try done; simpl in *.
  - injection Hi as ->. rewrite Hx. assert (0 < headcount f l); [|simpl; lia]. apply headcount_positive. exists y.
    split; [by eapply list_elem_of_lookup_2|done].
  - injection Hj as ->. rewrite Hy, list_insert_id by done. assert (0 < headcount f l); [|simpl; lia]. apply headcount_positive.
    exists x. split; [by eapply list_elem_of_lookup_2|done].
  - specialize (IH i j ltac:(lia) Hi Hj). pose proof (Zb_range (f z)). lia.
Qed.

(** Who reads keeps those who write from acting: the weak counters and durations, and
    the count. *)
Lemma readers_apart cfg listens dirs c i j w w' :
  crew_inv cfg listens dirs c -> i <> j -> workers c !! i = Some w -> workers c !! j = Some w' ->
  (reads_weak (w_place w) = true -> writes_weak (w_place w') = false) /\
  (changes_count w = true -> w_rev w = w_rev w' ->
    changes_count w' = false /\ reads_count (w_place w') = false).
Proof.
  intros [Ht _ _ Hcc] Hne Hi Hj.
  pose proof (list_elem_of_lookup_2 _ _ _ Hi) as Hw. pose proof (list_elem_of_lookup_2 _ _ _ Hj) as Hw'.
  pose proof (to_phase _ _ _ _ Ht w w' Hw Hw') as Hph. pose proof (to_sub _ _ _ _ Ht w w' Hw Hw') as Hsub.
  destruct (member_ok _ _ _ _ Ht w Hw) as [Hs _ Hr _ _ _], (member_ok _ _ _ _ Ht w' Hw') as [_ _ Hr' _ _ _].
  split.
  - intros Hread. unfold phase, round_barriers in Hph. destruct (async cfg), (w_place w); try discriminate Hread;
      destruct (w_place w'); try done; lia.
  - intros Hch Hrev. specialize (Hsub Hrev). split.
    + destruct (changes_count w') eqn:Hch'; [|done]. pose proof (cc_one _ _ _ _ Hcc (w_rev w)) as Hone. unfold changers in Hone.
      pose proof (headcount_two (fun x => eqb (w_rev x) (w_rev w) && changes_count x) (workers c) i j w w' Hne Hi Hj) as H.
      cbv beta in H. rewrite Hch, Hch', <- Hrev, eqb_reflx in H. specialize (H eq_refl eq_refl). lia.
    + unfold changes_count in Hch. apply andb_true_iff in Hch as [_ Hp]. unfold subphase in Hsub. rewrite <- Hrev in Hsub.
      destruct (w_place w); try discriminate Hp; rewrite Hs in Hsub; destruct (w_place w'); done.
Qed.

(** The kinds of accesses. *)
Lemma access_kind cfg listens w a :
  a ∈ accesses cfg listens w ->
  match on a with
  | V_count rev => rev = w_rev w /\ if stores a then changes_count w = true else changes_count w = true \/ reads_count (w_place w) = true
  | _ => if locked a then writes_weak (w_place w) = true else stores a = false /\ reads_weak (w_place w) = true
  end.
Proof.
  unfold accesses, changes_count. destruct (w_place w); try (by intros ?%elem_of_nil);
    repeat step_if; rewrite ?elem_of_cons; intuition (subst; simpl; rewrite ?andb_true_r; auto);
    set_solver.
Qed.

(** C12: the shared contexts are free of races from the first barrier of a talk on.  In
    every state that the workers reach, if two of them are about to access the same
    variable of the contexts, one of them to write it, then both hold
    [worker_mutex_global] for it: the resets and the marks of weak streams exclude each
    other by the mutex, and every access made without it - the reads of the weak
    counters and of a weak duration, the reads and writes of the counts - is kept from
    the writes by the barriers.  The [memset] of [__talk] by every worker's [talk_init],
    before that barrier and without the mutex, is not one of these accesses. *)
Theorem contexts_race_free b cfg listens rev c i j w w' :
  config_wf b cfg -> defined (UBWT_CONFIG_MULTI_THREADED b) = true -> 0 < participants cfg rev ->
  reached cfg listens rev c ->
  i <> j -> workers c !! i = Some w -> workers c !! j = Some w' ->
  forall a a', a ∈ accesses cfg listens w -> a' ∈ accesses cfg listens w' -> conflict a a' ->
  locked a = true /\ locked a' = true.
Proof.
  intros Hwf Hmt Hpart Hreach Hne Hi Hj a a' Ha Ha' [Hon Hst].
  destruct (reached_inv b cfg listens rev c Hwf Hmt Hpart Hreach) as (_ & Hinv).
  destruct (readers_apart _ _ _ _ i j w w' Hinv Hne Hi Hj) as [H1 H2].
  destruct (readers_apart _ _ _ _ j i w' w Hinv (not_eq_sym Hne) Hj Hi) as [H3 H4].
  apply access_kind in Ha, Ha'. rewrite <- Hon in Ha'.
  destruct (on a); [..|destruct Ha as [-> Ha], Ha' as [Er Ha']];
    destruct (locked a), (locked a'), (stores a), (stores a'); try discriminate Hst; try done;
    repeat match goal with
    | H : _ /\ _ |- _ => destruct H
    | H : _ \/ _ |- _ => destruct H
    | H : ?P -> _, H' : ?P |- _ => specialize (H H')
    | H : w_rev w' = w_rev w -> _ |- _ => specialize (H (eq_sym Er))
    end; congruence.
Qed.

(** ** Progress *)

(** Two workers of a direction that wait: at the same place. *)
Lemma waiting_together cfg listens w w' j j' :
  worker_ok cfg listens w -> worker_ok cfg listens w' -> phase cfg w = phase cfg w' ->
  w_rev w = w_rev w' -> subphase cfg listens w = subphase cfg listens w' ->
  meets cfg w = Some j -> meets cfg w' = Some j' -> meets cfg w' = meets cfg w.
Proof.
  intros [Hs Hq Hr _ _ _] [Hs' Hq' Hr' _ _ _] Hph Hrev Hsub H H'. unfold meets in *. rewrite <- Hrev in *.
  unfold phase, subphase, round_barriers in *. rewrite <- Hrev in *.
  destruct (sends listens (w_rev w)), (async cfg), (w_place w), (w_place w'); try done;
    try discriminate (Hq eq_refl); try discriminate (Hq' eq_refl); lia.
Qed.

Section progress.
Context (cfg : ubwt_config) (listens : bool) (dirs : list bool) (Hfits : fits cfg dirs).
Context (c : crew) (Hinv : crew_inv cfg listens dirs c) (Halive : failed c = None).

(** A worker that neither waits nor has finished acts. *)
Lemma act_enabled i w :
  workers c !! i = Some w -> meets cfg w = None -> w_place w <> Finish ->
  exists c', crew_step cfg listens (Act i None) c = Some c'.
Proof.
  intros Hi Hm Hp. simpl. unfold crew_act. rewrite Hi. simpl. rewrite Halive.
  destruct (act cfg listens None w (contexts c)) as [w' t'|expr|] eqn:E; [by eexists|by eexists|]. exfalso.
  unfold act, meets in *. destruct (w_place w); try done; repeat step_if_in E; discriminate E.
Qed.

(** A barrier all of whose workers wait opens. *)
Lemma open_enabled j k w :
  workers c !! k = Some w -> meets cfg w = Some j ->
  (forall x, x ∈ workers c -> in_group cfg j x = true -> meets cfg x = Some j) ->
  exists c', crew_step cfg listens (Open j k) c = Some c'.
Proof.
  intros Hk Hm Hall. destruct Hinv as [Ht _ _ _]. pose proof (list_elem_of_lookup_2 _ _ _ Hk) as Hw.
  pose proof (proj2 (at_barrier_meets cfg j w) Hm) as Hj.
  assert (waiting cfg j (workers c) = headcount (in_group cfg j) (workers c)) as Hwait.
  { apply headcount_ext. intros x Hx. destruct (in_group cfg j x) eqn:E.
    - apply at_barrier_meets. by apply Hall.
    - destruct (at_barrier cfg j x) eqn:E'; [|done]. by rewrite (at_in_group cfg listens j x E') in E. }
  simpl. unfold crew_open. rewrite Halive, (group_size cfg listens dirs (workers c) Hfits Ht j w Hw Hj), Hk, Hj, Hwait, Z.eqb_refl.
  by eexists.
Qed.

(** Nobody has finished while another waits. *)
Lemma finished_alone w x j :
  w ∈ workers c -> meets cfg w = Some j -> x ∈ workers c -> w_place x <> Finish.
Proof.
  intros Hw Hm Hx Hp. destruct Hinv as [Ht _ Hag _].
  pose proof (to_phase _ _ _ _ Ht w x Hw Hx) as Hph.
  destruct (member_ok _ _ _ _ Ht w Hw) as [_ Hq Hr _ _ Hd], (member_ok _ _ _ _ Ht x Hx) as [_ _ Hr' _ _ Hd'].
  rewrite Hp in *.
  assert (round w = round x /\ w_decisions w = replicate (round w) true) as [Er Ew].
  { unfold phase, round_barriers, meets in *. rewrite Hp in Hph.
    destruct (async cfg), (w_place w); try done; try discriminate (Hq eq_refl); split; (lia || done). }
  assert (w_decisions x !! (round x - 1)%nat = Some false) as Hx1.
  { rewrite Hd'. rewrite lookup_app_r by (rewrite length_replicate; lia). by rewrite length_replicate, Nat.sub_diag. }
  assert (w_decisions w !! (round x - 1)%nat = Some true) as Hw1.
  { rewrite Ew. apply lookup_replicate_2. lia. }
  destruct (Hag w _ _ Hw Hw1) as [_ E], (Hag x _ _ Hx Hx1) as [_ E'].
  unfold decided in *. destruct (async cfg) eqn:Ha; [congruence|].
  rewrite (fits_one _ _ Hfits Ha (w_rev w) (w_rev x)) in E by (by apply (member_dir _ _ _ _ Ht)). congruence.
Qed.

Lemma crew_moves w : w ∈ workers c -> w_place w <> Finish -> exists e c', crew_step cfg listens e c = Some c'.
Proof.
  intros Hw Hp. destruct Hinv as [Ht _ _ _].
  destruct (decide (Exists (fun x => meets cfg x = None /\ w_place x <> Finish) (workers c))) as [Hex|Hno].
  { apply list.Exists_exists in Hex as (x & Hx & Hm & Hpx). apply list_elem_of_lookup in Hx as (i & Hi).
    destruct (act_enabled i x Hi Hm Hpx) as [c' H]. by exists (Act i None), c'. }
  assert (forall x, x ∈ workers c -> w_place x <> Finish -> exists j, meets cfg x = Some j) as Hwaits.
  { intros x Hx Hpx. destruct (meets cfg x) as [j|] eqn:E; [by exists j|]. exfalso. apply Hno, list.Exists_exists. by exists x. }
  destruct (Hwaits w Hw Hp) as [j Hj].
  assert (forall x, x ∈ workers c -> exists j, meets cfg x = Some j) as Hall.
  { intros x Hx. apply Hwaits; [done|]. by apply (finished_alone w x j). }
  assert (forall x y, x ∈ workers c -> y ∈ workers c -> w_rev x = w_rev y -> meets cfg y = meets cfg x) as Hsame.
  { intros x y Hx Hy Hr. destruct (Hall x Hx) as [jx Hjx], (Hall y Hy) as [jy Hjy].
    apply (waiting_together cfg listens x y jx jy); try done; try (by apply (member_ok _ _ _ _ Ht));
      [by apply (to_phase _ _ _ _ Ht)|by apply (to_sub _ _ _ _ Ht)]. }
  assert (forall x jx, x ∈ workers c -> meets cfg x = Some jx -> for_all (w_place x) = false \/ async cfg = false ->
    exists e c', crew_step cfg listens e c = Some c') as Hopen.
  { intros x jx Hx Hjx Hcase. apply list_elem_of_lookup in Hx as Hk. destruct Hk as (k & Hk).
    destruct (open_enabled jx k x Hk Hjx) as [c' H]; [|by exists (Open jx k), c'].
    intros y Hy Hg. rewrite <- Hjx. apply Hsame; [done|done|]. destruct (meets_inv cfg listens jx x Hjx) as [Ej _].
    unfold in_group in Hg. destruct (async cfg) eqn:Ha.
    - destruct Hcase as [Hf|]; [|done]. rewrite Hf in Ej. subst jx. by destruct (w_rev x), (w_rev y).
    - apply (fits_one _ _ Hfits Ha); by apply (member_dir _ _ _ _ Ht). }
  destruct (async cfg) eqn:Ha; [|by apply (Hopen w j Hw Hj); right].
  destruct (decide (Exists (fun x => for_all (w_place x) = false) (workers c))) as [Hex|Hnone].
  { apply list.Exists_exists in Hex as (x & Hx & Hf). destruct (Hall x Hx) as [jx Hjx]. apply (Hopen x jx Hx Hjx). by left. }
  assert (forall x, x ∈ workers c -> meets cfg x = Some 2) as Htwo.
  { intros x Hx. destruct (Hall x Hx) as [jx Hjx]. destruct (meets_inv cfg listens jx x Hjx) as [Ej _]. rewrite Ha in Ej.
    destruct (for_all (w_place x)) eqn:Hf; [by rewrite Hjx, Ej|]. exfalso. apply Hnone, list.Exists_exists. by exists x. }
  apply list_elem_of_lookup in Hw as Hk. destruct Hk as (k & Hk).
  destruct (open_enabled 2 k w Hk (Htwo w Hw)) as [c' H]; [by auto|]. by exists (Open 2 k), c'.
Qed.
End progress.

(** C10: the workers of an end never block one another.  In every state that is reached,
    unless an assertion has ended the process, there is a step as long as a worker has
    not left the loop of rounds: one acts, or all those that a barrier was set up for
    wait at it. *)
Theorem crew_progress b cfg listens rev c w :
  config_wf b cfg -> defined (UBWT_CONFIG_MULTI_THREADED b) = true -> 0 < participants cfg rev ->
  reached cfg listens rev c -> failed c = None -> w ∈ workers c -> w_place w <> Finish ->
  exists e c', crew_step cfg listens e c = Some c' /\ reached cfg listens rev c'.
Proof.
  intros Hwf Hmt Hpart Hreach Halive Hw Hp.
  destruct (reached_inv b cfg listens rev c Hwf Hmt Hpart Hreach) as (Hf & Hinv).
  destruct (crew_moves cfg listens _ Hf c Hinv Halive w Hw Hp) as (e & c' & H). exists e, c'. split; [done|].
  destruct Hreach as (t & l & Hl). exists t, (l ++ [e]). revert Hl. generalize (crew_begin cfg rev t). clear - H.
  induction l as [|e' l IH]; intros c0 Hl; simpl in *; [injection Hl as ->; by rewrite H|].
  apply bind_Some in Hl as (c1 & -> & Hl). by apply IH.
Qed.

(** ** A talk in asynchronous mode

    One worker per direction: the straight stream is weak once, then none is. *)

Definition crew_config (mode : string) : ubwt_config := default config_zero (example_config mode [O_A; O_W "2"]).

Lemma crew_config_wf mode : mode = "connector"%string \/ mode = "listener"%string ->
  config_wf build_linux (crew_config mode) /\ 0 < participants (crew_config mode) false.
Proof.
  intros Hm. unfold crew_config. destruct (example_config mode [O_A; O_W "2"]) as [c|] eqn:H.
  - split; [by eapply example_config_wf|]. destruct Hm as [-> | ->]; vm_compute in H; injection H as <-; by vm_compute.
  - by destruct Hm as [-> | ->]; vm_compute in H.
Qed.

(** The sender is the first worker at the connector and the second one at the listener. *)
Definition crew_events (sender : nat) : list crew_event :=
  let meet := [Open (Z.of_nat sender) sender; Act sender None] in
  let stream o := [Open 2 0; Act 0 None; Act 1 None; Open 2 1; Open 0 0; Open 1 1; Open 2 0; Act 1 None; Act 0 o;
     Open 2 0; Act 0 None; Act 1 None; Open 2 0; Act 0 None; Act 1 None] in
  [Open 2 0] ++ meet ++ meet ++ stream (Some 500000) ++ [Act 1 None; Act 0 None] ++ meet ++ meet ++ stream None.

Definition crew_end (mode : string) (listens : bool) : crew :=
  let cfg := crew_config mode in let c := crew_begin cfg false talk_shared_zero in
  default c (crew_run cfg listens (crew_events (if listens then 1 else 0)%nat) c).

Lemma connector_reached : reached (crew_config "connector") false false (crew_end "connector" false).
Proof. exists talk_shared_zero, (crew_events 0). vm_compute. reflexivity. Qed.

Lemma listener_reached : reached (crew_config "listener") true false (crew_end "listener" true).
Proof. exists talk_shared_zero, (crew_events 1). vm_compute. reflexivity. Qed.

Example crew_history :
  map (fun w => (w_counts w, w_outcomes w, w_decisions w)) (workers (crew_end "connector" false)) =
    [([100; 810], [Some 500000; None], [true; false]); ([], [None; None], [true; false])].
Proof. vm_compute. reflexivity. Qed.

(** The receiver of the reverse direction repeats the round because of the other. *)
Lemma crew_agrees_witness :
  exists w, workers (crew_end "connector" false) !! 1%nat = Some w /\ w_outcomes w !! 0%nat = Some None /\
    decided (crew_config "connector") 0 (w_rev w) (workers (crew_end "connector" false)) = true.
Proof.
  destruct (workers (crew_end "connector" false) !! 1%nat) as [w|] eqn:E; [|vm_compute in E; discriminate E].
  exists w. split; [reflexivity|]. destruct (crew_config_wf "connector" (or_introl eq_refl)) as [Hwf Hp].
  destruct (crew_agrees build_linux (crew_config "connector") false false _ Hwf eq_refl Hp connector_reached) as [H _].
  destruct (H w 0%nat true) as [_ <-].
  - by eapply list_elem_of_lookup_2.
  - vm_compute in E. injection E as <-. reflexivity.
  - vm_compute in E. injection E as <-. split; reflexivity.
Defined.

Lemma ends_agree_witness :
  exists w w' v v', workers (crew_end "connector" false) !! 0%nat = Some w /\ workers (crew_end "listener" true) !! 1%nat = Some w' /\
    w_decisions w !! 1%nat = Some v /\ w_decisions w' !! 1%nat = Some v' /\ v = v'.
Proof.
  destruct (workers (crew_end "connector" false) !! 0%nat) as [w|] eqn:E; [|vm_compute in E; discriminate E].
  destruct (workers (crew_end "listener" true) !! 1%nat) as [w'|] eqn:E'; [|vm_compute in E'; discriminate E'].
  destruct (w_decisions w !! 1%nat) as [v|] eqn:D; [|vm_compute in E; injection E as <-; vm_compute in D; discriminate D].
  destruct (w_decisions w' !! 1%nat) as [v'|] eqn:D'; [|vm_compute in E'; injection E' as <-; vm_compute in D'; discriminate D'].
  exists w, w', v, v'. split_and!; [reflexivity|reflexivity|exact D|exact D'|].
  destruct (crew_config_wf "connector" (or_introl eq_refl)) as [Hwf Hp], (crew_config_wf "listener" (or_intror eq_refl)) as [Hwf' Hp'].
  apply (ends_agree build_linux build_linux _ _ false _ _ Hwf eq_refl Hp Hwf' eq_refl Hp' eq_refl eq_refl eq_refl
    connector_reached listener_reached) with (w := w) (w' := w') (r := 1%nat); [|by eapply list_elem_of_lookup_2..|done|done].
  intros [|[|i]] x x' [|[|r]] o o' Hx Hx' Ho Ho'; vm_compute in Hx, Hx'; try discriminate Hx;
    injection Hx as <-; injection Hx' as <-; vm_compute in Ho, Ho'; congruence.
Defined.

(** 100 packets in half a second of the three wanted: 810 in the next round. *)
Lemma crew_counts_witness :
  exists w, workers (crew_end "connector" false) !! 0%nat = Some w /\ w_counts w = [100; 810] /\
    recounted (crew_config "connector") 0 (w_rev w) 100 810 (workers (crew_end "connector" false)).
Proof.
  destruct (workers (crew_end "connector" false) !! 0%nat) as [w|] eqn:E; [|vm_compute in E; discriminate E].
  exists w. split; [reflexivity|].
  assert (w_counts w = [100; 810]) as Ec by (vm_compute in E; injection E as <-; reflexivity). split; [exact Ec|].
  destruct (crew_config_wf "connector" (or_introl eq_refl)) as [Hwf Hp].
  destruct (crew_counts build_linux (crew_config "connector") false false _ Hwf eq_refl Hp connector_reached) as (_ & _ & H).
  apply H; [by eapply list_elem_of_lookup_2|by rewrite Ec|by rewrite Ec].
Defined.

(** The state in which the sender is about to compute the new count. *)
Definition crew_recounting : crew :=
  let cfg := crew_config "connector" in let c := crew_begin cfg false talk_shared_zero in
  default c (crew_run cfg false (take 23 (crew_events 0)) c).

Lemma recounting_reached : reached (crew_config "connector") false false crew_recounting.
Proof. exists talk_shared_zero, (take 23 (crew_events 0)). vm_compute. reflexivity. Qed.

(** The state in which both workers are about to reset the contexts. *)
Definition crew_resetting : crew :=
  let cfg := crew_config "connector" in let c := crew_begin cfg false talk_shared_zero in
  default c (crew_run cfg false (take 6 (crew_events 0)) c).

Lemma resetting_reached : reached (crew_config "connector") false false crew_resetting.
Proof. exists talk_shared_zero, (take 6 (crew_events 0)). vm_compute. reflexivity. Qed.

Lemma contexts_race_free_witness :
  exists w w' a, workers crew_resetting !! 0%nat = Some w /\ workers crew_resetting !! 1%nat = Some w' /\
    map w_place [w; w'] = [Resetting; Resetting] /\ on a = V_weak /\ conflict a a /\ locked a = true.
Proof.
  destruct (workers crew_resetting !! 0%nat) as [w|] eqn:E; [|vm_compute in E; discriminate E].
  destruct (workers crew_resetting !! 1%nat) as [w'|] eqn:E'; [|vm_compute in E'; discriminate E'].
  exists w, w', (stores_locked V_weak). assert (map w_place [w; w'] = [Resetting; Resetting]) as Hp by
    (vm_compute in E, E'; injection E as <-; injection E' as <-; reflexivity).
  split_and!; [reflexivity|reflexivity|exact Hp|reflexivity|by split|].
  destruct (crew_config_wf "connector" (or_introl eq_refl)) as [Hwf Hpart]. injection Hp as Hp Hp'.
  destruct (contexts_race_free build_linux _ false false crew_resetting 0 1 w w' Hwf eq_refl Hpart resetting_reached
    (Nat.neq_0_succ 0) E E' (stores_locked V_weak) (stores_locked V_weak)) as [H _];
    [unfold accesses; rewrite Hp, !elem_of_cons; auto|unfold accesses; rewrite Hp', !elem_of_cons; auto|by split|].
  exact H.
Defined.

Lemma crew_progress_witness :
  exists e c', crew_step (crew_config "connector") false e crew_recounting = Some c' /\ w_place <$> workers crew_recounting = [Recounting; Reset1].
Proof.
  destruct (workers crew_recounting !! 0%nat) as [w|] eqn:E; [|vm_compute in E; discriminate E].
  destruct (crew_config_wf "connector" (or_introl eq_refl)) as [Hwf Hpart].
  destruct (crew_progress build_linux _ false false crew_recounting w Hwf eq_refl Hpart recounting_reached) as (e & c' & H & _).
  - vm_compute. reflexivity.
  - by eapply list_elem_of_lookup_2.
  - vm_compute in E. injection E as <-. discriminate.
  - exists e, c'. split; [exact H|]. vm_compute. reflexivity.
Defined.
