(* ===== verification/CrewAccess.v ===== *)
(** Crew.v and Talk.v: the code that one worker runs in Talk.v takes, on the shared
    contexts, the steps of a worker of Crew.v, and only those; and what [accesses] says of
    a step covers all that the step depends on and changes. *)

From S2P Require Import Prelude Bitops Errors Byteorder ConfigData Usage Double Report Stage Thread Config ConfigSpec Conn Net NetSpec Talk TalkSpec TalkRounds TalkComplete TalkCrew Process Crew Quiet.

(** ** The accesses cover the actions *)

Definition value (v : variable) (t : talk_shared) : Z :=
  match v with
  | V_weak => talk_weak t
  | V_im_weak rev => im_weak_of rev t
  | V_weak_time rev => weak_time (talk_ctx (Zb rev) t)
  | V_count rev => count_of rev t
  end.

(** Two contexts that agree on what the worker reads. *)
Definition same_reads (cfg : ubwt_config) (listens : bool) (w : crew_worker) (t t' : talk_shared) : Prop :=
  forall a, a ∈ accesses cfg listens w -> stores a = false -> value (on a) t = value (on a) t'.

(** The two conditions on accesses, access by access. *)
Ltac access_by_access H :=
  rewrite <- list.Forall_forall in H; repeat (apply list.Forall_cons in H as [? H]); clear H;
  cbn [stores on loads_plain stores_plain loads_locked stores_locked] in *.

(** C36: the accesses listed for a worker's action are all that it makes, so that the
    conflicts of [contexts_race_free] are all there are.  Wherever the worker is, whatever
    the outcome of its stream and whatever the contexts hold: its action changes no
    variable of them that [accesses] does not list as stored; and from two contexts that
    agree on the variables it lists as read, the action is possible in both, fails the
    same assertion in both, or leads to the same next state of the worker and stores the
    same values. *)
Theorem accesses_sound cfg listens o w t :
  (forall w' t' v, act cfg listens o w t = Moves w' t' ->
    (forall a, a ∈ accesses cfg listens w -> stores a = true -> on a <> v) -> value v t' = value v t) /\
  (forall t2, same_reads cfg listens w t t2 ->
    match act cfg listens o w t, act cfg listens o w t2 with
    | Moves w1 t1', Moves w2 t2' =>
        w1 = w2 /\ forall a, a ∈ accesses cfg listens w -> stores a = true -> value (on a) t1' = value (on a) t2'
    | Asserts e1, Asserts e2 => e1 = e2
    | Idle, Idle => True
    | _, _ => False
    end).
Proof.
  destruct w as [rev p ser out cs os ds]. split.
  - intros w' t' v H Hv. unfold act, accesses in *. cbn [w_rev w_place w_serial w_outcome] in *.
    destruct p; try discriminate H; repeat step_if_in H; try discriminate H; injection H as <- <-; try reflexivity.
    all: try (apply andb_true_iff in Heqb as [-> Hn]). all: access_by_access Hv.
    all: destruct rev, v as [|[]|[]|[]]; try reflexivity; naive_solver.
  - intros t2 H. unfold same_reads, act, accesses, needs_restart, needs_recount, async in *. cbn [w_rev w_place w_serial w_outcome] in *.
    destruct (truth (asynchronous cfg)), ser, out, p; try done; access_by_access H; cbn [value] in *;
      repeat match goal with E : false = false -> ?x = ?y |- _ => specialize (E eq_refl); try rewrite E in * end;
      repeat step_if; try done; (split; [done|]).
    all: rewrite <- list.Forall_forall; repeat constructor; try discriminate; intros _; destruct rev, t as [? [] []], t2 as [? [] []].
    all: cbn -[weak_count wrap] in *; congruence.
Qed.

(** ** A worker by itself

    What it has to do with the others: its own state, the contexts as it sees them, what
    the others will do at the barriers it meets, and the barriers and mutexes it used. *)
Record alone_worker := { l_worker : crew_worker; l_contexts : talk_shared; l_sync : list sync; l_meetings : list call }.

(** The use of the mutex at an action from [t] to [t']. *)
Definition mutex_used (cfg : ubwt_config) (listens : bool) (w : crew_worker) (t t' : talk_shared) : list call :=
  if existsb locked (accesses cfg listens w) then [C_mutex true t; C_mutex false t'] else [].

(** When a barrier opens, the others have acted and one is the serial one. *)
Definition opened (l : list sync) (t : talk_shared) : bool * talk_shared * list sync :=
  match l with [] => (true, t, []) | y :: l => (serial y, others y t, l) end.

(** A step: an action as in [crew_act], or a barrier as in [crew_open]. *)
Inductive alone_step (cfg : ubwt_config) (listens : bool) : alone_worker -> alone_worker -> Prop :=
| A_act o w t l tr w' t' :
    act cfg listens o w t = Moves w' t' ->
    alone_step cfg listens
      {| l_worker := w; l_contexts := t; l_sync := l; l_meetings := tr |}
      {| l_worker := w'; l_contexts := t'; l_sync := l; l_meetings := tr ++ mutex_used cfg listens w t t' |}
| A_barrier j w t l tr is_serial t' l' :
    meets cfg w = Some j -> opened l t = (is_serial, t', l') ->
    alone_step cfg listens
      {| l_worker := w; l_contexts := t; l_sync := l; l_meetings := tr |}
      {| l_worker := w {{ w_place ::= after_barrier cfg listens (w_rev w); w_serial := is_serial }};
         l_contexts := t'; l_sync := l'; l_meetings := tr ++ [C_barrier j] |}.

(** What a thread of Talk.v has of it. *)
Definition seen (w : crew_worker) (s : thread) : alone_worker :=
  {| l_worker := w; l_contexts := talk (cur s); l_sync := k_sync s; l_meetings := meetings s |}.

(** A thread that talks in a direction. *)
Definition talks (cfg : ubwt_config) (rev : bool) (s : thread) : Prop :=
  config (cur s) = cfg /\ reverse (process (cur s)) = Zb rev.

Section access.
Context (big : bool) (b : build) (cfg : ubwt_config) (listens rev : bool).
Context (Hmt : mt b = true).

Abbreviation talks := (talks cfg rev).
Abbreviation steps := (rtc (alone_step cfg listens)).

(** A worker between its accesses: at a barrier, in its stream, or done. *)
Definition between (w : crew_worker) : Prop :=
  is_Some (meets cfg w) \/ w_place w = Outcome \/ w_place w = Finish.

(** The computation takes the worker from [w] to one with [Q]; one that ends the process or
    waits does so where the worker is between its accesses, or where its assertion
    fails. *)
Definition reaches {A : Type} (x : alone_worker) (r : out A) (Q : A -> crew_worker -> Prop) : Prop :=
  match r with
  | Done a s' => talks s' /\ exists w', steps x (seen w' s') /\ Q a w'
  | Halted e s' => exists w', steps x (seen w' s') /\
      (between w' \/ exists expr, e = Assertion expr /\ act cfg listens None w' (talk (cur s')) = Asserts expr)
  | Blocked s' => exists w', steps x (seen w' s') /\ between w'
  end.

Definition walks {A : Type} (w : crew_worker) (m : M A) (Q : A -> crew_worker -> Prop) : Prop :=
  forall s, talks s -> reaches (seen w s) (m s) Q.

Lemma reaches_after {A : Type} x y (r : out A) Q : steps x y -> reaches y r Q -> reaches x r Q.
Proof.
  intros Hxy. destruct r as [a s'|e s'|s']; [intros [Ht (w' & H & HQ)]; split; [done|]|intros (w' & H & HQ)..];
    exists w'; (split; [by etransitivity|done]).
Qed.

Lemma undisturbed_seen w s s' : undisturbed s s' -> seen w s' = seen w s /\ (talks s -> talks s').
Proof.
  intros []. unfold seen. split; [congruence|]. intros [H1 H2]. split; congruence.
Qed.

Lemma walks_quiet {A : Type} w (m : M A) : quiet m -> between w -> walks w m (fun _ w' => w' = w).
Proof.
  intros Hq Hb s Ht. specialize (Hq s). destruct (undisturbed_seen w _ _ Hq) as [<- Hs]. specialize (Hs Ht).
  destruct (m s) as [a s'|e s'|s']; [split; [done|]|..]; exists w; (split; [done|]); auto.
Qed.

Lemma walks_bind {A B : Type} w (m : M A) (f : A -> M B) Q R :
  walks w m Q -> (forall a w', Q a w' -> walks w' (f a) R) -> walks w (m ≫= f) R.
Proof.
  intros Hm Hf s Ht. specialize (Hm s Ht). unfold mbind, M_bind. destruct (m s) as [a s1|e s1|s1]; [|done..].
  destruct Hm as (Ht1 & w1 & Hst & HQ). eapply reaches_after; [exact Hst|]. by apply (Hf a).
Qed.

Lemma walks_weaken {A : Type} w (m : M A) (Q R : A -> crew_worker -> Prop) :
  walks w m Q -> (forall a w', Q a w' -> R a w') -> walks w m R.
Proof.
  intros H HQ s Ht. specialize (H s Ht). destruct (m s); [|done..].
  destruct H as (Ht' & w' & Hs & H). split; [done|]. exists w'. auto.
Qed.

Lemma walks_then {A B : Type} w (m : M A) (f : A -> M B) R :
  quiet m -> between w -> (forall a, walks w (f a) R) -> walks w (m ≫= f) R.
Proof. intros Hq Hb Hf. eapply walks_bind; [by apply walks_quiet|]. intros a w' ->. apply Hf. Qed.

Lemma walks_ret {A : Type} w (a : A) (Q : A -> crew_worker -> Prop) : Q a w -> walks w (mret a) Q.
Proof. intros H s Ht. split; [done|]. exists w. by split. Qed.

(** A read of the thread's own record. *)
Lemma walks_read {A B : Type} w (g : thread -> A) (f : A -> M B) R a :
  (forall s, talks s -> g s = a) -> walks w (f a) R -> walks w (get g ≫= f) R.
Proof. intros Hg Hf s Ht. rewrite get_bind, (Hg s Ht). by apply Hf. Qed.

Lemma read_config s : talks s -> config (cur s) = cfg.
Proof. by intros []. Qed.

Lemma read_reverse s : talks s -> reverse (process (cur s)) = Zb rev.
Proof. by intros []. Qed.

(** An action that is an assignment to the contexts. *)
Lemma walks_update w f o w' :
  (forall t, act cfg listens o w t = Moves w' (f t)) -> existsb locked (accesses cfg listens w) = false ->
  walks w (update_talk f) (fun _ x => x = w').
Proof.
  intros Ha Hl s Ht. split; [by destruct s as [[]], Ht|]. exists w'. split; [|done]. apply rtc_once.
  pose proof (A_act cfg listens o w (talk (cur s)) (k_sync s) (meetings s) w' _ (Ha _)) as H.
  unfold mutex_used in H. rewrite Hl, app_nil_r in H. by destruct s as [[]].
Qed.

Lemma walks_locked w f o w' :
  (forall t, act cfg listens o w t = Moves w' (f t)) -> existsb locked (accesses cfg listens w) = true ->
  walks w (update_locked b f) (fun _ x => x = w').
Proof.
  intros Ha Hl s Ht. unfold update_locked, when. rewrite Hmt. unfold sys_mutex, update_talk, update_cur. rewrite !modify_bind.
  unfold modify. split; [by destruct s as [[]], Ht|]. exists w'. split; [|done]. apply rtc_once.
  pose proof (A_act cfg listens o w (talk (cur s)) (k_sync s) (meetings s) w' _ (Ha _)) as H.
  unfold mutex_used in H. rewrite Hl in H.
  replace (seen w' _) with {| l_worker := w'; l_contexts := f (talk (cur s)); l_sync := k_sync s;
    l_meetings := meetings s ++ [C_mutex true (talk (cur s)); C_mutex false (f (talk (cur s)))] |}; [done|].
  unfold seen, meetings. destruct s as [[]]; cbn -[filter]. by rewrite !list.filter_app, <- app_assoc.
Qed.

(** An action that leaves the contexts alone. *)
Lemma acts_alone w o w' s :
  act cfg listens o w (talk (cur s)) = Moves w' (talk (cur s)) -> existsb locked (accesses cfg listens w) = false ->
  steps (seen w s) (seen w' s).
Proof.
  intros Ha Hl. apply rtc_once. pose proof (A_act cfg listens o w (talk (cur s)) (k_sync s) (meetings s) w' _ Ha) as Hs.
  unfold mutex_used in Hs. by rewrite Hl, app_nil_r in Hs.
Qed.

Lemma walks_act {A : Type} w (m : M A) o w' Q :
  (forall t, act cfg listens o w t = Moves w' t) -> existsb locked (accesses cfg listens w) = false ->
  walks w' m Q -> walks w m Q.
Proof. intros Ha Hl H s Ht. eapply reaches_after; [by apply (acts_alone w o w' s)|]. by apply H. Qed.

Lemma walks_ext {A : Type} w (m m' : M A) Q : (forall s, talks s -> m s = m' s) -> walks w m' Q -> walks w m Q.
Proof. intros E H s Ht. rewrite E by done. by apply H. Qed.

(** ** The barriers *)

Definition at_place (p : place) (w : crew_worker) : Prop := w_place w = p /\ w_rev w = rev.

(** The barrier of all the workers, as [meets] has it. *)
Definition all_barrier : Z := if async cfg then 2 else Zb rev.

Lemma walks_barrier w j :
  meets cfg w = Some j ->
  walks w (sys_barrier j)
    (fun r w' => w' = w {{ w_place ::= after_barrier cfg listens (w_rev w); w_serial := r }}).
Proof.
  intros Hm s Ht. unfold sys_barrier. rewrite modify_bind, get_bind.
  set (s1 := s {{ k_trace ::= _ }}). change (k_sync s1) with (k_sync s).
  assert (meetings s1 = meetings s ++ [C_barrier j]) as Em
    by (unfold meetings; change (k_trace s1) with (k_trace s ++ [C_barrier j]); by rewrite list.filter_app).
  assert (talks s1) as Ht1 by exact Ht.
  destruct (opened (k_sync s) (talk (cur s))) as [[r t'] l'] eqn:E.
  pose proof (A_barrier cfg listens j w (talk (cur s)) (k_sync s) (meetings s) r t' l' Hm E) as Hs.
  unfold opened in E. destruct (k_sync s) as [|y l] eqn:Ey; injection E as <- <- <-.
  - split; [done|]. eexists. split; [|reflexivity]. apply rtc_once. unfold seen at 1. rewrite Ey.
    replace (seen _ s1) with {| l_worker := w {{ w_place ::= after_barrier cfg listens (w_rev w); w_serial := true }};
      l_contexts := talk (cur s); l_sync := []; l_meetings := meetings s ++ [C_barrier j] |}; [done|].
    unfold seen. by rewrite Em, <- Ey.
  - rewrite modify_bind. split; [by destruct s as [[]], Ht|]. eexists. split; [|reflexivity]. apply rtc_once.
    unfold seen at 1. rewrite Ey, <- Em in *. by destruct s as [[]].
Qed.

Lemma walks_direction w :
  meets cfg w = Some (Zb rev) ->
  walks w wait_direction (fun r w' => w' = w {{ w_place ::= after_barrier cfg listens (w_rev w); w_serial := r }}).
Proof.
  intros Hm. unfold wait_direction, process_get_reverse. apply (walks_read _ _ _ _ (Zb rev)); [apply read_reverse|].
  replace (if truth (Zb rev) then 1 else 0) with (Zb rev) by by destruct rev. by apply walks_barrier.
Qed.

Lemma walks_wait_all w :
  meets cfg w = Some all_barrier ->
  walks w (wait_all b) (fun _ w' => exists r, w' = w {{ w_place ::= after_barrier cfg listens (w_rev w); w_serial := r }}).
Proof.
  intros Hm. unfold wait_all. rewrite Hmt. apply (walks_read _ _ _ _ cfg); [apply read_config|].
  eapply walks_bind.
  - unfold all_barrier, async in Hm. destruct (truth (asynchronous cfg)); [by apply walks_barrier|by apply walks_direction].
  - intros r w' ->. apply walks_ret. by exists r.
Qed.

(** The same, with the places. *)
Lemma direction_at p w :
  at_place p w -> match p with Start1 | Start2 | Stream | Recount1 | Recount2 => True | _ => False end ->
  walks w wait_direction (fun r w' => at_place (after_barrier cfg listens rev p) w' /\ w_serial w' = r).
Proof.
  intros [Ep Er] Hp. eapply walks_weaken; [apply walks_direction; unfold meets; rewrite Ep, Er; by destruct p|].
  intros r w' ->. by destruct w; simpl in *; subst.
Qed.

Lemma all_at p w :
  at_place p w -> match p with Begin | Reset1 | Reset2 | Mark1 | Mark2 => True | _ => False end ->
  walks w (wait_all b) (fun _ w' => at_place (after_barrier cfg listens rev p) w' /\ w_outcome w' = w_outcome w).
Proof.
  intros [Ep Er] Hp. eapply walks_weaken; [apply walks_wait_all; unfold meets; rewrite Ep, Er; by destruct p|].
  intros r w' [x ->]. by destruct w; simpl in *; subst.
Qed.

Lemma between_at p w :
  at_place p w -> match p with Begin | Start1 | Reset1 | Stream | StreamAll | Outcome | Mark1 | Finish => True | _ => False end ->
  between w.
Proof. intros [Ep Er] Hp. unfold between, meets. rewrite Ep. destruct p; try done; eauto. Qed.

(** ** The accesses of the code *)

Lemma stream_reset_walks w : at_place Reset1 w -> walks w (stream_reset b) (fun _ => at_place Stream).
Proof.
  intros Hw. unfold stream_reset. eapply walks_bind; [by apply (all_at Reset1)|]. intros _ w1 [[Ep Er] _].
  unfold process_get_reverse. apply (walks_read _ _ _ _ (Zb rev)); [apply read_reverse|].
  eapply walks_bind; [apply (walks_locked _ _ None (goes Reset2 w1))|].
  - intros t. unfold act. by rewrite Ep, Er.
  - unfold accesses. by rewrite Ep.
  - intros _ w2 ->. eapply walks_weaken; [apply (all_at Reset2); [by destruct w1|done]|]. by intros _ w3 [].
Qed.

(** The decision at the end of a stream. *)
Lemma weak_result_walks w :
  at_place Result w ->
  walks w weak_result (fun r w' => r = 1 /\ at_place Restart w' \/ r = 0 /\ at_place Finish w').
Proof.
  intros [Ep Er] s Ht. unfold weak_result, current_of. rewrite get_bind.
  assert (existsb locked (accesses cfg listens w) = false) as Hl by (unfold accesses; by rewrite Ep).
  destruct (0 <? talk_weak (talk (cur s))) eqn:E.
  - eapply reaches_after; [apply (acts_alone _ None (goes Restart w)); [unfold act; by rewrite Ep, E|done]|].
    apply walks_ret; [|done]. left. by destruct w.
  - eapply reaches_after; [apply (acts_alone _ None (goes Finish (w {{ w_decisions ::= fun l => l ++ [false] }})));
      [unfold act; by rewrite Ep, E|done]|].
    apply walks_ret; [|done]. right. by destruct w.
Qed.

(** The end of a stream: weak, of duration [t], if [x]. *)
Lemma stream_end_walks w x t :
  at_place Outcome w ->
  walks w (wait_all b ;; when x (update_locked b (talk_mark_weak (Zb rev) t)) ;; wait_all b ;; weak_result)
    (fun r w' => r = 1 /\ at_place Restart w' \/ r = 0 /\ at_place Finish w').
Proof.
  intros [Ep Er]. set (o := if x then Some t else None).
  apply (walks_act _ _ o (goes Mark1 (w {{ w_outcome := o }}))); [intros ?; unfold act; by rewrite Ep|unfold accesses; by rewrite Ep|].
  eapply walks_bind; [apply (all_at Mark1); [by destruct w|done]|]. intros _ w1 [[Ep1 Er1] Eo].
  assert (w_outcome w1 = o) as Ho by (rewrite Eo; by destruct w). clear Eo.
  set (w2 := goes Mark2 (w1 {{ w_outcomes ::= fun l => l ++ [o] }})).
  assert (forall t', act cfg listens None w1 t' = Moves w2 (if x then talk_mark_weak (Zb rev) t t' else t')) as Ha.
  { intros t'. unfold act. rewrite Ep1, Er1, Ho. subst w2 o. by destruct x. }
  assert (existsb locked (accesses cfg listens w1) = x) as Hl by (unfold accesses; rewrite Ep1, Ho; subst o; by destruct x).
  assert (walks w2 (wait_all b ;; weak_result) (fun r w' => r = 1 /\ at_place Restart w' \/ r = 0 /\ at_place Finish w')) as Hr.
  { eapply walks_bind; [apply (all_at Mark2); [by subst w2; destruct w1|done]|]. intros _ w3 [H3 _]. by apply weak_result_walks. }
  destruct x.
  - eapply walks_bind; [by apply (walks_locked _ _ None w2)|]. by intros _ w3 ->.
  - apply (walks_act _ _ None w2); [exact Ha|exact Hl|]. eapply walks_bind; [by apply (walks_ret w2 tt (fun _ x => x = w2))|].
    by intros _ w3 ->.
Qed.

(** What the streams return: an error, at a place between the accesses, or the decision. *)
Definition streamed (r : Z) (w : crew_worker) : Prop :=
  (r <? 0) = true /\ between w \/ r = 1 /\ at_place Restart w \/ r = 0 /\ at_place Finish w.

Lemma fails_between {A : Type} p w (m : M A) :
  at_place p w -> match p with Begin | Start1 | Reset1 | Stream | StreamAll | Outcome | Mark1 | Finish => True | _ => False end ->
  quiet m -> walks w (m ;; mret (-1)) streamed.
Proof.
  intros Hw Hp Hq. apply walks_then; [done|by apply (between_at p)|]. intros _. apply walks_ret. left.
  split; [done|by apply (between_at p)].
Qed.

Lemma wait_async_at w :
  at_place (if async cfg then StreamAll else Outcome) w -> walks w (wait_async b) (fun _ => at_place Outcome).
Proof.
  intros Hw. unfold wait_async. rewrite Hmt. apply (walks_read _ _ _ _ cfg); [apply read_config|]. unfold async in *.
  destruct (truth (asynchronous cfg)) eqn:E; [|by apply walks_ret]. destruct Hw as [Ep Er]. unfold when.
  eapply walks_bind; [apply walks_barrier; unfold meets, async; by rewrite Ep, E|].
  intros r w' ->. apply walks_ret. by destruct w; simpl in *; subst.
Qed.

(** The first barrier after the packets. *)
Lemma stream_wait w :
  at_place Stream w ->
  walks w (if mt b then wait_direction ;; mret tt else mret tt) (fun _ => at_place (if async cfg then StreamAll else Outcome)).
Proof.
  intros Hw. rewrite Hmt. eapply walks_bind; [by apply (direction_at Stream)|]. intros r w1 [H _]. by apply walks_ret.
Qed.

Lemma async_place w : at_place (if async cfg then StreamAll else Outcome) w -> between w.
Proof. intros H. by destruct (async cfg); eapply between_at. Qed.

(** A part that the other workers do not notice. *)
Ltac skip := apply walks_then; [quiet_go|first [by eapply between_at|by eapply async_place]|].

Lemma sender_stream_walks w count : at_place Reset1 w -> walks w (_talk_sender_stream big b count) streamed.
Proof.
  intros Hw. unfold _talk_sender_stream, process_get_reverse. apply (walks_read _ _ _ _ cfg); [apply read_config|].
  apply (walks_read _ _ _ _ (Zb rev)); [apply read_reverse|]. cbv zeta.
  skip. intros [r p].
  destruct (r <? 0); [apply (fails_between Reset1); auto with quiet|].
  destruct (negb _); [apply (fails_between Reset1); [done..|quiet_go]|].
  eapply walks_bind; [by apply stream_reset_walks|]. intros [] w1 H1.
  skip. intros _.
  skip. intros [p1|];
    [|apply walks_ret; left; split; [done|by eapply between_at]].
  skip. intros _.
  eapply walks_bind; [by apply stream_wait|]. intros [] w2 H2.
  eapply walks_bind; [by apply wait_async_at|]. intros [] w3 H3.
  skip. intros [r' p'].
  destruct (r' <? 0); [apply (fails_between Outcome); auto with quiet|].
  destruct (negb _); [apply (fails_between Outcome); [done..|quiet_go]|].
  skip. intros _.
  eapply walks_weaken; [by apply stream_end_walks|]. intros r2 w4 H. by right.
Qed.

Lemma receiver_stream_walks w count : at_place Reset1 w -> walks w (_talk_receiver_stream big b count) streamed.
Proof.
  intros Hw. unfold _talk_receiver_stream, process_get_reverse. apply (walks_read _ _ _ _ cfg); [apply read_config|].
  apply (walks_read _ _ _ _ (Zb rev)); [apply read_reverse|]. cbv zeta.
  skip. intros r.
  destruct (r <? 0); [apply (fails_between Reset1); auto with quiet|].
  eapply walks_bind; [by apply stream_reset_walks|]. intros [] w1 H1.
  skip. intros t0.
  do 2 (skip; intros _). skip. intros [i len]. skip. intros _.
  eapply walks_bind; [by apply stream_wait|]. intros [] w2 H2.
  skip. intros now. skip. intros elapsed. skip. intros _.
  eapply walks_bind; [by apply wait_async_at|]. intros [] w3 H3.
  do 3 (skip; intros _). skip. intros r'.
  destruct (r' <? 0); [apply (fails_between Outcome); auto with quiet|].
  skip. intros _.
  eapply walks_weaken; [by apply stream_end_walks|]. intros r2 w4 H. by right.
Qed.

(** ** Between two rounds *)

Lemma needs_restart_is s :
  talks s -> _talk_weak_stream_needs_restart b s = Done (needs_restart cfg rev (talk (cur s))) s.
Proof.
  intros [E Er]. unfold _talk_weak_stream_needs_restart. rewrite get_bind, E, Er, Hmt.
  unfold needs_restart, im_weak_of. by destruct (truth (asynchronous cfg)).
Qed.

Lemma needs_restart_walks w :
  at_place Restart w ->
  walks w (_talk_weak_stream_needs_restart b)
    (fun (r : bool) => at_place (if r then if sends listens rev then Recount1 else Reset1 else Finish)).
Proof.
  intros [Ep Er] s Ht. rewrite (needs_restart_is s Ht). set (r := needs_restart cfg rev (talk (cur s))).
  set (w' := goes (if r then if sends listens rev then Recount1 else Reset1 else Finish) (w {{ w_decisions ::= fun l => l ++ [r] }})).
  assert (act cfg listens None w (talk (cur s)) = Moves w' (talk (cur s))) as Ha.
  { unfold act. rewrite Ep, Er. subst w' r. by destruct (needs_restart _ _ _). }
  eapply reaches_after; [apply (acts_alone w None w' s Ha)|].
  - unfold accesses. rewrite Ep. by destruct (async cfg).
  - apply (walks_ret w' r); [|done]. subst w'. by destruct w.
Qed.

Lemma needs_recount_is s :
  talks s -> _talk_weak_stream_needs_recount s = Done (needs_recount cfg rev (talk (cur s))) s.
Proof. intros [E Er]. unfold _talk_weak_stream_needs_recount. by rewrite get_bind, E, Er. Qed.

Lemma weak_recount_is s : talks s -> weak_recount s = update_talk (count_again cfg rev) s.
Proof. intros [E Er]. unfold weak_recount, process_get_reverse, current_of. by rewrite !get_bind, E, Er. Qed.

Lemma talk_count_is s : talks s -> talk_count_of s = Done (count_of rev (talk (cur s))) s.
Proof. intros [E Er]. unfold talk_count_of. by rewrite get_bind, Er. Qed.

Lemma update_at f s : update_talk f s = update_talk (fun _ => f (talk (cur s))) s.
Proof. by destruct s as [[]]. Qed.

Lemma update_ext f g s : f (talk (cur s)) = g (talk (cur s)) -> update_talk f s = update_talk g s.
Proof. intros H. by rewrite (update_at f), (update_at g), H. Qed.

Lemma update_same f s : f (talk (cur s)) = talk (cur s) -> update_talk f s = Done tt s.
Proof. intros H. rewrite (update_ext f (fun t => t) s H). by destruct s as [[]]. Qed.

(** [act] at [Recounting]. *)
Lemma recounting_is (is_serial : bool) s :
  talks s ->
  (recount ← (if is_serial then _talk_weak_stream_needs_recount else mret false); when recount weak_recount) s =
    update_talk (fun t => if is_serial && needs_recount cfg rev t then count_again cfg rev t else t) s.
Proof.
  intros Hs. destruct is_serial.
  - rewrite (bind_Done _ _ _ _ _ (needs_recount_is s Hs)). unfold when.
    destruct (needs_recount cfg rev (talk (cur s))) eqn:E.
    + rewrite (weak_recount_is s Hs). apply update_ext. by rewrite E.
    + symmetry. apply update_same. by rewrite E.
  - rewrite ret_bind. symmetry. by apply update_same.
Qed.

(** [act] at [Started] and at [Recounted]: the count is read, and checked. *)
Lemma started_walks {A : Type} w (m : M A) R :
  at_place Started w -> (forall w', at_place Reset1 w' -> walks w' m R) ->
  walks w (count ← talk_count_of; massert (0 <? count) "count > 0" ;; m) R.
Proof.
  intros [Ep Er] Hm s Ht. rewrite (bind_Done _ _ _ _ _ (talk_count_is s Ht)).
  assert (existsb locked (accesses cfg listens w) = false) as Hl by (unfold accesses; by rewrite Ep).
  set (w' := goes Reset1 (w {{ w_counts ::= fun l => l ++ [count_of rev (talk (cur s))] }})).
  destruct (0 <? count_of rev (talk (cur s))) eqn:E.
  - unfold massert. rewrite ret_bind. eapply reaches_after; [apply (acts_alone w None w' s); [|done]|].
    + unfold act. by rewrite Ep, Er, E.
    + apply Hm; [|done]. subst w'. by destruct w.
  - exists w. split; [done|]. right. eexists. split; [done|]. unfold act. by rewrite Ep, Er, E.
Qed.

Lemma recounted_walks w :
  at_place Recounted w ->
  walks w (cfg ← current_of config; count ← talk_count_of;
    massert (count <=? talk_count_max cfg) "count <= talk_count_max" ;;
    massert (talk_count_default cfg <=? count) "count >= talk_count_default" ;;
    t_stage_inc no_show) (fun _ => at_place Reset1).
Proof.
  intros [Ep Er]. apply (walks_read _ _ _ _ cfg); [apply read_config|]. intros s Ht.
  rewrite (bind_Done _ _ _ _ _ (talk_count_is s Ht)). set (count := count_of rev (talk (cur s))).
  assert (existsb locked (accesses cfg listens w) = false) as Hl by (unfold accesses; by rewrite Ep).
  destruct (count <=? talk_count_max cfg) eqn:E1;
    [|exists w; (split; [done|]); right; eexists; (split; [done|]); unfold act; by rewrite Ep, Er; subst count; rewrite E1].
  destruct (talk_count_default cfg <=? count) eqn:E2;
    [|exists w; (split; [done|]); right; eexists; (split; [done|]); unfold act; by rewrite Ep, Er; subst count; rewrite E1, E2].
  set (w' := goes Reset1 (w {{ w_counts ::= fun l => l ++ [count] }})). unfold massert. rewrite !ret_bind.
  assert (at_place Reset1 w') as Hw' by (subst w'; by destruct w).
  eapply reaches_after; [apply (acts_alone w None w' s); [|done]|].
  - unfold act. subst count. by rewrite Ep, Er, E1, E2.
  - eapply walks_weaken; [apply walks_quiet; [quiet_go|by eapply between_at]| |done]. by intros [] x ->.
Qed.

Lemma sender_restart_walks w : at_place Recount1 w -> walks w (sender_restart b) (fun _ => at_place Reset1).
Proof.
  intros Hw. unfold sender_restart. rewrite Hmt. apply (walks_bind _ _ _ (fun _ => at_place Recount2)).
  - eapply walks_bind; [by apply (direction_at Recount1)|]. intros is_serial w1 [[Ep1 Er1] Hser].
    eapply walks_ext; [intros s Ht; by apply recounting_is|].
    eapply walks_weaken; [apply (walks_update _ _ None (goes Recount2 w1))|].
    + intros t. unfold act. by rewrite Ep1, Er1, Hser.
    + unfold accesses. rewrite Ep1. by destruct (w_serial w1).
    + intros [] x ->. by destruct w1.
  - intros [] w2 H2. apply (walks_bind _ _ _ (fun _ => at_place Recounted)).
    + eapply walks_bind; [by apply (direction_at Recount2)|]. intros x w3 [H3 _]. by apply walks_ret.
    + intros [] w3 H3. by apply recounted_walks.
Qed.

(** ** The talks *)

(** A computation that does not return. *)
Definition stops {A : Type} (m : M A) : Prop := forall s a s', m s <> Done a s'.

Lemma stops_bind {A B : Type} (m : M A) (f : A -> M B) : (forall a, stops (f a)) -> stops (m ≫= f).
Proof. intros Hf s a s'. unfold mbind, M_bind. destruct (m s); [apply Hf|done..]. Qed.

Lemma stops_abort {A : Type} t o : stops (@abort_talk big b A t o).
Proof. unfold abort_talk, fatal_error. repeat (apply stops_bind; intros ?). by intros s a' s'. Qed.

Lemma walks_stops {A : Type} w (m : M A) Q : quiet m -> stops m -> between w -> walks w m Q.
Proof.
  intros Hq Hs Hb s Ht. pose proof (walks_quiet w m Hq Hb s Ht) as H. specialize (Hs s).
  destruct (m s) as [a s'|e s'|s']; [by destruct (Hs a s')|done..].
Qed.

Lemma abort_walks {A : Type} w t o Q : between w -> walks w (@abort_talk big b A t o) Q.
Proof. intros H. apply walks_stops; [auto with quiet|apply stops_abort|done]. Qed.

(** What follows a stream. *)
Lemma streamed_walks {A : Type} w r (fails : M A) (again : M A) (done : M A) Q :
  streamed r w -> (forall w', between w' -> walks w' fails Q) -> (forall w', at_place Restart w' -> walks w' again Q) ->
  (forall w', at_place Finish w' -> walks w' done Q) ->
  walks w (if truth r then if r <? 0 then fails else again else done) Q.
Proof.
  intros [[Hr Hb]|[[-> Hw]|[-> Hw]]] H1 H2 H3; [|by apply H2|by apply H3].
  assert (truth r = true) as -> by (unfold truth; lia). rewrite Hr. by apply H1.
Qed.

Lemma sender_rounds_walks fuel :
  sends listens rev = true ->
  forall w, at_place Reset1 w -> walks w (sender_rounds big b fuel) (fun _ => at_place Finish).
Proof.
  intros Hs. induction fuel as [|fuel IH]; intros w Hw; cbn [sender_rounds].
  - apply walks_stops; [auto with quiet|done|by eapply between_at].
  - skip. intros _. unfold talk_count_of. skip. intros c1. skip. intros latency. skip. intros r.
    destruct (r <? 0); [apply abort_walks; by eapply between_at|].
    skip. intros c2. skip. intros _. skip. intros _. skip. intros c3.
    eapply walks_bind; [by apply sender_stream_walks|]. intros ret w1 H1.
    eapply streamed_walks; [exact H1|by intros; apply abort_walks| |intros; by apply walks_ret].
    intros w2 H2. eapply walks_bind; [by apply needs_restart_walks|]. intros [] w3 H3; [|by apply walks_ret].
    rewrite Hs in H3. eapply walks_bind; [by apply sender_restart_walks|]. intros [] w4 H4. by apply IH.
Qed.

Lemma receiver_rounds_walks fuel :
  sends listens rev = false ->
  forall w, at_place Reset1 w -> walks w (receiver_rounds big b fuel) (fun _ => at_place Finish).
Proof.
  intros Hs. induction fuel as [|fuel IH]; intros w Hw; cbn [receiver_rounds].
  - apply walks_stops; [auto with quiet|done|by eapply between_at].
  - skip. intros _. skip. intros [[count latency]|]; [|apply abort_walks; by eapply between_at].
    do 3 (skip; intros _).
    eapply walks_bind; [by apply receiver_stream_walks|]. intros ret w1 H1.
    eapply streamed_walks; [exact H1|by intros; apply abort_walks| |intros; by apply walks_ret].
    intros w2 H2. eapply walks_bind; [by apply needs_restart_walks|]. intros [] w3 H3; [|by apply walks_ret].
    rewrite Hs in H3. skip. intros _. by apply IH.
Qed.

(** The report and the farewell, after the rounds. *)
Lemma finished_walks w (m : M unit) : quiet m -> at_place Finish w -> walks w m (fun _ => at_place Finish).
Proof.
  intros Hq Hw. eapply walks_weaken; [apply walks_quiet; [done|by eapply between_at]|]. by intros [] w' ->.
Qed.

Lemma talk_sender_walks w :
  sends listens rev = true -> at_place Begin w -> walks w (talk_sender big b) (fun _ => at_place Finish).
Proof.
  intros Hs Hw. unfold talk_sender, talk_sender_end. skip. intros _. eapply walks_bind; [by apply (all_at Begin)|]. intros [] w1 [H1 _].
  cbn [after_barrier] in H1. rewrite Hs in H1. apply (walks_read _ _ _ _ cfg); [apply read_config|].
  skip. intros dt. cbv zeta. skip. intros _. unfold wait_serial. rewrite Hmt.
  eapply walks_bind; [by apply (direction_at Start1)|]. intros is_serial w2 [[Ep2 Er2] Hser]. cbn [after_barrier] in Ep2.
  apply (walks_read _ _ _ _ (Zb rev)); [apply read_reverse|].
  assert (forall t, act cfg listens None w2 t = Moves (goes Start2 w2) (if is_serial then count_start cfg rev t else t)) as Ha
    by (intros t; unfold act; by rewrite Ep2, Er2, Hser).
  assert (existsb locked (accesses cfg listens w2) = false) as Hl by (unfold accesses; rewrite Ep2; by destruct (w_serial w2)).
  apply (walks_bind _ _ _ (fun _ => at_place Start2)).
  { eapply walks_weaken with (Q := fun _ x => x = goes Start2 w2); [|intros [] x ->; by destruct w2].
    destruct is_serial; [exact (walks_update w2 (count_start cfg rev) None _ Ha Hl)|].
    apply (walks_act _ _ None (goes Start2 w2)); [exact Ha|exact Hl|by apply walks_ret]. }
  intros [] w3 H3. apply (walks_bind _ _ _ (fun _ => at_place Started)).
  { eapply walks_bind; [by apply (direction_at Start2)|]. intros x w4 [H4 _]. by apply walks_ret. }
  intros [] w4 H4. apply started_walks; [done|]. intros w5 H5. skip. intros _. skip. intros l.
  eapply walks_bind; [by apply sender_rounds_walks|]. intros [] w6 H6. apply finished_walks; [|done].
  quiet_go.
Qed.

Lemma talk_receiver_walks w :
  sends listens rev = false -> at_place Begin w -> walks w (talk_receiver big b) (fun _ => at_place Finish).
Proof.
  intros Hs Hw. unfold talk_receiver. skip. intros _. eapply walks_bind; [by apply (all_at Begin)|]. intros [] w1 [H1 _].
  cbn [after_barrier] in H1. rewrite Hs in H1. apply (walks_read _ _ _ _ cfg); [apply read_config|].
  skip. intros []. skip. intros _. skip. intros l.
  eapply walks_bind; [by apply receiver_rounds_walks|]. intros [] w6 H6. apply finished_walks; [|done]. quiet_go.
Qed.

End access.

(** C26: the code of a worker makes the accesses of Crew.v.  In a build with threads, take
    any thread, in either direction, any input, any answers of the system, and anything
    that the others do at the barriers.  When it runs [talk_sender], or [talk_receiver] if
    its direction receives, what it does to the contexts and with the other workers is a
    sequence of steps of a worker of Crew.v from its beginning: the barriers are those of
    [meets], in that order; the contexts are read and changed as by [act] at each place;
    and [worker_mutex_global] is locked and unlocked around the assignments of exactly the
    actions whose accesses are marked so.  If it returns, the worker has finished; if the
    process ends or the thread waits for input, the worker is between its accesses, or an
    assertion of [act] failed. *)
Theorem talk_accesses big b cfg listens rev s :
  mt b = true -> talks cfg rev s ->
  reaches cfg listens rev (seen (worker_begin rev) s)
    ((if sends listens rev then talk_sender big b else talk_receiver big b) s)
    (fun _ w => w_place w = Finish).
Proof.
  intros Hmt Ht. assert (at_place rev Begin (worker_begin rev)) as Hw by done.
  destruct (sends listens rev) eqn:Hs.
  - pose proof (talk_sender_walks big b cfg listens rev Hmt _ Hs Hw) as H. eapply walks_weaken in H; [by apply H|]. by intros [] w [].
  - pose proof (talk_receiver_walks big b cfg listens rev Hmt _ Hs Hw) as H. eapply walks_weaken in H; [by apply H|]. by intros [] w [].
Qed.

(** The sender of the pair of TalkCrew.v, whose first stream is weak. *)
Definition pair_sender : thread :=
  let lat := talk_latency (pair_config 1) demo_clock 0 in
  let rounds := crew_rounds (pair_config 1) false 100 pair_rounds in
  let replied := receiver_talk (pair_config 1) (mt build_linux) 2 rounds (rounds_figures lat demo_clock 0 rounds) in
  pair_thread 1 1 [RxData replied] (sender_crew (pair_config 1) false false pair_rounds).

Lemma pair_sender_done : exists s', talk_sender false build_linux pair_sender = Done tt s'.
Proof.
  assert (match talk_sender false build_linux pair_sender with Done tt _ => true | _ => false end = true) as E
    by (vm_compute; reflexivity).
  destruct (talk_sender false build_linux pair_sender) as [[] s'|e s'|s']; [by exists s'|discriminate E..].
Qed.

Lemma pair_sender_talks : talks (pair_config 1) false pair_sender.
Proof. split; reflexivity. Qed.

Lemma talk_accesses_witness :
  exists s' w', talk_sender false build_linux pair_sender = Done tt s' /\ w_place w' = Finish /\
    rtc (alone_step (pair_config 1) false) (seen (worker_begin false) pair_sender) (seen w' s').
Proof.
  destruct pair_sender_done as [s' E].
  pose proof (talk_accesses false build_linux (pair_config 1) false false pair_sender eq_refl pair_sender_talks) as H.
  assert (sends false false = true) as Es by reflexivity. rewrite Es, E in H.
  destruct H as (_ & w' & H & Hw). exists s', w'. split; [exact E|]. split; [exact Hw|exact H].
Defined.

(** A sender that marks a weak stream, from contexts without one. *)
Definition marker : crew_worker := (worker_begin false) {{ w_place := Marking; w_outcome := Some 7 }}.

(** The mark is stored, and the count of packets, which is not listed, is as it was. *)
Lemma accesses_sound_witness :
  exists w t, act (pair_config 1) false None marker talk_shared_zero = Moves w t /\
    value (V_weak_time false) t = 7 /\ value (V_count false) t = value (V_count false) talk_shared_zero.
Proof.
  destruct (accesses_sound (pair_config 1) false None marker talk_shared_zero) as [Ha _].
  eexists _, _. split; [reflexivity|]. split; [reflexivity|].
  refine (Ha _ _ (V_count false) eq_refl _). intros a H _. unfold accesses in H. simpl in H.
  repeat (apply elem_of_cons in H as [->|H]; [discriminate|]). by apply elem_of_nil in H.
Defined.
