(* ===== verification/Current.v ===== *)
(** The list of threads: src/current.c.

    Every thread has a [struct ubwt_current]; the main thread's is the static
    [__current], the head of a doubly linked list, and the workers' are allocated
    and inserted behind the head by [current_fork] and removed by [current_join].
    The store, with its pointers, is a finite map of locations.

    A thread finds its own structure, the macro [current], by walking the list
    ([current_get]); the main thread waits for the workers by counting their flags
    ([current_children_has_flag]).  The theorems relate the store to the list of
    locations it represents: the walks end and find what they look for, insertion
    and removal keep the list linked, no structure is freed twice or used after it
    was freed, and neither disturbs a concurrent walk. *)

From S2P Require Import Prelude Bitops Errors Byteorder Layout ConfigData Double Report Stage Thread.

Abbreviation loc := positive.

(** [__current]. *)
Definition head : loc := 1%positive.

(** [ubwt_worker_task_type_t] and [ubwt_worker_task_t] (include/worker.h): the
    value of the type, the function and the argument. *)
Definition UBWT_WORKER_TASK_TYPE_NVR_ANY : Z := 1.
Definition UBWT_WORKER_TASK_TYPE_NVR_INT : Z := 2.

Record ubwt_worker_task_t := { task_type : Z; task_fun : string; task_arg : Z }.

#[export] Instance task_eq_dec : EqDecision ubwt_worker_task_t.
Proof. solve_decision. Defined.

(** [ubwt_worker_flags_t]. *)
Definition UBWT_WORKER_FLAG_TYPE_CHILD : Z := 1.
Definition UBWT_WORKER_FLAG_CANCEL_REQUESTED : Z := 2.
Definition UBWT_WORKER_FLAG_CANCEL_COMPLETED : Z := 3.
Definition UBWT_WORKER_FLAG_TASK_READY : Z := 4.
Definition UBWT_WORKER_FLAG_TASK_RUNNING : Z := 5.
Definition UBWT_WORKER_FLAG_TASK_JOINABLE : Z := 6.

(** [struct ubwt_current]: what a thread knows, and its links. *)
Record node := {
  data : ubwt_current;
  worker_task : option loc;
  next : option loc;
  prev : option loc
}.

(** The structures and the tasks in memory, [__worker_forking], and the descriptors
    that were closed. *)
Record threads := {
  nodes : gmap loc node;
  tasks : gmap loc ubwt_worker_task_t;
  worker_forking : Z;
  closed : list Z
}.

(** ** Outcomes

    A call returns, ends the process, accesses memory that is not allocated, or
    does not return. *)

Inductive mem (A : Type) :=
| Val (a : A)
| End (e : stop)
| Undefined
| Loops.
Arguments Val {A} _.
Arguments End {A} _.
Arguments Undefined {A}.
Arguments Loops {A}.

#[export] Instance mem_ret : MRet mem := @Val.
#[export] Instance mem_bind : MBind mem := fun A B f m =>
  match m with
  | Val a => f a
  | End e => End e
  | Undefined => Undefined
  | Loops => Loops
  end.

Definition mem_of {A : Type} (o : option A) : mem A := match o with Some a => Val a | None => Undefined end.
Definition mem_assert (b : bool) (expr : string) : mem unit := if b then Val tt else End (Assertion expr).

Definition load (t : threads) (c : loc) : mem node := mem_of (nodes t !! c).

(** A store through the pointer [c]. *)
Definition store (c : loc) (f : node -> node) (t : threads) : mem threads :=
  n ← load t c; Val (t {{ nodes := <[c := f n]> (nodes t) }}).

Definition set_flags (f : Z -> Z) (n : node) : node := n {{ data ::= fun d => d {{ worker_flags ::= f }} }}.

Definition has_flag (flag : Z) (n : node) : bool := truth (bit_test (worker_flags (data n)) flag).

(** ** Lookup *)

(** An iteration of the loop of [current_get] and [current_join]: the structure to look
    at next, or the end of the loop with the structure that was found, if any. *)
Definition find_step (id : Z) (c : loc) (t : threads) : mem (loc + option loc) :=
  n ← load t c;
  Val (if worker_id (data n) =? id then inr (Some c)
       else match next n with None => inr None | Some d => inl d end).

Fixpoint find_worker (fuel : nat) (id : Z) (c : loc) (t : threads) : mem (option loc) :=
  match fuel with
  | O => Loops
  | S fuel =>
      r ← find_step id c t;
      match r with
      | inr found => Val found
      | inl c => find_worker fuel id c t
      end
  end.

(** More structures than there are cannot be visited without a cycle. *)
Definition walk_fuel (t : threads) : nat := S (size (nodes t)).

Definition current_get (id : Z) (t : threads) : mem loc :=
  c ← find_worker (walk_fuel t) id head t;
  match c with
  | Some c => Val c
  | None => End (Assertion "c != NULL")
  end.

(** With [UBWT_CONFIG_PTHREAD_LOCAL_STORAGE]: [self] is the calling thread and
    [key] the value of its thread-specific data, which is returned too. *)
Definition current_get_tls (self : Z) (key : option loc) (id : Z) (t : threads) : mem (loc * option loc) :=
  h ← load t head;
  let main := worker_id (data h) =? self in
  match (if main then None else key) with
  | Some c => Val (c, key)
  | None =>
      c ← current_get id t;
      Val (c, if main then key else Some c)
  end.

(** ** Time: the threads share the two variables *)

Definition current_update (self : Z) (now : Z) (t : threads) : mem threads :=
  _ ← current_get self t;
  Val (t {{ nodes ::= fmap (fun n => n {{ data ::= fun d => d {{ time_us_now := now }} }}) }}).

(** ** Creation *)

(** The main thread's structure; [now] is the current time. *)
Definition current_init (self now : Z) : node := {|
  data := current_zero {{ worker_id := self; time_us_start := now; time_us_now := now;
    stage ::= fun st => fst (stage_set UBWT_STAGE_STATE_INIT_CURRENT 0 st) }};
  worker_task := None; next := None; prev := None |}.

Definition threads_init (self now : Z) (ts : gmap loc ubwt_worker_task_t) : threads := {|
  nodes := {[ head := current_init self now ]}; tasks := ts; worker_forking := 0; closed := [] |}.

Definition current_forking_set (status : Z) (t : threads) : threads := t {{ worker_forking := wrap 32 status }}.
Definition current_forking_get (t : threads) : Z := worker_forking t.

(** What a new structure takes from the head's [h]; [fd'] is the descriptor of its
    socket if it connects. *)
Definition forked (h : ubwt_current) (self fd' : Z) : ubwt_current := current_zero {{
  config := config h;
  time_us_now := time_us_now h;
  time_us_start := time_us_start h;
  talk := talk h;
  stage := stage h;
  net := (net h) {{ fd := if truth (im_connector (config h)) then fd' else fd (net h) }};
  worker_id := self;
  worker_flags := bit_set (bit_set 0 UBWT_WORKER_FLAG_TYPE_CHILD) UBWT_WORKER_FLAG_TASK_READY }}.

(** The insertion, in three stores: the links of the new structure, the link back
    from the first worker, and the head's link, which publishes the structure. *)
Definition insert_alloc (c : loc) (n : node) (t : threads) : mem threads :=
  h ← load t head;
  Val (t {{ nodes := <[c := n {{ prev := Some head; next := next h }}]> (nodes t) }}).

Definition insert_back (c : loc) (t : threads) : mem threads :=
  n ← load t c;
  match next n with
  | Some d => store d (fun n => n {{ prev := Some c }}) t
  | None => Val t
  end.

Definition insert_publish (c : loc) (t : threads) : mem threads := store head (fun h => h {{ next := Some c }}) t.

(** In this order. *)
Definition insert_stores (c : loc) (n : node) : list (threads -> mem threads) :=
  [insert_alloc c n; insert_back c; insert_publish c].

Definition insert_front (c : loc) (n : node) (t : threads) : mem threads :=
  foldl (fun r store => t ← r; store t) (Val t) (insert_stores c n).

(** [self] runs [current_fork (task)]: [c] is what [malloc] returned, [sock] the
    result of [socket], [timeout] the one of [net_timeout_set] and [now] the time.
    The error handler looks up the structure of the calling thread. *)
Definition current_fork (self : Z) (task : loc) (c : option loc) (sock timeout now : Z) (t : threads) : mem threads :=
  match c with
  | None =>
      _ ← current_get self t;
      End (Exited EXIT_FAILURE (Some UBWT_ERROR_TYPE_CURRENT_FORK_FAILED))
  | Some c =>
      h ← load t head;
      (if truth (im_connector (config (data h))) then
         if sock <? 0 then End (Aborted "socket")
         else if timeout <? 0 then End (Aborted "net_timeout_set") else Val tt
       else Val tt) ;;
      t ← insert_front c {| data := forked (data h) self sock; worker_task := Some task; next := None; prev := None |} t;
      current_update self now t
  end.

(** ** The flags of a worker *)

Definition current_running_set (self now : Z) (t : threads) : mem threads :=
  c ← current_get self t;
  t ← store c (set_flags (fun w => bit_set w UBWT_WORKER_FLAG_TASK_RUNNING)) t;
  current_update self now t.

Definition current_running_unset (self now : Z) (t : threads) : mem threads :=
  c ← current_get self t;
  t ← store c (set_flags (fun w => bit_clear w UBWT_WORKER_FLAG_TASK_RUNNING)) t;
  current_update self now t.

Definition current_exit (self now : Z) (t : threads) : mem threads :=
  c ← current_get self t;
  t ← store c (set_flags (fun w => bit_set (bit_clear w UBWT_WORKER_FLAG_TASK_RUNNING) UBWT_WORKER_FLAG_TASK_JOINABLE)) t;
  current_update self now t.

(** The loop of [current_children_has_flag]; the condition moves to the next
    structure before it looks at [count]. *)
Fixpoint count_flag (fuel : nat) (flag count : Z) (c : loc) (t : threads) : mem Z :=
  match fuel with
  | O => Loops
  | S fuel =>
      n ← load t c;
      let count :=
        if negb (has_flag UBWT_WORKER_FLAG_TYPE_CHILD n) then count
        else if has_flag flag n then wrap 32 (count - 1) else count in
      match next n with
      | None => Val count
      | Some c => if truth count then count_flag fuel flag count c t else Val count
      end
  end.

Definition current_children_has_flag (flag count : Z) (t : threads) : mem bool :=
  mem_assert (0 <? count) "count > 0" ;;
  count ← count_flag (walk_fuel t) flag count head t;
  Val (negb (truth count)).

(** ** Removal *)

(** The links of the neighbours of [c]; the second store reads the links of [c] again. *)
Definition unlink (c : loc) (t : threads) : mem threads :=
  n ← load t c;
  match prev n, next n with
  | Some p, Some d =>
      t ← store p (fun x => x {{ next := Some d }}) t;
      n ← load t c;
      d ← mem_of (next n);
      store d (fun x => x {{ prev := prev n }}) t
  | Some p, None => store p (fun x => x {{ next := None }}) t
  | None, _ => End (Aborted "current_join")
  end.

(** [free]: of a block that is not allocated it is undefined. *)
Definition free_task (k : option loc) (t : threads) : mem threads :=
  k ← mem_of k;
  _ ← mem_of (tasks t !! k);
  Val (t {{ tasks := delete k (tasks t) }}).

Definition free_node (c : loc) (t : threads) : mem threads :=
  _ ← load t c;
  Val (t {{ nodes := delete c (nodes t) }}).

Definition current_join (self id : Z) (t : threads) : mem threads :=
  c ← find_worker (walk_fuel t) id head t;
  c ← (match c with Some c => Val c | None => End (Assertion "c != NULL") end);
  n ← load t c;
  mem_assert (negb (worker_id (data n) =? self)) "c->worker_id != worker_self()" ;;
  mem_assert (negb (has_flag UBWT_WORKER_FLAG_TASK_RUNNING n)) "!bit_test(RUNNING)" ;;
  mem_assert (has_flag UBWT_WORKER_FLAG_TASK_JOINABLE n) "bit_test(JOINABLE)" ;;
  t ← unlink c t;
  t ← free_task (worker_task n) t;
  free_node c (t {{ closed ::= fun l => l ++ [fd (net (data n))] }}).

(** [current_destroy], in the main thread [self]: the workers' structures are not
    touched. *)
Definition current_destroy (self : Z) (t : threads) : mem threads :=
  _ ← current_get self t;
  store head (fun _ => {| data := current_zero; worker_task := None; next := None; prev := None |}) t.

(** The reports of the threads behind the head, as [report_worker_combine] visits
    them. *)
Fixpoint reports_from (fuel : nat) (c : option loc) (t : threads) : mem (list ubwt_report) :=
  match c, fuel with
  | None, _ => Val []
  | Some _, O => Loops
  | Some c, S fuel =>
      n ← load t c;
      l ← reports_from fuel (next n) t;
      Val (report (data n) :: l)
  end.

(** [report_worker_combine] in the main thread [self]. *)
Definition report_worker_combine (self : Z) (t : threads) : mem threads :=
  c ← current_get self t;
  n ← load t c;
  ws ← reports_from (walk_fuel t) (next n) t;
  store c (fun n => n {{ data ::= fun d => d {{ report ::= Report.report_worker_combine (config d) ws }} }}) t.

(** ** The list a store represents *)

Fixpoint chain (m : gmap loc node) (p : option loc) (l : list loc) : Prop :=
  match l with
  | [] => True
  | c :: l => exists n, m !! c = Some n /\ prev n = p /\ next n = list.head l /\ chain m (Some c) l
  end.

#[global] Arguments chain : simpl never.

(** The structures behind the head are those of [ls], in this order. *)
Record linked (ls : list loc) (t : threads) : Prop := {
  linked_chain : chain (nodes t) None (head :: ls);
  linked_nodup : NoDup (head :: ls);
  linked_dom : forall c, is_Some (nodes t !! c) <-> c ∈ head :: ls
}.

(** What is at a location, and the identifier of its thread. *)
Definition data_at (t : threads) (c : loc) : option ubwt_current := data <$> nodes t !! c.
Definition id_at (t : threads) (c : loc) : option Z := worker_id <$> data_at t c.

(** The first location of a list with an identifier. *)
Fixpoint first_with (t : threads) (id : Z) (l : list loc) : option loc :=
  match l with
  | [] => None
  | c :: l => if decide (id_at t c = Some id) then Some c else first_with t id l
  end.

(** The end of a list, from a location on, may be replaced. *)
Lemma chain_prefix m m' p l1 q r r' :
  chain m p (l1 ++ q :: r) -> (forall c, c ∈ l1 -> m' !! c = m !! c) ->
  chain m' (from_option Some p (list.last l1)) (q :: r') -> chain m' p (l1 ++ q :: r').
Proof.
  revert p. induction l1 as [|c l1 IH]; intros p; [done|].
  intros (n & Hn & Hp & Hx & Hl) Heq Hr. exists n.
  split_and!; [by rewrite Heq by set_solver|done|by destruct l1|].
  apply IH; [done|set_solver|]. destruct l1 as [|d l1]; [exact Hr|].
  rewrite last_cons_cons in Hr. by destruct (list.last (d :: l1)) eqn:E; [|by apply last_None in E].
Qed.

Lemma chain_suffix m p l1 l2 : chain m p (l1 ++ l2) -> chain m (from_option Some p (list.last l1)) l2.
Proof.
  revert p. induction l1 as [|c l1 IH]; intros p; [done|]. intros (n & _ & _ & _ & H).
  apply IH in H. destruct l1 as [|d l1]; [exact H|].
  rewrite last_cons_cons. by destruct (list.last (d :: l1)) eqn:E; [|by apply last_None in E].
Qed.

(** Only the entries of the list matter. *)
Lemma chain_ext m m' p l : (forall c, c ∈ l -> m' !! c = m !! c) -> chain m p l -> chain m' p l.
Proof.
  revert p. induction l as [|c l IH]; intros p Heq; [done|].
  intros (n & Hn & Hp & Hx & Hl). exists n. split_and!; [by rewrite Heq by set_solver|done..|].
  apply IH; [set_solver|done].
Qed.

Lemma chain_insert m p l c n : c ∉ l -> chain m p l -> chain (<[c := n]> m) p l.
Proof.
  intros Hc. apply chain_ext. intros d Hd. rewrite lookup_insert_ne; [done|]. set_solver.
Qed.

Lemma chain_delete m p l c : c ∉ l -> chain m p l -> chain (delete c m) p l.
Proof.
  intros Hc. apply chain_ext. intros d Hd. rewrite lookup_delete_ne; [done|]. set_solver.
Qed.

(** A change of the data leaves the links. *)
Lemma chain_data m p l c n n' :
  m !! c = Some n -> prev n' = prev n -> next n' = next n -> chain m p l -> chain (<[c := n']> m) p l.
Proof.
  intros Hc Hp Hn. revert p. induction l as [|d l IH]; intros p; [done|].
  intros (k & Hk & Hkp & Hkn & Hl). destruct (decide (c = d)) as [<-|Hne].
  - exists n'. rewrite lookup_insert_eq. rewrite Hc in Hk. simplify_eq. split_and!; [done|congruence..|by apply IH].
  - exists k. rewrite lookup_insert_ne by done. split_and!; [done..|by apply IH].
Qed.

Lemma linked_length ls t : linked ls t -> size (nodes t) = S (length ls).
Proof.
  intros [_ Hnd Hdom]. rewrite <- size_dom. change (S (length ls)) with (length (head :: ls)).
  rewrite <- (size_list_to_set (C := gset loc) (head :: ls)) by done. f_equal. apply set_eq. intros c.
  rewrite elem_of_dom, elem_of_list_to_set. apply Hdom.
Qed.

Lemma linked_head ls t : linked ls t -> exists n, nodes t !! head = Some n /\ prev n = None /\ next n = list.head ls.
Proof. intros [(n & ? & ? & ? & _) _ _]. by exists n. Qed.

(** ** The walks *)

Lemma find_worker_chain t id p c l fuel :
  chain (nodes t) p (c :: l) -> (length l < fuel)%nat ->
  find_worker fuel id c t = Val (first_with t id (c :: l)).
Proof.
  revert p c l. induction fuel as [|fuel IH]; intros p c l Hch Hf; [lia|].
  destruct Hch as (n & Hn & _ & Hx & Hl). simpl. unfold find_step, load, id_at, data_at. rewrite Hn. simpl.
  destruct (Z.eqb_spec (worker_id (data n)) id) as [E|E].
  - rewrite decide_True by congruence. done.
  - rewrite decide_False by congruence. rewrite Hx. destruct l as [|d l]; [done|].
    simpl list.head. eapply IH; [done|]. simpl in Hf. lia.
Qed.

Lemma find_worker_linked ls t id :
  linked ls t -> find_worker (walk_fuel t) id head t = Val (first_with t id (head :: ls)).
Proof.
  intros H. eapply find_worker_chain; [apply H|]. unfold walk_fuel. rewrite (linked_length _ _ H). lia.
Qed.

Lemma current_get_linked ls t id :
  linked ls t ->
  current_get id t =
    match first_with t id (head :: ls) with Some c => Val c | None => End (Assertion "c != NULL") end.
Proof. intros H. unfold current_get. by rewrite (find_worker_linked _ _ _ H). Qed.

Lemma first_with_Some t id l c :
  first_with t id l = Some c -> c ∈ l /\ id_at t c = Some id.
Proof.
  induction l as [|d l IH]; [done|]. simpl. case_decide; [intros [= ->]; set_solver|].
  intros [? ?]%IH. set_solver.
Qed.

Lemma first_with_None t id l : first_with t id l = None <-> forall c, c ∈ l -> id_at t c <> Some id.
Proof.
  induction l as [|d l IH]; simpl; [set_solver|]. case_decide as E; [set_solver|]. rewrite IH. set_solver.
Qed.

(** Identifiers of live threads are distinct, so the first is the only one. *)
Lemma first_with_unique t id l c :
  c ∈ l -> id_at t c = Some id -> NoDup (omap (id_at t) l) -> first_with t id l = Some c.
Proof.
  intros Hc Hid. induction l as [|d l IH]; [set_solver|]. simpl. case_decide as E.
  - rewrite E. intros [Hni _]%list.NoDup_cons. apply elem_of_cons in Hc as [->|Hc]; [done|].
    destruct Hni. apply list_elem_of_omap. by exists c.
  - intros Hnd. apply elem_of_cons in Hc as [->|Hc]; [done|]. apply IH; [done|].
    destruct (id_at t d); [by apply list.NoDup_cons in Hnd as [_ ?]|done].
Qed.

(** ** Stores of data *)

(** What is known of the threads does not depend on the two shared variables. *)
Definition at_time (now : Z) (d : ubwt_current) : ubwt_current := d {{ time_us_now := now }}.

Lemma chain_fmap m p l f :
  (forall n, prev (f n) = prev n /\ next (f n) = next n) -> chain m p l -> chain (f <$> m) p l.
Proof.
  intros Hf. revert p. induction l as [|c l IH]; intros p; [done|].
  intros (n & Hn & Hp & Hx & Hl). exists (f n). rewrite lookup_fmap, Hn. destruct (Hf n) as [-> ->].
  split_and!; [done..|by apply IH].
Qed.

Lemma linked_fmap ls t f :
  (forall n, prev (f n) = prev n /\ next (f n) = next n) -> linked ls t -> linked ls (t {{ nodes ::= fmap f }}).
Proof.
  intros Hf []. constructor; simpl; [by apply chain_fmap|done|]. intros c. by rewrite lookup_fmap, fmap_is_Some.
Qed.

Lemma store_linked ls t c f :
  (forall n, prev (f n) = prev n /\ next (f n) = next n) -> linked ls t -> c ∈ head :: ls ->
  exists n, nodes t !! c = Some n /\ store c f t = Val (t {{ nodes := <[c := f n]> (nodes t) }}) /\
    linked ls (t {{ nodes := <[c := f n]> (nodes t) }}).
Proof.
  intros Hf [] Hc. destruct (proj2 (linked_dom0 c) Hc) as [n Hn]. exists n. destruct (Hf n) as [Hp Hx].
  unfold store, load. rewrite Hn. simpl. split_and!; [done..|]. constructor; simpl; [by eapply chain_data|done|].
  intros d. rewrite lookup_insert_is_Some, <- linked_dom0. destruct (decide (c = d)) as [<-|]; [|naive_solver].
  split; [by intros _; exists n|by left].
Qed.

(** The update of the time. *)
Lemma current_update_linked ls t id now c :
  linked ls t -> first_with t id (head :: ls) = Some c ->
  let t' := t {{ nodes ::= fmap (fun n => n {{ data ::= at_time now }}) }} in
  current_update id now t = Val t' /\ linked ls t' /\
  forall d, data_at t' d = at_time now <$> data_at t d.
Proof.
  intros H Hf t'. unfold current_update. rewrite (current_get_linked _ _ _ H), Hf. split_and!; [done| |].
  - by apply linked_fmap.
  - intros d. unfold data_at, t'. destruct t as [m]. simpl. rewrite lookup_fmap. by destruct (m !! d).
Qed.
