(* ===== verification/CurrentSpec.v ===== *)
(** What the list of threads promises (Current.v): every operation keeps the
    store well formed and has its effect on one structure only; the walks return
    what a search of the list returns. *)

From S2P Require Import Prelude Bitops Errors Byteorder Layout ConfigData Double Report Stage Thread Current.

(** ** Insertion and removal keep the list linked *)

(** Insertion, a store at a time: the structure is filled in, the old first worker
    points back to it, and the head's pointer publishes it. *)
Lemma insert_front_linked ls t c n :
  linked ls t -> nodes t !! c = None ->
  exists t', insert_front c n t = Val t' /\ linked (c :: ls) t' /\
    data_at t' c = Some (data n) /\ worker_task <$> nodes t' !! c = Some (worker_task n) /\
    (forall d, d <> c -> data_at t' d = data_at t d /\ worker_task <$> nodes t' !! d = worker_task <$> nodes t !! d) /\
    tasks t' = tasks t /\ worker_forking t' = worker_forking t /\ closed t' = closed t.
Proof.
  intros H Hc. destruct (linked_head _ _ H) as (h & Hh & Hp & Hx). destruct t as [m ts fk cl]. simpl in *.
  assert (c ∉ head :: ls) as Hni.
  { intros Hin. apply (linked_dom _ _ H) in Hin as [? Hin]. simpl in Hin. congruence. }
  assert (c <> head) as Hch by set_solver.
  assert (NoDup (head :: c :: ls)) as Hnd0.
  { pose proof (linked_nodup _ _ H) as [??]%list.NoDup_cons. constructor; [set_solver|]. constructor; [set_solver|done]. }
  unfold insert_front, insert_stores, insert_alloc, insert_back, insert_publish, load. simpl. rewrite Hh. simpl.
  rewrite lookup_insert_eq. simpl. rewrite Hx.
  destruct ls as [|d ls].
  - simpl. unfold store, load. simpl. rewrite lookup_insert_ne, Hh by done. simpl.
    eexists. split; [reflexivity|]. unfold data_at. simpl. split_and!; try done.
    + constructor; simpl; [|done|].
      * eexists. rewrite lookup_insert_eq. split_and!; [done..|]. eexists.
        rewrite lookup_insert_ne, lookup_insert_eq by done. by split_and!.
      * intros e. rewrite !lookup_insert_is_Some. pose proof (linked_dom _ _ H e) as He. simpl in He.
        rewrite He. destruct (decide (e = head)), (decide (e = c)); set_solver.
    + by rewrite lookup_insert_ne, lookup_insert_eq by done.
    + by rewrite lookup_insert_ne, lookup_insert_eq by done.
    + intros e He. destruct (decide (e = head)) as [->|].
      * rewrite lookup_insert_eq, Hh. done.
      * by rewrite !lookup_insert_ne by done.
  - pose proof (linked_chain _ _ H) as (h' & Hh' & _ & _ & d' & Hd & Hdp & Hdx & Hls).
    simpl in Hh', Hd. assert (d <> c) as Hdc by set_solver. pose proof (linked_nodup _ _ H) as Hnd.
    apply list.NoDup_cons in Hnd as [Hnh Hnd]. apply list.NoDup_cons in Hnd as [Hnd' _].
    assert (d <> head) as Hdh by set_solver.
    simpl. unfold store, load. simpl. rewrite lookup_insert_ne, Hd by done. simpl.
    rewrite !lookup_insert_ne, Hh by done. simpl.
    eexists. split; [reflexivity|]. unfold data_at. simpl. split_and!; try done.
    + constructor; simpl; [|done|].
      * eexists. rewrite lookup_insert_eq. split_and!; [done..|]. eexists.
        rewrite !lookup_insert_ne, lookup_insert_eq by done. split_and!; [done..|]. eexists.
        rewrite lookup_insert_ne, lookup_insert_eq by done. split_and!; [done..|].
        repeat apply chain_insert; set_solver.
      * intros e. rewrite !lookup_insert_is_Some. pose proof (linked_dom _ _ H e) as He. simpl in He.
        rewrite He. destruct (decide (e = head)), (decide (e = c)), (decide (e = d)); set_solver.
    + by rewrite !lookup_insert_ne, lookup_insert_eq by done.
    + by rewrite !lookup_insert_ne, lookup_insert_eq by done.
    + intros e He. destruct (decide (e = head)) as [->|]; [by rewrite lookup_insert_eq, Hh|].
      destruct (decide (e = d)) as [->|]; [by rewrite lookup_insert_ne, lookup_insert_eq, Hd by done|].
      by rewrite !lookup_insert_ne by done.
Qed.

(** Removal of a structure that is not the head. *)
Lemma unlink_linked l1 l2 t c n :
  linked (l1 ++ c :: l2) t -> nodes t !! c = Some n ->
  exists t', unlink c t = Val t' /\ chain (delete c (nodes t')) None (head :: l1 ++ l2) /\
    (forall d, data_at t' d = data_at t d /\ worker_task <$> nodes t' !! d = worker_task <$> nodes t !! d) /\
    tasks t' = tasks t /\ worker_forking t' = worker_forking t /\ closed t' = closed t.
Proof.
  intros H Hc. destruct t as [m ts fk cl]. simpl in Hc.
  destruct (exists_last (l := head :: l1) ltac:(done)) as (l0 & q & El).
  pose proof (linked_chain _ _ H) as Hch. pose proof (linked_nodup _ _ H) as Hnd. simpl in Hch.
  rewrite app_comm_cons, El, <- app_assoc in Hch, Hnd. simpl in Hch, Hnd.
  rewrite app_comm_cons, El, <- app_assoc. simpl.
  apply chain_suffix in Hch as Hq. destruct Hq as (nq & Hnq & Hqp & Hqx & n' & Hn & Hp & Hx & Hl2).
  simpl in Hqx. assert (n' = n) as -> by congruence.
  apply list.NoDup_app in Hnd as (Hnd0 & Hni & Hnd). apply list.NoDup_cons in Hnd as [Hq Hnd].
  apply list.NoDup_cons in Hnd as [Hcl Hnd2]. assert (q <> c) as Hqc by set_solver.
  unfold unlink, load. simpl. rewrite Hc. simpl. rewrite Hp, Hx.
  destruct l2 as [|d l2]; simpl list.head.
  - unfold store, load. simpl. rewrite Hnq. simpl. eexists. split; [reflexivity|]. simpl. split_and!; try done.
    + eapply chain_prefix; [exact Hch| |].
      * intros e He. rewrite lookup_delete_ne, lookup_insert_ne by set_solver. done.
      * eexists. rewrite lookup_delete_ne, lookup_insert_eq by done. by split_and!.
    + intros e. unfold data_at. simpl. destruct (decide (e = q)) as [->|].
      * by rewrite lookup_insert_eq, Hnq.
      * by rewrite lookup_insert_ne.
  - destruct Hl2 as (nd & Hnd' & Hdp & Hdx & Hl2). assert (d <> c) as Hdc by set_solver.
    assert (d <> q) as Hdq by set_solver. apply list.NoDup_cons in Hnd2 as [Hdl Hnd2].
    unfold store, load. simpl. rewrite Hnq. simpl. rewrite lookup_insert_ne, Hc by done. simpl.
    rewrite Hx. simpl. rewrite lookup_insert_ne, Hnd' by done. simpl.
    eexists. split; [reflexivity|]. simpl. split_and!; try done.
    + eapply chain_prefix; [exact Hch| |].
      * intros e He. specialize (Hni e He). rewrite lookup_delete_ne, !lookup_insert_ne by set_solver. done.
      * eexists. rewrite lookup_delete_ne, lookup_insert_ne, lookup_insert_eq by done.
        split_and!; [done..|]. eexists. rewrite lookup_delete_ne, lookup_insert_eq by done.
        split_and!; [done|done|done|].
        apply chain_delete; [set_solver|]. repeat apply chain_insert; set_solver.
    + intros e. unfold data_at. simpl. destruct (decide (e = d)) as [->|]; [by rewrite lookup_insert_eq, Hnd'|].
      rewrite lookup_insert_ne by done.
      destruct (decide (e = q)) as [->|]; [by rewrite lookup_insert_eq, Hnq|by rewrite lookup_insert_ne].
Qed.

(** ** Well-formed stores *)

Definition task_of (t : threads) (c : loc) : option loc := n ← nodes t !! c; worker_task n.

(** The identifiers of the threads, in the order of the list. *)
Definition ids (t : threads) (l : list loc) : list Z := omap (id_at t) l.

(** The flags of a structure: a 32-bit word, with [TYPE_CHILD] for the workers. *)
Definition flags_ok (c : loc) (d : ubwt_current) : Prop :=
  u32 (worker_flags d) /\ Z.testbit (worker_flags d) UBWT_WORKER_FLAG_TYPE_CHILD = bool_decide (c <> head).

(** [ls] are the workers: distinct threads, each with a task of its own. *)
Record well_formed (ls : list loc) (t : threads) : Prop := {
  wf_linked : linked ls t;
  wf_ids : NoDup (ids t (head :: ls));
  wf_head_task : task_of t head = None;
  wf_tasks : forall c, c ∈ ls -> exists k, task_of t c = Some k /\ is_Some (tasks t !! k);
  wf_tasks_inj : forall c d k, task_of t c = Some k -> task_of t d = Some k -> c = d;
  wf_flags : forall c d, data_at t c = Some d -> flags_ok c d
}.

Lemma ids_ext t t' l : (forall c, c ∈ l -> id_at t' c = id_at t c) -> ids t' l = ids t l.
Proof.
  induction l as [|c l IH]; intros H; [done|]. unfold ids, omap in *. simpl.
  rewrite H, IH by set_solver. done.
Qed.

(** A change that keeps the links, the threads and the tasks. *)
Lemma well_formed_same ls t t' :
  well_formed ls t -> linked ls t' ->
  (forall c, id_at t' c = id_at t c /\ task_of t' c = task_of t c) -> tasks t' = tasks t ->
  (forall c d, data_at t' c = Some d -> flags_ok c d) -> well_formed ls t'.
Proof.
  intros [] Hl Hsame Ht Hf. constructor; [done|..].
  - erewrite ids_ext; [done|]. intros c _. apply Hsame.
  - by rewrite (proj2 (Hsame head)).
  - intros c Hc. rewrite (proj2 (Hsame c)), Ht. by apply wf_tasks0.
  - intros c d k. rewrite (proj2 (Hsame c)), (proj2 (Hsame d)). apply wf_tasks_inj0.
  - done.
Qed.

Lemma update_well_formed ls t id now c :
  well_formed ls t -> first_with t id (head :: ls) = Some c ->
  exists t', current_update id now t = Val t' /\ well_formed ls t' /\ tasks t' = tasks t /\
    forall d, data_at t' d = at_time now <$> data_at t d.
Proof.
  intros H Hc. destruct (current_update_linked _ _ _ now _ (wf_linked _ _ H) Hc) as (E & Hl & Hd).
  eexists. split; [exact E|]. split_and!; [|done|exact Hd].
  apply (well_formed_same _ _ _ H Hl); [|done|].
  - intros d. unfold id_at. rewrite Hd. split; [by destruct (data_at t d)|].
    unfold task_of. destruct t as [m]. simpl. rewrite lookup_fmap. by destruct (m !! d).
  - intros d k. rewrite Hd. destruct (data_at t d) as [k'|] eqn:Ek; [|done]. intros [= <-].
    exact (wf_flags _ _ H _ _ Ek).
Qed.

(** A change of the flags of the caller's structure. *)
Definition keeps_child (f : Z -> Z) : Prop :=
  forall w, u32 w -> u32 (f w) /\
    Z.testbit (f w) UBWT_WORKER_FLAG_TYPE_CHILD = Z.testbit w UBWT_WORKER_FLAG_TYPE_CHILD.

Lemma set_keeps n : 0 <= n < 32 -> n <> UBWT_WORKER_FLAG_TYPE_CHILD -> keeps_child (fun w => bit_set w n).
Proof.
  intros Hn Hne w Hw. split; [by apply bit_set_u32|]. rewrite bit_set_testbit by done.
  by rewrite (proj2 (Z.eqb_neq _ _)).
Qed.

Lemma clear_keeps n : 0 <= n < 32 -> n <> UBWT_WORKER_FLAG_TYPE_CHILD -> keeps_child (fun w => bit_clear w n).
Proof.
  intros Hn Hne w Hw. split; [by apply bit_clear_u32|]. rewrite bit_clear_testbit by done.
  by rewrite (proj2 (Z.eqb_neq _ _)).
Qed.

Lemma comp_keeps f g : keeps_child f -> keeps_child g -> keeps_child (fun w => g (f w)).
Proof. intros Hf Hg w Hw. destruct (Hf w Hw) as [Hfw <-]. by apply Hg. Qed.

#[local] Hint Extern 2 (keeps_child _) =>
  first [apply set_keeps; [split; vm_compute; congruence|done]
        |apply clear_keeps; [split; vm_compute; congruence|done]] : core.

(** The three operations on the flags, [f], by the thread [id]. *)
Definition flag_op (f : Z -> Z) (id now : Z) (t : threads) : mem threads :=
  c ← current_get id t;
  t ← store c (set_flags f) t;
  current_update id now t.

(** The store alone. *)
Lemma set_flags_well_formed ls t f c :
  well_formed ls t -> keeps_child f -> c ∈ head :: ls ->
  exists t', store c (set_flags f) t = Val t' /\ well_formed ls t' /\ tasks t' = tasks t /\
    (forall d, id_at t' d = id_at t d) /\
    forall d, data_at t' d = (fun k => if decide (d = c) then k {{ worker_flags ::= f }} else k) <$> data_at t d.
Proof.
  intros H Hf Hc.
  destruct (store_linked _ _ c (set_flags f) ltac:(done) (wf_linked _ _ H) Hc) as (n & Hn & E & Hl).
  eexists. split; [exact E|]. set (t1 := t {{ nodes := _ }}) in *.
  assert (forall d, data_at t1 d = (fun k => if decide (d = c) then k {{ worker_flags ::= f }} else k) <$> data_at t d) as Hd1.
  { intros d. unfold data_at, t1. destruct t as [m]. simpl in *. destruct (decide (d = c)) as [->|].
    - by rewrite lookup_insert_eq, Hn.
    - rewrite lookup_insert_ne by done. by destruct (m !! d). }
  assert (forall d, id_at t1 d = id_at t d) as Hid1.
  { intros d. unfold id_at. rewrite Hd1. destruct (data_at t d); [|done]. simpl. by destruct (decide _). }
  split_and!; [|done|done|done]. apply (well_formed_same _ _ _ H Hl); [|done|].
  - intros d. split; [apply Hid1|]. unfold task_of, t1. destruct t as [m]. simpl in *.
    destruct (decide (d = c)) as [->|]; [by rewrite lookup_insert_eq, Hn|by rewrite lookup_insert_ne].
  - intros d k. rewrite Hd1. destruct (data_at t d) as [k'|] eqn:Ek; [|done]. intros [= <-].
    destruct (wf_flags _ _ H _ _ Ek) as [Hu Hch]. destruct (decide (d = c)); [|by split].
    destruct (Hf _ Hu) as [Hu' Hch']. split; [done|]. by rewrite <- Hch.
Qed.

Lemma flag_op_well_formed ls t f id now c :
  well_formed ls t -> keeps_child f -> first_with t id (head :: ls) = Some c ->
  exists t', flag_op f id now t = Val t' /\ well_formed ls t' /\ tasks t' = tasks t /\
    forall d, data_at t' d =
      (fun k => at_time now (if decide (d = c) then k {{ worker_flags ::= f }} else k)) <$> data_at t d.
Proof.
  intros H Hf Hc. apply first_with_Some in Hc as Hin. destruct Hin as [Hin Hid].
  destruct (set_flags_well_formed ls t f c H Hf Hin) as (t1 & E & H1 & Ht1 & Hid1 & Hd1).
  unfold flag_op. rewrite (current_get_linked _ _ _ (wf_linked _ _ H)), Hc. simpl. rewrite E. simpl.
  assert (first_with t1 id (head :: ls) = Some c) as Hc1.
  { apply first_with_unique; [done|by rewrite Hid1|apply (wf_ids _ _ H1)]. }
  destruct (update_well_formed _ _ _ now _ H1 Hc1) as (t' & E' & H' & Ht & Hd').
  exists t'. split_and!; [done|done|congruence|]. intros d. rewrite Hd', Hd1. by destruct (data_at t d).
Qed.

(** ** [current_fork] *)

Lemma forked_flags h self fd' c : c <> head -> flags_ok c (forked h self fd').
Proof.
  intros Hc. unfold flags_ok, forked. cbn. split; [split; vm_compute; congruence|].
  by rewrite bool_decide_eq_true_2.
Qed.

(** The new structure of [current_fork]. *)
Definition fork_node (h : ubwt_current) (self fd' : Z) (task : loc) : node :=
  {| data := forked h self fd'; worker_task := Some task; next := None; prev := None |}.

Lemma insert_well_formed ls t self task c fd' h :
  well_formed ls t -> nodes t !! c = None -> self ∉ ids t (head :: ls) ->
  is_Some (tasks t !! task) -> (forall d, task_of t d <> Some task) ->
  exists t1, insert_front c (fork_node h self fd' task) t = Val t1 /\ well_formed (c :: ls) t1 /\
    data_at t1 c = Some (forked h self fd') /\ task_of t1 c = Some task /\
    (forall d, d <> c -> data_at t1 d = data_at t d) /\ tasks t1 = tasks t.
Proof.
  intros H Hc Hself Htask Hown.
  destruct (insert_front_linked ls t c (fork_node h self fd' task) (wf_linked _ _ H) Hc)
    as (t1 & E & Hl & Hd & Hk & Ho & Ht & _).
  assert (c ∉ head :: ls) as Hni.
  { intros Hin. apply (linked_dom _ _ (wf_linked _ _ H)) in Hin as [? Hin]. congruence. }
  assert (forall d, d <> c -> task_of t1 d = task_of t d) as Htd.
  { intros d Hne. unfold task_of. destruct (Ho d Hne) as [_ E1].
    destruct (nodes t1 !! d), (nodes t !! d); simpl in *; congruence. }
  assert (task_of t1 c = Some task) as Htc.
  { unfold task_of. destruct (nodes t1 !! c); simpl in *; congruence. }
  exists t1. split_and!; [done| |done..|intros d Hne; by destruct (Ho d Hne)|done]. constructor; [done|..].
  - assert (ids t1 (head :: ls) = ids t (head :: ls)) as Els.
    { apply ids_ext. intros d Hin. unfold id_at. by rewrite (proj1 (Ho d ltac:(set_solver))). }
    assert (id_at t1 c = Some self) as Hidc by (unfold id_at; by rewrite Hd).
    assert (ids t1 (head :: c :: ls) ≡ₚ self :: ids t (head :: ls)) as ->; [|by constructor; [|apply H]].
    rewrite <- Els. unfold ids, omap. simpl. rewrite Hidc. destruct (id_at t1 head); [apply Permutation_swap|done].
  - rewrite Htd by set_solver. apply H.
  - intros d [->|Hin]%elem_of_cons; [exists task; by rewrite Ht|]. rewrite Htd, Ht by set_solver. by apply H.
  - intros d e k. destruct (decide (d = c)) as [->|], (decide (e = c)) as [->|]; rewrite ?Htc, ?Htd by done.
    + done.
    + intros [= <-] E1. by destruct (Hown _ E1).
    + intros E1 [= <-]. by destruct (Hown _ E1).
    + apply H.
  - intros d k. destruct (decide (d = c)) as [->|].
    + rewrite Hd. intros [= <-]. apply forked_flags. set_solver.
    + rewrite (proj1 (Ho d ltac:(done))). apply H.
Qed.

Lemma current_update_tasks id now t t' :
  current_update id now t = Val t' -> forall c, task_of t' c = task_of t c.
Proof.
  unfold current_update. destruct (current_get id t); [|done..]. intros [= <-] c.
  unfold task_of. destruct t as [m]. simpl. rewrite lookup_fmap. by destruct (m !! c).
Qed.

(** What [current_fork] does, given what the system guarantees: memory that was not
    allocated and a thread that did not exist. *)
Definition fork_result (ls : list loc) (t : threads) (self : Z) (task c : loc) (sock now : Z) (t' : threads) : Prop :=
  well_formed (c :: ls) t' /\ tasks t' = tasks t /\ task_of t' c = Some task /\
  (exists h, data_at t head = Some h /\ data_at t' c = Some (at_time now (forked h self sock))) /\
  (forall d, d <> c -> data_at t' d = at_time now <$> data_at t d) /\
  ids t' (c :: ls) = self :: ids t ls.

Lemma insert_update ls t self task c sock now h :
  well_formed ls t -> nodes t !! c = None -> self ∉ ids t (head :: ls) ->
  is_Some (tasks t !! task) -> (forall d, task_of t d <> Some task) -> data_at t head = Some h ->
  exists t', (t ← insert_front c (fork_node h self sock task) t; current_update self now t) = Val t' /\
    fork_result ls t self task c sock now t'.
Proof.
  intros H Hc Hself Htask Hown Hh.
  destruct (insert_well_formed ls t self task c sock h) as (t1 & E & H1 & Hd & Hk & Ho & Ht); [done..|].
  rewrite E. simpl.
  assert (id_at t1 c = Some self) as Hidc by (unfold id_at; by rewrite Hd).
  destruct (update_well_formed _ _ self now c H1) as (t' & E' & H' & Ht' & Hd').
  { apply first_with_unique; [set_solver|done|apply H1]. }
  assert (c ∉ ls) as Hni by (pose proof (linked_nodup _ _ (wf_linked _ _ H1)) as [_ [? _]%list.NoDup_cons]%list.NoDup_cons; done).
  exists t'. split; [done|]. split_and!; [done|congruence|..].
  - by rewrite (current_update_tasks _ _ _ _ E').
  - exists h. split; [done|]. by rewrite Hd', Hd.
  - intros d Hne. by rewrite Hd', Ho.
  - assert (forall d, id_at t' d = id_at t1 d) as Hid2.
    { intros d. unfold id_at. rewrite Hd'. by destruct (data_at t1 d). }
    assert (ids t' ls = ids t ls) as Els.
    { apply ids_ext. intros d Hin. rewrite Hid2. unfold id_at. by rewrite Ho by set_solver. }
    unfold ids, omap in *. simpl. by rewrite Els, Hid2, Hidc.
Qed.

Lemma fork_spec ls t self task c sock timeout now :
  well_formed ls t -> nodes t !! c = None -> self ∉ ids t (head :: ls) ->
  is_Some (tasks t !! task) -> (forall d, task_of t d <> Some task) ->
  match current_fork self task (Some c) sock timeout now t with
  | Val t' => fork_result ls t self task c sock now t'
  | End e => (exists h, data_at t head = Some h /\ im_connector (config h) <> 0) /\
      (sock < 0 /\ e = Aborted "socket" \/ 0 <= sock /\ timeout < 0 /\ e = Aborted "net_timeout_set")
  | _ => False
  end.
Proof.
  intros H Hc Hself Htask Hown. destruct (linked_head _ _ (wf_linked _ _ H)) as (h & Hh & _ & _).
  assert (data_at t head = Some (data h)) as Hdh by (unfold data_at; by rewrite Hh).
  destruct (insert_update ls t self task c sock now (data h)) as (t' & E & Hr); [done..|].
  unfold current_fork, load. rewrite Hh. simpl.
  destruct (truth _) eqn:Et; [|simpl; unfold fork_node in E; by rewrite E].
  apply truth_spec in Et. destruct (Z.ltb_spec sock 0); [|destruct (Z.ltb_spec timeout 0)].
  - split; [by exists (data h)|by left].
  - split; [by exists (data h)|by right].
  - simpl. unfold fork_node in E. by rewrite E.
Qed.

(** ** [current_join] *)

(** What the removal of the worker at [c], between [l1] and [l2], leaves. *)
Definition join_result (l1 l2 : list loc) (t : threads) (c : loc) (t' : threads) : Prop :=
  well_formed (l1 ++ l2) t' /\ nodes t' !! c = None /\
  (forall d, d <> c -> data_at t' d = data_at t d /\ task_of t' d = task_of t d) /\
  (exists k, task_of t c = Some k /\ tasks t' = delete k (tasks t)) /\
  (exists d, data_at t c = Some d /\ closed t' = closed t ++ [fd (net d)]).

(** The part of [current_join] after its assertions. *)
Definition remove (c : loc) (n : node) (t : threads) : mem threads :=
  t ← unlink c t;
  t ← free_task (worker_task n) t;
  free_node c (t {{ closed ::= fun l => l ++ [fd (net (data n))] }}).

Lemma shrink_linked l1 l2 c m t :
  linked (l1 ++ c :: l2) t -> (forall d, is_Some (m !! d) <-> is_Some (nodes t !! d)) ->
  chain (delete c m) None (head :: l1 ++ l2) ->
  NoDup (head :: l1 ++ l2) /\ forall d, is_Some (delete c m !! d) <-> d ∈ head :: l1 ++ l2.
Proof.
  intros H Hm Hch. pose proof (linked_nodup _ _ H) as Hnd. rewrite app_comm_cons in Hnd.
  apply list.NoDup_app in Hnd as (Hnd1 & Hni & [Hc2 Hnd2]%list.NoDup_cons). split.
  - rewrite app_comm_cons. apply list.NoDup_app. split_and!; [done| |done]. set_solver.
  - intros d. rewrite lookup_delete_is_Some, Hm, (linked_dom _ _ H). set_solver.
Qed.

Lemma shrink_well_formed l1 l2 c t t' k :
  well_formed (l1 ++ c :: l2) t -> linked (l1 ++ l2) t' ->
  (forall d, d <> c -> data_at t' d = data_at t d /\ task_of t' d = task_of t d) ->
  task_of t c = Some k -> tasks t' = delete k (tasks t) -> well_formed (l1 ++ l2) t'.
Proof.
  intros H Hl Hd Hk Ht. pose proof (linked_nodup _ _ (wf_linked _ _ H)) as Hnd. rewrite app_comm_cons in Hnd.
  apply list.NoDup_app in Hnd as (_ & Hni & [Hc2 _]%list.NoDup_cons).
  assert (forall d, d ∈ head :: l1 ++ l2 -> d <> c) as Hne by (intros d; set_solver).
  assert (nodes t' !! c = None) as Hc.
  { destruct (nodes t' !! c) eqn:E; [|done]. destruct (Hne c); [|done]. apply (linked_dom _ _ Hl). by rewrite E. }
  constructor; [done|..].
  - pose proof (wf_ids _ _ H) as Hids. erewrite ids_ext.
    2: { intros d Hin. unfold id_at. by rewrite (proj1 (Hd d (Hne d Hin))). }
    revert Hids. unfold ids. rewrite !app_comm_cons, !omap_app. intros Hids.
    eapply sublist_NoDup; [exact Hids|]. apply sublist_app; [done|]. unfold omap. simpl. by destruct (id_at t c); [constructor|].
  - rewrite (proj2 (Hd head ltac:(set_solver))). apply H.
  - intros d Hin. destruct (wf_tasks _ _ H d ltac:(set_solver)) as (k' & Hk' & Htk'). exists k'.
    assert (d <> c) as Hdc by (apply Hne; set_solver).
    rewrite (proj2 (Hd d Hdc)), Ht. split; [done|]. rewrite lookup_delete_ne; [done|].
    intros <-. apply Hdc. by eapply (wf_tasks_inj _ _ H).
  - intros d e j. destruct (decide (d = c)) as [->|Hdc]; [unfold task_of at 1; by rewrite Hc|].
    destruct (decide (e = c)) as [->|Hec]; [unfold task_of at 2; by rewrite Hc|].
    rewrite (proj2 (Hd d Hdc)), (proj2 (Hd e Hec)). apply H.
  - intros d j. destruct (decide (d = c)) as [->|Hdc]; [unfold data_at; by rewrite Hc|].
    rewrite (proj1 (Hd d Hdc)). apply H.
Qed.

Lemma remove_spec l1 l2 t c n :
  well_formed (l1 ++ c :: l2) t -> nodes t !! c = Some n ->
  exists t', remove c n t = Val t' /\ join_result l1 l2 t c t'.
Proof.
  intros H Hn. destruct (unlink_linked _ _ _ _ _ (wf_linked _ _ H) Hn) as ([m1 ts1 fk1 cl1] & E & Hch & Hsame & Ht & _ & Hcl).
  destruct (wf_tasks _ _ H c ltac:(set_solver)) as (k & Hk & tk & Htk).
  assert (worker_task n = Some k) as Hkn by (unfold task_of in Hk; by rewrite Hn in Hk).
  simpl in *. subst ts1 cl1.
  assert (forall d, is_Some (m1 !! d) <-> is_Some (nodes t !! d)) as Hm.
  { intros d. destruct (Hsame d) as [E1 _]. unfold data_at in E1. simpl in E1.
    destruct (m1 !! d), (nodes t !! d); simpl in *; split; intros [? ?]; eauto; congruence. }
  destruct (proj2 (Hm c) ltac:(by rewrite Hn)) as [n1 Hn1].
  unfold remove. rewrite E. simpl. unfold free_task, free_node, load. rewrite Hkn. simpl. rewrite Htk. simpl. rewrite Hn1. simpl.
  eexists. split; [reflexivity|].
  match goal with |- join_result _ _ _ _ ?x => set (t' := x) end.
  assert (forall d, d <> c -> data_at t' d = data_at t d /\ task_of t' d = task_of t d) as Hd.
  { intros d Hne. destruct (Hsame d) as [E1 E2]. unfold data_at, task_of in *. simpl in *.
    rewrite lookup_delete_ne by done. split; [done|]. destruct (m1 !! d), (nodes t !! d); simpl in *; congruence. }
  assert (linked (l1 ++ l2) t') as Hl.
  { destruct (shrink_linked _ _ _ _ _ (wf_linked _ _ H) Hm Hch). by constructor. }
  split_and!; [by eapply shrink_well_formed|simpl; by rewrite lookup_delete_eq|done|by exists k|].
  exists (data n). unfold data_at. by rewrite Hn.
Qed.

#[local] Arguments Z.testbit : simpl never.
#[local] Arguments walk_fuel : simpl never.

(** Every outcome of [current_join]: the assertions in their order, the abort for the
    main thread's structure, and the removal. *)
Lemma join_spec ls t self id :
  well_formed ls t ->
  match first_with t id (head :: ls) with
  | None => current_join self id t = End (Assertion "c != NULL")
  | Some c => exists d, data_at t c = Some d /\
      if id =? self then current_join self id t = End (Assertion "c->worker_id != worker_self()")
      else if Z.testbit (worker_flags d) UBWT_WORKER_FLAG_TASK_RUNNING then
        current_join self id t = End (Assertion "!bit_test(RUNNING)")
      else if negb (Z.testbit (worker_flags d) UBWT_WORKER_FLAG_TASK_JOINABLE) then
        current_join self id t = End (Assertion "bit_test(JOINABLE)")
      else if decide (c = head) then current_join self id t = End (Aborted "current_join")
      else exists l1 l2 t', ls = l1 ++ c :: l2 /\ current_join self id t = Val t' /\ join_result l1 l2 t c t'
  end.
Proof.
  intros H. unfold current_join. rewrite (find_worker_linked _ _ _ (wf_linked _ _ H)).
  destruct (first_with t id (head :: ls)) as [c|] eqn:Ec; [|done]. simpl.
  apply first_with_Some in Ec as [Hin Hid]. unfold id_at, data_at, load in *.
  destruct (nodes t !! c) as [n|] eqn:Hn; [|done]. simpl in Hid. injection Hid as Hid.
  exists (data n). split; [done|]. simpl. rewrite Hid.
  unfold has_flag. rewrite !bit_test_true by (split; vm_compute; congruence).
  destruct (id =? self); [done|].
  generalize (Z.testbit (worker_flags (data n)) UBWT_WORKER_FLAG_TASK_RUNNING),
    (Z.testbit (worker_flags (data n)) UBWT_WORKER_FLAG_TASK_JOINABLE).
  intros [] []; [done|done|simpl|done].
  destruct (decide (c = head)) as [->|Hne].
  - destruct (linked_head _ _ (wf_linked _ _ H)) as (h & Hh & Hp & _). unfold unlink, load.
    rewrite Hh. simpl. by rewrite Hp.
  - assert (c ∈ ls) as (l1 & l2 & ->)%list_elem_of_split by set_solver.
    destruct (remove_spec _ _ _ _ _ H Hn) as (t' & E & Hr). exists l1, l2, t'. by split_and!.
Qed.

(** ** Lookup *)

Lemma id_at_in ls t d id : linked ls t -> id_at t d = Some id -> d ∈ head :: ls.
Proof.
  intros H Hd. apply (linked_dom _ _ H). unfold id_at, data_at in Hd.
  destruct (nodes t !! d) as [n|]; [by exists n|done].
Qed.

(** Under [UBWT_CONFIG_PTHREAD_LOCAL_STORAGE], what the key of the thread [self] may
    hold: nothing or the thread's structure. *)
Definition key_ok (t : threads) (self : Z) (key : option loc) : Prop :=
  forall c, key = Some c -> id_at t c = Some self.

(** A thread finds its own structure.  In a well-formed store, for every thread
    of the list [current_get] returns the one location whose identifier it is, with
    and without thread-specific data, and the data it leaves in the key is again
    valid; for a thread that is not in the list the assertion fails.  The walk
    always ends. *)
Theorem current_get_finds ls t id key :
  well_formed ls t -> key_ok t id key ->
  match first_with t id (head :: ls) with
  | Some c => id_at t c = Some id /\ (forall d, id_at t d = Some id -> d = c) /\
      current_get id t = Val c /\
      exists key', current_get_tls id key id t = Val (c, key') /\ key_ok t id key'
  | None => (forall d, id_at t d <> Some id) /\ current_get id t = End (Assertion "c != NULL")
  end.
Proof.
  intros H Hkey. pose proof (current_get_linked ls t id (wf_linked _ _ H)) as Hget.
  pose proof (fun d => id_at_in _ _ d id (wf_linked _ _ H)) as Hdom.
  destruct (first_with t id (head :: ls)) as [c|] eqn:Ec.
  - apply first_with_Some in Ec as Hc. destruct Hc as [Hin Hid].
    assert (forall d, id_at t d = Some id -> d = c) as Huniq.
    { intros d Hd. pose proof (first_with_unique t id _ d (Hdom d Hd) Hd (wf_ids _ _ H)). congruence. }
    split_and!; [done..|]. unfold current_get_tls, load.
    destruct (linked_head _ _ (wf_linked _ _ H)) as (h & Hh & _). rewrite Hh. simpl.
    destruct (worker_id (data h) =? id).
    + rewrite Hget. simpl. by exists key.
    + destruct key as [k|].
      * assert (k = c) as -> by (apply Huniq, Hkey; done). by exists (Some c).
      * rewrite Hget. simpl. exists (Some c). split; [done|]. by intros d [= <-].
  - split; [|done]. intros d Hd. by eapply first_with_None; [exact Ec|apply Hdom|].
Qed.

(** With thread-specific data a worker that has looked itself up finds itself
    whoever it asks for: [worker_cancel] and [worker_is_cancelled], which ask for
    another thread, then act on the calling worker. *)
Theorem current_get_tls_ignores_id ls t self id c d key :
  well_formed ls t -> id_at t head <> Some self -> key = Some c -> id_at t c = Some self ->
  id_at t d = Some id -> id <> self ->
  current_get id t = Val d /\ current_get_tls self key id t = Val (c, key) /\ c <> d.
Proof.
  intros H Hmain -> Hc Hd Hne. destruct (linked_head _ _ (wf_linked _ _ H)) as (h & Hh & _).
  pose proof (id_at_in _ _ _ _ (wf_linked _ _ H) Hd) as Hin.
  split_and!.
  - rewrite (current_get_linked _ _ _ (wf_linked _ _ H)).
    by rewrite (first_with_unique t id _ d Hin Hd (wf_ids _ _ H)).
  - unfold current_get_tls, load. rewrite Hh. simpl. destruct (Z.eqb_spec (worker_id (data h)) self) as [E|]; [|done].
    destruct Hmain. unfold id_at, data_at. rewrite Hh. simpl. congruence.
  - congruence.
Qed.

(** ** Counting *)

Lemma filter_ext_in {A : Type} (P Q : A -> Prop) `{forall x, Decision (P x)} `{forall x, Decision (Q x)} (l : list A) :
  (forall x, x ∈ l -> P x <-> Q x) -> filter P l = filter Q l.
Proof.
  induction l as [|x l IH]; intros Hx; [done|]. rewrite !list.filter_cons, IH by set_solver.
  apply decide_ext. set_solver.
Qed.

Definition has_flag_at (flag : Z) (t : threads) (c : loc) : bool :=
  match nodes t !! c with Some n => has_flag UBWT_WORKER_FLAG_TYPE_CHILD n && has_flag flag n | None => false end.

Definition flagged (flag : Z) (t : threads) (l : list loc) : Z :=
  Z.of_nat (length (filter (fun c => has_flag_at flag t c = true) l)).

Lemma count_flag_chain flag t p c l fuel count :
  chain (nodes t) p (c :: l) -> (length l < fuel)%nat -> 0 < count < 2 ^ 32 ->
  count_flag fuel flag count c t = Val (Z.max 0 (count - flagged flag t (c :: l))).
Proof.
  revert p c l count. induction fuel as [|fuel IH]; intros p c l count Hch Hf Hc; [lia|].
  destruct Hch as (n & Hn & _ & Hx & Hl). simpl. unfold load. rewrite Hn. simpl.
  set (f := has_flag_at flag t c).
  assert ((if negb (has_flag UBWT_WORKER_FLAG_TYPE_CHILD n) then count
    else if has_flag flag n then wrap 32 (count - 1) else count) = count - Zb f) as ->.
  { unfold f, has_flag_at. rewrite Hn. destruct (has_flag _ n); simpl; [|lia].
    destruct (has_flag flag n); simpl; [|lia]. apply wrap_small. unfold unsigned. lia. }
  assert (flagged flag t (c :: l) = Zb f + flagged flag t l) as ->.
  { unfold flagged. rewrite list.filter_cons. fold f. destruct f; simpl; [|done]. lia. }
  assert (0 <= flagged flag t l) by (unfold flagged; lia).
  rewrite Hx. destruct l as [|d l]; simpl list.head.
  - f_equal. change (flagged flag t []) with 0. destruct f; simpl; lia.
  - destruct (truth (count - Zb f)) eqn:Et.
    + apply truth_spec in Et. rewrite (IH _ _ _ _ Hl); [f_equal; lia|simpl in Hf; lia|destruct f; simpl in *; lia].
    + apply (f_equal negb) in Et. unfold truth in Et. rewrite negb_involutive in Et. apply Z.eqb_eq in Et. f_equal. lia.
Qed.

(** The main thread waits for what it asks for: [current_children_has_flag]
    always ends, and tells whether at least [count] of the workers have the flag,
    whatever the flags of the main thread; asking for none fails the assertion. *)
Theorem children_has_flag_counts ls t flag count :
  well_formed ls t -> 0 <= count < 2 ^ 32 ->
  current_children_has_flag flag count t =
    if count =? 0 then End (Assertion "count > 0")
    else Val (bool_decide (count <= Z.of_nat (length (filter
      (fun c => match nodes t !! c with Some n => has_flag flag n | None => false end = true) ls)))).
Proof.
  intros H Hc. unfold current_children_has_flag. destruct (Z.eqb_spec count 0) as [->|Hne]; [done|].
  rewrite (proj2 (Z.ltb_lt 0 count)) by lia. unfold mem_assert. cbn [mbind mem_bind].
  rewrite (count_flag_chain _ _ None head ls).
  - simpl. f_equal.
    assert (forall c n, nodes t !! c = Some n -> has_flag UBWT_WORKER_FLAG_TYPE_CHILD n = bool_decide (c <> head)) as Hch.
    { intros c n Hn. unfold has_flag. rewrite bit_test_true by (split; vm_compute; congruence).
      apply (wf_flags _ _ H). unfold data_at. by rewrite Hn. }
    assert (flagged flag t (head :: ls) = Z.of_nat (length (filter (fun c =>
      match nodes t !! c with Some n => has_flag flag n | None => false end = true) ls))) as ->.
    { unfold flagged. rewrite list.filter_cons, decide_False.
      - do 2 f_equal. apply filter_ext_in. intros c Hi. unfold has_flag_at.
        assert (c <> head) as Hne'.
        { pose proof (linked_nodup _ _ (wf_linked _ _ H)) as [? _]%list.NoDup_cons. set_solver. }
        destruct (nodes t !! c) as [n|] eqn:En; [|done]. by rewrite (Hch _ _ En), bool_decide_eq_true_2.
      - unfold has_flag_at. destruct (nodes t !! head) as [n|] eqn:En; [|done].
        by rewrite (Hch _ _ En), bool_decide_eq_false_2 by (intros Hn; by apply Hn). }
    case_bool_decide as E; unfold truth; rewrite negb_involutive; [apply Z.eqb_eq|apply Z.eqb_neq]; lia.
  - apply (wf_linked _ _ H).
  - unfold walk_fuel. rewrite (linked_length _ _ (wf_linked _ _ H)). lia.
  - lia.
Qed.
