(* ===== verification/CurrentSafety.v ===== *)
(** Sequences of operations on the list of threads, and lookups that run while it
    changes.

    Whatever the threads do, as long as the system gives them new memory and new
    identifiers, no structure or task is used after it was freed or freed twice, no
    walk loops, and the list holds the threads that were created and not joined.
    A walk of a worker that looks for itself is not disturbed by insertions, whose stores
    happen between its reads.  Removals are not interleaved with walks here: [runtime_do]
    joins in the order of creation, when all workers are at their end. *)

From S2P Require Import Prelude Bitops Errors Byteorder Layout ConfigData Double Report Stage Thread Current CurrentSpec.

(** ** Operations *)

Inductive op :=
| Fork (self : Z) (task : loc) (c : option loc) (sock timeout now : Z)
| Update (self now : Z)
| RunningSet (self now : Z)
| RunningUnset (self now : Z)
| Exit (self now : Z)
| Join (self id : Z).

Definition run_op (o : op) (t : threads) : mem threads :=
  match o with
  | Fork self task c sock timeout now => current_fork self task c sock timeout now t
  | Update self now => current_update self now t
  | RunningSet self now => current_running_set self now t
  | RunningUnset self now => current_running_unset self now t
  | Exit self now => current_exit self now t
  | Join self id => current_join self id t
  end.

Fixpoint run_ops (os : list op) (t : threads) : mem threads :=
  match os with
  | [] => Val t
  | o :: os => t ← run_op o t; run_ops os t
  end.

(** What the system and [runtime_do] guarantee: [malloc] returns memory that is not
    in use, a new thread has an identifier of its own, and its task was allocated
    for it. *)
Definition allowed (o : op) (t : threads) : Prop :=
  match o with
  | Fork self task (Some c) _ _ _ =>
      nodes t !! c = None /\ (forall d, id_at t d <> Some self) /\
      is_Some (tasks t !! task) /\ (forall d, task_of t d <> Some task)
  | _ => True
  end.

Fixpoint allowed_all (os : list op) (t : threads) : Prop :=
  match os with
  | [] => True
  | o :: os => allowed o t /\ match run_op o t with Val t' => allowed_all os t' | _ => True end
  end.

(** The workers that an operation leaves, the latest first. *)
Definition survive (o : op) (l : list Z) : list Z :=
  match o with
  | Fork self _ (Some _) _ _ _ => self :: l
  | Join _ id => filter (fun i => i <> id) l
  | _ => l
  end.

Fixpoint survivors (os : list op) (l : list Z) : list Z :=
  match os with
  | [] => l
  | o :: os => survivors os (survive o l)
  end.

Lemma init_well_formed self now ts : well_formed [] (threads_init self now ts).
Proof.
  assert (forall c, nodes (threads_init self now ts) !! c = if decide (c = head) then Some (current_init self now) else None) as Hn.
  { intros c. simpl. rewrite lookup_singleton. by repeat case_decide. }
  constructor.
  - constructor; [|repeat constructor; set_solver|].
    + eexists. rewrite Hn, decide_True by done. by split_and!.
    + intros c. rewrite Hn. case_decide as E; [subst; split; [set_solver|by eexists]|].
      split; [by intros [? ?]|set_solver].
  - unfold ids, omap. simpl. repeat constructor. set_solver.
  - done.
  - set_solver.
  - intros c d k. unfold task_of. rewrite !Hn. by case_decide.
  - intros c d. unfold data_at. rewrite Hn. case_decide as E; [|done]. subst c. intros [= <-].
    split; [split; vm_compute; congruence|by rewrite bool_decide_eq_false_2 by (intros Hh; by apply Hh)].
Qed.

(** ** One operation *)

(** A safe outcome of an operation: the process ends, or the store is well formed and
    holds the main thread and the workers [l]. *)
Definition safe (r : mem threads) (main : option Z) (l : list Z) : Prop :=
  match r with
  | Val t => exists ls, well_formed ls t /\ id_at t head = main /\ ids t ls = l
  | End _ => True
  | Undefined | Loops => False
  end.

Lemma get_cases ls t id :
  well_formed ls t ->
  (exists c, first_with t id (head :: ls) = Some c) \/ current_get id t = End (Assertion "c != NULL").
Proof.
  intros H. rewrite (current_get_linked _ _ _ (wf_linked _ _ H)).
  destruct (first_with t id (head :: ls)) as [c|]; [left; by exists c|by right].
Qed.

Lemma flag_op_safe ls t f id now :
  well_formed ls t -> keeps_child f -> safe (flag_op f id now t) (id_at t head) (ids t ls).
Proof.
  intros H Hf. destruct (get_cases ls t id H) as [[c Hc]|E]; [|unfold flag_op; by rewrite E].
  destruct (flag_op_well_formed ls t f id now c H Hf Hc) as (t' & -> & H' & _ & Hd). exists ls.
  assert (forall d, id_at t' d = id_at t d) as Hid.
  { intros d. unfold id_at. rewrite Hd. destruct (data_at t d); [|done]. simpl. by destruct (decide (d = c)). }
  split_and!; [done|done|by apply ids_ext].
Qed.

Lemma ids_join l1 l2 t t' c id :
  well_formed (l1 ++ c :: l2) t -> id_at t c = Some id ->
  (forall d, d <> c -> data_at t' d = data_at t d /\ task_of t' d = task_of t d) ->
  ids t' (l1 ++ l2) = filter (fun i => i <> id) (ids t (l1 ++ c :: l2)).
Proof.
  intros H Hid Hd. pose proof (wf_ids _ _ H) as Hids.
  pose proof (linked_nodup _ _ (wf_linked _ _ H)) as Hnd. apply list.NoDup_cons in Hnd as [_ Hnd].
  apply list.NoDup_app in Hnd as (_ & Hni & [Hc2 _]%list.NoDup_cons).
  assert (NoDup (ids t (l1 ++ c :: l2))) as Hnd'.
  { unfold ids, omap in Hids. simpl in Hids. destruct (id_at t head); [by apply list.NoDup_cons in Hids as [_ ?]|done]. }
  rewrite (ids_ext t t').
  2: { intros d Hin. unfold id_at. rewrite (proj1 (Hd d ltac:(set_solver))). done. }
  revert Hnd'. unfold ids. rewrite !omap_app, list.filter_app.
  change (omap (id_at t) (c :: l2)) with (match id_at t c with Some y => y :: omap (id_at t) l2 | None => omap (id_at t) l2 end).
  rewrite Hid, list.filter_cons, decide_False by (intros Hn; by apply Hn).
  intros (_ & H1 & [H2 _]%list.NoDup_cons)%list.NoDup_app.
  assert (forall l : list Z, id ∉ l -> filter (fun i => i <> id) l = l) as Hall.
  { induction l as [|x l IH]; intros Hx; [done|]. rewrite list.filter_cons, decide_True by set_solver.
    f_equal. apply IH. set_solver. }
  rewrite !Hall; [done|done|]. intros Hin. apply (H1 id); [done|constructor].
Qed.

Lemma op_safe o ls t :
  well_formed ls t -> allowed o t -> safe (run_op o t) (id_at t head) (survive o (ids t ls)).
Proof.
  intros H Ha. destruct o as [self task [c|] sock timeout now|self now|self now|self now|self now|self id]; cbn [run_op survive allowed] in *.
  - destruct Ha as (Hc & Hself & Htask & Hown).
    assert (self ∉ ids t (head :: ls)) as Hni by (intros (d & _ & Hd)%list_elem_of_omap; by apply (Hself d)).
    pose proof (fork_spec ls t self task c sock timeout now H Hc Hni Htask Hown) as Hf.
    destruct (current_fork _ _ _ _ _ _ _) as [t'| | |]; [|exact I|done|done].
    destruct Hf as (H' & _ & _ & (h & Hh & _) & Hd & Hids). exists (c :: ls). split_and!; [done| |done].
    assert (head <> c) as Hne.
    { intros <-. unfold data_at in Hh. by rewrite Hc in Hh. }
    unfold id_at. rewrite (Hd _ Hne). by destruct (data_at t head).
  - unfold current_fork. destruct (get_cases ls t self H) as [[c Hc]|E]; [|by rewrite E].
    by rewrite (current_get_linked _ _ _ (wf_linked _ _ H)), Hc.
  - destruct (get_cases ls t self H) as [[c Hc]|E]; [|unfold current_update; by rewrite E].
    destruct (update_well_formed ls t self now c H Hc) as (t' & -> & H' & _ & Hd). exists ls.
    assert (forall d, id_at t' d = id_at t d) as Hid by (intros d; unfold id_at; rewrite Hd; by destruct (data_at t d)).
    split_and!; [done|done|by apply ids_ext].
  - apply (flag_op_safe ls t (fun w => bit_set w UBWT_WORKER_FLAG_TASK_RUNNING)); [done|].
    apply set_keeps; [split; vm_compute; congruence|done].
  - apply (flag_op_safe ls t (fun w => bit_clear w UBWT_WORKER_FLAG_TASK_RUNNING)); [done|].
    apply clear_keeps; [split; vm_compute; congruence|done].
  - apply (flag_op_safe ls t (fun w => bit_set (bit_clear w UBWT_WORKER_FLAG_TASK_RUNNING) UBWT_WORKER_FLAG_TASK_JOINABLE)); [done|].
    apply (comp_keeps (fun w => bit_clear w UBWT_WORKER_FLAG_TASK_RUNNING) (fun w => bit_set w UBWT_WORKER_FLAG_TASK_JOINABLE)).
    + apply clear_keeps; [split; vm_compute; congruence|done].
    + apply set_keeps; [split; vm_compute; congruence|done].
  - pose proof (join_spec ls t self id H) as Hj. destruct (first_with t id (head :: ls)) as [c|] eqn:Ec; [|by rewrite Hj].
    destruct Hj as (d & Hd & Hj). repeat (case_match; [by rewrite Hj|]).
    destruct Hj as (l1 & l2 & t' & -> & -> & Hr). destruct Hr as (H' & _ & Ho & _).
    exists (l1 ++ l2). split_and!; [done| |].
    + unfold id_at. by rewrite (proj1 (Ho head ltac:(done))).
    + eapply ids_join; [done| |done]. by eapply first_with_Some.
Qed.

(** C14: memory safety of the list of threads, for every sequence of operations of the
    main thread and the workers that the system and [runtime_do] allow: no access to
    a structure or a task that is not allocated, no double free and no endless walk;
    unless an assertion or an abort ends the process, the store is the doubly linked
    list of the main thread and exactly the workers that were created and not
    joined, the latest first. *)
Theorem threads_memory_safe self now ts os :
  let t0 := threads_init self now ts in
  allowed_all os t0 ->
  match run_ops os t0 with
  | Val t => exists ls, well_formed ls t /\ id_at t head = Some self /\ ids t ls = survivors os []
  | End _ => True
  | Undefined | Loops => False
  end.
Proof.
  intros t0.
  assert (forall ls t, well_formed ls t -> id_at t head = Some self -> allowed_all os t ->
    safe (run_ops os t) (Some self) (survivors os (ids t ls))) as Hall.
  { induction os as [|o os IH]; intros ls t H Hm Ha; [by exists ls|]. destruct Ha as [Ho Ha].
    pose proof (op_safe o ls t H Ho) as Hs. simpl. destruct (run_op o t) as [t'| | |]; [|done..]. simpl.
    destruct Hs as (ls' & H' & Hm' & <-). apply IH; [done|congruence|done]. }
  intros Ha. apply (Hall [] t0); [apply init_well_formed|done|done].
Qed.

(** An executable check of what the system guarantees. *)
Definition allowedb (o : op) (t : threads) : bool :=
  match o with
  | Fork self task (Some c) _ _ _ =>
      bool_decide (nodes t !! c = None) && bool_decide (is_Some (tasks t !! task)) &&
      forallb (fun '(_, n) => negb (worker_id (data n) =? self) && bool_decide (worker_task n <> Some task))
        (map_to_list (nodes t))
  | _ => true
  end.

Fixpoint allowedb_all (os : list op) (t : threads) : bool :=
  match os with
  | [] => true
  | o :: os => allowedb o t && match run_op o t with Val t' => allowedb_all os t' | _ => true end
  end.

Lemma allowedb_ok o t : allowedb o t = true -> allowed o t.
Proof.
  destruct o as [self task [c|] sock timeout now| | | | |]; try done. simpl.
  intros [[H1 H2]%andb_true_iff H3]%andb_true_iff. apply bool_decide_eq_true in H1, H2.
  rewrite forallb_forall in H3.
  assert (forall d n, nodes t !! d = Some n -> worker_id (data n) <> self /\ worker_task n <> Some task) as Hn.
  { intros d n Hd. specialize (H3 (d, n)). simpl in H3.
    apply elem_of_map_to_list, list_elem_of_In, H3, andb_true_iff in Hd as [Hi Ht].
    apply bool_decide_eq_true in Ht. apply negb_true_iff, Z.eqb_neq in Hi. done. }
  split_and!; [done| |done|]; intros d; unfold id_at, data_at, task_of;
    destruct (nodes t !! d) as [n|] eqn:E; try done; apply Hn in E as [? ?]; simpl; congruence.
Qed.

Lemma allowedb_all_ok os t : allowedb_all os t = true -> allowed_all os t.
Proof.
  revert t. induction os as [|o os IH]; intros t; [done|]. simpl. intros [Ho Hs]%andb_true_iff.
  split; [by apply allowedb_ok|]. destruct (run_op o t); [by apply IH|done..].
Qed.

(** Two workers are created, run and end; the first is joined. *)
Lemma threads_memory_safe_witness :
  let k := {| task_type := UBWT_WORKER_TASK_TYPE_NVR_INT; task_fun := "process_run"; task_arg := 0 |} in
  let ts := {[ 10%positive := k; 11%positive := k ]} in
  let os := [Fork 7 10%positive (Some 2%positive) 0 0 5; Fork 8 11%positive (Some 3%positive) 0 0 6;
    RunningSet 7 7; Exit 7 8; RunningSet 8 9; Join 1 7] in
  exists t ls, run_ops os (threads_init 1 0 ts) = Val t /\ well_formed ls t /\ ids t ls = [8] /\
    tasks t = {[ 11%positive := k ]}.
Proof.
  intros k ts os. assert (allowed_all os (threads_init 1 0 ts)) as Ha by (apply allowedb_all_ok; by vm_compute).
  pose proof (threads_memory_safe 1 0 ts os Ha) as Hs.
  assert (match run_ops os (threads_init 1 0 ts) with Val t => bool_decide (tasks t = {[ 11%positive := k ]}) | _ => false end
    = true) as Hr by (by vm_compute).
  destruct (run_ops os (threads_init 1 0 ts)) as [t| | |]; [|discriminate Hr..].
  destruct Hs as (ls & H & _ & Hids). exists t, ls. split_and!; [done|done|exact Hids|].
  by apply bool_decide_eq_true in Hr.
Defined.

(** ** Lookups while the list changes *)

(** The structures from a location on, following [next] only. *)
Fixpoint path (m : gmap loc node) (l : list loc) : Prop :=
  match l with
  | [] => True
  | c :: l => exists n, m !! c = Some n /\ next n = list.head l /\ path m l
  end.

Lemma chain_path m p l : chain m p l -> path m l.
Proof.
  revert p. induction l as [|c l IH]; intros p; [done|]. intros (n & ? & _ & ? & H). exists n.
  split_and!; [done..|by eapply IH].
Qed.

Lemma path_suffix m l1 l2 : path m (l1 ++ l2) -> path m l2.
Proof. induction l1 as [|c l1 IH]; [done|]. intros (n & _ & _ & H). by apply IH. Qed.

Lemma path_insert m l c n : c ∉ l -> path m l -> path (<[c := n]> m) l.
Proof.
  induction l as [|d l IH]; intros Hc; [done|]. intros (k & Hk & Hx & Hl). exists k.
  rewrite lookup_insert_ne by set_solver. split_and!; [done..|]. apply IH; [set_solver|done].
Qed.

(** The same links with other data or other links back. *)
Lemma path_relink m l c n n' : m !! c = Some n -> next n' = next n -> path m l -> path (<[c := n']> m) l.
Proof.
  intros Hc Hn. induction l as [|d l IH]; [done|]. intros (k & Hk & Hx & Hl).
  destruct (decide (c = d)) as [<-|Hne].
  - exists n'. rewrite lookup_insert_eq. rewrite Hc in Hk. simplify_eq. split_and!; [done|congruence|by apply IH].
  - exists k. rewrite lookup_insert_ne by done. split_and!; [done..|by apply IH].
Qed.

#[local] Arguments path : simpl never.

(** A store that only changes a link back. *)
Lemma store_back c f t t' :
  (forall n, next (f n) = next n /\ data (f n) = data n) -> store c f t = Val t' ->
  (forall l, path (nodes t) l -> path (nodes t') l) /\ forall d, data_at t' d = data_at t d.
Proof.
  intros Hf. unfold store, load. destruct (nodes t !! c) as [n|] eqn:Hn; [|done]. intros [= <-].
  destruct t as [m]. simpl in *. split.
  - intros l. eapply path_relink; [done|apply Hf].
  - intros d. unfold data_at. simpl. destruct (decide (c = d)) as [<-|Hne].
    + rewrite lookup_insert_eq, Hn. simpl. f_equal. apply Hf.
    + by rewrite lookup_insert_ne.
Qed.

Lemma insert_back_hidden c t t' :
  insert_back c t = Val t' ->
  (forall l, path (nodes t) l -> path (nodes t') l) /\ forall d, data_at t' d = data_at t d.
Proof.
  unfold insert_back, load. destruct (nodes t !! c) as [n|]; [|done]. simpl.
  destruct (next n) as [d|]; [|by intros [= <-]]. intros E. by apply store_back in E.
Qed.

Lemma insert_alloc_hidden c n t t' :
  insert_alloc c n t = Val t' ->
  (forall l, c ∉ l -> path (nodes t) l -> path (nodes t') l) /\ data_at t' c = Some (data n) /\
  forall d, d <> c -> data_at t' d = data_at t d.
Proof.
  unfold insert_alloc, load. destruct (nodes t !! head) as [h|]; [|done]. intros [= <-].
  destruct t as [m]. split_and!; simpl.
  - intros l. apply path_insert.
  - unfold data_at. simpl. by rewrite lookup_insert_eq.
  - intros d Hd. unfold data_at. simpl. by rewrite lookup_insert_ne.
Qed.

(** An insertion becomes visible at once and only when it is complete: after each
    of its three stores the links from the head lead through the old workers, until
    the last store puts the new structure, with all its data, in front of them; the
    data of the other structures never changes. *)
Theorem insertion_publishes ls t c n :
  linked ls t -> nodes t !! c = None ->
  exists t1 t2 t3, insert_alloc c n t = Val t1 /\ insert_back c t1 = Val t2 /\ insert_publish c t2 = Val t3 /\
    path (nodes t1) (head :: ls) /\ path (nodes t2) (head :: ls) /\ path (nodes t3) (head :: c :: ls) /\
    data_at t1 c = Some (data n) /\ data_at t2 c = Some (data n) /\ data_at t3 c = Some (data n) /\
    forall d, d <> c -> data_at t1 d = data_at t d /\ data_at t2 d = data_at t d /\ data_at t3 d = data_at t d.
Proof.
  intros H Hc. destruct (insert_front_linked ls t c n H Hc) as (t3 & E & H3 & Hd3 & _ & Ho3 & _).
  unfold insert_front, insert_stores in E. simpl in E. destruct (insert_alloc c n t) as [t1| | |] eqn:E1; [|done..].
  simpl in E. destruct (insert_back c t1) as [t2| | |] eqn:E2; [|done..]. simpl in E.
  destruct (insert_alloc_hidden _ _ _ _ E1) as (Hp1 & Hd1 & Ho1).
  destruct (insert_back_hidden _ _ _ E2) as (Hp2 & Hd2).
  assert (c ∉ head :: ls) as Hni by (intros Hin; apply (linked_dom _ _ H) in Hin as [? ?]; congruence).
  assert (path (nodes t1) (head :: ls)) as Hpath.
  { apply Hp1; [done|]. eapply chain_path, (linked_chain _ _ H). }
  exists t1, t2, t3. split_and!; try done.
  - by apply Hp2.
  - eapply chain_path, (linked_chain _ _ H3).
  - by rewrite Hd2.
  - intros d Hne. rewrite Hd2, (Ho1 d Hne). split_and!; [done..|by apply Ho3].
Qed.

Definition demo_threads : mem threads :=
  run_ops [Fork 7 10%positive (Some 2%positive) 0 0 5]
    (threads_init 1 0 {[ 10%positive := {| task_type := 2; task_fun := "process_run"; task_arg := 0 |} ]}).

Lemma demo_threads_linked : exists t, demo_threads = Val t /\ linked [2%positive] t /\
  id_at t 2%positive = Some 7 /\ id_at t head = Some 1 /\ nodes t !! 3%positive = None.
Proof.
  destruct demo_threads as [t| | |] eqn:E; [|by vm_compute in E..]. exists t. split; [done|].
  vm_compute in E. injection E as <-. split_and!; try done. constructor.
  - eexists. split_and!; [done..|]. eexists. by split_and!.
  - repeat constructor; set_solver.
  - intros c. destruct (decide (c = 1%positive)) as [->|]; [split; [set_solver|by eexists]|].
    destruct (decide (c = 2%positive)) as [->|]; [split; [set_solver|by eexists]|].
    split; [|set_solver]. by destruct c as [[]|[]|]; intros [? ?].
Qed.

Lemma insertion_publishes_witness :
  exists t t1 t2 t3, demo_threads = Val t /\
    insert_alloc 3 (current_init 8 0) t = Val t1 /\ insert_back 3 t1 = Val t2 /\ insert_publish 3 t2 = Val t3 /\
    path (nodes t2) [head; 2%positive] /\ path (nodes t3) [head; 3%positive; 2%positive].
Proof.
  destruct demo_threads_linked as (t & E & H & _ & _ & Hc).
  destruct (insertion_publishes _ t 3%positive (current_init 8 0) H Hc)
    as (t1 & t2 & t3 & E1 & E2 & E3 & _ & P2 & P3 & _).
  exists t, t1, t2, t3. by split_and!.
Defined.

(** ** Looking itself up while others are inserted

    A thread [id] runs the loop of [current_get], one iteration at a time, while the
    others insert workers, one store at a time, and store to the structures.  No lock
    protects the links.  An iteration reads two fields of a structure; they are taken as
    one, since the identifier of a structure in the list never changes. *)

Inductive walk := Searching (c : loc) | Finished (found : option loc).

(** The memory, the stores left of an insertion, the thread's loop, and how many
    iterations it has made. *)
Record lookup := { store_of : threads; pending : list (threads -> mem threads); walker : walk; iterations : nat }.

Inductive move :=
| Begin_insert (c : loc) (n : node)
| Next_store
| Sets (c : loc) (f : ubwt_current -> ubwt_current)
| Reads.

(** The insertions come one after the other: [worker_task_create] waits until the worker
    has inserted itself. *)
Definition lookup_move (id : Z) (m : move) (s : lookup) : option (mem lookup) :=
  match m with
  | Begin_insert c n =>
      match pending s with
      | [] => Some (Val (s {{ pending := insert_stores c n }}))
      | _ => None
      end
  | Next_store =>
      match pending s with
      | [] => None
      | f :: l => Some (t ← f (store_of s); Val (s {{ store_of := t; pending := l }}))
      end
  | Sets c f => Some (t ← store c (fun n => n {{ data ::= f }}) (store_of s); Val (s {{ store_of := t }}))
  | Reads =>
      match walker s with
      | Searching c =>
          Some (r ← find_step id c (store_of s);
            Val (s {{ walker := match r with inl c => Searching c | inr found => Finished found end; iterations ::= S }}))
      | Finished _ => None
      end
  end.

Fixpoint lookup_run (id : Z) (ms : list move) (s : lookup) : option (mem lookup) :=
  match ms with
  | [] => Some (Val s)
  | m :: ms =>
      r ← lookup_move id m s;
      match r with
      | Val s => lookup_run id ms s
      | End e => Some (End e)
      | Undefined => Some Undefined
      | Loops => Some Loops
      end
  end.

Definition lookup_begin (t : threads) : lookup :=
  {| store_of := t; pending := []; walker := Searching head; iterations := 0 |}.

(** What the others do: they insert a structure that is not in memory, of another
    thread, and store to structures without changing their identifiers. *)
Definition fair_move (id : Z) (t : threads) (m : move) : Prop :=
  match m with
  | Begin_insert c n => nodes t !! c = None /\ worker_id (data n) <> id
  | Sets c f => is_Some (nodes t !! c) /\ forall d, worker_id (f d) = worker_id d
  | _ => True
  end.

Fixpoint fair (id : Z) (ms : list move) (s : lookup) : Prop :=
  match ms with
  | [] => True
  | m :: ms =>
      fair_move id (store_of s) m /\
      match lookup_move id m s with Some (Val s) => fair id ms s | _ => True end
  end.

Definition insertions (ms : list move) : nat :=
  length (filter (fun m => match m with Begin_insert _ _ => true | _ => false end = true) ms).

(** Where the insertion is; the structure [c] is not in the list [ls] yet. *)
Definition inserting (id : Z) (ls : list loc) (s : lookup) : Prop :=
  pending s = [] \/
  exists c n, c ∉ head :: ls /\ worker_id (data n) <> id /\
    (pending s = insert_stores c n /\ nodes (store_of s) !! c = None \/
     (pending s = [insert_back c; insert_publish c] \/ pending s = [insert_publish c]) /\
       exists n', nodes (store_of s) !! c = Some n' /\ next n' = list.head ls /\ worker_id (data n') <> id).

(** The links lead to the thread's structure [c0], and so does the loop, in at most
    [bound] iterations. *)
Record finding (id : Z) (c0 : loc) (ls : list loc) (bound : nat) (s : lookup) : Prop := {
  fi_path : path (nodes (store_of s)) (head :: ls);
  fi_nodup : NoDup (head :: ls);
  fi_id : id_at (store_of s) c0 = Some id;
  fi_unique : forall c, c ∈ head :: ls -> id_at (store_of s) c = Some id -> c = c0;
  fi_insert : inserting id ls s;
  fi_walk : walker s = Finished (Some c0) \/
    exists pre c rest d, walker s = Searching c /\ head :: ls = pre ++ c :: rest /\ (c :: rest) !! d = Some c0 /\
      (iterations s + d + (match pending s with [] => 0 | _ => 1 end) <= bound)%nat
}.

Lemma path_in m l c : path m l -> c ∈ l -> exists n, m !! c = Some n.
Proof.
  induction l as [|d l IH]; [by intros _ ?%elem_of_nil|]. intros (n & Hn & _ & Hl) [->|Hc]%elem_of_cons; [by exists n|by apply IH].
Qed.

Lemma reads_finding id c0 ls bound s r :
  finding id c0 ls bound s -> lookup_move id Reads s = Some r -> exists s', r = Val s' /\ finding id c0 ls bound s'.
Proof.
  intros [Hp Hnd Hid Hu Hin Hw] H. simpl in H. destruct Hw as [Hw|(pre & c & rest & d & Hw & El & Hd & Hb)]; rewrite Hw in H; [done|].
  rewrite El in Hp. apply path_suffix in Hp as Hp'. destruct Hp' as (n & Hn & Hx & _). rewrite <- El in Hp.
  unfold find_step, load in H. rewrite Hn in H. cbn [mbind mem_bind] in H. injection H as <-. eexists. split; [done|].
  assert (id_at (store_of s) c = Some (worker_id (data n))) as Hc by (unfold id_at, data_at; by rewrite Hn).
  destruct (Z.eqb_spec (worker_id (data n)) id) as [E|E].
  - constructor; try done. left. simpl. f_equal. f_equal. apply Hu; [rewrite El; set_solver|congruence].
  - constructor; try done. right. destruct d as [|d]; [injection Hd as ->; congruence|]. destruct rest as [|c' rest]; [done|].
    rewrite Hx. exists (pre ++ [c]), c', rest, d. destruct s. simpl in *.
    split_and!; [done|by rewrite El, <- app_assoc|done|lia].
Qed.

(** A store that keeps the links forward and the identifiers. *)
Lemma store_finding id c0 ls bound s c f t' :
  finding id c0 ls bound s -> (forall n, next (f n) = next n /\ worker_id (data (f n)) = worker_id (data n)) ->
  store c f (store_of s) = Val t' -> finding id c0 ls bound (s {{ store_of := t' }}).
Proof.
  intros [Hp Hnd Hid Hu Hin Hw] Hf. unfold store, load. destruct (nodes (store_of s) !! c) as [n|] eqn:Hn; [|done]. intros [= <-].
  assert (forall d, id_at ((store_of s) {{ nodes := <[c := f n]> (nodes (store_of s)) }}) d = id_at (store_of s) d) as Hids.
  { intros d. unfold id_at, data_at. destruct (store_of s) as [m ts fk cl]. simpl in *. destruct (decide (c = d)) as [<-|Hne].
    - rewrite lookup_insert_eq, Hn. simpl. by rewrite (proj2 (Hf n)).
    - by rewrite lookup_insert_ne. }
  destruct s as [[m ts fk cl] pe wa it]. simpl in *. constructor; simpl; try done.
  - by eapply path_relink; [exact Hn|apply Hf|].
  - by rewrite Hids.
  - intros d Hd. rewrite Hids. by apply Hu.
  - destruct Hin as [Hin|(c' & n' & Hc' & Hn' & Hin)]; [by left|right]. exists c', n'. split_and!; [done..|]. simpl in *.
    destruct (decide (c = c')) as [<-|Hne].
    + destruct Hin as [[_ Hin]|(Hin & n2 & Hn2 & ? & ?)]; [congruence|]. right. split; [done|]. exists (f n). rewrite lookup_insert_eq.
      rewrite Hn in Hn2. injection Hn2 as ->. destruct (Hf n2) as [-> ->]. done.
    + by rewrite lookup_insert_ne.
Qed.

(** The three stores of an insertion. *)
Lemma alloc_finding id c0 ls bound s c n :
  finding id c0 ls bound s -> c ∉ head :: ls -> worker_id (data n) <> id -> pending s = insert_stores c n ->
  nodes (store_of s) !! c = None ->
  exists t, insert_alloc c n (store_of s) = Val t /\
    finding id c0 ls bound (s {{ store_of := t; pending := [insert_back c; insert_publish c] }}).
Proof.
  intros [Hp Hnd Hid Hu Hin Hw] Hc Hn Hpe Hfree. assert (exists t, insert_alloc c n (store_of s) = Val t) as [t Ht].
  { destruct Hp as (h & Hh & _). unfold insert_alloc, load. rewrite Hh. by eexists. }
  exists t. split; [done|]. destruct (insert_alloc_hidden _ _ _ _ Ht) as (Hp' & Hd & Ho).
  assert (forall d, d <> c -> id_at t d = id_at (store_of s) d) as Hids by (intros d Hd'; unfold id_at; by rewrite Ho).
  assert (c0 <> c) as Hne by (intros ->; unfold id_at, data_at in Hid; by rewrite Hfree in Hid).
  constructor; simpl; try done.
  - by apply Hp'.
  - by rewrite Hids.
  - intros d Hd'. rewrite Hids by (intros ->; by apply Hc). by apply Hu.
  - right. exists c, n. split_and!; [done..|]. right. split; [by left|]. destruct Hp as (h & Hh & Hx & _).
    unfold insert_alloc, load in Ht. rewrite Hh in Ht. injection Ht as <-. destruct (store_of s). simpl in *.
    eexists. rewrite lookup_insert_eq. split; [reflexivity|]. done.
  - rewrite Hpe in Hw. exact Hw.
Qed.

Lemma back_finding id c0 ls bound s c n' :
  finding id c0 ls bound s -> c ∉ head :: ls -> nodes (store_of s) !! c = Some n' -> next n' = list.head ls ->
  worker_id (data n') <> id -> pending s = [insert_back c; insert_publish c] ->
  exists t, insert_back c (store_of s) = Val t /\
    finding id c0 ls bound (s {{ store_of := t; pending := [insert_publish c] }}).
Proof.
  intros Hf Hc Hn Hx Hne Hpe.
  assert (finding id c0 ls bound (s {{ pending := [insert_publish c] }})) as Hf1.
  { destruct Hf as [Hp Hnd Hid Hu Hin Hw]. constructor; simpl; try done; [|by rewrite Hpe in Hw].
    right. exists c, n'. split_and!; [done..|]. right. split; [by right|]. by exists n'. }
  unfold insert_back, load. rewrite Hn. cbn [mbind mem_bind mem_of]. rewrite Hx. destruct ls as [|d ls]; cbn [list.head].
  { eexists. split; [reflexivity|]. by destruct s as [[]]. }
  destruct (path_in _ _ d (fi_path _ _ _ _ _ Hf)) as [k Hk]; [set_solver|].
  eexists. split; [unfold store, load; rewrite Hk; reflexivity|].
  refine (store_finding id c0 (d :: ls) bound (s {{ pending := [insert_publish c] }}) d (fun k => k {{ prev := Some c }}) _ Hf1 _ _).
  - done.
  - unfold store, load. destruct s as [[]]. simpl in *. by rewrite Hk.
Qed.

Lemma publish_finding id c0 ls bound s c n' :
  finding id c0 ls bound s -> c ∉ head :: ls -> nodes (store_of s) !! c = Some n' -> next n' = list.head ls ->
  worker_id (data n') <> id -> pending s = [insert_publish c] ->
  exists t, insert_publish c (store_of s) = Val t /\ finding id c0 (c :: ls) bound (s {{ store_of := t; pending := [] }}).
Proof.
  intros [Hp Hnd Hid Hu Hin Hw] Hc Hn Hx Hne Hpe. destruct Hp as (h & Hh & Hxh & Hls).
  unfold insert_publish, store, load. rewrite Hh. eexists. split; [reflexivity|].
  assert (c <> head /\ c ∉ ls) as [Hch Hcl] by set_solver. pose proof Hnd as [Hhl Hnl]%list.NoDup_cons.
  set (h' := h {{ next := Some c }}). destruct s as [[m ts fk cl] pe wa it]. simpl in *. subst pe.
  assert (forall d, id_at {| nodes := <[head := h']> m; tasks := ts; worker_forking := fk; closed := cl |} d =
    id_at {| nodes := m; tasks := ts; worker_forking := fk; closed := cl |} d) as Hids.
  { intros d. unfold id_at, data_at. simpl. destruct (decide (head = d)) as [<-|Hd]; [by rewrite lookup_insert_eq, Hh|by rewrite lookup_insert_ne]. }
  constructor; simpl.
  - exists h'. rewrite lookup_insert_eq. split_and!; [done..|]. exists n'. rewrite lookup_insert_ne by done.
    split_and!; [done..|]. by apply path_insert.
  - constructor; [set_solver|by constructor].
  - by rewrite Hids.
  - intros d Hd. rewrite Hids. intros Hd'. apply elem_of_cons in Hd as [->|[->|Hd]%elem_of_cons].
    + apply Hu; [by left|done].
    + unfold id_at, data_at in Hd'. simpl in Hd'. rewrite Hn in Hd'. simpl in Hd'. congruence.
    + apply Hu; [by right|done].
  - by left.
  - destruct Hw as [Hw|(pre & a & rest & d & Hw & El & Hd & Hb)]; [by left|right]. destruct pre as [|p pre].
    + injection El as <- <-. destruct d as [|d].
      * exists [], head, (c :: ls), 0%nat. split_and!; [done|done|done|lia].
      * exists [], head, (c :: ls), (S (S d)). split_and!; [done|done|done|lia].
    + injection El as <- ->. exists (head :: c :: pre), a, rest, d. split_and!; [done|done|done|lia].
Qed.

(** A move of the thread or of the others: an insertion that begins allows for one more
    iteration. *)
Lemma move_finding id c0 ls bound m s r :
  finding id c0 ls bound s -> fair_move id (store_of s) m -> lookup_move id m s = Some r ->
  exists s' ls', r = Val s' /\ finding id c0 ls' (bound + insertions [m]) s'.
Proof.
  intros H Hm Hr. destruct m as [c n| |c f|]; simpl in Hr; unfold insertions; simpl; rewrite ?Nat.add_0_r.
  - destruct (pending s) eqn:Hpe; [|done]. injection Hr as <-. exists (s {{ pending := insert_stores c n }}), ls. split; [done|].
    destruct H as [Hp Hnd Hid Hu Hin Hw], Hm as [Hfree Hn], s as [t pe wa it]. simpl in *. subst pe. constructor; simpl; try done.
    + right. exists c, n. split_and!; [|done|by left]. intros Hc. destruct (path_in _ _ _ Hp Hc) as [k Hk]. simpl in *. congruence.
    + destruct Hw as [Hw|(pre & a & rest & d & ? & ? & ? & ?)]; [by left|right]. exists pre, a, rest, d. split_and!; [done..|lia].
  - destruct (fi_insert _ _ _ _ _ H) as [Hpe|(c & n & Hc & Hn & [[Hpe Hfree]|[[Hpe|Hpe] (n' & Hn' & Hx & Hne)]])];
      rewrite Hpe in Hr; [done|..]; injection Hr as <-.
    + destruct (alloc_finding _ _ _ _ _ _ _ H Hc Hn Hpe Hfree) as (t & -> & Hf). by eexists _, ls.
    + destruct (back_finding _ _ _ _ _ _ _ H Hc Hn' Hx Hne Hpe) as (t & -> & Hf). by eexists _, ls.
    + destruct (publish_finding _ _ _ _ _ _ _ H Hc Hn' Hx Hne Hpe) as (t & -> & Hf). by eexists _, (c :: ls).
  - destruct Hm as [[n Hn] Hf]. injection Hr as <-. unfold store, load. rewrite Hn. cbn [mbind mem_bind mem_of].
    eexists _, ls. split; [reflexivity|]. apply (store_finding id c0 ls bound s c (fun n => n {{ data ::= f }})); [done| |].
    + intros k. split; [done|]. apply (Hf (data k)).
    + unfold store, load. by rewrite Hn.
  - destruct (reads_finding _ _ _ _ _ _ H Hr) as (s' & -> & Hf). by exists s', ls.
Qed.

Lemma run_finding id c0 ms ls bound s r :
  finding id c0 ls bound s -> fair id ms s -> lookup_run id ms s = Some r ->
  exists s' ls', r = Val s' /\ finding id c0 ls' (bound + insertions ms) s'.
Proof.
  revert ls bound s. induction ms as [|m ms IH]; intros ls bound s H Hf Hr; simpl in Hr.
  - injection Hr as <-. exists s, ls. unfold insertions. simpl. by rewrite Nat.add_0_r.
  - destruct Hf as [Hm Hf]. destruct (lookup_move id m s) as [r1|] eqn:E; [|done].
    destruct (move_finding _ _ _ _ _ _ _ H Hm E) as (s1 & ls1 & -> & H1). cbn [mbind option_bind] in Hr.
    destruct (IH _ _ _ H1 Hf Hr) as (s2 & ls2 & -> & H2). exists s2, ls2. split; [done|].
    replace (bound + insertions (m :: ms))%nat with (bound + insertions [m] + insertions ms)%nat; [done|].
    unfold insertions. rewrite (list.filter_cons _ m ms), list.filter_cons, list.filter_nil. case_decide; simpl; lia.
Qed.

(** C34: a worker finds itself while others are inserted.  Let the thread [id], whose
    structure is the [k]-th after the head's, run the loop of [current_get], while
    workers are inserted, by the stores of [current_fork] in their order, and the
    structures are stored to, all interleaved in any way, one store and one iteration at
    a time.  No access is undefined and the loop never ends without a structure, so the
    assertion on it holds; it ends with the thread's own structure, and as long as it has
    not it has made at most as many iterations as there were structures in front of it
    when it began and insertions since.  The accesses are taken to be seen in the order of
    the program, which the code, without locks or atomics, leaves to the machine. *)
Theorem lookup_during_insertions id ls t k c0 ms r :
  linked ls t -> (head :: ls) !! k = Some c0 -> id_at t c0 = Some id ->
  (forall c, c ∈ head :: ls -> id_at t c = Some id -> c = c0) ->
  fair id ms (lookup_begin t) -> lookup_run id ms (lookup_begin t) = Some r ->
  exists s, r = Val s /\
    (walker s = Finished (Some c0) \/ exists c, walker s = Searching c /\ (iterations s <= k + insertions ms)%nat).
Proof.
  intros H Hk Hid Hu Hf Hr. assert (finding id c0 ls k (lookup_begin t)) as H0.
  { constructor; try done; [eapply chain_path, (linked_chain _ _ H)|apply (linked_nodup _ _ H)|by left|].
    right. exists [], head, ls, k. simpl. split_and!; [done|done|done|lia]. }
  destruct (run_finding _ _ _ _ _ _ _ H0 Hf Hr) as (s & ls' & -> & H1). exists s. split; [done|].
  destruct (fi_walk _ _ _ _ _ H1) as [Hw|(pre & c & rest & d & Hw & _ & _ & Hb)]; [by left|right]. exists c. split; [done|lia].
Qed.

(** The thread 7 looks itself up while the thread 8 is inserted in front of it: it reads
    the head before the insertion, and again nothing but its own structure. *)
Definition demo_moves : list move :=
  [Begin_insert 3%positive (current_init 8 0); Next_store; Reads; Next_store; Next_store; Reads].

Lemma lookup_during_insertions_witness :
  exists t s, demo_threads = Val t /\ lookup_run 7 demo_moves (lookup_begin t) = Some (Val s) /\
    walker s = Finished (Some 2%positive).
Proof.
  destruct demo_threads_linked as (t & E & H & H2 & H1 & Hc).
  assert (fair 7 demo_moves (lookup_begin t)) as Hf.
  { clear H H2 H1 Hc. vm_compute in E. injection E as <-. vm_compute. split_and!; done. }
  destruct (lookup_run 7 demo_moves (lookup_begin t)) as [r|] eqn:Hr;
    [|clear - E Hr; vm_compute in E; injection E as <-; by vm_compute in Hr].
  destruct (lookup_during_insertions 7 [2%positive] t 1 2%positive demo_moves r H eq_refl H2) as (s & -> & Hs); [|exact Hf|exact Hr|].
  - intros c [->|[->|[]%elem_of_nil]%elem_of_cons]%elem_of_cons; [congruence|done].
  - exists t, s. split; [exact E|]. split; [exact Hr|]. destruct Hs as [Hs|(c & Hs & _)]; [exact Hs|]. exfalso.
    clear - E Hr Hs. vm_compute in E. injection E as <-. vm_compute in Hr. injection Hr as <-. by vm_compute in Hs.
Defined.

(** ** The reports of the workers *)

#[local] Arguments walk_fuel : simpl never.

Definition reports (t : threads) (l : list loc) : list ubwt_report := map report (omap (data_at t) l).

Lemma reports_from_chain t p l fuel :
  chain (nodes t) p l -> (length l <= fuel)%nat -> reports_from fuel (list.head l) t = Val (reports t l).
Proof.
  revert p l. induction fuel as [|fuel IH]; intros p [|c l] Hch Hf; try done; [simpl in Hf; lia|].
  destruct Hch as (n & Hn & _ & Hx & Hl). simpl. unfold load. rewrite Hn. simpl.
  rewrite Hx, (IH _ _ Hl) by (simpl in Hf; lia). unfold reports, omap. simpl.
  assert (data_at t c = Some (data n)) as -> by (unfold data_at; by rewrite Hn). done.
Qed.

(** [report_worker_combine] in the main thread combines the reports of exactly the
    workers of the list, the latest first, into the main thread's. *)
Lemma report_worker_combine_list ls t self :
  well_formed ls t -> id_at t head = Some self ->
  exists h, nodes t !! head = Some h /\
    report_worker_combine self t = store head (fun n => n {{ data ::= fun d => d {{ report ::=
      Report.report_worker_combine (config d) (reports t ls) }} }}) t.
Proof.
  intros H Hm. destruct (linked_head _ _ (wf_linked _ _ H)) as (h & Hh & _ & Hx). exists h. split; [done|].
  unfold report_worker_combine. rewrite (current_get_linked _ _ _ (wf_linked _ _ H)).
  cbn [first_with]. rewrite decide_True by done. unfold load. cbn [mbind mem_bind]. rewrite Hh. cbn [mem_of mbind mem_bind]. rewrite Hx.
  pose proof (linked_chain _ _ (wf_linked _ _ H)) as (n & _ & _ & _ & Hch).
  rewrite (reports_from_chain _ _ _ _ Hch); [done|].
  unfold walk_fuel. rewrite (linked_length _ _ (wf_linked _ _ H)). lia.
Qed.

(** ** Witnesses of the lookups *)

Definition demo_ops : list op :=
  [Fork 7 10%positive (Some 2%positive) 0 0 5; Fork 8 11%positive (Some 3%positive) 0 0 6; RunningSet 7 7].

Definition demo_start : threads :=
  let k := {| task_type := UBWT_WORKER_TASK_TYPE_NVR_INT; task_fun := "process_run"; task_arg := 0 |} in
  threads_init 1 0 {[ 10%positive := k; 11%positive := k ]}.

(** The stores of allowed operations are well formed. *)
Lemma run_ops_safe os ls t :
  well_formed ls t -> allowed_all os t -> safe (run_ops os t) (id_at t head) (survivors os (ids t ls)).
Proof.
  revert ls t. induction os as [|o os IH]; intros ls t H Ha; [by exists ls|]. destruct Ha as [Ho Ha].
  pose proof (op_safe o ls t H Ho) as Hs. simpl. destruct (run_op o t) as [t'| | |]; [|done..]. simpl.
  destruct Hs as (ls' & H' & <- & <-). by apply IH.
Qed.

Lemma demo_well_formed :
  exists t ls, run_ops demo_ops demo_start = Val t /\ well_formed ls t /\ ids t ls = [8; 7].
Proof.
  assert (allowed_all demo_ops demo_start) as Ha by (apply allowedb_all_ok; by vm_compute).
  pose proof (run_ops_safe _ [] _ (init_well_formed _ _ _) Ha) as Hs. fold demo_start in Hs.
  destruct (run_ops demo_ops demo_start) as [t| | |] eqn:E; [|by vm_compute in E|done..].
  destruct Hs as (ls & H & _ & Hi). by exists t, ls.
Qed.

Definition demo_store : threads := match run_ops demo_ops demo_start with Val t => t | _ => demo_start end.

Lemma demo_store_ok : exists ls, well_formed ls demo_store /\ ids demo_store ls = [8; 7].
Proof.
  destruct demo_well_formed as (t & ls & E & H & Hi). exists ls. unfold demo_store. by rewrite E.
Qed.

Lemma current_get_finds_witness :
  exists c, current_get 7 demo_store = Val c /\ id_at demo_store c = Some 7.
Proof.
  destruct demo_store_ok as (ls & H & Hi).
  pose proof (current_get_finds ls demo_store 7 None H ltac:(done)) as Hf.
  destruct (first_with demo_store 7 (head :: ls)) as [c|]; [exists c; by split; apply Hf|].
  destruct (proj1 Hf 2%positive). by vm_compute.
Defined.

Lemma current_get_tls_ignores_id_witness :
  current_get_tls 7 (Some 2%positive) 8 demo_store = Val (2%positive, Some 2%positive) /\
  current_get 8 demo_store = Val 3%positive.
Proof.
  destruct demo_store_ok as (ls & H & _).
  destruct (current_get_tls_ignores_id ls demo_store 7 8 2%positive 3%positive (Some 2%positive) H) as (E1 & E2 & _);
    [by vm_compute|done|by vm_compute|by vm_compute|done|by split].
Defined.

(** The locations of a well-formed store follow the links. *)
Lemma chain_links m p c l : chain m p (c :: l) -> next <$> m !! c = Some (list.head l) /\ chain m (Some c) l.
Proof. intros (n & -> & _ & Hx & H). simpl. by rewrite Hx. Qed.

Lemma demo_store_list ls : well_formed ls demo_store -> ls = [3%positive; 2%positive].
Proof.
  intros H. pose proof (linked_chain _ _ (wf_linked _ _ H)) as Hc.
  apply chain_links in Hc as [E Hc]. vm_compute in E. destruct ls as [|c ls]; [done|]. injection E as <-.
  apply chain_links in Hc as [E Hc]. vm_compute in E. destruct ls as [|c ls]; [done|]. injection E as <-.
  apply chain_links in Hc as [E Hc]. vm_compute in E. by destruct ls.
Qed.

Lemma children_has_flag_counts_witness :
  current_children_has_flag UBWT_WORKER_FLAG_TASK_READY 2 demo_store = Val true /\
  current_children_has_flag UBWT_WORKER_FLAG_TASK_RUNNING 2 demo_store = Val false.
Proof.
  destruct demo_store_ok as (ls & H & _). rewrite (demo_store_list ls H) in H.
  split.
  - rewrite (children_has_flag_counts _ demo_store UBWT_WORKER_FLAG_TASK_READY 2 H ltac:(lia)). by vm_compute.
  - rewrite (children_has_flag_counts _ demo_store UBWT_WORKER_FLAG_TASK_RUNNING 2 H ltac:(lia)). by vm_compute.
Defined.
