(* ===== verification/Worker.v ===== *)
(** Creating, waiting for and cancelling workers: src/worker.c.

    [worker_task_create] starts a thread and waits until the thread has entered the
    list; the thread says so through the variable [__worker_forking], which it
    writes, and the condition it signals, without taking the mutex that the main
    thread tests the variable under.  The handshake is a transition system of the
    two threads, with their steps in any order. *)

From S2P Require Import Prelude Bitops Errors Byteorder Layout ConfigData Double Report Stage Thread Current CurrentSpec.

(** ** The creation of a worker *)

(** Where the main thread is in [worker_task_create]. *)
Inductive main_place :=
| Calling             (** before [current_forking_set(1)] *)
| Forking             (** before [pthread_create] *)
| Locking             (** before [worker_mutex_lock] *)
| Testing             (** holding the mutex, before [current_forking_get] *)
| Waiting             (** the test was true: before [worker_cond_wait] *)
| Sleeping            (** in [worker_cond_wait] *)
| Waking              (** signalled, before the mutex is locked again *)
| Returning.          (** after [worker_mutex_unlock] *)

(** Where the new thread is in [_worker_task_init]. *)
Inductive child_place :=
| NotCreated
| Started             (** before [current_fork] *)
| Forked              (** before [current_forking_set(0)] *)
| Cleared             (** before [worker_cond_signal] *)
| InTask              (** running its task *)
| Running             (** after [current_running_set] in the task *).

#[export] Instance main_place_eq_dec : EqDecision main_place.
Proof. solve_decision. Defined.
#[export] Instance child_place_eq_dec : EqDecision child_place.
Proof. solve_decision. Defined.

(** The two threads, [__worker_forking], and whether the new thread is in the list. *)
Record creation := {
  main_at : main_place;
  child_at : child_place;
  forking : Z;
  listed : bool
}.

Definition creation_start : creation :=
  {| main_at := Calling; child_at := NotCreated; forking := 0; listed := false |}.

(** [worker_cond_signal]: the main thread is the only one that waits. *)
Definition signal (s : creation) : creation :=
  s {{ main_at ::= fun p => if decide (p = Sleeping) then Waking else p }}.

(** [worker_task_create]; only the main thread takes the mutex. *)
Definition main_step (s : creation) : option creation :=
  match main_at s with
  | Calling => Some (s {{ forking := 1; main_at := Forking }})
  | Forking => Some (s {{ child_at := Started; main_at := Locking }})
  | Locking | Waking => Some (s {{ main_at := Testing }})
  | Testing => Some (s {{ main_at := if truth (forking s) then Waiting else Returning }})
  | Waiting => Some (s {{ main_at := Sleeping }})
  | Sleeping | Returning => None
  end.

(** [_worker_task_init] up to the call of the task. *)
Definition child_step (s : creation) : option creation :=
  match child_at s with
  | Started => Some (s {{ listed := true; child_at := Forked }})
  | Forked => Some (s {{ forking := 0; child_at := Cleared }})
  | Cleared => Some (signal (s {{ child_at := InTask }}))
  | NotCreated | InTask | Running => None
  end.

(** The first signal of the task, [current_running_set] at the end of [talk_init]:
    it comes after the connection with the other end. *)
Definition task_step (s : creation) : option creation :=
  match child_at s with
  | InTask => Some (signal (s {{ child_at := Running }}))
  | _ => None
  end.

(** [step_other]: a worker that was created before signals, in [current_running_set],
    [current_running_unset] or [current_exit]; [step_spurious]: the system wakes the main
    thread up for no reason. *)
Inductive creation_step : creation -> creation -> Prop :=
| step_main s s' : main_step s = Some s' -> creation_step s s'
| step_child s s' : child_step s = Some s' -> creation_step s s'
| step_task s s' : task_step s = Some s' -> creation_step s s'
| step_other s : creation_step s (signal s)
| step_spurious s : main_at s = Sleeping -> creation_step s (s {{ main_at := Waking }}).

Inductive created : creation -> Prop :=
| created_start : created creation_start
| created_step s s' : created s -> creation_step s s' -> created s'.

(** What holds in every state. *)
Definition child_past_clear (c : child_place) : bool :=
  match c with Cleared | InTask | Running => true | _ => false end.

Definition creation_inv (s : creation) : Prop :=
  match main_at s with
  | Calling => child_at s = NotCreated /\ forking s = 0
  | Forking => child_at s = NotCreated /\ forking s = 1
  | _ => child_at s <> NotCreated /\ forking s = (if child_past_clear (child_at s) then 0 else 1)
  end /\
  (child_at s = NotCreated \/ child_at s = Started \/ listed s = true) /\
  (main_at s = Returning -> child_past_clear (child_at s) = true).

Lemma creation_inv_reachable s : created s -> creation_inv s.
Proof.
  induction 1 as [|s s' _ IH Hs]; [by repeat split; auto|].
  destruct Hs as [s s' E|s s' E|s s' E|s|s E]; destruct s as [m c f l];
    unfold main_step, child_step, task_step in *; unfold creation_inv in *; simpl in *.
  - destruct m; simplify_eq/=; try done; destruct c; simpl in *; intuition (try congruence); subst; simpl in *; intuition congruence.
  - destruct c; simplify_eq/=; destruct m; unfold signal; simpl in *; intuition congruence.
  - destruct c; simplify_eq/=; destruct m; unfold signal; simpl in *; intuition congruence.
  - destruct m; unfold signal; simpl in *; intuition congruence.
  - subst m. simpl in *. intuition congruence.
Qed.

(** The new thread has signalled before the main thread slept. *)
Definition wakeup_lost (s : creation) : Prop :=
  main_at s = Sleeping /\ child_at s = InTask /\ forking s = 0 /\ listed s = true.

Fixpoint run_creation (order : list bool) (s : creation) : option creation :=
  match order with
  | [] => Some s
  | b :: order => s' ← (if b then main_step s else child_step s); run_creation order s'
  end.

Lemma run_creation_created order s s' : created s -> run_creation order s = Some s' -> created s'.
Proof.
  revert s. induction order as [|b order IH]; intros s H; simpl; [by intros [= <-]|].
  destruct (if b then main_step s else child_step s) as [s1|] eqn:E; [|done]. simpl.
  apply IH. destruct b; eapply created_step; eauto using creation_step.
Qed.

(** Steps of the main thread after the signal of the new thread. *)
Lemma returns_after_wake s :
  creation_inv s -> main_at s = Waking -> child_past_clear (child_at s) = true ->
  exists s', run_creation [true; true] s = Some s' /\ main_at s' = Returning /\ listed s' = true.
Proof.
  destruct s as [m c f l]. unfold creation_inv. simpl. intros [Hf [Hl _]] -> Hc.
  destruct Hf as [_ Hf]. rewrite Hc in Hf. subst f. eexists. split; [reflexivity|].
  split; [done|]. simpl. destruct c; simpl in *; intuition congruence.
Qed.

(** C22: what [worker_task_create] guarantees and what it does not.  When it returns,
    the new thread is in the list and has left the creation, so [__worker_forking]
    can be used for the next one.  But the new thread clears the variable and
    signals without the mutex: it can do both after the main thread has seen that
    the variable is set and before the main thread sleeps, and then the main thread
    sleeps, with nothing left to wait for, until the task signals for its own
    reasons - after it has connected with the other end - or an earlier worker does, or
    the system wakes it up for none; then it returns. *)
Theorem worker_creation :
  (forall s, created s -> main_at s = Returning -> listed s = true /\ forking s = 0) /\
  (exists s, created s /\ wakeup_lost s) /\
  (forall s, created s -> wakeup_lost s -> main_step s = None /\ child_step s = None /\
    exists s', task_step s = Some s' /\ exists s2, run_creation [true; true] s' = Some s2 /\ main_at s2 = Returning).
Proof.
  split_and!.
  - intros s Hs Hr. apply creation_inv_reachable in Hs as (Hf & Hl & Hp). specialize (Hp Hr).
    rewrite Hr in Hf. destruct Hf as [_ ->]. rewrite Hp. split; [|done].
    destruct (child_at s); simpl in *; intuition congruence.
  - exists {| main_at := Sleeping; child_at := InTask; forking := 0; listed := true |}. split; [|done].
    apply (run_creation_created [true; true; true; true; false; false; false; true] creation_start); [constructor|done].
  - intros s Hs (Hm & Hc & Hf & Hl). unfold main_step, child_step, task_step. rewrite Hm, Hc.
    split_and!; [done..|]. eexists. split; [reflexivity|].
    destruct s as [m c f l]. simpl in *. subst. eexists. by split.
Qed.

(** Without the race the main thread returns by the new thread's signal. *)
Example creation_in_order :
  main_at <$> run_creation [true; true; true; true; true; false; false; false; true; true] creation_start = Some Returning.
Proof. reflexivity. Qed.

(** ** Operations on the store of threads *)

(** [worker_task_join]: [r] is the result of [pthread_join]. *)
Definition worker_task_join (self tid r : Z) (t : threads) : mem threads :=
  t ← current_join self tid t;
  if truth r then End (Aborted "pthread_join") else Val t.

(** [worker_task_has_flag]. *)
Definition worker_task_has_flag (flag count : Z) (t : threads) : mem bool := current_children_has_flag flag count t.

(** [current->...] through [current_get]: the lookup may be by thread-specific data. *)
Section cancellation.
Variable get : Z -> threads -> mem loc.

Definition worker_im_cancelled (self : Z) (t : threads) : mem Z :=
  c ← get self t;
  n ← load t c;
  Val (bit_test (worker_flags (data n)) UBWT_WORKER_FLAG_CANCEL_REQUESTED).

Definition worker_is_cancelled (tid : Z) (t : threads) : mem Z :=
  c ← get tid t;
  n ← load t c;
  Val (bit_test (worker_flags (data n)) UBWT_WORKER_FLAG_CANCEL_COMPLETED).

(** [r] is the result of [pthread_cancel]. *)
Definition worker_cancel (tid r : Z) (t : threads) : mem threads :=
  c ← get tid t;
  t ← store c (set_flags (fun w => bit_set w UBWT_WORKER_FLAG_CANCEL_REQUESTED)) t;
  if truth r then End (Aborted "pthread_cancel") else Val t.

End cancellation.

(** The task of a new thread, after [current_fork] and the handshake: the call to make. *)
Definition worker_task_call (k : ubwt_worker_task_t) : mem (string * Z) :=
  if task_type k =? UBWT_WORKER_TASK_TYPE_NVR_ANY then Val (task_fun k, task_arg k)
  else if task_type k =? UBWT_WORKER_TASK_TYPE_NVR_INT then Val (task_fun k, task_arg k)
  else End (Aborted "_worker_task_init").

(** A thread that was asked to stop sees the request, if threads are looked up in the
    list. *)
Lemma cancel_seen ls t tid c :
  well_formed ls t -> first_with t tid (head :: ls) = Some c ->
  exists t', worker_cancel current_get tid 0 t = Val t' /\ well_formed ls t' /\
    exists z, worker_im_cancelled current_get tid t' = Val z /\ z <> 0.
Proof.
  intros H Hc. apply first_with_Some in Hc as Hin. destruct Hin as [Hin Hid].
  destruct (set_flags_well_formed ls t (fun w => bit_set w UBWT_WORKER_FLAG_CANCEL_REQUESTED) c H) as (t1 & E & H1 & _ & Hid1 & Hd1);
    [apply set_keeps; [split; vm_compute; congruence|done]|done|].
  unfold worker_cancel. rewrite (current_get_linked _ _ _ (wf_linked _ _ H)), Hc. simpl. rewrite E. simpl.
  exists t1. split_and!; [done|done|]. unfold worker_im_cancelled.
  rewrite (current_get_linked _ _ _ (wf_linked _ _ H1)), (first_with_unique t1 tid _ c Hin); [|by rewrite Hid1|apply (wf_ids _ _ H1)].
  simpl. specialize (Hd1 c). destruct (decide (c = c)) as [_|Hn]; [|by destruct Hn]. unfold id_at, data_at, load in *.
  destruct (nodes t1 !! c) as [n1|]; [|destruct (nodes t !! c); discriminate].
  destruct (nodes t !! c) as [n|]; [|discriminate]. simpl in *. injection Hd1 as Hd1. eexists. split; [reflexivity|].
  rewrite <- truth_spec, bit_test_true, Hd1 by (split; vm_compute; congruence). cbn [worker_flags].
  rewrite bit_set_testbit; [by rewrite Z.eqb_refl|split; vm_compute; congruence|vm_compute; congruence].
Qed.
