(* ===== verification/Pthread.v ===== *)
(** The objects of the pthread library: the wrappers of src/worker.c, and what
    [worker_init] and [worker_destroy] set up and destroy.

    A call of the library is an event, answered by the script of the system.  Besides
    its result, a call has a meaning only on the objects it is specified for: to
    initialise an object twice, to use or destroy one that is not initialised, to lock
    a mutex again or to unlock or destroy it otherwise than its state allows is
    undefined (or never returns), and [Misused] here.  The wrappers end the process
    if the call fails, except for those that ignore the result. *)

From S2P Require Import Prelude Bitops Errors Byteorder Layout ConfigData Usage Double Report Stage Thread Config ConfigSpec Conn Net NetSpec Talk Process Current.

(** ** Objects and calls *)

(** The static objects of worker.c, the mutex of each structure of the list of threads,
    and the barriers: pthread's, or two mutexes and two conditions. *)
Inductive pobject :=
| Mutex_global | Mutex_cond | Cond_global
| Mutex_local (c : loc)
| Barrier_global (i : nat)
| Mutex_barrier (i k : nat)
| Cond_barrier (i k : nat)
| Key_cptr.

#[export] Instance pobject_eq_dec : EqDecision pobject.
Proof. solve_decision. Defined.

(** [P_total]: the assignment of [total] and [count] in a barrier of the program's own,
    no call. *)
Inductive pcall :=
| P_mutex_init (o : pobject) | P_mutex_lock (o : pobject) | P_mutex_trylock (o : pobject)
| P_mutex_unlock (o : pobject) | P_mutex_destroy (o : pobject)
| P_cond_init (o : pobject) | P_cond_wait (o m : pobject) | P_cond_timedwait (o m : pobject) (abstime : Z * Z)
| P_cond_signal (o : pobject) | P_cond_broadcast (o : pobject) | P_cond_destroy (o : pobject)
| P_barrier_init (i : nat) (count : Z) | P_barrier_wait (i : nat) | P_barrier_destroy (i : nat)
| P_key_create | P_key_delete | P_setspecific (v : option loc)
| P_cancel (tid : Z)
| P_total (i : nat) (count : option Z).

(** The name the wrapper gives to [error_abort]. *)
Definition pname (e : pcall) : string :=
  match e with
  | P_mutex_init _ => "pthread_mutex_init"
  | P_mutex_lock _ => "pthread_mutex_lock"
  | P_mutex_trylock _ => "pthread_mutex_trylock"
  | P_mutex_unlock _ => "pthread_mutex_unlock"
  | P_cond_init _ => "pthread_cond_init"
  | P_cond_wait _ _ => "pthread_cond_wait"
  | P_cond_signal _ => "pthread_cond_signal"
  | P_cond_broadcast _ => "pthread_cond_broadcast"
  | P_barrier_init _ _ => "pthread_barrier_init"
  | P_key_create => "pthread_key_create"
  | P_key_delete => "pthread_key_delete"
  | P_setspecific _ => "pthread_setspecific"
  | P_cancel _ => "pthread_cancel"
  | _ => ""
  end.

(** The process, as far as the library is concerned: the answers to come, the objects
    that are initialised, the mutexes that are locked, for how many threads each barrier
    is set up, the thread's value of the key, and the list of threads; [nested] tells
    whether a mutex was ever asked for while another was held. *)
Record pstate := {
  answers : list Z;
  live : list pobject;
  held : list pobject;
  nested : bool;
  totals : list (option Z);
  specific : option loc;
  memory : threads
}.

Inductive pres (A : Type) :=
| Got (a : A) (s : pstate)
| Stops (e : stop)
| Misused
| Endless.
Arguments Got {A} _ _.
Arguments Stops {A} _.
Arguments Misused {A}.
Arguments Endless {A}.

Definition P (A : Type) : Type := pstate -> pres A.

#[export] Instance P_ret : MRet P := fun A a s => Got a s.
#[export] Instance P_bind : MBind P := fun A B f m s =>
  match m s with
  | Got a s => f a s
  | Stops e => Stops e
  | Misused => Misused
  | Endless => Endless
  end.

(** The process ends. *)
Definition stops {A : Type} (e : stop) : P A := fun _ => Stops e.

(** An access to the list of threads. *)
Definition access {A : Type} (f : threads -> mem A) : P A := fun s =>
  match f (memory s) with
  | Val a => Got a s
  | End e => Stops e
  | Undefined => Misused
  | Loops => Endless
  end.

Definition change (f : threads -> mem threads) : P unit := fun s =>
  match access f s with
  | Got t s => Got tt (s {{ memory := t }})
  | Stops e => Stops e
  | Misused => Misused
  | Endless => Endless
  end.

(** A change that other threads may see, which the mutex [o] protects. *)
Definition guarded (o : pobject) (f : threads -> mem threads) : P unit := fun s =>
  if bool_decide (o ∈ held s) then change f s else Misused.

(** ** The calls *)

(** Whether a call is one the library specifies. *)
Definition usable (e : pcall) (s : pstate) : bool :=
  match e with
  | P_mutex_init o | P_cond_init o => bool_decide (o ∉ live s)
  | P_mutex_lock o | P_mutex_destroy o => bool_decide (o ∈ live s) && bool_decide (o ∉ held s)
  | P_mutex_unlock o => bool_decide (o ∈ held s)
  | P_mutex_trylock o | P_cond_signal o | P_cond_broadcast o | P_cond_destroy o => bool_decide (o ∈ live s)
  | P_cond_wait o m | P_cond_timedwait o m _ => bool_decide (o ∈ live s) && bool_decide (m ∈ held s)
  | P_barrier_init i count => bool_decide (Barrier_global i ∉ live s)
  | P_barrier_wait i | P_barrier_destroy i => bool_decide (Barrier_global i ∈ live s)
  | P_key_create => bool_decide (Key_cptr ∉ live s)
  | P_key_delete | P_setspecific _ => bool_decide (Key_cptr ∈ live s)
  | P_cancel _ | P_total _ _ => true
  end.

Definition without (o : pobject) (l : list pobject) : list pobject := filter (fun x => x <> o) l.

(** What a call does if it succeeds. *)
Definition effect (e : pcall) (s : pstate) : pstate :=
  match e with
  | P_mutex_init o | P_cond_init o => s {{ live ::= cons o }}
  | P_mutex_lock o => s {{ nested ::= fun n => n || negb (bool_decide (held s = [])); held ::= cons o }}
  | P_mutex_trylock o => s {{ held ::= cons o }}
  | P_mutex_unlock o => s {{ held ::= without o }}
  | P_mutex_destroy o | P_cond_destroy o => s {{ live ::= without o }}
  | P_barrier_init i count => s {{ live ::= cons (Barrier_global i); totals ::= <[i := Some count]> }}
  | P_barrier_destroy i => s {{ live ::= without (Barrier_global i); totals ::= <[i := None]> }}
  | P_key_create => s {{ live ::= cons Key_cptr; specific := None }}
  | P_key_delete => s {{ live ::= without Key_cptr }}
  | P_setspecific v => s {{ specific := v }}
  | P_total i count => s {{ totals ::= <[i := count]> }}
  | _ => s
  end.

Definition is_call (e : pcall) : bool := match e with P_total _ _ => false | _ => true end.

(** A mutex that is locked is busy for [pthread_mutex_trylock]; no barrier is for zero
    threads. *)
Definition EBUSY : Z := 16.

Definition result_of (e : pcall) (s : pstate) : Z :=
  match e with
  | P_mutex_trylock o => if bool_decide (o ∈ held s) then EBUSY else default 0 (list.head (answers s))
  | P_barrier_init _ count => if count =? 0 then errno_value EINVAL else default 0 (list.head (answers s))
  | _ => if is_call e then default 0 (list.head (answers s)) else 0
  end.

Definition pthread (e : pcall) : P Z := fun s =>
  if usable e s then
    let r := result_of e s in
    let s := if is_call e then s {{ answers ::= tail }} else s in
    Got r (if r =? 0 then effect e s else s)
  else Misused.

(** [if (pthread_...(...)) error_abort(__FILE__, __LINE__, "pthread_...")]. *)
Definition checked (e : pcall) : P unit :=
  r ← pthread e;
  if r =? 0 then mret tt else stops (Aborted (pname e)).

Definition ignored (e : pcall) : P unit := _ ← pthread e; mret tt.

(** ** The wrappers *)

Definition worker_mutex_init (o : pobject) : P unit := checked (P_mutex_init o).
Definition worker_mutex_lock (o : pobject) : P unit := checked (P_mutex_lock o).
Definition worker_mutex_trylock (o : pobject) : P unit := checked (P_mutex_trylock o).
Definition worker_mutex_unlock (o : pobject) : P unit := checked (P_mutex_unlock o).
Definition worker_mutex_destroy (o : pobject) : P unit := ignored (P_mutex_destroy o).
Definition worker_cond_init (o : pobject) : P unit := checked (P_cond_init o).
Definition worker_cond_wait (o m : pobject) : P unit := checked (P_cond_wait o m).
Definition worker_cond_timedwait (o m : pobject) (abstime : Z * Z) : P unit := ignored (P_cond_timedwait o m abstime).
Definition worker_cond_signal (o : pobject) : P unit := checked (P_cond_signal o).
Definition worker_cond_broadcast (o : pobject) : P unit := checked (P_cond_broadcast o).
Definition worker_cond_destroy (o : pobject) : P unit := ignored (P_cond_destroy o).
Definition worker_key_create : P unit := checked P_key_create.
Definition worker_key_delete : P unit := checked P_key_delete.
Definition worker_setspecific (v : option loc) : P unit := checked (P_setspecific v).

(** [pthread_getspecific] is specified for a key that exists. *)
Definition worker_getspecific : P (option loc) := fun s =>
  if bool_decide (Key_cptr ∈ live s) then Got (specific s) s else Misused.

Section build.
Variable b : build.

Definition custom_barrier : bool := defined (UBWT_CONFIG_PTHREAD_CUSTOM_BARRIER b).
Definition local_storage : bool := defined (UBWT_CONFIG_PTHREAD_LOCAL_STORAGE b).

Definition worker_barrier_init (i : nat) (count : Z) : P unit :=
  if custom_barrier then
    checked (P_total i (Some count)) ;;
    worker_mutex_init (Mutex_barrier i 0) ;;
    worker_mutex_init (Mutex_barrier i 1) ;;
    worker_cond_init (Cond_barrier i 0) ;;
    worker_cond_init (Cond_barrier i 1)
  else checked (P_barrier_init i count).

(** With pthread's barriers; Barrier.v has the program's own. *)
Definition PTHREAD_BARRIER_SERIAL_THREAD : Z := -1.

Definition worker_barrier_wait (i : nat) : P bool :=
  r ← pthread (P_barrier_wait i); mret (r =? PTHREAD_BARRIER_SERIAL_THREAD).

Definition worker_barrier_destroy (i : nat) : P unit :=
  if custom_barrier then
    worker_mutex_destroy (Mutex_barrier i 0) ;;
    worker_mutex_destroy (Mutex_barrier i 1) ;;
    worker_cond_destroy (Cond_barrier i 0) ;;
    worker_cond_destroy (Cond_barrier i 1) ;;
    ignored (P_total i None)
  else ignored (P_barrier_destroy i).

(** [c] is [*current->config]. *)
Definition worker_init (c : ubwt_config) : P unit :=
  (if truth (worker_straight_first_count c) && truth (bidirectional c)
   then worker_barrier_init 0 (worker_straight_first_count c)
   else if truth (worker_straight_first_count c) then worker_barrier_init 0 (worker_straight_first_count c)
   else if truth (bidirectional c) then worker_barrier_init 0 (worker_count c) else mret tt) ;;
  (if truth (worker_reverse_first_count c) && truth (bidirectional c)
   then worker_barrier_init 1 (worker_reverse_first_count c)
   else if truth (worker_reverse_first_count c) then worker_barrier_init 1 (worker_reverse_first_count c)
   else if truth (bidirectional c) then worker_barrier_init 1 (worker_count c) else mret tt) ;;
  (if truth (asynchronous c) then worker_barrier_init 2 (worker_count c) else mret tt) ;;
  worker_mutex_init Mutex_global ;;
  worker_mutex_init Mutex_cond ;;
  worker_cond_init Cond_global ;;
  (if local_storage then worker_key_create else mret tt).

Definition worker_destroy (c : ubwt_config) : P unit :=
  (if truth (worker_straight_first_count c) || truth (bidirectional c) then worker_barrier_destroy 0 else mret tt) ;;
  (if truth (worker_reverse_first_count c) || truth (bidirectional c) then worker_barrier_destroy 1 else mret tt) ;;
  (if truth (asynchronous c) then worker_barrier_destroy 2 else mret tt) ;;
  worker_mutex_destroy Mutex_global ;;
  worker_mutex_destroy Mutex_cond ;;
  worker_cond_destroy Cond_global ;;
  (if local_storage then worker_key_delete else mret tt).

End build.

(** ** Lists of calls *)

(** Whether the wrapper looks at the result. *)
Definition checks (e : pcall) : bool :=
  match e with
  | P_mutex_destroy _ | P_cond_destroy _ | P_cond_timedwait _ _ _ | P_barrier_destroy _ => false
  | _ => true
  end.

Definition wrapped (e : pcall) : P unit := if checks e then checked e else ignored e.

Fixpoint run_calls (l : list pcall) : P unit :=
  match l with
  | [] => mret tt
  | e :: l => wrapped e ;; run_calls l
  end.

(** The calls for the barriers of a configuration, [l] from the [i]-th on. *)
Definition barrier_calls (custom : bool) (i : nat) (count : Z) : list pcall :=
  if custom then
    [P_total i (Some count); P_mutex_init (Mutex_barrier i 0); P_mutex_init (Mutex_barrier i 1);
     P_cond_init (Cond_barrier i 0); P_cond_init (Cond_barrier i 1)]
  else [P_barrier_init i count].

Definition barrier_ends (custom : bool) (i : nat) : list pcall :=
  if custom then
    [P_mutex_destroy (Mutex_barrier i 0); P_mutex_destroy (Mutex_barrier i 1);
     P_cond_destroy (Cond_barrier i 0); P_cond_destroy (Cond_barrier i 1); P_total i None]
  else [P_barrier_destroy i].

Definition for_barriers {A : Type} (f : nat -> Z -> list A) (l : list (option Z)) : list A :=
  concat (imap (fun i o => match o with Some n => f i n | None => [] end) l).

Definition init_calls (b : build) (c : ubwt_config) : list pcall :=
  for_barriers (barrier_calls (custom_barrier b)) (Process.worker_init c) ++
  [P_mutex_init Mutex_global; P_mutex_init Mutex_cond; P_cond_init Cond_global] ++
  (if local_storage b then [P_key_create] else []).

Definition destroy_calls (b : build) (c : ubwt_config) : list pcall :=
  for_barriers (fun i _ => barrier_ends (custom_barrier b) i) (Process.worker_init c) ++
  [P_mutex_destroy Mutex_global; P_mutex_destroy Mutex_cond; P_cond_destroy Cond_global] ++
  (if local_storage b then [P_key_delete] else []).

Lemma P_bind_assoc {A B C : Type} (m : P A) (f : A -> P B) (g : B -> P C) s :
  ((m ≫= f) ≫= g) s = (m ≫= (fun a => f a ≫= g)) s.
Proof. unfold mbind, P_bind. by destruct (m s). Qed.

Lemma P_bind_ext {A B : Type} (m m' : P A) (f f' : A -> P B) s :
  m s = m' s -> (forall a s', f a s' = f' a s') -> (m ≫= f) s = (m' ≫= f') s.
Proof. intros H Hf. unfold mbind, P_bind. rewrite H. by destruct (m' s). Qed.

Lemma run_calls_app l1 l2 s : run_calls (l1 ++ l2) s = (run_calls l1 ;; run_calls l2) s.
Proof.
  revert s. induction l1 as [|e l1 IH]; intros s; [done|]. simpl. rewrite P_bind_assoc.
  apply P_bind_ext; [done|]. intros [] s'. apply IH.
Qed.

(** Two computations in sequence, each a list of calls. *)
Lemma run_calls_seq (m1 m2 : P unit) l1 l2 s :
  (forall s, m1 s = run_calls l1 s) -> (forall s, m2 s = run_calls l2 s) -> (m1 ;; m2) s = run_calls (l1 ++ l2) s.
Proof. intros H1 H2. rewrite run_calls_app. apply P_bind_ext; [apply H1|]. intros _. apply H2. Qed.

Lemma run_calls_one (m : P unit) e s : (forall s, m s = wrapped e s) -> m s = run_calls [e] s.
Proof. intros H. simpl. unfold mbind, P_bind. rewrite H. by destruct (wrapped e s) as [[] ?| | |]. Qed.

Lemma run_calls_two (m1 m2 : P unit) e l s :
  (forall s, m1 s = wrapped e s) -> (forall s, m2 s = run_calls l s) -> (m1 ;; m2) s = run_calls (e :: l) s.
Proof. intros H1 H2. apply (run_calls_seq m1 m2 [e] l); [intros s'; by apply run_calls_one|done]. Qed.

Ltac calls := repeat (apply run_calls_two; [done|intros ?]); by apply run_calls_one.

Lemma barrier_init_is b i count s : worker_barrier_init b i count s = run_calls (barrier_calls (custom_barrier b) i count) s.
Proof. unfold worker_barrier_init, barrier_calls. destruct (custom_barrier b); calls. Qed.

Lemma barrier_destroy_is b i s : worker_barrier_destroy b i s = run_calls (barrier_ends (custom_barrier b) i) s.
Proof. unfold worker_barrier_destroy, barrier_ends. destruct (custom_barrier b); calls. Qed.

Lemma run_none s : (mret tt : P unit) s = run_calls [] s.
Proof. done. Qed.

(** Every outcome of the tests of the configuration. *)
Ltac by_tests :=
  repeat match goal with
  | |- context [truth ?x] => destruct (truth x); simpl
  end.

Lemma worker_init_is b c s : worker_init b c s = run_calls (init_calls b c) s.
Proof.
  unfold worker_init, init_calls, for_barriers, Process.worker_init. cbn [imap concat compose].
  rewrite app_nil_r, <- !app_assoc.
  do 3 (apply run_calls_seq; clear s; intros s; [by_tests; first [apply barrier_init_is|apply run_none]|]).
  do 3 (apply run_calls_two; [done|]; clear s; intros s). destruct (local_storage b); [by apply run_calls_one|done].
Qed.

Lemma worker_destroy_is b c s : worker_destroy b c s = run_calls (destroy_calls b c) s.
Proof.
  unfold worker_destroy, destroy_calls, for_barriers, Process.worker_init. cbn [imap concat compose].
  rewrite app_nil_r, <- !app_assoc.
  do 3 (apply run_calls_seq; clear s; intros s; [by_tests; first [apply barrier_destroy_is|apply run_none]|]).
  do 3 (apply run_calls_two; [done|]; clear s; intros s). destruct (local_storage b); [by apply run_calls_one|done].
Qed.

(** ** What the calls do *)

(** The objects a call initialises, and destroys. *)
Definition makes (e : pcall) : list pobject :=
  match e with
  | P_mutex_init o | P_cond_init o => [o]
  | P_barrier_init i _ => [Barrier_global i]
  | P_key_create => [Key_cptr]
  | _ => []
  end.

Definition ends (e : pcall) : list pobject :=
  match e with
  | P_mutex_destroy o | P_cond_destroy o => [o]
  | P_barrier_destroy i => [Barrier_global i]
  | P_key_delete => [Key_cptr]
  | _ => []
  end.

Definition set_total (t : list (option Z)) (e : pcall) : list (option Z) :=
  match e with
  | P_barrier_init i n => <[i := Some n]> t
  | P_barrier_destroy i => <[i := None]> t
  | P_total i n => <[i := n]> t
  | _ => t
  end.

(** The first call that fails. *)
Fixpoint first_failure (l : list pcall) (script : list Z) : option pcall :=
  match l with
  | [] => None
  | e :: l =>
      if is_call e then
        if default 0 (list.head script) =? 0 then first_failure l (tail script) else Some e
      else first_failure l script
  end.

Definition initialises (e : pcall) : bool :=
  match e with
  | P_mutex_init _ | P_cond_init _ | P_key_create | P_total _ _ => true
  | P_barrier_init _ n => negb (n =? 0)
  | _ => false
  end.

Definition finalises (e : pcall) : bool :=
  match e with
  | P_mutex_destroy _ | P_cond_destroy _ | P_key_delete | P_barrier_destroy _ | P_total _ _ => true
  | _ => false
  end.

Definition locks (s : pstate) : list pobject * bool := (held s, nested s).

(** The state when a call has been answered. *)
Definition answered (e : pcall) (s : pstate) : pstate := if is_call e then s {{ answers ::= tail }} else s.

Lemma answered_nil e s : answers s = [] -> answers (answered e s) = [].
Proof. unfold answered. destruct s. simpl. intros ->. by destruct (is_call e). Qed.

Lemma step_initialises e s :
  initialises e = true -> (forall o, o ∈ makes e -> o ∉ live s) ->
  wrapped e s =
    if is_call e && negb (default 0 (list.head (answers s)) =? 0) then Stops (Aborted (pname e))
    else Got tt (effect e (answered e s)).
Proof.
  intros He Hnew.
  assert (usable e s = true) as Hu by (destruct e; simpl in *; try done; apply bool_decide_eq_true, Hnew; set_solver).
  assert (checks e = true) as Hc by (by destruct e).
  assert (result_of e s = if is_call e then default 0 (list.head (answers s)) else 0) as Hr.
  { destruct e; try done. simpl in *. by destruct (count =? 0). }
  unfold wrapped. rewrite Hc. unfold checked, mbind, P_bind, pthread. rewrite Hu, Hr. unfold answered.
  destruct (is_call e); [|done]. by destruct (_ =? 0).
Qed.

Lemma effect_initialises e s :
  initialises e = true ->
  live (effect e s) = makes e ++ live s /\ locks (effect e s) = locks s /\ memory (effect e s) = memory s /\
  totals (effect e s) = set_total (totals s) e /\ answers (effect e s) = answers s.
Proof. by destruct e. Qed.

(** Initialisations of objects that are not initialised yet. *)
Lemma run_initialises l s :
  Forall (fun e => initialises e = true) l -> NoDup (l ≫= makes) -> (forall o, o ∈ l ≫= makes -> o ∉ live s) ->
  match first_failure l (answers s) with
  | Some e => run_calls l s = Stops (Aborted (pname e))
  | None => exists s', run_calls l s = Got tt s' /\ live s' ≡ₚ (l ≫= makes) ++ live s /\ locks s' = locks s /\
  totals s' = foldl set_total (totals s) l /\ memory s' = memory s /\ (answers s = [] -> answers s' = [])
  end.
Proof.
  revert s. induction l as [|e l IH]; intros s Hl Hnd Hnew; [by eexists|].
  apply list.Forall_cons in Hl as [He Hl]. cbn [mbind list_bind] in Hnd, Hnew.
  apply list.NoDup_app in Hnd as (_ & Hni & Hnd).
  cbn [first_failure run_calls]. 
  pose proof (step_initialises e s He ltac:(intros o Ho; apply Hnew; set_solver)) as Hw.
  assert (forall s1, s1 = answered e s ->
    match first_failure l (answers s1) with
    | Some e' => run_calls l (effect e s1) = Stops (Aborted (pname e'))
    | None => exists s', run_calls l (effect e s1) = Got tt s' /\ live s' ≡ₚ (makes e ++ (l ≫= makes)) ++ live s /\
  locks s' = locks s /\ totals s' = foldl set_total (set_total (totals s) e) l /\ memory s' = memory s /\
  (answers s = [] -> answers s' = [])
    end) as Hnext.
  { intros s1 ->. destruct (effect_initialises e (answered e s) He) as (E1 & E2 & E3 & E4 & E5).
    assert (live (answered e s) = live s /\ locks (answered e s) = locks s /\ memory (answered e s) = memory s /\
  totals (answered e s) = totals s) as (A1 & A2 & A3 & A4) by (unfold answered; by destruct (is_call e)).
    rewrite A1 in E1. rewrite A2 in E2. rewrite A3 in E3. rewrite A4 in E4.
    specialize (IH (effect e (answered e s)) Hl Hnd). rewrite E5 in IH.
    assert (forall o, o ∈ l ≫= makes -> o ∉ live (effect e (answered e s))) as Hn1.
    { rewrite E1. intros o Ho [?|?]%elem_of_app; [by apply (Hni o)|]. apply (Hnew o); set_solver. }
    specialize (IH Hn1). destruct (first_failure l (answers (answered e s))); [done|].
    destruct IH as (s' & Er & Hlive & Hheld & Ht & Hm & Ha). exists s'. split; [done|].
    rewrite Hlive, Hheld, Ht, Hm, E1, E2, E3, E4. split_and!; [|done|done|done|].
    - by rewrite (app_assoc (l ≫= makes)), (Permutation_app_comm (l ≫= makes) (makes e)).
    - intros Hs. by apply Ha, answered_nil. }
  specialize (Hnext _ eq_refl).
  replace (answers (answered e s)) with (if is_call e then tail (answers s) else answers s) in Hnext
    by (unfold answered; by destruct (is_call e)).
  unfold mbind, P_bind. rewrite Hw.
  destruct (is_call e); simpl; [|exact Hnext]. destruct (_ =? 0); [exact Hnext|done].
Qed.

Definition without_all (l l' : list pobject) : list pobject := filter (fun o => o ∉ l) l'.

Lemma without_all_app l1 l2 l : without_all (l1 ++ l2) l = without_all l2 (without_all l1 l).
Proof.
  unfold without_all. rewrite list_filter_filter. apply list_filter_iff. intros o. set_solver.
Qed.

Lemma without_none l : without_all [] l = l.
Proof.
  induction l as [|o l IH]; [done|]. unfold without_all in *. rewrite list.filter_cons, decide_True by set_solver.
  by rewrite IH.
Qed.

(** Taking new objects away again. *)
Lemma without_all_perm l l' x :
  l' ≡ₚ l ++ x -> (forall o, o ∈ l -> o ∉ x) -> without_all l l' ≡ₚ x.
Proof.
  intros H Hnew. unfold without_all. rewrite H, list.filter_app.
  assert (filter (fun o => o ∉ l) l = []) as ->.
  { assert (forall l1, l1 ⊆ l -> filter (fun o => o ∉ l) l1 = []) as Hall; [|by apply Hall].
    induction l1 as [|o l1 IH]; intros Hsub; [done|]. rewrite list.filter_cons, decide_False; [apply IH|]; set_solver. }
  simpl. clear H. induction x as [|o x IH]; [done|]. rewrite list.filter_cons, decide_True by set_solver.
  rewrite IH by set_solver. done.
Qed.

Lemma step_finalises e s :
  finalises e = true -> (forall o, o ∈ ends e -> o ∈ live s /\ o ∉ held s) -> answers s = [] ->
  wrapped e s = Got tt (effect e (answered e s)) /\ answered e s = s /\
  live (effect e s) = without_all (ends e) (live s) /\ locks (effect e s) = locks s /\ memory (effect e s) = memory s /\
  totals (effect e s) = set_total (totals s) e /\ answers (effect e s) = [].
Proof.
  intros He Hlive Ha.
  assert (usable e s = true) as Hu.
  { destruct e; simpl in *; try done; repeat (apply andb_true_iff; split); apply bool_decide_eq_true, Hlive; set_solver. }
  assert (result_of e s = 0) as Hr by (destruct e; simpl in *; rewrite ?Ha; done).
  assert (answered e s = s) as Hs by (unfold answered; destruct s; simpl in *; subst; by destruct (is_call e)).
  split_and!; [|done|..].
  - unfold wrapped. destruct (checks e); unfold checked, ignored, mbind, P_bind, pthread; by rewrite Hu, Hr.
  - destruct e; try done; simpl in *; unfold without_all, without; try (apply list_filter_iff; intros x; set_solver).
    symmetry. apply without_none.
  - by destruct e.
  - by destruct e.
  - by destruct e.
  - by destruct e.
Qed.

(** Destruction of objects that are initialised, no mutex of them being locked. *)
Lemma run_finalises l s :
  Forall (fun e => finalises e = true) l -> NoDup (l ≫= ends) -> (forall o, o ∈ l ≫= ends -> o ∈ live s /\ o ∉ held s) ->
  answers s = [] ->
  exists s', run_calls l s = Got tt s' /\ live s' = without_all (l ≫= ends) (live s) /\ locks s' = locks s /\
    totals s' = foldl set_total (totals s) l /\ memory s' = memory s.
Proof.
  revert s. induction l as [|e l IH]; intros s Hl Hnd Hlive Ha.
  { exists s. by rewrite without_none. }
  apply list.Forall_cons in Hl as [He Hl]. cbn [mbind list_bind] in Hnd, Hlive.
  apply list.NoDup_app in Hnd as (_ & Hni & Hnd).
  destruct (step_finalises e s He ltac:(intros o Ho; apply Hlive; set_solver) Ha) as (Hw & Hs & E1 & E2 & E3 & E4 & E5).
  destruct (IH (effect e s) Hl Hnd) as (s' & Er & H1 & H2 & H3 & H4); [|done|].
  { injection E2 as Eh _. intros o Ho. rewrite E1, Eh. destruct (Hlive o) as [Hin ?]; [set_solver|]. split; [|done].
    unfold without_all. rewrite list_elem_of_filter. split; [|done]. intros ?. by apply (Hni o). }
  exists s'. cbn [run_calls]. unfold mbind, P_bind. rewrite Hw, Hs. split; [done|].
  rewrite H1, H2, H3, H4, E1, E2, E3, E4. split_and!; try done. symmetry. apply without_all_app.
Qed.

(** ** The objects of [worker_init] *)

(** No barrier is set up for no thread. *)
Lemma barrier_sizes b c i n :
  config_wf b c -> defined (UBWT_CONFIG_MULTI_THREADED b) = true ->
  Process.worker_init c !! i = Some (Some n) -> 0 < n.
Proof.
  intros Hwf Hmt. pose proof (wf_workers _ _ Hwf) as Hw. rewrite Hmt in Hw. destruct Hw as (Hn & Hsum & _ & Ha & Hs & Hr).
  destruct (wf_bits _ _ Hwf) as (_ & Has & Hrev).
  assert (0 <= worker_straight_first_count c /\ 0 <= worker_reverse_first_count c) as [Hs0 Hr0].
  { destruct Has as [Has|Has]; [destruct Hrev as [Hrv|Hrv]|]; [specialize (Hs Has Hrv)|specialize (Hr Has Hrv)|
      specialize (Ha Has)]; lia. }
  unfold Process.worker_init. destruct i as [|[|[|i]]]; simpl; [| | |done];
    repeat match goal with |- context [truth ?x] => destruct (truth x) eqn:?; simpl end; intros [= <-];
    repeat match goal with H : truth _ = true |- _ => apply truth_spec in H end; lia.
Qed.

Definition global_objects (b : build) (c : ubwt_config) : list pobject := init_calls b c ≫= makes.

Lemma global_objects_split b c :
  global_objects b c =
    for_barriers (fun i _ => if custom_barrier b then [Mutex_barrier i 0; Mutex_barrier i 1; Cond_barrier i 0; Cond_barrier i 1]
      else [Barrier_global i]) (Process.worker_init c) ++
    [Mutex_global; Mutex_cond; Cond_global] ++ (if local_storage b then [Key_cptr] else []).
Proof.
  unfold global_objects, init_calls, for_barriers, Process.worker_init, barrier_calls.
  destruct (custom_barrier b), (local_storage b); simpl; by_tests; done.
Qed.

Lemma destroy_ends b c : destroy_calls b c ≫= ends = global_objects b c.
Proof.
  unfold global_objects, init_calls, destroy_calls, for_barriers, Process.worker_init, barrier_calls, barrier_ends.
  destruct (custom_barrier b), (local_storage b); simpl; by_tests; done.
Qed.

Lemma global_objects_nodup b c : NoDup (global_objects b c).
Proof.
  rewrite global_objects_split. unfold for_barriers, Process.worker_init.
  destruct (custom_barrier b), (local_storage b); simpl; by_tests; by apply (bool_decide_unpack _).
Qed.

Definition is_local (o : pobject) : bool := match o with Mutex_local _ => true | _ => false end.

Lemma global_objects_not_local b c o : o ∈ global_objects b c -> is_local o = false.
Proof.
  intros Ho. assert (forallb (fun o => negb (is_local o)) (global_objects b c) = true) as H.
  { rewrite global_objects_split. unfold for_barriers, Process.worker_init.
    destruct (custom_barrier b), (local_storage b); simpl; by_tests; done. }
  rewrite forallb_forall in H. apply list_elem_of_In, H, negb_true_iff in Ho. done.
Qed.

Lemma init_calls_initialise b c :
  config_wf b c -> defined (UBWT_CONFIG_MULTI_THREADED b) = true -> Forall (fun e => initialises e = true) (init_calls b c).
Proof.
  intros Hwf Hmt. unfold init_calls. apply Forall_app. split.
  - pose proof (barrier_sizes b c) as Hpos. unfold for_barriers.
    apply Forall_concat. apply list.Forall_forall. intros l (i & o & -> & Ho)%elem_of_lookup_imap.
    destruct o as [n|]; [|constructor]. specialize (Hpos i n Hwf Hmt Ho). unfold barrier_calls.
    destruct (custom_barrier b); repeat constructor. simpl. apply negb_true_iff, Z.eqb_neq. lia.
  - destruct (local_storage b); by repeat constructor.
Qed.

Lemma destroy_calls_finalise b c : Forall (fun e => finalises e = true) (destroy_calls b c).
Proof.
  unfold destroy_calls. apply Forall_app. split; [|destruct (local_storage b); by repeat constructor].
  unfold for_barriers. apply Forall_concat. apply list.Forall_forall. intros l (i & o & -> & Ho)%elem_of_lookup_imap.
  destruct o as [n|]; [|constructor]. unfold barrier_ends. destruct (custom_barrier b); by repeat constructor.
Qed.

Lemma init_totals b c : foldl set_total [None; None; None] (init_calls b c) = Process.worker_init c.
Proof.
  unfold init_calls, for_barriers, Process.worker_init, barrier_calls.
  destruct (custom_barrier b), (local_storage b); simpl; by_tests; done.
Qed.

Lemma destroy_totals b c : foldl set_total (Process.worker_init c) (destroy_calls b c) = [None; None; None].
Proof.
  unfold destroy_calls, for_barriers, Process.worker_init, barrier_ends.
  destruct (custom_barrier b), (local_storage b); simpl; by_tests; done.
Qed.

(** [worker_destroy] where the objects of [worker_init] are, and others. *)
Lemma destroy_runs b c l s :
  live s ≡ₚ global_objects b c ++ l -> (forall o, o ∈ global_objects b c -> o ∉ l) ->
  held s = [] -> answers s = [] -> totals s = Process.worker_init c ->
  exists s', worker_destroy b c s = Got tt s' /\ live s' ≡ₚ l /\ locks s' = locks s /\ totals s' = [None; None; None] /\
    memory s' = memory s.
Proof.
  intros Hl Hnew Hh Ha Ht. destruct (run_finalises (destroy_calls b c) s) as (s' & Er & Hl' & Hk & Ht' & Hm).
  - apply destroy_calls_finalise.
  - rewrite destroy_ends. apply global_objects_nodup.
  - intros o. rewrite destroy_ends, Hl, Hh. intros Ho. split; [by apply elem_of_app; left|apply not_elem_of_nil].
  - done.
  - exists s'. rewrite worker_destroy_is. split_and!; [done| |done|by rewrite Ht', Ht, (destroy_totals b)|done].
    rewrite Hl', destroy_ends. by apply without_all_perm.
Qed.

(** [worker_init] where only mutexes of structures are. *)
Lemma init_runs b c s :
  config_wf b c -> defined (UBWT_CONFIG_MULTI_THREADED b) = true ->
  Forall (fun o => is_local o = true) (live s) -> totals s = [None; None; None] ->
  (forall o, o ∈ global_objects b c -> o ∉ live s) /\
  match first_failure (init_calls b c) (answers s) with
  | Some e => worker_init b c s = Stops (Aborted (pname e))
  | None => exists s', worker_init b c s = Got tt s' /\ live s' ≡ₚ global_objects b c ++ live s /\ locks s' = locks s /\
      totals s' = Process.worker_init c /\ memory s' = memory s /\ (answers s = [] -> answers s' = [])
  end.
Proof.
  intros Hwf Hmt Hlocal Ht.
  assert (forall o, o ∈ global_objects b c -> o ∉ live s) as Hnew.
  { intros o Ho Hin. apply global_objects_not_local in Ho. rewrite list.Forall_forall in Hlocal. apply Hlocal in Hin. congruence. }
  split; [done|].
  pose proof (run_initialises (init_calls b c) s (init_calls_initialise b c Hwf Hmt) (global_objects_nodup b c) Hnew) as Hrun.
  destruct (first_failure _ _); rewrite worker_init_is; [done|].
  destruct Hrun as (s' & Er & Hlive & Hlocks & Htot & Hm & Ha). rewrite Ht, init_totals in Htot. by exists s'.
Qed.

(** C16: [worker_init] sets up every object the workers use, or ends the process.  For a
    configuration that [config_init] accepts in a build with threads, and whatever the
    calls of the library return: no call is a misuse; if one fails, the first to fail
    ends the process with its name; otherwise the barriers are for as many threads as
    Process.v says, never for none, every object of [global_objects] is initialised
    once, no mutex is locked; and then [worker_destroy], its calls succeeding, destroys
    exactly those. *)
Theorem worker_objects b c s :
  config_wf b c -> defined (UBWT_CONFIG_MULTI_THREADED b) = true ->
  Forall (fun o => is_local o = true) (live s) -> totals s = [None; None; None] -> held s = [] ->
  match first_failure (init_calls b c) (answers s) with
  | Some e => worker_init b c s = Stops (Aborted (pname e))
  | None => exists s', worker_init b c s = Got tt s' /\
      live s' ≡ₚ global_objects b c ++ live s /\ NoDup (global_objects b c) /\ locks s' = locks s /\
      totals s' = Process.worker_init c /\ (forall i n, totals s' !! i = Some (Some n) -> 0 < n) /\ memory s' = memory s /\
      (answers s = [] -> answers s' = [] /\ exists s2, worker_destroy b c s' = Got tt s2 /\
        live s2 ≡ₚ live s /\ locks s2 = locks s /\ totals s2 = [None; None; None])
  end.
Proof.
  intros Hwf Hmt Hlocal Ht Hheld. destruct (init_runs b c s Hwf Hmt Hlocal Ht) as [Hnew Hrun].
  destruct (first_failure _ _); [done|]. destruct Hrun as (s' & Er & Hlive & Hlocks & Htot & Hm & Ha).
  exists s'. split_and!; [done|done|apply global_objects_nodup|done|done| |done|].
  - intros i n. rewrite Htot. by apply (barrier_sizes b).
  - intros Hs. split; [by apply Ha|]. injection Hlocks as Hh Hn.
    destruct (destroy_runs b c (live s) s') as (s2 & E2 & Hl2 & Hk2 & Ht2 & _); [done|done|congruence|by apply Ha|done|].
    exists s2. split_and!; [done|done|unfold locks in *; congruence|done].
Qed.

(** Asynchronous mode with four workers and the program's own barrier; and the same when
    memory runs out at the second barrier. *)
Definition process_state (script : list Z) (t : threads) : pstate := {|
  answers := script; live := [Mutex_local head]; held := []; nested := false;
  totals := [None; None; None]; specific := None; memory := t |}.

Definition build_custom : build := build_linux {{ UBWT_CONFIG_PTHREAD_CUSTOM_BARRIER := Some 1 }}.

Lemma custom_wf c : config_wf build_linux c -> config_wf build_custom c.
Proof. intros []. by constructor. Qed.

Lemma worker_objects_witness :
  exists c, example_config "listener" [O_A; O_W "4"] = Some c /\
    (let s := process_state [] (threads_init 1 0 ∅) in
     exists s1 s2, worker_init build_custom c s = Got tt s1 /\ totals s1 = [Some 2; Some 2; Some 4] /\ length (live s1) = 17%nat /\
       worker_destroy build_custom c s1 = Got tt s2 /\ live s2 ≡ₚ [Mutex_local head]) /\
    (let s := process_state [0; 0; 0; 0; 12] (threads_init 1 0 ∅) in
     worker_init build_custom c s = Stops (Aborted "pthread_mutex_init")).
Proof.
  destruct (example_config "listener" [O_A; O_W "4"]) as [c|] eqn:H; [|discriminate H].
  exists c. split; [done|]. pose proof (custom_wf _ (example_config_wf _ _ _ H)) as Hwf. split; intros s.
  - assert (first_failure (init_calls build_custom c) (answers s) = None) as E by (vm_compute in H; injection H as <-; by vm_compute).
    pose proof (worker_objects build_custom c s Hwf eq_refl ltac:(by repeat constructor) eq_refl eq_refl) as Hm.
    rewrite E in Hm. destruct Hm as (s1 & E1 & Hl & _ & _ & Ht & _ & _ & Ha).
    destruct (Ha eq_refl) as (_ & s2 & E2 & Hl2 & _). exists s1, s2. apply Permutation_length in Hl.
    rewrite Ht, Hl. split; [done|]. split; [|split; [|by split]]; clear -H; vm_compute in H; injection H as <-; by vm_compute.
  - assert (first_failure (init_calls build_custom c) (answers s) = Some (P_mutex_init (Mutex_barrier 1 0))) as E
      by (vm_compute in H; injection H as <-; by vm_compute).
    pose proof (worker_objects build_custom c s Hwf eq_refl ltac:(by repeat constructor) eq_refl eq_refl) as Hm.
    by rewrite E in Hm.
Defined.
