(* ===== verification/Locks.v ===== *)
(** The locks of the list of threads: the functions of src/current.c and src/worker.c
    that change a structure or the links, with the mutexes they take.

    Current.v has what these functions do to the memory; here they make their pthread
    calls as well (Pthread.v), and a change of the flags of a structure, or of the links,
    is only defined under the mutex that protects it.  The theorem relates the two and
    follows the mutexes from the initialisation of the program to its end. *)

From S2P Require Import Prelude Bitops Errors Byteorder Layout ConfigData Usage Double Report Stage Thread Config ConfigSpec Conn Net NetSpec Talk Process Current CurrentSpec CurrentSafety Worker Pthread.

(** [current]: the structure of the calling thread. *)
Definition current_of_thread (self : Z) : P loc := access (current_get self).

(** [current_init]; [now] is the time. *)
Definition current_init (self now : Z) : P unit :=
  worker_mutex_init (Mutex_local head) ;;
  change (fun t => Val (t {{ nodes := {[ head := Current.current_init self now ]} }})).

(** The structure of a new thread before its flags are set. *)
Definition unflagged (h : ubwt_current) (self fd' : Z) : ubwt_current := (forked h self fd') {{ worker_flags := 0 }}.

(** [current_fork]; the arguments are those of Current.v. *)
Definition current_fork (self : Z) (task : loc) (c : option loc) (sock timeout now : Z) : P unit :=
  match c with
  | None =>
      _ ← current_of_thread self;
      stops (Exited EXIT_FAILURE (Some UBWT_ERROR_TYPE_CURRENT_FORK_FAILED))
  | Some c =>
      h ← access (fun t => load t head);
      (if truth (im_connector (config (data h))) then
         if sock <? 0 then stops (Aborted "socket")
         else if timeout <? 0 then stops (Aborted "net_timeout_set") else mret tt
       else mret tt) ;;
      let d := unflagged (data h) self sock in
      worker_mutex_init (Mutex_local c) ;;
      worker_mutex_lock (Mutex_local c) ;;
      let d := d {{ worker_flags ::= fun w => bit_set (bit_set w UBWT_WORKER_FLAG_TYPE_CHILD) UBWT_WORKER_FLAG_TASK_READY }} in
      worker_mutex_unlock (Mutex_local c) ;;
      worker_mutex_lock Mutex_global ;;
      guarded Mutex_global (insert_front c {| data := d; worker_task := Some task; next := None; prev := None |}) ;;
      worker_mutex_unlock Mutex_global ;;
      change (current_update self now)
  end.

(** [worker_mutex_lock(&current->worker_mutex_local)] and its counterpart. *)
Definition lock_own (self : Z) : P unit := c ← current_of_thread self; worker_mutex_lock (Mutex_local c).
Definition unlock_own (self : Z) : P unit := c ← current_of_thread self; worker_mutex_unlock (Mutex_local c).

(** A change of the flags of [current]. *)
Definition flag_own (self : Z) (f : Z -> Z) : P unit :=
  c ← current_of_thread self; guarded (Mutex_local c) (store c (set_flags f)).

Definition current_running_set (self now : Z) : P unit :=
  lock_own self ;;
  flag_own self (fun w => bit_set w UBWT_WORKER_FLAG_TASK_RUNNING) ;;
  unlock_own self ;;
  worker_cond_signal Cond_global ;;
  change (current_update self now).

Definition current_running_unset (self now : Z) : P unit :=
  lock_own self ;;
  flag_own self (fun w => bit_clear w UBWT_WORKER_FLAG_TASK_RUNNING) ;;
  unlock_own self ;;
  worker_cond_signal Cond_global ;;
  change (current_update self now).

Definition current_exit (self now : Z) : P unit :=
  lock_own self ;;
  flag_own self (fun w => bit_clear w UBWT_WORKER_FLAG_TASK_RUNNING) ;;
  flag_own self (fun w => bit_set w UBWT_WORKER_FLAG_TASK_JOINABLE) ;;
  worker_cond_signal Cond_global ;;
  change (current_update self now) ;;
  unlock_own self.

(** [current_join]: the structure is taken out of the list under the global mutex, and
    its own mutex is destroyed before it is freed. *)
Definition current_join (self id : Z) : P unit :=
  c ← access (fun t => find_worker (walk_fuel t) id head t);
  c ← access (fun _ => match c with Some c => Val c | None => End (Assertion "c != NULL") end);
  n ← access (fun t => load t c);
  access (fun _ => mem_assert (negb (worker_id (data n) =? self)) "c->worker_id != worker_self()") ;;
  worker_mutex_lock (Mutex_local c) ;;
  n ← access (fun t => load t c);
  access (fun _ => mem_assert (negb (has_flag UBWT_WORKER_FLAG_TASK_RUNNING n)) "!bit_test(RUNNING)") ;;
  access (fun _ => mem_assert (has_flag UBWT_WORKER_FLAG_TASK_JOINABLE n) "bit_test(JOINABLE)") ;;
  worker_mutex_unlock (Mutex_local c) ;;
  worker_mutex_lock Mutex_global ;;
  guarded Mutex_global (unlink c) ;;
  worker_mutex_unlock Mutex_global ;;
  worker_mutex_destroy (Mutex_local c) ;;
  change (free_task (worker_task n)) ;;
  change (fun t => free_node c (t {{ closed ::= fun l => l ++ [fd (net (data n))] }})).

Definition worker_im_cancelled (self : Z) : P Z :=
  lock_own self ;;
  c ← current_of_thread self;
  n ← access (fun t => load t c);
  let ret := bit_test (worker_flags (data n)) UBWT_WORKER_FLAG_CANCEL_REQUESTED in
  unlock_own self ;;
  mret ret.

Definition worker_is_cancelled (tid : Z) : P Z :=
  c ← access (current_get tid);
  worker_mutex_lock (Mutex_local c) ;;
  n ← access (fun t => load t c);
  let ret := bit_test (worker_flags (data n)) UBWT_WORKER_FLAG_CANCEL_COMPLETED in
  worker_mutex_unlock (Mutex_local c) ;;
  mret ret.

Definition worker_cancel (tid : Z) : P unit :=
  c ← access (current_get tid);
  worker_mutex_lock (Mutex_local c) ;;
  guarded (Mutex_local c) (store c (set_flags (fun w => bit_set w UBWT_WORKER_FLAG_CANCEL_REQUESTED))) ;;
  worker_mutex_unlock (Mutex_local c) ;;
  checked (P_cancel tid).

(** ** Operations in sequence *)

(** The operations of CurrentSafety.v and those on the cancellation flags, with the
    list found by its links. *)
Inductive lop :=
| Of (o : op)
| ImCancelled (self : Z)
| IsCancelled (tid : Z)
| Cancel (tid : Z).

Definition locked_op (o : lop) : P unit :=
  match o with
  | Of (Fork self task c sock timeout now) => current_fork self task c sock timeout now
  | Of (Update self now) => change (current_update self now)
  | Of (RunningSet self now) => current_running_set self now
  | Of (RunningUnset self now) => current_running_unset self now
  | Of (Exit self now) => current_exit self now
  | Of (Join self id) => current_join self id
  | ImCancelled self => _ ← worker_im_cancelled self; mret tt
  | IsCancelled tid => _ ← worker_is_cancelled tid; mret tt
  | Cancel tid => worker_cancel tid
  end.

(** The same without locks: Current.v and Worker.v. *)
Definition memory_op (o : lop) (t : threads) : mem threads :=
  match o with
  | Of o => run_op o t
  | ImCancelled self => _ ← Worker.worker_im_cancelled current_get self t; Val t
  | IsCancelled tid => _ ← Worker.worker_is_cancelled current_get tid t; Val t
  | Cancel tid => Worker.worker_cancel current_get tid 0 t
  end.

Fixpoint locked_ops (os : list lop) : P unit :=
  match os with
  | [] => mret tt
  | o :: os => locked_op o ;; locked_ops os
  end.

Fixpoint memory_ops (os : list lop) (t : threads) : mem threads :=
  match os with
  | [] => Val t
  | o :: os => t ← memory_op o t; memory_ops os t
  end.

(** What the system and [runtime_do] guarantee, as in CurrentSafety.v. *)
Fixpoint possible (os : list lop) (t : threads) : Prop :=
  match os with
  | [] => True
  | o :: os =>
      match o with Of o => allowed o t | _ => True end /\
      match memory_op o t with Val t' => possible os t' | _ => True end
  end.

(** ** Steps of the pthread calls that succeed *)

Section steps.
Context (T : list (option Z)) (k : option loc).

Definition st (l h : list pobject) (t : threads) : pstate := {|
  answers := []; live := l; held := h; nested := false; totals := T; specific := k; memory := t |}.

Lemma lock_st o l t : o ∈ l -> worker_mutex_lock o (st l [] t) = Got tt (st l [o] t).
Proof.
  intros H. unfold worker_mutex_lock, checked, mbind, P_bind, pthread. simpl. by rewrite bool_decide_eq_true_2.
Qed.

Lemma unlock_st o l t : worker_mutex_unlock o (st l [o] t) = Got tt (st l [] t).
Proof.
  unfold worker_mutex_unlock, checked, mbind, P_bind, pthread. simpl. rewrite bool_decide_eq_true_2 by set_solver. simpl.
  unfold without. rewrite list.filter_cons, decide_False by (intros Hn; by apply Hn). done.
Qed.

Lemma init_st o l h t : o ∉ l -> worker_mutex_init o (st l h t) = Got tt (st (o :: l) h t).
Proof.
  intros H. unfold worker_mutex_init, checked, mbind, P_bind, pthread. simpl. by rewrite bool_decide_eq_true_2.
Qed.

Lemma destroy_st o l t : o ∈ l -> worker_mutex_destroy o (st l [] t) = Got tt (st (without o l) [] t).
Proof.
  intros H. unfold worker_mutex_destroy, ignored, mbind, P_bind, pthread. simpl. by rewrite bool_decide_eq_true_2.
Qed.

Lemma signal_st o l h t : o ∈ l -> worker_cond_signal o (st l h t) = Got tt (st l h t).
Proof.
  intros H. unfold worker_cond_signal, checked, mbind, P_bind, pthread. simpl. by rewrite bool_decide_eq_true_2.
Qed.

Lemma cancel_st tid l h t : checked (P_cancel tid) (st l h t) = Got tt (st l h t).
Proof. done. Qed.

Lemma access_st {A : Type} (f : threads -> mem A) l h t a : f t = Val a -> access f (st l h t) = Got a (st l h t).
Proof. intros H. unfold access. simpl. by rewrite H. Qed.

Lemma access_end {A : Type} (f : threads -> mem A) l h t e : f t = End e -> access f (st l h t) = Stops e.
Proof. intros H. unfold access. simpl. by rewrite H. Qed.

Lemma change_st f l h t t' : f t = Val t' -> change f (st l h t) = Got tt (st l h t').
Proof. intros H. unfold change. by rewrite (access_st _ _ _ _ _ H). Qed.

Lemma change_end f l h t e : f t = End e -> change f (st l h t) = Stops e.
Proof. intros H. unfold change. by rewrite (access_end _ _ _ _ _ H). Qed.

Lemma guarded_st o f l t t' : f t = Val t' -> guarded o f (st l [o] t) = Got tt (st l [o] t').
Proof.
  intros H. unfold guarded. simpl. rewrite bool_decide_eq_true_2 by set_solver. by apply change_st.
Qed.

Lemma guarded_end o f l t e : f t = End e -> guarded o f (st l [o] t) = Stops e.
Proof.
  intros H. unfold guarded. simpl. rewrite bool_decide_eq_true_2 by set_solver. by apply change_end.
Qed.

Lemma Got_bind {A B : Type} (m : P A) (f : A -> P B) s a s' : m s = Got a s' -> (m ≫= f) s = f a s'.
Proof. intros H. unfold mbind, P_bind. by rewrite H. Qed.

Lemma Stops_bind {A B : Type} (m : P A) (f : A -> P B) s e : m s = Stops e -> (m ≫= f) s = Stops e.
Proof. intros H. unfold mbind, P_bind. by rewrite H. Qed.

(** ** The objects that are there *)

Context (G : list pobject).
Context (G_global : Mutex_global ∈ G) (G_cond : Cond_global ∈ G) (G_not_local : forall o, o ∈ G -> is_local o = false).

(** The static objects and a mutex for every structure. *)
Definition objects (ls : list loc) (l : list pobject) : Prop :=
  l ≡ₚ G ++ map Mutex_local (head :: ls) /\ NoDup l.

Lemma objects_global ls l o : objects ls l -> o ∈ G -> o ∈ l.
Proof. intros [-> _] Ho. apply elem_of_app. by left. Qed.

Lemma objects_local ls l c : objects ls l -> Mutex_local c ∈ l <-> c ∈ head :: ls.
Proof.
  intros [-> _]. rewrite elem_of_app, list_elem_of_fmap. split.
  - intros [H|(d & [= ->] & Hd)]; [by apply G_not_local in H|done].
  - intros H. right. by exists c.
Qed.

Lemma objects_add ls l c : objects ls l -> c ∉ head :: ls -> objects (c :: ls) (Mutex_local c :: l).
Proof.
  intros H Hc. split.
  - destruct H as [-> _]. simpl. rewrite (Permutation_middle G). f_equiv. constructor.
  - constructor; [by rewrite (objects_local _ _ _ H)|apply H].
Qed.

Lemma objects_remove l1 l2 l c :
  objects (l1 ++ c :: l2) l -> c <> head -> objects (l1 ++ l2) (without (Mutex_local c) l).
Proof.
  intros [Hp Hnd] Hc. split; [|by apply list.NoDup_filter].
  assert (l ≡ₚ Mutex_local c :: G ++ map Mutex_local (head :: l1 ++ l2)) as Hp'.
  { rewrite Hp. cbn [map]. rewrite !map_app. cbn [map]. rewrite <- (Permutation_middle (map Mutex_local l1)), <- !Permutation_middle.
    apply Permutation_swap. }
  unfold without. rewrite Hp' in Hnd |- *. apply list.NoDup_cons in Hnd as [Hni _].
  rewrite list.filter_cons, decide_False by (intros Hn; by apply Hn).
  revert Hni. generalize (G ++ map Mutex_local (head :: l1 ++ l2)). intros x. induction x as [|o x IH]; intros Hni; [done|].
  rewrite list.filter_cons, decide_True by set_solver. f_equiv. apply IH. set_solver.
Qed.

(** What an operation must do: as in the memory, with all locks released. *)
Definition keeps_locks (o : P unit) (r : mem threads) (l : list pobject) (t : threads) : Prop :=
  match r with
  | Val t' => exists ls' l', o (st l [] t) = Got tt (st l' [] t') /\ well_formed ls' t' /\ objects ls' l'
  | End e => o (st l [] t) = Stops e
  | Undefined | Loops => False
  end.

(** The structure of the calling thread, before and after a change of its flags. *)
Lemma own_found ls t self c l h :
  well_formed ls t -> first_with t self (head :: ls) = Some c -> current_of_thread self (st l h t) = Got c (st l h t).
Proof. intros H Hc. apply access_st. by rewrite (current_get_linked _ _ _ (wf_linked _ _ H)), Hc. Qed.

Lemma own_flag ls t self c f l :
  well_formed ls t -> keeps_child f -> first_with t self (head :: ls) = Some c ->
  exists t1, flag_own self f (st l [Mutex_local c] t) = Got tt (st l [Mutex_local c] t1) /\
    store c (set_flags f) t = Val t1 /\ well_formed ls t1 /\ first_with t1 self (head :: ls) = Some c.
Proof.
  intros H Hf Hc. apply first_with_Some in Hc as Hin. destruct Hin as [Hin Hid].
  destruct (set_flags_well_formed ls t f c H Hf Hin) as (t1 & E & H1 & _ & Hid1 & _).
  exists t1. split_and!; [|done|done|].
  - unfold flag_own. rewrite (Got_bind _ _ _ _ _ (own_found ls t self c _ _ H Hc)). by apply guarded_st.
  - apply first_with_unique; [done|by rewrite Hid1|apply (wf_ids _ _ H1)].
Qed.

Lemma own_lock ls t self c l :
  well_formed ls t -> objects ls l -> first_with t self (head :: ls) = Some c ->
  lock_own self (st l [] t) = Got tt (st l [Mutex_local c] t).
Proof.
  intros H Ho Hc. unfold lock_own. rewrite (Got_bind _ _ _ _ _ (own_found ls t self c _ _ H Hc)). apply lock_st.
  rewrite (objects_local _ _ _ Ho). by apply first_with_Some in Hc as [? _].
Qed.

Lemma own_unlock ls t self c l :
  well_formed ls t -> first_with t self (head :: ls) = Some c ->
  unlock_own self (st l [Mutex_local c] t) = Got tt (st l [] t).
Proof.
  intros H Hc. unfold unlock_own. rewrite (Got_bind _ _ _ _ _ (own_found ls t self c _ _ H Hc)). apply unlock_st.
Qed.

Lemma own_missing ls t self l h :
  well_formed ls t -> first_with t self (head :: ls) = None ->
  current_of_thread self (st l h t) = Stops (Assertion "c != NULL") /\ current_get self t = End (Assertion "c != NULL").
Proof.
  intros H Hc. assert (current_get self t = End (Assertion "c != NULL")) as E
    by (by rewrite (current_get_linked _ _ _ (wf_linked _ _ H)), Hc).
  split; [by apply access_end|done].
Qed.

(** [current_running_set] and [current_running_unset]: lock, change, unlock, signal. *)
Definition flag_locked (f : Z -> Z) (self now : Z) : P unit :=
  lock_own self ;; flag_own self f ;; unlock_own self ;; worker_cond_signal Cond_global ;; change (current_update self now).

Lemma flag_locks f self now ls t l :
  well_formed ls t -> objects ls l -> keeps_child f ->
  keeps_locks (flag_locked f self now) (flag_op f self now t) l t.
Proof.
  intros H Ho Hf. unfold flag_locked, flag_op. destruct (first_with t self (head :: ls)) as [c|] eqn:Hc.
  - destruct (own_flag ls t self c f l H Hf Hc) as (t1 & E1 & Es & H1 & Hc1).
    destruct (update_well_formed _ _ self now c H1 Hc1) as (t' & E' & H' & _).
    rewrite (current_get_linked _ _ _ (wf_linked _ _ H)), Hc. simpl. rewrite Es. simpl. rewrite E'. exists ls, l.
    split_and!; [|done|done]. rewrite (Got_bind _ _ _ _ _ (own_lock _ _ _ _ _ H Ho Hc)), (Got_bind _ _ _ _ _ E1),
      (Got_bind _ _ _ _ _ (own_unlock _ _ _ _ _ H1 Hc1)),
      (Got_bind _ _ _ _ _ (signal_st _ _ _ _ (objects_global _ _ _ Ho G_cond))). by apply change_st.
  - destruct (own_missing ls t self l [] H Hc) as [E1 E2]. rewrite E2. simpl. apply Stops_bind. by apply Stops_bind.
Qed.

Lemma store_twice c f g t t1 :
  store c f t = Val t1 -> store c g t1 = store c (fun n => g (f n)) t.
Proof.
  unfold store, load. destruct t as [m]. simpl. destruct (m !! c) as [n|]; [|done]. simpl. intros [= <-]. simpl.
  rewrite lookup_insert_eq. simpl. by rewrite insert_insert_eq.
Qed.

Lemma exit_locks self now ls t l :
  well_formed ls t -> objects ls l ->
  keeps_locks (current_exit self now) (Current.current_exit self now t) l t.
Proof.
  intros H Ho. unfold current_exit, Current.current_exit. destruct (first_with t self (head :: ls)) as [c|] eqn:Hc.
  - destruct (own_flag ls t self c (fun w => bit_clear w UBWT_WORKER_FLAG_TASK_RUNNING) l H) as (t1 & E1 & Es1 & H1 & Hc1);
      [apply clear_keeps; [split; vm_compute; congruence|done]|done|].
    destruct (own_flag ls t1 self c (fun w => bit_set w UBWT_WORKER_FLAG_TASK_JOINABLE) l H1) as (t2 & E2 & Es2 & H2 & Hc2);
      [apply set_keeps; [split; vm_compute; congruence|done]|done|].
    destruct (update_well_formed _ _ self now c H2 Hc2) as (t' & E' & H' & _ & Hd').
    assert (first_with t' self (head :: ls) = Some c) as Hc'.
    { apply first_with_Some in Hc2 as [Hin Hid]. apply first_with_unique; [done| |apply (wf_ids _ _ H')].
      unfold id_at in *. rewrite Hd'. by destruct (data_at t2 c). }
    rewrite (current_get_linked _ _ _ (wf_linked _ _ H)), Hc. simpl.
    change (set_flags (fun w => bit_set (bit_clear w UBWT_WORKER_FLAG_TASK_RUNNING) UBWT_WORKER_FLAG_TASK_JOINABLE))
      with (fun n => set_flags (fun w => bit_set w UBWT_WORKER_FLAG_TASK_JOINABLE)
        (set_flags (fun w => bit_clear w UBWT_WORKER_FLAG_TASK_RUNNING) n)).
    rewrite <- (store_twice _ _ _ _ _ Es1), Es2. simpl. rewrite E'. exists ls, l. split_and!; [|done|done].
    rewrite (Got_bind _ _ _ _ _ (own_lock _ _ _ _ _ H Ho Hc)), (Got_bind _ _ _ _ _ E1), (Got_bind _ _ _ _ _ E2),
      (Got_bind _ _ _ _ _ (signal_st _ _ _ _ (objects_global _ _ _ Ho G_cond))),
      (Got_bind _ _ _ _ _ (change_st _ _ _ _ _ E')). by apply (own_unlock ls).
  - destruct (own_missing ls t self l [] H Hc) as [E1 E2]. rewrite E2. simpl. apply Stops_bind. by apply Stops_bind.
Qed.

Lemma fork_locks self task c sock timeout now ls t l :
  well_formed ls t -> objects ls l -> allowed (Fork self task c sock timeout now) t ->
  keeps_locks (current_fork self task c sock timeout now) (Current.current_fork self task c sock timeout now t) l t.
Proof.
  intros H Ho Ha. destruct c as [c|].
  2: { unfold current_fork, Current.current_fork. destruct (first_with t self (head :: ls)) as [d|] eqn:Hd.
    - rewrite (current_get_linked _ _ _ (wf_linked _ _ H)), Hd. simpl. by rewrite (Got_bind _ _ _ _ _ (own_found ls t self d _ _ H Hd)).
    - destruct (own_missing ls t self l [] H Hd) as [E1 E2]. rewrite E2. simpl. by apply Stops_bind. }
  destruct Ha as (Hc & Hself & Htask & Hown).
  assert (self ∉ ids t (head :: ls)) as Hni by (intros (d & _ & Hd)%list_elem_of_omap; by apply (Hself d)).
  assert (c ∉ head :: ls) as Hcl.
  { intros Hin. apply (linked_dom _ _ (wf_linked _ _ H)) in Hin as [? Hin]. congruence. }
  destruct (linked_head _ _ (wf_linked _ _ H)) as (h & Hh & _).
  assert (load t head = Val h) as El by (unfold load; by rewrite Hh). 
  assert (Current.current_fork self task (Some c) sock timeout now t =
    ((if truth (im_connector (config (data h))) then
        if sock <? 0 then End (Aborted "socket") else if timeout <? 0 then End (Aborted "net_timeout_set") else Val tt
      else Val tt) ;;
     (t ← insert_front c (fork_node (data h) self sock task) t; current_update self now t))) as ->
    by (unfold Current.current_fork; by rewrite El).
  destruct (insert_update ls t self task c sock now (data h)) as (t' & Eu & H' & _); [done..|unfold data_at; by rewrite Hh|].
  assert (forall a, (t ← insert_front c (fork_node (data h) self sock task) t; current_update self now t) = a ->
    keeps_locks (worker_mutex_init (Mutex_local c) ;; worker_mutex_lock (Mutex_local c) ;; worker_mutex_unlock (Mutex_local c) ;;
      worker_mutex_lock Mutex_global ;; guarded Mutex_global (insert_front c (fork_node (data h) self sock task)) ;;
      worker_mutex_unlock Mutex_global ;; change (current_update self now)) a l t) as Hrun.
  { intros a <-. rewrite Eu. destruct (insert_front c (fork_node (data h) self sock task) t) as [t1| | |] eqn:E1; [|done..].
    simpl in Eu. exists (c :: ls), (Mutex_local c :: l). split_and!; [|done|by apply objects_add].
    rewrite (Got_bind _ _ _ _ _ (init_st (Mutex_local c) l _ _ ltac:(by rewrite (objects_local _ _ _ Ho)))).
    rewrite (Got_bind _ _ _ _ _ (lock_st (Mutex_local c) (Mutex_local c :: l) _ ltac:(by constructor))), (Got_bind _ _ _ _ _ (unlock_st _ _ _)).
    rewrite (Got_bind _ _ _ _ _ (lock_st Mutex_global (Mutex_local c :: l) _ ltac:(right; by apply (objects_global ls)))).
    rewrite (Got_bind _ _ _ _ _ (guarded_st _ _ _ _ _ E1)), (Got_bind _ _ _ _ _ (unlock_st _ _ _)). by apply change_st. }
  unfold keeps_locks, current_fork. rewrite (Got_bind _ _ _ _ _ (access_st _ _ _ _ _ El)).
  destruct (truth (im_connector (config (data h)))); [destruct (sock <? 0); [done|destruct (timeout <? 0); [done|]]|];
    by apply Hrun.
Qed.

Lemma joined self id c n t :
  find_worker (walk_fuel t) id head t = Val (Some c) -> load t c = Val n ->
  Current.current_join self id t =
    (mem_assert (negb (worker_id (data n) =? self)) "c->worker_id != worker_self()" ;;
     mem_assert (negb (has_flag UBWT_WORKER_FLAG_TASK_RUNNING n)) "!bit_test(RUNNING)" ;;
     mem_assert (has_flag UBWT_WORKER_FLAG_TASK_JOINABLE n) "bit_test(JOINABLE)" ;;
     remove c n t).
Proof. intros Ef El. unfold Current.current_join. rewrite Ef. simpl. by rewrite El. Qed.

(** The end of [current_join], under the global mutex and after it. *)
Definition remove_locked (c : loc) (n : node) : P unit :=
  worker_mutex_lock Mutex_global ;;
  guarded Mutex_global (unlink c) ;;
  worker_mutex_unlock Mutex_global ;;
  worker_mutex_destroy (Mutex_local c) ;;
  change (free_task (worker_task n)) ;;
  change (fun t => free_node c (t {{ closed ::= fun l => l ++ [fd (net (data n))] }})).

Lemma remove_locks ls c n t l :
  well_formed ls t -> objects ls l -> nodes t !! c = Some n -> keeps_locks (remove_locked c n) (remove c n t) l t.
Proof.
  intros H Ho Hn. assert (c ∈ head :: ls) as Hin by (apply (linked_dom _ _ (wf_linked _ _ H)); by exists n).
  unfold remove_locked. pose proof (lock_st Mutex_global l t (objects_global _ _ _ Ho G_global)) as Elock.
  destruct (decide (c = head)) as [->|Hne].
  - destruct (linked_head _ _ (wf_linked _ _ H)) as (h & Hh & Hp & _).
    assert (unlink head t = End (Aborted "current_join")) as Eu by (unfold unlink, load; rewrite Hh; simpl; by rewrite Hp).
    unfold remove. rewrite Eu. unfold keeps_locks. rewrite (Got_bind _ _ _ _ _ Elock). by apply Stops_bind, guarded_end.
  - assert (c ∈ ls) as (l1 & l2 & ->)%list_elem_of_split by set_solver.
    destruct (remove_spec _ _ _ _ _ H Hn) as (t' & E & H' & _). rewrite E. unfold remove in E.
    destruct (unlink c t) as [t1| | |] eqn:E1; try discriminate E. simpl in E.
    destruct (free_task (worker_task n) t1) as [t2| | |] eqn:E2; try discriminate E. simpl in E.
    exists (l1 ++ l2), (without (Mutex_local c) l). split_and!; [|done|by apply objects_remove].
    rewrite (Got_bind _ _ _ _ _ Elock), (Got_bind _ _ _ _ _ (guarded_st _ _ _ _ _ E1)), (Got_bind _ _ _ _ _ (unlock_st _ _ _)),
      (Got_bind _ _ _ _ _ (destroy_st (Mutex_local c) l _ ltac:(by rewrite (objects_local _ _ _ Ho)))),
      (Got_bind _ _ _ _ _ (change_st _ _ _ _ _ E2)). by apply change_st.
Qed.

Lemma join_locks self id ls t l :
  well_formed ls t -> objects ls l -> keeps_locks (current_join self id) (Current.current_join self id t) l t.
Proof.
  intros H Ho. pose proof (find_worker_linked _ t id (wf_linked _ _ H)) as Ef. unfold current_join, keeps_locks.
  rewrite (Got_bind _ _ _ _ _ (access_st (fun t => find_worker (walk_fuel t) id head t) _ _ _ _ Ef)).
  destruct (first_with t id (head :: ls)) as [c|] eqn:Ec; [|unfold Current.current_join; by rewrite Ef].
  apply first_with_Some in Ec as [Hin Hid].
  destruct (proj2 (linked_dom _ _ (wf_linked _ _ H) c) Hin) as [n Hn].
  assert (load t c = Val n) as El by (unfold load; by rewrite Hn). rewrite (joined _ _ _ _ _ Ef El).
  rewrite (Got_bind _ _ (st l [] t) c (st l [] t) eq_refl).
  pose proof (fun h => access_st (fun t => load t c) l h t n El) as Eload.
  rewrite (Got_bind _ _ _ _ _ (Eload [])).
  destruct (negb (worker_id (data n) =? self)); [|done].
  rewrite (Got_bind _ _ (st l [] t) tt (st l [] t) eq_refl).
  rewrite (Got_bind _ _ _ _ _ (lock_st (Mutex_local c) l t ltac:(by rewrite (objects_local _ _ _ Ho)))), (Got_bind _ _ _ _ _ (Eload _)).
  destruct (negb (has_flag UBWT_WORKER_FLAG_TASK_RUNNING n)); [|done].
  rewrite (Got_bind _ _ (st l _ t) tt (st l _ t) eq_refl).
  destruct (has_flag UBWT_WORKER_FLAG_TASK_JOINABLE n); [|done].
  rewrite (Got_bind _ _ (st l _ t) tt (st l _ t) eq_refl), (Got_bind _ _ _ _ _ (unlock_st _ _ _)).
  by apply (remove_locks ls).
Qed.

Lemma cancelled_locks self ls t l :
  well_formed ls t -> objects ls l ->
  keeps_locks (_ ← worker_im_cancelled self; mret tt) (_ ← Worker.worker_im_cancelled current_get self t; Val t) l t.
Proof.
  intros H Ho. unfold keeps_locks, worker_im_cancelled, Worker.worker_im_cancelled.
  destruct (first_with t self (head :: ls)) as [c|] eqn:Hc.
  - apply first_with_Some in Hc as Hin. destruct Hin as [Hin _].
    destruct (proj2 (linked_dom _ _ (wf_linked _ _ H) c) Hin) as [n Hn].
    assert (load t c = Val n) as El by (unfold load; by rewrite Hn).
    rewrite (current_get_linked _ _ _ (wf_linked _ _ H)), Hc. cbn [mbind mem_bind]. rewrite El. cbn [mbind mem_bind].
    exists ls, l. split_and!; [|done|done]. rewrite (Got_bind _ _ _ (bit_test (worker_flags (data n)) UBWT_WORKER_FLAG_CANCEL_REQUESTED) (st l [] t)); [done|].
    rewrite (Got_bind _ _ _ _ _ (own_lock _ _ _ _ _ H Ho Hc)), (Got_bind _ _ _ _ _ (own_found _ _ _ _ _ _ H Hc)),
      (Got_bind _ _ _ _ _ (access_st (fun t => load t c) _ _ _ _ El)).
    by rewrite (Got_bind _ _ _ _ _ (own_unlock _ _ _ _ _ H Hc)).
  - destruct (own_missing ls t self l [] H Hc) as [E1 E2]. rewrite E2. cbn [mbind mem_bind].
    apply Stops_bind, Stops_bind. by apply Stops_bind.
Qed.

(** The structure of another thread. *)
Lemma other_missing ls t tid l h :
  well_formed ls t -> first_with t tid (head :: ls) = None ->
  access (current_get tid) (st l h t) = Stops (Assertion "c != NULL") /\ current_get tid t = End (Assertion "c != NULL").
Proof. apply own_missing. Qed.

Lemma is_cancelled_locks tid ls t l :
  well_formed ls t -> objects ls l ->
  keeps_locks (_ ← worker_is_cancelled tid; mret tt) (_ ← Worker.worker_is_cancelled current_get tid t; Val t) l t.
Proof.
  intros H Ho. unfold keeps_locks, worker_is_cancelled, Worker.worker_is_cancelled.
  destruct (first_with t tid (head :: ls)) as [c|] eqn:Hc.
  - apply first_with_Some in Hc as Hin. destruct Hin as [Hin _].
    destruct (proj2 (linked_dom _ _ (wf_linked _ _ H) c) Hin) as [n Hn].
    assert (load t c = Val n) as El by (unfold load; by rewrite Hn).
    rewrite (current_get_linked _ _ _ (wf_linked _ _ H)), Hc. cbn [mbind mem_bind]. rewrite El. cbn [mbind mem_bind].
    exists ls, l. split_and!; [|done|done]. rewrite (Got_bind _ _ _ (bit_test (worker_flags (data n)) UBWT_WORKER_FLAG_CANCEL_COMPLETED) (st l [] t)); [done|].
    rewrite (Got_bind _ _ _ _ _ (own_found _ _ _ _ _ _ H Hc)),
      (Got_bind _ _ _ _ _ (lock_st (Mutex_local c) l t ltac:(by rewrite (objects_local _ _ _ Ho)))),
      (Got_bind _ _ _ _ _ (access_st (fun t => load t c) _ _ _ _ El)).
    by rewrite (Got_bind _ _ _ _ _ (unlock_st _ _ _)).
  - destruct (other_missing ls t tid l [] H Hc) as [E1 E2]. rewrite E2. cbn [mbind mem_bind].
    apply Stops_bind. by apply Stops_bind.
Qed.

Lemma cancel_locks tid ls t l :
  well_formed ls t -> objects ls l ->
  keeps_locks (worker_cancel tid) (Worker.worker_cancel current_get tid 0 t) l t.
Proof.
  intros H Ho. unfold keeps_locks, worker_cancel, Worker.worker_cancel.
  destruct (first_with t tid (head :: ls)) as [c|] eqn:Hc.
  - apply first_with_Some in Hc as Hin. destruct Hin as [Hin _].
    destruct (set_flags_well_formed ls t (fun w => bit_set w UBWT_WORKER_FLAG_CANCEL_REQUESTED) c H) as (t1 & E & H1 & _);
      [apply set_keeps; [split; vm_compute; congruence|done]|done|].
    rewrite (current_get_linked _ _ _ (wf_linked _ _ H)), Hc. cbn [mbind mem_bind]. rewrite E. cbn [mbind mem_bind].
    exists ls, l. split_and!; [|done|done].
    rewrite (Got_bind _ _ _ _ _ (own_found _ _ _ _ _ _ H Hc)),
      (Got_bind _ _ _ _ _ (lock_st (Mutex_local c) l t ltac:(by rewrite (objects_local _ _ _ Ho)))),
      (Got_bind _ _ _ _ _ (guarded_st _ _ _ _ _ E)), (Got_bind _ _ _ _ _ (unlock_st _ _ _)). done.
  - destruct (other_missing ls t tid l [] H Hc) as [E1 E2]. rewrite E2. cbn [mbind mem_bind]. by apply Stops_bind.
Qed.

Lemma op_locks o ls t l :
  well_formed ls t -> objects ls l -> match o with Of o => allowed o t | _ => True end ->
  keeps_locks (locked_op o) (memory_op o t) l t.
Proof.
  intros H Ho Ha. destruct o as [[self task c sock timeout now|self now|self now|self now|self now|self id]| | |];
    cbn [locked_op memory_op run_op].
  - by apply (fork_locks _ _ _ _ _ _ ls).
  - destruct (first_with t self (head :: ls)) as [c|] eqn:Hc.
    + destruct (update_well_formed ls t self now c H Hc) as (t' & E & H' & _). rewrite E. exists ls, l.
      split_and!; [by apply change_st|done|done].
    + destruct (own_missing ls t self l [] H Hc) as [_ E].
      assert (current_update self now t = End (Assertion "c != NULL")) as E' by (unfold current_update; by rewrite E).
      rewrite E'. by apply change_end.
  - apply (flag_locks (fun w => bit_set w UBWT_WORKER_FLAG_TASK_RUNNING) self now ls); [done|done|].
    apply set_keeps; [split; vm_compute; congruence|done].
  - apply (flag_locks (fun w => bit_clear w UBWT_WORKER_FLAG_TASK_RUNNING) self now ls); [done|done|].
    apply clear_keeps; [split; vm_compute; congruence|done].
  - by apply (exit_locks _ _ ls).
  - by apply (join_locks _ _ ls).
  - by apply (cancelled_locks _ ls).
  - by apply (is_cancelled_locks _ ls).
  - by apply (cancel_locks _ ls).
Qed.

Lemma ops_locks os ls t l :
  well_formed ls t -> objects ls l -> possible os t -> keeps_locks (locked_ops os) (memory_ops os t) l t.
Proof.
  revert ls t l. induction os as [|o os IH]; intros ls t l H Ho Hp; [by exists ls, l|].
  destruct Hp as [Ha Hp]. pose proof (op_locks o ls t l H Ho Ha) as Hop. unfold keeps_locks in *. cbn [memory_ops locked_ops].
  destruct (memory_op o t) as [t'| | |]; [|by apply Stops_bind|done|done].
  destruct Hop as (ls' & l' & E & H' & Ho'). cbn [mbind mem_bind]. specialize (IH ls' t' l' H' Ho' Hp).
  destruct (memory_ops os t'); [|by rewrite (Got_bind _ _ _ _ _ E)|done|done].
  destruct IH as (ls2 & l2 & E2 & ?). exists ls2, l2. split; [|done]. by rewrite (Got_bind _ _ _ _ _ E).
Qed.

End steps.

(** ** The life of the locks *)

(** The process before [main]: static memory is zero; [ts] are the tasks [runtime_do]
    will allocate. *)
Definition process_empty (ts : gmap loc ubwt_worker_task_t) : pstate := {|
  answers := []; live := []; held := []; nested := false; totals := [None; None; None]; specific := None;
  memory := {| nodes := ∅; tasks := ts; worker_forking := 0; closed := [] |} |}.

(** What [config_init] (Config.v) leaves in the main thread's structure. *)
Definition configured (c : ubwt_config) : P unit :=
  change (store head (fun n => n {{ data ::= fun d => d {{ config := c }} }})).

(** The beginning of [_construct] in main.c. *)
Definition main_begin (b : build) (self now : Z) (c : ubwt_config) : P unit :=
  current_init self now ;; configured c ;; worker_init b c.

Lemma configured_well_formed self now ts c :
  exists t, store head (fun n => n {{ data ::= fun d => d {{ config := c }} }}) (threads_init self now ts) = Val t /\ well_formed [] t.
Proof.
  pose proof (init_well_formed self now ts) as H.
  destruct (store_linked [] _ head (fun n => n {{ data ::= fun d => d {{ config := c }} }}) ltac:(done) (wf_linked _ _ H)
    ltac:(constructor)) as (n & Hn & E & Hl).
  eexists. split; [exact E|]. simpl in Hn. rewrite lookup_singleton_eq in Hn. injection Hn as <-.
  assert (forall d, nodes (threads_init self now ts) !! d = if decide (d = head) then Some (Current.current_init self now) else None) as Hd.
  { intros d. simpl. rewrite lookup_singleton. by repeat case_decide. }
  apply (well_formed_same _ _ _ H Hl); [|done|].
  - intros d. unfold id_at, data_at, task_of. simpl. destruct (decide (d = head)) as [->|Hne].
    + by rewrite lookup_insert_eq, lookup_singleton_eq.
    + by rewrite lookup_insert_ne, lookup_singleton_ne.
  - intros d k Hk. unfold data_at in Hk. simpl in Hk. destruct (decide (d = head)) as [->|Hne].
    + rewrite lookup_insert_eq in Hk. injection Hk as <-. apply (wf_flags _ _ H head (data (Current.current_init self now))).
      unfold data_at. by rewrite Hd.
    + by rewrite lookup_insert_ne, lookup_singleton_ne in Hk.
Qed.

Lemma main_begins b self now ts c :
  config_wf b c -> defined (UBWT_CONFIG_MULTI_THREADED b) = true ->
  exists T k l t, main_begin b self now c (process_empty ts) = Got tt (st T k l [] t) /\ T = Process.worker_init c /\
    well_formed [] t /\ objects (global_objects b c) [] l.
Proof.
  intros Hwf Hmt. destruct (configured_well_formed self now ts c) as (t & E & H).
  destruct (init_runs b c (st [None; None; None] None [Mutex_local head] [] t) Hwf Hmt ltac:(by repeat constructor) eq_refl) as [Hnew Hrun].
  assert (first_failure (init_calls b c) [] = None) as Ef.
  { generalize (init_calls b c). induction l as [|e l IH]; [done|]. simpl. by destruct (is_call e). }
  simpl in Hrun. rewrite Ef in Hrun. destruct Hrun as ([a l h n T k m] & Er & Hlive & Hlocks & Ht & Hm & Ha).
  unfold locks in Hlocks. simpl in *. rewrite (Ha eq_refl) in Er. simplify_eq.
  exists (Process.worker_init c), k, l, t. split_and!; [|done|done|split; [done|]].
  - unfold main_begin, current_init.
    rewrite (Got_bind _ _ (process_empty ts) tt (process_state [] (threads_init self now ts))); [|done].
    rewrite (Got_bind _ _ _ tt (st [None; None; None] None [Mutex_local head] [] t)); [exact Er|].
    apply (change_st _ _ _ [Mutex_local head] [] (threads_init self now ts)). exact E.
  - rewrite Hlive. apply list.NoDup_app. split_and!; [apply global_objects_nodup|done|].
    constructor; [set_solver|constructor].
Qed.

(** C15: the mutexes protect the list of threads, and follow it.  In a build with threads
    and for a configuration that [config_init] accepts, after the beginning of
    [_construct], for every sequence of the operations of the threads on the list and
    on the flags: with their locks they do what they do to the memory without
    (Current.v, Worker.v), so every change of flags is made under the mutex of that
    structure and every change of links under the global one; no mutex that is not
    initialised is used, none is locked twice, none is asked for while another is held,
    and all are released; between operations there is one mutex for each structure of
    the list and no other; [worker_destroy] leaves exactly those, and so, when all
    workers were joined, one: the main thread's, which nothing destroys. *)
Theorem locks_follow_threads b cfg self now ts os :
  config_wf b cfg -> defined (UBWT_CONFIG_MULTI_THREADED b) = true ->
  exists s1, main_begin b self now cfg (process_empty ts) = Got tt s1 /\
  (possible os (memory s1) ->
   match memory_ops os (memory s1) with
   | Val t => exists ls s2 s3, locked_ops os s1 = Got tt s2 /\ memory s2 = t /\ well_formed ls t /\
       locks s2 = ([], false) /\ live s2 ≡ₚ global_objects b cfg ++ map Mutex_local (head :: ls) /\
       worker_destroy b cfg s2 = Got tt s3 /\ live s3 ≡ₚ map Mutex_local (head :: ls)
   | End e => locked_ops os s1 = Stops e
   | Undefined | Loops => False
   end).
Proof.
  intros Hwf Hmt. destruct (main_begins b self now ts cfg Hwf Hmt) as (T & k & l & t & Eb & -> & H & Ho).
  exists (st (Process.worker_init cfg) k l [] t). split; [done|]. intros Hp. simpl in *.
  assert (forall o, o ∈ [Mutex_global; Mutex_cond; Cond_global] -> o ∈ global_objects b cfg) as Hin.
  { intros o Hin. rewrite global_objects_split. rewrite !elem_of_app. right. by left. }
  pose proof (ops_locks (Process.worker_init cfg) k (global_objects b cfg) ltac:(apply Hin; set_solver) ltac:(apply Hin; set_solver)
    (global_objects_not_local b cfg) os [] t l H Ho Hp) as Hrun.
  unfold keeps_locks in Hrun. destruct (memory_ops os t) as [t'| | |]; [|done|done|done].
  destruct Hrun as (ls & l' & E & H' & Ho'). destruct Ho' as [Hl Hnd].
  destruct (destroy_runs b cfg (map Mutex_local (head :: ls)) (st (Process.worker_init cfg) k l' [] t')) as (s3 & E3 & Hl3 & _);
    [done| |done|done|done|].
  { intros o Hog Hol. apply global_objects_not_local in Hog. apply list_elem_of_fmap in Hol as (c & -> & _). done. }
  exists ls, (st (Process.worker_init cfg) k l' [] t'), s3. by split_and!.
Qed.

Fixpoint possibleb (os : list lop) (t : threads) : bool :=
  match os with
  | [] => true
  | o :: os =>
      match o with Of o => allowedb o t | _ => true end && match memory_op o t with Val t' => possibleb os t' | _ => true end
  end.

Lemma possibleb_ok os t : possibleb os t = true -> possible os t.
Proof.
  revert t. induction os as [|o os IH]; intros t; [done|]. simpl. intros [Ho Hs]%andb_true_iff. split.
  - destruct o; [by apply allowedb_ok|done..].
  - destruct (memory_op o t); [by apply IH|done..].
Qed.

(** Two workers are created and run; the main thread asks the second one to stop, which
    sees it; both end and the first is joined. *)
Lemma locks_follow_threads_witness :
  let k := {| task_type := UBWT_WORKER_TASK_TYPE_NVR_INT; task_fun := "process_run"; task_arg := 0 |} in
  let ts := {[ 10%positive := k; 11%positive := k ]} in
  let os := [Of (Fork 7 10%positive (Some 2%positive) 5 0 5); Of (Fork 8 11%positive (Some 3%positive) 6 0 6);
    Of (RunningSet 7 7); Of (RunningSet 8 8); Cancel 8; ImCancelled 8; IsCancelled 8; Of (Exit 7 9); Of (Exit 8 10); Of (Join 1 7)] in
  exists c s1 s2 s3, example_config "connector" [O_W "2"] = Some c /\
    main_begin build_linux 1 0 c (process_empty ts) = Got tt s1 /\ locked_ops os s1 = Got tt s2 /\
    worker_destroy build_linux c s2 = Got tt s3 /\ live s3 ≡ₚ [Mutex_local 3%positive; Mutex_local head].
Proof.
  intros k ts os. destruct (example_config "connector" [O_W "2"]) as [c|] eqn:Hc; [|discriminate Hc].
  destruct (locks_follow_threads build_linux c 1 0 ts os (example_config_wf _ _ _ Hc) eq_refl) as (s1 & E1 & Hrun).
  assert (match main_begin build_linux 1 0 c (process_empty ts) with
    | Got _ s => possibleb os (memory s) && match memory_ops os (memory s) with
        | Val t => bool_decide (map fst (map_to_list (nodes t)) = [3%positive; head]) | _ => false end
    | _ => false end = true) as Hall by (vm_compute in Hc; injection Hc as <-; by vm_compute).
  rewrite E1 in Hall. apply andb_true_iff in Hall as [Hp Hv]. specialize (Hrun (possibleb_ok _ _ Hp)).
  destruct (memory_ops os (memory s1)) as [t| | |]; [|discriminate Hv..].
  destruct Hrun as (ls & s2 & s3 & E2 & _ & Hwf & _ & _ & E3 & Hl). exists c, s1, s2, s3. split_and!; [done..|].
  rewrite Hl. apply bool_decide_eq_true in Hv. apply (fmap_Permutation Mutex_local (head :: ls) [3%positive; head]).
  rewrite <- Hv. apply NoDup_Permutation.
  - apply (linked_nodup _ _ (wf_linked _ _ Hwf)).
  - apply NoDup_fst_map_to_list.
  - intros d. rewrite <- (linked_dom _ _ (wf_linked _ _ Hwf)), list_elem_of_fmap. split.
    + intros [n Hn]. exists (d, n). split; [done|]. by apply elem_of_map_to_list.
    + intros ([d' n] & -> & Hn). exists n. by apply elem_of_map_to_list in Hn.
Defined.
