(* ===== verification/Format.v ===== *)
(** The conversions of [printf] that the program uses: [%u] and its widths,
    [%.nf] of a double, and [%12s].

    [%.nf] prints the exact binary value rounded to the nearest multiple of
    10^-n, ties to even, as the C library does in the default rounding mode. *)

From S2P Require Import Prelude Double.

Open Scope string_scope.
Open Scope Z_scope.

(** ** Strings *)

#[global] Arguments String.append !_ _ / : simpl nomatch.

Lemma string_app_assoc (s t u : string) : (s +:+ t) +:+ u = s +:+ (t +:+ u).
Proof. induction s as [|c s IH]; [done|]. simpl. by rewrite IH. Qed.

Lemma string_app_nil (s : string) : s +:+ "" = s.
Proof. induction s as [|c s IH]; [done|]. simpl. by rewrite IH. Qed.

Lemma string_length_app (s t : string) : String.length (s +:+ t) = (String.length s + String.length t)%nat.
Proof. induction s as [|c s IH]; [done|]. simpl. by rewrite IH. Qed.

(** A property of every character. *)
Fixpoint all_chars (P : ascii -> bool) (s : string) : bool :=
  match s with
  | EmptyString => true
  | String c s => P c && all_chars P s
  end.

Lemma all_chars_app P s t : all_chars P (s +:+ t) = all_chars P s && all_chars P t.
Proof. induction s as [|c s IH]; [done|]. simpl. by rewrite IH, andb_assoc. Qed.

Definition code (c : ascii) : Z := Z.of_N (N_of_ascii c).

Definition is_digit (c : ascii) : bool := (48 <=? code c) && (code c <=? 57).

Definition is_digits (s : string) : Prop := all_chars is_digit s = true.

(** ** [%u] *)

Definition digit (d : Z) : ascii := ascii_of_N (Z.to_N (48 + d)).

Lemma code_digit d : 0 <= d <= 9 -> code (digit d) = 48 + d.
Proof. intros Hd. unfold code, digit. rewrite N_ascii_embedding; lia. Qed.

Lemma is_digit_digit d : 0 <= d <= 9 -> is_digit (digit d) = true.
Proof. intros Hd. unfold is_digit. rewrite code_digit by done. apply andb_true_iff. split; apply Z.leb_le; lia. Qed.

(** The digits of [z] before [acc]; a step removes a digit, so that there are no
    more steps than bits. *)
Fixpoint dec_go (fuel : nat) (z : Z) (acc : string) : string :=
  match fuel with
  | O => acc
  | S fuel =>
      let acc := String (digit (z mod 10)) acc in
      if z <? 10 then acc else dec_go fuel (z / 10) acc
  end.

Definition dec (z : Z) : string := dec_go (S (Z.to_nat (Z.log2 z))) z "".

(** The number read from digits, after [acc]. *)
Fixpoint read_dec (acc : Z) (s : string) : Z :=
  match s with
  | EmptyString => acc
  | String c s => read_dec (acc * 10 + (code c - 48)) s
  end.

Lemma read_dec_app acc s t : read_dec acc (s +:+ t) = read_dec (read_dec acc s) t.
Proof. revert acc. induction s as [|c s IH]; intros acc; [done|]. simpl. apply IH. Qed.

(** A leading zero is the whole number. *)
Definition canonical (s : string) : bool :=
  match s with
  | EmptyString => false
  | String c EmptyString => is_digit c
  | String c s => is_digit c && negb (code c =? 48) && all_chars is_digit s
  end.

Lemma dec_go_app fuel z acc : dec_go fuel z acc = dec_go fuel z "" +:+ acc.
Proof.
  revert z acc. induction fuel as [|fuel IH]; intros z acc; [done|]. simpl.
  destruct (z <? 10); [done|]. rewrite IH, (IH _ (String _ "")), string_app_assoc. done.
Qed.

Lemma dec_go_S fuel z :
  dec_go (S fuel) z "" = (if z <? 10 then "" else dec_go fuel (z / 10) "") +:+ String (digit (z mod 10)) "".
Proof. simpl. destruct (z <? 10); [done|]. apply dec_go_app. Qed.

Lemma log2_div10 z : 10 <= z -> (Z.to_nat (Z.log2 (z / 10)) < Z.to_nat (Z.log2 z))%nat.
Proof.
  intros Hz. pose proof (Z.log2_spec z ltac:(lia)) as [_ Hhi].
  assert (0 < z / 10) as H1 by (apply Z.div_str_pos; lia).
  assert (1 <= Z.log2 z) by (change 1 with (Z.log2 2); apply Z.log2_le_mono; lia).
  assert (Z.log2 (z / 10) < Z.log2 z); [|pose proof (Z.log2_nonneg (z / 10)); lia].
  apply Z.log2_lt_pow2; [done|]. rewrite Z.pow_succ_r in Hhi by lia. apply Z.div_lt_upper_bound; lia.
Qed.

(** Any fuel above the logarithm gives the same digits. *)
Lemma dec_go_fuel f g z :
  0 <= z -> (Z.to_nat (Z.log2 z) < f)%nat -> (Z.to_nat (Z.log2 z) < g)%nat -> dec_go f z "" = dec_go g z "".
Proof.
  revert g z. induction f as [|f IH]; intros [|g] z Hz Hf Hg; try lia. rewrite !dec_go_S.
  destruct (Z.ltb_spec z 10); [done|]. f_equal. pose proof (log2_div10 z ltac:(lia)).
  apply IH; [apply Z.div_pos; lia|lia|lia].
Qed.

Lemma dec_step z : 0 <= z -> dec z = (if z <? 10 then "" else dec (z / 10)) +:+ String (digit (z mod 10)) "".
Proof.
  intros Hz. unfold dec at 1. rewrite dec_go_S. destruct (Z.ltb_spec z 10); [done|]. f_equal.
  pose proof (log2_div10 z ltac:(lia)). apply dec_go_fuel; [apply Z.div_pos; lia|lia|lia].
Qed.

(** Induction on the digits of a number. *)
Lemma dec_ind (P : Z -> string -> Prop) :
  (forall d, 0 <= d <= 9 -> P d (String (digit d) "")) ->
  (forall z s, 1 <= z -> P z s -> forall d, 0 <= d <= 9 -> P (z * 10 + d) (s +:+ String (digit d) "")) ->
  forall z, 0 <= z -> P z (dec z).
Proof.
  intros H1 H2 z. induction z as [z IH] using (well_founded_induction (Z.lt_wf 0)). intros Hz.
  rewrite dec_step by done. pose proof (Z.mod_pos_bound z 10 ltac:(lia)). destruct (Z.ltb_spec z 10).
  - rewrite Z.mod_small by lia. apply H1. lia.
  - assert (1 <= z / 10 < z) by (split; [apply Z.div_le_lower_bound; lia|apply Z.div_lt; lia]).
    replace (P z) with (P (z / 10 * 10 + z mod 10)) by (f_equal; pose proof (Z.div_mod z 10); lia).
    apply H2; [lia|apply IH; lia|lia].
Qed.

Lemma read_dec_dec z : 0 <= z -> read_dec 0 (dec z) = z.
Proof.
  revert z. apply (dec_ind (fun z s => read_dec 0 s = z)).
  - intros d Hd. simpl. rewrite code_digit by done. lia.
  - intros z s _ Hs d Hd. rewrite read_dec_app, Hs. simpl. rewrite code_digit by done. lia.
Qed.

(** The digits of a number other than zero start with another digit than zero. *)
Lemma dec_canonical z : 0 <= z -> canonical (dec z) = true.
Proof.
  intros Hz. enough (canonical (dec z) = true /\ (1 <= z -> exists c s, dec z = String c s /\ (code c =? 48) = false)) by tauto.
  revert z Hz. apply (dec_ind (fun z s => canonical s = true /\ (1 <= z -> exists c s', s = String c s' /\ (code c =? 48) = false))).
  - intros d Hd. simpl. split; [by apply is_digit_digit|]. intros Hd1. do 2 eexists. split; [reflexivity|].
    apply Z.eqb_neq. rewrite code_digit by done. lia.
  - intros z s Hz [Hc Hs] d Hd. destruct (Hs Hz) as (c & s' & -> & Hne). split; [|intros; simpl; eauto].
    destruct s' as [|c' s']; simpl in *.
    + by rewrite Hc, Hne, is_digit_digit by done.
    + apply andb_true_iff in Hc as [Hc Hall]. rewrite Hc, all_chars_app. simpl in *.
      apply andb_true_iff in Hall as [-> ->]. by rewrite is_digit_digit by done.
Qed.

Lemma canonical_digits s : canonical s = true -> is_digits s /\ s <> "".
Proof.
  unfold is_digits. destruct s as [|c [|c' s]]; simpl; [done| |].
  - intros ->. done.
  - intros [[-> _]%andb_true_iff ->]%andb_true_iff. done.
Qed.

(** ** [%.nf] *)

(** [n] digits of [z], with leading zeros. *)
Fixpoint fixed (n : nat) (z : Z) : string :=
  match n with
  | O => ""
  | S n => fixed n (z / 10) +:+ String (digit (z mod 10)) ""
  end.

(** The multiple of [10^-n] nearest to [m * 2^e], scaled by [10^n]. *)
Definition round_scaled (n : nat) (m e : Z) : Z :=
  let num := m * 10 ^ Z.of_nat n in
  if 0 <=? e then num * 2 ^ e else
  let den := 2 ^ (- e) in
  let q := num / den in
  let r := num mod den in
  if 2 * r <? den then q
  else if den <? 2 * r then q + 1
  else if Z.even q then q else q + 1.

(** A sign, which is not kept for a NaN. *)
Definition fmt_f (n : nat) (x : double) : string :=
  let sign (s : bool) := if s then "-" else "" in
  let number s z :=
    sign s +:+ dec (z / 10 ^ Z.of_nat n) +:+ (if decide (n = O) then "" else "." +:+ fixed n (z mod 10 ^ Z.of_nat n)) in
  match x with
  | S754_zero s => number s 0
  | S754_finite s m e => number s (round_scaled n (Z.pos m) e)
  | S754_infinity s => sign s +:+ "inf"
  | S754_nan => "nan"
  end.

Example fmt_f_examples :
  fmt_f 4 (ddiv (dbl 2) (dbl 3)) = "0.6667" /\ fmt_f 3 (dbl 1200) = "1200.000" /\
  fmt_f 0 (dbl_lit 25 10) = "2" /\ fmt_f 0 (dbl_lit 35 10) = "4" /\ fmt_f 4 (ddiv (dbl 0) (dbl 0)) = "nan" /\
  fmt_f 3 (ddiv (dbl 1) (dbl 0)) = "inf" /\ dec 18446744073709551615 = "18446744073709551615" /\ dec 0 = "0".
Proof. split_and!; by vm_compute. Qed.

Definition finite (x : double) : bool :=
  match x with S754_zero _ | S754_finite _ _ _ => true | _ => false end.

Lemma round_scaled_nonneg n m e : 0 <= m -> 0 <= round_scaled n m e.
Proof.
  intros Hm. unfold round_scaled.
  assert (0 <= m * 10 ^ Z.of_nat n) by (apply Z.mul_nonneg_nonneg; [done|apply Z.pow_nonneg; lia]).
  destruct (Z.leb_spec 0 e); [apply Z.mul_nonneg_nonneg; [done|apply Z.pow_nonneg; lia]|].
  assert (0 < 2 ^ (- e)) by (apply Z.pow_pos_nonneg; lia).
  pose proof (Z.div_pos (m * 10 ^ Z.of_nat n) (2 ^ - e)). repeat case_match; lia.
Qed.

(** The result is a nearest multiple: it is off by at most half a unit. *)
Lemma round_scaled_nearest n m e :
  e < 0 -> 2 * Z.abs (round_scaled n m e * 2 ^ (- e) - m * 10 ^ Z.of_nat n) <= 2 ^ (- e).
Proof.
  intros He. unfold round_scaled. rewrite (proj2 (Z.leb_gt 0 e)) by done.
  set (num := m * 10 ^ Z.of_nat n). assert (0 < 2 ^ (- e)) as Hd by (apply Z.pow_pos_nonneg; lia).
  set (den := 2 ^ (- e)) in *. pose proof (Z.div_mod num den ltac:(lia)). pose proof (Z.mod_pos_bound num den Hd).
  destruct (Z.ltb_spec (2 * (num mod den)) den); [lia|]. destruct (Z.ltb_spec den (2 * (num mod den))); [lia|].
  destruct (Z.even _); lia.
Qed.

Lemma length_fixed n z : String.length (fixed n z) = n.
Proof.
  revert z. induction n as [|n IH]; intros z; [done|]. simpl. rewrite string_length_app, IH. simpl. lia.
Qed.

Lemma fixed_digits n z : is_digits (fixed n z).
Proof.
  unfold is_digits. revert z. induction n as [|n IH]; intros z; [done|]. simpl. rewrite all_chars_app, IH. simpl.
  by rewrite is_digit_digit by (pose proof (Z.mod_pos_bound z 10); lia).
Qed.

Lemma read_dec_fixed n acc z : 0 <= z < 10 ^ Z.of_nat n -> read_dec acc (fixed n z) = acc * 10 ^ Z.of_nat n + z.
Proof.
  revert z. induction n as [|n IH]; intros z Hz; [simpl in *; lia|].
  rewrite Nat2Z.inj_succ, Z.pow_succ_r in * by lia. simpl fixed. rewrite read_dec_app, IH.
  - simpl. rewrite code_digit by (pose proof (Z.mod_pos_bound z 10); lia). pose proof (Z.div_mod z 10). lia.
  - split; [apply Z.div_pos; lia|apply Z.div_lt_upper_bound; lia].
Qed.

(** ** Reading a printed number back *)

(** The digits of a number without its point, and how many follow the point. *)
Fixpoint read_fixed (seen : bool) (acc : Z) (places : nat) (s : string) : option (Z * nat) :=
  match s with
  | EmptyString => Some (acc, places)
  | String c s =>
      if is_digit c then read_fixed seen (acc * 10 + (code c - 48)) (if seen then S places else places) s
      else if (code c =? 46) && negb seen then read_fixed true acc places s else None
  end.

Lemma read_fixed_digits seen acc places s t :
  is_digits s ->
  read_fixed seen acc places (s +:+ t) =
    read_fixed seen (read_dec acc s) (if seen then String.length s + places else places)%nat t.
Proof.
  unfold is_digits. revert acc places. induction s as [|c s IH]; intros acc places; simpl.
  - by destruct seen.
  - intros [-> Hs]%andb_true_iff. rewrite IH by done. destruct seen; [|done]. f_equal. lia.
Qed.

(** [%.nf] of a positive finite double prints the decimal with [n] places that is nearest to its exact value, and nothing is lost in the text: reading the text
    back gives that decimal, with [n] places; ties are the only case in which
    another decimal is as near. *)
Lemma fmt_f_nearest n m e :
  let text := fmt_f n (S754_finite false m e) in
  exists z, read_fixed false 0 0 text = Some (z, n) /\ 0 <= z /\
    (0 <= e -> z = Z.pos m * 2 ^ e * 10 ^ Z.of_nat n) /\
    (e < 0 -> 2 * Z.abs (z * 2 ^ (- e) - Z.pos m * 10 ^ Z.of_nat n) <= 2 ^ (- e)).
Proof.
  intros text. set (z := round_scaled n (Z.pos m) e). exists z.
  assert (0 <= z) as Hz by (apply round_scaled_nonneg; lia).
  assert (0 < 10 ^ Z.of_nat n) as Hp by (apply Z.pow_pos_nonneg; lia).
  assert (0 <= z / 10 ^ Z.of_nat n) as Hq by (apply Z.div_pos; lia).
  pose proof (Z.mod_pos_bound z _ Hp) as Hr. pose proof (Z.div_mod z (10 ^ Z.of_nat n) ltac:(lia)) as Hdm.
  destruct (canonical_digits _ (dec_canonical _ Hq)) as [Hd _].
  split_and!; [|done|intros He; unfold z, round_scaled; rewrite (proj2 (Z.leb_le 0 e)) by done; lia|
    apply round_scaled_nearest].
  unfold text, fmt_f. fold z. change ("" +:+ ?s) with s. rewrite read_fixed_digits, read_dec_dec by done.
  case_decide as En.
  - subst n. simpl in *. rewrite Z.div_1_r. done.
  - simpl. rewrite <- (string_app_nil (fixed _ _)), read_fixed_digits by apply fixed_digits.
    rewrite read_dec_fixed, length_fixed by done. simpl. do 2 f_equal; [lia|lia].
Qed.
