(* ===== verification/Datetime.v ===== *)
(** The time stamps of the messages: [datetime_now_str] of src/datetime.c, with the
    format of the C library's [ctime_r].

    The caller's buffer has [UBWT_CONFIG_CTIME_SIZE] characters; [ctime_r] is told nothing
    of its size. *)

From S2P Require Import Prelude ConfigData Double Format.

Open Scope string_scope.
Open Scope Z_scope.

(** Broken-down time, [struct tm]. *)
Record tm := { tm_sec : Z; tm_min : Z; tm_hour : Z; tm_mday : Z; tm_mon : Z; tm_year : Z; tm_wday : Z }.

(** The size of the buffer. *)
Definition ctime_size : nat := Z.to_nat UBWT_CONFIG_CTIME_SIZE.

Definition wday_name : list string := ["Sun"; "Mon"; "Tue"; "Wed"; "Thu"; "Fri"; "Sat"].
Definition mon_name : list string :=
  ["Jan"; "Feb"; "Mar"; "Apr"; "May"; "Jun"; "Jul"; "Aug"; "Sep"; "Oct"; "Nov"; "Dec"].

(** [%3d] of a number of at most three digits. *)
Definition fmt_3d (z : Z) : string := (if z <? 10 then "  " else if z <? 100 then " " else "") +:+ dec z.

Definition newline : ascii := "010"%char.
Definition NUL : ascii := "000"%char.

(** [asctime]: "%.3s %.3s%3d %.2d:%.2d:%.2d %d\n"; [asctime_text] is what is before the
    line break. *)
Definition asctime_text (t : tm) : string :=
  nth (Z.to_nat (tm_wday t)) wday_name "???" +:+ " " +:+ nth (Z.to_nat (tm_mon t)) mon_name "???" +:+ fmt_3d (tm_mday t) +:+ " " +:+
  fixed 2 (tm_hour t) +:+ ":" +:+ fixed 2 (tm_min t) +:+ ":" +:+ fixed 2 (tm_sec t) +:+ " " +:+ dec (1900 + tm_year t).

Definition asctime (t : tm) : string := asctime_text t +:+ String newline "".

(** ** Buffers *)

(** The text at the start of a buffer, up to its terminator. *)
Fixpoint c_string (buf : list ascii) : string :=
  match buf with
  | [] => ""
  | c :: buf => if Ascii.eqb c NUL then "" else String c (c_string buf)
  end.

Definition c_strlen (buf : list ascii) : nat := String.length (c_string buf).

(** A string and its terminator, written into a buffer; [None] if they do not fit. *)
Definition store_string (s : string) (buf : list ascii) : option (list ascii) :=
  let l := (String.list_ascii_of_string s ++ [NUL])%list in
  if (length l <=? length buf)%nat then Some (l ++ drop (length l) buf)%list else None.

(** [buf[i] = 0]. *)
Definition store_nul (i : nat) (buf : list ascii) : option (list ascii) :=
  if (i <? length buf)%nat then Some (<[i := NUL]> buf) else None.

Section now.
(** The local time: [None] where [ctime_r] fails. *)
Variable localtime : Z -> option tm.

(** The buffer afterwards and whether the result is not [NULL]; [None] for a write
    outside of the buffer.  [t] is the result of [time]. *)
Definition datetime_now_str (t : Z) (buf : list ascii) : option (list ascii * bool) :=
  if t =? -1 then buf ← store_nul 0 buf; Some (buf, false)
  else match localtime t with
  | None => buf ← store_nul 0 buf; Some (buf, false)
  | Some d =>
      buf ← store_string (asctime d) buf;
      buf ← store_nul (c_strlen buf - 1) buf;
      Some (buf, true)
  end.

End now.

(** ** Lemmas *)

Definition tm_ok (d : tm) : Prop :=
  0 <= tm_wday d <= 6 /\ 0 <= tm_mon d <= 11 /\ 1 <= tm_mday d <= 31 /\ 0 <= tm_hour d <= 23 /\ 0 <= tm_min d <= 59 /\
  0 <= tm_sec d <= 60 /\ 0 <= 1900 + tm_year d /\ tm_year d < 2 ^ 31.

(** A number below a power of ten has no more digits than the exponent. *)
Lemma dec_length n z : 0 <= z < 10 ^ Z.of_nat (S n) -> (1 <= String.length (dec z) <= S n)%nat.
Proof.
  revert z. induction n as [|n IH]; intros z Hz; rewrite dec_step by lia.
  - rewrite (proj2 (Z.ltb_lt z 10)) by (simpl in Hz; lia). simpl. lia.
  - destruct (Z.ltb_spec z 10); [simpl; lia|]. rewrite string_length_app. simpl String.length.
    specialize (IH (z / 10)). rewrite Nat2Z.inj_succ, Z.pow_succ_r in Hz by lia.
    assert (0 <= z / 10 < 10 ^ Z.of_nat (S n)) as Hd; [|lia].
    split; [apply Z.div_pos; lia|apply Z.div_lt_upper_bound; lia].
Qed.

Lemma name_length (l : list string) i d :
  Forall (fun s => String.length s = 3%nat) l -> (i < length l)%nat -> String.length (nth i l d) = 3%nat.
Proof. intros H Hi. eapply Forall_forall in H; [exact H|]. by apply nth_In. Qed.

Lemma fmt_3d_length z : 1 <= z <= 31 -> String.length (fmt_3d z) = 3%nat.
Proof.
  intros Hz. unfold fmt_3d. rewrite dec_step by lia. destruct (Z.ltb_spec z 10); [done|].
  rewrite (proj2 (Z.ltb_lt z 100)) by lia. rewrite dec_step by (apply Z.div_pos; lia).
  rewrite (proj2 (Z.ltb_lt (z / 10) 10)) by (apply Z.div_lt_upper_bound; lia). done.
Qed.

Lemma asctime_length d : tm_ok d -> String.length (asctime_text d) = (20 + String.length (dec (1900 + tm_year d)))%nat.
Proof.
  intros (Hw & Hm & Hd & _). unfold asctime_text. rewrite !string_length_app, !length_fixed, fmt_3d_length by lia.
  rewrite !name_length; [simpl; lia|by repeat constructor|simpl; lia|by repeat constructor|simpl; lia].
Qed.

(** Reading back what was written. *)
Definition no_nul (s : string) : Prop := all_chars (fun c => negb (Ascii.eqb c NUL)) s = true.

Lemma c_string_stored s buf : no_nul s -> c_string (String.list_ascii_of_string s ++ NUL :: buf)%list = s.
Proof.
  unfold no_nul. induction s as [|c s IH]; [done|]. simpl. intros [Hc Hs]%andb_true_iff. apply negb_true_iff in Hc.
  rewrite Hc. f_equal. by apply IH.
Qed.

Lemma list_ascii_app s t : String.list_ascii_of_string (s +:+ t) = (String.list_ascii_of_string s ++ String.list_ascii_of_string t)%list.
Proof. induction s as [|c s IH]; [done|]. simpl. by rewrite IH. Qed.

Lemma list_ascii_length s : length (String.list_ascii_of_string s) = String.length s.
Proof. induction s as [|c s IH]; [done|]. simpl. by rewrite IH. Qed.

Lemma all_chars_nth P (l : list string) i : Forall (fun s => all_chars P s = true) l -> (i < length l)%nat ->
  all_chars P (nth i l "???") = true.
Proof. intros H Hi. eapply Forall_forall in H; [exact H|]. by apply nth_In. Qed.

(** Printable characters: neither a line break nor a terminator. *)
Definition printable (c : ascii) : bool := (32 <=? code c) && (code c <=? 126).

Lemma all_chars_weaken P Q s : (forall c, P c = true -> Q c = true) -> all_chars P s = true -> all_chars Q s = true.
Proof. intros H. induction s as [|c s IH]; [done|]. simpl. rewrite !andb_true_iff. intros [? ?]. split; [by apply H|by apply IH]. Qed.

Lemma digits_printable s : is_digits s -> all_chars printable s = true.
Proof.
  apply all_chars_weaken. intros c. unfold is_digit, printable. rewrite !andb_true_iff, !Z.leb_le. lia.
Qed.

Lemma dec_printable z : 0 <= z -> all_chars printable (dec z) = true.
Proof. intros Hz. apply digits_printable, canonical_digits. by apply dec_canonical. Qed.

Lemma asctime_printable d : tm_ok d -> all_chars printable (asctime_text d) = true.
Proof.
  intros (Hw & Hm & Hd & Hh & Hmi & Hs & Hy & _). unfold asctime_text, fmt_3d. rewrite !all_chars_app.
  assert (forall z, all_chars printable (fixed 2 z) = true) as Hf by (intros z; apply digits_printable, fixed_digits).
  rewrite !Hf, !dec_printable by lia.
  rewrite !all_chars_nth; [|by repeat constructor|simpl; lia|by repeat constructor|simpl; lia].
  by destruct (tm_mday d <? 10), (tm_mday d <? 100).
Qed.

Lemma printable_no_nul s : all_chars printable s = true -> no_nul s.
Proof.
  apply all_chars_weaken. intros c Hc. apply negb_true_iff, Ascii.eqb_neq. intros ->. by vm_compute in Hc.
Qed.

Lemma store_nul_0 buf : buf <> [] -> exists buf', store_nul 0 buf = Some buf' /\ length buf' = length buf /\ c_string buf' = "".
Proof. destruct buf as [|c buf]; [done|]. intros _. by eexists. Qed.

(** C40: the time stamps fit in their buffers.  For every time, and a local time whose year
    is any that [struct tm] can hold and is not negative, [datetime_now_str] writes
    nowhere but in the [UBWT_CONFIG_CTIME_SIZE] characters of the buffer; the result is
    [NULL] exactly when the time or the local time is not known, and the buffer then
    holds the empty text; otherwise it holds the text of [ctime] without its line
    break, of printable characters only. *)
Theorem time_stamps localtime t buf :
  length buf = ctime_size -> (forall d, localtime t = Some d -> tm_ok d) ->
  exists buf' ok, datetime_now_str localtime t buf = Some (buf', ok) /\ length buf' = ctime_size /\
    match (if t =? -1 then None else localtime t) with
    | Some d => ok = true /\ c_string buf' = asctime_text d /\ all_chars printable (asctime_text d) = true
    | None => ok = false /\ c_string buf' = ""
    end.
Proof.
  intros Hbuf Hok. unfold datetime_now_str.
  assert (buf <> []) as Hne by (intros ->; discriminate Hbuf).
  destruct (store_nul_0 buf Hne) as (b0 & E0 & L0 & C0).
  destruct (t =? -1); [exists b0, false; rewrite E0; split_and!; [done|congruence|done|done]|].
  destruct (localtime t) as [d|] eqn:Hd; [|exists b0, false; rewrite E0; split_and!; [done|congruence|done|done]].
  specialize (Hok d eq_refl). pose proof (asctime_length d Hok) as Hlen. pose proof (asctime_printable d Hok) as Hp.
  destruct (dec_length 9 (1900 + tm_year d)) as [_ Hy]; [destruct Hok as (_ & _ & _ & _ & _ & _ & ? & ?); simpl; lia|].
  set (txt := String.list_ascii_of_string (asctime_text d)).
  assert (length txt = String.length (asctime_text d)) as Htxt by apply list_ascii_length.
  assert (String.list_ascii_of_string (asctime d) = txt ++ [newline])%list as Ea by apply list_ascii_app.
  assert (ctime_size = 32%nat) as E32 by done. rewrite E32 in *.
  assert (store_string (asctime d) buf = Some (txt ++ newline :: NUL :: drop (length txt + 2) buf)%list) as ->.
  { unfold store_string. rewrite Ea, !length_app. simpl length. rewrite (proj2 (Nat.leb_le _ _)) by lia.
    rewrite <- !app_assoc. simpl. do 5 f_equal. lia. }
  simpl mbind.
  assert (c_strlen (txt ++ newline :: NUL :: drop (length txt + 2) buf)%list = length txt + 1)%nat as ->.
  { unfold c_strlen. change (newline :: NUL :: drop (length txt + 2) buf)%list with ([newline] ++ NUL :: drop (length txt + 2) buf)%list.
    rewrite app_assoc, <- Ea, c_string_stored.
    - unfold asctime. rewrite string_length_app. simpl. lia.
    - unfold no_nul, asctime. rewrite all_chars_app, (printable_no_nul _ Hp). done. }
  unfold store_nul. rewrite length_app. cbn [length]. rewrite length_drop, (proj2 (Nat.ltb_lt _ _)) by lia. simpl mbind.
  eexists _, true. split; [reflexivity|]. rewrite length_insert, length_app. cbn [length]. rewrite length_drop. split; [lia|].
  split_and!; [done| |done].
  rewrite insert_app_r_alt by lia. replace (length txt + 1 - 1 - length txt)%nat with 0%nat by lia. simpl.
  by apply c_string_stored, printable_no_nul.
Qed.

(** The greatest year there is, in a buffer that holds something else. *)
Lemma time_stamps_witness :
  let d := {| tm_sec := 60; tm_min := 59; tm_hour := 23; tm_mday := 31; tm_mon := 11; tm_year := 2147483647; tm_wday := 6 |} in
  let buf := replicate ctime_size "x"%char in
  exists buf', datetime_now_str (fun _ => Some d) 0 buf = Some (buf', true) /\
    c_string buf' = "Sat Dec 31 23:59:60 2147485547".
Proof.
  intros d buf. destruct (time_stamps (fun _ => Some d) 0 buf) as (buf' & ok & E & _ & -> & C & _); [done| |].
  - intros d' [= <-]. unfold tm_ok. simpl. lia.
  - exists buf'. split; [done|]. rewrite C. by vm_compute.
Defined.
