(* ===== verification/Json.v ===== *)
(** JSON texts (RFC 8259): a parser, and the layout that src/report.c writes.

    The parser accepts exactly the grammar, with every kind of value, so that a
    rejected text is not JSON.  [pretty] is the layout of the exported reports -
    one member per line, indented with tabs - of a tree whose strings need no
    escapes and whose numbers are JSON numbers; parsing it gives the tree back. *)

From S2P Require Import Prelude Double Format.

Open Scope string_scope.
Open Scope Z_scope.

(** A number is kept as it is written, and a string with its escapes. *)
Inductive json :=
| JNull
| JBool (b : bool)
| JNumber (text : string)
| JString (s : string)
| JArray (l : list json)
| JObject (l : list (string * json)).

(** ** Lexical grammar *)

Definition is_ws (c : ascii) : bool :=
  (code c =? 32) || (code c =? 9) || (code c =? 10) || (code c =? 13).

Fixpoint skip_ws (s : string) : string :=
  match s with
  | String c s' => if is_ws c then skip_ws s' else s
  | EmptyString => s
  end.

(** The longest prefix of digits, and the rest. *)
Fixpoint span_digits (s : string) : string * string :=
  match s with
  | String c s' => if is_digit c then let (d, r) := span_digits s' in (String c d, r) else ("", s)
  | EmptyString => ("", "")
  end.

Definition starts (c : Z) (s : string) : option string :=
  match s with
  | String c' s => if code c' =? c then Some s else None
  | EmptyString => None
  end.

(** [int], with its digits: a zero is alone. *)
Definition parse_int (s : string) : option (string * string) :=
  let (d, r) := span_digits s in
  if canonical d then Some (d, r) else None.

(** [frac], possibly empty: a point (46) and digits. *)
Definition parse_frac (s : string) : option (string * string) :=
  match starts 46 s with
  | Some s => let (d, r) := span_digits s in if String.eqb d "" then None else Some ("." +:+ d, r)
  | None => Some ("", s)
  end.

(** [exp], possibly empty: e or E (101, 69), a sign (43, 45), digits. *)
Definition parse_exp (s : string) : option (string * string) :=
  match s with
  | String c s' =>
      if (code c =? 101) || (code c =? 69) then
        let (sg, s') := match s' with
          | String c' s'' => if (code c' =? 43) || (code c' =? 45) then (String c' "", s'') else ("", s')
          | EmptyString => ("", s') end in
        let (d, r) := span_digits s' in
        if String.eqb d "" then None else Some (String c (sg +:+ d), r)
      else Some ("", s)
  | EmptyString => Some ("", s)
  end.

Definition parse_number (s : string) : option (string * string) :=
  let (sg, s) := match starts 45 s with Some s => ("-", s) | None => ("", s) end in
  '(i, s) ← parse_int s;
  '(f, s) ← parse_frac s;
  '(e, s) ← parse_exp s;
  Some (sg +:+ i +:+ f +:+ e, s).

Definition is_hex (c : ascii) : bool :=
  is_digit c || ((97 <=? code c) && (code c <=? 102)) || ((65 <=? code c) && (code c <=? 70)).

(** What may follow a backslash: a quote, a backslash, a slash, or one of [bfnrt]. *)
Definition is_escape (c : ascii) : bool :=
  existsb (Z.eqb (code c)) [34; 92; 47; 98; 102; 110; 114; 116].

(** The characters of a string after the opening quote (34), up to the closing one. *)
Fixpoint parse_chars (s : string) : option (string * string) :=
  match s with
  | EmptyString => None
  | String c s =>
      if code c =? 34 then Some ("", s)
      else if code c =? 92 then
        match s with
        | String e s' =>
            if is_escape e then '(t, r) ← parse_chars s'; Some (String c (String e t), r)
            else if code e =? 117 then
              match s' with
              | String a (String b (String d (String f s''))) =>
                  if is_hex a && is_hex b && is_hex d && is_hex f then
                    '(t, r) ← parse_chars s'';
                    Some (String c (String e (String a (String b (String d (String f t))))), r)
                  else None
              | _ => None
              end
            else None
        | EmptyString => None
        end
      else if code c <? 32 then None
      else '(t, r) ← parse_chars s; Some (String c t, r)
  end.

Definition parse_string (s : string) : option (string * string) :=
  s ← starts 34 s; parse_chars s.

(** A literal name. *)
Fixpoint parse_name (name s : string) : option string :=
  match name, s with
  | EmptyString, _ => Some s
  | String a name, String c s => if code c =? code a then parse_name name s else None
  | _, EmptyString => None
  end.

(** ** Values

    White space before a value is skipped by the caller.  The fuel bounds the number
    of values and members, of which there are fewer than characters. *)

Fixpoint parse_value (n : nat) (s : string) : option (json * string) :=
  match n with
  | O => None
  | S n =>
      match starts 123 s with
      | Some s =>
          let s := skip_ws s in
          match starts 125 s with
          | Some s => Some (JObject [], s)
          | None => '(l, s) ← parse_members n s; Some (JObject l, s)
          end
      | None =>
      match starts 91 s with
      | Some s =>
          let s := skip_ws s in
          match starts 93 s with
          | Some s => Some (JArray [], s)
          | None => '(l, s) ← parse_elements n s; Some (JArray l, s)
          end
      | None =>
      match starts 34 s with
      | Some s => '(t, s) ← parse_chars s; Some (JString t, s)
      | None =>
      match parse_name "null" s with
      | Some s => Some (JNull, s)
      | None =>
      match parse_name "true" s with
      | Some s => Some (JBool true, s)
      | None =>
      match parse_name "false" s with
      | Some s => Some (JBool false, s)
      | None => '(t, s) ← parse_number s; Some (JNumber t, s)
      end end end end end end
  end
with parse_members (n : nat) (s : string) : option (list (string * json) * string) :=
  match n with
  | O => None
  | S n =>
      '(k, s) ← parse_string s;
      s ← starts 58 (skip_ws s);
      '(v, s) ← parse_value n (skip_ws s);
      let s := skip_ws s in
      match starts 44 s with
      | Some s => '(l, s) ← parse_members n (skip_ws s); Some ((k, v) :: l, s)
      | None => s ← starts 125 s; Some ([(k, v)], s)
      end
  end
with parse_elements (n : nat) (s : string) : option (list json * string) :=
  match n with
  | O => None
  | S n =>
      '(v, s) ← parse_value n s;
      let s := skip_ws s in
      match starts 44 s with
      | Some s => '(l, s) ← parse_elements n (skip_ws s); Some (v :: l, s)
      | None => s ← starts 93 s; Some ([v], s)
      end
  end.

Definition json_parse (s : string) : option json :=
  '(v, r) ← parse_value (S (String.length s)) (skip_ws s);
  if String.eqb (skip_ws r) "" then Some v else None.

Definition lf : string := String "010" "".
Definition tab : string := String "009" "".
Definition quote : string := String "034" "".

Example json_parse_examples :
  json_parse (" { " +:+ quote +:+ "a" +:+ quote +:+ " : [ 1, -2.5e3 , true,null ] } ") =
    Some (JObject [("a", JArray [JNumber "1"; JNumber "-2.5e3"; JBool true; JNull])]) /\
  json_parse "nan" = None /\ json_parse "01" = None /\ json_parse "1." = None /\
  json_parse ("{," +:+ quote +:+ "a" +:+ quote +:+ ":1}") = None /\ json_parse "[1 2]" = None.
Proof. split_and!; by vm_compute. Qed.

(** ** Report trees and their layout *)

Inductive doc :=
| Num (text : string)
| Str (s : string)
| Obj (m : members)
with members :=
| Last (k : string) (v : doc)
| More (k : string) (v : doc) (m : members).

Scheme doc_mut := Induction for doc Sort Prop
with members_mut := Induction for members Sort Prop.
Combined Scheme doc_members_ind from doc_mut, members_mut.

Fixpoint to_json (d : doc) : json :=
  match d with
  | Num t => JNumber t
  | Str s => JString s
  | Obj m => JObject (to_members m)
  end
with to_members (m : members) : list (string * json) :=
  match m with
  | Last k v => [(k, to_json v)]
  | More k v m => (k, to_json v) :: to_members m
  end.

Fixpoint indent (depth : nat) : string := match depth with O => "" | S d => tab +:+ indent d end.

Definition quoted (s : string) : string := quote +:+ s +:+ quote.

Fixpoint pretty (depth : nat) (d : doc) : string :=
  match d with
  | Num t => t
  | Str s => quoted s
  | Obj m => "{" +:+ lf +:+ pretty_members (S depth) m +:+ lf +:+ indent depth +:+ "}"
  end
with pretty_members (depth : nat) (m : members) : string :=
  match m with
  | Last k v => indent depth +:+ quoted k +:+ ": " +:+ pretty depth v
  | More k v m => indent depth +:+ quoted k +:+ ": " +:+ pretty depth v +:+ "," +:+ lf +:+ pretty_members depth m
  end.

(** No quote, backslash or control character. *)
Definition plain (s : string) : Prop :=
  all_chars (fun c => (32 <=? code c) && negb (code c =? 34) && negb (code c =? 92)) s = true.

(** A JSON number without an exponent. *)
Definition numeric (t : string) : Prop :=
  exists sg i f, t = sg +:+ i +:+ f /\ (sg = "" \/ sg = "-") /\ canonical i = true /\
    (f = "" \/ exists d, f = "." +:+ d /\ is_digits d /\ d <> "").

Fixpoint doc_ok (d : doc) : Prop :=
  match d with
  | Num t => numeric t
  | Str s => plain s
  | Obj m => members_ok m
  end
with members_ok (m : members) : Prop :=
  match m with
  | Last k v => plain k /\ doc_ok v
  | More k v m => plain k /\ doc_ok v /\ members_ok m
  end.

(** How much fuel the parser needs, and the number of members. *)
Fixpoint weight (d : doc) : nat :=
  match d with Num _ | Str _ => 1 | Obj m => S (weight_members m) end
with weight_members (m : members) : nat :=
  match m with
  | Last _ v => S (weight v)
  | More _ v m => S (weight v + weight_members m)
  end.

Fixpoint count_members (m : members) : nat :=
  match m with Last _ _ => 1 | More _ _ m => S (count_members m) end.

(** ** White space, strings and numbers *)

(** Unfold the append of a text that starts with a known character. *)
Lemma app_cons c s t : String c s +:+ t = String c (s +:+ t).
Proof. done. Qed.

Lemma skip_ws_indent d s : skip_ws (indent d +:+ s) = skip_ws s.
Proof. induction d as [|d IH]; [done|]. simpl. exact IH. Qed.

Lemma skip_ws_lf s : skip_ws (lf +:+ s) = skip_ws s.
Proof. done. Qed.

(** A text that does not continue a number. *)
Definition stops (s : string) : Prop :=
  match s with
  | EmptyString => True
  | String c _ => is_digit c = false /\ (code c =? 46) = false /\ (code c =? 101) = false /\ (code c =? 69) = false
  end.

Lemma span_digits_app d r :
  is_digits d -> match r with String c _ => is_digit c = false | EmptyString => True end -> span_digits (d +:+ r) = (d, r).
Proof.
  unfold is_digits. intros Hd Hr. induction d as [|c d IH]; simpl in *.
  - destruct r as [|c r]; [done|]. simpl. by rewrite Hr.
  - apply andb_true_iff in Hd as [-> Hd]. by rewrite IH.
Qed.

Lemma parse_chars_plain s r : plain s -> parse_chars (s +:+ String "034" r) = Some (s, r).
Proof.
  unfold plain. induction s as [|c s IH]; intros Hs; [done|]. simpl in *.
  apply andb_true_iff in Hs as [[[H1 H2%negb_true_iff]%andb_true_iff H3%negb_true_iff]%andb_true_iff Hs].
  rewrite H2, H3, (proj2 (Z.ltb_ge _ _)) by (by apply Z.leb_le).
  by rewrite IH.
Qed.

Lemma parse_string_quoted s r : plain s -> parse_string (quoted s +:+ r) = Some (s, r).
Proof. intros Hs. unfold quoted. rewrite !string_app_assoc. by apply parse_chars_plain. Qed.

Lemma parse_number_numeric t r : numeric t -> stops r -> parse_number (t +:+ r) = Some (t, r).
Proof.
  intros (sg & i & f & -> & Hsg & Hi & Hf) Hr. destruct (canonical_digits _ Hi) as [Hd Hne].
  unfold parse_number.
  assert ((match starts 45 ((sg +:+ i +:+ f) +:+ r) with Some s => ("-", s) | None => ("", (sg +:+ i +:+ f) +:+ r) end)
    = (sg, i +:+ f +:+ r)) as ->.
  { destruct Hsg as [->| ->]; [|simpl; by rewrite string_app_assoc].
    destruct i as [|c i]; [done|]. unfold is_digits in Hd. simpl in *. apply andb_true_iff in Hd as [Hc _].
    unfold is_digit in Hc. to_prop. destruct (Z.eqb_spec (code c) 45); [lia|]. by rewrite string_app_assoc. }
  unfold parse_int. rewrite span_digits_app; [|done|].
  2: { destruct Hf as [->|(d & -> & _ & _)]; [|done]. destruct r; [done|]. apply Hr. }
  rewrite Hi. simpl.
  assert (parse_frac (f +:+ r) = Some (f, r)) as ->.
  { destruct Hf as [->|(d & -> & Hdd & Hdn)].
    - destruct r as [|c r]; [done|]. unfold parse_frac. simpl. by destruct Hr as (_ & -> & _).
    - unfold parse_frac. rewrite string_app_assoc. simpl. rewrite span_digits_app; [|done|destruct r; [done|apply Hr]].
      by rewrite (proj2 (String.eqb_neq d "")). }
  simpl. assert (parse_exp r = Some ("", r)) as ->.
  { destruct r as [|c r]; [done|]. simpl. destruct Hr as (_ & _ & -> & ->). done. }
  simpl. by rewrite string_app_nil.
Qed.

(** The tests of [c] against other characters fail, by arithmetic on its code. *)
Ltac not_code c :=
  repeat match goal with |- context [code c =? ?k] =>
    let k' := eval vm_compute in k in change (code c =? k) with (code c =? k');
    destruct (Z.eqb_spec (code c) k'); [lia|]
  end.

(** The first character of a number is none that starts another value. *)
Lemma parse_value_numeric n t r : numeric t -> stops r -> parse_value (S n) (t +:+ r) = Some (JNumber t, r).
Proof.
  intros Ht Hr. pose proof (parse_number_numeric t r Ht Hr) as Hp.
  assert (exists c s, t +:+ r = String c s /\ (code c = 45 \/ 48 <= code c <= 57)) as (c & s & E & Hc).
  { destruct Ht as (sg & i & f & -> & Hsg & Hi & _). destruct Hsg as [->| ->]; [|do 2 eexists; split; [reflexivity|by left]].
    destruct (canonical_digits _ Hi) as [Hd Hne]. destruct i as [|c i]; [done|].
    do 2 eexists. split; [reflexivity|]. unfold is_digits in Hd. simpl in Hd. apply andb_true_iff in Hd as [Hc _].
    unfold is_digit in Hc. to_prop. lia. }
  rewrite E in *. simpl.
  not_code c.
  by rewrite Hp.
Qed.

(** ** Parsing a layout *)

(** A value does not start with white space. *)
Lemma skip_ws_pretty d depth r : doc_ok d -> skip_ws (pretty depth d +:+ r) = pretty depth d +:+ r.
Proof.
  destruct d as [t|s|m]; [|done|done]. intros (sg & i & f & -> & Hsg & Hi & _). simpl.
  destruct Hsg as [->| ->]; [|done]. destruct (canonical_digits _ Hi) as [Hd Hne]. destruct i as [|c i]; [done|].
  unfold is_digits in Hd. simpl in *. apply andb_true_iff in Hd as [Hc _]. unfold is_digit in Hc. to_prop.
  unfold is_ws. not_code c. done.
Qed.

Lemma pretty_obj depth m r :
  pretty depth (Obj m) +:+ r =
    String "{" (String "010" (pretty_members (S depth) m +:+ String "010" (indent depth +:+ String "}" r))).
Proof. simpl. by repeat (rewrite string_app_assoc; simpl). Qed.

Lemma pretty_str depth s r : pretty depth (Str s) +:+ r = String "034" (s +:+ String "034" r).
Proof. simpl. unfold quoted, quote. by repeat (rewrite string_app_assoc; simpl). Qed.

Lemma skip_members depth m r :
  skip_ws (pretty_members depth m +:+ r) =
    match m with
    | Last k v => String "034" (k +:+ String "034" (String ":" (String " " (pretty depth v +:+ r))))
    | More k v m => String "034" (k +:+ String "034" (String ":" (String " " (pretty depth v +:+
        String "," (String "010" (pretty_members depth m +:+ r))))))
    end.
Proof.
  destruct m; cbn [pretty_members]; rewrite !string_app_assoc, skip_ws_indent; unfold quoted, quote, lf;
    by repeat (rewrite string_app_assoc; simpl).
Qed.

(** One member, up to its value. *)
Lemma parse_member n k v depth r :
  plain k -> doc_ok v ->
  parse_members (S n) (String "034" (k +:+ String "034" (String ":" (String " " (pretty depth v +:+ r))))) =
    ('(v, s) ← parse_value n (pretty depth v +:+ r);
     let s := skip_ws s in
     match starts 44 s with
     | Some s => '(l, s) ← parse_members n (skip_ws s); Some ((k, v) :: l, s)
     | None => s ← starts 125 s; Some ([(k, v)], s)
     end).
Proof.
  intros Hk Hv. cbn [parse_members]. unfold parse_string. simpl starts. cbn [mbind option_bind].
  rewrite parse_chars_plain by done. cbn [mbind option_bind].
  change (starts 58 (skip_ws (String ":" ?x))) with (Some x). cbn [mbind option_bind].
  change (skip_ws (String " " ?x)) with (skip_ws x). by rewrite skip_ws_pretty.
Qed.

Lemma parse_layout :
  (forall d depth n rest, doc_ok d -> stops rest -> (weight d <= n)%nat ->
    parse_value n (pretty depth d +:+ rest) = Some (to_json d, rest)) /\
  (forall m depth n tail, members_ok m -> stops tail -> (weight_members m <= n)%nat ->
    parse_members n (skip_ws (pretty_members depth m +:+ tail)) =
      match starts 44 (skip_ws tail) with
      | Some s => '(l, s) ← parse_members (n - count_members m) (skip_ws s); Some ((to_members m ++ l)%list, s)
      | None => s ← starts 125 (skip_ws tail); Some (to_members m, s)
      end).
Proof.
  apply doc_members_ind.
  - intros t depth [|n] rest Ht Hr Hn; [simpl in Hn; lia|]. by apply parse_value_numeric.
  - intros s depth [|n] rest Hs _ Hn; [simpl in Hn; lia|]. rewrite pretty_str.
    change (parse_value (S n) (String "034" ?x)) with ('(t, s) ← parse_chars x; Some (JString t, s)).
    by rewrite parse_chars_plain.
  - intros m IH depth [|n] rest Hm Hr Hn; [simpl in Hn; lia|]. rewrite pretty_obj.
    specialize (IH (S depth) n (String "010" (indent depth +:+ String "}" rest)) Hm ltac:(by repeat split) ltac:(simpl in Hn; lia)).
    change (skip_ws (String "010" ?x)) with (skip_ws x) in IH. rewrite skip_ws_indent in IH.
    change (parse_value (S n) (String "{" (String "010" ?x))) with
      (match starts 125 (skip_ws x) with
       | Some s => Some (JObject [], s)
       | None => '(l, s) ← parse_members n (skip_ws x); Some (JObject l, s)
       end).
    rewrite IH. assert (forall x, starts 125 (skip_ws (pretty_members (S depth) m +:+ x)) = None) as ->; [|done].
    intros x. rewrite skip_members. by destruct m.
  - intros k v IHv depth [|n] tail [Hk Hv] Ht Hn; [simpl in Hn; lia|]. simpl in Hn.
    rewrite skip_members, parse_member, IHv by (done || lia). cbn [mbind option_bind].
    destruct (starts 44 _) as [s|]; [|done]. cbn [count_members]. by rewrite Nat.sub_succ, Nat.sub_0_r.
  - intros k v IHv m IHm depth [|n] tail (Hk & Hv & Hm) Ht Hn; [simpl in Hn; lia|]. simpl in Hn.
    rewrite skip_members, parse_member, IHv by (done || (by repeat split) || lia). cbn [mbind option_bind].
    change (starts 44 (skip_ws (String "," ?x))) with (Some x). cbn [mbind option_bind].
    change (skip_ws (String "010" ?x)) with (skip_ws x). rewrite IHm by (done || lia).
    cbn [count_members]. rewrite Nat.sub_succ. destruct (starts 44 _) as [s|].
    + by destruct (parse_members _ _) as [[l r]|].
    + by destruct (starts 125 _).
Qed.

(** There is fuel enough: a value has at most as much weight as characters. *)
Lemma weight_length :
  (forall d depth, doc_ok d -> (weight d <= String.length (pretty depth d))%nat) /\
  (forall m depth, members_ok m -> (weight_members m <= String.length (pretty_members depth m))%nat).
Proof.
  apply doc_members_ind.
  - intros t depth (sg & i & f & -> & _ & Hi & _). destruct (canonical_digits _ Hi) as [_ Hne].
    simpl. rewrite !string_length_app. destruct i; [done|]. simpl. lia.
  - intros s depth _. simpl. lia.
  - intros m IH depth Hm. specialize (IH (S depth) Hm). simpl. rewrite string_length_app. lia.
  - intros k v IH depth [_ Hv]. specialize (IH depth Hv). simpl.
    repeat (rewrite string_length_app; simpl). lia.
  - intros k v IHv m IHm depth (_ & Hv & Hm). specialize (IHv depth Hv). specialize (IHm depth Hm). simpl.
    repeat (rewrite string_length_app; simpl). lia.
Qed.

Lemma json_parse_pretty d tail :
  doc_ok d -> stops tail -> skip_ws tail = "" -> json_parse (pretty 0 d +:+ tail) = Some (to_json d).
Proof.
  intros Hd Ht Hs. pose proof (proj1 weight_length d 0%nat Hd) as Hw. unfold json_parse. rewrite skip_ws_pretty by done.
  rewrite (proj1 parse_layout); [|done|done|rewrite string_length_app; lia]. cbn [mbind option_bind]. by rewrite Hs.
Qed.

(** A report tree survives its layout: parsing the text that [pretty] writes for a
    tree of plain strings and numbers, with or without a line end after it, gives
    exactly the tree. *)
Theorem json_roundtrip d :
  doc_ok d -> json_parse (pretty 0 d) = Some (to_json d) /\ json_parse (pretty 0 d +:+ lf) = Some (to_json d).
Proof.
  intros Hd. split; [|by apply json_parse_pretty]. rewrite <- (string_app_nil (pretty 0 d)). by apply json_parse_pretty.
Qed.

Lemma json_roundtrip_witness :
  json_parse (pretty 0 (Obj (More "mode" (Str "standard") (Last "time" (Obj (Last "duration" (Num "2.5000")))))) +:+ lf) =
    Some (JObject [("mode", JString "standard"); ("time", JObject [("duration", JNumber "2.5000")])]).
Proof.
  apply json_roundtrip. repeat split. exists "", "2", ".5000". split_and!; [done|by left|done|].
  right. by exists "5000".
Defined.
