(* ===== verification/Output.v ===== *)
(** The results of a test as text: [report_results_show], the JSON export and
    [process_report] (src/report.c, src/process.c).

    Each [fprintf] is a concatenation of the pieces of its format.  The exported
    file is compared with the layout of a report tree (Json.v): it is JSON when the
    test ran in the straight direction, and it is not when only the reverse
    direction was tested, because the separator that belongs between the two
    directions is written before the only one. *)

From S2P Require Import Prelude Errors Byteorder Layout ConfigData Double Report Stage Thread Format Json Current.

Open Scope string_scope.
Open Scope Z_scope.

(** ** Numbers *)

(** [ceil]: towards positive infinity, keeping the sign of a zero. *)
Definition dceil (x : double) : double :=
  match x with
  | S754_finite s m e =>
      if 0 <=? e then x else
      let z := if s then Z.shiftr (Z.pos m) (- e) else - ((- Z.pos m) / 2 ^ (- e)) in
      if z =? 0 then S754_zero s else dbl (if s then - z else z)
  | _ => x
  end.

Example dceil_examples :
  map (fun x => fmt_f 0 (dceil x)) [dbl_lit 12 10; dbl 3; dbl_lit 1 10; dbl_lit (-15) 10; dbl_lit (-1) 10] =
    ["2"; "3"; "1"; "-1"; "-0"]%list.
Proof. by vm_compute. Qed.

(** [x / (double) d] for an integer [x] and a literal [d]. *)
Definition per (x d : Z) : double := ddiv (dbl x) (dbl d).

(** ** What is printed to and kept *)

(** The main thread's report, roles and stage, what it wrote to the standard output,
    and the exported file. *)
Record reporting := {
  rep : ubwt_report;
  proc : ubwt_process;
  stg : ubwt_stage_t;
  out : string;
  json_file : string
}.

Definition text (l : list string) : string := foldr String.append "" l.

Definition puts (l : list string) (s : reporting) : reporting := s {{ out ::= fun o => o +:+ text l }}.
Definition fputs (l : list string) (s : reporting) : reporting := s {{ json_file ::= fun o => o +:+ text l }}.

(** The counters of the current result. *)
Definition recv_bytes (r : ubwt_report) : Z := report_talk_stream_recv_bytes_get r.
Definition layer2_octets (r : ubwt_report) : Z :=
  let k := computed (report_result r) in
  wrap 64 (recv_bytes r + wrap 64 (total_pkts k * hdr_size k)).

(** [%12s]. *)
Definition pad12 (s : string) : string :=
  text (replicate (12 - String.length s) " ") +:+ s.

Section output.
Variable b : build.
Variable cfg : ubwt_config.
(** [current->net.listener.saddr.ss_family == AF_INET6]. *)
Variable inet6 : bool.

Definition process_im_receiver (s : reporting) : bool := truth (im_receiver (proc s)).

Definition report_results_show (s : reporting) : reporting :=
  let r := rep s in
  let k := computed (report_result r) in
  let direction := if process_im_receiver s then "Download" else "Upload" in
  let latency := fmt_f 3 (per (report_talk_latency_get r) 1000) in
  let estimated := fmt_f 3 (bandwidth_estimated_mbps k) in
  let s := puts [lf] s in
  if truth (report_full cfg) then
    puts ["Direction                           : "; direction; lf;
          "MTU                                 : "; dec (net_mtu cfg); " octets"; lf;
          "L3 Protocol                         : "; (if inet6 then "ipv6" else "ipv4"); lf;
          "L4 Protocol                         : "; net_l4_proto_name cfg; lf;
          "Requested L4 payload size           : "; dec (talk_payload_current_size cfg); " octets"; lf;
          "Estimated headers size              : "; dec (hdr_size k); " octets"; lf;
          "Transmission time                   : "; fmt_f 4 (per (report_talk_stream_time_duration_get r) 1000000); " s"; lf;
          "Total L4 packets expected           : "; dec (report_talk_count_get r); lf;
          "Total L4 packets transfered         : "; dec (report_talk_stream_recv_pkts_get r); lf;
          "Total L4 octets transfered          : "; dec (recv_bytes r); lf;
          "Estimated L3 packets transfered     : "; dec (total_pkts k); lf;
          "Estimated L3 fragmentation ratio    : "; fmt_f 0 (dceil (fragmentation_ratio k)); ":1"; lf;
          "Estimated L2 octets transfered      : "; dec (layer2_octets r); lf;
          "Latency (L4 RTA)                    : "; latency; " ms"; lf;
          "Effective packet loss               : "; fmt_f 4 (packet_loss k); " (%)"; lf;
          "Theoretical L1 Bandwidth            : "; dec (bandwidth_theoretical_mbps k); " Mbps"; lf;
          "Estimated L2 Bandwidth              : "; estimated; " Mbps"; lf;
          "Effective L4 Bandwidth              : "; fmt_f 3 (bandwidth_effective_mbps k); " Mbps"; lf] s
  else
    puts [pad12 "Latency"; " : "; latency; " ms"; lf;
          pad12 direction; " : "; estimated; " Mbps"; lf] s.

(** ** The JSON export *)

(** A member, [key], at a depth, up to its value; [last] tells whether a comma
    follows. *)
Definition key (depth : nat) (k : string) : string := indent depth +:+ quoted k +:+ ": ".
Definition eol (last : bool) : string := if last then lf else "," +:+ lf.

Definition mode_name : string :=
  if truth (asynchronous cfg) then "asynchronous"
  else if truth (bidirectional cfg) then "bidirectional" else "standard".

Definition mt : bool := defined (UBWT_CONFIG_MULTI_THREADED b).

(** [can_open] is whether [fopen] succeeds. *)
Definition report_export_json_start (can_open : bool) (s : reporting) : mem reporting :=
  match report_json_file cfg with
  | None => Val s
  | Some name =>
      if negb can_open then End (Exited EXIT_FAILURE (Some UBWT_ERROR_TYPE_REPORT_JSON_FILE_FAILED)) else
      let s := s {{ rep ::= fun r => r {{ fp_export_json := Some name }}; json_file := "" }} in
      let k := computed (report_result (rep s)) in
      Val (fputs ["{"; lf;
        key 1 "mode"; quoted mode_name; eol false;
        key 1 "workers"; (if mt then dec (worker_count cfg) else "1"); eol false;
        key 1 "connection"; "{"; lf;
        key 2 "mtu"; dec (net_mtu cfg); eol false;
        key 2 "layer1_bandwidth_theoretical"; dec (bandwidth_theoretical_mbps k); eol false;
        key 2 "sizes"; "{"; lf;
        key 3 "layer4_payload"; dec (talk_payload_current_size cfg); eol false;
        key 3 "headers_estimated"; dec (hdr_size k); eol true;
        indent 2; "}"; eol false;
        key 2 "protocols"; "{"; lf;
        key 3 "layer3"; quoted (if inet6 then "ipv6" else "ipv4"); eol false;
        key 3 "layer4"; quoted (net_l4_proto_name cfg); eol true;
        indent 2; "}"; lf;
        indent 1; "}"; eol false] s)
  end.

Definition report_export_json_dump (resume : bool) (s : reporting) : mem reporting :=
  match report_json_file cfg with
  | None => Val s
  | Some _ =>
      mem_assert (bool_decide (fp_export_json (rep s) <> None)) "fp" ;;
      let r := rep s in
      let k := computed (report_result r) in
      let s := if resume then fputs [","; lf] s else s in
      Val (fputs [
        key 1 (if process_im_receiver s then "download" else "upload"); "{"; lf;
        key 2 "octects"; "{"; lf;
        key 3 "layer2_estimated"; dec (layer2_octets r); eol false;
        key 3 "layer4_transfered"; dec (recv_bytes r); eol true;
        indent 2; "}"; eol false;
        key 2 "packets"; "{"; lf;
        key 3 "layer3_estimated"; dec (total_pkts k); eol false;
        key 3 "layer4_expected"; dec (report_talk_count_get r); eol false;
        key 3 "layer4_transfered"; dec (report_talk_stream_recv_pkts_get r); eol true;
        indent 2; "}"; eol false;
        key 2 "ratio"; "{"; lf;
        key 3 "fragmentation"; fmt_f 0 (dceil (fragmentation_ratio k)); eol false;
        key 3 "packet_loss"; fmt_f 4 (packet_loss k); eol true;
        indent 2; "}"; eol false;
        key 2 "time"; "{"; lf;
        key 3 "start"; fmt_f 4 (per (report_talk_stream_time_start_get r) 1000000); eol false;
        key 3 "duration"; fmt_f 4 (per (report_talk_stream_time_duration_get r) 1000000); eol false;
        key 3 "latency"; fmt_f 3 (per (report_talk_latency_get r) 1000); eol true;
        indent 2; "}"; eol false;
        key 2 "bandwidth"; "{"; lf;
        key 3 "layer2_estimated"; fmt_f 3 (bandwidth_estimated_mbps k); eol false;
        key 3 "layer4_effective"; fmt_f 3 (bandwidth_effective_mbps k); eol true;
        indent 2; "}"; lf;
        indent 1; "}"] s)
  end.

Definition report_export_json_end (s : reporting) : mem reporting :=
  match report_json_file cfg with
  | None => Val s
  | Some _ =>
      mem_assert (bool_decide (fp_export_json (rep s) <> None)) "fp" ;;
      Val (fputs [lf; "}"; lf] s)
  end.

(** ** [process_report] *)

Definition set_role (receiver : bool) (s : reporting) : reporting :=
  s {{ proc ::= fun p => p {{ im_sender := Zb (negb receiver); im_receiver := Zb receiver }} }}.

Definition select (rev : bool) (s : reporting) : reporting :=
  s {{ rep ::= if rev then report_set_reverse else report_set_straight }}.

(** [report_results_compute]; converting the bandwidth to an integer may be undefined. *)
Definition compute (s : reporting) : mem reporting :=
  r ← mem_of (report_results_compute cfg inet6 (rep s)); Val (s {{ rep := r }}).

(** The results of a direction, [rev] for the reverse one. *)
Definition report_direction (rev : bool) (s : reporting) : mem reporting :=
  s ← compute (select rev (set_role (if rev then negb (truth (im_listener cfg)) else truth (im_listener cfg)) s));
  report_export_json_dump rev (report_results_show s).

Definition process_report (can_open : bool) (ws : list ubwt_report) (s : reporting) : mem reporting :=
  let s := s {{ stg ::= fun st => fst (stage_set UBWT_STAGE_STATE_RUNTIME_REPORT_SHOW 0 st) }} in
  let s := if mt then s {{ rep ::= Report.report_worker_combine cfg ws }} else s in
  s ← report_export_json_start can_open s;
  s ← (if truth (reverse_first cfg) && truth (bidirectional cfg) || negb (truth (reverse_first cfg))
       then report_direction false s else Val s);
  if negb (truth (bidirectional cfg)) && negb (truth (reverse_first cfg)) then report_export_json_end s
  else
    s ← report_direction true s;
    report_export_json_end s.

End output.
