(* ===== verification/OutputSpec.v ===== *)
(** What the exported file contains (Output.v): a report tree, and when it is JSON. *)

From S2P Require Import Prelude Errors Byteorder Layout ConfigData Usage Config ConfigSpec Conn Double Report Stage Thread Format Json Current Output.

Open Scope string_scope.
Open Scope Z_scope.

#[local] Arguments dec : simpl never.
#[local] Arguments fmt_f : simpl never.
#[local] Arguments wrap : simpl never.

(** ** Numbers are JSON numbers *)

Lemma numeric_dec z : 0 <= z -> numeric (dec z).
Proof.
  intros Hz. exists "", (dec z), "". split_and!; [by rewrite string_app_nil|by left|by apply dec_canonical|by left].
Qed.

Lemma numeric_fmt_f n x : finite x = true -> numeric (fmt_f n x).
Proof.
  assert (forall (s : bool) z, 0 <= z -> numeric ((if s then "-" else "") +:+ dec (z / 10 ^ Z.of_nat n) +:+
    (if decide (n = O) then "" else "." +:+ fixed n (z mod 10 ^ Z.of_nat n)))) as H.
  { intros s z Hz. do 3 eexists. split; [reflexivity|]. split_and!.
    - destruct s; [by right|by left].
    - apply dec_canonical, Z.div_pos; [done|]. apply Z.pow_pos_nonneg; lia.
    - case_decide; [by left|right]. eexists. split_and!; [reflexivity|apply fixed_digits|].
      intros E. apply (f_equal String.length) in E. rewrite length_fixed in E. done. }
  destruct x as [s| | |s m e]; intros Hx; try done; apply H; [done|]. apply round_scaled_nonneg. lia.
Qed.

Lemma dceil_finite x : finite x = true -> finite (dbl 0) = true /\ (exists z, dceil x = x \/ dceil x = S754_zero z \/ exists y, dceil x = dbl y).
Proof.
  intros Hx. split; [done|]. destruct x as [s| | |s m e]; try done; [exists s; by left|].
  unfold dceil. destruct (0 <=? e); [exists s; by left|]. destruct (_ =? 0); [exists s; right; by left|].
  exists s. right. right. by eexists.
Qed.

(** ** The report tree *)

Section tree.
Variable b : build.
Variable cfg : ubwt_config.
Variable inet6 : bool.

Definition num (z : Z) : doc := Num (dec z).

(** What the export writes before the results, with the computed figures [k] of the
    main thread at that time, and then the members [m]. *)
Definition header (k : ubwt_report_compute) (m : members) : members :=
  More "mode" (Str (mode_name cfg)) (
  More "workers" (if mt b then num (worker_count cfg) else Num "1") (
  More "connection" (Obj (
    More "mtu" (num (net_mtu cfg)) (
    More "layer1_bandwidth_theoretical" (num (bandwidth_theoretical_mbps k)) (
    More "sizes" (Obj (
      More "layer4_payload" (num (talk_payload_current_size cfg)) (
      Last "headers_estimated" (num (hdr_size k))))) (
    Last "protocols" (Obj (
      More "layer3" (Str (if inet6 then "ipv6" else "ipv4")) (
      Last "layer4" (Str (net_l4_proto_name cfg)))))))))) m)).

(** The results of a direction. *)
Definition section (x : ubwt_report_result) : doc :=
  let c := collected x in
  let k := computed x in
  Obj (
    More "octects" (Obj (
      More "layer2_estimated" (num (wrap 64 (talk_stream_recv_bytes c + wrap 64 (total_pkts k * hdr_size k)))) (
      Last "layer4_transfered" (num (talk_stream_recv_bytes c))))) (
    More "packets" (Obj (
      More "layer3_estimated" (num (total_pkts k)) (
      More "layer4_expected" (num (talk_count c)) (
      Last "layer4_transfered" (num (talk_stream_recv_pkts c)))))) (
    More "ratio" (Obj (
      More "fragmentation" (Num (fmt_f 0 (dceil (fragmentation_ratio k)))) (
      Last "packet_loss" (Num (fmt_f 4 (packet_loss k)))))) (
    More "time" (Obj (
      More "start" (Num (fmt_f 4 (per (talk_stream_time_start c) 1000000))) (
      More "duration" (Num (fmt_f 4 (per (talk_stream_time_duration c) 1000000))) (
      Last "latency" (Num (fmt_f 3 (per (talk_latency_us c) 1000))))))) (
    Last "bandwidth" (Obj (
      More "layer2_estimated" (Num (fmt_f 3 (bandwidth_estimated_mbps k))) (
      Last "layer4_effective" (Num (fmt_f 3 (bandwidth_effective_mbps k))))))))))).

(** The end receives in a direction: its results are a download. *)
Definition direction_name (rev : bool) : string :=
  if (if rev then negb (truth (im_listener cfg)) else truth (im_listener cfg)) then "download" else "upload".

Definition result_of (rev : bool) (r : ubwt_report) : ubwt_report_result := if rev then results1 r else results0 r.

(** What is exported for the directions [revs]. *)
Fixpoint sections (first : bool) (revs : list bool) (r : ubwt_report) : members :=
  match revs with
  | [] => Last (direction_name first) (section (result_of first r))
  | rev :: revs => More (direction_name first) (section (result_of first r)) (sections rev revs r)
  end.

(** ** The text is the layout of the tree *)

Ltac flat := repeat (rewrite string_app_assoc; simpl).

Lemma text_app l1 l2 : text (l1 ++ l2)%list = text l1 +:+ text l2.
Proof. induction l1 as [|s l1 IH]; [done|]. simpl. by rewrite IH, string_app_assoc. Qed.

Lemma start_text name s m :
  report_json_file cfg = Some name ->
  exists s', report_export_json_start b cfg inet6 true s = Val s' /\
    rep s' = (rep s) {{ fp_export_json := Some name }} /\ proc s' = proc s /\
    json_file s' +:+ pretty_members 1 m =
      "{" +:+ lf +:+ pretty_members 1 (header (computed (report_result (rep s))) m).
Proof.
  intros Hf. unfold report_export_json_start. rewrite Hf. eexists. split; [reflexivity|].
  split_and!; [by destruct s|by destruct s|].
  destruct s as [[fp ptr r0 r1] p st o j]. unfold fputs, header, num, key, eol.
  destruct ptr, (mt b); simpl; flat; unfold quoted, lf, quote; flat; reflexivity.
Qed.

(** The text of a direction's results, in a state that receives or sends. *)
Lemma dump_text name rev s :
  report_json_file cfg = Some name -> fp_export_json (rep s) = Some name ->
  exists s' t, report_export_json_dump cfg rev s = Val s' /\ rep s' = rep s /\
    json_file s' = json_file s +:+ (if rev then "," +:+ lf else "") +:+ t /\
    t = pretty_members 1 (Last (if process_im_receiver s then "download" else "upload") (section (report_result (rep s)))).
Proof.
  intros Hf Hfp. unfold report_export_json_dump. rewrite Hf, bool_decide_eq_true_2 by (by rewrite Hfp).
  unfold mem_assert. cbn [mbind mem_bind].
  assert (process_im_receiver (if rev then fputs [","; lf] s else s) = process_im_receiver s) as -> by (by destruct s, rev).
  do 2 eexists. split; [reflexivity|]. split_and!; [by destruct s, rev| |reflexivity].
  destruct s as [[fp ptr r0 r1] p st o j]. unfold fputs, section, num, key, eol, recv_bytes, layer2_octets.
  destruct ptr, rev; simpl; rewrite ?string_app_assoc; f_equal; simpl; flat; unfold quoted, lf, quote; flat;
    destruct (process_im_receiver _); flat; reflexivity.
Qed.

(** A direction: its figures are computed, shown and exported; the other direction's
    stay as they are. *)
Lemma report_direction_text name rev s s' :
  report_json_file cfg = Some name -> fp_export_json (rep s) = Some name ->
  report_direction cfg inet6 rev s = Val s' ->
  fp_export_json (rep s') = Some name /\
  result_of (negb rev) (rep s') = result_of (negb rev) (rep s) /\
  collected (result_of rev (rep s')) = collected (result_of rev (rep s)) /\
  report_compute cfg inet6 (collected (result_of rev (rep s'))) = Some (computed (result_of rev (rep s'))) /\
  json_file s' = json_file s +:+ (if rev then "," +:+ lf else "") +:+
    pretty_members 1 (Last (direction_name rev) (section (result_of rev (rep s')))).
Proof.
  intros Hf Hfp. unfold report_direction.
  set (s1 := select rev (set_role _ s)).
  assert (rep s1 = (if rev then report_set_reverse else report_set_straight) (rep s) /\ json_file s1 = json_file s /\
    process_im_receiver s1 = (if rev then negb (truth (im_listener cfg)) else truth (im_listener cfg))) as (Hr1 & Hj1 & Hp1).
  { unfold s1. destruct s as [[] [] st o j], rev; simpl; split_and!; try done; by destruct (truth _). }
  unfold compute, report_results_compute. rewrite Hr1.
  set (r1 := (if rev then report_set_reverse else report_set_straight) (rep s)) in *.
  destruct (report_compute cfg inet6 (collected (report_result r1))) as [k|] eqn:Ek; [|done]. cbn [mbind option_bind mem_of mem_bind].
  set (s2 := s1 {{ rep := _ }}). set (s3 := report_results_show cfg inet6 s2).
  assert (rep s3 = report_update (fun x => x {{ computed := k }}) r1 /\ json_file s3 = json_file s /\
    process_im_receiver s3 = process_im_receiver s1) as (Hr3 & Hj3 & Hp3).
  { unfold s3, s2, report_results_show, puts. rewrite <- Hj1. destruct s1, (truth (report_full cfg)); by split_and!. }
  destruct (dump_text name rev s3 Hf) as (s4 & t & E4 & Hr4 & Hj4 & Ht).
  { rewrite Hr3. unfold r1. destruct (rep s), rev; exact Hfp. }
  rewrite E4. intros [= <-]. rewrite Hr4, Hj4, Hj3, Ht, Hr3, Hp3, Hp1. unfold direction_name.
  destruct (rep s) as [fp ptr [c0 k0] [c1 k1]] eqn:Er. unfold r1 in *.
  destruct rev; (split_and!; [exact Hfp|reflexivity|reflexivity|exact Ek|reflexivity]).
Qed.

End tree.

(** ** What the file contains *)

(** The numbers of a result can be printed as JSON numbers. *)
Record printable (x : ubwt_report_result) : Prop := {
  pr_bytes : 0 <= talk_stream_recv_bytes (collected x);
  pr_pkts : 0 <= talk_stream_recv_pkts (collected x);
  pr_count : 0 <= talk_count (collected x);
  pr_total : 0 <= total_pkts (computed x);
  pr_start : finite (per (talk_stream_time_start (collected x)) 1000000) = true;
  pr_duration : finite (per (talk_stream_time_duration (collected x)) 1000000) = true;
  pr_latency : finite (per (talk_latency_us (collected x)) 1000) = true;
  pr_fragmentation : finite (dceil (fragmentation_ratio (computed x))) = true;
  pr_loss : finite (packet_loss (computed x)) = true;
  pr_estimated : finite (bandwidth_estimated_mbps (computed x)) = true;
  pr_effective : finite (bandwidth_effective_mbps (computed x)) = true
}.

(** Keys and numbers. *)
Ltac printable_tac :=
  repeat match goal with
  | |- _ /\ _ => split
  | |- plain (String _ _) => by vm_compute
  | |- numeric (fmt_f _ _) => apply numeric_fmt_f; assumption
  | |- numeric (dec _) => apply numeric_dec; try assumption
  end.

Lemma section_ok x : printable x -> doc_ok (section x).
Proof.
  intros []. unfold section, num. cbn [doc_ok members_ok]. printable_tac. by apply wrap_range.
Qed.

Record header_printable (cfg : ubwt_config) (k : ubwt_report_compute) : Prop := {
  hp_workers : 0 <= worker_count cfg;
  hp_mtu : 0 <= net_mtu cfg;
  hp_payload : 0 <= talk_payload_current_size cfg;
  hp_name : plain (net_l4_proto_name cfg);
  hp_theoretical : 0 <= bandwidth_theoretical_mbps k;
  hp_hdr : 0 <= hdr_size k
}.

Lemma header_ok b cfg inet6 k m : header_printable cfg k -> members_ok m -> members_ok (header b cfg inet6 k m).
Proof.
  intros [] Hm. unfold header, num, mode_name. cbn [doc_ok members_ok]. printable_tac; try assumption.
  - repeat case_match; by vm_compute.
  - destruct (mt b); [by apply numeric_dec|]. exists "", "1", "". split_and!; [done|by left|done|by left].
  - by destruct inet6.
Qed.

Lemma sections_ok cfg first revs r :
  Forall (fun rev => printable (result_of rev r)) (first :: revs) -> members_ok (sections cfg first revs r).
Proof.
  assert (forall rev, plain (direction_name cfg rev)) as Hn.
  { intros rev. unfold direction_name. repeat case_match; by vm_compute. }
  revert first. induction revs as [|rev revs IH]; intros first [H1 H2]%list.Forall_cons; cbn [sections members_ok].
  - split; [apply Hn|by apply section_ok].
  - split_and!; [apply Hn|by apply section_ok|by apply IH].
Qed.

(** An object whose members are followed by a comma and another comma. *)
Lemma double_comma_rejected m t :
  members_ok m -> json_parse ("{" +:+ lf +:+ pretty_members 1 m +:+ "," +:+ lf +:+ "," +:+ t) = None.
Proof.
  intros Hm. unfold json_parse. set (r := "," +:+ lf +:+ "," +:+ t). set (n := String.length _).
  assert (weight_members m <= n)%nat as Hn.
  { pose proof (proj2 weight_length m 1%nat Hm). unfold n. simpl. rewrite string_length_app. lia. }
  change (skip_ws ("{" +:+ ?x)) with (String "{" x).
  change (parse_value (S n) (String "{" (lf +:+ ?x))) with
    (match starts 125 (skip_ws x) with
     | Some s => Some (JObject [], s)
     | None => '(l, s) ← parse_members n (skip_ws x); Some (JObject l, s)
     end).
  assert (starts 125 (skip_ws (pretty_members 1 m +:+ r)) = None) as -> by (rewrite skip_members; by destruct m).
  rewrite (proj2 parse_layout) by (done || by repeat split).
  change (starts 44 (skip_ws r)) with (Some (lf +:+ "," +:+ t)).
  change (skip_ws (lf +:+ "," +:+ t)) with (String "," t).
  by destruct (n - count_members m)%nat.
Qed.

(** Combining the workers does not touch the computed figures. *)
Lemma combine_computed cfg ws r :
  computed (report_result (Report.report_worker_combine cfg ws r)) = computed (report_result r).
Proof.
  assert (forall l r, result (fold_left combine_one l r) = result r /\
    computed (results0 (fold_left combine_one l r)) = computed (results0 r) /\
    computed (results1 (fold_left combine_one l r)) = computed (results1 r)) as H.
  { induction l as [|x l IH]; intros r0; [done|]. simpl. destruct (IH (combine_one r0 x)) as (-> & -> & ->).
    by destruct r0 as [? ? [] []]. }
  specialize (H ws r) as (Hp & H0 & H1). unfold Report.report_worker_combine, report_result.
  destruct (_ =? 0); destruct (fold_left combine_one ws r) as [? ? [] []], r as [? [] ? ?]; simpl in *; by subst.
Qed.

(** The layout of the members of the header and of the directions. *)
Lemma pretty_header b cfg inet6 k m r :
  "{" +:+ lf +:+ pretty_members 1 (header b cfg inet6 k m) +:+ lf +:+ "}" +:+ r =
  pretty 0 (Obj (header b cfg inet6 k m)) +:+ r.
Proof. rewrite pretty_obj. reflexivity. Qed.

Lemma pretty_more depth k v m :
  pretty_members depth (Last k v) +:+ "," +:+ lf +:+ pretty_members depth m = pretty_members depth (More k v m).
Proof. cbn [pretty_members]. by rewrite !string_app_assoc. Qed.

(** The file between its header and its end: the directions after one another, and a
    separator before the reverse one. *)
Definition body (cfg : ubwt_config) (revs : list bool) (r : ubwt_report) : string :=
  text (map (fun rev => (if rev : bool then "," +:+ lf else "") +:+
    pretty_members 1 (Last (direction_name cfg rev) (section (result_of rev r)))) revs).

Definition reported (cfg : ubwt_config) : list bool :=
  (if truth (bidirectional cfg) || negb (truth (reverse_first cfg)) then [false] else []) ++
  (if truth (bidirectional cfg) || truth (reverse_first cfg) then [true] else []).

Lemma end_text cfg name s :
  report_json_file cfg = Some name -> fp_export_json (rep s) = Some name ->
  exists s', report_export_json_end cfg s = Val s' /\ rep s' = rep s /\ json_file s' = json_file s +:+ lf +:+ "}" +:+ lf.
Proof.
  intros Hf Hfp. unfold report_export_json_end. rewrite Hf, bool_decide_eq_true_2 by (by rewrite Hfp).
  eexists. split; [reflexivity|]. by destruct s.
Qed.

Lemma string_app_inj_r s s' t : s +:+ t = s' +:+ t -> s = s'.
Proof.
  revert s'. induction s as [|c s IH]; intros [|c' s'] H; [done|..].
  - apply (f_equal String.length) in H. simpl in H. rewrite string_length_app in H. lia.
  - apply (f_equal String.length) in H. simpl in H. rewrite string_length_app in H. lia.
  - simpl in H. injection H as -> H. f_equal. by apply IH.
Qed.

(** The members of the header alone. *)
Definition header_only (b : build) (cfg : ubwt_config) (inet6 : bool) (k : ubwt_report_compute) : members :=
  match header b cfg inet6 k (Last "" (Str "")) with
  | More a x (More c y (More d z _)) => More a x (More c y (Last d z))
  | m => m
  end.

Lemma header_split b cfg inet6 k m :
  pretty_members 1 (header b cfg inet6 k m) =
  pretty_members 1 (header_only b cfg inet6 k) +:+ "," +:+ lf +:+ pretty_members 1 m.
Proof. unfold header_only, header. cbn [pretty_members]. by rewrite !string_app_assoc. Qed.

(** What [process_report] writes, whichever directions it reports. *)
Lemma process_report_text b cfg inet6 ws s s' name :
  process_report b cfg inet6 true ws s = Val s' -> report_json_file cfg = Some name ->
  exists start, json_file s' = start +:+ body cfg (reported cfg) (rep s') +:+ lf +:+ "}" +:+ lf /\
    forall m, start +:+ pretty_members 1 m =
      "{" +:+ lf +:+ pretty_members 1 (header b cfg inet6 (computed (report_result (rep s))) m).
Proof.
  intros Hrun Hf. unfold process_report in Hrun.
  set (s1 := if mt b then _ else _) in Hrun.
  assert (computed (report_result (rep s1)) = computed (report_result (rep s))) as Hk0.
  { unfold s1. clear. destruct s as [r p st o j], (mt b); [exact (combine_computed cfg ws r)|done]. }
  assert (exists s2, report_export_json_start b cfg inet6 true s1 = Val s2 /\ fp_export_json (rep s2) = Some name /\
    forall m, json_file s2 +:+ pretty_members 1 m =
      "{" +:+ lf +:+ pretty_members 1 (header b cfg inet6 (computed (report_result (rep s))) m)) as (s2 & E2 & Hfp2 & Hst).
  { destruct (start_text b cfg inet6 name s1 (Last "" (Str "")) Hf) as (s2 & E2 & Hr2 & _).
    exists s2. split_and!; [done|by rewrite Hr2; destruct (rep s1)|]. intros m.
    destruct (start_text b cfg inet6 name s1 m Hf) as (s3 & E3 & _ & _ & H3). rewrite E2 in E3. injection E3 as <-.
    by rewrite H3, Hk0. }
  rewrite E2 in Hrun. cbn [mbind mem_bind] in Hrun. exists (json_file s2). split; [|exact Hst].
  unfold reported, body. destruct (truth (bidirectional cfg)) eqn:Eb, (truth (reverse_first cfg)) eqn:Er;
    cbn [andb orb negb app map text foldr mbind mem_bind] in *.
  - destruct (report_direction cfg inet6 false s2) as [s3| | |] eqn:E3; try done. cbn [mbind mem_bind] in Hrun.
    destruct (report_direction cfg inet6 true s3) as [s4| | |] eqn:E4; try done. cbn [mbind mem_bind] in Hrun.
    destruct (report_direction_text _ _ _ _ _ _ Hf Hfp2 E3) as (Hfp3 & _ & _ & _ & J3).
    destruct (report_direction_text _ _ _ _ _ _ Hf Hfp3 E4) as (Hfp4 & Ho4 & _ & _ & J4).
    destruct (end_text _ _ _ Hf Hfp4) as (s5 & E5 & R5 & J5). rewrite E5 in Hrun. injection Hrun as <-.
    simpl in Ho4. rewrite J5, J4, J3, R5. cbn [result_of]. rewrite <- Ho4, string_app_nil, !string_app_assoc. done.
  - destruct (report_direction cfg inet6 false s2) as [s3| | |] eqn:E3; try done. cbn [mbind mem_bind] in Hrun.
    destruct (report_direction cfg inet6 true s3) as [s4| | |] eqn:E4; try done. cbn [mbind mem_bind] in Hrun.
    destruct (report_direction_text _ _ _ _ _ _ Hf Hfp2 E3) as (Hfp3 & _ & _ & _ & J3).
    destruct (report_direction_text _ _ _ _ _ _ Hf Hfp3 E4) as (Hfp4 & Ho4 & _ & _ & J4).
    destruct (end_text _ _ _ Hf Hfp4) as (s5 & E5 & R5 & J5). rewrite E5 in Hrun. injection Hrun as <-.
    simpl in Ho4. rewrite J5, J4, J3, R5. cbn [result_of]. rewrite <- Ho4, string_app_nil, !string_app_assoc. done.
  - destruct (report_direction cfg inet6 true s2) as [s4| | |] eqn:E4; try done. cbn [mbind mem_bind] in Hrun.
    destruct (report_direction_text _ _ _ _ _ _ Hf Hfp2 E4) as (Hfp4 & _ & _ & _ & J4).
    destruct (end_text _ _ _ Hf Hfp4) as (s5 & E5 & R5 & J5). rewrite E5 in Hrun. injection Hrun as <-.
    rewrite J5, J4, R5, string_app_nil, !string_app_assoc. done.
  - destruct (report_direction cfg inet6 false s2) as [s4| | |] eqn:E4; try done. cbn [mbind mem_bind] in Hrun.
    destruct (report_direction_text _ _ _ _ _ _ Hf Hfp2 E4) as (Hfp4 & _ & _ & _ & J4).
    destruct (end_text _ _ _ Hf Hfp4) as (s5 & E5 & R5 & J5). rewrite E5 in Hrun. injection Hrun as <-.
    rewrite J5, J4, R5, string_app_nil, !string_app_assoc. done.
Qed.

(** C20: the exported file.  If [process_report] returns and every number it printed is
    finite, then the file is JSON exactly when the results of the straight direction
    are among those reported: it parses to the tree of the configuration and of the
    final results of the directions in their order.  With a reverse test alone
    ([-R] without [-b]) no JSON parser accepts it.  The two figures of the header
    that depend on the results are the ones the main thread had before the results
    were computed. *)
Theorem exported_json b cfg inet6 ws s s' name :
  process_report b cfg inet6 true ws s = Val s' -> report_json_file cfg = Some name ->
  let k0 := computed (report_result (rep s)) in
  header_printable cfg k0 ->
  Forall (fun rev => printable (result_of rev (rep s'))) (reported cfg) ->
  json_parse (json_file s') =
    match reported cfg with
    | false :: revs => Some (to_json (Obj (header b cfg inet6 k0 (sections cfg false revs (rep s')))))
    | _ => None
    end.
Proof.
  intros Hrun Hf k0 Hk Hp. destruct (process_report_text _ _ _ _ _ _ _ Hrun Hf) as (start & -> & Hst).
  fold k0 in Hst.
  assert (forall revs, reported cfg = false :: revs -> (revs = [] \/ revs = [true]) ->
    json_parse (start +:+ body cfg (false :: revs) (rep s') +:+ lf +:+ "}" +:+ lf) =
      Some (to_json (Obj (header b cfg inet6 k0 (sections cfg false revs (rep s')))))) as Hjson.
  { intros revs Hr Hrevs. rewrite Hr in Hp.
    assert (start +:+ body cfg (false :: revs) (rep s') +:+ lf +:+ "}" +:+ lf =
      (start +:+ pretty_members 1 (sections cfg false revs (rep s'))) +:+ lf +:+ "}" +:+ lf) as ->.
    { unfold body. destruct Hrevs as [->| ->]; cbn [map text foldr sections].
      - by rewrite string_app_nil, !string_app_assoc.
      - rewrite <- pretty_more, string_app_nil, !string_app_assoc. done. }
    rewrite Hst, !string_app_assoc, pretty_header. apply json_parse_pretty; [|done..].
    by apply header_ok, sections_ok. }
  unfold reported in *. destruct (truth (bidirectional cfg)), (truth (reverse_first cfg)); cbn [orb negb app] in *.
  1, 2, 4: by apply Hjson; auto.
  unfold body. cbn [map text foldr]. rewrite string_app_nil.
  set (m := Last (direction_name cfg true) (section (result_of true (rep s')))).
  specialize (Hst m). rewrite header_split, <- !string_app_assoc in Hst. apply string_app_inj_r in Hst. rewrite Hst, !string_app_assoc.
  apply double_comma_rejected. assert (members_ok (header b cfg inet6 k0 (Last "" (Str "")))) as Hok by (by apply header_ok).
  clear - Hok. cbn in Hok |- *. tauto.
Qed.

(** A listener of a standard test, and one that tests the reverse direction alone. *)
Definition demo_options (more : list Usage.cmdopt) : ubwt_config :=
  default config_zero (Conn.example_config "listener" (Usage.O_j "report.json" :: more)).

Definition demo_report : ubwt_report :=
  let x := {| collected := collect_zero {{ talk_count := 100; talk_stream_recv_pkts := 100;
    talk_stream_recv_bytes := 143200; talk_stream_time_duration := 2000000; talk_latency_us := 350 }};
    computed := compute_zero |} in
  {| fp_export_json := None; result := ResultStraight; results0 := x; results1 := x |}.

Definition demo_reporting : reporting := {|
  rep := report_zero {{ result := ResultStraight }}; proc := {| im_sender := 0; im_receiver := 0; reverse := 0 |};
  stg := {| iter := 0; state := UBWT_STAGE_STATE_NONE |}; out := ""; json_file := "" |}.

(** What the demonstrations export. *)
Definition demo_export (more : list Usage.cmdopt) : mem reporting :=
  process_report build_linux (demo_options more) false true [demo_report] demo_reporting.

Definition printableb (x : ubwt_report_result) : bool :=
  let c := collected x in
  let k := computed x in
  (0 <=? talk_stream_recv_bytes c) && (0 <=? talk_stream_recv_pkts c) && (0 <=? talk_count c) && (0 <=? total_pkts k) &&
  finite (per (talk_stream_time_start c) 1000000) && finite (per (talk_stream_time_duration c) 1000000) &&
  finite (per (talk_latency_us c) 1000) && finite (dceil (fragmentation_ratio k)) && finite (packet_loss k) &&
  finite (bandwidth_estimated_mbps k) && finite (bandwidth_effective_mbps k).

Lemma printableb_ok x : printableb x = true -> printable x.
Proof.
  unfold printableb. intros H. repeat (apply andb_true_iff in H as [H ?]).
  constructor; try assumption; by apply Z.leb_le.
Qed.

Lemma demo_header more :
  more = [] \/ more = [Usage.O_R] -> header_printable (demo_options more) compute_zero.
Proof. intros [->| ->]; constructor; vm_compute; congruence. Qed.

Lemma exported_json_witness :
  (exists s, demo_export [] = Val s /\ exists t, json_parse (json_file s) = Some (JObject t)) /\
  (exists s, demo_export [Usage.O_R] = Val s /\ json_parse (json_file s) = None).
Proof.
  assert (forall more, more = [] \/ more = [Usage.O_R] ->
    match demo_export more with
    | Val s => forallb (fun rev => printableb (result_of rev (rep s))) (reported (demo_options more)) = true
    | _ => False
    end) as Hrun by (intros more [->| ->]; by vm_compute).
  split.
  - specialize (Hrun [] (or_introl eq_refl)). destruct (demo_export []) as [s| | |] eqn:E; [|destruct Hrun..].
    exists s. split; [done|]. unfold demo_export in E.
    rewrite (exported_json _ _ _ _ _ _ "report.json" E eq_refl (demo_header _ (or_introl eq_refl))).
    + eexists. reflexivity.
    + apply list.Forall_forall. intros rev Hrev. apply printableb_ok.
      rewrite forallb_forall in Hrun. by apply Hrun, list_elem_of_In.
  - specialize (Hrun [Usage.O_R] (or_intror eq_refl)). destruct (demo_export [Usage.O_R]) as [s| | |] eqn:E; [|destruct Hrun..].
    exists s. split; [done|]. unfold demo_export in E.
    rewrite (exported_json _ _ _ _ _ _ "report.json" E eq_refl (demo_header _ (or_intror eq_refl))).
    + reflexivity.
    + apply list.Forall_forall. intros rev Hrev. apply printableb_ok.
      rewrite forallb_forall in Hrun. by apply Hrun, list_elem_of_In.
Defined.

(** The text itself, for one result. *)
Example demo_text :
  match demo_export [] with
  | Val s => json_parse (json_file s) <> None /\ out s = lf +:+ pad12 "Latency" +:+ " : 0.350 ms" +:+ lf +:+
      pad12 "Download" +:+ " : 0.599 Mbps" +:+ lf
  | _ => False
  end.
Proof. vm_compute. split; [congruence|reflexivity]. Qed.
