(* ===== verification/Runtime.v ===== *)
(** The main thread of a test: src/runtime.c.

    [runtime_do] creates the workers, waits until they are ready, connected and
    done, reports, and joins them.  It is given as the list of its actions, which
    depends on the configuration alone; a wait is a loop that polls the flags of
    the list of threads, at most an eighth of a second apart. *)

From S2P Require Import Prelude Bitops Errors Byteorder ConfigData Usage Config ConfigSpec Conn Double Report Stage Thread Format Current CurrentSpec CurrentSafety Worker Talk Process.

Open Scope string_scope.
Open Scope Z_scope.

(** ** The process identifier *)

(** [_runtime_write_pid_file]: the file and its contents; [can_open] is whether
    [fopen] succeeds. *)
Definition _runtime_write_pid_file (c : ubwt_config) (can_open : bool) (pid : Z) : mem (option (string * string)) :=
  match pid_file c with
  | None => Val None
  | Some name => if can_open then Val (Some (name, dec pid)) else End (Aborted "_runtime_write_pid_file")
  end.

(** ** Progress *)

Definition progress_rotary : list ascii := String.list_ascii_of_string "-\|/".

(** The size of [unsigned int], which is also the number of the glyphs. *)
Definition sizeof_unsigned : Z := 4.

Definition cr : string := String "013" "".
Definition lf : string := String "010" "".

(** The line, and the next value of [progress_tick]; reading past the glyphs is not
    defined. *)
Definition _runtime_display_progress (section : string) (tick : Z) : mem (string * Z) :=
  g ← mem_of (progress_rotary !! Z.to_nat (tick mod sizeof_unsigned));
  Val (cr +:+ " [" +:+ String g ("] " +:+ section +:+ "..."), wrap 32 (tick + 1)).

Definition _runtime_display_done (section : string) : string := cr +:+ " [*] " +:+ section +:+ "..." +:+ lf.

(** ** Waiting for the workers *)

(** The time until which the wait lasts, from the time now, in seconds and
    nanoseconds. *)
Definition deadline (now : Z * Z) : Z * Z :=
  let (tv_sec, tv_nsec) := now in
  let tv_nsec := tv_nsec + 125000000 in
  if 1000000000 <? tv_nsec then (tv_sec + 1, tv_nsec - 1000000000) else (tv_sec, tv_nsec).

(** What the loop does until its test holds: the lines it prints and the deadlines of
    its waits.  [seen i] is the store at the [i]-th test and [clock i] the time after
    it; a timed wait may end early. *)
Fixpoint wait_loop (fuel : nat) (section : string) (flag count : Z) (seen : nat -> threads) (clock : nat -> Z * Z)
    (i : nat) (tick : Z) : mem (string * list (Z * Z) * Z) :=
  match fuel with
  | O => Loops
  | S fuel =>
      b ← worker_task_has_flag flag count (seen i);
      if b : bool then Val ("", [], tick) else
      '(line, tick) ← _runtime_display_progress section tick;
      '(text, waits, tick) ← wait_loop fuel section flag count seen clock (S i) tick;
      Val (line +:+ text, deadline (clock i) :: waits, tick)
  end.

Definition _runtime_wait_worker_flag (fuel : nat) (section : string) (flag count : Z) (seen : nat -> threads)
    (clock : nat -> Z * Z) (tick : Z) : mem (string * list (Z * Z) * Z) :=
  '(line, tick) ← _runtime_display_progress section tick;
  '(text, waits, tick) ← wait_loop fuel section flag count seen clock 0 tick;
  Val (line +:+ text +:+ _runtime_display_done section, waits, tick).

(** ** [runtime_do] *)

Inductive action :=
| WritePid
| StartWorker (reverse_first : Z)
| WaitFlag (section : string) (flag count : Z)
| RunHere (reverse_first : Z)
| Report
| Nothing
| JoinWorker (i : nat).

(** The first group of workers and its waits; [i] is the number of workers started. *)
Definition straight_group (c : ubwt_config) : list action :=
  let n := Z.to_nat (worker_straight_first_count c) in
  let count := if truth (asynchronous c) then worker_count c / 2 else worker_count c in
  (replicate n (StartWorker 0) ++
  if (0 <? n)%nat then
     [WaitFlag "Initializing local regular workers" UBWT_WORKER_FLAG_TASK_READY count;
      WaitFlag "Waiting for remote regular workers" UBWT_WORKER_FLAG_TASK_RUNNING count]
   else [])%list.

Definition reverse_group (c : ubwt_config) : list action :=
  let n := Z.to_nat (worker_reverse_first_count c) in
  (replicate n (StartWorker 1) ++
  if (0 <? n)%nat then
     [WaitFlag "Initializing local reverse workers" UBWT_WORKER_FLAG_TASK_READY (worker_count c);
      WaitFlag "Waiting for remote reverse workers" UBWT_WORKER_FLAG_TASK_RUNNING (worker_count c)]
   else [])%list.

Definition runtime_do (b : build) (c : ubwt_config) : mem (list action) :=
  if defined (UBWT_CONFIG_MULTI_THREADED b) then
    let total := wrap 32 (worker_straight_first_count c + worker_reverse_first_count c) in
    mem_assert (total =? worker_count c) "worker_straight_first_count + worker_reverse_first_count == worker_count" ;;
    let i := (Z.to_nat (worker_straight_first_count c) + Z.to_nat (worker_reverse_first_count c))%nat in
    Val ([WritePid] ++ straight_group c ++ reverse_group c ++
      (if (0 <? i)%nat then [WaitFlag "Running bandwidth test" UBWT_WORKER_FLAG_TASK_JOINABLE (worker_count c); Report]
       else [Nothing]) ++
      map JoinWorker (seq 0 (Z.to_nat total)))%list
  else Val [WritePid; RunHere (reverse_first c); Report].

Example runtime_do_example :
  match Conn.example_config "listener" [O_A; O_W "2"] with
  | Some c => runtime_do build_linux c = Val
      [WritePid; StartWorker 0; WaitFlag "Initializing local regular workers" 4 1;
       WaitFlag "Waiting for remote regular workers" 5 1; StartWorker 1;
       WaitFlag "Initializing local reverse workers" 4 2; WaitFlag "Waiting for remote reverse workers" 5 2;
       WaitFlag "Running bandwidth test" 6 2; Report; JoinWorker 0; JoinWorker 1]
  | None => False
  end.
Proof. by vm_compute. Qed.

(** ** Properties *)

(** The deadline is an eighth of a second away, and its nanoseconds are those of a
    [struct timespec], except that they can be a full second: the test should be
    [>=]. *)
Lemma deadline_spec s n :
  0 <= n < 1000000000 ->
  let d := deadline (s, n) in
  fst d * 1000000000 + snd d = s * 1000000000 + n + 125000000 /\ 0 <= snd d <= 1000000000 /\
  (snd d = 1000000000 <-> n = 875000000).
Proof.
  intros Hn d. unfold d, deadline. destruct (Z.ltb_spec 1000000000 (n + 125000000)); simpl; lia.
Qed.

Lemma display_progress_ok section tick :
  exists line, _runtime_display_progress section tick = Val (line, wrap 32 (tick + 1)).
Proof.
  unfold _runtime_display_progress. pose proof (Z.mod_pos_bound tick sizeof_unsigned ltac:(done)) as Hr.
  destruct (lookup_lt_is_Some_2 progress_rotary (Z.to_nat (tick mod sizeof_unsigned))) as [g ->]; [|by eexists].
  unfold sizeof_unsigned in *. simpl. lia.
Qed.

(** The loop ends at the first test that holds, after a wait for each test that did
    not. *)
Lemma wait_loop_ends section flag count seen clock k i tick fuel :
  u32 tick ->
  (forall j, (i <= j < i + k)%nat -> worker_task_has_flag flag count (seen j) = Val false) ->
  worker_task_has_flag flag count (seen (i + k)%nat) = Val true -> (k < fuel)%nat ->
  exists text, wait_loop fuel section flag count seen clock i tick =
    Val (text, map (fun j => deadline (clock j)) (seq i k), wrap 32 (tick + Z.of_nat k)).
Proof.
  revert i tick fuel. induction k as [|k IH]; intros i tick [|fuel] Ht Hno Hyes Hf; try lia; cbn [wait_loop].
  - rewrite Nat.add_0_r in Hyes. rewrite Hyes. eexists.
    change (Z.of_nat 0) with 0. rewrite Z.add_0_r, wrap_small by done. reflexivity.
  - rewrite Hno by lia. cbn [mbind mem_bind]. destruct (display_progress_ok section tick) as [line ->]. cbn [mbind mem_bind].
    destruct (IH (S i) (wrap 32 (tick + 1)) fuel) as [text E];
      [by apply wrap_range|intros; apply Hno; lia|by rewrite Nat.add_succ_comm|lia|].
    rewrite E. cbn [mbind mem_bind]. eexists.
    assert (wrap 32 (wrap 32 (tick + 1) + Z.of_nat k) = wrap 32 (tick + Z.of_nat (S k))) as ->; [|reflexivity].
    unfold wrap. rewrite Zplus_mod_idemp_l. f_equal. lia.
Qed.

(** The number of workers started by some actions. *)
Definition is_start (a : action) : bool := match a with StartWorker _ => true | _ => false end.
Definition started (l : list action) : Z := Z.of_nat (length (filter (fun a => is_start a = true) l)).

Lemma started_app l1 l2 : started (l1 ++ l2)%list = started l1 + started l2.
Proof. unfold started. rewrite list.filter_app, length_app. lia. Qed.

Lemma started_replicate n v : started (replicate n (StartWorker v)) = Z.of_nat n.
Proof. induction n as [|n IH]; [done|]. unfold started in *. cbn [replicate].
  rewrite list.filter_cons, decide_True by done. cbn [length]. lia. Qed.

(** A wait can be satisfied: it asks for at least one worker, and for no more than
    were started. *)
Definition waits_ok (pre : Z) (l : list action) : Prop :=
  forall l1 section flag count l2, l = (l1 ++ WaitFlag section flag count :: l2)%list -> 0 < count <= pre + started l1.

Lemma waits_ok_app pre l1 l2 : waits_ok pre l1 -> waits_ok (pre + started l1) l2 -> waits_ok pre (l1 ++ l2)%list.
Proof.
  intros H1 H2 k1 section flag count k2 Heq.
  apply app_eq_app in Heq as (k & [[-> E]|[-> E]]).
  - destruct k as [|a k].
    + rewrite app_nil_r in *. specialize (H2 [] section flag count k2 (eq_sym E)). unfold started at 2 in H2. simpl in H2. lia.
    + injection E as <- ->. by eapply (H1 k1).
  - specialize (H2 k section flag count k2 E). rewrite started_app. lia.
Qed.

Lemma waits_ok_none pre l : Forall (fun a => match a with WaitFlag _ _ _ => False | _ => True end) l -> waits_ok pre l.
Proof. intros H l1 section flag count l2 ->. apply list.Forall_app in H as [_ H]. by inversion H. Qed.

Lemma waits_ok_waits pre l :
  Forall (fun a => match a with WaitFlag _ _ count => 0 < count <= pre | _ => is_start a = false end) l -> waits_ok pre l.
Proof.
  intros H l1 section flag count l2 ->. apply list.Forall_app in H as [H1 H]. inversion H as [|? ? Hc]; subst.
  assert (started l1 = 0) as ->; [|lia]. clear - H1. induction H1 as [|a l1 Ha _ IH]; [done|].
  unfold started in *. rewrite list.filter_cons. by destruct a.
Qed.

Lemma started_groups c :
  started (straight_group c) = Z.of_nat (Z.to_nat (worker_straight_first_count c)) /\
  started (reverse_group c) = Z.of_nat (Z.to_nat (worker_reverse_first_count c)).
Proof.
  split; [unfold straight_group|unfold reverse_group]; rewrite started_app, started_replicate;
    unfold started; case_match; simpl; lia.
Qed.

(** The arguments of the workers that are started. *)
Definition start_arg (a : action) : option Z := match a with StartWorker v => Some v | _ => None end.

Lemma start_args_replicate n v : omap start_arg (replicate n (StartWorker v)) = replicate n v.
Proof. induction n as [|n IH]; [done|]. unfold omap in *. simpl. by rewrite IH. Qed.

(** A group: its workers, and two waits for [count] of those started. *)
Lemma group_waits_ok pre n v s1 s2 f1 f2 count :
  ((0 < n)%nat -> 0 < count <= pre + Z.of_nat n) ->
  waits_ok pre (replicate n (StartWorker v) ++
    if (0 <? n)%nat then [WaitFlag s1 f1 count; WaitFlag s2 f2 count] else [])%list.
Proof.
  intros Hc. apply waits_ok_app; [apply waits_ok_none, list.Forall_replicate; done|].
  rewrite started_replicate. apply waits_ok_waits. destruct (Nat.ltb_spec 0 n); [|constructor].
  specialize (Hc ltac:(lia)). constructor; [exact Hc|]. constructor; [exact Hc|constructor].
Qed.

(** The numbers of workers that [config_init] leaves. *)
Lemma worker_counts b c :
  config_wf b c -> defined (UBWT_CONFIG_MULTI_THREADED b) = true ->
  1 <= worker_count c <= 1024 /\ worker_straight_first_count c + worker_reverse_first_count c = worker_count c /\
  0 <= worker_straight_first_count c /\ 0 <= worker_reverse_first_count c /\
  (0 < worker_straight_first_count c ->
    (if truth (asynchronous c) then worker_count c / 2 else worker_count c) = worker_straight_first_count c).
Proof.
  intros Hwf Hmt. pose proof (wf_workers _ _ Hwf) as Hw. rewrite Hmt in Hw.
  destruct Hw as (Hn & Hsum & _ & Ha & Hs & Hr). destruct (wf_bits _ _ Hwf) as (_ & Has & Hrev).
  destruct Has as [Has|Has]; rewrite Has; simpl.
  - destruct Hrev as [Hv|Hv]; [specialize (Hs Has Hv)|specialize (Hr Has Hv)]; lia.
  - specialize (Ha Has). replace (worker_count c) with (worker_straight_first_count c * 2) by lia.
    rewrite Z.div_mul by lia. lia.
Qed.

(** The plan up to the wait for the end of the test, and from there. *)
Definition plan_before (c : ubwt_config) : list action := ([WritePid] ++ straight_group c ++ reverse_group c)%list.
Definition plan_end (c : ubwt_config) : action := WaitFlag "Running bandwidth test" UBWT_WORKER_FLAG_TASK_JOINABLE (worker_count c).
Definition plan_joins (c : ubwt_config) : list action := map JoinWorker (seq 0 (Z.to_nat (worker_count c))).

Lemma plan_is b c :
  config_wf b c -> defined (UBWT_CONFIG_MULTI_THREADED b) = true ->
  runtime_do b c = Val (plan_before c ++ [plan_end c; Report] ++ plan_joins c)%list /\
  started (plan_before c) = worker_count c /\ waits_ok 0 (plan_before c ++ [plan_end c])%list.
Proof.
  intros Hwf Hmt. destruct (worker_counts b c Hwf Hmt) as (Hn & Hsum & Hs0 & Hr0 & Hhalf).
  destruct (started_groups c) as [Hss Hsr]. unfold plan_before, plan_end, plan_joins. split_and!.
  - unfold runtime_do. rewrite Hmt, Hsum, wrap_small, Z.eqb_refl by (unfold unsigned; lia). unfold mem_assert. cbn [mbind mem_bind].
    destruct (Nat.ltb_spec 0 (Z.to_nat (worker_straight_first_count c) + Z.to_nat (worker_reverse_first_count c))); [|lia].
    by rewrite <- !app_assoc.
  - rewrite !started_app, Hss, Hsr. change (started [WritePid]) with 0. lia.
  - rewrite <- !app_assoc. apply waits_ok_app; [by apply waits_ok_none; repeat constructor|].
    change (started [WritePid]) with 0. apply waits_ok_app; [|apply waits_ok_app].
    + apply group_waits_ok. lia.
    + rewrite Hss. apply group_waits_ok. lia.
    + rewrite Hss, Hsr. apply waits_ok_waits. constructor; [lia|constructor].
Qed.

(** C21: the main thread's plan.  For every configuration that [config_init] accepts, in
    a build with threads, [runtime_do] passes its assertion and does this: it starts
    exactly [worker_count] workers; each wait is for at least one worker (the
    assertion of [current_children_has_flag]) and for no more than were started
    before it, so it can be satisfied; the last wait before the report is for all of
    them to be joinable; and after the report each worker is joined once, in the
    order they were started. *)
Theorem runtime_plan b c :
  config_wf b c -> defined (UBWT_CONFIG_MULTI_THREADED b) = true ->
  exists before, runtime_do b c = Val (before ++
      [WaitFlag "Running bandwidth test" UBWT_WORKER_FLAG_TASK_JOINABLE (worker_count c); Report] ++
      map JoinWorker (seq 0 (Z.to_nat (worker_count c))))%list /\
    started before = worker_count c /\
    waits_ok 0 (before ++ [WaitFlag "Running bandwidth test" UBWT_WORKER_FLAG_TASK_JOINABLE (worker_count c)])%list /\
    omap start_arg before = runtime_tasks c.
Proof.
  intros Hwf Hmt. destruct (plan_is b c Hwf Hmt) as (E & Hst & Hw). exists (plan_before c). split_and!; [exact E|exact Hst|exact Hw|].
  unfold plan_before, straight_group, reverse_group, runtime_tasks. rewrite !omap_app, !start_args_replicate.
  repeat case_match; unfold omap; simpl; by rewrite ?app_nil_r.
Qed.

Lemma runtime_plan_witness :
  match Conn.example_config "connector" [O_W "3"] with
  | Some c => exists before rest, runtime_do build_linux c = Val (before ++ rest)%list /\
      started before = worker_count c /\ worker_count c = 3
  | None => False
  end.
Proof.
  destruct (Conn.example_config "connector" [O_W "3"]) as [c|] eqn:H; [|by vm_compute in H].
  destruct (runtime_plan build_linux c (Conn.example_config_wf _ _ _ H) eq_refl) as (before & E & Hst & _).
  exists before, ([WaitFlag "Running bandwidth test" UBWT_WORKER_FLAG_TASK_JOINABLE (worker_count c); Report] ++
    map JoinWorker (seq 0 (Z.to_nat (worker_count c))))%list.
  split; [exact E|]. split; [exact Hst|]. vm_compute in H. by injection H as <-.
Defined.

(** C35: a wait ends as soon as the workers have the flag.  If the [k]-th poll is the
    first that finds [count] flagged workers, then [_runtime_wait_worker_flag]
    returns after exactly [k] timed waits, whatever the number of polls that was
    allowed for, shows the progress [k + 1] times and says that it is done; each
    wait lasts an eighth of a second from the time of its poll, in nanoseconds from
    0 to a full second - the full second, which [struct timespec] does not allow, for
    the readings of 875 milliseconds. *)
Theorem wait_ends section flag count seen clock tick k fuel :
  u32 tick -> (forall i, 0 <= snd (clock i) < 1000000000) ->
  (forall j, (j < k)%nat -> worker_task_has_flag flag count (seen j) = Val false) ->
  worker_task_has_flag flag count (seen k) = Val true -> (k < fuel)%nat ->
  exists text waits, _runtime_wait_worker_flag fuel section flag count seen clock tick =
      Val (text +:+ _runtime_display_done section, waits, wrap 32 (tick + Z.of_nat (S k))) /\
    length waits = k /\
    forall i d, waits !! i = Some d ->
      fst d * 1000000000 + snd d = fst (clock i) * 1000000000 + snd (clock i) + 125000000 /\
      0 <= snd d <= 1000000000 /\ (snd d = 1000000000 <-> snd (clock i) = 875000000).
Proof.
  intros Ht Hclock Hno Hyes Hf. unfold _runtime_wait_worker_flag.
  destruct (display_progress_ok section tick) as [line ->]. cbn [mbind mem_bind].
  destruct (wait_loop_ends section flag count seen clock k 0 (wrap 32 (tick + 1)) fuel) as [text E];
    [by apply wrap_range|intros; apply Hno; lia|done|done|]. rewrite E. cbn [mbind mem_bind].
  exists (line +:+ text), (map (fun j => deadline (clock j)) (seq 0 k)). split_and!.
  - assert (wrap 32 (wrap 32 (tick + 1) + Z.of_nat k) = wrap 32 (tick + Z.of_nat (S k))) as ->.
    { unfold wrap. rewrite Zplus_mod_idemp_l. f_equal. lia. }
    by rewrite string_app_assoc.
  - by rewrite length_map, length_seq.
  - intros i d Hi. rewrite list_lookup_fmap in Hi. apply fmap_Some in Hi as (j & Hj & ->).
    apply lookup_seq in Hj as [-> _]. simpl. specialize (Hclock i). destruct (clock i) as [s n].
    by apply deadline_spec.
Qed.

(** The second worker becomes ready between the first poll and the second. *)
Lemma wait_ends_witness :
  exists text waits, _runtime_wait_worker_flag 5 "Initializing" UBWT_WORKER_FLAG_TASK_READY 2
      (fun i => if (i =? 0)%nat then CurrentSafety.demo_start else CurrentSafety.demo_store) (fun _ => (7, 900000000)) 0 =
    Val (text +:+ _runtime_display_done "Initializing", waits, 2) /\ waits = [(8, 25000000)].
Proof.
  destruct (wait_ends "Initializing" UBWT_WORKER_FLAG_TASK_READY 2
    (fun i => if (i =? 0)%nat then CurrentSafety.demo_start else CurrentSafety.demo_store) (fun _ => (7, 900000000)) 0 1 5)
    as (text & waits & E & Hl & Hd); [split; vm_compute; congruence|simpl; lia| |by vm_compute|lia|].
  - intros [|j] Hj; [by vm_compute|lia].
  - exists text, waits. split; [exact E|]. destruct waits as [|[s n] [|? ?]]; try done.
    destruct (Hd 0%nat (s, n) eq_refl) as (Hs & Hn & Hc). simpl in *. do 2 f_equal; lia.
Defined.
