(* ===== verification/Lifecycle.v ===== *)
(** The main thread and its workers: src/runtime.c over src/current.c and src/worker.c.

    The actions of [runtime_do] (Runtime.v) run against the list of threads (Current.v)
    while the workers come and go in it: each connects ([current_running_set] at the end
    of [talk_init]), disconnects ([current_running_unset] in [talk_destroy]) and ends
    ([current_exit]), and store what they measure and receive in their own structures.  The
    main thread waits until enough workers have a flag.  The system answers the calls of
    the main thread as it likes: files open or not, memory is there or not, threads are
    created or not; and a worker may end the process, as it does where the talk fails.
    [process_report] is here what it does to the list, the combination of the figures, and
    the opening of the exported file; what it prints is in Output.v. *)

From S2P Require Import Prelude Bitops Errors Byteorder ConfigData Usage Config ConfigSpec Conn Double Report Stage Thread Format Current CurrentSpec CurrentSafety Worker Talk Process Runtime.

Open Scope list_scope.
Open Scope Z_scope.

(** ** The system *)

(** What a worker has done: entered the list, connected, disconnected, ended. *)
Inductive progress := Entered | Connected | Disconnected | Ended.

#[export] Instance progress_eq_dec : EqDecision progress.
Proof. solve_decision. Defined.

(** The actions the main thread has still to do, the workers in the order they were
    started, how many were joined, and the memory. *)
Record team := { todo : list action; staff : list progress; joined : nat; memory : threads }.

(** What the system answers to an action of the main thread: the identifier of the process
    and whether its file opens, whether the memory for the tasks is there, whether the
    thread is created, there is memory for its structure and what [net_timeout_set] returns
    for its socket, whether the exported file opens, and what [pthread_join] returns. *)
Record answers := {
  pid : Z; pid_file_opens : bool; tasks_allocated : bool;
  thread_created : bool; struct_allocated : bool; timeout_set : Z;
  json_file_opens : bool; join_result : Z }.

(** A step: an action of the main thread, one of the worker [i], an update of the time by
    it, a store to its own structure, or the end of the process by it; [now] is the
    time. *)
Inductive event :=
| Main_acts (now : Z) (a : answers)
| Works (i : nat) (now : Z)
| Fails (i : nat) (e : stop)
| Updates (i : nat) (now : Z)
| Stores (i : nat) (r : ubwt_report) (st : ubwt_stage_t) (p : ubwt_process) (f : Z).

(** The event is one by which the process ends with [x]: a call of the main thread that
    fails, or a worker that ends the process. *)
Definition refuses (c : ubwt_config) (sock : nat -> Z) (e : event) (x : stop) : Prop :=
  match e with
  | Main_acts _ a =>
      pid_file c <> None /\ pid_file_opens a = false /\ x = Aborted "_runtime_write_pid_file" \/
      (tasks_allocated a = false \/ thread_created a = false) /\
        x = Exited EXIT_FAILURE (Some UBWT_ERROR_TYPE_WORKER_CREATE_FAILED) \/
      struct_allocated a = false /\ x = Assertion "c != NULL" \/
      truth (im_connector c) = true /\ (exists i, sock i < 0) /\ x = Aborted "socket" \/
      truth (im_connector c) = true /\ timeout_set a < 0 /\ x = Aborted "net_timeout_set" \/
      report_json_file c <> None /\ json_file_opens a = false /\
        x = Exited EXIT_FAILURE (Some UBWT_ERROR_TYPE_REPORT_JSON_FILE_FAILED) \/
      join_result a <> 0 /\ x = Aborted "pthread_join"
  | Fails _ y => x = y
  | _ => False
  end.

Section team.
(** The structure of the main thread when it enters [runtime_do]; the identifier of the
    [i]-th worker, the memory of its structure and of its task, and its socket. *)
Variables (boss : ubwt_current) (tid : nat -> Z) (cell task : nat -> loc) (sock : nat -> Z).

Local Notation self := (worker_id boss).
Local Notation connects := (truth (im_connector (config boss))).

(** [t[i]->type], [t[i]->fi] and [t[i]->vi]. *)
Definition set_task (i : nat) (v : Z) (t : threads) : threads :=
  t {{ tasks ::= <[task i := {| task_type := UBWT_WORKER_TASK_TYPE_NVR_INT; task_fun := "process_run"; task_arg := v |}]> }}.

(** A call failed and the main thread reports a fatal error. *)
Definition main_fails {A : Type} (why : ubwt_error_type_t) (t : threads) : mem A :=
  _ ← current_get self t;
  End (Exited EXIT_FAILURE (Some why)).

(** The next action of the main thread, [None] if there is none or it waits; only a build
    without threads runs a test in the main thread.  The tasks are allocated after the
    file with the identifier is written. *)
Definition main_acts (now : Z) (a : answers) (s : team) : option (mem team) :=
  match todo s with
  | [] => None
  | WritePid :: l =>
      Some (_ ← _runtime_write_pid_file (config boss) (pid_file_opens a) (pid a);
            if tasks_allocated a then Val (s {{ todo := l }})
            else main_fails UBWT_ERROR_TYPE_WORKER_CREATE_FAILED (memory s))
  | StartWorker v :: l =>
      let n := length (staff s) in
      Some (if thread_created a then
              t ← current_fork (tid n) (task n) (if struct_allocated a then Some (cell n) else None) (sock n)
                (timeout_set a) now (set_task n v (memory s));
              Val (s {{ todo := l; staff ::= fun w => w ++ [Entered]; memory := t }})
            else main_fails UBWT_ERROR_TYPE_WORKER_CREATE_FAILED (memory s))
  | WaitFlag section flag count :: l =>
      match worker_task_has_flag flag count (memory s) with
      | Val true => Some (Val (s {{ todo := l }}))
      | Val false => None
      | End e => Some (End e)
      | Undefined => Some Undefined
      | Loops => Some Loops
      end
  | Report :: l =>
      Some (t ← report_worker_combine self (memory s);
            if bool_decide (report_json_file (config boss) = None) || json_file_opens a
            then Val (s {{ todo := l; memory := t }})
            else main_fails UBWT_ERROR_TYPE_REPORT_JSON_FILE_FAILED t)
  | JoinWorker i :: l =>
      Some (t ← worker_task_join self (tid i) (join_result a) (memory s); Val (s {{ todo := l; joined ::= S; memory := t }}))
  | Nothing :: l => Some (Val (s {{ todo := l }}))
  | RunHere _ :: _ => None
  end.

(** The next action of a worker, from its progress. *)
Definition work (p : progress) (id now : Z) (t : threads) : option (mem threads * progress) :=
  match p with
  | Entered => Some (current_running_set id now t, Connected)
  | Connected => Some (current_running_unset id now t, Disconnected)
  | Disconnected => Some (Current.current_exit id now t, Ended)
  | Ended => None
  end.

Definition works (i : nat) (now : Z) (s : team) : option (mem team) :=
  p ← staff s !! i;
  '(r, p) ← work p (tid i) now (memory s);
  Some (t ← r; Val (s {{ staff ::= <[i := p]>; memory := t }})).

Definition updates (i : nat) (now : Z) (s : team) : option (mem team) :=
  p ← staff s !! i;
  if decide (p = Ended) then None
  else Some (t ← current_update (tid i) now (memory s); Val (s {{ memory := t }})).

(** The fields of its own structure a worker stores to: its figures, its stage, its roles
    and, at a listener, its socket. *)
Definition own_fields (r : ubwt_report) (st : ubwt_stage_t) (p : ubwt_process) (f : Z) (d : ubwt_current) : ubwt_current :=
  d {{ report := r; stage := st; process := p;
    net ::= fun n => if truth (im_connector (config d)) then n else n {{ fd := f }} }}.

Definition stores (i : nat) (r : ubwt_report) (st : ubwt_stage_t) (p : ubwt_process) (f : Z) (s : team) : option (mem team) :=
  q ← staff s !! i;
  if decide (q = Ended) then None
  else Some (t ← store (cell i) (fun n => n {{ data ::= own_fields r st p f }}) (memory s); Val (s {{ memory := t }})).

(** A worker that has not ended ends the process. *)
Definition fails (i : nat) (e : stop) (s : team) : option (mem team) :=
  p ← staff s !! i;
  if decide (p = Ended) then None else Some (End e).

Definition team_step (e : event) (s : team) : option (mem team) :=
  match e with
  | Main_acts now a => main_acts now a s
  | Fails i e => fails i e s
  | Works i now => works i now s
  | Updates i now => updates i now s
  | Stores i r st p f => stores i r st p f s
  end.

(** A run; [None] if an event cannot happen. *)
Fixpoint team_run (es : list event) (s : team) : option (mem team) :=
  match es with
  | [] => Some (Val s)
  | e :: es =>
      r ← team_step e s;
      match r with
      | Val s => team_run es s
      | End e => Some (End e)
      | Undefined => Some Undefined
      | Loops => Some Loops
      end
  end.

(** [runtime_do] has allocated the tasks. *)
Definition empty_task : ubwt_worker_task_t := {| task_type := 0; task_fun := ""; task_arg := 0 |}.

Definition team_tasks (n : nat) : gmap loc ubwt_worker_task_t := list_to_map (map (fun i => (task i, empty_task)) (seq 0 n)).

Definition team_memory : threads := {|
  nodes := {[ head := {| data := boss; worker_task := None; next := None; prev := None |} ]};
  tasks := team_tasks (Z.to_nat (worker_count (config boss))); worker_forking := 0; closed := [] |}.

Definition team_start (plan : list action) : team :=
  {| todo := plan; staff := []; joined := 0; memory := team_memory |}.

(** ** The invariant *)

(** The flags of a worker. *)
Definition flags_of (p : progress) : Z :=
  let ready := bit_set (bit_set 0 UBWT_WORKER_FLAG_TYPE_CHILD) UBWT_WORKER_FLAG_TASK_READY in
  match p with
  | Entered => ready
  | Connected => bit_set ready UBWT_WORKER_FLAG_TASK_RUNNING
  | Disconnected => bit_clear (bit_set ready UBWT_WORKER_FLAG_TASK_RUNNING) UBWT_WORKER_FLAG_TASK_RUNNING
  | Ended => bit_set (bit_clear (bit_clear (bit_set ready UBWT_WORKER_FLAG_TASK_RUNNING) UBWT_WORKER_FLAG_TASK_RUNNING)
      UBWT_WORKER_FLAG_TASK_RUNNING) UBWT_WORKER_FLAG_TASK_JOINABLE
  end.

(** How far the workers have come. *)
Definition rank (p : progress) : nat := match p with Entered => 0 | Connected => 1 | Disconnected => 2 | Ended => 3 end.
Definition ranks (s : team) : nat := sum_list (map rank (staff s)).

(** The structure of the worker [i]. *)
Definition employed (i : nat) (p : progress) (t : threads) : Prop :=
  exists d, data_at t (cell i) = Some d /\ worker_id d = tid i /\ worker_flags d = flags_of p /\
    config d = config boss /\ (connects = true -> fd (net d) = sock i) /\ task_of t (cell i) = Some (task i).

(** The workers that are in the list: all that were started and not joined, the latest
    first. *)
Definition present (s : team) : list nat := list.reverse (seq (joined s) (length (staff s) - joined s)).

Record team_inv (total : nat) (s : team) : Prop := {
  inv_count : (joined s <= length (staff s) <= total)%nat;
  inv_list : well_formed (map cell (present s)) (memory s);
  inv_head : exists h, data_at (memory s) head = Some h /\ worker_id h = self /\ config h = config boss /\ net h = net boss;
  inv_staff : forall i p, staff s !! i = Some p -> (joined s <= i)%nat -> employed i p (memory s);
  inv_tasks : forall k, is_Some (tasks (memory s) !! k) <-> exists i, (joined s <= i < total)%nat /\ k = task i;
  inv_closed : length (closed (memory s)) = joined s /\ (connects = true -> closed (memory s) = map sock (seq 0 (joined s)))
}.

(** ** What the operations leave alone *)

Lemma store_flags_frame c f t t' :
  store c (set_flags f) t = Val t' -> closed t' = closed t /\ forall d, task_of t' d = task_of t d.
Proof.
  unfold store, load. destruct t as [m ts fk cl]. simpl. destruct (m !! c) as [n|] eqn:Hn; [|done]. intros [= <-].
  split; [done|]. intros d. unfold task_of. simpl. destruct (decide (d = c)) as [->|].
  - by rewrite lookup_insert_eq, Hn.
  - by rewrite lookup_insert_ne.
Qed.

Lemma update_frame id now t t' :
  current_update id now t = Val t' ->
  closed t' = closed t /\ tasks t' = tasks t /\ forall d, task_of t' d = task_of t d.
Proof.
  intros H. split_and!; [..|by apply (current_update_tasks id now)].
  - unfold current_update in H. destruct (current_get id t); [|done..]. by injection H as <-.
  - unfold current_update in H. destruct (current_get id t); [|done..]. by injection H as <-.
Qed.

Lemma flag_op_frame f id now t t' :
  flag_op f id now t = Val t' -> closed t' = closed t /\ forall d, task_of t' d = task_of t d.
Proof.
  unfold flag_op. destruct (current_get id t) as [c| | |]; [|done..]. simpl.
  destruct (store c (set_flags f) t) as [t1| | |] eqn:E; [|done..]. simpl. intros H.
  destruct (store_flags_frame _ _ _ _ E) as [C1 T1]. destruct (update_frame _ _ _ _ H) as (C2 & _ & T2).
  split; [congruence|]. intros d. by rewrite T2, T1.
Qed.

Lemma fork_frame ls t id k c sk to now t' :
  linked ls t -> nodes t !! c = None -> current_fork id k (Some c) sk to now t = Val t' ->
  closed t' = closed t /\ forall d, d <> c -> task_of t' d = task_of t d.
Proof.
  intros H Hc. unfold current_fork. destruct (load t head) as [h| | |]; [|done..]. simpl.
  intros E. assert (exists t1, insert_front c (fork_node (data h) id sk k) t = Val t1 /\ current_update id now t1 = Val t') as (t1 & E1 & E2).
  { unfold fork_node. destruct (if truth (im_connector (config (data h))) then _ else _); [|done..]. simpl in E.
    destruct (insert_front c _ t) as [t1| | |]; [|done..]. by exists t1. }
  destruct (insert_front_linked ls t c (fork_node (data h) id sk k) H Hc) as (t1' & E1' & _ & _ & _ & Ho & _ & _ & C1).
  rewrite E1 in E1'. injection E1' as <-. destruct (update_frame _ _ _ _ E2) as (C2 & _ & T2).
  split; [congruence|]. intros d Hd. rewrite T2. destruct (Ho d Hd) as [_ E3]. unfold task_of.
  destruct (nodes t1 !! d), (nodes t !! d); simpl in *; congruence.
Qed.

(** A worker whose structure keeps all but the time. *)
Lemma employed_frame i p now t t' :
  employed i p t -> data_at t' (cell i) = at_time now <$> data_at t (cell i) -> task_of t' (cell i) = task_of t (cell i) ->
  employed i p t'.
Proof.
  intros (d & Hd & Hi & Hf & Hc & Hs & Hk) E T. exists (at_time now d). rewrite E, Hd, T. destruct d. by split_and!.
Qed.

(** ** The list of the team *)

Context (tid_self : forall i, tid i <> self) (tid_inj : Inj (=) (=) tid).
Context (cell_head : forall i, cell i <> head) (cell_inj : Inj (=) (=) cell).
Context (task_inj : Inj (=) (=) task) (boss_flags : flags_ok head boss).

Lemma elem_of_present s i : i ∈ present s <-> (joined s <= i < length (staff s))%nat.
Proof. unfold present. rewrite elem_of_reverse, elem_of_seq. lia. Qed.

Lemma present_cells total s c : team_inv total s -> c ∈ map cell (present s) <-> exists i, (joined s <= i < length (staff s))%nat /\ c = cell i.
Proof.
  intros _. rewrite list_elem_of_fmap. split.
  - intros (i & -> & Hi%elem_of_present). by exists i.
  - intros (i & Hi & ->). exists i. split; [done|]. by apply elem_of_present.
Qed.

Lemma staff_at total s i :
  team_inv total s -> (joined s <= i < length (staff s))%nat -> exists p, staff s !! i = Some p /\ employed i p (memory s).
Proof.
  intros H Hi. destruct (lookup_lt_is_Some_2 (staff s) i) as [p Hp]; [lia|]. exists p. split; [done|].
  apply (inv_staff _ _ H); [done|lia].
Qed.

(** A worker finds its structure. *)
Lemma find_present total s i :
  team_inv total s -> (joined s <= i < length (staff s))%nat ->
  first_with (memory s) (tid i) (head :: map cell (present s)) = Some (cell i).
Proof.
  intros H Hi. destruct (staff_at _ _ _ H Hi) as (p & _ & d & Hd & Hid & _).
  apply first_with_unique; [|unfold id_at; by rewrite Hd, <- Hid|apply (wf_ids _ _ (inv_list _ _ H))].
  right. apply (present_cells _ _ _ H). by exists i.
Qed.

(** The main thread's structure, with another time. *)
Lemma head_frame now t t' :
  (exists h, data_at t head = Some h /\ worker_id h = self /\ config h = config boss /\ net h = net boss) ->
  data_at t' head = at_time now <$> data_at t head ->
  exists h, data_at t' head = Some h /\ worker_id h = self /\ config h = config boss /\ net h = net boss.
Proof. intros (h & Hh & ? & ? & ?) E. exists (at_time now h). rewrite E, Hh. by destruct h. Qed.

(** ** The steps of a worker *)

Lemma work_flags p id now t r p' :
  work p id now t = Some (r, p') ->
  exists f, r = flag_op f id now t /\ keeps_child f /\ f (flags_of p) = flags_of p' /\ rank p' = S (rank p).
Proof.
  destruct p; [| | |done]; intros [= <- <-].
  - exists (fun w => bit_set w UBWT_WORKER_FLAG_TASK_RUNNING). split_and!; [done| |done|done].
    apply set_keeps; [split; vm_compute; congruence|done].
  - exists (fun w => bit_clear w UBWT_WORKER_FLAG_TASK_RUNNING). split_and!; [done| |done|done].
    apply clear_keeps; [split; vm_compute; congruence|done].
  - exists (fun w => bit_set (bit_clear w UBWT_WORKER_FLAG_TASK_RUNNING) UBWT_WORKER_FLAG_TASK_JOINABLE).
    split_and!; [done| |done|done].
    apply (comp_keeps (fun w => bit_clear w UBWT_WORKER_FLAG_TASK_RUNNING) (fun w => bit_set w UBWT_WORKER_FLAG_TASK_JOINABLE)).
    + apply clear_keeps; [split; vm_compute; congruence|done].
    + apply set_keeps; [split; vm_compute; congruence|done].
Qed.

(** Those that were joined had ended. *)
Definition gone (s : team) : Prop := forall i p, staff s !! i = Some p -> (i < joined s)%nat -> p = Ended.

Lemma still_present s i p : gone s -> staff s !! i = Some p -> p <> Ended -> (joined s <= i < length (staff s))%nat.
Proof.
  intros Hg Hp Hne. split; [|by eapply lookup_lt_Some]. destruct (decide (joined s <= i)%nat); [done|].
  destruct Hne. apply (Hg i); [done|lia].
Qed.

Lemma works_step total i now s r :
  team_inv total s -> gone s -> works i now s = Some r ->
  exists s' p p', r = Val s' /\ staff s !! i = Some p /\ p <> Ended /\ staff s' = <[i := p']> (staff s) /\
    rank p' = S (rank p) /\
    todo s' = todo s /\ joined s' = joined s /\ team_inv total s' /\ gone s'.
Proof.
  intros H Hg. unfold works. destruct (staff s !! i) as [p|] eqn:Hp; [|done]. cbn [mbind option_bind].
  destruct (work p (tid i) now (memory s)) as [[r0 p']|] eqn:Hw; [|done]. cbn [mbind option_bind]. intros [= <-].
  assert (p <> Ended) as Hne by (by intros ->).
  assert (joined s <= i < length (staff s))%nat as Hi by (by apply (still_present _ _ p)).
  destruct (work_flags _ _ _ _ _ _ Hw) as (f & -> & Hf & Hfl & Hpe).
  destruct (flag_op_well_formed _ _ f _ now _ (inv_list _ _ H) Hf (find_present _ _ _ H Hi)) as (t' & E & Hwf & Ht & Hd).
  destruct (flag_op_frame _ _ _ _ _ E) as [Hcl Htk]. rewrite E. cbn [mbind mem_bind].
  eexists _, p, p'. split; [reflexivity|]. split_and!; try done.
  - constructor; simpl.
    + rewrite length_insert. apply H.
    + unfold present. simpl. rewrite length_insert. exact Hwf.
    + apply (head_frame now (memory s)); [apply H|]. rewrite Hd. destruct (data_at (memory s) head); [|done].
      simpl. rewrite decide_False; [done|]. intros Hh. by destruct (cell_head i).
    + intros j q Hq Hj. destruct (decide (i = j)) as [<-|Hij].
      * rewrite list_lookup_insert_eq in Hq by exact (proj2 Hi). injection Hq as <-.
        destruct (inv_staff _ _ H i p Hp Hj) as (d & Hdi & Hid & Hfd & Hcf & Hs & Hk).
        exists (at_time now (d {{ worker_flags ::= f }})). rewrite Hd, Hdi, Htk. simpl. rewrite decide_True by done.
        destruct d. simpl in *. split_and!; [done|done|by subst|done|done|done].
      * rewrite list_lookup_insert_ne in Hq by done. apply (employed_frame j q now (memory s)); [by apply (inv_staff _ _ H)| |apply Htk].
        rewrite Hd. destruct (data_at (memory s) (cell j)); [|done]. simpl. rewrite decide_False; [done|]. intros Hc.
        by apply Hij, cell_inj.
    + rewrite Ht. apply H.
    + rewrite Hcl. apply H.
  - intros j q Hq Hj. change (j < joined s)%nat in Hj.
    change (<[i := p']> (staff s) !! j = Some q) in Hq. rewrite list_lookup_insert_ne in Hq by lia. by apply (Hg j).
Qed.

Lemma updates_step total i now s r :
  team_inv total s -> gone s -> updates i now s = Some r ->
  exists s', r = Val s' /\ todo s' = todo s /\ joined s' = joined s /\ staff s' = staff s /\ team_inv total s'.
Proof.
  intros H Hg. unfold updates. destruct (staff s !! i) as [p|] eqn:Hp; [|done]. cbn [mbind option_bind].
  case_decide as Hne; [done|]. intros [= <-].
  assert (joined s <= i < length (staff s))%nat as Hi by (by apply (still_present _ _ p)).
  destruct (update_well_formed _ _ _ now _ (inv_list _ _ H) (find_present _ _ _ H Hi)) as (t' & E & Hwf & Ht & Hd).
  destruct (update_frame _ _ _ _ E) as (Hcl & _ & Htk). rewrite E. cbn [mbind mem_bind].
  eexists. split; [reflexivity|]. split_and!; try done. constructor; simpl.
  - apply H.
  - exact Hwf.
  - apply (head_frame now (memory s)); [apply H|]. by rewrite Hd.
  - intros j q Hq Hj. apply (employed_frame j q now (memory s)); [by apply (inv_staff _ _ H)|apply Hd|apply Htk].
  - rewrite Ht. apply H.
  - rewrite Hcl. apply H.
Qed.

(** A store to the structure of a thread that keeps its identifier and its flags. *)
Lemma own_store ls t c g :
  well_formed ls t -> c ∈ head :: ls -> (forall d, worker_id (g d) = worker_id d /\ worker_flags (g d) = worker_flags d) ->
  exists t', store c (fun n => n {{ data ::= g }}) t = Val t' /\ well_formed ls t' /\
    tasks t' = tasks t /\ closed t' = closed t /\ (forall d, task_of t' d = task_of t d) /\
    forall d, data_at t' d = (if decide (d = c) then g else id) <$> data_at t d.
Proof.
  intros H Hc Hg. destruct (store_linked ls t c (fun n => n {{ data ::= g }}) ltac:(done) (wf_linked _ _ H) Hc) as (n & Hn & E & Hl).
  destruct t as [m ts fk cl]. cbn [nodes] in Hn. set (n' := n {{ data ::= g }}) in *.
  set (t := {| nodes := m; tasks := ts; worker_forking := fk; closed := cl |}) in *.
  set (t' := {| nodes := <[c := n']> m; tasks := ts; worker_forking := fk; closed := cl |}).
  assert (forall d, data_at t' d = (if decide (d = c) then g else id) <$> data_at t d) as Hd.
  { intros d. unfold data_at, t, t'. cbn [nodes]. destruct (decide (d = c)) as [->|Hne].
    - by rewrite lookup_insert_eq, Hn.
    - rewrite lookup_insert_ne by done. by destruct (m !! d). }
  assert (forall d, task_of t' d = task_of t d) as Ht.
  { intros d. unfold task_of, t, t'. cbn [nodes]. destruct (decide (d = c)) as [->|Hne]; [by rewrite lookup_insert_eq, Hn|by rewrite lookup_insert_ne]. }
  exists t'. split; [exact E|]. split_and!; [|done|done|exact Ht|exact Hd].
  apply (well_formed_same _ _ _ H Hl); [|done|].
  - intros d. split; [|apply Ht]. unfold id_at. change (worker_id <$> data_at t' d = worker_id <$> data_at t d).
    rewrite Hd. case_decide; destruct (data_at t d); simpl; try done. by rewrite (proj1 (Hg _)).
  - intros d k Ek. change (data_at t' d = Some k) in Ek. rewrite Hd in Ek. destruct (data_at t d) as [k0|] eqn:E0; [|done]. injection Ek as <-.
    apply (wf_flags _ _ H) in E0. unfold flags_ok in *. destruct (decide (d = c)); [by rewrite (proj2 (Hg _))|done].
Qed.

Lemma stores_step total i r st p f s r0 :
  team_inv total s -> gone s -> stores i r st p f s = Some r0 ->
  exists s', r0 = Val s' /\ todo s' = todo s /\ joined s' = joined s /\ staff s' = staff s /\ team_inv total s'.
Proof.
  intros H Hg. unfold stores. destruct (staff s !! i) as [q|] eqn:Hq; [|done]. cbn [mbind option_bind].
  case_decide as Hne; [done|]. intros [= <-].
  assert (joined s <= i < length (staff s))%nat as Hi by (by apply (still_present _ _ q)).
  assert (cell i ∈ head :: map cell (present s)) as Hc by (right; apply (present_cells _ _ _ H); by exists i).
  destruct (own_store _ _ _ (own_fields r st p f) (inv_list _ _ H) Hc ltac:(done)) as (t' & E & Hwf & Ht & Hcl & Htk & Hd).
  match goal with |- context [store ?c ?g ?m] => change (store c g m = Val t') in E end. rewrite E. cbn [mbind mem_bind]. eexists. split; [reflexivity|]. split_and!; try done. constructor; simpl.
  - apply H.
  - exact Hwf.
  - destruct (inv_head _ _ H) as (h & Hh & ?). exists h. split; [|done]. rewrite Hd, Hh. rewrite decide_False; [done|].
    intros Hh'. by destruct (cell_head i).
  - intros j q' Hq' Hj. destruct (inv_staff _ _ H j q' Hq' Hj) as (d & Hdj & Hid & Hfd & Hcf & Hs & Hk).
    exists ((if decide (cell j = cell i) then own_fields r st p f else id) d). rewrite Hd, Hdj, Htk. split; [by case_decide|].
    case_decide as He; [|done]. unfold own_fields. rewrite Hcf. apply cell_inj in He as ->.
    split_and!; [done|done|exact Hcf| |done]. intros Hcon. simpl. rewrite Hcon. by apply Hs.
  - rewrite Ht. apply H.
  - rewrite Hcl. apply H.
Qed.

(** ** The steps of the main thread *)

Lemma set_task_well_formed ls t i v : well_formed ls t -> well_formed ls (set_task i v t).
Proof.
  intros []. destruct t as [m ts fk cl]. constructor; try done.
  - by destruct wf_linked.
  - intros c Hc. destruct (wf_tasks c Hc) as (k & Hk & Ht). exists k. split; [done|]. simpl in *.
    rewrite lookup_insert_is_Some'. by right.
Qed.

Lemma set_task_tasks t i v k : is_Some (tasks (set_task i v t) !! k) <-> k = task i \/ is_Some (tasks t !! k).
Proof. destruct t as [m ts fk cl]. simpl. rewrite lookup_insert_is_Some'. naive_solver. Qed.

Lemma present_next j n : (j <= n)%nat -> list.reverse (seq j (n + 1 - j)) = n :: list.reverse (seq j (n - j)).
Proof.
  intros H. replace (n + 1 - j)%nat with (S (n - j)) by lia. rewrite seq_S, reverse_snoc.
  by replace (j + (n - j))%nat with n by lia.
Qed.

(** The next worker. *)
Lemma start_step total v (alloc : bool) timeout now s :
  team_inv total s -> (length (staff s) < total)%nat ->
  match current_fork (tid (length (staff s))) (task (length (staff s))) (if alloc then Some (cell (length (staff s))) else None)
    (sock (length (staff s))) timeout now (set_task (length (staff s)) v (memory s)) with
  | Val t' => forall l, team_inv total (s {{ todo := l; staff ::= fun w => w ++ [Entered]; memory := t' }})
  | End x => alloc = false /\ x = Assertion "c != NULL" \/
      connects = true /\ (sock (length (staff s)) < 0 /\ x = Aborted "socket" \/ timeout < 0 /\ x = Aborted "net_timeout_set")
  | _ => False
  end.
Proof.
  intros H Hn. set (n := length (staff s)) in *. set (t := set_task n v (memory s)).
  assert (well_formed (map cell (present s)) t) as Hwf by (apply set_task_well_formed, H).
  assert (forall d, data_at t d = data_at (memory s) d /\ task_of t d = task_of (memory s) d /\ nodes t !! d = nodes (memory s) !! d) as Hsame
    by (intros d; unfold t; by destruct (memory s)).
  assert (cell n ∉ head :: map cell (present s)) as Hc.
  { intros [Hh|Hin]%elem_of_cons; [by destruct (cell_head n)|]. apply (present_cells _ _ _ H) in Hin as (i & Hi & He).
    apply cell_inj in He. unfold n in He. lia. }
  assert (nodes t !! cell n = None) as Hfree.
  { destruct (nodes t !! cell n) as [k|] eqn:E; [|done]. destruct Hc. apply (linked_dom _ _ (wf_linked _ _ Hwf)). by exists k. }
  assert (forall d, id_at t d <> Some (tid n)) as Hid.
  { intros d Hd. apply (id_at_in _ _ _ _ (wf_linked _ _ Hwf)) in Hd as Hin. unfold id_at in Hd. rewrite (proj1 (Hsame d)) in Hd.
    apply elem_of_cons in Hin as [->|Hin].
    - destruct (inv_head _ _ H) as (h & Hh & Hs & _). rewrite Hh in Hd. injection Hd as Hd. by apply (tid_self n); congruence.
    - apply (present_cells _ _ _ H) in Hin as (i & Hi & ->). destruct (staff_at _ _ _ H Hi) as (p & _ & k & Hk & Hi' & _).
      rewrite Hk in Hd. injection Hd as Hd. rewrite Hi' in Hd. apply tid_inj in Hd. unfold n in Hd. lia. }
  destruct alloc.
  2: { unfold current_fork. rewrite (current_get_linked _ _ _ (wf_linked _ _ Hwf)).
    destruct (first_with t (tid n) _) as [d|] eqn:E; [|by left]. by destruct (Hid d (proj2 (first_with_Some _ _ _ _ E))). }
  assert (forall d, task_of t d <> Some (task n)) as Hown.
  { intros d Hd. destruct (nodes t !! d) as [k|] eqn:E; [|unfold task_of in Hd; by rewrite E in Hd].
    assert (d ∈ head :: map cell (present s)) as Hin by (apply (linked_dom _ _ (wf_linked _ _ Hwf)); by exists k).
    apply elem_of_cons in Hin as [->|Hin]; [by rewrite (wf_head_task _ _ Hwf) in Hd|].
    apply (present_cells _ _ _ H) in Hin as (i & Hi & ->). destruct (staff_at _ _ _ H Hi) as (p & _ & k' & _ & _ & _ & _ & _ & Hk).
    rewrite (proj1 (proj2 (Hsame _))), Hk in Hd. injection Hd as Hd. apply task_inj in Hd. unfold n in Hd. lia. }
  assert (is_Some (tasks t !! task n)) as Htask by (apply set_task_tasks; by left).
  pose proof (fork_spec _ t (tid n) (task n) (cell n) (sock n) timeout now Hwf Hfree) as Hf.
  assert (tid n ∉ ids t (head :: map cell (present s))) as Hni by (intros (d & _ & Hd)%list_elem_of_omap; by apply (Hid d)).
  specialize (Hf Hni Htask Hown).
  destruct (current_fork (tid n) (task n) (Some (cell n)) (sock n) timeout now t) as [t'|e| |] eqn:E; [| |done|done].
  2: { destruct Hf as [(h & Hh & Him) He]. destruct (inv_head _ _ H) as (h' & Hh' & _ & Hc' & _).
    rewrite (proj1 (Hsame head)), Hh' in Hh. injection Hh as ->. right. split; [apply truth_spec; congruence|]. naive_solver. }
  intros l. destruct Hf as (H' & Ht & Hk & (h & Hh & Hdn) & Hd & _).
  destruct (fork_frame _ _ _ _ _ _ _ _ _ (wf_linked _ _ Hwf) Hfree E) as [Hcl Htk].
  pose proof (inv_count _ _ H) as Hj.
  constructor.
  - change (joined s <= length (staff s ++ [Entered]) <= total)%nat. rewrite length_app. change (joined s <= n + 1 <= total)%nat. fold n in Hj. lia.
  - change (well_formed (map cell (list.reverse (seq (joined s) (length (staff s ++ [Entered]) - joined s)))) t').
    rewrite length_app. change (length (staff s) + length [Entered])%nat with (n + 1)%nat.
    rewrite present_next by (fold n in Hj; lia). exact H'.
  - apply (head_frame now (memory s)); [apply H|]. rewrite Hd by (intros Hh'; by destruct (cell_head n)). by rewrite (proj1 (Hsame head)).
  - intros i p Hp Hi. change (staff (s {{ todo := l; staff ::= fun w => w ++ [Entered]; memory := t' }})) with (staff s ++ [Entered]) in Hp.
    apply lookup_app_Some in Hp as [Hp|[Hge Hp]].
    + assert (cell i <> cell n) as Hne by (intros He%cell_inj; apply lookup_lt_Some in Hp; unfold n in He; lia).
      apply (employed_frame i p now (memory s)); [by apply (inv_staff _ _ H)| |].
      * change (data_at t' (cell i) = at_time now <$> data_at (memory s) (cell i)). by rewrite Hd, (proj1 (Hsame _)).
      * change (task_of t' (cell i) = task_of (memory s) (cell i)). by rewrite Htk, (proj1 (proj2 (Hsame _))).
    + apply list_lookup_singleton_Some in Hp as [Hi0 <-]. assert (i = n) as -> by (unfold n; lia). clear Hi.
      exists (at_time now (forked h (tid n) (sock n))). split_and!; [done|done|done| | |done].
      { destruct (inv_head _ _ H) as (h' & Hh' & _ & Hcon & _). rewrite (proj1 (Hsame head)), Hh' in Hh. by injection Hh as ->. }
      intros Hb. destruct (inv_head _ _ H) as (h' & Hh' & _ & Hcon & _). rewrite (proj1 (Hsame head)), Hh' in Hh. injection Hh as ->.
      simpl. by rewrite Hcon, Hb.
  - intros k. change (is_Some (tasks t' !! k) <-> exists i, (joined s <= i < total)%nat /\ k = task i). rewrite Ht. unfold t. rewrite set_task_tasks. rewrite (inv_tasks _ _ H). fold n in Hj. split.
    + intros [->|?]; [exists n; split; [lia|done]|done].
    + by right.
  - change (length (closed t') = joined s /\ (connects = true -> closed t' = map sock (seq 0 (joined s)))).
    rewrite Hcl. replace (closed t) with (closed (memory s)) by (unfold t; by destruct (memory s)). apply H.
Qed.

(** The main thread finds its own structure, so it can report an error. *)
Lemma main_fails_is {A : Type} total why s :
  team_inv total s -> @main_fails A why (memory s) = End (Exited EXIT_FAILURE (Some why)).
Proof.
  intros H. unfold main_fails. rewrite (current_get_linked _ _ _ (wf_linked _ _ (inv_list _ _ H))).
  destruct (inv_head _ _ H) as (h & Hh & Hs & _). cbn [first_with]. unfold id_at. rewrite Hh. simpl.
  by rewrite decide_True by congruence.
Qed.

Lemma combine_step total s :
  team_inv total s ->
  exists t', report_worker_combine self (memory s) = Val t' /\ forall l, team_inv total (s {{ todo := l; memory := t' }}).
Proof.
  intros H. destruct (inv_head _ _ H) as (h & Hh & Hs & Hc & Hn).
  assert (id_at (memory s) head = Some self) as Hid by (unfold id_at; by rewrite Hh, <- Hs).
  destruct (report_worker_combine_list _ _ _ (inv_list _ _ H) Hid) as (hn & _ & E).
  destruct (own_store _ (memory s) head
    (fun d => d {{ report := Report.report_worker_combine (config d) (reports (memory s) (map cell (present s))) (report d) }})
    (inv_list _ _ H) ltac:(by constructor) ltac:(done)) as (t' & Es & Hwf & Ht & Hcl & Hk & Hd).
  exists t'. split; [by rewrite E|]. intros l. constructor.
  - apply H.
  - exact Hwf.
  - eexists. split; [transitivity (data_at t' head); [done|]; rewrite Hd, Hh, decide_True by done; reflexivity|]. by destruct h.
  - intros i p Hp Hi. destruct (inv_staff _ _ H i p Hp Hi) as (d & Hdi & ?). exists d.
    change (data_at t' (cell i) = Some d /\ worker_id d = tid i /\ worker_flags d = flags_of p /\ config d = config boss /\ (connects = true -> fd (net d) = sock i) /\
      task_of t' (cell i) = Some (task i)). rewrite Hk, Hd, decide_False by done. by destruct (data_at (memory s) (cell i)).
  - intros k. change (is_Some (tasks t' !! k) <-> exists i, (joined s <= i < total)%nat /\ k = task i). rewrite Ht. apply H.
  - change (length (closed t') = joined s /\ (connects = true -> closed t' = map sock (seq 0 (joined s)))). rewrite Hcl. apply H.
Qed.

Lemma last_split {A : Type} (x : A) l1 l2 l : l ++ [x] = l1 ++ x :: l2 -> x ∉ l -> l1 = l /\ l2 = [].
Proof.
  revert l1. induction l as [|y l IH]; intros [|z l1] H Hx; simpl in H.
  - by injection H as <-.
  - injection H as _ H. by destruct l1.
  - injection H as -> _. set_solver.
  - injection H as -> H. destruct (IH l1 H) as [-> ->]; [set_solver|done].
Qed.

Lemma present_last j n : (j < n)%nat -> list.reverse (seq j (n - j)) = list.reverse (seq (S j) (n - S j)) ++ [j].
Proof. intros H. replace (n - j)%nat with (S (n - S j)) by lia. cbn [seq]. by rewrite reverse_cons. Qed.

(** The first worker that was not joined yet, when it has ended. *)
Lemma join_step total s :
  team_inv total s -> staff s !! joined s = Some Ended ->
  exists t', current_join self (tid (joined s)) (memory s) = Val t' /\
    forall l, team_inv total (s {{ todo := l; joined ::= S; memory := t' }}).
Proof.
  intros H Hp. apply lookup_lt_Some in Hp as Hlt. set (j := joined s) in *.
  pose proof (join_spec _ _ self (tid j) (inv_list _ _ H)) as Hj.
  rewrite (find_present _ _ _ H) in Hj by (fold j; lia). destruct Hj as (d & Hd & Hj).
  destruct (inv_staff _ _ H j Ended Hp ltac:(done)) as (d' & Hd' & Hid & Hfl & _ & Hfd & Htk).
  rewrite Hd in Hd'. injection Hd' as <-. rewrite Hfl in Hj.
  rewrite (proj2 (Z.eqb_neq _ _) (tid_self j)) in Hj.
  change (Z.testbit (flags_of Ended) UBWT_WORKER_FLAG_TASK_RUNNING) with false in Hj.
  change (Z.testbit (flags_of Ended) UBWT_WORKER_FLAG_TASK_JOINABLE) with true in Hj. cbv iota beta in Hj. cbn [negb] in Hj.
  rewrite decide_False in Hj by done. destruct Hj as (l1 & l2 & t' & El & Ej & Hwf & Hfree & Hsame & (k & Hk & Ht) & (d' & Hd' & Hcl)).
  rewrite Hd in Hd'. injection Hd' as <-. rewrite Htk in Hk. injection Hk as <-.
  assert (present s = list.reverse (seq (S j) (length (staff s) - S j)) ++ [j]) as Epr by (by apply present_last).
  rewrite Epr, map_app in El. apply last_split in El as [-> ->].
  2: { intros (i & He & Hi)%list_elem_of_fmap. apply cell_inj in He as <-. apply elem_of_reverse, elem_of_seq in Hi. lia. }
  exists t'. split; [exact Ej|]. intros l. pose proof (inv_count _ _ H) as Hc. constructor.
  - change (S j <= length (staff s) <= total)%nat. lia.
  - change (well_formed (map cell (list.reverse (seq (S j) (length (staff s) - S j)))) t'). by rewrite app_nil_r in Hwf.
  - destruct (inv_head _ _ H) as (h & Hh & ?). exists h. split; [|done].
    transitivity (data_at t' head); [done|]. by rewrite (proj1 (Hsame head ltac:(intros Hn; by destruct (cell_head j)))).
  - intros i p Hi Hle. change (staff s !! i = Some p) in Hi. change (S j <= i)%nat in Hle.
    assert (cell i <> cell j) as Hne by (intros He%cell_inj; lia).
    destruct (inv_staff _ _ H i p Hi ltac:(fold j; lia)) as (d0 & Hd0 & ? & ? & ? & ? & Hk0). exists d0.
    change (data_at t' (cell i) = Some d0 /\ worker_id d0 = tid i /\ worker_flags d0 = flags_of p /\ config d0 = config boss /\ (connects = true -> fd (net d0) = sock i) /\
      task_of t' (cell i) = Some (task i)). destruct (Hsame _ Hne) as [-> ->]. by split_and!.
  - intros k. change (is_Some (tasks t' !! k) <-> exists i, (S j <= i < total)%nat /\ k = task i).
    rewrite Ht, lookup_delete_is_Some, (inv_tasks _ _ H). fold j. split.
    + intros (Hne & i & Hi & ->). exists i. split; [|done]. destruct (decide (i = j)) as [->|]; [done|lia].
    + intros (i & Hi & ->). split; [intros He%task_inj; lia|]. exists i. split; [lia|done].
  - change (length (closed t') = S j /\ (connects = true -> closed t' = map sock (seq 0 (S j)))).
    destruct (inv_closed _ _ H) as [Hl Hs]. rewrite Hcl, length_app. fold j in Hl, Hs. split; [simpl; lia|].
    intros Hb. rewrite (Hs Hb), (Hfd Hb), seq_S, map_app. done.
Qed.

(** *** With the answers of the system: the action is done, or a call was refused. *)

Lemma write_pid_step total now a s l :
  team_inv total s ->
  let r := _ ← _runtime_write_pid_file (config boss) (pid_file_opens a) (pid a);
    if tasks_allocated a then Val (s {{ todo := l }}) else main_fails UBWT_ERROR_TYPE_WORKER_CREATE_FAILED (memory s) in
  r = Val (s {{ todo := l }}) \/ exists x, r = End x /\ refuses (config boss) sock (Main_acts now a) x.
Proof.
  intros H r. unfold r. rewrite (main_fails_is _ _ _ H). unfold _runtime_write_pid_file. simpl.
  destruct (pid_file (config boss)) eqn:Ep; [destruct (pid_file_opens a) eqn:Eo|]; cbn [mbind mem_bind];
    try (destruct (tasks_allocated a) eqn:Ea; [by left|]); right; eexists; (split; [reflexivity|]); auto.
Qed.

Lemma create_step total v now a s l :
  team_inv total s -> (length (staff s) < total)%nat ->
  let n := length (staff s) in
  let r := if thread_created a then
      t ← current_fork (tid n) (task n) (if struct_allocated a then Some (cell n) else None) (sock n) (timeout_set a) now
        (set_task n v (memory s));
      Val (s {{ todo := l; staff ::= fun w => w ++ [Entered]; memory := t }})
    else main_fails UBWT_ERROR_TYPE_WORKER_CREATE_FAILED (memory s) in
  (exists t', r = Val (s {{ todo := l; staff ::= fun w => w ++ [Entered]; memory := t' }}) /\
    team_inv total (s {{ todo := l; staff ::= fun w => w ++ [Entered]; memory := t' }})) \/
  exists x, r = End x /\ refuses (config boss) sock (Main_acts now a) x.
Proof.
  intros H Hn n r. unfold r. rewrite (main_fails_is _ _ _ H). destruct (thread_created a) eqn:Ec.
  2: { right. eexists. split; [reflexivity|]. simpl. rewrite Ec. auto. }
  pose proof (start_step total v (struct_allocated a) (timeout_set a) now s H Hn) as Hf. fold n in Hf.
  destruct (current_fork _ _ _ _ _ _ _) as [t'|x| |]; [| |done..]; cbn [mbind mem_bind].
  - left. exists t'. auto.
  - right. exists x. split; [done|]. simpl. destruct Hf as [[? ?]|(? & [[? ?]|[? ?]])]; [do 2 right; left|do 3 right; left|do 4 right; left]; split_and?; eauto.
Qed.

Lemma report_step total now a s l :
  team_inv total s ->
  let r := t ← report_worker_combine self (memory s);
    if bool_decide (report_json_file (config boss) = None) || json_file_opens a then Val (s {{ todo := l; memory := t }})
    else main_fails UBWT_ERROR_TYPE_REPORT_JSON_FILE_FAILED t in
  (exists t', r = Val (s {{ todo := l; memory := t' }}) /\ team_inv total (s {{ todo := l; memory := t' }})) \/
  exists x, r = End x /\ refuses (config boss) sock (Main_acts now a) x.
Proof.
  intros H r. unfold r. destruct (combine_step _ _ H) as (t' & E & Hinv). rewrite E. cbn [mbind mem_bind].
  case_bool_decide as Ej; [left; by exists t'|]. destruct (json_file_opens a) eqn:Eo; [left; by exists t'|]. right.
  eexists. split; [exact (main_fails_is total _ _ (Hinv l))|]. simpl. rewrite Eo. auto 12.
Qed.

Lemma last_step total now a s l :
  team_inv total s -> staff s !! joined s = Some Ended ->
  let r := t ← worker_task_join self (tid (joined s)) (join_result a) (memory s);
    Val (s {{ todo := l; joined ::= S; memory := t }}) in
  (exists t', r = Val (s {{ todo := l; joined ::= S; memory := t' }}) /\
    team_inv total (s {{ todo := l; joined ::= S; memory := t' }})) \/
  exists x, r = End x /\ refuses (config boss) sock (Main_acts now a) x.
Proof.
  intros H Hp r. unfold r, worker_task_join. destruct (join_step _ _ H Hp) as (t' & E & Hinv). rewrite E. cbn [mbind mem_bind].
  destruct (truth (join_result a)) eqn:Et; [|left; by exists t']. right. eexists. split; [reflexivity|]. simpl.
  apply truth_spec in Et. auto 12.
Qed.

(** ** Flags *)

(** Whether a worker has a flag, from its progress. *)
Definition shows (flag : Z) (s : team) (i : nat) : Prop :=
  match staff s !! i with Some p => truth (bit_test (flags_of p) flag) | None => false end = true.

#[local] Instance shows_dec flag s i : Decision (shows flag s i).
Proof. unfold shows. apply _. Defined.

Lemma flagged_present total s flag l :
  team_inv total s -> (forall i, i ∈ l -> i ∈ present s) ->
  length (filter (fun c => match nodes (memory s) !! c with Some n => has_flag flag n | None => false end = true) (map cell l)) =
  length (filter (shows flag s) l).
Proof.
  intros H. induction l as [|i l IH]; intros Hl; [done|]. cbn [map]. rewrite !list.filter_cons.
  assert ((match nodes (memory s) !! cell i with Some n => has_flag flag n | None => false end = true) <-> shows flag s i) as Hiff.
  { destruct (staff_at total s i H) as (p & Hp & d & Hd & _ & Hf & _); [apply elem_of_present, Hl; constructor|].
    unfold shows, has_flag. rewrite Hp. unfold data_at in Hd. destruct (nodes (memory s) !! cell i) as [n|]; [|done].
    injection Hd as <-. by rewrite Hf. }
  assert (forall j, j ∈ l -> j ∈ present s) as Hl' by (intros j Hj; apply Hl; by right).
  destruct (decide (shows flag s i)) as [Hs|Hs].
  - rewrite decide_True by (by apply Hiff). simpl. f_equal. by apply IH.
  - rewrite decide_False by (by rewrite Hiff). by apply IH.
Qed.

Lemma filter_full {A : Type} (Q : A -> Prop) `{forall x, Decision (Q x)} l :
  (length l <= length (filter Q l))%nat <-> Forall Q l.
Proof.
  induction l as [|x l IH]; [by split|]. rewrite list.filter_cons, list.Forall_cons.
  pose proof (length_filter Q l) as Hle. case_decide as Hx; simpl; rewrite <- IH; split; naive_solver lia.
Qed.

Lemma length_present s : length (present s) = (length (staff s) - joined s)%nat.
Proof. unfold present. by rewrite length_reverse, length_seq. Qed.

(** What a wait for a flag sees. *)
Lemma wait_sees total s flag count :
  team_inv total s -> 0 < count < 2 ^ 32 ->
  worker_task_has_flag flag count (memory s) = Val (bool_decide (count <= Z.of_nat (length (filter (shows flag s) (present s))))).
Proof.
  intros H Hc. unfold worker_task_has_flag. rewrite (children_has_flag_counts _ _ _ _ (inv_list _ _ H)) by lia.
  rewrite (proj2 (Z.eqb_neq count 0)) by lia. by rewrite (flagged_present total s flag (present s) H).
Qed.

Definition all_ended (s : team) : Prop := Forall (fun p => p = Ended) (staff s).

Lemma joinable_ended p : truth (bit_test (flags_of p) UBWT_WORKER_FLAG_TASK_JOINABLE) = true -> p = Ended.
Proof. by destruct p. Qed.

(** All the workers are joinable: all have ended. *)
Lemma all_joinable total s :
  team_inv total s -> joined s = 0%nat ->
  Z.of_nat (length (staff s)) <= Z.of_nat (length (filter (shows UBWT_WORKER_FLAG_TASK_JOINABLE s) (present s))) -> all_ended s.
Proof.
  intros H Hj Hc. assert (Forall (shows UBWT_WORKER_FLAG_TASK_JOINABLE s) (present s)) as Hall.
  { apply (proj1 (filter_full _ _)). rewrite length_present, Hj. lia. }
  apply Forall_lookup. intros i p Hp. rewrite list.Forall_forall in Hall.
  specialize (Hall i). unfold shows in Hall. rewrite Hp in Hall. apply joinable_ended, Hall, elem_of_present.
  apply lookup_lt_Some in Hp. lia.
Qed.

(** Every worker that is in the list is ready. *)
Lemma all_ready total s :
  team_inv total s -> length (filter (shows UBWT_WORKER_FLAG_TASK_READY s) (present s)) = length (present s).
Proof.
  intros H. pose proof (length_filter (shows UBWT_WORKER_FLAG_TASK_READY s) (present s)).
  assert (length (present s) <= length (filter (shows UBWT_WORKER_FLAG_TASK_READY s) (present s)))%nat; [|lia].
  apply (proj2 (filter_full _ _)), list.Forall_forall. intros i Hi%elem_of_present.
  destruct (staff_at _ _ _ H Hi) as (p & Hp & _). unfold shows. rewrite Hp. by destruct p.
Qed.

Lemma ended_joinable total s :
  team_inv total s -> all_ended s ->
  length (filter (shows UBWT_WORKER_FLAG_TASK_JOINABLE s) (present s)) = length (present s).
Proof.
  intros H He. pose proof (length_filter (shows UBWT_WORKER_FLAG_TASK_JOINABLE s) (present s)).
  assert (length (present s) <= length (filter (shows UBWT_WORKER_FLAG_TASK_JOINABLE s) (present s)))%nat; [|lia].
  apply (proj2 (filter_full _ _)), list.Forall_forall. intros i Hi%elem_of_present.
  destruct (staff_at _ _ _ H Hi) as (p & Hp & _). unfold shows. rewrite Hp.
  unfold all_ended in He. rewrite Forall_lookup in He. by rewrite (He _ _ Hp).
Qed.

(** ** How far the workers are *)

Lemma ranks_insert w i p p' :
  w !! i = Some p -> rank p' = S (rank p) -> sum_list (map rank (<[i := p']> w)) = S (sum_list (map rank w)).
Proof.
  revert i. induction w as [|q w IH]; intros [|i] Hi Hr; [done|done| |].
  - injection Hi as ->. simpl. lia.
  - simpl. rewrite (IH i) by done. lia.
Qed.

Lemma ranks_entered w : sum_list (map rank (w ++ [Entered])) = sum_list (map rank w).
Proof. induction w as [|p w IH]; [done|]. simpl. by rewrite IH. Qed.

Lemma ranks_bound w : (sum_list (map rank w) <= 3 * length w)%nat.
Proof. induction w as [|p w IH]; [done|]. assert (rank p <= 3)%nat by (destruct p; simpl; lia). simpl. lia. Qed.

(** ** Where the main thread is *)

Section plan.
Context (b : build) (Hwf : config_wf b (config boss)) (Hmt : defined (UBWT_CONFIG_MULTI_THREADED b) = true).

Local Notation cfg := (config boss).
Let total : nat := Z.to_nat (worker_count cfg).

Inductive position (s : team) : Prop :=
| At_groups b1 b2 :
    plan_before cfg = b1 ++ b2 -> todo s = b2 ++ [plan_end cfg; Report] ++ plan_joins cfg ->
    Z.of_nat (length (staff s)) = started b1 -> joined s = 0%nat -> position s
| At_report : todo s = Report :: plan_joins cfg -> length (staff s) = total -> all_ended s -> joined s = 0%nat -> position s
| At_join :
    todo s = map JoinWorker (seq (joined s) (total - joined s)) -> length (staff s) = total -> all_ended s -> position s.

Lemma position_gone s : position s -> gone s.
Proof.
  intros [b1 b2 _ _ _ Hj|_ _ _ Hj|_ _ He] i p Hp Hi; [lia|lia|]. unfold all_ended in He. rewrite Forall_lookup in He. by apply (He i).
Qed.

Lemma total_bounds : 1 <= worker_count cfg <= 1024 /\ Z.of_nat total = worker_count cfg.
Proof. destruct (worker_counts b cfg Hwf Hmt) as (Hn & _). unfold total. lia. Qed.

(** The actions before the wait for the end. *)
Definition group_action (a : action) : bool :=
  match a with WritePid | StartWorker _ | WaitFlag _ _ _ => true | _ => false end.

Lemma group_actions : Forall (fun a => group_action a = true) (plan_before cfg).
Proof.
  unfold plan_before, straight_group, reverse_group. repeat (apply Forall_app; split); try (by apply list.Forall_replicate);
    repeat (constructor; [done|]); try constructor; case_match; by repeat constructor.
Qed.

Lemma group_action_in b1 a b2 : plan_before cfg = b1 ++ a :: b2 -> group_action a = true.
Proof. intros E. pose proof group_actions as Hg. rewrite E in Hg. by apply list.Forall_app in Hg as [_ [Hg _]%list.Forall_cons]. Qed.

Lemma started_lt b1 v b2 : plan_before cfg = b1 ++ StartWorker v :: b2 -> started b1 < Z.of_nat total.
Proof.
  intros E. destruct (plan_is b cfg Hwf Hmt) as (_ & Hst & _). rewrite E, started_app in Hst.
  destruct total_bounds as [_ ->]. unfold started in *. rewrite list.filter_cons, decide_True in Hst by done. simpl in Hst. lia.
Qed.

Lemma started_nonneg l : 0 <= started l.
Proof. unfold started. lia. Qed.

(** A wait of the groups is for at least one worker, and for no more than were started. *)
Lemma group_wait b1 section flag count b2 :
  plan_before cfg ++ [plan_end cfg] = b1 ++ WaitFlag section flag count :: b2 -> 0 < count <= started b1 /\ count < 2 ^ 32.
Proof.
  intros E. destruct (plan_is b cfg Hwf Hmt) as (_ & Hst & Hw). destruct (Hw _ _ _ _ _ E) as [Hpos Hle].
  destruct total_bounds as [Hb _]. assert (started b1 <= worker_count cfg); [|lia].
  apply (f_equal started) in E. rewrite !started_app, Hst in E. change (started [plan_end cfg]) with 0 in E.
  pose proof (started_nonneg (WaitFlag section flag count :: b2)). lia.
Qed.

Lemma main_step_ok now a s r :
  team_inv total s -> position s -> main_acts now a s = Some r ->
  (exists s', r = Val s' /\ team_inv total s' /\ position s' /\
    length (todo s) = S (length (todo s')) /\ (staff s' = staff s \/ staff s' = staff s ++ [Entered])) \/
  exists x, r = End x /\ refuses cfg sock (Main_acts now a) x.
Proof.
  intros H Hp. unfold main_acts. destruct Hp as [b1 b2 Eb Et Hst Hj|Et Hn He Hj|Et Hn He]; rewrite Et.
  - destruct b2 as [|c b2]; cbn [app].
    + (* the wait for the end *)
      unfold plan_end. rewrite app_nil_r in Eb. destruct (plan_is b cfg Hwf Hmt) as (_ & Hst' & _).
      rewrite Eb in Hst'. rewrite Hst' in Hst. destruct total_bounds as [Hb Htot].
      rewrite (wait_sees _ _ _ _ H) by lia. case_bool_decide as Hc; [|done]. intros [= <-].
      left. eexists. split; [reflexivity|]. split_and!; [by destruct H| |done|by left].
      apply At_report; [done|change (length (staff s) = total); lia| |done]. apply (all_joinable _ _ H Hj). by rewrite Hst.
    + assert (plan_before cfg = (b1 ++ [c]) ++ b2) as Eb' by (by rewrite <- app_assoc).
      pose proof (group_action_in _ _ _ Eb) as Ha.
      destruct c as [|v|section flag count| | | |]; try discriminate Ha.
      * intros <-%(inj Some). destruct (write_pid_step total now a s (b2 ++ plan_end cfg :: Report :: plan_joins cfg) H) as [->|Hx];
          [left|by right].
        eexists. split; [reflexivity|]. split_and!; [by destruct H| |done|by left].
        apply (At_groups _ (b1 ++ [WritePid]) b2); [done|done| |done]. rewrite started_app. change (started [WritePid]) with 0.
        rewrite Z.add_0_r. exact Hst.
      * assert (length (staff s) < total)%nat as Hlt by (pose proof (started_lt _ _ _ Eb); lia). cbv zeta. intros <-%(inj Some).
        destruct (create_step total v now a s (b2 ++ plan_end cfg :: Report :: plan_joins cfg) H Hlt) as [(t' & -> & Hinv)|Hx];
          [left|by right].
        eexists. split; [reflexivity|]. split_and!; [apply Hinv| |done|by right].
        apply (At_groups _ (b1 ++ [StartWorker v]) b2); [done|done| |done]. rewrite started_app.
        change (Z.of_nat (length (staff s ++ [Entered])) = started b1 + 1). rewrite length_app, Nat2Z.inj_add, Hst. done.
      * destruct (group_wait b1 section flag count (b2 ++ [plan_end cfg])) as [Hc Hc32]; [by rewrite Eb, <- app_assoc|].
        rewrite (wait_sees _ _ _ _ H) by lia. case_bool_decide; [|done]. intros [= <-].
        left. eexists. split; [reflexivity|]. split_and!; [by destruct H| |done|by left].
        apply (At_groups _ (b1 ++ [WaitFlag section flag count]) b2); [done|done| |done]. rewrite started_app.
        change (started [WaitFlag section flag count]) with 0. rewrite Z.add_0_r. exact Hst.
  - intros <-%(inj Some). destruct (report_step total now a s (plan_joins cfg) H) as [(t' & -> & Hinv)|Hx]; [left|by right].
    eexists. split; [reflexivity|]. split_and!; [apply Hinv| |done|by left].
    apply At_join; [|done|done]. change (plan_joins cfg = map JoinWorker (seq (joined s) (total - joined s))).
    by rewrite Hj, Nat.sub_0_r.
  - destruct (total - joined s)%nat as [|k] eqn:Ek; cbn [seq map]; [done|].
    assert (staff s !! joined s = Some Ended) as Hp.
    { destruct (lookup_lt_is_Some_2 (staff s) (joined s)) as [p Hp]; [lia|].
      unfold all_ended in He. rewrite Forall_lookup in He. by rewrite Hp, (He _ _ Hp). }
    intros <-%(inj Some). destruct (last_step total now a s (map JoinWorker (seq (S (joined s)) k)) H Hp) as [(t' & -> & Hinv)|Hx];
      [left|by right].
    eexists. split; [reflexivity|]. split_and!; [apply Hinv| |done|by left].
    apply At_join; [|done|done]. change (map JoinWorker (seq (S (joined s)) k) = map JoinWorker (seq (S (joined s)) (total - S (joined s)))).
    do 2 f_equal. lia.
Qed.

Lemma same_position s s' :
  position s -> todo s' = todo s -> joined s' = joined s -> staff s' = staff s -> position s'.
Proof.
  intros [b1 b2 Eb Et' Hst Hj|Et' Hn He Hj|Et' Hn He] Et Ej Est.
  - by apply (At_groups _ b1 b2); congruence.
  - apply At_report; [congruence|congruence|unfold all_ended; by rewrite Est|congruence].
  - apply At_join; [congruence|congruence|unfold all_ended; by rewrite Est].
Qed.

Lemma team_step_ok e s r :
  team_inv total s -> position s -> team_step e s = Some r ->
  (exists s', r = Val s' /\ team_inv total s' /\ position s') \/ exists x, r = End x /\ refuses cfg sock e x.
Proof.
  intros H Hp Hs. destruct e as [now a|i now|i y|i now|i r0 st p0 f]; cbn [team_step] in Hs.
  1: { destruct (main_step_ok now a s r H Hp Hs) as [(s' & -> & ? & ? & _)|Hx]; [left; by exists s'|by right]. }
  2: { unfold fails in Hs. destruct (staff s !! i) as [p|]; [|done]. cbn [mbind option_bind] in Hs. case_decide; [done|].
    injection Hs as <-. right. by exists y. }
  all: left.
  - destruct (works_step _ _ _ _ _ H (position_gone _ Hp) Hs) as (s' & p & p' & -> & Hi & Hne & Est & _ & Et & Ej & H' & _).
    exists s'. split; [done|]. split; [done|]. destruct Hp as [b1 b2 Eb Et' Hst Hj|_ _ He _|_ _ He].
    + apply (At_groups _ b1 b2); [done|congruence| |congruence]. by rewrite Est, length_insert.
    + unfold all_ended in He. rewrite Forall_lookup in He. by destruct (Hne (He _ _ Hi)).
    + unfold all_ended in He. rewrite Forall_lookup in He. by destruct (Hne (He _ _ Hi)).
  - destruct (updates_step _ _ _ _ _ H (position_gone _ Hp) Hs) as (s' & -> & Et & Ej & Est & H').
    exists s'. split; [done|]. split; [done|]. by apply (same_position s).
  - destruct (stores_step _ _ _ _ _ _ _ _ H (position_gone _ Hp) Hs) as (s' & -> & Et & Ej & Est & H').
    exists s'. split; [done|]. split; [done|]. by apply (same_position s).
Qed.

Lemma team_run_ok es s r :
  team_inv total s -> position s -> team_run es s = Some r ->
  (exists s', r = Val s' /\ team_inv total s' /\ position s') \/
  exists e x, e ∈ es /\ refuses cfg sock e x /\ r = End x.
Proof.
  revert s. induction es as [|e es IH]; intros s H Hp; cbn [team_run].
  - intros [= <-]. left. by exists s.
  - destruct (team_step e s) as [r0|] eqn:E; [|done]. cbn [mbind option_bind].
    destruct (team_step_ok e s r0 H Hp E) as [(s' & -> & H' & Hp')|(x & -> & Hx)].
    + intros Hr. destruct (IH s' H' Hp' Hr) as [Hs|(e' & x & He & ?)]; [by left|]. right. exists e', x. split; [by right|done].
    + intros [= <-]. right. exists e, x. split; [by left|done].
Qed.

(** ** The start *)

Lemma team_tasks_dom n k : is_Some (team_tasks n !! k) <-> exists i, (i < n)%nat /\ k = task i.
Proof.
  unfold team_tasks. induction n as [|n IH].
  - split; [by intros [? ?]|]. intros (i & Hi & _). lia.
  - rewrite seq_S, map_app, list_to_map_app, lookup_union_is_Some, IH. cbn [map list_to_map foldr].
    setoid_rewrite lookup_insert_is_Some'. setoid_rewrite lookup_empty. split.
    + intros [(i & Hi & ->)|[Hk|[? ?]]]; [exists i; split; [lia|done]|exists n; split; [lia|done]|done].
    + intros (i & Hi & ->). destruct (decide (i = n)) as [->|]; [right; by left|]. left. exists i. split; [lia|done].
Qed.

Lemma start_list : well_formed [] team_memory.
Proof.
  assert (forall c, nodes team_memory !! c =
    if decide (c = head) then Some {| data := boss; worker_task := None; next := None; prev := None |} else None) as Hn.
  { intros c. unfold team_memory. cbn [nodes]. rewrite lookup_singleton. by repeat case_decide. }
  constructor.
  - constructor; [|repeat constructor; set_solver|].
    + eexists. rewrite Hn, decide_True by done. by split_and!.
    + intros c. rewrite Hn. case_decide as E; [subst; split; [set_solver|by eexists]|].
      split; [by intros [? ?]|set_solver].
  - unfold ids, omap, id_at, data_at. cbn [list_omap]. rewrite Hn, decide_True by done. repeat constructor. set_solver.
  - unfold task_of. by rewrite Hn, decide_True.
  - set_solver.
  - intros c d k. unfold task_of. rewrite !Hn. by case_decide.
  - intros c d. unfold data_at. rewrite Hn. case_decide as E; [|done]. subst c. by intros [= <-].
Qed.

Lemma start_ok plan :
  runtime_do b cfg = Val plan ->
  team_inv total (team_start plan) /\ position (team_start plan) /\ gone (team_start plan).
Proof.
  intros E. destruct (plan_is b cfg Hwf Hmt) as (E' & _). rewrite E in E'. injection E' as ->.
  assert (position (team_start (plan_before cfg ++ [plan_end cfg; Report] ++ plan_joins cfg))) as Hp by by apply (At_groups _ [] (plan_before cfg)).
  split; [|split; [done|by apply position_gone]]. constructor.
  - simpl. lia.
  - exact start_list.
  - exists boss. split; [|done]. change (data_at team_memory head = Some boss).
    unfold team_memory, data_at. cbn [nodes]. by rewrite lookup_singleton_eq.
  - intros i p Hi. done.
  - intros k. change (is_Some (team_tasks total !! k) <-> exists i, (0 <= i < total)%nat /\ k = task i).
    rewrite team_tasks_dom. split; intros (i & Hi & ->); exists i; split; (lia || done).
  - by split.
Qed.

(** ** The end *)

Lemma position_end s :
  position s -> team_inv total s -> todo s = [] ->
  joined s = total /\ staff s = replicate total Ended.
Proof.
  intros Hp H Ht. destruct Hp as [b1 b2 Eb Et|Et|Et Hn He].
  - rewrite Ht in Et. by destruct b2.
  - by rewrite Ht in Et.
  - rewrite Ht in Et. pose proof (inv_count _ _ H) as Hc. split.
    + destruct (total - joined s)%nat eqn:Ek; [lia|done].
    + symmetry. apply replicate_as_Forall_2; [done|]. eapply list.Forall_impl; [exact He|]. intros q ->. done.
Qed.

Lemma team_end s :
  position s -> team_inv total s -> todo s = [] ->
  staff s = replicate total Ended /\ well_formed [] (memory s) /\ tasks (memory s) = ∅ /\
  length (closed (memory s)) = total /\ (connects = true -> closed (memory s) = map sock (seq 0 total)).
Proof.
  intros Hp H Hd. destruct (position_end s Hp H Hd) as [Hj Hst]. destruct (inv_closed _ _ H) as [Hcl Hcs]. split_and!.
  - done.
  - pose proof (inv_list _ _ H) as Hl. unfold present in Hl. by rewrite Hst, length_replicate, Hj, Nat.sub_diag in Hl.
  - apply map_empty. intros k. apply eq_None_not_Some. rewrite (inv_tasks _ _ H). intros (i & Hi & _). lia.
  - congruence.
  - intros Hcon. by rewrite (Hcs Hcon), Hj.
Qed.

(** ** Progress *)

(** The actions of the main thread and of the workers' lives in a run. *)
Definition acts (es : list event) : nat :=
  length (filter (fun e => match e with Main_acts _ _ | Works _ _ => true | _ => false end = true) es).

(** Each action is one of the plan or takes a worker one step further. *)
Lemma run_acts es s s' :
  team_inv total s -> position s -> team_run es s = Some (Val s') ->
  (acts es + length (todo s') + ranks s = length (todo s) + ranks s')%nat.
Proof.
  revert s. induction es as [|e es IH]; intros s H Hp; cbn [team_run].
  - intros [= <-]. simpl. lia.
  - destruct (team_step e s) as [r0|] eqn:E; [|done]. cbn [mbind option_bind].
    destruct (team_step_ok e s r0 H Hp E) as [(s1 & -> & H' & Hp')|(x & -> & _)]; [|done]. intros Hr. specialize (IH s1 H' Hp' Hr).
    unfold acts in *. rewrite list.filter_cons. destruct e as [now a|i now|i y|i now|i r0 st p0 f]; cbn [team_step] in E.
    + destruct (main_step_ok now a s _ H Hp E) as [(s1' & [= <-] & _ & _ & Hlen & Hst)|(x & [=] & _)].
      assert (ranks s1 = ranks s) as Hrk.
      { unfold ranks. destruct Hst as [->| ->]; [done|]. apply ranks_entered. }
      rewrite decide_True by done. simpl. lia.
    + destruct (works_step _ _ _ _ _ H (position_gone _ Hp) E) as (s1' & p & p' & [= <-] & Hi & _ & Est & Hrk & Et & _).
      assert (ranks s1 = S (ranks s)) as Hs1 by (unfold ranks; rewrite Est; by apply (ranks_insert _ _ p)).
      rewrite decide_True by done. simpl. rewrite Et in IH. lia.
    + unfold fails in E. destruct (staff s !! i); [|done]. cbn [mbind option_bind] in E. by case_decide.
    + destruct (updates_step _ _ _ _ _ H (position_gone _ Hp) E) as (s1' & [= <-] & Et & _ & Est & _).
      rewrite decide_False by done. unfold ranks in *. rewrite Et, Est in IH. lia.
    + destruct (stores_step _ _ _ _ _ _ _ _ H (position_gone _ Hp) E) as (s1' & [= <-] & Et & _ & Est & _).
      rewrite decide_False by done. unfold ranks in *. rewrite Et, Est in IH. lia.
Qed.

(** The system grants what the main thread asks for. *)
Definition granted : answers := {|
  pid := 1; pid_file_opens := true; tasks_allocated := true; thread_created := true; struct_allocated := true;
  timeout_set := 0; json_file_opens := true; join_result := 0 |}.

(** An action can happen besides an update of the time. *)
Definition can_act (s : team) : Prop := exists e r, team_step e s = Some r /\ acts [e] = 1%nat.

Lemma main_can_act now s r : main_acts now granted s = Some r -> can_act s.
Proof. intros H. by exists (Main_acts now granted), r. Qed.

(** A worker that has not ended has something to do. *)
Lemma worker_can_act s : ~ all_ended s -> can_act s.
Proof.
  intros H. unfold all_ended in H. apply not_Forall_Exists in H; [|intros p; destruct (decide (p = Ended)) as [?|?]; [by left|by right]].
  apply list.Exists_exists in H as (p & Hp & Hne). apply list_elem_of_lookup in Hp as [i Hi].
  destruct (work p (tid i) 0 (memory s)) as [[r p']|] eqn:E; [|destruct p; simpl in *; [done..|by destruct Hne]].
  eexists (Works i 0), _. split; [|done]. cbn [team_step]. unfold works. rewrite Hi. cbn [mbind option_bind]. rewrite E. reflexivity.
Qed.

Lemma group_flags b1 section flag count b2 :
  plan_before cfg = b1 ++ WaitFlag section flag count :: b2 ->
  flag = UBWT_WORKER_FLAG_TASK_READY \/ flag = UBWT_WORKER_FLAG_TASK_RUNNING.
Proof.
  set (Q := fun a => match a with WaitFlag _ f _ => f = UBWT_WORKER_FLAG_TASK_READY \/ f = UBWT_WORKER_FLAG_TASK_RUNNING | _ => True end).
  assert (Forall Q (plan_before cfg)) as H; [|intros E; rewrite E in H; by apply list.Forall_app in H as [_ [H _]%list.Forall_cons]].
  unfold plan_before, straight_group, reverse_group. repeat (apply Forall_app; split); try (by apply list.Forall_replicate);
    repeat (constructor; [done|]); try constructor; case_match; repeat constructor; (by left) || (by right).
Qed.

(** The wait for the workers to run, when all that were started have ended. *)
Definition missed (s : team) : Prop :=
  exists section count l, todo s = WaitFlag section UBWT_WORKER_FLAG_TASK_RUNNING count :: l /\ all_ended s.

Lemma all_ended_dec s : {all_ended s} + {~ all_ended s}.
Proof. unfold all_ended. apply (Forall_dec (fun p => p = Ended)). intros p. apply (decide (p = Ended)). Qed.

Lemma position_acts s :
  team_inv total s -> position s -> todo s = [] \/ can_act s \/ missed s.
Proof.
  intros H Hp. destruct Hp as [b1 b2 Eb Et Hst Hj|Et Hn He Hj|Et Hn He].
  - right. destruct (all_ended_dec s) as [He|He]; [|left; by apply worker_can_act].
    assert (length (present s) = length (staff s)) as Hpr by (rewrite length_present; lia).
    destruct b2 as [|a b2]; cbn [app] in Et.
    + left. destruct (plan_is b cfg Hwf Hmt) as (_ & Hst' & _). rewrite app_nil_r in Eb. rewrite Eb in Hst'.
      destruct total_bounds as [Hb _]. eapply (main_can_act 0). unfold main_acts. rewrite Et. unfold plan_end.
      rewrite (wait_sees _ _ _ _ H), (ended_joinable _ _ H He) by lia. by rewrite bool_decide_eq_true_2 by lia.
    + pose proof (group_action_in _ _ _ Eb) as Ha.
      destruct a as [|v|section flag count|v| | |i]; try discriminate Ha; try (left; eapply (main_can_act 0); unfold main_acts; rewrite Et; reflexivity).
      destruct (group_flags _ _ _ _ _ Eb) as [->| ->]; [left|right; by eexists _, _, _].
      destruct (group_wait b1 section UBWT_WORKER_FLAG_TASK_READY count (b2 ++ [plan_end cfg])) as [Hc Hc32]; [by rewrite Eb, <- app_assoc|].
      eapply (main_can_act 0). unfold main_acts. rewrite Et.
      rewrite (wait_sees _ _ _ _ H), (all_ready _ _ H) by lia. by rewrite bool_decide_eq_true_2 by lia.
  - right. left. eapply (main_can_act 0). unfold main_acts. by rewrite Et.
  - destruct (total - joined s)%nat; [by left|]. right. left. eapply (main_can_act 0). unfold main_acts. by rewrite Et.
Qed.

End plan.


(** C19: the test of the main thread ends.  In every state the team can reach, the main
    thread and the workers have together acted at most as often as the plan has actions
    and three times for each worker; and while the plan is not done an action is
    possible, unless the main thread waits for workers to run and all those it started
    have ended: the flag of a worker is only set while it runs, so a wait that does not
    look in time never ends. *)
Theorem team_progress b plan es s :
  config_wf b (config boss) -> defined (UBWT_CONFIG_MULTI_THREADED b) = true ->
  runtime_do b (config boss) = Val plan -> team_run es (team_start plan) = Some (Val s) ->
  (acts es <= length plan + 3 * Z.to_nat (worker_count (config boss)))%nat /\ (todo s = [] \/ can_act s \/ missed s).
Proof.
  intros Hwf Hmt E Hr. destruct (start_ok b Hwf Hmt _ E) as (H & Hp & _).
  destruct (team_run_ok b Hwf Hmt es _ _ H Hp Hr) as [(s' & [= <-] & H' & Hp')|(? & ? & _ & _ & [=])].
  split; [|by apply (position_acts b Hwf Hmt)].
  pose proof (run_acts b Hwf Hmt _ _ _ H Hp Hr) as Ha.
  pose proof (inv_count _ _ H') as Hn. pose proof (ranks_bound (staff s)) as Hb. unfold ranks in Ha. simpl in Ha. lia.
Qed.

End team.

(** ** Concrete runs *)

Definition demo_tid (i : nat) : Z := 100 + Z.of_nat i.
Definition demo_cell (i : nat) : loc := Pos.of_nat (i + 2).
Definition demo_task (i : nat) : loc := Pos.of_nat (i + 1000).
Definition demo_sock (i : nat) : Z := 3 + Z.of_nat i.

(** The main thread's structure, of identifier 7. *)
Definition demo_boss (c : ubwt_config) : ubwt_current := (data (current_init 7 0)) {{ config := c }}.

Notation demo_run c := (team_run (demo_boss c) demo_tid demo_cell demo_task demo_sock).
Notation demo_team c := (team_start (demo_boss c) demo_task).

(** The main thread acts and the system grants what it asks for. *)
Definition main_ok (now : Z) : event := Main_acts now granted.

(** A worker for each direction: the first connects before the second is started. *)
Definition demo_events : list event :=
  [main_ok 1; main_ok 2; Works 0 3; main_ok 4; Updates 0 5; Stores 0 report_zero {| iter := 1; state := UBWT_STAGE_STATE_NONE |} {| im_sender := 1; im_receiver := 0; reverse := 0 |} 9; main_ok 6; main_ok 7; Works 1 8; main_ok 9;
   main_ok 10; Works 0 11; Works 1 12; Works 1 13; Updates 0 14; Works 0 15; main_ok 16; main_ok 17; main_ok 18; main_ok 19].

(** The worker ends before the main thread looks whether it runs. *)
Definition missed_events : list event := [main_ok 1; main_ok 2; main_ok 3; Works 0 4; Works 0 5; Works 0 6].

Lemma demo_team_ok :
  (forall i, demo_tid i <> 7) /\ Inj (=) (=) demo_tid /\ (forall i, demo_cell i <> head) /\ Inj (=) (=) demo_cell /\
  Inj (=) (=) demo_task.
Proof.
  assert (forall n i j, (1 < n)%nat -> Pos.of_nat (i + n) = Pos.of_nat (j + n) -> i = j) as Hp.
  { intros n i j Hn E. apply (f_equal Pos.to_nat) in E. rewrite !Nat2Pos.id in E by lia. lia. }
  split_and!.
  - intros i. unfold demo_tid. lia.
  - intros i j. unfold demo_tid. lia.
  - intros i E. apply (f_equal Pos.to_nat) in E. unfold demo_cell in E. rewrite Nat2Pos.id in E by lia. unfold head in E. lia.
  - intros i j. apply Hp. lia.
  - intros i j. apply Hp. lia.
Qed.

Lemma demo_flags c : flags_ok head (demo_boss c).
Proof. split; [split; vm_compute; congruence|by rewrite bool_decide_eq_false_2 by (intros Hh; by apply Hh)]. Qed.

Definition is_done (r : option (mem team)) : bool :=
  match r with Some (Val s) => match todo s with [] => true | _ => false end | _ => false end.

(** The system creates no second thread, or a worker fails. *)
Example refused_runs :
  match Conn.example_config "connector" [O_A; O_W "2"] with
  | Some c =>
      match runtime_do build_linux c with
      | Val plan =>
          demo_run c [main_ok 1; main_ok 2; Works 0 3; main_ok 4; main_ok 5; Main_acts 6 (granted {{ thread_created := false }})]
            (demo_team c plan) = Some (End (Exited EXIT_FAILURE (Some UBWT_ERROR_TYPE_WORKER_CREATE_FAILED))) /\
          demo_run c [main_ok 1; main_ok 2; Fails 0 (Aborted "socket")] (demo_team c plan) = Some (End (Aborted "socket"))
      | _ => False
      end
  | None => False
  end.
Proof. vm_compute. by split. Qed.


(** A run that ends, and one that is stuck: the main thread waits for one worker to run,
    and that worker has ended. *)
Lemma team_progress_witness :
  match Conn.example_config "connector" [O_A; O_W "2"] with
  | Some c => exists plan s, runtime_do build_linux c = Val plan /\
      demo_run c missed_events (demo_team c plan) = Some (Val s) /\ acts missed_events = 6%nat /\
      (6 <= length plan + 3 * 2)%nat /\ missed s
  | None => False
  end.
Proof.
  destruct (Conn.example_config "connector" [O_A; O_W "2"]) as [c|] eqn:H; [|by vm_compute in H].
  destruct demo_team_ok as (Hs & Ht & Hc & Hci & Hk).
  destruct (runtime_do build_linux c) as [plan|e| |] eqn:Hp; [|vm_compute in H; injection H as <-; by vm_compute in Hp..].
  destruct (demo_run c missed_events (demo_team c plan)) as [[s|e| |]|] eqn:Hr;
    [|vm_compute in H; injection H as <-; vm_compute in Hp; injection Hp as <-; by vm_compute in Hr..].
  destruct (team_progress (demo_boss c) demo_tid demo_cell demo_task demo_sock Hs Ht Hc Hci Hk (demo_flags c) build_linux plan missed_events s
    (Conn.example_config_wf _ _ _ H) eq_refl Hp Hr) as [Hb Hor].
  exists plan, s. vm_compute in H. injection H as <-. vm_compute in Hp. injection Hp as <-. vm_compute in Hr. injection Hr as <-.
  split_and!; try done; try (vm_compute; lia). by eexists _, _, _; split; [reflexivity|repeat constructor].
Defined.
