(* ===== verification/Debug.v ===== *)
(** The lines of the debug output: src/debug.c, and the functions of src/report.c that
    only write such lines.

    A line is what one [fprintf] to the debug stream writes; a call writes at most
    one.  The texts of the time and of addresses come from the C library. *)

From S2P Require Import Prelude Bitops Errors Byteorder Layout ConfigData Usage Double Report Stage Thread Format Current Net Talk.

Open Scope string_scope.
Open Scope Z_scope.

Definition newline : string := String "010" "".

(** [__talk_ops_str] and [talk_op_to_str] (src/talk.c). *)
Definition __talk_ops_str : list string := [
  "UBWT_TALK_OP_NOOP"; "UBWT_TALK_OP_PING"; "UBWT_TALK_OP_PONG"; "UBWT_TALK_OP_LATENCY_US"; "UBWT_TALK_OP_COUNT_REQ";
  "UBWT_TALK_OP_STREAM_START"; "UBWT_TALK_OP_STREAM_RUN"; "UBWT_TALK_OP_STREAM_END"; "UBWT_TALK_OP_STREAM_WEAK";
  "UBWT_TALK_OP_REPORT"; "UBWT_TALK_OP_FINISH"; "UBWT_TALK_OP_FORCE_FAIL"].

Definition talk_op_to_str (op : ubwt_talk_ops_t) : mem string := mem_of (__talk_ops_str !! Z.to_nat (talk_op_value op)).

Section debug.
Variable b : build.
(** [__debug_fpout] and the time as text. *)
Variable d : debug_state.
Variable time_str : string.
(** The calling thread: its structure, its identifier, and whether it is the main one. *)
Variable c : ubwt_current.
Variable self : Z.
Variable main : bool.

Definition enabled : bool :=
  defined (UBWT_CONFIG_DEBUG b) && truth (debug (config c)) && negb (match __debug_fpout d with SinkNull => true | _ => false end).

Definition threaded : bool := defined (UBWT_CONFIG_MULTI_THREADED b).

(** [net_im_connector() ? "connector" : "listener"] and the direction. *)
Definition role_str : string := if truth (im_connector (config c)) then "connector" else "listener".
Definition direction_str : string := if truth (reverse (process c)) then "reverse" else "straight".

Definition thread_str : string := (if main then "M" else "L") +:+ "#" +:+ dec self.

(** The common shape: nothing when debugging is off; the assertion; the line. *)
Definition line (remote : string) (who : string) (rest : string) : mem string :=
  if enabled then
    (if threaded then mem_assert (worker_id c =? self) "current->worker_id == worker_self()" else Val tt) ;;
    Val ("[" +:+ time_str +:+ "]: " +:+ (if threaded then "[" +:+ thread_str +:+ remote +:+ "]: " else "") +:+
      "DEBUG => INFO => " +:+ who +:+ " => " +:+ rest +:+ newline)
  else Val "".

Definition debug_info_talk_op (op : ubwt_talk_ops_t) (msg : string) : mem string :=
  name ← talk_op_to_str op;
  line (" <-> R#" +:+ dec (remote_worker_id c)) (role_str +:+ "/" +:+ direction_str) ("TALK: " +:+ name +:+ " => " +:+ msg).

Definition debug_info_talk_latency (dt : Z) : mem string :=
  line "" (role_str +:+ "/" +:+ direction_str) ("TALK: LATENCY: " +:+ dec dt +:+ " us").

Definition debug_info_config_show : mem string :=
  let show k v := line "" (role_str +:+ "/main") ("CONFIG: " +:+ k +:+ ": " +:+ v) in
  l1 ← show "Mode      " role_str;
  l2 ← show "Address   " (addr (config c));
  l3 ← show "Port      " (port (config c));
  l4 ← show "Protocol  " (net_l4_proto_name (config c));
  l5 ← show "Time (us) " (dec (time_us_start c));
  Val (l1 +:+ l2 +:+ l3 +:+ l4 +:+ l5).

(** The role is known once the configuration is, and the direction while a test runs. *)
Definition stage_role : string :=
  let s := stage_state_value (stage_get (stage c)) in
  if ((stage_state_value UBWT_STAGE_STATE_INIT_CONFIG <? s) && (s <? stage_state_value UBWT_STAGE_STATE_DESTROY_CONFIG))%nat
  then role_str else "unknown".

Definition stage_direction : string :=
  let s := stage_state_value (stage_get (stage c)) in
  if ((stage_state_value UBWT_STAGE_STATE_INIT_PROCESS <? s) && (s <? stage_state_value UBWT_STAGE_STATE_RUNTIME_REPORT_SHOW))%nat
  then direction_str else if threaded && negb main then "unknown" else "main".

Definition debug_info_stage_show : mem string :=
  name ← mem_of (stage_state_to_str (state (stage c)));
  line "" (stage_role +:+ "/" +:+ stage_direction) ("STAGE: " +:+ name +:+ ", ITER: " +:+ dec (iter (stage c))).

Definition debug_info_report_latency (dt : Z) : mem string :=
  line "" (role_str +:+ "/" +:+ direction_str) ("REPORT: Latency: " +:+ dec dt +:+ " usec(s)").

Definition debug_info_report_count (count : Z) : mem string :=
  line "" (role_str +:+ "/" +:+ direction_str) ("REPORT: Count: " +:+ dec count).

Definition debug_info_report_connection (src ip : string) (p : Z) : mem string :=
  line "" (role_str +:+ "/" +:+ direction_str) ("REPORT: " +:+ src +:+ " connection: " +:+ ip +:+ ":" +:+ dec p).

(** src/report.c *)
Definition report_talk_latency_show : mem string := debug_info_report_latency (report_talk_latency_get (report c)).
Definition report_talk_count_show : mem string := debug_info_report_count (report_talk_count_get (report c)).

(** [ntop] is [net_sockaddr_ntop]; without a text a warning is logged and nothing is
    shown. *)
Variable ntop : sockaddr -> option string.
Variable big : bool.

Definition connection_show (src : string) (e : ubwt_net_endpoint) : mem (string * bool) :=
  match ntop (saddr e) with
  | None => Val ("", true)
  | Some ip => l ← debug_info_report_connection src ip (net_sockaddr_port big (saddr e)); Val (l, false)
  end.

Definition report_net_connector_connection_show : mem (string * bool) := connection_show "Connector" (connector (net c)).
Definition report_net_listener_connection_show : mem (string * bool) := connection_show "Listener" (listener (net c)).

End debug.

(** With debugging off, nothing is written and no assertion is tested. *)
Lemma debug_off_silent b d t c self main :
  enabled b d c = false ->
  (forall op msg, debug_info_talk_op b d t c self main op msg = Val "") /\
  debug_info_config_show b d t c self main = Val "" /\ debug_info_stage_show b d t c self main = Val "" /\
  report_talk_latency_show b d t c self main = Val "" /\ report_talk_count_show b d t c self main = Val "".
Proof.
  intros Hoff. assert (forall remote who rest, line b d t c self main remote who rest = Val "") as Hline.
  { intros. unfold line. by rewrite Hoff. }
  split_and!.
  - intros op msg. unfold debug_info_talk_op, talk_op_to_str.
    destruct (__talk_ops_str !! Z.to_nat (talk_op_value op)) eqn:E; [|by destruct op]. simpl. apply Hline.
  - unfold debug_info_config_show. rewrite !Hline. reflexivity.
  - unfold debug_info_stage_show. destruct (stage_state_to_str (state (stage c))) eqn:E; [|by destruct (state (stage c))].
    simpl. apply Hline.
  - apply Hline.
  - apply Hline.
Qed.

(** Distinct operations have distinct names, each the identifier of its constant. *)
Lemma talk_op_to_str_inj op op' s : talk_op_to_str op = Val s -> talk_op_to_str op' = Val s -> op = op'.
Proof. destruct op, op'; (done || (intros [= <-]; done)). Qed.

Example debug_line :
  debug_info_talk_op build_linux Usage.debug_init "now" (current_zero {{ config := config_zero {{ debug := 1; im_connector := 1 }};
    worker_id := 7; remote_worker_id := 9 }}) 7 false UBWT_TALK_OP_PING "SEND" =
  Val ("[now]: [L#7 <-> R#9]: DEBUG => INFO => connector/straight => TALK: UBWT_TALK_OP_PING => SEND" +:+ newline).
Proof. by vm_compute. Qed.
