(* ===== verification/Help.v ===== *)
(** The help screen and the version: [usage_show] and [usage_version] of src/usage.c.

    The text of the help depends on the macros of the build, and so do the arguments of
    its format, in a second list of conditional parts; the option letters depend on
    them in a third one, in src/config.c. *)

From S2P Require Import Prelude ConfigData Errors Usage Format.

Open Scope string_scope.
Open Scope Z_scope.

(** ** [fprintf] with [%u] and [%s] *)

Inductive arg := ArgU (z : Z) | ArgS (s : string).

(** The text and the arguments that are left; [None] if an argument is missing or is
    not of the type of its conversion, which is undefined in C. *)
Fixpoint printf (fmt : string) (args : list arg) : option (string * list arg) :=
  match fmt with
  | EmptyString => Some (EmptyString, args)
  | String c rest =>
      if Ascii.eqb c "%" then
        match rest, args with
        | String k rest, _ =>
            if Ascii.eqb k "%" then '(t, l) ← printf rest args; Some (String "%" t, l)
            else match args with
            | ArgU z :: args => if Ascii.eqb k "u" then '(t, l) ← printf rest args; Some (dec z +:+ t, l) else None
            | ArgS s :: args => if Ascii.eqb k "s" then '(t, l) ← printf rest args; Some (s +:+ t, l) else None
            | [] => None
            end
        | EmptyString, _ => None
        end
      else '(t, l) ← printf rest args; Some (String c t, l)
  end.

(** ** The help *)

Definition only {A : Type} (c : bool) (l : list A) : list A := if c then l else [].

Section help.
Variable b : build.

(** The lines of the format. *)
Definition usage_lines : list string := (
    ["Usage: %s [OPTIONS] {connector|listener} {HOSTNAME|IPv4|IPv6}";
     "";
     "OPTIONS";
     ""] ++
  only (defined (UBWT_CONFIG_MULTI_THREADED b))
    ["       -A                  Asynchronous bi-directional full-duplex test. TCP only."] ++
    ["       -b                  Perform a bi-directional test.";
     "       -B OCTETS           Size of the round-robin buffer used for payload. Requires -C.";
     "       -C FILE             Creates a buffer from file to fill the payload. Requires -B."] ++
  only (defined (UBWT_CONFIG_DEBUG b))
    ["       -d FILE             Append debugging output to a file (default: stderr).";
     "       -D                  Enable debugging."] ++
    ["       -F                  Enable full/extended reporting.";
     "       -h                  Display this help.";
     "       -I MSEC             Interval between latency measurements (default: %u msec).";
     "       -j FILE             Export report in JSON format to file.";
     "       -m OCTETS           Link MTU (default: %u octets).";
     "       -M MULTIPLIER       Talk count multiplier (default: auto).";
     "       -N ITERATIONS       Number of handshake iterations (default: %u iterations).";
     "       -o SECONDS          Process reverse delay. Sets -b (default: %u seconds)."] ++
  only (negb (defined (UBWT_CONFIG_NET_NO_TIMEOUT b)))
    ["       -O SECONDS          Maximum wait time before next stream (default: %u seconds)."] ++
  only (negb (defined (UBWT_CONFIG_NET_NO_UDP b)))
    ["       -p PROTOCOL         L4 protocol: 'tcp' or 'udp' (default: tcp)."] ++
    ["       -P PORT             TCP or UDP port to listen/connect to (default: %s).";
     "       -r FILE             Store the running PID into the specified file.";
     "       -R                  Reverse stream testing first.";
     "       -s OCTETS           L4 payload size (default: %u).";
     "       -t SECONDS          Minimum stream time (default: %u seconds)."] ++
  only (negb (defined (UBWT_CONFIG_NET_NO_TIMEOUT b)))
    ["       -T SECONDS          Maximum wait time between stream packets (default: %u seconds)."] ++
    ["       -v                  Display version information."] ++
  only (negb (defined (UBWT_CONFIG_NET_NO_TIMEOUT b)))
    ["       -w SECONDS          Connection timeout (default: %u seconds)."] ++
  only (defined (UBWT_CONFIG_MULTI_THREADED b))
    ["       -W COUNT            Maximum number of workers (default: %u). TCP only."] ++
    ["";
     "EXAMPLES";
     "";
     "       Unidirectional test :      im@listening ~ $ ubwt listener myaddress.local";
     "                           :  im_the@connector ~ $ ubwt connector listening.local";
     "";
     "       Bidirectional test  :  term_1@localhost ~ $ ubwt -b listener 127.0.0.1";
     "                           :  term_2@localhost ~ $ ubwt -b connector 127.0.0.1";
     ""])%list.

Definition usage_format : string := foldr (fun l t => l +:+ String "010" t) EmptyString usage_lines.

Definition usage_args (argv0 : string) : list arg := (
    [ArgS argv0; ArgU UBWT_CONFIG_TALK_HANDSHAKE_INTERVAL_MSEC; ArgU UBWT_CONFIG_NET_MTU;
     ArgU UBWT_CONFIG_TALK_HANDSHAKE_ITER; ArgU UBWT_CONFIG_PROCESS_REVERSE_DELAY_SEC] ++
  only (negb (defined (UBWT_CONFIG_NET_NO_TIMEOUT b)))
    [ArgU UBWT_CONFIG_NET_TIMEOUT_TALK_STREAM_END] ++
    [ArgS UBWT_CONFIG_PORT_DEFAULT; ArgU UBWT_CONFIG_TALK_PAYLOAD_DEFAULT_SIZE;
     ArgU UBWT_CONFIG_TALK_STREAM_MINIMUM_TIME] ++
  only (negb (defined (UBWT_CONFIG_NET_NO_TIMEOUT b)))
    [ArgU UBWT_CONFIG_NET_TIMEOUT_TALK_STREAM_RUN; ArgU UBWT_CONFIG_NET_TIMEOUT_DEFAULT] ++
  only (defined (UBWT_CONFIG_MULTI_THREADED b))
    [ArgU UBWT_CONFIG_PROCESS_WORKER_COUNT])%list.

(** What [usage_show] writes to the standard error. *)
Definition usage_text (argv0 : string) : option string := fst <$> printf usage_format (usage_args argv0).

(** ** The options *)

(** The letters [getopt] accepts, and whether each takes an operand. *)
Fixpoint accepted (flags : string) : list (ascii * bool) :=
  match flags with
  | String c (String ":" rest) => (c, true) :: accepted rest
  | String c rest => (c, false) :: accepted rest
  | EmptyString => []
  end.

(** The letter a line of the help describes: after seven blanks and a dash; an operand
    follows after one blank. *)
Definition described (line : string) : option (ascii * bool) :=
  match String.get 7 line, String.get 8 line, String.get 10 line with
  | Some "-"%char, Some c, Some k => Some (c, negb (bool_decide (k = " "%char)))
  | _, _, _ => None
  end.

Definition documented : list (ascii * bool) := omap described usage_lines.

End help.

Definition UBWT_CONFIG_VERSION_STR : string := "0.1-beta-12".

(** What [usage_version] writes to the standard output. *)
Definition version_text : option string :=
  fst <$> printf (foldr (fun l t => l +:+ String "010" t) EmptyString
    ["ubwt (uCodev Bandwidth Tester) %s"; "Copyright (C) 2021 Pedro A. Hortas <pah at ucodev dot org>";
     "This is free software; see the source for copying conditions.  There is NO";
     "warranty; not even for MERCHANTABILITY or FITNESS FOR A PARTICULAR PURPOSE."; EmptyString])
    [ArgS UBWT_CONFIG_VERSION_STR].

(** ** Proofs *)

(** Whether the arguments are those of the conversions. *)
Fixpoint fits (fmt : string) (args : list arg) : bool :=
  match fmt with
  | EmptyString => match args with [] => true | _ => false end
  | String c rest =>
      if Ascii.eqb c "%" then
        match rest with
        | String k rest =>
            if Ascii.eqb k "%" then fits rest args
            else match args with
            | ArgU _ :: args => Ascii.eqb k "u" && fits rest args
            | ArgS _ :: args => Ascii.eqb k "s" && fits rest args
            | [] => false
            end
        | EmptyString => false
        end
      else fits rest args
  end.

Lemma fits_printf_le n fmt args :
  (String.length fmt <= n)%nat -> fits fmt args = true -> exists text, printf fmt args = Some (text, []).
Proof.
  revert fmt args. induction n as [|n IH]; intros [|c fmt] args Hlen Hfit; simpl in *;
    try (destruct args; [by eexists|discriminate Hfit]); [lia|].
  assert (forall fmt' args, (String.length fmt' <= n)%nat -> fits fmt' args = true ->
    exists t, printf fmt' args = Some (t, [])) as IH1 by auto.
  destruct (Ascii.eqb c "%").
  - destruct fmt as [|k fmt]; [done|]. simpl in Hlen. destruct (Ascii.eqb k "%").
    + destruct (IH1 fmt args) as [t ->]; [lia|done|]. by eexists.
    + destruct args as [|[z|s'] args]; [done|..]; apply andb_true_iff in Hfit as [-> Hfit];
        (destruct (IH1 fmt args) as [t ->]; [lia|done|]); by eexists.
  - destruct (IH1 fmt args) as [t ->]; [lia|done|]. by eexists.
Qed.

Lemma fits_printf fmt args : fits fmt args = true -> exists text, printf fmt args = Some (text, []).
Proof. by apply fits_printf_le with (n := String.length fmt). Qed.

(** Two lists with the same elements, but for one. *)
Lemma same_elements {A : Type} `{EqDecision A} (l k : list A) (x : A) :
  bool_decide (Forall (fun o => o ∈ k \/ o = x) l /\ Forall (fun o => o ∈ l) (x :: k)) = true ->
  forall o, o ∈ l <-> o ∈ k \/ o = x.
Proof.
  intros H%bool_decide_eq_true. rewrite !list.Forall_forall in H. destruct H as [H1 H2]. intros o. split; [apply H1|].
  intros [Ho| ->]; apply H2; set_solver.
Qed.

(** C33: the help screen fits every build.  Whatever macros are defined, each conversion
    of its format gets an argument of its type and no argument is left over; and it
    describes exactly the options that [getopt] accepts in that build, with and without
    operands alike, once each - except [-l], which is accepted and described nowhere. *)
Theorem help_fits_build b argv0 :
  (exists text, printf (usage_format b) (usage_args b argv0) = Some (text, [])) /\
  NoDup (documented b) /\
  forall o, o ∈ accepted (cmdopt_flags b) <-> o ∈ documented b \/ o = ("l"%char, true).
Proof.
  split; [apply fits_printf|split; [apply (bool_decide_unpack _), Is_true_eq_left|apply same_elements]];
    destruct b as [[d|] ? [u|] [t|] ? ? ? ? [m|] ? ? ? ?]; vm_compute; reflexivity.
Qed.

Example usage_text_first_line :
  String.substring 0 37 (default "" (usage_text build_linux "ubwt")) = "Usage: ubwt [OPTIONS] {connector|list".
Proof. by vm_compute. Qed.
