(* ===== verification/Main.v ===== *)
(** The life of the program: src/main.c, with the parts of [current_init],
    [config_init], [config_destroy] and [current_destroy] that concern the main thread.

    [_construct] calls the initialisers of the parts in order and [_destruct] their
    counterparts; between them [runtime_do] (Runtime.v) runs the tests. *)

From S2P Require Import Prelude Bitops Errors Byteorder Layout ConfigData Usage Double Report Stage Thread Config ConfigSpec Conn Net NetSpec Talk Process.

Section main.
Variable b : build.
Variable en : env.
Variable getaddrinfo : string -> string -> Z -> Z * list addrinfo.
Variable file_bytes : string -> list Z.
(** The identifier of the main thread. *)
Variable self : Z.

(** [current_init], on the structure of the main thread; the contexts of the talk and
    the times are static and keep their values. *)
Definition main_current_init : M unit :=
  update_cur (fun c => current_zero {{
    worker_id := if defined (UBWT_CONFIG_MULTI_THREADED b) then self else 0;
    talk := talk c; time_us_start := time_us_start c; time_us_now := time_us_now c }}) ;;
  t_stage_set UBWT_STAGE_STATE_INIT_CURRENT 0 ;;
  now ← datetime_now_us;
  update_cur (fun c => c {{ time_us_start := now; time_us_now := now }}).

Definition main_config_init (os : list cmdopt) (operands : list string) (d : debug_state) : M debug_state :=
  t_stage_set UBWT_STAGE_STATE_INIT_CONFIG 0 ;;
  r ← lift_res (config_init b en os operands d);
  update_cur (fun c => c {{ config := fst r }}) ;;
  mret (snd r).

(** The result: the debug stream and the barriers. *)
Definition _construct (os : list cmdopt) (operands : list string) : M (debug_state * list (option Z)) :=
  main_current_init ;;
  d ← main_config_init os operands debug_init;
  barriers ← current_of (fun c => if defined (UBWT_CONFIG_MULTI_THREADED b) then worker_init (config c) else []);
  net_init b en getaddrinfo file_bytes ;;
  t_report report_init ;;
  process_init ;;
  mret (d, barriers).

Definition main_config_destroy : M unit :=
  t_stage_set UBWT_STAGE_STATE_DESTROY_CONFIG 0 ;;
  update_cur (fun c => c {{ config ::= config_destroy }}).

Definition main_current_destroy : M unit :=
  t_stage_set UBWT_STAGE_STATE_DESTROY_CURRENT 0 ;;
  update_cur (fun c => current_zero {{
    talk := talk c; time_us_start := time_us_start c; time_us_now := time_us_now c }}).

(** The result: the debug stream and which barriers are destroyed. *)
Definition _destruct (d : debug_state) : M (debug_state * list bool) :=
  process_destroy ;;
  t_report report_destroy ;;
  net_destroy ;;
  barriers ← current_of (fun c => if defined (UBWT_CONFIG_MULTI_THREADED b) then worker_destroy (config c) else []);
  main_config_destroy ;;
  main_current_destroy ;;
  mret (debug_destroy d, barriers).

End main.

(** ** The descriptors that are open

    The system calls of a run with their results, and the descriptors they leave open. *)

Fixpoint drop_one (f : Z) (fds : list Z) : list Z :=
  match fds with
  | [] => []
  | g :: fds => if g =? f then fds else g :: drop_one f fds
  end.

Definition open_step (fds : list Z) (x : call * Z) : list Z :=
  match x with
  | (C_socket _ _ _, r) | (C_accept _, r) => if 0 <=? r then r :: fds else fds
  | (C_close f, _) => drop_one f fds
  | _ => fds
  end.

Definition open_after (l : list (call * Z)) (fds : list Z) : list Z := foldl open_step fds l.

(** The result of the [n]-th system call from [s] on. *)
Definition answer (s : thread) (n : nat) : Z := nth n (map fst (k_calls s)) 0.

(** From [s] to [s'] the calls [l] were made. *)
Definition did (s s' : thread) (l : list (call * Z)) : Prop :=
  k_trace s' = k_trace s ++ map fst l /\ (forall i x, l !! i = Some x -> snd x = answer s i) /\
  (forall n, answer s' n = answer s (length l + n)).

Lemma did_nil s s' : k_trace s' = k_trace s -> k_calls s' = k_calls s -> did s s' [].
Proof. intros Ht Hc. split_and!; [by rewrite app_nil_r|done|]. intros n. unfold answer. by rewrite Hc. Qed.

Lemma did_app s s1 s' l1 l2 : did s s1 l1 -> did s1 s' l2 -> did s s' (l1 ++ l2).
Proof.
  intros (T1 & A1 & N1) (T2 & A2 & N2). split_and!.
  - by rewrite T2, T1, map_app, app_assoc.
  - intros i x Hx. apply lookup_app_Some in Hx as [Hx|[Hi Hx]]; [by apply A1|].
    rewrite (A2 _ _ Hx), N1. f_equal. lia.
  - intros n. rewrite N2, N1. f_equal. rewrite length_app. lia.
Qed.

(** ** A logic of descriptors

    Assertions on the configuration, the sockets and the open descriptors of the
    thread; a computation that returns leads from one to another. *)

Definition assertion := ubwt_config -> ubwt_net -> list Z -> Prop.

Definition triple {A : Type} (P : assertion) (m : M A) (Q : A -> assertion) : Prop :=
  forall s a s' fds, P (config (cur s)) (net (cur s)) fds -> m s = Done a s' ->
  exists l, did s s' l /\ Q a (config (cur s')) (net (cur s')) (open_after l fds).

(** No assertion notices the computation. *)
Definition neutral {A : Type} (m : M A) : Prop := forall P, triple P m (fun _ => P).

Lemma triple_bind {A B : Type} (m : M A) (f : A -> M B) P R Q :
  triple P m R -> (forall a, triple (R a) (f a) Q) -> triple P (m ≫= f) Q.
Proof.
  intros Hm Hf s c s2 fds HP H. unfold mbind, M_bind in H. destruct (m s) as [a s1| |] eqn:E; try discriminate H.
  destruct (Hm _ _ _ _ HP E) as (l1 & D1 & R1). destruct (Hf _ _ _ _ _ R1 H) as (l2 & D2 & Q2).
  exists (l1 ++ l2). split; [by eapply did_app|]. unfold open_after in *. by rewrite foldl_app.
Qed.

(** A neutral first part. *)
Lemma triple_after {A B : Type} (m : M A) (f : A -> M B) P Q :
  neutral m -> (forall a, triple P (f a) Q) -> triple P (m ≫= f) Q.
Proof. intros Hm. apply triple_bind, Hm. Qed.

Lemma triple_weaken {A : Type} (m : M A) (P P' : assertion) (Q Q' : A -> assertion) :
  triple P m Q -> (forall c n k, P' c n k -> P c n k) -> (forall a c n k, Q a c n k -> Q' a c n k) -> triple P' m Q'.
Proof. intros H HP HQ s a s' fds Hs E. destruct (H _ _ _ _ (HP _ _ _ Hs) E) as (l & D & Hq). exists l. eauto. Qed.

Lemma triple_ret {A : Type} (a : A) (P : assertion) (Q : A -> assertion) :
  (forall c n k, P c n k -> Q a c n k) -> triple P (mret a) Q.
Proof. intros H s a' s' fds HP [= <- <-]. exists []. split; [by apply did_nil|by apply H]. Qed.

Lemma triple_stop {A : Type} (m : M A) P Q : (forall s a s', m s <> Done a s') -> triple P m Q.
Proof. intros H s a s' fds _ E. by destruct (H _ _ _ E). Qed.

(** What is read has one value. *)
Lemma triple_read {A B : Type} (g : ubwt_current -> A) (v : A) (f : A -> M B) P Q :
  (forall c k, P (config c) (net c) k -> g c = v) -> triple P (f v) Q -> triple P (current_of g ≫= f) Q.
Proof.
  intros Hg Hf s a s' fds HP H. unfold current_of in H. rewrite get_bind, (Hg _ _ HP) in H. by eapply Hf.
Qed.

Lemma triple_net_is {A : Type} (m : M A) (P : assertion) Q :
  (forall n0, triple (fun c n k => P c n k /\ n = n0) m Q) -> triple P m Q.
Proof. intros H s a s' fds HP. by apply (H (net (cur s))). Qed.

Lemma triple_net f (Q : assertion) :
  triple (fun c n k => Q c (f n) k) (update_net f) (fun _ => Q).
Proof. intros s [] s' fds HQ [= <-]. exists []. split; [by apply did_nil|done]. Qed.

Lemma triple_call c P :
  triple P (sys_call c) (fun r cfg n k => exists k0, k = open_step k0 (c, r) /\ P cfg n k0).
Proof.
  intros s r s' fds HP H. unfold sys_call in H. rewrite modify_bind, get_bind in H. exists [(c, r)].
  destruct s as [cu e rx tx o [|[z e'] calls] tr ck tk sy lg]; simpl in *.
  - injection H as <- <-. split; [|by eexists]. split_and!; [done| |by intros [|n]].
    intros [|i] x; [|by destruct i]. by intros [= <-].
  - rewrite modify_bind in H. destruct (z <? 0); injection H as <- <-; (split; [|by eexists]);
      (split_and!; [done| |by intros n]); (intros [|i] x; [|by destruct i]); by intros [= <-].
Qed.

Lemma neutral_bind {A B : Type} (m : M A) (f : A -> M B) : neutral m -> (forall a, neutral (f a)) -> neutral (m ≫= f).
Proof. intros Hm Hf P. apply triple_after; [done|intros a; apply Hf]. Qed.

Lemma neutral_ret {A : Type} (a : A) : neutral (mret a).
Proof. intros P. by apply triple_ret. Qed.

Lemma neutral_get {A : Type} (g : thread -> A) : neutral (get g).
Proof. intros P s a' s' fds HP [= <- <-]. exists []. split; [by apply did_nil|done]. Qed.

Lemma neutral_modify f :
  (forall s, k_trace (f s) = k_trace s /\ k_calls (f s) = k_calls s /\
    config (cur (f s)) = config (cur s) /\ net (cur (f s)) = net (cur s)) -> neutral (modify f).
Proof.
  intros Hf P s [] s' fds HP [= <-]. destruct (Hf s) as (E1 & E2 & E3 & E4). exists [].
  split; [by apply did_nil|]. by rewrite E3, E4.
Qed.

Lemma neutral_update_cur f :
  (forall c, config (f c) = config c /\ net (f c) = net c) -> neutral (update_cur f).
Proof. intros Hf. apply neutral_modify. intros s. split_and!; [done|done|apply Hf|apply Hf]. Qed.

Lemma neutral_call c : (forall fds r, open_step fds (c, r) = fds) -> neutral (sys_call c).
Proof.
  intros Hc P. eapply triple_weaken; [apply triple_call|done|]. intros r cfg n k (k0 & -> & HP). by rewrite Hc.
Qed.

Lemma neutral_halt {A : Type} e : neutral (@halt A e).
Proof. intros P. by apply triple_stop. Qed.

Ltac neutral_go :=
  repeat lazymatch goal with
  | |- neutral (_ ≫= _) => apply neutral_bind; [|intros ?]
  | |- neutral (mret _) => apply neutral_ret
  | |- neutral (get _) => apply neutral_get
  | |- neutral (current_of _) => apply neutral_get
  | |- neutral net_fd => apply neutral_get
  | |- neutral (halt _) => apply neutral_halt
  | |- neutral (update_cur _) => apply neutral_update_cur; by intros []
  | |- neutral (set_errno _) => apply neutral_modify; by intros []
  | |- neutral (modify _) => apply neutral_modify; by intros []
  | |- neutral (sys_call _) => by apply neutral_call
  | |- neutral (error_report _ _ _) => unfold error_report
  | |- neutral (fatal_error _ _) => unfold fatal_error
  | |- neutral (net_fail _ _) => unfold net_fail
  | |- neutral (when ?b _) => destruct b; unfold when
  | |- neutral (if _ then _ else _) => step_if
  | |- neutral (match _ with _ => _ end) => step_if
  | |- neutral (let _ := _ in _) => cbv zeta
  end.

Lemma neutral_fail t o : neutral (net_fail t o).
Proof. neutral_go. Qed.

Lemma neutral_timeout b f t : neutral (net_timeout_set b f t).
Proof. unfold net_timeout_set. neutral_go. Qed.

Lemma neutral_time : neutral datetime_now_us.
Proof. unfold datetime_now_us. neutral_go. Qed.

Lemma neutral_stage s f : neutral (t_stage_set s f).
Proof. unfold t_stage_set. neutral_go. Qed.

Lemma neutral_report f : neutral (t_report f).
Proof. unfold t_report. neutral_go. Qed.

Lemma neutral_process_init : neutral process_init.
Proof. unfold process_init, current_update. apply neutral_bind; [apply neutral_stage|intros _]. neutral_go. apply neutral_time. Qed.

Lemma neutral_process_destroy : neutral process_destroy.
Proof. unfold process_destroy, current_update. apply neutral_bind; [apply neutral_stage|intros _]. neutral_go. apply neutral_time. Qed.

#[local] Hint Resolve neutral_fail neutral_timeout neutral_time neutral_stage neutral_report neutral_process_init
  neutral_process_destroy neutral_ret : core.

Lemma fatal_stops {A : Type} t o P Q : triple P (@fatal_error A t o) Q.
Proof.
  apply triple_stop. intros s a s'. unfold fatal_error, mbind, M_bind. by destruct (error_report _ _ _ s).
Qed.

(** ** The sockets *)

(** The member that holds the socket of [_net_listener_start] ([tcp]) or of the
    others, and the other member. *)
Definition bound (tcp : bool) (n : ubwt_net) : Z := if tcp then fd_listen n else fd n.
Definition unbound (tcp : bool) (n : ubwt_net) : Z := if tcp then fd n else fd_listen n.

(** One socket is open, besides [fds]. *)
Definition socket_open (cfg : ubwt_config) (tcp : bool) (g : Z) (fds : list Z) : assertion :=
  fun c n k => c = cfg /\ unbound tcp n = g /\ k = bound tcp n :: fds.
Definition socket_none (cfg : ubwt_config) (tcp : bool) (g : Z) (fds : list Z) : assertion :=
  fun c n k => c = cfg /\ unbound tcp n = g /\ k = fds.

Section sockets.
Variable b : build.
Variable en : env.
Variable getaddrinfo : string -> string -> Z -> Z * list addrinfo.
Variable file_bytes : string -> list Z.
Context (cfg : ubwt_config) (g : Z) (fds : list Z).

Lemma connector_open_socket l :
  triple (socket_none cfg false g fds) (connector_open l)
    (fun ok => if ok then socket_open cfg false g fds else socket_none cfg false g fds).
Proof.
  induction l as [|a l IH]; cbn [connector_open]; [by apply triple_ret|].
  eapply triple_bind; [apply triple_call|]. intros f. cbn [open_step]. destruct (Z.ltb_spec f 0) as [Hf|Hf].
  - eapply triple_weaken; [apply IH| |done]. intros c n k (k0 & -> & H). by rewrite (proj2 (Z.leb_gt 0 f)).
  - eapply triple_bind with (R := fun _ => socket_open cfg false g fds); [|intros []; by apply triple_ret].
    eapply triple_weaken; [apply (triple_net _ (socket_open cfg false g fds))| |done].
    intros c n k (k0 & -> & -> & Hg & ->). by rewrite (proj2 (Z.leb_le 0 f)).
Qed.

Lemma listener_open_socket l :
  let tcp := is_tcp (net_l4_proto_value cfg) in
  triple (socket_none cfg tcp g fds) (listener_open b cfg l)
    (fun o => match o with Some _ => socket_open cfg tcp g fds | None => socket_none cfg tcp g fds end).
Proof.
  intros tcp. induction l as [|a l IH]; cbn [listener_open]; [by apply triple_ret|].
  eapply triple_bind; [apply triple_call|]. intros f. cbn [open_step]. destruct (Z.ltb_spec f 0) as [Hf|Hf].
  - eapply triple_weaken; [apply IH| |done]. intros c n k (k0 & -> & H). by rewrite (proj2 (Z.leb_gt 0 f)).
  - set (R := fun c n k => c = cfg /\ unbound tcp n = g /\ bound tcp n = f /\ k = f :: fds).
    apply triple_bind with (R := fun _ => R).
    { fold tcp. unfold R, bound, unbound. destruct tcp;
        (eapply triple_weaken; [apply (triple_net _ R)| |done]);
        intros c n k (k0 & -> & -> & Hg & ->); by rewrite (proj2 (Z.leb_le 0 f)). }
    intros []. eapply triple_bind.
    { eapply triple_weaken; [apply (triple_net _ R)| |done]. by destruct tcp. }
    intros []. apply triple_after; [neutral_go|intros _]. apply triple_after; [neutral_go|intros _].
    apply triple_bind with (R := fun _ => R); [by apply neutral_call|]. intros r. destruct (r <? 0).
    + eapply triple_bind; [apply triple_call|]. intros r'. eapply triple_weaken; [apply IH| |done].
      intros c n k (k0 & -> & -> & Hg & Hb & ->). cbn [open_step drop_one]. by rewrite Z.eqb_refl.
    + apply triple_ret. intros c n k (-> & Hg & Hb & ->). unfold socket_open. by rewrite Hb.
Qed.

Definition net_tcp : bool := truth (im_listener cfg) && is_tcp (net_l4_proto_value cfg).

(** A result of zero or more: the socket is open. *)
Definition started (r : Z) : assertion := fun c n k => 0 <= r -> socket_open cfg net_tcp g fds c n k.

Lemma fail_started t o P : triple P (net_fail t o) started.
Proof. apply triple_after; [neutral_go|intros _]. apply triple_ret. intros c n k _ H. lia. Qed.

Lemma started_0 P : (forall c n k, P c n k -> socket_open cfg net_tcp g fds c n k) -> triple P (mret 0) started.
Proof. intros H. apply triple_ret. intros c n k HP _. by apply H. Qed.

Lemma connector_start_socket :
  net_tcp = false ->
  triple (socket_none cfg false g fds) (_net_connector_start b getaddrinfo) started.
Proof.
  intros Htcp. apply triple_read with (v := cfg); [by intros c k []|].
  destruct (hints_socktype _) as [st|]; [|apply triple_after; [neutral_go|intros _; apply fail_started]].
  apply triple_after; [neutral_go|intros _]. destruct (getaddrinfo _ _ _) as [eai l].
  apply triple_after; [neutral_go|intros _]. destruct (truth eai); [apply fail_started|].
  eapply triple_bind; [apply connector_open_socket|]. intros [|]; [|apply fail_started]. cbn [negb].
  apply triple_after; [neutral_go|intros f]. apply triple_after; [apply neutral_timeout|intros r].
  destruct (r <? 0); [apply fail_started|]. apply started_0. by rewrite Htcp.
Qed.

Lemma listener_start_socket :
  net_tcp = is_tcp (net_l4_proto_value cfg) ->
  triple (socket_none cfg net_tcp g fds) (_net_listener_start b getaddrinfo) started.
Proof.
  intros Htcp. rewrite Htcp. apply triple_read with (v := cfg); [by intros c k []|].
  destruct (hints_socktype _) as [st|]; [|apply triple_after; [neutral_go|intros _; apply fail_started]].
  apply triple_after; [neutral_go|intros _]. destruct (getaddrinfo _ _ _) as [eai l].
  apply triple_after; [neutral_go|intros _]. destruct (truth eai); [apply fail_started|].
  eapply triple_bind; [apply listener_open_socket|]. intros [f|]; [|apply fail_started].
  apply triple_after; [apply neutral_timeout|intros r]. destruct (r <? 0); [apply fail_started|].
  destruct (is_tcp _) eqn:E; [|apply started_0; by rewrite Htcp].
  apply triple_after; [neutral_go|intros fl]. apply triple_after; [neutral_go|intros r'].
  destruct (r' <? 0); [apply fail_started|]. apply started_0. by rewrite Htcp.
Qed.

(** [net_init] returns with one socket open. *)
Lemma net_init_socket :
  triple (socket_none cfg net_tcp g fds) (net_init b en getaddrinfo file_bytes)
    (fun _ => socket_open cfg net_tcp g fds).
Proof.
  apply triple_after; [apply neutral_stage|intros _].
  apply triple_read with (v := truth (im_listener cfg)); [by intros c k [-> _]|].
  apply triple_bind with (R := started).
  { destruct (truth (im_listener cfg)) eqn:E.
    - apply listener_start_socket. unfold net_tcp. by rewrite E.
    - assert (net_tcp = false) as H by (unfold net_tcp; by rewrite E). rewrite H. by apply connector_start_socket. }
  intros r. destruct (Z.ltb_spec r 0) as [Hr|Hr]; [apply fatal_stops|].
  apply (triple_weaken _ (socket_open cfg net_tcp g fds) _ (fun _ => socket_open cfg net_tcp g fds));
    [|intros c n k H; by apply H|done].
  apply triple_read with (v := cfg); [by intros c k []|]. cbv zeta.
  destruct (truth (net_payload_buffer_size cfg)); [|by apply triple_ret].
  repeat (step_if; [apply fatal_stops|]).
  eapply triple_weaken; [apply (triple_net _ (socket_open cfg net_tcp g fds))| |done].
  intros c n k. unfold socket_open, bound, unbound. by destruct net_tcp.
Qed.

(** What [net_destroy] leaves open: a listener closes its second descriptor too. *)
Definition after_destroy : list Z := if truth (im_listener cfg) then drop_one g fds else fds.

Lemma drop_one_swap f : drop_one f (drop_one g (f :: fds)) = drop_one g fds.
Proof.
  cbn [drop_one]. destruct (Z.eqb_spec f g) as [->|]; [done|]. cbn [drop_one]. by rewrite Z.eqb_refl.
Qed.

(** [close], where the descriptors are known. *)
Lemma triple_close {B : Type} f (m : M B) (P : assertion) k Q :
  (forall c n k0, P c n k0 -> k0 = k) ->
  triple (fun c n k' => P c n k /\ k' = drop_one f k) m Q -> triple P (sys_call (C_close f) ;; m) Q.
Proof.
  intros Hk Hm. eapply triple_bind; [apply triple_call|]. intros r. eapply triple_weaken; [apply Hm| |done].
  intros c n k' (k0 & -> & HP). pose proof (Hk _ _ _ HP) as ->. done.
Qed.

Lemma net_destroy_socket :
  triple (socket_open cfg net_tcp g fds) net_destroy (fun _ c n k => c = cfg /\ n = net_zero /\ k = after_destroy).
Proof.
  apply triple_after; [apply neutral_stage|intros _].
  apply triple_read with (v := truth (im_listener cfg)); [by intros c k [-> _]|].
  apply triple_bind with (R := fun _ c n k => c = cfg /\ k = after_destroy);
    [|intros []; eapply triple_weaken; [apply (triple_net _ (fun c n k => c = cfg /\ n = net_zero /\ k = after_destroy))
      |by intros c n k []|done]].
  unfold after_destroy, net_tcp. apply triple_net_is. intros n0.
  destruct (truth (im_listener cfg)); cbn [andb].
  - apply triple_read with (v := n0); [by intros c k []|].
    eapply triple_close with (k := bound (is_tcp (net_l4_proto_value cfg)) n0 :: fds); [by intros c n k [(_ & _ & ->) ->]|].
    eapply triple_close; [by intros c n k [_ ->]|]. apply triple_ret.
    intros c n k [[[(-> & Hu & _) ->] _] ->]. split; [done|].
    unfold bound, unbound in *. destruct (is_tcp _); rewrite Hu; [apply drop_one_swap|]. cbn [drop_one]. by rewrite Z.eqb_refl.
  - apply triple_read with (v := fd n0); [by intros c k [_ ->]|].
    eapply triple_close with (k := fd n0 :: fds); [by intros c n k [(_ & _ & ->) ->]|]. apply triple_ret.
    intros c n k [[(-> & _) _] ->]. split; [done|]. cbn [drop_one]. by rewrite Z.eqb_refl.
Qed.

End sockets.

(** ** The life of the main thread *)

Section life.
Variable b : build.
Variable en : env.
Variable getaddrinfo : string -> string -> Z -> Z * list addrinfo.
Variable file_bytes : string -> list Z.
Variable self : Z.

Definition barriers_of (c : ubwt_config) : list (option Z) :=
  if defined (UBWT_CONFIG_MULTI_THREADED b) then worker_init c else [].

(** The barriers destroyed are those set up. *)
Lemma barriers_destroyed c : worker_destroy c = map (fun o => bool_decide (is_Some o)) (worker_init c).
Proof.
  unfold worker_destroy, worker_init. simpl.
  by destruct (truth (worker_straight_first_count c)), (truth (worker_reverse_first_count c)),
    (truth (bidirectional c)), (truth (asynchronous c)).
Qed.

Lemma construct_socket os operands fds :
  triple (fun _ _ k => k = fds) (_construct b en getaddrinfo file_bytes self os operands)
    (fun r c n k => socket_open c (net_tcp c) 0 fds c n k /\ snd r = barriers_of c).
Proof.
  eapply triple_bind with (R := fun _ _ n k => n = net_zero /\ k = fds).
  { unfold main_current_init.
    apply triple_bind with (R := fun _ _ n k => n = net_zero /\ k = fds).
    { intros s [] s' fds0 HP [= <-]. exists []. split; [by apply did_nil|done]. }
    intros []. apply triple_after; [apply neutral_stage|intros _]. apply triple_after; [apply neutral_time|intros now].
    apply neutral_update_cur. by intros []. }
  intros []. eapply triple_bind with (R := fun _ _ n k => n = net_zero /\ k = fds).
  { apply triple_after; [apply neutral_stage|intros _].
    destruct (config_init b en os operands debug_init) as [[cfg d]|e]; [|by apply triple_stop].
    intros s r s' fds0 HP [= <- <-]. exists []. split; [by apply did_nil|done]. }
  intros d s r s' fds0 [Hn ->]. set (cfg := config (cur s)).
  cut (triple (socket_none cfg (net_tcp cfg) 0 fds)
    (barriers ← current_of (fun c => if defined (UBWT_CONFIG_MULTI_THREADED b) then worker_init (config c) else []);
     net_init b en getaddrinfo file_bytes ;; t_report report_init ;; process_init ;; mret (d, barriers))
    (fun r c n k => socket_open c (net_tcp c) 0 fds c n k /\ snd r = barriers_of c)).
  { intros H. apply H. split; [done|]. rewrite Hn. by destruct (net_tcp cfg). }
  clear. apply triple_read with (v := barriers_of cfg); [by intros c k [<- _]|].
  eapply triple_bind; [apply net_init_socket|]. intros [].
  apply triple_after; [apply neutral_report|intros _]. apply triple_after; [apply neutral_process_init|intros _].
  apply triple_ret. intros c n k [-> H]. done.
Qed.

Lemma destruct_socket d cfg g fds :
  triple (socket_open cfg (net_tcp cfg) g fds) (_destruct b d)
    (fun r c n k => k = after_destroy cfg g fds /\
      r = (debug_destroy d, map (fun o => bool_decide (is_Some o)) (barriers_of cfg)) /\
      c = config_zero /\ n = net_zero).
Proof.
  apply triple_after; [apply neutral_process_destroy|intros _]. apply triple_after; [apply neutral_report|intros _].
  eapply triple_bind; [apply net_destroy_socket|]. intros [].
  apply triple_read with (v := map (fun o => bool_decide (is_Some o)) (barriers_of cfg)).
  { intros c k [<- _]. unfold barriers_of. destruct (defined _); [apply barriers_destroyed|done]. }
  apply triple_bind with (R := fun _ _ _ k => k = after_destroy cfg g fds).
  { apply triple_after; [apply neutral_stage|intros _]. intros s [] s' fds0 HP [= <-]. exists [].
    split; [by apply did_nil|apply HP]. }
  intros []. apply triple_bind with (R := fun _ c n k => k = after_destroy cfg g fds /\ c = config_zero /\ n = net_zero).
  { apply triple_after; [apply neutral_stage|intros _]. intros s [] s' fds0 HP [= <-]. exists [].
    split; [by apply did_nil|done]. }
  intros []. apply triple_ret. by intros c n k (-> & -> & ->).
Qed.

(** The descriptors of the main thread, from [_construct] to [_destruct].  A
    [_construct] that returns leaves exactly one more descriptor open than there were,
    those of addresses that could not be bound being closed again.  If what runs in
    between leaves the configuration and the sockets of the main thread alone, as
    [runtime_do] does in a build with threads, then [_destruct] closes that descriptor,
    zeroes the configuration and the sockets and destroys the barriers that were set
    up, and no others.  A connector ends with the descriptors it began with; a
    listener does not: it closes descriptor 0 as well, the value of the socket it did
    not use. *)
Theorem main_lifecycle os operands s d barriers s1 s1' r s2 fds :
  _construct b en getaddrinfo file_bytes self os operands s = Done (d, barriers) s1 ->
  config (cur s1') = config (cur s1) -> net (cur s1') = net (cur s1) ->
  _destruct b d s1' = Done r s2 ->
  let f := bound (net_tcp (config (cur s1))) (net (cur s1)) in
  exists l1 l2,
    did s s1 l1 /\ open_after l1 fds = f :: fds /\
    did s1' s2 l2 /\
    open_after l2 (f :: fds) = (if truth (im_listener (config (cur s1))) then drop_one 0 fds else fds) /\
    r = (debug_destroy d, map (fun o => bool_decide (is_Some o)) barriers) /\
    config (cur s2) = config_zero /\ net (cur s2) = net_zero.
Proof.
  intros Hc E1 E2 Hd f. destruct (construct_socket os operands fds _ _ _ _ eq_refl Hc) as (l1 & D1 & (_ & Hg & Hk) & Hb).
  simpl in Hb. subst barriers.
  destruct (destruct_socket d (config (cur s1)) 0 fds s1' r s2 (open_after l1 fds)) as (l2 & D2 & Hl & -> & Hz1 & Hz2).
  { by rewrite E1, E2. }
  { done. }
  exists l1, l2. unfold f. rewrite <- Hk. by split_and!.
Qed.

End life.

(** A resolver with two addresses. *)
Definition two_addresses (node service : string) (socktype : Z) : Z * list addrinfo :=
  let a p := {| ai_family := AF_INET; ai_socktype := socktype; ai_protocol := p; ai_addrlen := 16;
    ai_addr := {| ss_family := AF_INET; sa_data := [3; 232; 127; 0; 0; 1] |} |} in
  (0, [a 6; a 0]).
