(* ===== verification/Life.v ===== *)
(** The whole program: [main] of src/main.c in a build with threads.

    [_construct] and [_destruct] (Main.v) run on the state of the main thread, and
    [runtime_do] (Lifecycle.v) on the list of threads whose head is the main thread's
    structure. *)

From S2P Require Import Prelude Bitops Errors Byteorder Layout ConfigData Usage Config ConfigSpec Conn Double Report Stage Thread Net NetSpec Talk Process Main Format Current CurrentSpec CurrentSafety Worker Runtime Lifecycle.

Open Scope list_scope.
Open Scope Z_scope.

(** ** Definitions *)

Section program.
Variable b : build.
Variable en : env.
Variable getaddrinfo : string -> string -> Z -> Z * list addrinfo.
Variable file_bytes : string -> list Z.
(** The identifiers of the main thread and of the workers, their memory and sockets. *)
Variables (self : Z) (tid : nat -> Z) (cell task : nat -> loc) (sock : nat -> Z).

(** [runtime_do], when the threads act in the order [es]: the structure of the main
    thread afterwards, and the sockets of the workers that were closed.  [None]: the
    actions [es] cannot happen, or the main thread is not done. *)
Definition runtime (boss : ubwt_current) (es : list event) : option (mem (ubwt_current * list Z)) :=
  match runtime_do b (config boss) with
  | Val plan =>
      r ← team_run boss tid cell task sock es (team_start boss task plan);
      match r with
      | Val s =>
          match todo s, data_at (memory s) head with
          | [], Some h => Some (Val (h, closed (memory s)))
          | _, _ => None
          end
      | End e => Some (End e)
      | Undefined => Some Undefined
      | Loops => Some Loops
      end
  | End e => Some (End e)
  | Undefined => Some Undefined
  | Loops => Some Loops
  end.

(** The result of a program that returns: the debug stream, the barriers that were
    destroyed, and the sockets of the workers that were closed. *)
Definition main (os : list cmdopt) (operands : list string) (es : list event) (s : thread)
    : option (mem (out (debug_state * list bool * list Z))) :=
  match _construct b en getaddrinfo file_bytes self os operands s with
  | Done (d, barriers) s =>
      r ← runtime (cur s) es;
      Some ('(h, fds) ← r; Val ((r ← _destruct b d; mret (r, fds)) (s {{ cur := h }})))
  | Halted e s => Some (Val (Halted e s))
  | Blocked s => Some (Val (Blocked s))
  end.

End program.

(** ** What the initialisers leave alone *)

(** The identifier, the flags and the configuration of the thread stay. *)
Definition steady {A : Type} (m : M A) : Prop :=
  forall s a s', m s = Done a s' ->
    worker_id (cur s') = worker_id (cur s) /\ worker_flags (cur s') = worker_flags (cur s) /\ config (cur s') = config (cur s).

Lemma steady_bind {A B : Type} (m : M A) (f : A -> M B) : steady m -> (forall a, steady (f a)) -> steady (m ≫= f).
Proof.
  intros Hm Hf s c s2 H. unfold mbind, M_bind in H. destruct (m s) as [a s1| |] eqn:E; [|done..].
  destruct (Hm _ _ _ E) as (E1 & E2 & E3). destruct (Hf _ _ _ _ H) as (F1 & F2 & F3). by rewrite F1, F2, F3.
Qed.

Lemma steady_modify f :
  (forall s, worker_id (cur (f s)) = worker_id (cur s) /\ worker_flags (cur (f s)) = worker_flags (cur s) /\
    config (cur (f s)) = config (cur s)) -> steady (modify f).
Proof. by intros H s [] s' [= <-]. Qed.

Lemma steady_ret {A : Type} (a : A) : steady (mret a).
Proof. by intros s a' s' [= <- <-]. Qed.

Lemma steady_get {A : Type} (g : thread -> A) : steady (get g).
Proof. by intros s a s' [= <- <-]. Qed.

Lemma steady_halt {A : Type} e : steady (@halt A e).
Proof. by intros s a s'. Qed.

Ltac steady_go :=
  repeat lazymatch goal with
  | |- steady (_ ≫= _) => apply steady_bind; [|intros ?]
  | |- steady (mret _) => apply steady_ret
  | |- steady (get _) => apply steady_get
  | |- steady (current_of _) => apply steady_get
  | |- steady net_fd => apply steady_get
  | |- steady (halt _) => apply steady_halt
  | |- steady (update_net _) => apply steady_modify; by intros [[]]
  | |- steady (update_cur _) => apply steady_modify; by intros [[]]
  | |- steady (set_errno _) => apply steady_modify; by intros []
  | |- steady (modify _) => apply steady_modify; by intros []
  | |- steady (sys_call _) => unfold sys_call
  | |- steady (error_report _ _ _) => unfold error_report
  | |- steady (fatal_error _ _) => unfold fatal_error
  | |- steady (net_fail _ _) => unfold net_fail
  | |- steady (net_timeout_set _ _ _) => unfold net_timeout_set
  | |- steady datetime_now_us => unfold datetime_now_us
  | |- steady (t_stage_set _ _) => unfold t_stage_set
  | |- steady (t_report _) => unfold t_report
  | |- steady (when ?b _) => destruct b; unfold when
  | |- steady (if _ then _ else _) => step_if
  | |- steady (match _ with _ => _ end) => step_if
  | |- steady (let _ := _ in _) => cbv zeta
  end.

Lemma steady_connector_open l : steady (connector_open l).
Proof. induction l as [|a l IH]; cbn [connector_open]; steady_go; exact IH. Qed.

Lemma steady_listener_open b cfg l : steady (listener_open b cfg l).
Proof. induction l as [|a l IH]; cbn [listener_open]; steady_go; exact IH. Qed.

Lemma steady_net_init b en gai bytes : steady (net_init b en gai bytes).
Proof.
  unfold net_init, net_im_listener, _net_listener_start, _net_connector_start.
  steady_go; (apply steady_connector_open || apply steady_listener_open).
Qed.

Lemma steady_process_init : steady process_init.
Proof. unfold process_init, Thread.current_update. steady_go. Qed.

(** A computation that returns ran both its parts. *)
Lemma bind_Done_inv {A B : Type} (m : M A) (f : A -> M B) s c s2 :
  (m ≫= f) s = Done c s2 -> exists a s1, m s = Done a s1 /\ f a s1 = Done c s2.
Proof. unfold mbind, M_bind. destruct (m s) as [a s1| |]; [|done..]. intros H. by exists a, s1. Qed.

Lemma current_init_steady b self s a s' :
  defined (UBWT_CONFIG_MULTI_THREADED b) = true -> main_current_init b self s = Done a s' ->
  worker_id (cur s') = self /\ worker_flags (cur s') = 0.
Proof.
  intros Hmt H. unfold main_current_init in H. rewrite Hmt in H. apply bind_Done_inv in H as ([] & s1 & [= <-] & H).
  match type of H with ?m ?s1 = _ => assert (steady m) as Hs by steady_go end.
  by destruct (Hs _ _ _ H) as (-> & -> & _).
Qed.

Lemma config_init_steady b en os operands d s d' s' :
  main_config_init b en os operands d s = Done d' s' ->
  exists cfg, config_init b en os operands d = Ok (cfg, d') /\ config (cur s') = cfg /\
    worker_id (cur s') = worker_id (cur s) /\ worker_flags (cur s') = worker_flags (cur s).
Proof.
  intros H. apply bind_Done_inv in H as ([] & s1 & E & H).
  assert (steady (t_stage_set UBWT_STAGE_STATE_INIT_CONFIG 0)) as Hs by steady_go. destruct (Hs _ _ _ E) as (<- & <- & _).
  apply bind_Done_inv in H as ([cfg d1] & s2 & E2 & H).
  destruct (config_init b en os operands d) as [[cfg' d2]|e]; [|done]. injection E2 as <- <- <-.
  injection H as <- <-. by exists cfg'.
Qed.

(** What [_construct] leaves. *)
Lemma construct_steady b en gai bytes self os operands s d barriers s1 :
  defined (UBWT_CONFIG_MULTI_THREADED b) = true ->
  _construct b en gai bytes self os operands s = Done (d, barriers) s1 ->
  config_init b en os operands debug_init = Ok (config (cur s1), d) /\
    worker_id (cur s1) = self /\ worker_flags (cur s1) = 0.
Proof.
  intros Hmt H. apply bind_Done_inv in H as ([] & s2 & E1 & H). destruct (current_init_steady _ _ _ _ _ Hmt E1) as [Hw Hf].
  apply bind_Done_inv in H as (d' & s3 & E2 & H). destruct (config_init_steady _ _ _ _ _ _ _ _ E2) as (cfg & Hc & Hcfg & Hw2 & Hf2).
  apply bind_Done_inv in H as (bs & s4 & [= <- <-] & H). apply bind_Done_inv in H as ([] & s5 & E3 & H).
  destruct (steady_net_init _ _ _ _ _ _ _ E3) as (Hw3 & Hf3 & Hc3).
  apply bind_Done_inv in H as ([] & s6 & E5 & H).
  assert (steady (t_report report_init)) as Hr by steady_go. destruct (Hr _ _ _ E5) as (Hw5 & Hf5 & Hc5).
  apply bind_Done_inv in H as ([] & s7 & E4 & H).
  destruct (steady_process_init _ _ _ E4) as (Hw4 & Hf4 & Hc4). injection H as <- _ <-.
  rewrite Hw4, Hf4, Hc4, Hw5, Hf5, Hc5, Hw3, Hf3, Hc3, Hcfg. split; [done|]. by rewrite Hw2, Hf2.
Qed.

(** ** The life of the program *)

Section life.
Context (b : build) (en : env) (gai : string -> string -> Z -> Z * list addrinfo) (bytes : string -> list Z).
Context (self : Z) (tid : nat -> Z) (cell task : nat -> loc) (sock : nat -> Z).
Context (Hmt : defined (UBWT_CONFIG_MULTI_THREADED b) = true).
Context (tid_self : forall i, tid i <> self) (tid_inj : Inj (=) (=) tid).
Context (cell_head : forall i, cell i <> head) (cell_inj : Inj (=) (=) cell).
Context (task_inj : Inj (=) (=) task).

(** What the threads do to the main thread's structure, and to the workers' sockets. *)
Lemma runtime_ok boss es r :
  config_wf b (config boss) -> worker_id boss = self -> worker_flags boss = 0 ->
  runtime b tid cell task sock boss es = Some r ->
  (exists e x, e ∈ es /\ refuses (config boss) sock e x /\ r = End x) \/
  exists h fds, r = Val (h, fds) /\ config h = config boss /\ net h = net boss /\
    Z.of_nat (length fds) = worker_count (config boss) /\
    (truth (im_connector (config boss)) = true -> fds = map sock (seq 0 (Z.to_nat (worker_count (config boss))))).
Proof.
  intros Hwf Hid Hfl. unfold runtime. destruct (plan_is b _ Hwf Hmt) as (E & _). rewrite E.
  destruct (team_run _ _ _ _ _ _ _) as [r0|] eqn:Hr; [|done]. cbn [mbind option_bind].
  assert (flags_ok head boss) as Hb.
  { unfold flags_ok. rewrite Hfl. split; [split; vm_compute; congruence|by rewrite bool_decide_eq_false_2 by (intros Hh; by apply Hh)]. }
  assert (forall i, tid i <> worker_id boss) as Hne by (by rewrite Hid).
  destruct (start_ok boss tid cell task sock Hne tid_inj cell_head cell_inj task_inj Hb b Hwf Hmt _ E) as (H & Hp & _).
  destruct (team_run_ok boss tid cell task sock Hne tid_inj cell_head cell_inj task_inj Hb b Hwf Hmt es _ _ H Hp Hr)
    as [(s & -> & H' & Hp')|(e & x & He & Hx & ->)]; [|intros [= <-]; left; by exists e, x].
  destruct (todo s) eqn:Hd; [|done]. destruct (inv_head _ _ _ _ _ _ _ H') as (h & Hh & _ & Hc & Hn). rewrite Hh. intros [= <-]. right.
  destruct (team_end boss tid cell task sock s Hp' H' Hd) as (_ & _ & _ & Hl & Hs).
  destruct (total_bounds boss b Hwf Hmt) as [_ Ht]. exists h, (closed (memory s)).
  split_and!; [done|done|done|by rewrite Hl|exact Hs].
Qed.


End life.

(** ** A concrete run *)

(** A connector with a worker for each direction; its socket is 5. *)
Definition connector_thread : thread := (tcp_thread false) {{ k_calls := [(0, E0); (5, E0); (0, E0)] }}.

Notation demo_main := (main build_linux env_ok two_addresses (fun _ => []) 7 demo_tid demo_cell demo_task demo_sock
  [O_A; O_W "2"] ["connector"; "10.0.0.1"]%string demo_events connector_thread).

